(* ===== verification/_CoqProject ===== *)
-Q . S2P
Prelude.v
GoRuntime.v
GoStrings.v
GoFloat.v
RustStd.v
GoTime.v
Regexp.v
PbResource.v
PbAgent.v
PbMemory.v
PbStorage.v
PbJob.v
PbControl.v
Grpc.v
World.v
Registry.v
RegistrySafety.v
RegistryApi.v
Validator.v
Metrics.v
Agent.v
AgentFacts.v
Heartbeat.v
HeartbeatBounds.v
AgentHost.v
AgentClient.v
AgentMain.v
Json.v
RestApi.v
RestText.v
TlsReload.v
TlsSteps.v
AgentGrpc.v
MetricsSafety.v
FailureDetector.v
ControlPlane.v
Server.v
System.v
Shutdown.v
Leases.v
Cluster.v
Sessions.v
Witnesses.v
