(* ===== verification/Prelude.v ===== *)
(** * nmonit: the control plane and the node agent

    A model of the Go control plane of this repository ([src/control-plane]) and the theorems
    about it, and of the Rust agent of a node ([src/agent]), by itself and together with the
    control plane.  The control plane is one process with two servers: a gRPC server that compute
    nodes register with and send heartbeats to, and an HTTP server that lists the nodes, their
    liveness and the process's metrics.  Both work on one registry of nodes behind a mutex.
    TLS certificates are reloaded from disk while the process runs.  The agent discovers its
    machine's resources, registers, opens a heartbeat stream, and reconnects when it ends.

    ** The model

    A Go function is a computation [Go World A] ([GoRuntime.v]): it takes the shared state and
    returns a value or a panic, with the state it leaves.  The shared state [World]
    ([World.v]) is the registry's node map, the metrics package's cache of method names, the
    trace of calls made on metrics and on the log (a metric's current value is read off it),
    and a counter of readings of the outside world.  What Go leaves open is an environment,
    a class that the theorems quantify over: the clock and the order of a [range] over a map
    ([GoEnv]), gRPC's contexts, metadata and status codes ([GrpcLib]), [proto.CloneOf]
    ([ProtoLib]), the file system and the parsing of certificates ([FileSystem]), the local
    time zone ([LocalZone]), the path the compiler records for a source file ([BuildInfo]), the
    decimal text of a [float64] ([FloatText]), for the agent which strings are metadata
    values ([Tonic]), and for the two together the context a call arrives with and when
    response headers are sent ([Transport]), and for the shutdown when gRPC's graceful stop
    returns and what it still admits ([GracefulGrpc]).
    Classes named [...Laws] state what the documentation of the library promises: the clock
    does not run backwards, a [range] visits every entry once, a clone equals its original,
    [status.Code] reads the code of a status error, a float can be read back from its text,
    headers go out with the first response or the status, a graceful stop refuses new calls and
    waits for the pending ones.  Unsigned and signed 64-bit integers are
    [Z], with the wrap-around written out where the sources compute ([wrapU64], [wrapI64]);
    a Go string is a byte string, and [runes] decodes UTF-8 as Go does.

    A method of the registry holds the mutex for its whole body, so it is one step, and an
    interleaving of methods is a sequence of steps.  A heartbeat stream blocks in the middle of
    its handler, so it is a state machine whose steps are the blocking calls and the calls
    of the registry; [System.v] interleaves any number of streams with everything else.  A load
    of certificates holds its lock only at the end, so besides being a function it is a
    sequence of steps that other loads may come between ([TlsSteps.v]).

    The agent's asynchronous functions are programs that make a call and go on with its reply
    ([prog] in [AgentClient.v]), its main loop and the task that reads responses are state
    machines; what the operating system answers is a record of readings ([Machine]).

    ** The files

    - [Prelude.v] (this file): shared tactics, the hint databases [nmonit] and [nmonit_rw],
      lemmas on lists, maps and options.
    - [GoRuntime.v], [GoStrings.v], [GoFloat.v], [GoTime.v], [Regexp.v]: what the sources use of the
      language and its standard library: the monad, integers and durations; [strings],
      [filepath.Base], [subtle.ConstantTimeCompare] and UTF-8; [float64] and that sizes in
      gigabytes are finite; RFC 3339 formatting and
      parsing; regular expressions as syntax with a relational meaning ([matches]) and a
      matcher by derivatives ([matchb]) proved equivalent.
    - [RustStd.v]: the same for Rust: lines and words of a text, trimming, casts, saturating
      subtraction, [Result].
    - [PbResource.v], [PbAgent.v], [PbMemory.v], [PbStorage.v], [PbJob.v], [PbControl.v]: the
      messages and enumerations of [gen/compute/v1/*.pb.go], a record per message with its
      [Reset] value and its nil-safe getters, an inductive type per enumeration with its
      numbers and names.
    - [Grpc.v], [World.v]: errors, the gRPC and protobuf interfaces, the shared state.
    - [Registry.v] ([internal/registry/registry.go]): [NodeRegistry]'s methods and what each
      does.  [RegistrySafety.v]: the registry as a transition system ([reg_step],
      [reachable]), its invariant, connection identifiers and the task gauge.
      [FailureDetector.v]: which nodes the cleanup removes, over timed sequences of calls.
      [RegistryApi.v]: the interface the other components are proved against
      ([RegistryOps], [RegistryLaws]), with the registry as its instance.
    - [Validator.v] ([internal/validator/validator.go]): the checks of request fields, and
      what each accepts in terms of bytes, lengths and ranges.
    - [Metrics.v] ([internal/metrics/metrics.go]): the declared metrics, [sanitizeMethod] with
      its cache, the unary and stream interceptors.  [MetricsSafety.v]: the predicates on the
      shared state that every operation keeps because its parts do ([TraceInv],
      [RequestInv]); so no metric call is one the Prometheus library panics on.
    - [Agent.v] ([internal/agent/agent.go]): authentication, the chain of checks with its
      audit log, the unary handlers.  [AgentFacts.v]: what they accept, answer and log.
    - [Heartbeat.v] ([AgentServer.Heartbeat] of the same file): [hb_handler] is the handler,
      one step per blocking call; [hb_step] adds the goroutine that sends acknowledgements.
      [HeartbeatBounds.v]: how many steps a stream takes.
    - [RestApi.v] ([internal/restapi/restapi.go]): the HTTP handlers and response shapes.
      [Json.v], [RestText.v]: the JSON text of what they answer, under the names of the struct
      tags, and a reader of it.
    - [TlsReload.v] ([internal/tlsreload/reloader.go]): the certificate reloader.
      [TlsSteps.v]: overlapping loads.
    - [AgentGrpc.v] ([gen/compute/v1/agent_grpc.pb.go]): the methods with their request and
      answer types, service description, dispatch through an interceptor, client stubs.
    - [ControlPlane.v] ([cmd/control-plane/main.go]): flags, start-up, keepalive and time-outs,
      interceptor chain, routes, TLS configurations, serving goroutines, what the main
      goroutine does after the start-up ([main_pc], [on_signal], [main_return]).
    - [Server.v]: a unary call from dispatcher to handler ([serve_unary]), and the stream
      interceptor cut in two around a running handler.
    - [System.v]: the whole process from its start ([sys_started], [sys_step]): calls, streams,
      HTTP requests, cleanup, reloads and polls in any order; [sys_does] and [sys_trace] say
      which of them a step is.
    - [Shutdown.v]: the main goroutine, in steps, next to the rest of the process
      ([daemon_step]): signals, and the shutdown.
    - [Leases.v]: the process's abstract specification, a table of leases ([lease_step]), and that
      the process implements it.
    - [AgentHost.v] ([agent/src/resources.rs], [gpu.rs]): what an agent reports of its machine.
      [AgentClient.v] ([heartbeat.rs]): [connect], the messages, the response reader.
      [AgentMain.v] ([main.rs]): arguments, rounds of connecting, the event loop, waiting.
    - [Cluster.v]: an agent and the control plane, with the streams between them ([cl_step]).
      [Sessions.v]: what arrives of an agent's streams, whatever the transport does.
    - [Witnesses.v]: the theorems with hypotheses applied to concrete inputs.

    Names are the sources'; a method [T.m] is [T_m] where [m] alone would clash, a field of a
    message [M] is [M_Field].  A nil pointer is [None], an absent [error] too.

    ** What the theorems show

    - The registry: what each method does to the node map, the metrics and nothing else
      ([Register_spec], [UpdateHeartbeat_spec], [GetAll_spec],
      [RemoveIfConnectionMatches_spec], [cleanup_tick_spec]); the invariant of every
      reachable state ([registry_invariant]); as a failure detector, that a silent node goes
      and a beating one stays ([silent_node_evicted], [beating_node_survives]); that a late
      removal by an old stream is harmless while its node stayed registered
      ([old_connection_removes_nothing]) and is not when the node had disappeared in between
      ([reused_connection_removes_new_node]); when the task gauge is right
      ([tasks_gauge_preserved], [tasks_gauge_stale_after_reregister]).
    - The agent service: who is let in ([validateBearerToken_spec], [heartbeat_unauthenticated]),
      exactly which requests are accepted ([ValidateStringID_spec],
      [ValidateContainerImage_spec], [numeric_checks_spec], [command_env_checks_spec]), the
      first failing check and its audit entry ([validateAll_first_failure],
      [trimToRepoPath_spec]), the handlers ([AgentServer_Register_spec], [ExecuteTask_spec],
      [AllocateMemory_spec], [FreeMemory_spec]), heartbeat streams under any interleaving
      ([heartbeat_acks], [heartbeat_early_end]), undisturbed ([heartbeat_session_spec]), and
      that they end ([heartbeat_terminates]).
    - A whole call, through dispatcher and interceptors: what it answers, counts and changes in
      every case ([served_call_spec]), and that it keeps the types of the state and of the
      messages ([served_call_typed]).
    - The whole process: it implements the lease table, each step being at most one event, and
      registrations, renewals and departures being those of the step's own caller, who has the
      credentials ([process_implements_leases], by [causes]), so that whatever is registered was vetted
      ([registered_nodes_vetted]); it stays within the registry's transition system
      ([system_refines_registry]); its own invariant, on the label cache, the metric calls, the
      gauge of open streams and the reloader ([process_invariant]); and that reconnecting while
      an old stream lingers can lose the new registration, from any state
      ([old_stream_removes_new_node]).  The first of these goes through the calls of the registry
      a run makes, with their times ([timed_run]), so [silent_node_evicted] and
      [beating_node_survives] apply to runs of the process too.
    - Metrics: bounded labels up to two free segments ([sanitizeMethod_spec],
      [served_methods_have_labels]), what the interceptors count, also on panics and refusals
      ([UnaryServerInterceptor_spec], [StreamServerInterceptor_spec],
      [StreamServerInterceptor_split], [rejected_calls_are_counted]), well-formed calls only
      ([metric_calls_accepted]).
    - The HTTP API: authorisation ([RequireAPIKey_spec], [routes_protected]), the node listing
      ([NodesHandler_spec]), and that a client reads back from its text what was listed
      ([listing_text_roundtrip], with [last_beat_roundtrip] for the time stamps).
    - TLS: outcomes of a reload ([Reload_spec], [Reload_unchanged_noop]), the reloader can
      always serve ([reloader_serves]) and catches up ([Reload_converges]); overlapping loads
      never mix ([overlapping_loads_are_whole]) but can end on the older files
      ([overlapping_loads_roll_back]), the steps being the function when nothing overlaps
      ([run_load_is_load]); the start-up never serves plaintext against [--require-tls]
      ([startup_tls]); client certificates are demanded by the gRPC server only
      ([mtls_covers_grpc_only]).
    - The daemon's end: in which order it stops its parts, where it blocks (as long as a
      stream is open, for one) and how it gets to its return ([main_shuts_down_in_order]); that a
      termination can be lost behind a hang-up ([termination_signal_lost]).
    - The agent: the devices it reads off the mount table ([discover_storage_text]), ranges of
      what it measures ([collect_utilization_bounds]), the stages of connecting and their
      errors ([connect_spec]), the queue of instructions ([reader_delivers]), the numbering of
      its messages ([agent_messages]), that it gives up when no stream opens
      ([main_gives_up]), and that with part of the TLS paths it connects in plaintext
      ([partial_tls_is_plaintext]).
    - The agent with the control plane: what its registration does, and that all its heartbeats
      would pass the checks ([agent_registration]); and that no heartbeat stream ever gets
      going, since each side waits for the other ([heartbeat_stream_never_opens]; with headers
      sent early it would, [early_headers_connect] in [Witnesses.v]).  For every transport: that
      messages arrive in order and numbered, and that a stream is about its own node only
      ([agent_streams]).

    ** Fuel

    Functions recurse on their data, with a few exceptions that take the length of their text
    as fuel: the UTF-8 decoder [runes] and the JSON encoder's [escape], where each round
    consumes at least one byte (the lemmas on [runes] in [GoStrings.v] need no hypothesis on
    the fuel, [unquote_escape] only that it is the length), and the JSON decoder, where a value
    nested to some depth has a longer text ([decode_encode]); in [RustStd.v], [chars] and
    [trim_start_matches], where each round takes a character or a prefix of at least one byte.
    The agent's main loop is a step function; a round of connecting makes at most nine calls
    ([connect_bounded]).  Goroutines that run for ever
    ([StaleNodeCleanup], [Watch]) recurse on the list of the events they receive; the main
    goroutine, which blocks, is a step relation.

    ** What is not modelled

    The protobuf and Prometheus formats, the transports and TLS itself (keepalive and time-outs are
    the values given to the libraries; of the graceful stop, when it returns and what it admits
    are the documented laws [GracefulLaws]), log output.  A metric's
    value is an exact number where Prometheus keeps a [float64]; the histogram's buckets and the
    conversion of a duration to seconds are left out (an observation keeps its nanoseconds).
    The data race freedom of the mutexes is assumed, as is that a heartbeat stream's [Recv] and
    [Send] return what the environment chooses.  In [System.v] a unary call is one step: only
    its registry method touches what other calls read.  The decimal text of a [float64] is an
    interface.  The generated code of the memory, storage, job and control services is covered
    for its messages only: no server implements them here.

    Of the agent: log output with [--log-level]; [sysinfo], NVML and [tonic] themselves, whose
    readings and replies are given; an interrupt while the process connects or sleeps, which the
    runtime handles; the tick it consumes on connecting.  Its counters wrap around, as in a
    release build (a debug build panics).
    In [Cluster.v] a unary call of the agent is one step, and the reader's queue is left out: no
    acknowledgement asks for anything ([agent_streams]). *)
From Stdlib Require Export ZArith Lia.
From stdpp Require Export base tactics option list strings gmap sets fin_maps pretty.

#[global] Arguments String.append : simpl nomatch.

Declare Scope nmonit_scope.
Delimit Scope nmonit_scope with nm.
Open Scope Z_scope.

(** ** Hint databases

    [nmonit] collects the lemmas that close the routine goals of the components
    (frames, ranges, membership); [nmonit_rw] the equations [nm_rw] rewrites with. *)
Create HintDb nmonit.
Create Rewrite HintDb nmonit_rw.

(** Split every hypothesis that is a conjunction, an existential or a pair equation. *)
Ltac nm_split :=
  repeat match goal with
  | H : _ /\ _ |- _ => destruct H
  | H : exists _, _ |- _ => destruct H
  | H : (_, _) = (_, _) |- _ => injection H as H; subst
  | H : Some _ = Some _ |- _ => injection H as H; subst
  | H : Some _ = None |- _ => discriminate H
  | H : None = Some _ |- _ => discriminate H
  end.

(** Case analysis on the scrutinee of an [if] or a [match] of the goal, repeatedly. *)
Ltac nm_cases :=
  repeat (first [ case_decide | case_match ]; try discriminate).

(** Turn boolean (in)equalities on integers and booleans into propositions. *)
Ltac nm_bool :=
  rewrite ?orb_true_iff, ?orb_false_iff, ?andb_true_iff, ?andb_false_iff, ?negb_true_iff,
    ?negb_false_iff, ?Z.ltb_lt, ?Z.ltb_ge, ?Z.leb_le, ?Z.leb_gt, ?Z.eqb_eq, ?Z.eqb_neq,
    ?Z.gtb_gt, ?Z.gtb_ltb in *.

Ltac nm_rw := autorewrite with nmonit_rw in *.

(** ** Finite maps *)
Section maps.
Context {V : Type}.
Implicit Types (m : gmap string V).

(** An order in which a [range] statement may visit the entries of a map. *)
Definition is_range (l : list (string * V)) m : Prop := l ≡ₚ map_to_list m.

Lemma is_range_elem l m k v : is_range l m -> (k, v) ∈ l <-> m !! k = Some v.
Proof. intros ->. apply elem_of_map_to_list. Qed.

Lemma is_range_NoDup l m : is_range l m -> NoDup l.*1.
Proof. intros Hl. rewrite Hl. apply NoDup_fst_map_to_list. Qed.

Lemma is_range_length l m : is_range l m -> length l = size m.
Proof. intros ->. apply length_map_to_list. Qed.

(** Deleting a list of keys. *)
Lemma lookup_foldl_delete (ks : list string) m i :
  foldl (fun m k => delete k m) m ks !! i = if decide (i ∈ ks) then None else m !! i.
Proof.
  revert m. induction ks as [|k ks IH]; intros m; simpl.
  - done.
  - rewrite IH. destruct (decide (k = i)) as [<-|Hne].
    + rewrite lookup_delete_eq. rewrite (decide_True (P := k ∈ k :: ks)) by left.
      by case_decide.
    + rewrite lookup_delete_ne by done.
      destruct (decide (i ∈ ks)) as [Hin|Hin].
      * rewrite decide_True by (by right). done.
      * rewrite decide_False; [done|]. intros [->|?]%elem_of_cons; done.
Qed.

(** Deleting, while ranging over a map, the entries that satisfy [P] is filtering it. *)
Lemma foldl_delete_filter (P : string * V -> Prop) `{!forall x, Decision (P x)} l m :
  is_range l m ->
  foldl (fun m k => delete k m) m (filter P l).*1 = filter (fun x => ~ P x) m.
Proof.
  intros Hl. apply map_eq. intros i. rewrite lookup_foldl_delete, map_lookup_filter.
  case_decide as Hin.
  - apply list_elem_of_fmap in Hin as ([k v] & -> & Hin).
    apply list_elem_of_filter in Hin as [HP Hin]. apply (is_range_elem _ _ _ _ Hl) in Hin.
    simpl. rewrite Hin. simpl. by rewrite option_guard_False by tauto.
  - destruct (m !! i) as [v|] eqn:E; [|done]. simpl.
    rewrite option_guard_True; [done|]. intros HP. apply Hin.
    apply list_elem_of_fmap. exists (i, v). split; [done|].
    apply list_elem_of_filter. split; [done|]. by apply (is_range_elem _ _ _ _ Hl).
Qed.

Lemma alter_Some_insert (f : V -> V) m i x :
  m !! i = Some x -> alter f i m = <[i := f x]> m.
Proof.
  intros H. apply map_eq. intros j. destruct (decide (i = j)) as [<-|Hne].
  - by rewrite lookup_alter_eq, lookup_insert_eq, H.
  - by rewrite lookup_alter_ne, lookup_insert_ne.
Qed.

Lemma alter_None m (f : V -> V) i : m !! i = None -> alter f i m = m.
Proof.
  intros H. apply map_eq. intros j. destruct (decide (i = j)) as [<-|Hne].
  - by rewrite lookup_alter_eq, H.
  - by rewrite lookup_alter_ne.
Qed.

Lemma size_alter m (f : V -> V) i : size (alter f i m) = size m.
Proof.
  destruct (m !! i) as [x|] eqn:E.
  - rewrite (alter_Some_insert _ _ _ x) by done. apply map_size_insert_Some. eauto.
  - by rewrite alter_None.
Qed.

Lemma is_range_filter (P : string * V -> Prop) `{!forall x, Decision (P x)} l m :
  is_range l m -> is_range (filter P l) (filter P m).
Proof.
  intros Hl. apply NoDup_Permutation.
  - apply NoDup_filter. rewrite Hl. apply NoDup_map_to_list.
  - apply NoDup_map_to_list.
  - intros [k v]. rewrite list_elem_of_filter, elem_of_map_to_list, map_lookup_filter_Some.
    rewrite (is_range_elem _ _ _ _ Hl). tauto.
Qed.

(** How many entries a filter removes. *)
Lemma size_filter_split (P : string * V -> Prop) `{!forall x, Decision (P x)} l m :
  is_range l m ->
  size m = (size (filter (fun x => ~ P x) m) + length (filter P l))%nat.
Proof.
  intros Hl. rewrite (is_range_length _ _ (is_range_filter P _ _ Hl)), Nat.add_comm, <- map_size_disj_union.
  - f_equal. symmetry. apply map_filter_union_complement.
  - apply map_disjoint_filter_complement.
Qed.
End maps.

(** Two sums over permuted lists agree. *)
Lemma sum_list_with_perm {A} (f : A -> nat) (l k : list A) :
  l ≡ₚ k -> sum_list_with f l = sum_list_with f k.
Proof. induction 1; simpl; lia. Qed.

(** The first element of a list that fails a check, with its index. *)
Fixpoint find_fail {A E} (check : A -> option E) (i : nat) (l : list A) : option (nat * A * E) :=
  match l with
  | [] => None
  | a :: l => match check a with
              | Some e => Some (i, a, e)
              | None => find_fail check (S i) l
              end
  end.

Lemma find_fail_None {A E} (check : A -> option E) i l :
  find_fail check i l = None <-> Forall (fun a => check a = None) l.
Proof.
  revert i; induction l as [|a l IH]; intros i; simpl; [by split|].
  rewrite Forall_cons. destruct (check a) eqn:E1.
  - split; [done|]. intros [? _]. congruence.
  - rewrite IH. tauto.
Qed.

Lemma find_fail_Some {A E} (check : A -> option E) i l j a e :
  find_fail check i l = Some (j, a, e) <->
  exists l1 l2, l = l1 ++ a :: l2 /\ j = (i + length l1)%nat /\ check a = Some e
           /\ Forall (fun b => check b = None) l1.
Proof.
  revert i; induction l as [|b l IH]; intros i; simpl.
  - split; [done|]. intros ([|??] & ? & ? & _); discriminate.
  - destruct (check b) eqn:E1.
    + split.
      * intros [= <- <- <-]. exists [], l. simpl. rewrite Nat.add_0_r. auto.
      * intros ([|c l1] & l2 & Heq & -> & Hc & Hall); simpl in *; injection Heq as -> ->.
        -- rewrite Nat.add_0_r. congruence.
        -- inversion Hall; congruence.
    + rewrite IH. split.
      * intros (l1 & l2 & -> & -> & Hc & Hall). exists (b :: l1), l2. simpl.
        repeat split; auto; lia.
      * intros ([|c l1] & l2 & Heq & -> & Hc & Hall); simpl in *; injection Heq as -> ->.
        -- congruence.
        -- inversion Hall; subst. exists l1, l2. repeat split; auto; lia.
Qed.
