(* ===== verification/GoRuntime.v ===== *)
(** What the Go sources use of the language and its runtime: machine integers,
    errors and panics, the state monad the handlers run in, the clock and the
    iteration order of maps. *)
From S2P Require Import Prelude.

(** ** Machine integers *)
Definition maxUint64 : Z := 2 ^ 64 - 1.
Definition maxInt64 : Z := 2 ^ 63 - 1.
Definition minInt64 : Z := - 2 ^ 63.

(** The value of an expression of type [uint64] / [int64] from its exact value. *)
Definition wrapU64 (z : Z) : Z := z mod 2 ^ 64.
Definition wrapI64 (z : Z) : Z := (z + 2 ^ 63) mod 2 ^ 64 - 2 ^ 63.

Definition is_u64 (z : Z) : Prop := 0 <= z < 2 ^ 64.
Definition is_u32 (z : Z) : Prop := 0 <= z < 2 ^ 32.
Definition is_i64 (z : Z) : Prop := - 2 ^ 63 <= z < 2 ^ 63.
Definition is_i32 (z : Z) : Prop := - 2 ^ 31 <= z < 2 ^ 31.

Lemma wrapU64_range z : is_u64 (wrapU64 z).
Proof. apply Z.mod_pos_bound. lia. Qed.
Lemma wrapU64_id z : is_u64 z -> wrapU64 z = z.
Proof. intros H. apply Z.mod_small. exact H. Qed.
Lemma wrapI64_range z : is_i64 (wrapI64 z).
Proof.
  unfold is_i64, wrapI64. pose proof (Z.mod_pos_bound (z + 2 ^ 63) (2 ^ 64)). lia.
Qed.
Lemma wrapI64_id z : is_i64 z -> wrapI64 z = z.
Proof. unfold is_i64, wrapI64. intros H. rewrite Z.mod_small; lia. Qed.
#[export] Hint Resolve wrapU64_range wrapI64_range : nmonit.

(** ** Outcomes and the state monad

    A call returns a value or panics; [panic(fmt.Sprintf(f, args...))] is kept as
    its format and its arguments. *)
Inductive outcome (A : Type) : Type :=
  | Ret (a : A)
  | Panicked (format : string) (args : list string).
Arguments Ret {A} a.
Arguments Panicked {A} format args.

(** [Go S A]: a computation over the state [S]. The state survives a panic, since
    what ran before it (and the deferred calls) has already taken effect. *)
Definition Go (S A : Type) : Type := S -> outcome A * S.

#[export] Instance go_ret S : MRet (Go S) := fun A a s => (Ret a, s).
#[export] Instance go_bind S : MBind (Go S) := fun A B k m s =>
  match m s with
  | (Ret a, s') => k a s'
  | (Panicked f args, s') => (Panicked f args, s')
  end.

Definition go_panic {S A} (format : string) (args : list string) : Go S A :=
  fun s => (Panicked format args, s).
Definition go_get {S} : Go S S := fun s => (Ret s, s).
Definition go_modify {S} (f : S -> S) : Go S unit := fun s => (Ret tt, f s).

(** [defer d] around a body: [d] runs when the body returns and when it panics. *)
Definition go_defer {S A} (d : Go S unit) (body : Go S A) : Go S A := fun s =>
  let '(r, s1) := body s in
  match d s1 with
  | (Ret _, s2) => (r, s2)
  | (Panicked f args, s2) => (Panicked f args, s2)
  end.

(** [for _, x := range l { body(x) }]. *)
Fixpoint go_for {S A} (l : list A) (body : A -> Go S unit) : Go S unit :=
  match l with
  | [] => mret tt
  | a :: l => body a ;; go_for l body
  end.

(** The state a computation leaves and the value it returns. *)
Definition exec {S A} (m : Go S A) (s : S) : S := (m s).2.
Definition value {S A} (m : Go S A) (s : S) : option A :=
  match (m s).1 with Ret a => Some a | Panicked _ _ => None end.

Lemma go_bind_Ret {S A B} (m : Go S A) (k : A -> Go S B) s a s' :
  m s = (Ret a, s') -> (m ≫= k) s = k a s'.
Proof. intros H. unfold mbind, go_bind. by rewrite H. Qed.

(** A sequence that returns has returned from its first part. *)
Lemma bind_Ret {S A B} (m : Go S A) (k : A -> Go S B) s b s' :
  (m ≫= k) s = (Ret b, s') -> exists a s1, m s = (Ret a, s1) /\ k a s1 = (Ret b, s').
Proof. unfold mbind, go_bind. destruct (m s) as [[a|] s1]; [|done]. eauto. Qed.

Lemma go_bind_assoc {S A B C} (m : Go S A) (k : A -> Go S B) (h : B -> Go S C) s :
  ((m ≫= k) ≫= h) s = (m ≫= (fun a => k a ≫= h)) s.
Proof. unfold mbind, go_bind. by destruct (m s) as [[a|f args] s']. Qed.

(** A loop that changes the state by a function of the element is a fold. *)
Lemma go_for_modify {S A} (l : list A) (f : A -> S -> S) s :
  go_for l (fun a => go_modify (f a)) s = (Ret tt, foldl (fun s a => f a s) s l).
Proof. revert s; induction l as [|a l IH]; intros s; [done|]. simpl. apply IH. Qed.

(** ** Time

    [time.Time] carries a wall reading and a monotonic one (nanoseconds); [Sub] uses
    the monotonic readings and saturates ([time.subMono]). *)
Record Time := mkTime { t_wall : Z; t_mono : Z }.

Definition Second : Z := 10 ^ 9.

Definition subMono (t u : Z) : Z :=
  let d := wrapI64 (t - u) in
  if (d <? 0) && (t >? u) then maxInt64
  else if (d >? 0) && (t <? u) then minInt64
  else d.

Definition Sub (t u : Time) : Z := subMono (t_mono t) (t_mono u).

Lemma subMono_clamp t u :
  is_i64 t -> is_i64 u ->
  subMono t u = Z.max minInt64 (Z.min maxInt64 (t - u)).
Proof.
  unfold is_i64, subMono, maxInt64, minInt64. intros Ht Hu.
  assert (Hc : (t - u < - 2 ^ 63 \/ - 2 ^ 63 <= t - u < 2 ^ 63) \/ 2 ^ 63 <= t - u) by lia.
  rewrite !Z.gtb_ltb.
  destruct Hc as [[Hc|Hc]|Hc].
  - replace (wrapI64 (t - u)) with (t - u + 2 ^ 64).
    2:{ unfold wrapI64. replace (t - u + 2 ^ 63) with ((t - u + 2 ^ 64 + 2 ^ 63) + (-1) * 2 ^ 64) by lia.
        rewrite Z.mod_add by lia. rewrite Z.mod_small; lia. }
    destruct (Z.ltb_spec (t - u + 2 ^ 64) 0); [lia|]. simpl.
    destruct (Z.ltb_spec 0 (t - u + 2 ^ 64)); destruct (Z.ltb_spec t u); simpl; lia.
  - rewrite wrapI64_id by (unfold is_i64; lia).
    destruct (Z.ltb_spec (t - u) 0); destruct (Z.ltb_spec u t); simpl; try lia;
    destruct (Z.ltb_spec 0 (t - u)); destruct (Z.ltb_spec t u); simpl; lia.
  - replace (wrapI64 (t - u)) with (t - u - 2 ^ 64).
    2:{ unfold wrapI64. replace (t - u + 2 ^ 63) with ((t - u - 2 ^ 64 + 2 ^ 63) + 1 * 2 ^ 64) by lia.
        rewrite Z.mod_add by lia. rewrite Z.mod_small; lia. }
    destruct (Z.ltb_spec (t - u - 2 ^ 64) 0); destruct (Z.ltb_spec u t); simpl; lia.
Qed.

(** Comparing a saturated difference with a threshold that is not itself the largest
    duration is comparing the exact difference. *)
Lemma subMono_gt t u threshold :
  is_i64 t -> is_i64 u -> minInt64 <= threshold < maxInt64 ->
  subMono t u > threshold <-> t - u > threshold.
Proof.
  intros Ht Hu Hth. rewrite subMono_clamp by done.
  unfold is_i64, maxInt64, minInt64 in *. lia.
Qed.

(** ** What the runtime leaves open

    The readings of the clock and the order in which [range] visits a map are chosen
    by the environment; every reading and every [range] has a serial number, the
    [tick], so two iterations over one map may differ. *)
Class GoEnv := {
  now_at : nat -> Time;
  range_at : forall V : Type, nat -> gmap string V -> list (string * V)
}.

Class GoEnvLaws `{!GoEnv} : Prop := {
  range_at_perm V n (m : gmap string V) : is_range (range_at V n m) m;
  now_at_mono i j : (i <= j)%nat -> t_mono (now_at i) <= t_mono (now_at j);
  now_at_i64 i : is_i64 (t_mono (now_at i))
}.

(** A concrete environment: one nanosecond per reading, maps in stdpp's order. *)
Definition test_env : GoEnv := {|
  now_at n := mkTime (Z.of_nat n) (Z.min maxInt64 (Z.of_nat n));
  range_at _ _ m := map_to_list m
|}.

Lemma test_env_laws : @GoEnvLaws test_env.
Proof.
  split; simpl.
  - intros. unfold is_range. done.
  - intros. lia.
  - intros. unfold is_i64, maxInt64. lia.
Qed.

(** ** Invariants of computations

    [keeps P m]: whatever [m] does (return or panic), [P] holds after it if it held before. *)
Definition keeps {S A} (P : S -> Prop) (m : Go S A) : Prop := forall s, P s -> P (m s).2.

Section keeps.
Context {S : Type} (P : S -> Prop).

Lemma keeps_ret {A} (a : A) : keeps P (mret a).
Proof. by intros s H. Qed.
Lemma keeps_panic {A} f args : keeps P (go_panic (A := A) f args).
Proof. by intros s H. Qed.
Lemma keeps_get : keeps P go_get.
Proof. by intros s H. Qed.
Lemma keeps_modify f : (forall s, P s -> P (f s)) -> keeps P (go_modify f).
Proof. intros Hf s H. by apply Hf. Qed.
Lemma keeps_bind {A B} (m : Go S A) (k : A -> Go S B) :
  keeps P m -> (forall a, keeps P (k a)) -> keeps P (m ≫= k).
Proof.
  intros Hm Hk s H. specialize (Hm s H). unfold mbind, go_bind.
  destruct (m s) as [[a|f args] s']; [by apply Hk|done].
Qed.
Lemma keeps_for {A} (l : list A) body :
  (forall a, keeps P (body a)) -> keeps P (go_for l body).
Proof.
  intros Hb. induction l as [|a l IH]; [apply keeps_ret|].
  apply keeps_bind; [apply Hb|intros _; exact IH].
Qed.
Lemma keeps_defer {A} d (m : Go S A) : keeps P d -> keeps P m -> keeps P (go_defer d m).
Proof.
  intros Hd Hm s H. specialize (Hm s H). unfold go_defer. destruct (m s) as [r s1].
  specialize (Hd s1 Hm). by destruct (d s1) as [[] s2].
Qed.
End keeps.
#[export] Hint Resolve keeps_ret keeps_panic keeps_get keeps_bind keeps_for keeps_defer : nmonit.

(** Split a computation into its steps, down to the basic operations. *)
Ltac keeps_steps :=
  repeat first
    [ apply keeps_ret | apply keeps_panic | apply keeps_get
    | apply keeps_bind; [|intros ?]
    | apply keeps_for; intros ?
    | apply keeps_defer
    | progress case_match ].
