(* ===== verification/GoStrings.v ===== *)
(** Go strings: byte strings, the functions of [strings], [path/filepath] and
    [crypto/subtle] the sources call, and the UTF-8 decoding that [regexp] runs on. *)
From S2P Require Import Prelude.
From Stdlib Require Import Ascii.
Local Open Scope string_scope.
Local Open Scope Z_scope.

(** [len(s)]. *)
Definition len (s : string) : Z := Z.of_nat (String.length s).

(** The bytes of a string, as numbers. *)
Definition byte_val (c : ascii) : Z := Z.of_nat (nat_of_ascii c).
Fixpoint bytes (s : string) : list Z :=
  match s with
  | EmptyString => []
  | String c s => byte_val c :: bytes s
  end.

(** The string of given bytes. *)
Definition of_bytes (s : list Z) : string :=
  foldr (fun b s => String (ascii_of_nat (Z.to_nat b)) s) "" s.

(** [s[n:]] and [s[:n]] for [n <= len(s)]. *)
Fixpoint str_drop (n : nat) (s : string) : string :=
  match n, s with
  | O, _ => s
  | S n, EmptyString => EmptyString
  | S n, String _ s => str_drop n s
  end.
Fixpoint str_take (n : nat) (s : string) : string :=
  match n, s with
  | O, _ => EmptyString
  | S n, EmptyString => EmptyString
  | S n, String c s => String c (str_take n s)
  end.

(** [strings.Index]: [None] stands for -1. *)
Fixpoint Index (s sub : string) : option nat :=
  if String.prefix sub s then Some O
  else match s with
       | EmptyString => None
       | String _ s => S <$> Index s sub
       end.

(** [strings.TrimPrefix]. *)
Definition TrimPrefix (s p : string) : string :=
  if String.prefix p s then str_drop (String.length p) s else s.

(** [strings.ReplaceAll(s, old, new)] for one-byte [old] and [new]. *)
Fixpoint ReplaceAll (s : string) (old new : ascii) : string :=
  match s with
  | EmptyString => EmptyString
  | String c s => String (if Ascii.eqb c old then new else c) (ReplaceAll s old new)
  end.

(** [strings.SplitN(s, sep, n)] for [n > 0]: at most [n] parts, the last one the rest. *)
Fixpoint SplitN (s sep : string) (n : nat) : list string :=
  match n with
  | O => []
  | S O => [s]
  | S n' => match Index s sep with
            | None => [s]
            | Some m => str_take m s :: SplitN (str_drop (m + String.length sep) s) sep n'
            end
  end.

(** [strings.ContainsRune(s, r)] for [r < utf8.RuneSelf], which is a byte search. *)
Fixpoint ContainsByte (s : string) (b : ascii) : bool :=
  match s with
  | EmptyString => false
  | String c s => Ascii.eqb c b || ContainsByte s b
  end.

(** [filepath.Base] (Unix): trailing slashes go, then everything up to the last one. *)
Fixpoint str_rev_app (s acc : string) : string :=
  match s with EmptyString => acc | String c s => str_rev_app s (String c acc) end.
Definition str_rev (s : string) : string := str_rev_app s "".
Fixpoint trim_slashes (s : string) : string :=
  match s with
  | String "/" s => trim_slashes s
  | _ => s
  end.
Fixpoint until_slash (s : string) : string :=
  match s with
  | EmptyString => ""
  | String c s => if Ascii.eqb c "/" then "" else String c (until_slash s)
  end.
Definition Base (path : string) : string :=
  if String.eqb path "" then "."
  else let p := str_rev (until_slash (trim_slashes (str_rev path))) in
       if String.eqb p "" then "/" else p.

(** [subtle.ConstantTimeCompare]: 0 for different lengths, otherwise the exclusive or of
    every pair of bytes is accumulated and compared with 0 ([ConstantTimeByteEq]). *)
Fixpoint xor_acc (v : Z) (x y : list Z) : Z :=
  match x, y with
  | a :: x, b :: y => xor_acc (Z.lor v (Z.lxor a b)) x y
  | _, _ => v
  end.
Definition ConstantTimeCompare (x y : string) : Z :=
  if negb (len x =? len y) then 0
  else if xor_acc 0 (bytes x) (bytes y) =? 0 then 1 else 0.

(** ** UTF-8 decoding ([utf8.DecodeRuneInString]) *)
Definition RuneError : Z := 0xFFFD.

Definition is_cont (b : Z) : bool := (0x80 <=? b) && (b <=? 0xBF).
Definition cont_bits (b : Z) : Z := Z.land b 0x3F.

(** The rune at the head of a non-empty byte string and its width; an invalid sequence is
    [RuneError] of width 1. *)
Definition decode_rune (s : list Z) : Z * nat :=
  match s with
  | [] => (RuneError, O)
  | b0 :: s1 =>
      if b0 <? 0x80 then (b0, 1%nat)
      else if (0xC2 <=? b0) && (b0 <=? 0xDF) then
        match s1 with
        | b1 :: _ => if is_cont b1
                     then (Z.lor (Z.shiftl (Z.land b0 0x1F) 6) (cont_bits b1), 2%nat)
                     else (RuneError, 1%nat)
        | _ => (RuneError, 1%nat)
        end
      else if (0xE0 <=? b0) && (b0 <=? 0xEF) then
        match s1 with
        | b1 :: b2 :: _ =>
            if ((if b0 =? 0xE0 then 0xA0 else 0x80) <=? b1)
               && (b1 <=? (if b0 =? 0xED then 0x9F else 0xBF)) && is_cont b2
            then (Z.lor (Z.lor (Z.shiftl (Z.land b0 0x0F) 12) (Z.shiftl (cont_bits b1) 6))
                        (cont_bits b2), 3%nat)
            else (RuneError, 1%nat)
        | _ => (RuneError, 1%nat)
        end
      else if (0xF0 <=? b0) && (b0 <=? 0xF4) then
        match s1 with
        | b1 :: b2 :: b3 :: _ =>
            if ((if b0 =? 0xF0 then 0x90 else 0x80) <=? b1)
               && (b1 <=? (if b0 =? 0xF4 then 0x8F else 0xBF)) && is_cont b2 && is_cont b3
            then (Z.lor (Z.lor (Z.lor (Z.shiftl (Z.land b0 0x07) 18)
                                      (Z.shiftl (cont_bits b1) 12))
                               (Z.shiftl (cont_bits b2) 6)) (cont_bits b3), 4%nat)
            else (RuneError, 1%nat)
        | _ => (RuneError, 1%nat)
        end
      else (RuneError, 1%nat)
  end.

(** The runes a [for range] or a regexp sees: fuel [length s] is enough, since each rune
    consumes at least one byte ([runes_fuel_more]). *)
Fixpoint runes_fuel (fuel : nat) (s : list Z) : list Z :=
  match fuel, s with
  | O, _ | _, [] => []
  | S fuel, _ => let '(r, w) := decode_rune s in r :: runes_fuel fuel (drop w s)
  end.
Definition runes (s : string) : list Z := runes_fuel (String.length s) (bytes s).

(** * Facts *)

Lemma byte_val_range c : 0 <= byte_val c < 256.
Proof. unfold byte_val. pose proof (nat_ascii_bounded c). lia. Qed.

Lemma byte_val_inj c d : byte_val c = byte_val d -> c = d.
Proof.
  unfold byte_val. intros H. apply Nat2Z.inj in H.
  rewrite <- (ascii_nat_embedding c), <- (ascii_nat_embedding d). by f_equal.
Qed.

Lemma bytes_inj s t : bytes s = bytes t -> s = t.
Proof.
  revert t; induction s as [|c s IH]; intros [|d t]; simpl; try discriminate; [done|].
  intros [= H1 H2]. apply byte_val_inj in H1. f_equal; auto.
Qed.

Lemma length_bytes s : length (bytes s) = String.length s.
Proof. induction s; simpl; auto. Qed.

Lemma len_nonneg s : 0 <= len s.
Proof. unfold len. lia. Qed.

Lemma bytes_range s : Forall (fun b => 0 <= b < 256) (bytes s).
Proof. induction s; constructor; auto using byte_val_range. Qed.

Lemma bytes_app s t : bytes (s +:+ t) = (bytes s ++ bytes t)%list.
Proof. induction s as [|c s IH]; simpl; [done|]. by rewrite IH. Qed.

Lemma of_bytes_bytes s : of_bytes (bytes s) = s.
Proof.
  induction s as [|c s IH]; simpl; [done|]. rewrite IH. f_equal. unfold byte_val.
  by rewrite Nat2Z.id, ascii_nat_embedding.
Qed.

Lemma len_app s t : len (s +:+ t) = len s + len t.
Proof. unfold len. induction s as [|c s IH]; simpl in *; lia. Qed.

Lemma str_app_assoc (a b c : string) : (a +:+ b) +:+ c = a +:+ (b +:+ c).
Proof. induction a as [|x a IH]; simpl; [done|]. by rewrite IH. Qed.
Lemma str_app_nil_r (a : string) : a +:+ "" = a.
Proof. induction a as [|x a IH]; simpl; [done|]. by rewrite IH. Qed.

#[export] Hint Resolve len_nonneg byte_val_range : nmonit.
#[export] Hint Rewrite length_bytes len_app str_app_nil_r : nmonit_rw.

(** ** Prefix, index and slices *)
Lemma str_take_drop n s : str_take n s +:+ str_drop n s = s.
Proof.
  revert s; induction n as [|n IH]; intros [|c s]; simpl; auto.
  by rewrite IH.
Qed.

Lemma str_drop_app a b : str_drop (String.length a) (a +:+ b) = b.
Proof. by induction a. Qed.
Lemma str_take_app a b : str_take (String.length a) (a +:+ b) = a.
Proof. induction a as [|x a IH]; simpl; [by destruct b|]. by rewrite IH. Qed.

Lemma prefix_spec p s : String.prefix p s = true <-> exists t, s = p +:+ t.
Proof.
  revert s; induction p as [|c p IH]; intros [|d s]; simpl.
  - split; [by exists ""|done].
  - split; [eauto|done].
  - split; [done|]. intros [t Ht]. discriminate.
  - destruct (ascii_dec c d) as [->|Hne].
    + rewrite IH. split; intros [t Ht]; exists t; congruence.
    + split; [done|]. intros [t Ht]. congruence.
Qed.

#[global] Arguments String.prefix : simpl never.

(** [Index] finds the first occurrence. *)
Lemma Index_Some s sub n :
  Index s sub = Some n ->
  exists a b, s = a +:+ sub +:+ b /\ String.length a = n.
Proof.
  revert n; induction s as [|c s IH]; intros n; simpl.
  - destruct (String.prefix sub "") eqn:E; [|done].
    intros [= <-]. apply prefix_spec in E as [t Ht]. by exists "", t.
  - destruct (String.prefix sub (String c s)) eqn:E.
    + intros [= <-]. apply prefix_spec in E as [t Ht]. exists "", t. auto.
    + destruct (Index s sub) eqn:E2; [|done]. intros [= <-].
      destruct (IH _ eq_refl) as (a & b & -> & <-). by exists (String c a), b.
Qed.

Lemma Index_None s sub : Index s sub = None <-> forall a b, s <> a +:+ sub +:+ b.
Proof.
  induction s as [|c s IH]; simpl.
  - destruct (String.prefix sub "") eqn:E.
    + apply prefix_spec in E as [t Ht]. split; [done|]. intros H. by destruct (H "" t).
    + split; [|done]. intros _ [|x a] b H; [|discriminate].
      assert (String.prefix sub "" = true) as E2 by (apply prefix_spec; eauto). congruence.
  - destruct (String.prefix sub (String c s)) eqn:E.
    + apply prefix_spec in E as [t Ht]. split; [done|]. intros H. by destruct (H "" t).
    + rewrite fmap_None, IH. split.
      * intros H [|x a] b Heq; simpl in Heq.
        -- assert (String.prefix sub (String c s) = true) as E2 by (apply prefix_spec; eauto).
           congruence.
        -- injection Heq as _ Heq. by apply (H a b).
      * intros H a b Heq. apply (H (String c a) b). simpl. by f_equal.
Qed.

Lemma Index_first s sub n a b :
  Index s sub = Some n -> s = a +:+ sub +:+ b -> (n <= String.length a)%nat.
Proof.
  revert n a; induction s as [|c s IH]; intros n a; simpl.
  - destruct (String.prefix sub ""); [|done]. intros [= <-]. lia.
  - destruct (String.prefix sub (String c s)) eqn:E; [intros [= <-]; lia|].
    destruct (Index s sub) as [m|] eqn:E2; [|done]. intros [= <-] Heq.
    destruct a as [|x a]; simpl in *.
    + assert (String.prefix sub (String c s) = true) as E3 by (apply prefix_spec; eauto).
      congruence.
    + injection Heq as _ Heq. apply le_n_S. by eapply IH.
Qed.

Lemma ContainsByte_spec s b : ContainsByte s b = true <-> exists u v, s = u +:+ String b v.
Proof.
  induction s as [|c s IH]; simpl.
  - split; [done|]. intros ([|] & ? & ?); discriminate.
  - rewrite orb_true_iff, Ascii.eqb_eq, IH. split.
    + intros [->|(u & v & ->)]; [by exists "", s|by exists (String c u), v].
    + intros ([|x u] & v & Heq); simpl in Heq; injection Heq as -> Heq; eauto.
Qed.

Lemma ContainsByte_bytes s b : ContainsByte s b = true <-> byte_val b ∈ bytes s.
Proof.
  induction s as [|c s IH]; simpl.
  - split; [done|]. intros H. inversion H.
  - rewrite orb_true_iff, Ascii.eqb_eq, elem_of_cons, IH.
    split; intros [H|H]; auto; left; [by subst|by apply byte_val_inj].
Qed.

(** ** Constant-time comparison decides equality *)
Lemma xor_acc_zero v x y :
  0 <= v -> length x = length y ->
  Forall (fun b => 0 <= b) x -> Forall (fun b => 0 <= b) y ->
  xor_acc v x y = 0 <-> v = 0 /\ x = y.
Proof.
  revert v y; induction x as [|a x IH]; intros v [|b y] Hv Hlen Hx Hy; simpl in *;
    try lia; [tauto|].
  apply Forall_cons in Hx as [Ha Hx]. apply Forall_cons in Hy as [Hb Hy].
  assert (0 <= Z.lxor a b) by (apply Z.lxor_nonneg; lia).
  rewrite IH; [| by apply Z.lor_nonneg | lia | done | done].
  rewrite Z.lor_eq_0_iff, Z.lxor_eq_0_iff.
  split; [intros ([-> ->] & ->); done|]. intros (-> & [= -> ->]); done.
Qed.

Lemma ConstantTimeCompare_eq x y : ConstantTimeCompare x y = if decide (x = y) then 1 else 0.
Proof.
  unfold ConstantTimeCompare.
  assert (Hnn : forall s, Forall (fun b => 0 <= b) (bytes s)).
  { intros s. eapply Forall_impl; [apply bytes_range|]. simpl. lia. }
  destruct (Z.eqb_spec (len x) (len y)) as [Hl|Hl]; simpl.
  - assert (Hlen : length (bytes x) = length (bytes y)).
    { rewrite !length_bytes. unfold len in Hl. lia. }
    destruct (xor_acc_zero 0 (bytes x) (bytes y)) as [H1 H2]; auto; [lia|].
    case_decide as Hd.
    + subst. rewrite H2 by done. done.
    + destruct (Z.eqb_spec (xor_acc 0 (bytes x) (bytes y)) 0) as [E|E]; [|done].
      destruct (H1 E) as [_ Hb]. by apply bytes_inj in Hb.
  - case_decide as Hd; [|done]. by subst.
Qed.

(** ** Replacing and splitting *)
Lemma ReplaceAll_app s t old new :
  ReplaceAll (s +:+ t) old new = ReplaceAll s old new +:+ ReplaceAll t old new.
Proof. induction s as [|c s IH]; simpl; [done|]. by rewrite IH. Qed.

Lemma ReplaceAll_gone s old new :
  old <> new -> ContainsByte (ReplaceAll s old new) old = false.
Proof.
  intros Hne. induction s as [|c s IH]; simpl; [done|].
  apply orb_false_iff; split; [|done].
  destruct (Ascii.eqb_spec c old); apply Ascii.eqb_neq; congruence.
Qed.

Lemma ReplaceAll_id s old new : ContainsByte s old = false -> ReplaceAll s old new = s.
Proof.
  induction s as [|c s IH]; simpl; [done|]. intros [Hc Hs]%orb_false_iff. by rewrite Hc, IH.
Qed.

(** The parts [SplitN] cuts, joined with the separator, are the string. *)
Fixpoint str_join (sep : string) (l : list string) : string :=
  match l with
  | [] => ""
  | [a] => a
  | a :: l => a +:+ sep +:+ str_join sep l
  end.

Lemma SplitN_nonempty s sep n : n <> O -> SplitN s sep n <> [].
Proof. destruct n as [|[|n]]; simpl; [done|done|]. intros _. by destruct (Index s sep). Qed.

Lemma SplitN_S s sep n :
  SplitN s sep (S (S n)) =
  match Index s sep with
  | None => [s]
  | Some m => str_take m s :: SplitN (str_drop (m + String.length sep) s) sep (S n)
  end.
Proof. done. Qed.

Lemma str_drop_add a b n : str_drop (String.length a + n) (a +:+ b) = str_drop n b.
Proof. by induction a. Qed.

Lemma str_join_cons sep a l : l <> [] -> str_join sep (a :: l) = a +:+ sep +:+ str_join sep l.
Proof. by destruct l. Qed.

Lemma SplitN_join s sep n : n <> O -> str_join sep (SplitN s sep n) = s.
Proof.
  destruct n as [|n]; [done|]. intros _. revert s.
  induction n as [|n IH]; intros s; [done|].
  rewrite SplitN_S.
  destruct (Index s sep) as [m|] eqn:E; [|done].
  apply Index_Some in E as (a & b & -> & <-).
  rewrite str_take_app, str_drop_add, str_drop_app.
  rewrite str_join_cons by (apply SplitN_nonempty; done).
  by rewrite IH.
Qed.

#[global] Arguments SplitN : simpl never.

(** Splitting at a byte: either it does not occur, or there is a first occurrence. *)
Lemma ContainsByte_app a b d : ContainsByte (a +:+ b) d = ContainsByte a d || ContainsByte b d.
Proof. induction a as [|c a IH]; simpl; [done|]. by rewrite IH, orb_assoc. Qed.

Lemma byte_cut s d :
  ContainsByte s d = false \/
  exists a b, s = a +:+ String d b /\ ContainsByte a d = false.
Proof.
  induction s as [|c s IH]; simpl; [by left|].
  destruct (Ascii.eqb_spec c d) as [->|Hne]; simpl.
  - right. by exists "", s.
  - destruct IH as [H|(a & b & -> & Ha)]; [by left|right]. exists (String c a), b.
    split; [done|]. simpl. rewrite Ha. by apply Ascii.eqb_neq in Hne as ->.
Qed.

Lemma prefix_byte d s : String.prefix (String d "") s = true <-> exists t, s = String d t.
Proof. apply prefix_spec. Qed.

Lemma Index_byte_None s d : ContainsByte s d = false -> Index s (String d "") = None.
Proof.
  intros H. apply Index_None. intros a b ->. simpl in H.
  rewrite ContainsByte_app in H. simpl in H. rewrite Ascii.eqb_refl, orb_true_r in H. done.
Qed.

Lemma Index_byte a b d :
  ContainsByte a d = false -> Index (a +:+ String d b) (String d "") = Some (String.length a).
Proof.
  induction a as [|c a IH]; intros H.
  - simpl. by rewrite (proj2 (prefix_byte d (String d b))) by eauto.
  - simpl in *. apply orb_false_iff in H as [Hc Ha]. rewrite IH by done.
    destruct (String.prefix (String d "") (String c (a +:+ String d b))) eqn:E; [|done].
    apply prefix_byte in E as [t [= -> _]]. by rewrite Ascii.eqb_refl in Hc.
Qed.

Lemma SplitN_whole s d n : ContainsByte s d = false -> SplitN s (String d "") (S n) = [s].
Proof. intros H. destruct n as [|n]; [done|]. by rewrite SplitN_S, Index_byte_None. Qed.

Lemma SplitN_cut a b d n :
  ContainsByte a d = false ->
  SplitN (a +:+ String d b) (String d "") (S (S n)) = a :: SplitN b (String d "") (S n).
Proof.
  intros H. rewrite SplitN_S, Index_byte by done. rewrite str_take_app, str_drop_add. done.
Qed.

(** ** UTF-8 *)
Lemma decode_rune_ascii b s : b < 0x80 -> decode_rune (b :: s) = (b, 1%nat).
Proof. intros H. unfold decode_rune. by rewrite (proj2 (Z.ltb_lt _ _) H). Qed.

Lemma runes_fuel_nil f : runes_fuel f [] = [].
Proof. by destruct f. Qed.

(** A rune consumes at least one byte, so the length of the string is fuel enough. *)
Lemma decode_rune_width b s : (1 <= (decode_rune (b :: s)).2)%nat.
Proof. unfold decode_rune. repeat case_match; simpl; lia. Qed.

Lemma runes_fuel_more f s :
  (length s <= f)%nat -> runes_fuel f s = runes_fuel (length s) s.
Proof.
  assert (H : forall n g s, (length s <= n <= g)%nat -> runes_fuel g s = runes_fuel n s).
  { induction n as [|n IH]; intros g [|b t] Hg; rewrite ?runes_fuel_nil; simpl in Hg; try (done || lia).
    destruct g as [|g]; [lia|]. pose proof (decode_rune_width b t) as Hw.
    cbn [runes_fuel]. destruct (decode_rune (b :: t)) as [r w]. f_equal. simpl in Hw.
    apply IH. rewrite length_drop. simpl. lia. }
  intros Hf. apply H. lia.
Qed.

Lemma lor_nonneg_le a b : 0 <= a -> 0 <= b -> b <= Z.lor a b.
Proof.
  intros Ha Hb.
  assert (H : Z.ldiff b (Z.lor a b) = 0).
  { apply Z.bits_inj'. intros n Hn. rewrite Z.ldiff_spec, Z.lor_spec, Z.bits_0.
    destruct (Z.testbit a n), (Z.testbit b n); reflexivity. }
  apply Z.ldiff_le in H; [lia|]. by apply Z.lor_nonneg.
Qed.

Lemma lor_nonneg_ge_l a b : 0 <= a -> 0 <= b -> a <= Z.lor a b.
Proof. rewrite Z.lor_comm. intros. by apply lor_nonneg_le. Qed.

(** A property of all bytes of a range is checked by evaluation. *)
Lemma byte_check (lo hi : Z) (Q : Z -> bool) b :
  lo <= b <= hi -> forallb Q (seqZ lo (hi - lo + 1)) = true -> Q b = true.
Proof.
  intros Hb H. rewrite forallb_forall in H. apply H.
  apply list_elem_of_In, elem_of_seqZ. lia.
Qed.

(** The lowest value of a shifted bit field; what is or-ed to it only makes it larger. *)
Lemma lor_field_ge lo x k y c :
  c <= 2 ^ k * lo -> 0 <= lo <= x -> 0 <= k -> 0 <= y -> c <= Z.lor (Z.shiftl x k) y.
Proof.
  intros Hc Hx Hk Hy. etrans; [exact Hc|]. rewrite Z.shiftl_mul_pow2 by done.
  pose proof (Z.pow_nonneg 2 k).
  etrans; [|apply lor_nonneg_ge_l; [|done]]; nia.
Qed.

Lemma cont_bits_nonneg b : 0 <= b -> 0 <= cont_bits b.
Proof. intros H. unfold cont_bits. apply Z.land_nonneg. lia. Qed.
Lemma shiftl_cont_nonneg b k : 0 <= b -> 0 <= Z.shiftl (cont_bits b) k.
Proof. intros H. by apply Z.shiftl_nonneg, cont_bits_nonneg. Qed.
#[export] Hint Resolve cont_bits_nonneg shiftl_cont_nonneg : nmonit.

Lemma two_bytes_ge b0 b1 :
  0xC2 <= b0 <= 0xDF -> 0 <= b1 ->
  0x80 <= Z.lor (Z.shiftl (Z.land b0 0x1F) 6) (cont_bits b1).
Proof.
  intros H0 H1.
  assert (H : (2 <=? Z.land b0 0x1F) = true)
    by (apply (byte_check 0xC2 0xDF (fun b => 2 <=? Z.land b 0x1F)); [done|by vm_compute]).
  apply Z.leb_le in H.
  apply (lor_field_ge 2); [lia|lia|lia|]. auto with nmonit.
Qed.

Lemma three_bytes_ge b0 b1 b2 :
  0xE0 <= b0 <= 0xEF -> (if b0 =? 0xE0 then 0xA0 else 0x80) <= b1 <= 0xBF -> 0 <= b2 ->
  0x80 <= Z.lor (Z.lor (Z.shiftl (Z.land b0 0x0F) 12) (Z.shiftl (cont_bits b1) 6)) (cont_bits b2).
Proof.
  intros H0 H1 H2. assert (0 <= b1) by (destruct (b0 =? 0xE0); lia).
  assert (0 <= Z.shiftl (Z.land b0 0x0F) 12) by (apply Z.shiftl_nonneg, Z.land_nonneg; lia).
  rewrite <- Z.lor_assoc. destruct (Z.eqb_spec b0 0xE0) as [->|Hne].
  - etrans; [|apply lor_nonneg_le; [done|]].
    2:{ apply Z.lor_nonneg; auto with nmonit. }
    assert (Hc : (2 <=? cont_bits b1) = true)
      by (apply (byte_check 0xA0 0xBF (fun b => 2 <=? cont_bits b)); [lia|by vm_compute]).
    apply Z.leb_le in Hc. apply (lor_field_ge 2); [lia|lia|lia|auto with nmonit].
  - assert (Hc : (1 <=? Z.land b0 0x0F) = true)
      by (apply (byte_check 0xE1 0xEF (fun b => 1 <=? Z.land b 0x0F)); [lia|by vm_compute]).
    apply Z.leb_le in Hc.
    apply (lor_field_ge 1); [lia|lia|lia|]. apply Z.lor_nonneg; auto with nmonit.
Qed.

Lemma four_bytes_big b0 b1 b2 b3 :
  0xF0 <= b0 <= 0xF4 -> (if b0 =? 0xF0 then 0x90 else 0x80) <= b1 <= 0xBF ->
  0 <= b2 -> 0 <= b3 ->
  0x10000 <= Z.lor (Z.lor (Z.lor (Z.shiftl (Z.land b0 0x07) 18) (Z.shiftl (cont_bits b1) 12))
                       (Z.shiftl (cont_bits b2) 6)) (cont_bits b3).
Proof.
  intros H0 H1 H2 H3. assert (0 <= b1) by (destruct (b0 =? 0xF0); lia).
  assert (0 <= Z.shiftl (Z.land b0 0x07) 18) by (apply Z.shiftl_nonneg, Z.land_nonneg; lia).
  rewrite <- !Z.lor_assoc.
  assert (0 <= Z.lor (Z.shiftl (cont_bits b2) 6) (cont_bits b3))
    by (apply Z.lor_nonneg; auto with nmonit).
  destruct (Z.eqb_spec b0 0xF0) as [->|Hne].
  - etrans; [|apply lor_nonneg_le; [done|apply Z.lor_nonneg; auto with nmonit]].
    assert (Hc : (16 <=? cont_bits b1) = true)
      by (apply (byte_check 0x90 0xBF (fun b => 16 <=? cont_bits b)); [lia|by vm_compute]).
    apply Z.leb_le in Hc. apply (lor_field_ge 16); [lia|lia|lia|done].
  - assert (Hc : (1 <=? Z.land b0 0x07) = true)
      by (apply (byte_check 0xF1 0xF4 (fun b => 1 <=? Z.land b 0x07)); [lia|by vm_compute]).
    apply Z.leb_le in Hc. apply (lor_field_ge 1); [lia|lia|lia|].
    apply Z.lor_nonneg; auto with nmonit.
Qed.

Lemma four_bytes_ge b0 b1 b2 b3 :
  0xF0 <= b0 <= 0xF4 -> (if b0 =? 0xF0 then 0x90 else 0x80) <= b1 <= 0xBF ->
  0 <= b2 -> 0 <= b3 ->
  0x80 <= Z.lor (Z.lor (Z.lor (Z.shiftl (Z.land b0 0x07) 18) (Z.shiftl (cont_bits b1) 12))
                       (Z.shiftl (cont_bits b2) 6)) (cont_bits b3).
Proof. intros H0 H1 H2 H3. pose proof (four_bytes_big b0 b1 b2 b3 H0 H1 H2 H3). lia. Qed.

(** A multi-byte sequence never decodes to an ASCII rune, and decoding always consumes. *)
Lemma decode_rune_multibyte b s :
  0x80 <= b -> Forall (fun b => 0 <= b < 256) s ->
  0x80 <= (decode_rune (b :: s)).1.
Proof.
  intros Hb Hs. unfold decode_rune, RuneError.
  destruct (Z.ltb_spec b 0x80); [lia|].
  destruct ((0xC2 <=? b) && (b <=? 0xDF)) eqn:E2.
  { nm_bool. destruct s as [|b1 s]; [simpl; lia|]. apply Forall_cons in Hs as [H1 _].
    destruct (is_cont b1); simpl; [|lia]. apply two_bytes_ge; lia. }
  destruct ((0xE0 <=? b) && (b <=? 0xEF)) eqn:E3.
  { nm_bool. destruct s as [|b1 [|b2 s]]; [simpl; lia|simpl; lia|].
    rewrite !Forall_cons in Hs. destruct (_ && _ && _) eqn:E; simpl; [|lia].
    apply three_bytes_ge; [lia| |lia].
    rewrite !andb_true_iff, !Z.leb_le in E. destruct (b =? 0xED); lia. }
  destruct ((0xF0 <=? b) && (b <=? 0xF4)) eqn:E4; [|simpl; lia].
  nm_bool. destruct s as [|b1 [|b2 [|b3 s]]]; [simpl; lia|simpl; lia|simpl; lia|].
  rewrite !Forall_cons in Hs. destruct (_ && _ && _ && _) eqn:E; simpl; [|lia].
  apply four_bytes_ge; [lia| |lia|lia].
  rewrite !andb_true_iff, !Z.leb_le in E. destruct (b =? 0xF4); lia.
Qed.

(** On a property that only ASCII runes have, the runes of a string and its bytes agree. *)
Lemma runes_fuel_ascii (P : Z -> Prop) f s :
  (forall r, P r -> r < 0x80) -> Forall (fun b => 0 <= b < 256) s -> (length s <= f)%nat ->
  Forall P (runes_fuel f s) <-> Forall P s.
Proof.
  intros HP. revert s. induction f as [|f IH]; intros [|b s] Hs Hf; simpl in Hf; try lia;
    [done|done|].
  apply Forall_cons in Hs as [Hb Hs].
  destruct (Z_lt_ge_dec b 0x80) as [Hlt|Hge]; cbn [runes_fuel].
  - rewrite decode_rune_ascii by done. rewrite skipn_cons, skipn_O, !Forall_cons, IH by (done || lia).
    done.
  - pose proof (decode_rune_multibyte b s ltac:(lia) Hs) as Hd.
    destruct (decode_rune (b :: s)) as [r w]. simpl in Hd. rewrite !Forall_cons.
    split; intros [H _]; apply HP in H; lia.
Qed.

Lemma runes_ascii (P : Z -> Prop) s :
  (forall r, P r -> r < 0x80) -> Forall P (runes s) <-> Forall P (bytes s).
Proof.
  intros HP. apply runes_fuel_ascii; [done|apply bytes_range|]. by rewrite length_bytes.
Qed.

(** Runes of an ASCII string are its bytes. *)
Lemma runes_fuel_id f s :
  Forall (fun b => b < 0x80) s -> (length s <= f)%nat -> runes_fuel f s = s.
Proof.
  revert s. induction f as [|f IH]; intros [|b s] Hs Hf; simpl in Hf; try lia; [done|done|].
  apply Forall_cons in Hs as [Hb Hs]. cbn [runes_fuel].
  rewrite decode_rune_ascii by done. rewrite skipn_cons, skipn_O, IH by (done || lia). done.
Qed.

Lemma runes_id s : Forall (fun b => b < 0x80) (bytes s) -> runes s = bytes s.
Proof. intros H. apply runes_fuel_id; [done|]. by rewrite length_bytes. Qed.
