(* ===== verification/GoFloat.v ===== *)
(** What the sources use of [float64]: the conversion of an unsigned integer, and numbers JSON
    can express.  Floats are the Standard Library's [spec_float], rounded to 53 bits. *)
From S2P Require Import Prelude.
From Stdlib Require Import SpecFloat.
Local Open Scope Z_scope.

(** [float64(n)] of an unsigned integer. *)
Definition float64_of (n : Z) : spec_float := binary_normalize 53 1024 n 0 false.

(** The numbers JSON can express. *)
Definition float64 (f : spec_float) : Prop :=
  valid_binary 53 1024 f = true /\ match f with S754_zero _ | S754_finite _ _ _ => True | _ => False end.

(** * Facts *)

Lemma digits2_pos_log2 p : Zpos (digits2_pos p) = Z.log2 (Zpos p) + 1.
Proof.
  induction p as [p IH|p IH|]; [| |done]; cbn [digits2_pos]; rewrite Pos2Z.inj_succ, IH.
  - rewrite (Pos2Z.inj_xI p), Z.log2_succ_double by done. done.
  - rewrite (Pos2Z.inj_xO p), Z.log2_double by done. done.
Qed.

Lemma Zdigits2_log2 m : 0 < m -> Zdigits2 m = Z.log2 m + 1.
Proof. destruct m as [|p|p]; [done| |done]. intros _. apply digits2_pos_log2. Qed.

(** Shifting right divides the mantissa. *)
Lemma shr_m_shr_1 r : 0 <= shr_m r -> shr_m (shr_1 r) = shr_m r / 2.
Proof.
  destruct r as [m ? ?]. simpl. intros Hm. rewrite <- Z.div2_div.
  by destruct m as [|[p|p|]|p].
Qed.
Lemma shr_m_iter p r : 0 <= shr_m r -> shr_m (iter_pos shr_1 p r) = shr_m r / 2 ^ Zpos p.
Proof.
  assert (Hpos : forall p, 0 < 2 ^ Zpos p) by (intros q; by apply Z.pow_pos_nonneg).
  assert (Hdiv : forall m q, 0 <= m -> 0 <= m / 2 ^ Zpos q) by (intros m q Hm; by apply Z.div_pos).
  revert r. induction p as [p IH|p IH|]; intros r Hr; cbn [iter_pos]; try pose proof (Hpos p).
  - assert (H1 := shr_m_shr_1 r Hr).
    assert (0 <= shr_m (shr_1 r)) by (rewrite H1; by apply Z.div_pos).
    rewrite IH, IH, H1 by (rewrite ?IH; auto). rewrite !Z.div_div by lia. f_equal.
    replace (Zpos p~1) with (1 + (Zpos p + Zpos p)) by lia. rewrite !Z.pow_add_r by lia. lia.
  - rewrite IH, IH by (rewrite ?IH; auto). rewrite Z.div_div by lia. f_equal.
    replace (Zpos p~0) with (Zpos p + Zpos p) by lia. by rewrite Z.pow_add_r by lia.
  - by rewrite shr_m_shr_1.
Qed.

Lemma shr_m_of_loc m l : shr_m (shr_record_of_loc m l) = m.
Proof. by destruct l as [|[]]. Qed.

(** One normalisation of a mantissa of at least 53 bits leaves 53 bits. *)
Lemma shr_fexp_normal m e l :
  2 ^ 52 <= m -> -1000 <= e ->
  exists r, shr_fexp 53 1024 m e l = (r, Z.log2 m + e - 52) /\ 2 ^ 52 <= shr_m r < 2 ^ 53.
Proof.
  intros Hm He. assert (Hl : 52 <= Z.log2 m) by (change 52 with (Z.log2 (2 ^ 52)); by apply Z.log2_le_mono).
  pose proof (Z.log2_spec m ltac:(lia)) as Hs.
  unfold shr_fexp, fexp, emin. rewrite Zdigits2_log2 by lia.
  replace (Z.max (Z.log2 m + 1 + e - 53) (3 - 1024 - 53) - e) with (Z.log2 m - 52) by lia.
  pose proof (shr_m_of_loc m l) as Hr. set (r := shr_record_of_loc m l) in *.
  destruct (Z.log2 m - 52) as [|p|p] eqn:Hn; [| |lia]; unfold shr.
  - exists r. replace (Z.log2 m) with 52 in * by lia. split; [f_equal; lia|]. rewrite Hr. exact Hs.
  - exists (iter_pos shr_1 p r). split; [f_equal; lia|]. rewrite shr_m_iter, Hr by lia.
    replace (Z.log2 m) with (52 + Zpos p) in Hs by lia.
    replace (Z.succ (52 + Zpos p)) with (53 + Zpos p) in Hs by lia.
    rewrite !Z.pow_add_r in Hs by done. pose proof (Z.pow_pos_nonneg 2 (Zpos p) ltac:(done) ltac:(done)).
    split; [apply Z.div_le_lower_bound|apply Z.div_lt_upper_bound]; lia.
Qed.

(** A normal number: 53 bits, and an exponent far from the bounds. *)
Definition normal (lo hi : Z) (f : spec_float) : Prop :=
  exists s m e, f = S754_finite s m e /\ 2 ^ 52 <= Zpos m < 2 ^ 53 /\ lo <= e <= hi.

Lemma binary_round_aux_normal s m e l :
  2 ^ 52 <= m -> -1000 <= e -> Z.log2 m + e <= 900 ->
  normal (Z.log2 m + e - 52) (Z.log2 m + e - 51) (binary_round_aux 53 1024 s m e l).
Proof.
  intros Hm He Hb. destruct (shr_fexp_normal m e l Hm He) as (r & Hr & Hrm).
  assert (Hl : 52 <= Z.log2 m) by (change 52 with (Z.log2 (2 ^ 52)); by apply Z.log2_le_mono).
  unfold binary_round_aux. rewrite Hr. set (e1 := Z.log2 m + e - 52).
  set (mr := round_nearest_even (shr_m r) (loc_of_shr_record r)).
  assert (Hmr : 2 ^ 52 <= mr <= 2 ^ 53).
  { unfold mr, round_nearest_even. repeat case_match; lia. }
  assert (Hlr : 52 <= Z.log2 mr <= 53).
  { change 52 with (Z.log2 (2 ^ 52)) at 1. change 53 with (Z.log2 (2 ^ 53)) at 1.
    split; apply Z.log2_le_mono; lia. }
  destruct (shr_fexp_normal mr e1 loc_Exact) as (r' & Hr' & Hrm'); [lia|unfold e1; lia|].
  rewrite Hr'. destruct (shr_m r') as [|m'|m'] eqn:Em; [lia| |lia].
  rewrite (proj2 (Z.leb_le _ _)) by (unfold e1; lia).
  exists s, m', (Z.log2 mr + e1 - 52). split; [done|]. split; [done|]. unfold e1. lia.
Qed.

Lemma normal_float64 lo hi f : -1000 <= lo -> hi <= 900 -> normal lo hi f -> float64 f.
Proof.
  intros Hlo Hhi (s & m & e & -> & Hm & He). split; [|done]. simpl. unfold bounded, canonical_mantissa.
  rewrite digits2_pos_log2. rewrite (Z.log2_unique (Zpos m) 52) by (simpl; lia).
  apply andb_true_iff. split; [|apply Z.leb_le; lia]. unfold fexp, emin. apply Z.eqb_eq. lia.
Qed.

(** Aligning a positive integer gives it 53 bits at least. *)
Lemma iter_xO p d : Zpos (Pos.iter xO p d) = Zpos p * 2 ^ Zpos d.
Proof.
  revert p. induction d as [|d IH] using Pos.peano_ind; intros p.
  - simpl. lia.
  - rewrite Pos.iter_succ, Pos2Z.inj_succ, Z.pow_succ_r by done.
    rewrite (Pos2Z.inj_xO (Pos.iter _ _ _)), IH. lia.
Qed.

Lemma float64_of_normal n : 0 < n < 2 ^ 64 -> normal (-52) 13 (float64_of n).
Proof.
  intros Hn. assert (Hl : 0 <= Z.log2 n <= 63).
  { split; [apply Z.log2_nonneg|]. assert (Z.log2 n < 64); [apply Z.log2_lt_pow2; lia|lia]. }
  destruct n as [|p|p]; [lia| |lia]. unfold float64_of, binary_normalize, binary_round, shl_align.
  rewrite digits2_pos_log2. unfold fexp, emin.
  replace (Z.max (Z.log2 (Zpos p) + 1 + 0 - 53) (3 - 1024 - 53) - 0) with (Z.log2 (Zpos p) - 52) by lia.
  assert (Hbig : forall m e, Z.log2 m + e = Z.log2 (Zpos p) -> 2 ^ 52 <= m -> -1000 <= e ->
    normal (-52) 13 (binary_round_aux 53 1024 false m e loc_Exact)).
  { intros m e Hme Hm He.
    destruct (binary_round_aux_normal false m e loc_Exact Hm He ltac:(lia)) as (s & m' & e' & -> & ? & ?).
    exists s, m', e'. repeat split; lia. }
  pose proof (Z.log2_spec (Zpos p) ltac:(lia)) as Hs.
  destruct (Z.log2 (Zpos p) - 52) as [|d|d] eqn:Hd.
  - apply Hbig; [lia| |lia]. replace (Z.log2 (Zpos p)) with 52 in Hs by lia. lia.
  - apply Hbig; [lia| |lia]. transitivity (2 ^ Z.log2 (Zpos p)); [|lia].
    apply Z.pow_le_mono_r; lia.
  - replace (Z.max (Z.log2 (Zpos p) + 1 + 0 - 53) (3 - 1024 - 53)) with (Zneg d) by lia.
    rewrite iter_xO. apply Hbig; [|  |lia].
    + rewrite Z.log2_mul_pow2 by lia. lia.
    + transitivity (2 ^ Z.log2 (Zpos p) * 2 ^ Zpos d); [|apply Z.mul_le_mono_nonneg_r; lia].
      rewrite <- Z.pow_add_r by lia. apply Z.pow_le_mono_r; lia.
Qed.

(** Dividing a normal number by the power of two of [2 ^ 52] and an exponent. *)
Lemma SFdiv_normal f e2 :
  -100 <= e2 <= 100 -> normal (-100) 100 f ->
  normal (-300) 300 (SFdiv 53 1024 f (S754_finite false (2 ^ 52) e2)).
Proof.
  intros He2 (s & m & e & -> & Hm & He). unfold SFdiv, SFdiv_core_binary.
  rewrite (Zdigits2_log2 (Zpos m)), (Z.log2_unique (Zpos m) 52) by (done || lia).
  change (Zdigits2 (Zpos (2 ^ 52))) with 53. unfold fexp, emin.
  replace (Z.min (Z.max (52 + 1 + e - (53 + e2) - 53) (3 - 1024 - 53)) (e - e2)) with (e - e2 - 53) by lia.
  replace (e - e2 - (e - e2 - 53)) with 53 by lia.
  cbv beta zeta iota. rewrite Z.shiftl_mul_pow2 by done.
  assert (Hq : Z.div_eucl (Zpos m * 2 ^ 53) (Zpos (2 ^ 52)) = (Zpos m * 2, 0)).
  { pose proof (Z.div_eucl_eq (Zpos m * 2 ^ 53) (Zpos (2 ^ 52)) ltac:(done)) as Hqr.
    pose proof (Z.mod_pos_bound (Zpos m * 2 ^ 53) (Zpos (2 ^ 52)) ltac:(done)) as Hr.
    unfold Z.modulo in Hr. destruct (Z.div_eucl (Zpos m * 2 ^ 53) (Zpos (2 ^ 52))) as [q r].
    simpl in Hqr, Hr. f_equal; lia. }
  rewrite Hq. assert (Hl : Z.log2 (Zpos m * 2) = 53) by (apply Z.log2_unique; simpl; lia).
  destruct (binary_round_aux_normal (xorb s false) (Zpos m * 2) (e - e2 - 53) (new_location (Zpos (2 ^ 52)) 0)
    ltac:(lia) ltac:(lia) ltac:(lia)) as (s' & m' & e' & -> & ? & ?).
  exists s', m', e'. repeat split; lia.
Qed.
