(* ===== verification/RustStd.v ===== *)
(** What the node agent's sources use of Rust and its standard library: strings (UTF-8, as bytes),
    iterators over lines and words, numeric casts and floats. *)
From S2P Require Import Prelude GoRuntime GoStrings GoFloat.
From Stdlib Require Import Ascii SpecFloat.
Local Open Scope string_scope.
Local Open Scope Z_scope.
Local Open Scope list_scope.

(** ** [str] *)

(** [str::lines]: a line ends with [\n] or [\r\n]; the last one need not end. *)
Definition LF : ascii := "010"%char.
Definition CR : ascii := "013"%char.
Fixpoint lines (s : string) : list string :=
  match s with
  | EmptyString => []
  | String c s =>
      if Ascii.eqb c LF then "" :: lines s
      else if Ascii.eqb c CR && (match s with String d _ => Ascii.eqb d LF | _ => false end)
      then lines s
      else match lines s with
           | [] => [String c ""]
           | l :: ls => String c l :: ls
           end
  end.

(** [char::is_whitespace]: the property White_Space. *)
Definition is_whitespace (c : Z) : bool :=
  ((9 <=? c) && (c <=? 13)) || ((0x2000 <=? c) && (c <=? 0x200A))
  || existsb (Z.eqb c) [0x20; 0x85; 0xA0; 0x1680; 0x2028; 0x2029; 0x202F; 0x205F; 0x3000].

(** [str::chars], each with its bytes; the length is fuel enough, a character has a byte. *)
Fixpoint chars_fuel (fuel : nat) (s : list Z) : list (Z * list Z) :=
  match fuel, s with
  | O, _ | _, [] => []
  | S fuel, _ => let '(c, w) := decode_rune s in (c, take w s) :: chars_fuel fuel (drop w s)
  end.
Definition chars (s : string) : list (Z * list Z) := chars_fuel (String.length s) (bytes s).
Definition of_chars (l : list (Z * list Z)) : string := of_bytes (mjoin l.*2).

(** [str::split_whitespace]: the words of a text, never empty. *)
Definition flush (word : list (Z * list Z)) : list string :=
  match word with [] => [] | _ => [of_chars word] end.
Fixpoint words (word cs : list (Z * list Z)) : list string :=
  match cs with
  | [] => flush word
  | c :: cs => if is_whitespace c.1 then flush word ++ words [] cs else words (word ++ [c]) cs
  end.
Definition split_whitespace (s : string) : list string := words [] (chars s).

(** [str::trim]. *)
Fixpoint drop_while {A} (f : A -> bool) (l : list A) : list A :=
  match l with
  | a :: t => if f a then drop_while f t else l
  | [] => []
  end.
Definition trim_end {A} (f : A -> bool) (l : list A) : list A := reverse (drop_while f (reverse l)).
Definition trim (s : string) : string :=
  let space (c : Z * list Z) := is_whitespace c.1 in
  of_chars (trim_end space (drop_while space (chars s))).

(** [trim_matches(b)], [trim_end_matches(f)] on single bytes, [trim_start_matches(p)]. *)
Definition trim_matches (b : Z) (s : string) : string :=
  of_bytes (trim_end (Z.eqb b) (drop_while (Z.eqb b) (bytes s))).
Definition trim_end_matches (f : Z -> bool) (s : string) : string := of_bytes (trim_end f (bytes s)).
Fixpoint trim_start_fuel (fuel : nat) (p s : string) : string :=
  match fuel with
  | O => s
  | S fuel => if String.prefix p s then trim_start_fuel fuel p (str_drop (String.length p) s) else s
  end.
Definition trim_start_matches (p s : string) : string := trim_start_fuel (String.length s) p s.
Definition is_ascii_digit (b : Z) : bool := (48 <=? b) && (b <=? 57).

Definition starts_with (p s : string) : bool := String.prefix p s.
Definition strip_prefix (p s : string) : option string :=
  if String.prefix p s then Some (str_drop (String.length p) s) else None.
Definition contains (s sub : string) : bool := bool_decide (is_Some (Index s sub)).

(** [Iterator::find_map]. *)
Fixpoint find_map {A B} (f : A -> option B) (l : list A) : option B :=
  match l with
  | [] => None
  | a :: l => match f a with Some b => Some b | None => find_map f l end
  end.

(** ** Numbers *)
Definition maxU64 : Z := 2 ^ 64 - 1.
Definition saturating_sub (a b : Z) : Z := Z.max 0 (a - b).
Definition as_i32 (z : Z) : Z := (z + 2 ^ 31) mod 2 ^ 32 - 2 ^ 31.
Definition as_u64 (z : Z) : Z := z mod 2 ^ 64.
Definition wrapU32 (z : Z) : Z := z mod 2 ^ 32.

(** [iter().sum::<f64>()], which starts from minus zero, and [/]. *)
Definition f64_sum (l : list spec_float) : spec_float :=
  foldl (SFadd 53 1024) (S754_zero true) l.
Definition f64_div : spec_float -> spec_float -> spec_float := SFdiv 53 1024.

(** ** [anyhow::Result]: an error is the text it is displayed as, its outermost context. *)
Inductive result (A : Type) : Type := Ok (a : A) | Err (context : string).
Arguments Ok {A} a.
Arguments Err {A} context.

(** * Facts *)
Lemma as_i32_range z : is_i32 (as_i32 z).
Proof. unfold is_i32, as_i32. pose proof (Z.mod_pos_bound (z + 2 ^ 31) (2 ^ 32)). lia. Qed.
Lemma as_i32_id z : is_i32 z -> as_i32 z = z.
Proof. unfold is_i32, as_i32. intros H. rewrite Z.mod_small; lia. Qed.
Lemma as_u64_range z : is_u64 (as_u64 z).
Proof. apply Z.mod_pos_bound. lia. Qed.
#[export] Hint Resolve as_i32_range as_u64_range : nmonit.

Example lines_ends : lines ("a" +:+ String CR (String LF ("b" +:+ String LF ""))) = ["a"; "b"].
Proof. reflexivity. Qed.
Example words_spaces : split_whitespace "  /dev/sda1  / ext4 " = ["/dev/sda1"; "/"; "ext4"].
Proof. vm_compute. reflexivity. Qed.
Example trim_device :
  trim_end_matches is_ascii_digit (trim_start_matches "/dev/" "/dev/sda12") = "sda".
Proof. vm_compute. reflexivity. Qed.

(** ** Words of visible ASCII *)

(** A text of visible ASCII characters. *)
Definition visible (s : string) : Prop := Forall (fun b => 0x20 < b < 0x7F) (bytes s).

Lemma chars_ascii s : Forall (fun b => b < 0x80) (bytes s) -> chars s = (fun b => (b, [b])) <$> bytes s.
Proof.
  unfold chars. rewrite <- length_bytes. generalize (bytes s). clear s. intros s.
  assert (H : forall f s, (length s <= f)%nat -> Forall (fun b => b < 0x80) s ->
    chars_fuel f s = (fun b => (b, [b])) <$> s); [|by apply H].
  clear s. induction f as [|f IH]; intros [|b s] Hf Hs; try done; [simpl in Hf; lia|].
  inversion_clear Hs. cbn [chars_fuel]. rewrite decode_rune_ascii by done. simpl.
  f_equal. apply IH; [simpl in *; lia|done].
Qed.

Lemma visible_word b : 0x20 < b < 0x7F -> is_whitespace b = false.
Proof. intros Hb. unfold is_whitespace. simpl. repeat (rewrite (proj2 (Z.eqb_neq _ _)) by lia). nm_bool. lia. Qed.

(** A run of visible characters is taken into the current word. *)
Lemma words_visible w l cs :
  Forall (fun b => 0x20 < b < 0x7F) l ->
  words w (((fun b => (b, [b])) <$> l) ++ cs) = words (w ++ ((fun b => (b, [b])) <$> l)) cs.
Proof.
  intros Hl. revert w. induction Hl as [|b l Hb _ IH]; intros w; simpl; [by rewrite app_nil_r|].
  rewrite visible_word by done. rewrite IH. by rewrite <- app_assoc.
Qed.

Lemma of_chars_single s : of_chars ((fun b => (b, [b])) <$> bytes s) = s.
Proof.
  unfold of_chars. rewrite <- list_fmap_compose. rewrite <- (of_bytes_bytes s) at 2. f_equal.
  induction (bytes s) as [|b l IH]; simpl; [done|]. by f_equal.
Qed.

(** Words separated by single spaces are read back. *)
Lemma split_whitespace_join l :
  Forall (fun s => s <> "" /\ visible s) l -> split_whitespace (str_join " " l) = l.
Proof.
  intros Hl. unfold split_whitespace. rewrite chars_ascii.
  2:{ induction Hl as [|a l [_ Ha] Hl IH]; [constructor|]. destruct l as [|a' l]; simpl.
      - eapply Forall_impl; [exact Ha|]. simpl. lia.
      - rewrite !bytes_app. apply Forall_app_2; [eapply Forall_impl; [exact Ha|]; simpl; lia|].
        constructor; [done|exact IH]. }
  induction Hl as [|a l [Hne Ha] Hl IH]; [done|].
  assert (Hflush : flush ((fun b => (b, [b])) <$> bytes a) = [a]).
  { unfold flush. rewrite of_chars_single. by destruct a. }
  destruct l as [|a' l].
  - simpl. rewrite <- (app_nil_r (_ <$> bytes a)), words_visible by done.
    simpl. by rewrite ?app_nil_r.
  - cbn [str_join]. rewrite !bytes_app, !fmap_app, words_visible by done. simpl.
    rewrite Hflush. simpl. f_equal. exact IH.
Qed.

(** A line without line breaks is read back. *)
Definition printable (s : string) : Prop := Forall (fun b => 0x20 <= b < 0x7F) (bytes s).

Lemma lines_cons a s : printable a -> lines (a +:+ String LF s) = a :: lines s.
Proof.
  intros Ha. induction a as [|c a IH]; [done|]. inversion Ha as [|b l Hb Ha']; subst.
  assert (Hc : Ascii.eqb c LF = false /\ Ascii.eqb c CR = false).
  { split; apply Ascii.eqb_neq; intros ->; vm_compute in Hb; destruct Hb; congruence. }
  destruct Hc as [H1 H2]. cbn [String.append lines]. rewrite H1, H2. simpl. by rewrite IH.
Qed.
