(* ===== verification/GoTime.v ===== *)
(** [time.Time.Format(time.RFC3339)]: the calendar date of an instant, and its text; with the
    text read back. The local time zone is a parameter. *)
From S2P Require Import Prelude GoRuntime GoStrings.
From Stdlib Require Import Ascii.
Local Open Scope string_scope.
Local Open Scope Z_scope.

(** The offset of the local time from UTC, in seconds, at a Unix time. *)
Class LocalZone := { utc_offset : Z -> Z }.
Definition test_zone : LocalZone := {| utc_offset _ := 0 |}.

(** ** Dates of the proleptic Gregorian calendar

    Years are counted from March, in eras of 400 years (146097 days). *)
Definition year_of_era (doe : Z) : Z := (doe - doe / 1460 + doe / 36524 - doe / 146096) / 365.
Definition day_of_year (doe : Z) : Z :=
  let yoe := year_of_era doe in doe - (365 * yoe + yoe / 4 - yoe / 100).
Definition month_of_year (doy : Z) : Z := (5 * doy + 2) / 153.

(** Days since 1970-01-01 to year, month and day, and back. *)
Definition civil_from_days (days : Z) : Z * Z * Z :=
  let z := days + 719468 in
  let era := z / 146097 in
  let doe := z mod 146097 in
  let mp := month_of_year (day_of_year doe) in
  let m := if mp <? 10 then mp + 3 else mp - 9 in
  (year_of_era doe + era * 400 + (if m <=? 2 then 1 else 0),
   m, day_of_year doe - (153 * mp + 2) / 5 + 1).

Definition days_from_civil (y m d : Z) : Z :=
  let y' := if m <=? 2 then y - 1 else y in
  let yoe := y' mod 400 in
  let doy := (153 * (if 2 <? m then m - 3 else m + 9) + 2) / 5 + d - 1 in
  y' / 400 * 146097 + (yoe * 365 + yoe / 4 - yoe / 100 + doy) - 719468.

(** The years of an era, and the months of a year. *)
Lemma year_of_era_ok doe :
  0 <= doe < 146097 -> 0 <= year_of_era doe < 400 /\ 0 <= day_of_year doe <= 365.
Proof. intros H. unfold day_of_year, year_of_era. Z.div_mod_to_equations; lia. Qed.

Lemma month_of_year_ok doy :
  0 <= doy <= 365 ->
  0 <= month_of_year doy <= 11 /\ 0 <= doy - (153 * month_of_year doy + 2) / 5 <= 30.
Proof. intros H. unfold month_of_year. Z.div_mod_to_equations; lia. Qed.

(** The date of a day is valid, and gives the day back. *)
Lemma civil_round days :
  let '(y, m, d) := civil_from_days days in
  1 <= m <= 12 /\ 1 <= d <= 31 /\ days_from_civil y m d = days.
Proof.
  unfold civil_from_days. cbv zeta. set (z := days + 719468).
  destruct (year_of_era_ok (z mod 146097)) as [Hy Hdoy]; [apply Z.mod_pos_bound; lia|].
  unfold days_from_civil. unfold day_of_year in *.
  set (yoe := year_of_era (z mod 146097)) in *.
  set (doy := z mod 146097 - (365 * yoe + yoe / 4 - yoe / 100)) in *.
  destruct (month_of_year_ok doy Hdoy) as [Hmp Hd].
  set (mp := month_of_year doy) in *. set (m := if mp <? 10 then mp + 3 else mp - 9).
  assert (Hm : 1 <= m <= 12 /\ (if 2 <? m then m - 3 else m + 9) = mp).
  { unfold m. destruct (Z.ltb_spec mp 10).
    - destruct (Z.ltb_spec 2 (mp + 3)); lia.
    - destruct (Z.ltb_spec 2 (mp - 9)); lia. }
  destruct Hm as [Hm ->]. split; [lia|]. split; [lia|].
  replace (if m <=? 2 then yoe + z / 146097 * 400 + (if m <=? 2 then 1 else 0) - 1
           else yoe + z / 146097 * 400 + (if m <=? 2 then 1 else 0))
    with (yoe + z / 146097 * 400) by (destruct (m <=? 2); lia).
  rewrite Z.mod_add, Z.div_add, (Z.mod_small yoe), (Z.div_small yoe) by lia.
  pose proof (Z.div_mod z 146097). unfold doy. lia.
Qed.

(** ** The text *)
Definition digit_char (d : Z) : ascii := ascii_of_nat (Z.to_nat (48 + d)).

(** [appendInt(b, x, width)]: decimal digits, zero-padded to the width. *)
Fixpoint digits (width : nat) (x : Z) : string :=
  match width with
  | O => ""
  | S w => digits w (x / 10) +:+ String (digit_char (x mod 10)) ""
  end.
Definition appendInt (x : Z) (width : nat) : string :=
  if x <? 0 then "-" +:+ (if - x <? 10 ^ Z.of_nat width then digits width (- x) else pretty (- x))
  else if x <? 10 ^ Z.of_nat width then digits width x else pretty x.

Section format.
Context `{!LocalZone}.

Definition Format_RFC3339 (t : Time) : string :=
  let unix := t_wall t / Second in
  let offset := utc_offset unix in
  let local := unix + offset in
  let '(y, m, d) := civil_from_days (local / 86400) in
  let secs := local mod 86400 in
  appendInt y 4 +:+ "-" +:+ appendInt m 2 +:+ "-" +:+ appendInt d 2 +:+ "T"
  +:+ appendInt (secs / 3600) 2 +:+ ":" +:+ appendInt (secs / 60 mod 60) 2
  +:+ ":" +:+ appendInt (secs mod 60) 2
  +:+ (if offset =? 0 then "Z"
       else let zone := Z.quot offset 60 in
            (if zone <? 0 then "-" else "+")
            +:+ appendInt (Z.abs zone / 60) 2 +:+ ":" +:+ appendInt (Z.abs zone mod 60) 2).
End format.

Example Format_epoch : @Format_RFC3339 test_zone (mkTime 0 0) = "1970-01-01T00:00:00Z".
Proof. reflexivity. Qed.
Example Format_2024 :
  @Format_RFC3339 {| utc_offset _ := -19800 |} (mkTime (1709253296 * Second) 0)
  = "2024-02-29T19:04:56-05:30".
Proof. vm_compute. reflexivity. Qed.

(** ** Reading the text back *)
Definition digit_val (c : ascii) : option Z :=
  let v := byte_val c - 48 in
  if (0 <=? v) && (v <=? 9) then Some v else None.

(** The first [n] characters as a number, and the rest. *)
Fixpoint parse_digits (n : nat) (s : string) : option (Z * string) :=
  match n with
  | O => Some (0, s)
  | S n => match parse_digits n s with
           | Some (v, String c r) => d ← digit_val c; Some (v * 10 + d, r)
           | _ => None
           end
  end.
Definition expect (c : ascii) (s : string) : option string :=
  match s with
  | String c' r => if Ascii.eqb c' c then Some r else None
  | EmptyString => None
  end.

(** The offset of a time, in seconds. *)
Definition parse_zone (s : string) : option Z :=
  match s with
  | String c r =>
      if Ascii.eqb c "Z"%char then Some 0 else
      sign ← (if Ascii.eqb c "+"%char then Some 1
              else if Ascii.eqb c "-"%char then Some (-1) else None);
      '(h, r) ← parse_digits 2 r; r ← expect ":" r;
      '(m, _) ← parse_digits 2 r;
      Some (sign * (h * 3600 + m * 60))
  | EmptyString => None
  end.

(** The Unix time a text stands for. *)
Definition Parse_RFC3339 (s : string) : option Z :=
  '(y, s) ← parse_digits 4 s; s ← expect "-" s;
  '(mo, s) ← parse_digits 2 s; s ← expect "-" s;
  '(d, s) ← parse_digits 2 s; s ← expect "T" s;
  '(hh, s) ← parse_digits 2 s; s ← expect ":" s;
  '(mi, s) ← parse_digits 2 s; s ← expect ":" s;
  '(ss, s) ← parse_digits 2 s;
  off ← parse_zone s;
  Some (days_from_civil y mo d * 86400 + hh * 3600 + mi * 60 + ss - off).

Lemma digit_val_char d : 0 <= d <= 9 -> digit_val (digit_char d) = Some d.
Proof.
  intros Hd. assert (Hc : d ∈ seqZ 0 10) by (apply elem_of_seqZ; lia).
  assert (Hall : Forall (fun d => digit_val (digit_char d) = Some d) (seqZ 0 10))
    by (repeat constructor).
  rewrite Forall_forall in Hall. by apply Hall.
Qed.

Lemma parse_digits_ok n x rest :
  0 <= x < 10 ^ Z.of_nat n -> parse_digits n (digits n x +:+ rest) = Some (x, rest).
Proof.
  revert x rest. induction n as [|n IH]; intros x rest Hx.
  - simpl in Hx. simpl. do 2 f_equal. lia.
  - rewrite Nat2Z.inj_succ, Z.pow_succ_r in Hx by lia.
    cbn [digits parse_digits]. rewrite str_app_assoc.
    rewrite IH by (Z.div_mod_to_equations; lia). simpl.
    rewrite digit_val_char by (Z.div_mod_to_equations; lia). simpl. do 2 f_equal.
    rewrite (Z.div_mod x 10) at 3 by lia. lia.
Qed.

Lemma parse_appendInt n x rest :
  0 <= x < 10 ^ Z.of_nat n -> parse_digits n (appendInt x n +:+ rest) = Some (x, rest).
Proof.
  intros Hx. unfold appendInt.
  rewrite (proj2 (Z.ltb_ge x 0)), (proj2 (Z.ltb_lt x _)) by lia. by apply parse_digits_ok.
Qed.

Lemma parse_zone_ok offset :
  offset mod 60 = 0 -> - 100 * 3600 < offset < 100 * 3600 ->
  parse_zone (if offset =? 0 then "Z"
              else let zone := Z.quot offset 60 in
                   (if zone <? 0 then "-" else "+")
                   +:+ appendInt (Z.abs zone / 60) 2 +:+ ":" +:+ appendInt (Z.abs zone mod 60) 2)
  = Some offset.
Proof.
  intros Hm Hb. destruct (Z.eqb_spec offset 0) as [->|Hne]; [done|]. cbv zeta.
  assert (Hq : Z.quot offset 60 = offset / 60).
  { apply Z.mod_divide in Hm as [k ->]; [|done]. by rewrite Z.quot_mul, Z.div_mul. }
  rewrite Hq. set (z := offset / 60).
  assert (Hz : offset = 60 * z) by (pose proof (Z.div_mod offset 60); unfold z; lia).
  assert (Hbz : Z.abs z < 6000) by lia.
  assert (Hp : parse_digits 2 (appendInt (Z.abs z / 60) 2 +:+ ":" +:+ appendInt (Z.abs z mod 60) 2)
    = Some (Z.abs z / 60, ":" +:+ appendInt (Z.abs z mod 60) 2)).
  { apply parse_appendInt. change (10 ^ Z.of_nat 2) with 100. Z.div_mod_to_equations; lia. }
  assert (Hp2 : parse_digits 2 (appendInt (Z.abs z mod 60) 2) = Some (Z.abs z mod 60, "")).
  { rewrite <- (str_app_nil_r (appendInt _ 2)). apply parse_appendInt.
    change (10 ^ Z.of_nat 2) with 100. Z.div_mod_to_equations; lia. }
  assert (Habs : Z.abs z / 60 * 3600 + Z.abs z mod 60 * 60 = 60 * Z.abs z)
    by (pose proof (Z.div_mod (Z.abs z) 60); lia).
  assert (Hneg : forall r, parse_zone ("-" +:+ r) =
    ('(h, r) ← parse_digits 2 r; r ← expect ":" r; '(m, _) ← parse_digits 2 r;
     Some (-1 * (h * 3600 + m * 60)))) by done.
  assert (Hpos : forall r, parse_zone ("+" +:+ r) =
    ('(h, r) ← parse_digits 2 r; r ← expect ":" r; '(m, _) ← parse_digits 2 r;
     Some (1 * (h * 3600 + m * 60)))) by done.
  assert (Hcolon : forall r, expect ":" (":" +:+ r) = Some r) by done.
  destruct (Z.ltb_spec z 0); rewrite ?Hneg, ?Hpos, Hp; unfold mbind, option_bind;
    rewrite Hcolon, Hp2; f_equal; lia.
Qed.

(** A Unix time is its day and its time of day. *)
Lemma time_of_day_ok local :
  let secs := local mod 86400 in
  0 <= secs / 3600 < 24 /\ 0 <= secs / 60 mod 60 < 60 /\ 0 <= secs mod 60 < 60
  /\ local / 86400 * 86400 + secs / 3600 * 3600 + secs / 60 mod 60 * 60 + secs mod 60 = local.
Proof. cbv zeta. Z.div_mod_to_equations; lia. Qed.

Lemma RFC3339_round `{!LocalZone} t :
  let unix := t_wall t / Second in
  let offset := utc_offset unix in
  offset mod 60 = 0 -> - 100 * 3600 < offset < 100 * 3600 ->
  0 <= (civil_from_days ((unix + offset) / 86400)).1.1 <= 9999 ->
  Parse_RFC3339 (Format_RFC3339 t) = Some unix.
Proof.
  cbv zeta. unfold Format_RFC3339. set (unix := t_wall t / Second).
  set (offset := utc_offset unix). intros Hm Hb Hy. cbv zeta.
  pose proof (civil_round ((unix + offset) / 86400)) as Hc.
  destruct (civil_from_days ((unix + offset) / 86400)) as [[y m] d]. simpl in Hy.
  destruct Hc as (Hmo & Hd & Hday).
  destruct (time_of_day_ok (unix + offset)) as (Hh & Hmi & Hs & Hsum).
  set (secs := (unix + offset) mod 86400) in *.
  pose proof (parse_zone_ok offset Hm Hb) as Hz. cbv zeta in Hz.
  set (zone := if offset =? 0 then "Z" else _) in *.
  unfold Parse_RFC3339.
  assert (P4 : 10 ^ Z.of_nat 4 = 10000) by done. assert (P2 : 10 ^ Z.of_nat 2 = 100) by done.
  repeat (rewrite parse_appendInt by lia; cbn [mbind option_bind String.append expect Ascii.eqb Bool.eqb]).
  rewrite Hz. cbn [mbind option_bind]. rewrite Hday. f_equal. lia.
Qed.

(** The text is ASCII. *)
Definition ascii_text (s : string) : Prop := Forall (fun b => b < 0x80) (bytes s).

Lemma ascii_text_app s t : ascii_text s -> ascii_text t -> ascii_text (s +:+ t).
Proof. unfold ascii_text. rewrite bytes_app. by apply Forall_app_2. Qed.

Lemma ascii_text_digits n x : ascii_text (digits n x).
Proof.
  revert x. induction n as [|n IH]; intros x; [constructor|]. simpl.
  apply ascii_text_app; [done|]. constructor; [|constructor].
  assert (Hd : Forall (fun d => byte_val (digit_char d) < 0x80) (seqZ 0 10))
    by (vm_compute; repeat constructor).
  rewrite Forall_forall in Hd. apply Hd, elem_of_seqZ. Z.div_mod_to_equations; lia.
Qed.

Lemma ascii_text_appendInt n x : 0 <= x < 10 ^ Z.of_nat n -> ascii_text (appendInt x n).
Proof.
  intros Hx. unfold appendInt.
  rewrite (proj2 (Z.ltb_ge x 0)), (proj2 (Z.ltb_lt x _)) by lia. apply ascii_text_digits.
Qed.

Lemma ascii_text_RFC3339 `{!LocalZone} t :
  let unix := t_wall t / Second in
  let offset := utc_offset unix in
  - 100 * 3600 < offset < 100 * 3600 ->
  0 <= (civil_from_days ((unix + offset) / 86400)).1.1 <= 9999 ->
  ascii_text (Format_RFC3339 t).
Proof.
  cbv zeta. unfold Format_RFC3339. set (unix := t_wall t / Second).
  set (offset := utc_offset unix). intros Hb Hy. cbv zeta.
  pose proof (civil_round ((unix + offset) / 86400)) as Hc.
  destruct (civil_from_days ((unix + offset) / 86400)) as [[y m] d]. simpl in Hy.
  destruct Hc as (Hmo & Hd & _).
  destruct (time_of_day_ok (unix + offset)) as (Hh & Hmi & Hs & _).
  set (secs := (unix + offset) mod 86400) in *.
  assert (P4 : 10 ^ Z.of_nat 4 = 10000) by done. assert (P2 : 10 ^ Z.of_nat 2 = 100) by done.
  assert (Hz : 0 <= Z.abs (Z.quot offset 60) < 6000) by (Z.quot_rem_to_equations; lia).
  repeat first
    [ apply ascii_text_app
    | apply ascii_text_appendInt; rewrite ?P2, ?P4; Z.div_mod_to_equations; lia
    | progress case_match
    | repeat constructor ].
Qed.
