(* ===== verification/Regexp.v ===== *)
(** The regular expressions of [regexp.MustCompile]: syntax, the language a pattern
    denotes, and an executable matcher by derivatives that decides it.

    Both patterns of the sources are of the form [^body$] without the multi-line flag, so
    [MatchString] holds exactly when the whole text is in the language of [body]; a text is
    matched rune by rune ([GoStrings.runes]). *)
From S2P Require Import Prelude GoStrings.
From Stdlib Require Import Ascii.

(** A character class is a list of inclusive rune ranges. *)
Definition rune_class : Type := list (Z * Z).
Definition in_class (rs : rune_class) (r : Z) : bool :=
  existsb (fun '(lo, hi) => (lo <=? r) && (r <=? hi)) rs.

Definition rng (a b : ascii) : Z * Z := (byte_val a, byte_val b).
Definition chr (a : ascii) : Z * Z := (byte_val a, byte_val a).

Inductive regex : Type :=
  | RVoid
  | REps
  | RClass (rs : rune_class)
  | RCat (r1 r2 : regex)
  | RAlt (r1 r2 : regex)
  | RStar (r : regex).

#[export] Instance regex_eq_dec : EqDecision regex.
Proof. solve_decision. Defined.

(** [r?], [r+], [r{n}] and a literal. *)
Definition ROpt (r : regex) : regex := RAlt r REps.
Definition RPlus (r : regex) : regex := RCat r (RStar r).
Fixpoint RRep (n : nat) (r : regex) : regex :=
  match n with O => REps | S n => RCat r (RRep n r) end.
Fixpoint RLit (s : string) : regex :=
  match s with EmptyString => REps | String c s => RCat (RClass [chr c]) (RLit s) end.

(** Under the flag [(?i)] the parser adds to a class the runes [unicode.SimpleFold] links to
    its members: the other case of a letter, the Kelvin sign U+212A for [k] and the long s
    U+017F for [s] ([regexp/syntax.appendFoldedRange]). *)
Definition fold_orbit (c : Z) : list Z :=
  let pair := if (65 <=? c) && (c <=? 90) then [c; c + 32]
              else if (97 <=? c) && (c <=? 122) then [c; c - 32] else [c] in
  pair ++ (if (c =? 75) || (c =? 107) then [0x212A] else [])
       ++ (if (c =? 83) || (c =? 115) then [0x17F] else []).
Definition fold_class (rs : rune_class) : rune_class :=
  flat_map (fun '(lo, hi) =>
    flat_map (fun c => map (fun d => (d, d)) (fold_orbit c)) (seqZ lo (hi - lo + 1))) rs.

(** ** The language of a pattern *)
Inductive matches : regex -> list Z -> Prop :=
  | m_eps : matches REps []
  | m_class rs c : in_class rs c = true -> matches (RClass rs) [c]
  | m_cat r1 r2 s1 s2 : matches r1 s1 -> matches r2 s2 -> matches (RCat r1 r2) (s1 ++ s2)
  | m_alt_l r1 r2 s : matches r1 s -> matches (RAlt r1 r2) s
  | m_alt_r r1 r2 s : matches r2 s -> matches (RAlt r1 r2) s
  | m_star_nil r : matches (RStar r) []
  | m_star_app r s1 s2 : matches r s1 -> matches (RStar r) s2 -> matches (RStar r) (s1 ++ s2).
#[export] Hint Constructors matches : nmonit.

(** ** The matcher *)
Fixpoint nullable (r : regex) : bool :=
  match r with
  | RVoid | RClass _ => false
  | REps | RStar _ => true
  | RCat r1 r2 => nullable r1 && nullable r2
  | RAlt r1 r2 => nullable r1 || nullable r2
  end.

(** Simplifying constructors keep the derivatives small. *)
Fixpoint alt_mem (r a : regex) : bool :=
  match a with
  | RAlt a1 a2 => bool_decide (r = a1) || alt_mem r a2
  | _ => bool_decide (r = a)
  end.
Fixpoint salt (a b : regex) : regex :=
  match a with
  | RVoid => b
  | RAlt a1 a2 => let b' := salt a2 b in if alt_mem a1 b' then b' else RAlt a1 b'
  | _ => if alt_mem a b then b else match b with RVoid => a | _ => RAlt a b end
  end.
Definition scat (a b : regex) : regex :=
  match a with RVoid => RVoid | REps => b | _ => match b with RVoid => RVoid | _ => RCat a b end end.

Fixpoint deriv (c : Z) (r : regex) : regex :=
  match r with
  | RVoid | REps => RVoid
  | RClass rs => if in_class rs c then REps else RVoid
  | RCat r1 r2 => if nullable r1 then salt (scat (deriv c r1) r2) (deriv c r2)
                  else scat (deriv c r1) r2
  | RAlt r1 r2 => salt (deriv c r1) (deriv c r2)
  | RStar r => scat (deriv c r) (RStar r)
  end.

Fixpoint matchb (r : regex) (s : list Z) : bool :=
  match s with
  | [] => nullable r
  | c :: s => matchb (deriv c r) s
  end.

(** [regexp.MustCompile("^body$").MatchString(s)]. *)
Definition MatchString (body : regex) (s : string) : bool := matchb body (runes s).

(** * The matcher decides the language *)
Lemma matches_void s : ~ matches RVoid s.
Proof. inversion 1. Qed.
Lemma matches_eps s : matches REps s <-> s = [].
Proof. split; [by inversion 1|]. intros ->. constructor. Qed.
Lemma matches_class rs s : matches (RClass rs) s <-> exists c, s = [c] /\ in_class rs c = true.
Proof. split; [inversion 1; eauto|]. intros (c & -> & H). by constructor. Qed.
Lemma matches_cat r1 r2 s :
  matches (RCat r1 r2) s <-> exists s1 s2, s = s1 ++ s2 /\ matches r1 s1 /\ matches r2 s2.
Proof. split; [inversion 1; eauto|]. intros (s1 & s2 & -> & H1 & H2). by constructor. Qed.
Lemma matches_alt r1 r2 s : matches (RAlt r1 r2) s <-> matches r1 s \/ matches r2 s.
Proof. split; [inversion 1; auto|]. intros [H|H]; auto with nmonit. Qed.

Lemma matches_star r s :
  matches (RStar r) s <-> exists ss, s = concat ss /\ Forall (matches r) ss.
Proof.
  split.
  - intros H. remember (RStar r) as q eqn:Hq. revert Hq.
    induction H; intros [= ->]; [by exists []|].
    destruct IHmatches2 as (ss & -> & Hss); [done|]. exists (s1 :: ss). auto.
  - intros (ss & -> & Hss). induction Hss; simpl; auto with nmonit.
Qed.

(** A non-empty word of [r*] starts with a non-empty word of [r]. *)
Lemma matches_star_cons r c s :
  matches (RStar r) (c :: s) <->
  exists s1 s2, s = s1 ++ s2 /\ matches r (c :: s1) /\ matches (RStar r) s2.
Proof.
  split.
  - rewrite matches_star. intros (ss & Heq & Hss). revert Heq.
    induction Hss as [|w ss Hw Hss IH]; simpl; [done|]. destruct w as [|d w]; simpl.
    + exact IH.
    + intros [= <- ->]. exists w, (concat ss). split; [done|]. split; [done|].
      apply matches_star. eauto.
  - intros (s1 & s2 & -> & H1 & H2). apply (m_star_app r (c :: s1) s2 H1 H2).
Qed.

Lemma nullable_spec r : nullable r = true <-> matches r [].
Proof.
  induction r; simpl.
  - split; [done|]. intros H. by apply matches_void in H.
  - split; auto with nmonit.
  - split; [done|]. rewrite matches_class. intros (c & H & _). discriminate.
  - rewrite andb_true_iff, matches_cat, IHr1, IHr2. split.
    + intros [H1 H2]. by exists [], [].
    + intros (s1 & s2 & Hs & H1 & H2). symmetry in Hs. apply app_nil in Hs as [-> ->]. done.
  - rewrite orb_true_iff, matches_alt, IHr1, IHr2. done.
  - split; auto with nmonit.
Qed.

Lemma alt_mem_spec r a s : alt_mem r a = true -> matches r s -> matches a s.
Proof.
  induction a; simpl; rewrite ?orb_true_iff, ?bool_decide_eq_true; try (by intros ->).
  rewrite matches_alt. intros [->|H] Hm; auto.
Qed.

Lemma salt_spec a b s : matches (salt a b) s <-> matches a s \/ matches b s.
Proof.
  assert (Hleaf : forall a', matches (if alt_mem a' b then b
             else match b with RVoid => a' | _ => RAlt a' b end) s <-> matches a' s \/ matches b s).
  { intros a'. destruct (alt_mem a' b) eqn:E.
    - split; [auto|]. intros [H|H]; [|done]. by eapply alt_mem_spec.
    - pose proof (matches_void s). destruct b; rewrite ?matches_alt; tauto. }
  revert b Hleaf. induction a; intros b Hleaf; cbn [salt]; try apply Hleaf.
  - pose proof (matches_void s). tauto.
  - rewrite matches_alt. destruct (alt_mem a1 (salt a2 b)) eqn:E.
    + rewrite IHa2 by done. split; [tauto|]. intros [[H|H]|H]; auto.
      apply IHa2; [done|]. by eapply alt_mem_spec.
    + rewrite matches_alt, IHa2 by done. tauto.
Qed.

Lemma scat_spec a b s : matches (scat a b) s <-> matches (RCat a b) s.
Proof.
  rewrite matches_cat. destruct a; simpl.
  1:{ split; [by intros ?%matches_void|]. by intros (?&?&_&?%matches_void&_). }
  1:{ split; [intros H; exists [], s; auto with nmonit|]. intros (s1 & s2 & -> & ->%matches_eps & H). done. }
  all: destruct b; rewrite ?matches_cat; try done;
    (split; [by intros ?%matches_void|]; by intros (?&?&_&_&?%matches_void)).
Qed.

Lemma deriv_spec c r s : matches (deriv c r) s <-> matches r (c :: s).
Proof.
  revert s. induction r as [| |rs|r1 IH1 r2 IH2|r1 IH1 r2 IH2|r IH]; intros s; simpl.
  - split; intros H; inversion H.
  - split; intros H; inversion H.
  - rewrite matches_class. destruct (in_class rs c) eqn:E.
    + rewrite matches_eps. split; [intros ->; eauto|]. by intros (d & [= _ ->] & _).
    + split; [by intros ?%matches_void|]. intros (d & [= <- _] & H). congruence.
  - assert (Hcat : matches (RCat r1 r2) (c :: s) <->
      matches (RCat (deriv c r1) r2) s \/ (nullable r1 = true /\ matches r2 (c :: s))).
    { rewrite nullable_spec, !matches_cat. split.
      - intros ([|d s1] & s2 & Heq & H1 & H2); simpl in Heq; subst; [by right|].
        injection Heq as <- ->. left. exists s1, s2. by rewrite IH1.
      - intros [(s1 & s2 & -> & H1 & H2)|[H1 H2]].
        + exists (c :: s1), s2. by rewrite <- IH1.
        + by exists [], (c :: s). }
    rewrite Hcat. destruct (nullable r1).
    + rewrite salt_spec, scat_spec, IH2. tauto.
    + rewrite scat_spec. split; [auto|]. by intros [?|[? _]].
  - rewrite salt_spec, matches_alt, IH1, IH2. done.
  - rewrite scat_spec, matches_cat, matches_star_cons.
    split; intros (s1 & s2 & -> & H1 & H2); exists s1, s2; by rewrite IH in *.
Qed.

Lemma matchb_spec r s : matchb r s = true <-> matches r s.
Proof.
  revert r. induction s as [|c s IH]; intros r; simpl.
  - apply nullable_spec.
  - by rewrite IH, deriv_spec.
Qed.

(** ** Derived forms *)
Lemma matches_opt r s : matches (ROpt r) s <-> s = [] \/ matches r s.
Proof. unfold ROpt. rewrite matches_alt, matches_eps. tauto. Qed.

Lemma matches_star_class rs s : matches (RStar (RClass rs)) s <-> Forall (fun c => in_class rs c = true) s.
Proof.
  rewrite matches_star. split.
  - intros (ss & -> & H). induction H as [|w ss Hw _ IH]; simpl; [constructor|].
    apply matches_class in Hw as (c & -> & Hc). by constructor.
  - intros H. exists (map (fun c => [c]) s).
    split; [|apply Forall_map; eapply Forall_impl; [exact H|]; intros; by constructor].
    clear H. induction s as [|c s IH]; simpl; [done|]. by rewrite <- IH.
Qed.

Lemma matches_class_star rs1 rs2 s :
  matches (RCat (RClass rs1) (RStar (RClass rs2))) s <->
  exists c t, s = c :: t /\ in_class rs1 c = true /\ Forall (fun c => in_class rs2 c = true) t.
Proof.
  rewrite matches_cat. setoid_rewrite matches_class. setoid_rewrite matches_star_class.
  split.
  - intros (s1 & t & -> & (c & -> & Hc) & Ht). exists c, t. auto.
  - intros (c & t & -> & Hc & Ht). exists [c], t. eauto.
Qed.

Lemma matches_rep_class n rs s :
  matches (RRep n (RClass rs)) s <-> length s = n /\ Forall (fun c => in_class rs c = true) s.
Proof.
  revert s. induction n as [|n IH]; intros s; simpl.
  - rewrite matches_eps. split; [by intros ->|]. by intros [?%nil_length_inv _].
  - rewrite matches_cat. setoid_rewrite IH. setoid_rewrite matches_class. split.
    + intros (s1 & s2 & -> & (c & -> & Hc) & <- & H). split; [done|]. by constructor.
    + destruct s as [|c s]; simpl; [by intros [? _]|]. intros [[= Hl] [Hc H]%Forall_cons].
      exists [c], s. repeat split; try done. by exists c.
Qed.

Lemma matches_lit t s : matches (RLit t) s <-> s = bytes t.
Proof.
  revert s. induction t as [|c t IH]; intros s; simpl; [apply matches_eps|].
  rewrite matches_cat. setoid_rewrite matches_class. setoid_rewrite IH. split.
  - intros (s1 & s2 & -> & (d & -> & Hd) & ->). simpl in Hd. simpl. f_equal.
    rewrite orb_false_r, andb_true_iff, !Z.leb_le in Hd. lia.
  - intros ->. exists [byte_val c], (bytes t). split; [done|]. split; [|done].
    eexists; split; [done|]. simpl. by rewrite Z.leb_refl.
Qed.

Lemma in_class_app rs1 rs2 r : in_class (rs1 ++ rs2) r = in_class rs1 r || in_class rs2 r.
Proof. apply existsb_app. Qed.

(** What folding adds to an ASCII class. *)
Lemma in_fold_class rs r :
  in_class (fold_class rs) r = true <->
  exists c, in_class rs c = true /\ r ∈ fold_orbit c.
Proof.
  unfold in_class, fold_class. rewrite existsb_exists. split.
  - intros ([lo hi] & Hin & Hr). apply in_flat_map in Hin as ([lo' hi'] & Hrs & Hin).
    apply in_flat_map in Hin as (c & Hc & Hin). apply in_map_iff in Hin as (d & [= <- <-] & Hd).
    rewrite andb_true_iff, !Z.leb_le in Hr. assert (r = d) as -> by lia.
    exists c. split; [|by apply list_elem_of_In].
    apply existsb_exists. exists (lo', hi'). split; [done|].
    apply list_elem_of_In, elem_of_seqZ in Hc. rewrite andb_true_iff, !Z.leb_le. lia.
  - intros (c & Hc & Hr). apply existsb_exists in Hc as ([lo hi] & Hrs & Hc).
    rewrite andb_true_iff, !Z.leb_le in Hc. exists (r, r).
    split; [|by rewrite Z.leb_refl].
    apply in_flat_map. exists (lo, hi). split; [done|].
    apply in_flat_map. exists c. split; [apply list_elem_of_In, elem_of_seqZ; lia|].
    apply in_map_iff. exists r. split; [done|]. by apply list_elem_of_In.
Qed.
