(* ===== verification/PbResource.v ===== *)
(** The wire types of [control-plane/gen/compute/v1/resource.pb.go]: hardware resources, utilization and scheduling requirements.

    A message is a record; a Go pointer to a message is an [option] ([None] is nil),
    a repeated field a list, an enum its int32 value.  Every getter takes a possibly
    nil receiver, as in the Go code, and [Reset] stores the zero message. A field whose name is also 
    the name of an enum gets a final underscore. *)
From Stdlib Require Import ZArith SpecFloat.
From stdpp Require Import base strings gmap list.
From S2P Require Import Prelude.
Local Open Scope string_scope.
Local Open Scope Z_scope.

Definition GpuCapability_Cap : Type := Z.
Definition GpuCapability_FP64 : GpuCapability_Cap := 0.
Definition GpuCapability_FP32 : GpuCapability_Cap := 1.
Definition GpuCapability_FP16 : GpuCapability_Cap := 2.
Definition GpuCapability_BF16 : GpuCapability_Cap := 3.
Definition GpuCapability_INT8 : GpuCapability_Cap := 4.
Definition GpuCapability_INT4 : GpuCapability_Cap := 5.
Definition GpuCapability_TF32 : GpuCapability_Cap := 6.
Definition GpuCapability_FP8 : GpuCapability_Cap := 7.
Definition GpuCapability_Cap_name : gmap Z string :=
  list_to_map [(0, "FP64"); (1, "FP32"); (2, "FP16"); (3, "BF16"); (4, "INT8"); (5, "INT4"); (6, "TF32"); (7, "FP8")].
Definition GpuCapability_Cap_value : gmap string Z :=
  list_to_map [("FP64", 0); ("FP32", 1); ("FP16", 2); ("BF16", 3); ("INT8", 4); ("INT4", 5); ("TF32", 6); ("FP8", 7)].

Definition AffinityRule_Type : Type := Z.
Definition AffinityRule_SAME_NODE_AS_DATA : AffinityRule_Type := 0.
Definition AffinityRule_SAME_NODE_AS_SERVICE : AffinityRule_Type := 1.
Definition AffinityRule_DIFFERENT_NODE_THAN_SERVICE : AffinityRule_Type := 2.
Definition AffinityRule_SAME_RACK : AffinityRule_Type := 3.
Definition AffinityRule_SAME_SWITCH : AffinityRule_Type := 4.
Definition AffinityRule_Type_name : gmap Z string :=
  list_to_map [(0, "SAME_NODE_AS_DATA"); (1, "SAME_NODE_AS_SERVICE"); (2, "DIFFERENT_NODE_THAN_SERVICE"); (3, "SAME_RACK"); (4, "SAME_SWITCH")].
Definition AffinityRule_Type_value : gmap string Z :=
  list_to_map [("SAME_NODE_AS_DATA", 0); ("SAME_NODE_AS_SERVICE", 1); ("DIFFERENT_NODE_THAN_SERVICE", 2); ("SAME_RACK", 3); ("SAME_SWITCH", 4)].

Record NumaNode := mkNumaNode {
  NumaNode_Id : Z;
  NumaNode_CoreIds : list Z;
  NumaNode_MemoryBytes : Z
}.
Definition NumaNode_Reset : NumaNode :=
  mkNumaNode 0 [] 0.
Definition NumaNode_GetId (x : option NumaNode) : Z :=
  match x with Some x => NumaNode_Id x | None => 0 end.
Definition NumaNode_GetCoreIds (x : option NumaNode) : list Z :=
  match x with Some x => NumaNode_CoreIds x | None => [] end.
Definition NumaNode_GetMemoryBytes (x : option NumaNode) : Z :=
  match x with Some x => NumaNode_MemoryBytes x | None => 0 end.

Record CpuResources := mkCpuResources {
  CpuResources_PhysicalCores : Z;
  CpuResources_LogicalCores : Z;
  CpuResources_Architecture : string;
  CpuResources_ModelName : string;
  CpuResources_FrequencyMhz : Z;
  CpuResources_MaxFrequencyMhz : Z;
  CpuResources_NumaNodes : list NumaNode
}.
Definition CpuResources_Reset : CpuResources :=
  mkCpuResources 0 0 "" "" 0 0 [].
Definition CpuResources_GetPhysicalCores (x : option CpuResources) : Z :=
  match x with Some x => CpuResources_PhysicalCores x | None => 0 end.
Definition CpuResources_GetLogicalCores (x : option CpuResources) : Z :=
  match x with Some x => CpuResources_LogicalCores x | None => 0 end.
Definition CpuResources_GetArchitecture (x : option CpuResources) : string :=
  match x with Some x => CpuResources_Architecture x | None => "" end.
Definition CpuResources_GetModelName (x : option CpuResources) : string :=
  match x with Some x => CpuResources_ModelName x | None => "" end.
Definition CpuResources_GetFrequencyMhz (x : option CpuResources) : Z :=
  match x with Some x => CpuResources_FrequencyMhz x | None => 0 end.
Definition CpuResources_GetMaxFrequencyMhz (x : option CpuResources) : Z :=
  match x with Some x => CpuResources_MaxFrequencyMhz x | None => 0 end.
Definition CpuResources_GetNumaNodes (x : option CpuResources) : list NumaNode :=
  match x with Some x => CpuResources_NumaNodes x | None => [] end.

Record MemoryTier := mkMemoryTier {
  MemoryTier_Name : string;
  MemoryTier_TotalBytes : Z;
  MemoryTier_AvailableBytes : Z;
  MemoryTier_LatencyNs : Z;
  MemoryTier_BandwidthMbps : Z
}.
Definition MemoryTier_Reset : MemoryTier :=
  mkMemoryTier "" 0 0 0 0.
Definition MemoryTier_GetName (x : option MemoryTier) : string :=
  match x with Some x => MemoryTier_Name x | None => "" end.
Definition MemoryTier_GetTotalBytes (x : option MemoryTier) : Z :=
  match x with Some x => MemoryTier_TotalBytes x | None => 0 end.
Definition MemoryTier_GetAvailableBytes (x : option MemoryTier) : Z :=
  match x with Some x => MemoryTier_AvailableBytes x | None => 0 end.
Definition MemoryTier_GetLatencyNs (x : option MemoryTier) : Z :=
  match x with Some x => MemoryTier_LatencyNs x | None => 0 end.
Definition MemoryTier_GetBandwidthMbps (x : option MemoryTier) : Z :=
  match x with Some x => MemoryTier_BandwidthMbps x | None => 0 end.

Record MemoryResources := mkMemoryResources {
  MemoryResources_TotalBytes : Z;
  MemoryResources_Hugepage_2MbCount : Z;
  MemoryResources_Hugepage_1GbCount : Z;
  MemoryResources_SpeedMhz : Z;
  MemoryResources_Type : string;
  MemoryResources_Tiers : list MemoryTier
}.
Definition MemoryResources_Reset : MemoryResources :=
  mkMemoryResources 0 0 0 0 "" [].
Definition MemoryResources_GetTotalBytes (x : option MemoryResources) : Z :=
  match x with Some x => MemoryResources_TotalBytes x | None => 0 end.
Definition MemoryResources_GetHugepage_2MbCount (x : option MemoryResources) : Z :=
  match x with Some x => MemoryResources_Hugepage_2MbCount x | None => 0 end.
Definition MemoryResources_GetHugepage_1GbCount (x : option MemoryResources) : Z :=
  match x with Some x => MemoryResources_Hugepage_1GbCount x | None => 0 end.
Definition MemoryResources_GetSpeedMhz (x : option MemoryResources) : Z :=
  match x with Some x => MemoryResources_SpeedMhz x | None => 0 end.
Definition MemoryResources_GetType (x : option MemoryResources) : string :=
  match x with Some x => MemoryResources_Type x | None => "" end.
Definition MemoryResources_GetTiers (x : option MemoryResources) : list MemoryTier :=
  match x with Some x => MemoryResources_Tiers x | None => [] end.

Record GpuCapability := mkGpuCapability {
  GpuCapability_Cap_ : GpuCapability_Cap;
  GpuCapability_Supported : bool;
  GpuCapability_Tflops : Z
}.
Definition GpuCapability_Reset : GpuCapability :=
  mkGpuCapability 0 false 0.
Definition GpuCapability_GetCap (x : option GpuCapability) : GpuCapability_Cap :=
  match x with Some x => GpuCapability_Cap_ x | None => GpuCapability_FP64 end.
Definition GpuCapability_GetSupported (x : option GpuCapability) : bool :=
  match x with Some x => GpuCapability_Supported x | None => false end.
Definition GpuCapability_GetTflops (x : option GpuCapability) : Z :=
  match x with Some x => GpuCapability_Tflops x | None => 0 end.

Record GpuResources := mkGpuResources {
  GpuResources_Index : Z;
  GpuResources_Vendor : string;
  GpuResources_Model : string;
  GpuResources_Architecture : string;
  GpuResources_ArchitectureGeneration : Z;
  GpuResources_VramBytes : Z;
  GpuResources_ComputeCapability : string;
  GpuResources_Capabilities : list GpuCapability;
  GpuResources_MultiprocessorCount : Z;
  GpuResources_MaxClockMhz : Z;
  GpuResources_MemoryClockMhz : Z;
  GpuResources_MemoryBusWidthBits : Z;
  GpuResources_MemoryBandwidthMbps : Z;
  GpuResources_PcieGeneration : Z;
  GpuResources_PcieWidth : Z;
  GpuResources_NvlinkCount : Z;
  GpuResources_NvlinkBandwidthMbps : Z;
  GpuResources_SupportsGpudirectRdma : bool;
  GpuResources_SupportsMig : bool;
  GpuResources_SupportsSriov : bool
}.
Definition GpuResources_Reset : GpuResources :=
  mkGpuResources 0 "" "" "" 0 0 "" [] 0 0 0 0 0 0 0 0 0 false false false.
Definition GpuResources_GetIndex (x : option GpuResources) : Z :=
  match x with Some x => GpuResources_Index x | None => 0 end.
Definition GpuResources_GetVendor (x : option GpuResources) : string :=
  match x with Some x => GpuResources_Vendor x | None => "" end.
Definition GpuResources_GetModel (x : option GpuResources) : string :=
  match x with Some x => GpuResources_Model x | None => "" end.
Definition GpuResources_GetArchitecture (x : option GpuResources) : string :=
  match x with Some x => GpuResources_Architecture x | None => "" end.
Definition GpuResources_GetArchitectureGeneration (x : option GpuResources) : Z :=
  match x with Some x => GpuResources_ArchitectureGeneration x | None => 0 end.
Definition GpuResources_GetVramBytes (x : option GpuResources) : Z :=
  match x with Some x => GpuResources_VramBytes x | None => 0 end.
Definition GpuResources_GetComputeCapability (x : option GpuResources) : string :=
  match x with Some x => GpuResources_ComputeCapability x | None => "" end.
Definition GpuResources_GetCapabilities (x : option GpuResources) : list GpuCapability :=
  match x with Some x => GpuResources_Capabilities x | None => [] end.
Definition GpuResources_GetMultiprocessorCount (x : option GpuResources) : Z :=
  match x with Some x => GpuResources_MultiprocessorCount x | None => 0 end.
Definition GpuResources_GetMaxClockMhz (x : option GpuResources) : Z :=
  match x with Some x => GpuResources_MaxClockMhz x | None => 0 end.
Definition GpuResources_GetMemoryClockMhz (x : option GpuResources) : Z :=
  match x with Some x => GpuResources_MemoryClockMhz x | None => 0 end.
Definition GpuResources_GetMemoryBusWidthBits (x : option GpuResources) : Z :=
  match x with Some x => GpuResources_MemoryBusWidthBits x | None => 0 end.
Definition GpuResources_GetMemoryBandwidthMbps (x : option GpuResources) : Z :=
  match x with Some x => GpuResources_MemoryBandwidthMbps x | None => 0 end.
Definition GpuResources_GetPcieGeneration (x : option GpuResources) : Z :=
  match x with Some x => GpuResources_PcieGeneration x | None => 0 end.
Definition GpuResources_GetPcieWidth (x : option GpuResources) : Z :=
  match x with Some x => GpuResources_PcieWidth x | None => 0 end.
Definition GpuResources_GetNvlinkCount (x : option GpuResources) : Z :=
  match x with Some x => GpuResources_NvlinkCount x | None => 0 end.
Definition GpuResources_GetNvlinkBandwidthMbps (x : option GpuResources) : Z :=
  match x with Some x => GpuResources_NvlinkBandwidthMbps x | None => 0 end.
Definition GpuResources_GetSupportsGpudirectRdma (x : option GpuResources) : bool :=
  match x with Some x => GpuResources_SupportsGpudirectRdma x | None => false end.
Definition GpuResources_GetSupportsMig (x : option GpuResources) : bool :=
  match x with Some x => GpuResources_SupportsMig x | None => false end.
Definition GpuResources_GetSupportsSriov (x : option GpuResources) : bool :=
  match x with Some x => GpuResources_SupportsSriov x | None => false end.

Record StorageDevice := mkStorageDevice {
  StorageDevice_Path : string;
  StorageDevice_Type : string;
  StorageDevice_Filesystem : string;
  StorageDevice_TotalBytes : Z;
  StorageDevice_AvailableBytes : Z;
  StorageDevice_ReadIops : Z;
  StorageDevice_WriteIops : Z;
  StorageDevice_ReadThroughputMbps : Z;
  StorageDevice_WriteThroughputMbps : Z
}.
Definition StorageDevice_Reset : StorageDevice :=
  mkStorageDevice "" "" "" 0 0 0 0 0 0.
Definition StorageDevice_GetPath (x : option StorageDevice) : string :=
  match x with Some x => StorageDevice_Path x | None => "" end.
Definition StorageDevice_GetType (x : option StorageDevice) : string :=
  match x with Some x => StorageDevice_Type x | None => "" end.
Definition StorageDevice_GetFilesystem (x : option StorageDevice) : string :=
  match x with Some x => StorageDevice_Filesystem x | None => "" end.
Definition StorageDevice_GetTotalBytes (x : option StorageDevice) : Z :=
  match x with Some x => StorageDevice_TotalBytes x | None => 0 end.
Definition StorageDevice_GetAvailableBytes (x : option StorageDevice) : Z :=
  match x with Some x => StorageDevice_AvailableBytes x | None => 0 end.
Definition StorageDevice_GetReadIops (x : option StorageDevice) : Z :=
  match x with Some x => StorageDevice_ReadIops x | None => 0 end.
Definition StorageDevice_GetWriteIops (x : option StorageDevice) : Z :=
  match x with Some x => StorageDevice_WriteIops x | None => 0 end.
Definition StorageDevice_GetReadThroughputMbps (x : option StorageDevice) : Z :=
  match x with Some x => StorageDevice_ReadThroughputMbps x | None => 0 end.
Definition StorageDevice_GetWriteThroughputMbps (x : option StorageDevice) : Z :=
  match x with Some x => StorageDevice_WriteThroughputMbps x | None => 0 end.

Record StorageResources := mkStorageResources {
  StorageResources_Devices : list StorageDevice
}.
Definition StorageResources_Reset : StorageResources :=
  mkStorageResources [].
Definition StorageResources_GetDevices (x : option StorageResources) : list StorageDevice :=
  match x with Some x => StorageResources_Devices x | None => [] end.

Record NetworkInterface := mkNetworkInterface {
  NetworkInterface_Name : string;
  NetworkInterface_Driver : string;
  NetworkInterface_MacAddress : string;
  NetworkInterface_IpAddresses : list string;
  NetworkInterface_SpeedMbps : Z;
  NetworkInterface_SupportsRdma : bool;
  NetworkInterface_SupportsRoce : bool;
  NetworkInterface_SupportsInfiniband : bool;
  NetworkInterface_PciAddress : string;
  NetworkInterface_NumaNode : Z
}.
Definition NetworkInterface_Reset : NetworkInterface :=
  mkNetworkInterface "" "" "" [] 0 false false false "" 0.
Definition NetworkInterface_GetName (x : option NetworkInterface) : string :=
  match x with Some x => NetworkInterface_Name x | None => "" end.
Definition NetworkInterface_GetDriver (x : option NetworkInterface) : string :=
  match x with Some x => NetworkInterface_Driver x | None => "" end.
Definition NetworkInterface_GetMacAddress (x : option NetworkInterface) : string :=
  match x with Some x => NetworkInterface_MacAddress x | None => "" end.
Definition NetworkInterface_GetIpAddresses (x : option NetworkInterface) : list string :=
  match x with Some x => NetworkInterface_IpAddresses x | None => [] end.
Definition NetworkInterface_GetSpeedMbps (x : option NetworkInterface) : Z :=
  match x with Some x => NetworkInterface_SpeedMbps x | None => 0 end.
Definition NetworkInterface_GetSupportsRdma (x : option NetworkInterface) : bool :=
  match x with Some x => NetworkInterface_SupportsRdma x | None => false end.
Definition NetworkInterface_GetSupportsRoce (x : option NetworkInterface) : bool :=
  match x with Some x => NetworkInterface_SupportsRoce x | None => false end.
Definition NetworkInterface_GetSupportsInfiniband (x : option NetworkInterface) : bool :=
  match x with Some x => NetworkInterface_SupportsInfiniband x | None => false end.
Definition NetworkInterface_GetPciAddress (x : option NetworkInterface) : string :=
  match x with Some x => NetworkInterface_PciAddress x | None => "" end.
Definition NetworkInterface_GetNumaNode (x : option NetworkInterface) : Z :=
  match x with Some x => NetworkInterface_NumaNode x | None => 0 end.

Record NetworkResources := mkNetworkResources {
  NetworkResources_Interfaces : list NetworkInterface;
  NetworkResources_TotalBandwidthMbps : Z
}.
Definition NetworkResources_Reset : NetworkResources :=
  mkNetworkResources [] 0.
Definition NetworkResources_GetInterfaces (x : option NetworkResources) : list NetworkInterface :=
  match x with Some x => NetworkResources_Interfaces x | None => [] end.
Definition NetworkResources_GetTotalBandwidthMbps (x : option NetworkResources) : Z :=
  match x with Some x => NetworkResources_TotalBandwidthMbps x | None => 0 end.

Record Capability := mkCapability {
  Capability_Key : string;
  Capability_Value : string
}.
Definition Capability_Reset : Capability :=
  mkCapability "" "".
Definition Capability_GetKey (x : option Capability) : string :=
  match x with Some x => Capability_Key x | None => "" end.
Definition Capability_GetValue (x : option Capability) : string :=
  match x with Some x => Capability_Value x | None => "" end.

Record NodeResources := mkNodeResources {
  NodeResources_NodeId : string;
  NodeResources_Hostname : string;
  NodeResources_Cpu : option CpuResources;
  NodeResources_Memory : option MemoryResources;
  NodeResources_Gpus : list GpuResources;
  NodeResources_Storage : option StorageResources;
  NodeResources_Network : option NetworkResources;
  NodeResources_Capabilities : list Capability;
  NodeResources_KernelVersion : string;
  NodeResources_OsRelease : string
}.
Definition NodeResources_Reset : NodeResources :=
  mkNodeResources "" "" None None [] None None [] "" "".
Definition NodeResources_GetNodeId (x : option NodeResources) : string :=
  match x with Some x => NodeResources_NodeId x | None => "" end.
Definition NodeResources_GetHostname (x : option NodeResources) : string :=
  match x with Some x => NodeResources_Hostname x | None => "" end.
Definition NodeResources_GetCpu (x : option NodeResources) : option CpuResources :=
  match x with Some x => NodeResources_Cpu x | None => None end.
Definition NodeResources_GetMemory (x : option NodeResources) : option MemoryResources :=
  match x with Some x => NodeResources_Memory x | None => None end.
Definition NodeResources_GetGpus (x : option NodeResources) : list GpuResources :=
  match x with Some x => NodeResources_Gpus x | None => [] end.
Definition NodeResources_GetStorage (x : option NodeResources) : option StorageResources :=
  match x with Some x => NodeResources_Storage x | None => None end.
Definition NodeResources_GetNetwork (x : option NodeResources) : option NetworkResources :=
  match x with Some x => NodeResources_Network x | None => None end.
Definition NodeResources_GetCapabilities (x : option NodeResources) : list Capability :=
  match x with Some x => NodeResources_Capabilities x | None => [] end.
Definition NodeResources_GetKernelVersion (x : option NodeResources) : string :=
  match x with Some x => NodeResources_KernelVersion x | None => "" end.
Definition NodeResources_GetOsRelease (x : option NodeResources) : string :=
  match x with Some x => NodeResources_OsRelease x | None => "" end.

Record CpuUtilization := mkCpuUtilization {
  CpuUtilization_OverallPercent : spec_float;
  CpuUtilization_PerCorePercent : list spec_float;
  CpuUtilization_Load_1M : spec_float;
  CpuUtilization_Load_5M : spec_float;
  CpuUtilization_Load_15M : spec_float
}.
Definition CpuUtilization_Reset : CpuUtilization :=
  mkCpuUtilization (S754_zero false) [] (S754_zero false) (S754_zero false) (S754_zero false).
Definition CpuUtilization_GetOverallPercent (x : option CpuUtilization) : spec_float :=
  match x with Some x => CpuUtilization_OverallPercent x | None => (S754_zero false) end.
Definition CpuUtilization_GetPerCorePercent (x : option CpuUtilization) : list spec_float :=
  match x with Some x => CpuUtilization_PerCorePercent x | None => [] end.
Definition CpuUtilization_GetLoad_1M (x : option CpuUtilization) : spec_float :=
  match x with Some x => CpuUtilization_Load_1M x | None => (S754_zero false) end.
Definition CpuUtilization_GetLoad_5M (x : option CpuUtilization) : spec_float :=
  match x with Some x => CpuUtilization_Load_5M x | None => (S754_zero false) end.
Definition CpuUtilization_GetLoad_15M (x : option CpuUtilization) : spec_float :=
  match x with Some x => CpuUtilization_Load_15M x | None => (S754_zero false) end.

Record MemoryUtilization := mkMemoryUtilization {
  MemoryUtilization_UsedBytes : Z;
  MemoryUtilization_AvailableBytes : Z;
  MemoryUtilization_Hugepage_2MbUsed : Z;
  MemoryUtilization_Hugepage_1GbUsed : Z
}.
Definition MemoryUtilization_Reset : MemoryUtilization :=
  mkMemoryUtilization 0 0 0 0.
Definition MemoryUtilization_GetUsedBytes (x : option MemoryUtilization) : Z :=
  match x with Some x => MemoryUtilization_UsedBytes x | None => 0 end.
Definition MemoryUtilization_GetAvailableBytes (x : option MemoryUtilization) : Z :=
  match x with Some x => MemoryUtilization_AvailableBytes x | None => 0 end.
Definition MemoryUtilization_GetHugepage_2MbUsed (x : option MemoryUtilization) : Z :=
  match x with Some x => MemoryUtilization_Hugepage_2MbUsed x | None => 0 end.
Definition MemoryUtilization_GetHugepage_1GbUsed (x : option MemoryUtilization) : Z :=
  match x with Some x => MemoryUtilization_Hugepage_1GbUsed x | None => 0 end.

Record GpuProcess := mkGpuProcess {
  GpuProcess_Pid : Z;
  GpuProcess_Name : string;
  GpuProcess_VramUsedBytes : Z
}.
Definition GpuProcess_Reset : GpuProcess :=
  mkGpuProcess 0 "" 0.
Definition GpuProcess_GetPid (x : option GpuProcess) : Z :=
  match x with Some x => GpuProcess_Pid x | None => 0 end.
Definition GpuProcess_GetName (x : option GpuProcess) : string :=
  match x with Some x => GpuProcess_Name x | None => "" end.
Definition GpuProcess_GetVramUsedBytes (x : option GpuProcess) : Z :=
  match x with Some x => GpuProcess_VramUsedBytes x | None => 0 end.

Record GpuUtilization := mkGpuUtilization {
  GpuUtilization_Index : Z;
  GpuUtilization_GpuPercent : spec_float;
  GpuUtilization_MemoryPercent : spec_float;
  GpuUtilization_VramUsedBytes : Z;
  GpuUtilization_VramTotalBytes : Z;
  GpuUtilization_TemperatureCelsius : Z;
  GpuUtilization_PowerDrawWatts : Z;
  GpuUtilization_PowerLimitWatts : Z;
  GpuUtilization_ClockMhz : Z;
  GpuUtilization_MemoryClockMhz : Z;
  GpuUtilization_PcieTxMbps : spec_float;
  GpuUtilization_PcieRxMbps : spec_float;
  GpuUtilization_NvlinkTxMbps : spec_float;
  GpuUtilization_NvlinkRxMbps : spec_float;
  GpuUtilization_Processes : list GpuProcess
}.
Definition GpuUtilization_Reset : GpuUtilization :=
  mkGpuUtilization 0 (S754_zero false) (S754_zero false) 0 0 0 0 0 0 0 (S754_zero false) (S754_zero false) (S754_zero false) (S754_zero false) [].
Definition GpuUtilization_GetIndex (x : option GpuUtilization) : Z :=
  match x with Some x => GpuUtilization_Index x | None => 0 end.
Definition GpuUtilization_GetGpuPercent (x : option GpuUtilization) : spec_float :=
  match x with Some x => GpuUtilization_GpuPercent x | None => (S754_zero false) end.
Definition GpuUtilization_GetMemoryPercent (x : option GpuUtilization) : spec_float :=
  match x with Some x => GpuUtilization_MemoryPercent x | None => (S754_zero false) end.
Definition GpuUtilization_GetVramUsedBytes (x : option GpuUtilization) : Z :=
  match x with Some x => GpuUtilization_VramUsedBytes x | None => 0 end.
Definition GpuUtilization_GetVramTotalBytes (x : option GpuUtilization) : Z :=
  match x with Some x => GpuUtilization_VramTotalBytes x | None => 0 end.
Definition GpuUtilization_GetTemperatureCelsius (x : option GpuUtilization) : Z :=
  match x with Some x => GpuUtilization_TemperatureCelsius x | None => 0 end.
Definition GpuUtilization_GetPowerDrawWatts (x : option GpuUtilization) : Z :=
  match x with Some x => GpuUtilization_PowerDrawWatts x | None => 0 end.
Definition GpuUtilization_GetPowerLimitWatts (x : option GpuUtilization) : Z :=
  match x with Some x => GpuUtilization_PowerLimitWatts x | None => 0 end.
Definition GpuUtilization_GetClockMhz (x : option GpuUtilization) : Z :=
  match x with Some x => GpuUtilization_ClockMhz x | None => 0 end.
Definition GpuUtilization_GetMemoryClockMhz (x : option GpuUtilization) : Z :=
  match x with Some x => GpuUtilization_MemoryClockMhz x | None => 0 end.
Definition GpuUtilization_GetPcieTxMbps (x : option GpuUtilization) : spec_float :=
  match x with Some x => GpuUtilization_PcieTxMbps x | None => (S754_zero false) end.
Definition GpuUtilization_GetPcieRxMbps (x : option GpuUtilization) : spec_float :=
  match x with Some x => GpuUtilization_PcieRxMbps x | None => (S754_zero false) end.
Definition GpuUtilization_GetNvlinkTxMbps (x : option GpuUtilization) : spec_float :=
  match x with Some x => GpuUtilization_NvlinkTxMbps x | None => (S754_zero false) end.
Definition GpuUtilization_GetNvlinkRxMbps (x : option GpuUtilization) : spec_float :=
  match x with Some x => GpuUtilization_NvlinkRxMbps x | None => (S754_zero false) end.
Definition GpuUtilization_GetProcesses (x : option GpuUtilization) : list GpuProcess :=
  match x with Some x => GpuUtilization_Processes x | None => [] end.

Record StorageDeviceUtilization := mkStorageDeviceUtilization {
  StorageDeviceUtilization_Path : string;
  StorageDeviceUtilization_UsedBytes : Z;
  StorageDeviceUtilization_ReadIopsCurrent : Z;
  StorageDeviceUtilization_WriteIopsCurrent : Z;
  StorageDeviceUtilization_ReadThroughputMbpsCurrent : Z;
  StorageDeviceUtilization_WriteThroughputMbpsCurrent : Z
}.
Definition StorageDeviceUtilization_Reset : StorageDeviceUtilization :=
  mkStorageDeviceUtilization "" 0 0 0 0 0.
Definition StorageDeviceUtilization_GetPath (x : option StorageDeviceUtilization) : string :=
  match x with Some x => StorageDeviceUtilization_Path x | None => "" end.
Definition StorageDeviceUtilization_GetUsedBytes (x : option StorageDeviceUtilization) : Z :=
  match x with Some x => StorageDeviceUtilization_UsedBytes x | None => 0 end.
Definition StorageDeviceUtilization_GetReadIopsCurrent (x : option StorageDeviceUtilization) : Z :=
  match x with Some x => StorageDeviceUtilization_ReadIopsCurrent x | None => 0 end.
Definition StorageDeviceUtilization_GetWriteIopsCurrent (x : option StorageDeviceUtilization) : Z :=
  match x with Some x => StorageDeviceUtilization_WriteIopsCurrent x | None => 0 end.
Definition StorageDeviceUtilization_GetReadThroughputMbpsCurrent (x : option StorageDeviceUtilization) : Z :=
  match x with Some x => StorageDeviceUtilization_ReadThroughputMbpsCurrent x | None => 0 end.
Definition StorageDeviceUtilization_GetWriteThroughputMbpsCurrent (x : option StorageDeviceUtilization) : Z :=
  match x with Some x => StorageDeviceUtilization_WriteThroughputMbpsCurrent x | None => 0 end.

Record StorageUtilization := mkStorageUtilization {
  StorageUtilization_Devices : list StorageDeviceUtilization
}.
Definition StorageUtilization_Reset : StorageUtilization :=
  mkStorageUtilization [].
Definition StorageUtilization_GetDevices (x : option StorageUtilization) : list StorageDeviceUtilization :=
  match x with Some x => StorageUtilization_Devices x | None => [] end.

Record NetworkInterfaceUtilization := mkNetworkInterfaceUtilization {
  NetworkInterfaceUtilization_Name : string;
  NetworkInterfaceUtilization_RxMbps : Z;
  NetworkInterfaceUtilization_TxMbps : Z;
  NetworkInterfaceUtilization_RxPacketsPerSec : Z;
  NetworkInterfaceUtilization_TxPacketsPerSec : Z;
  NetworkInterfaceUtilization_RxErrors : Z;
  NetworkInterfaceUtilization_TxErrors : Z;
  NetworkInterfaceUtilization_RdmaRxMbps : Z;
  NetworkInterfaceUtilization_RdmaTxMbps : Z
}.
Definition NetworkInterfaceUtilization_Reset : NetworkInterfaceUtilization :=
  mkNetworkInterfaceUtilization "" 0 0 0 0 0 0 0 0.
Definition NetworkInterfaceUtilization_GetName (x : option NetworkInterfaceUtilization) : string :=
  match x with Some x => NetworkInterfaceUtilization_Name x | None => "" end.
Definition NetworkInterfaceUtilization_GetRxMbps (x : option NetworkInterfaceUtilization) : Z :=
  match x with Some x => NetworkInterfaceUtilization_RxMbps x | None => 0 end.
Definition NetworkInterfaceUtilization_GetTxMbps (x : option NetworkInterfaceUtilization) : Z :=
  match x with Some x => NetworkInterfaceUtilization_TxMbps x | None => 0 end.
Definition NetworkInterfaceUtilization_GetRxPacketsPerSec (x : option NetworkInterfaceUtilization) : Z :=
  match x with Some x => NetworkInterfaceUtilization_RxPacketsPerSec x | None => 0 end.
Definition NetworkInterfaceUtilization_GetTxPacketsPerSec (x : option NetworkInterfaceUtilization) : Z :=
  match x with Some x => NetworkInterfaceUtilization_TxPacketsPerSec x | None => 0 end.
Definition NetworkInterfaceUtilization_GetRxErrors (x : option NetworkInterfaceUtilization) : Z :=
  match x with Some x => NetworkInterfaceUtilization_RxErrors x | None => 0 end.
Definition NetworkInterfaceUtilization_GetTxErrors (x : option NetworkInterfaceUtilization) : Z :=
  match x with Some x => NetworkInterfaceUtilization_TxErrors x | None => 0 end.
Definition NetworkInterfaceUtilization_GetRdmaRxMbps (x : option NetworkInterfaceUtilization) : Z :=
  match x with Some x => NetworkInterfaceUtilization_RdmaRxMbps x | None => 0 end.
Definition NetworkInterfaceUtilization_GetRdmaTxMbps (x : option NetworkInterfaceUtilization) : Z :=
  match x with Some x => NetworkInterfaceUtilization_RdmaTxMbps x | None => 0 end.

Record NetworkUtilization := mkNetworkUtilization {
  NetworkUtilization_Interfaces : list NetworkInterfaceUtilization
}.
Definition NetworkUtilization_Reset : NetworkUtilization :=
  mkNetworkUtilization [].
Definition NetworkUtilization_GetInterfaces (x : option NetworkUtilization) : list NetworkInterfaceUtilization :=
  match x with Some x => NetworkUtilization_Interfaces x | None => [] end.

Record NodeUtilization := mkNodeUtilization {
  NodeUtilization_NodeId : string;
  NodeUtilization_TimestampNs : Z;
  NodeUtilization_Cpu : option CpuUtilization;
  NodeUtilization_Memory : option MemoryUtilization;
  NodeUtilization_Gpus : list GpuUtilization;
  NodeUtilization_Storage : option StorageUtilization;
  NodeUtilization_Network : option NetworkUtilization
}.
Definition NodeUtilization_Reset : NodeUtilization :=
  mkNodeUtilization "" 0 None None [] None None.
Definition NodeUtilization_GetNodeId (x : option NodeUtilization) : string :=
  match x with Some x => NodeUtilization_NodeId x | None => "" end.
Definition NodeUtilization_GetTimestampNs (x : option NodeUtilization) : Z :=
  match x with Some x => NodeUtilization_TimestampNs x | None => 0 end.
Definition NodeUtilization_GetCpu (x : option NodeUtilization) : option CpuUtilization :=
  match x with Some x => NodeUtilization_Cpu x | None => None end.
Definition NodeUtilization_GetMemory (x : option NodeUtilization) : option MemoryUtilization :=
  match x with Some x => NodeUtilization_Memory x | None => None end.
Definition NodeUtilization_GetGpus (x : option NodeUtilization) : list GpuUtilization :=
  match x with Some x => NodeUtilization_Gpus x | None => [] end.
Definition NodeUtilization_GetStorage (x : option NodeUtilization) : option StorageUtilization :=
  match x with Some x => NodeUtilization_Storage x | None => None end.
Definition NodeUtilization_GetNetwork (x : option NodeUtilization) : option NetworkUtilization :=
  match x with Some x => NodeUtilization_Network x | None => None end.

Record GpuRequirement := mkGpuRequirement {
  GpuRequirement_Count : Z;
  GpuRequirement_VramBytes : Z;
  GpuRequirement_RequiredCapabilities : list GpuCapability_Cap;
  GpuRequirement_MinArchitectureGeneration : Z;
  GpuRequirement_Vendor : string;
  GpuRequirement_AllowSpilling : bool
}.
Definition GpuRequirement_Reset : GpuRequirement :=
  mkGpuRequirement 0 0 [] 0 "" false.
Definition GpuRequirement_GetCount (x : option GpuRequirement) : Z :=
  match x with Some x => GpuRequirement_Count x | None => 0 end.
Definition GpuRequirement_GetVramBytes (x : option GpuRequirement) : Z :=
  match x with Some x => GpuRequirement_VramBytes x | None => 0 end.
Definition GpuRequirement_GetRequiredCapabilities (x : option GpuRequirement) : list GpuCapability_Cap :=
  match x with Some x => GpuRequirement_RequiredCapabilities x | None => [] end.
Definition GpuRequirement_GetMinArchitectureGeneration (x : option GpuRequirement) : Z :=
  match x with Some x => GpuRequirement_MinArchitectureGeneration x | None => 0 end.
Definition GpuRequirement_GetVendor (x : option GpuRequirement) : string :=
  match x with Some x => GpuRequirement_Vendor x | None => "" end.
Definition GpuRequirement_GetAllowSpilling (x : option GpuRequirement) : bool :=
  match x with Some x => GpuRequirement_AllowSpilling x | None => false end.

Record AffinityRule := mkAffinityRule {
  AffinityRule_Type_ : AffinityRule_Type;
  AffinityRule_Target : string;
  AffinityRule_Required : bool
}.
Definition AffinityRule_Reset : AffinityRule :=
  mkAffinityRule 0 "" false.
Definition AffinityRule_GetType (x : option AffinityRule) : AffinityRule_Type :=
  match x with Some x => AffinityRule_Type_ x | None => AffinityRule_SAME_NODE_AS_DATA end.
Definition AffinityRule_GetTarget (x : option AffinityRule) : string :=
  match x with Some x => AffinityRule_Target x | None => "" end.
Definition AffinityRule_GetRequired (x : option AffinityRule) : bool :=
  match x with Some x => AffinityRule_Required x | None => false end.

Record ResourceRequirements := mkResourceRequirements {
  ResourceRequirements_CpuCores : spec_float;
  ResourceRequirements_MemoryBytes : Z;
  ResourceRequirements_Gpus : list GpuRequirement;
  ResourceRequirements_StorageBytes : Z;
  ResourceRequirements_Replicas : Z;
  ResourceRequirements_Priority : Z;
  ResourceRequirements_Affinity : list AffinityRule;
  ResourceRequirements_Preemptible : bool
}.
Definition ResourceRequirements_Reset : ResourceRequirements :=
  mkResourceRequirements (S754_zero false) 0 [] 0 0 0 [] false.
Definition ResourceRequirements_GetCpuCores (x : option ResourceRequirements) : spec_float :=
  match x with Some x => ResourceRequirements_CpuCores x | None => (S754_zero false) end.
Definition ResourceRequirements_GetMemoryBytes (x : option ResourceRequirements) : Z :=
  match x with Some x => ResourceRequirements_MemoryBytes x | None => 0 end.
Definition ResourceRequirements_GetGpus (x : option ResourceRequirements) : list GpuRequirement :=
  match x with Some x => ResourceRequirements_Gpus x | None => [] end.
Definition ResourceRequirements_GetStorageBytes (x : option ResourceRequirements) : Z :=
  match x with Some x => ResourceRequirements_StorageBytes x | None => 0 end.
Definition ResourceRequirements_GetReplicas (x : option ResourceRequirements) : Z :=
  match x with Some x => ResourceRequirements_Replicas x | None => 0 end.
Definition ResourceRequirements_GetPriority (x : option ResourceRequirements) : Z :=
  match x with Some x => ResourceRequirements_Priority x | None => 0 end.
Definition ResourceRequirements_GetAffinity (x : option ResourceRequirements) : list AffinityRule :=
  match x with Some x => ResourceRequirements_Affinity x | None => [] end.
Definition ResourceRequirements_GetPreemptible (x : option ResourceRequirements) : bool :=
  match x with Some x => ResourceRequirements_Preemptible x | None => false end.

Record ResourceUtilization := mkResourceUtilization {
  ResourceUtilization_CpuPercent : spec_float;
  ResourceUtilization_MemoryBytes : Z;
  ResourceUtilization_GpuVramBytes : Z;
  ResourceUtilization_GpuPercent : spec_float;
  ResourceUtilization_DiskBytes : Z;
  ResourceUtilization_NetworkRxMbps : Z;
  ResourceUtilization_NetworkTxMbps : Z
}.
Definition ResourceUtilization_Reset : ResourceUtilization :=
  mkResourceUtilization (S754_zero false) 0 0 (S754_zero false) 0 0 0.
Definition ResourceUtilization_GetCpuPercent (x : option ResourceUtilization) : spec_float :=
  match x with Some x => ResourceUtilization_CpuPercent x | None => (S754_zero false) end.
Definition ResourceUtilization_GetMemoryBytes (x : option ResourceUtilization) : Z :=
  match x with Some x => ResourceUtilization_MemoryBytes x | None => 0 end.
Definition ResourceUtilization_GetGpuVramBytes (x : option ResourceUtilization) : Z :=
  match x with Some x => ResourceUtilization_GpuVramBytes x | None => 0 end.
Definition ResourceUtilization_GetGpuPercent (x : option ResourceUtilization) : spec_float :=
  match x with Some x => ResourceUtilization_GpuPercent x | None => (S754_zero false) end.
Definition ResourceUtilization_GetDiskBytes (x : option ResourceUtilization) : Z :=
  match x with Some x => ResourceUtilization_DiskBytes x | None => 0 end.
Definition ResourceUtilization_GetNetworkRxMbps (x : option ResourceUtilization) : Z :=
  match x with Some x => ResourceUtilization_NetworkRxMbps x | None => 0 end.
Definition ResourceUtilization_GetNetworkTxMbps (x : option ResourceUtilization) : Z :=
  match x with Some x => ResourceUtilization_NetworkTxMbps x | None => 0 end.

