(* ===== verification/PbAgent.v ===== *)
(** The wire types of [control-plane/gen/compute/v1/agent.pb.go]: the agent service: registration, heartbeats, tasks and memory handles.

    A message is a record; a Go pointer to a message is an [option] ([None] is nil),
    a repeated field a list, an enum its int32 value.  Every getter takes a possibly
    nil receiver, as in the Go code, and [Reset] stores the zero message. A field whose name is also 
    the name of an enum gets a final underscore. *)
From Stdlib Require Import ZArith SpecFloat.
From stdpp Require Import base strings gmap list.
From S2P Require Import Prelude PbResource.
Local Open Scope string_scope.
Local Open Scope Z_scope.

Definition TaskState : Type := Z.
Definition TaskState_TASK_STATE_UNKNOWN : TaskState := 0.
Definition TaskState_TASK_STATE_PENDING : TaskState := 1.
Definition TaskState_TASK_STATE_RUNNING : TaskState := 2.
Definition TaskState_TASK_STATE_COMPLETED : TaskState := 3.
Definition TaskState_TASK_STATE_FAILED : TaskState := 4.
Definition TaskState_TASK_STATE_PREEMPTED : TaskState := 5.
Definition TaskState_TASK_STATE_CANCELLED : TaskState := 6.
Definition TaskState_name : gmap Z string :=
  list_to_map [(0, "TASK_STATE_UNKNOWN"); (1, "TASK_STATE_PENDING"); (2, "TASK_STATE_RUNNING"); (3, "TASK_STATE_COMPLETED"); (4, "TASK_STATE_FAILED"); (5, "TASK_STATE_PREEMPTED"); (6, "TASK_STATE_CANCELLED")].
Definition TaskState_value : gmap string Z :=
  list_to_map [("TASK_STATE_UNKNOWN", 0); ("TASK_STATE_PENDING", 1); ("TASK_STATE_RUNNING", 2); ("TASK_STATE_COMPLETED", 3); ("TASK_STATE_FAILED", 4); ("TASK_STATE_PREEMPTED", 5); ("TASK_STATE_CANCELLED", 6)].

Definition ConsistencyMode_Mode : Type := Z.
Definition ConsistencyMode_STRICT : ConsistencyMode_Mode := 0.
Definition ConsistencyMode_RELAXED : ConsistencyMode_Mode := 1.
Definition ConsistencyMode_RELEASE : ConsistencyMode_Mode := 2.
Definition ConsistencyMode_Mode_name : gmap Z string :=
  list_to_map [(0, "STRICT"); (1, "RELAXED"); (2, "RELEASE")].
Definition ConsistencyMode_Mode_value : gmap string Z :=
  list_to_map [("STRICT", 0); ("RELAXED", 1); ("RELEASE", 2)].

Record RegisterRequest := mkRegisterRequest {
  RegisterRequest_NodeId : string;
  RegisterRequest_Address : string;
  RegisterRequest_Resources : option NodeResources;
  RegisterRequest_AgentVersion : string
}.
Definition RegisterRequest_Reset : RegisterRequest :=
  mkRegisterRequest "" "" None "".
Definition RegisterRequest_GetNodeId (x : option RegisterRequest) : string :=
  match x with Some x => RegisterRequest_NodeId x | None => "" end.
Definition RegisterRequest_GetAddress (x : option RegisterRequest) : string :=
  match x with Some x => RegisterRequest_Address x | None => "" end.
Definition RegisterRequest_GetResources (x : option RegisterRequest) : option NodeResources :=
  match x with Some x => RegisterRequest_Resources x | None => None end.
Definition RegisterRequest_GetAgentVersion (x : option RegisterRequest) : string :=
  match x with Some x => RegisterRequest_AgentVersion x | None => "" end.

Record RegisterResponse := mkRegisterResponse {
  RegisterResponse_Accepted : bool;
  RegisterResponse_ClusterId : string;
  RegisterResponse_ControlPlaneLeader : string;
  RegisterResponse_HeartbeatIntervalMs : Z
}.
Definition RegisterResponse_Reset : RegisterResponse :=
  mkRegisterResponse false "" "" 0.
Definition RegisterResponse_GetAccepted (x : option RegisterResponse) : bool :=
  match x with Some x => RegisterResponse_Accepted x | None => false end.
Definition RegisterResponse_GetClusterId (x : option RegisterResponse) : string :=
  match x with Some x => RegisterResponse_ClusterId x | None => "" end.
Definition RegisterResponse_GetControlPlaneLeader (x : option RegisterResponse) : string :=
  match x with Some x => RegisterResponse_ControlPlaneLeader x | None => "" end.
Definition RegisterResponse_GetHeartbeatIntervalMs (x : option RegisterResponse) : Z :=
  match x with Some x => RegisterResponse_HeartbeatIntervalMs x | None => 0 end.

Record TaskStatus := mkTaskStatus {
  TaskStatus_TaskId : string;
  TaskStatus_State : TaskState;
  TaskStatus_Utilization : option ResourceUtilization;
  TaskStatus_StartedAtNs : Z;
  TaskStatus_ErrorMessage : string
}.
Definition TaskStatus_Reset : TaskStatus :=
  mkTaskStatus "" 0 None 0 "".
Definition TaskStatus_GetTaskId (x : option TaskStatus) : string :=
  match x with Some x => TaskStatus_TaskId x | None => "" end.
Definition TaskStatus_GetState (x : option TaskStatus) : TaskState :=
  match x with Some x => TaskStatus_State x | None => TaskState_TASK_STATE_UNKNOWN end.
Definition TaskStatus_GetUtilization (x : option TaskStatus) : option ResourceUtilization :=
  match x with Some x => TaskStatus_Utilization x | None => None end.
Definition TaskStatus_GetStartedAtNs (x : option TaskStatus) : Z :=
  match x with Some x => TaskStatus_StartedAtNs x | None => 0 end.
Definition TaskStatus_GetErrorMessage (x : option TaskStatus) : string :=
  match x with Some x => TaskStatus_ErrorMessage x | None => "" end.

Record HeartbeatRequest := mkHeartbeatRequest {
  HeartbeatRequest_NodeId : string;
  HeartbeatRequest_Sequence : Z;
  HeartbeatRequest_Utilization : option NodeUtilization;
  HeartbeatRequest_Tasks : list TaskStatus
}.
Definition HeartbeatRequest_Reset : HeartbeatRequest :=
  mkHeartbeatRequest "" 0 None [].
Definition HeartbeatRequest_GetNodeId (x : option HeartbeatRequest) : string :=
  match x with Some x => HeartbeatRequest_NodeId x | None => "" end.
Definition HeartbeatRequest_GetSequence (x : option HeartbeatRequest) : Z :=
  match x with Some x => HeartbeatRequest_Sequence x | None => 0 end.
Definition HeartbeatRequest_GetUtilization (x : option HeartbeatRequest) : option NodeUtilization :=
  match x with Some x => HeartbeatRequest_Utilization x | None => None end.
Definition HeartbeatRequest_GetTasks (x : option HeartbeatRequest) : list TaskStatus :=
  match x with Some x => HeartbeatRequest_Tasks x | None => [] end.

Record MemoryHandle := mkMemoryHandle {
  MemoryHandle_AllocationId : string;
  MemoryHandle_NodeId : string;
  MemoryHandle_RemoteKey : Z;
  MemoryHandle_Address : Z;
  MemoryHandle_SizeBytes : Z
}.
Definition MemoryHandle_Reset : MemoryHandle :=
  mkMemoryHandle "" "" 0 0 0.
Definition MemoryHandle_GetAllocationId (x : option MemoryHandle) : string :=
  match x with Some x => MemoryHandle_AllocationId x | None => "" end.
Definition MemoryHandle_GetNodeId (x : option MemoryHandle) : string :=
  match x with Some x => MemoryHandle_NodeId x | None => "" end.
Definition MemoryHandle_GetRemoteKey (x : option MemoryHandle) : Z :=
  match x with Some x => MemoryHandle_RemoteKey x | None => 0 end.
Definition MemoryHandle_GetAddress (x : option MemoryHandle) : Z :=
  match x with Some x => MemoryHandle_Address x | None => 0 end.
Definition MemoryHandle_GetSizeBytes (x : option MemoryHandle) : Z :=
  match x with Some x => MemoryHandle_SizeBytes x | None => 0 end.

Record GPUHandle := mkGPUHandle {
  GPUHandle_AllocationId : string;
  GPUHandle_NodeId : string;
  GPUHandle_GpuDeviceIndex : Z;
  GPUHandle_GpuAddress : Z;
  GPUHandle_SizeBytes : Z;
  GPUHandle_GpuRemoteKey : Z
}.
Definition GPUHandle_Reset : GPUHandle :=
  mkGPUHandle "" "" 0 0 0 0.
Definition GPUHandle_GetAllocationId (x : option GPUHandle) : string :=
  match x with Some x => GPUHandle_AllocationId x | None => "" end.
Definition GPUHandle_GetNodeId (x : option GPUHandle) : string :=
  match x with Some x => GPUHandle_NodeId x | None => "" end.
Definition GPUHandle_GetGpuDeviceIndex (x : option GPUHandle) : Z :=
  match x with Some x => GPUHandle_GpuDeviceIndex x | None => 0 end.
Definition GPUHandle_GetGpuAddress (x : option GPUHandle) : Z :=
  match x with Some x => GPUHandle_GpuAddress x | None => 0 end.
Definition GPUHandle_GetSizeBytes (x : option GPUHandle) : Z :=
  match x with Some x => GPUHandle_SizeBytes x | None => 0 end.
Definition GPUHandle_GetGpuRemoteKey (x : option GPUHandle) : Z :=
  match x with Some x => GPUHandle_GpuRemoteKey x | None => 0 end.

Record TaskSpec := mkTaskSpec {
  TaskSpec_TaskId : string;
  TaskSpec_JobId : string;
  TaskSpec_ContainerImage : string;
  TaskSpec_Command : list string;
  TaskSpec_Env : gmap string string;
  TaskSpec_Requirements : option ResourceRequirements;
  TaskSpec_MemoryHandles : list MemoryHandle;
  TaskSpec_GpuHandles : list GPUHandle;
  TaskSpec_Priority : Z
}.
Definition TaskSpec_Reset : TaskSpec :=
  mkTaskSpec "" "" "" [] ∅ None [] [] 0.
Definition TaskSpec_GetTaskId (x : option TaskSpec) : string :=
  match x with Some x => TaskSpec_TaskId x | None => "" end.
Definition TaskSpec_GetJobId (x : option TaskSpec) : string :=
  match x with Some x => TaskSpec_JobId x | None => "" end.
Definition TaskSpec_GetContainerImage (x : option TaskSpec) : string :=
  match x with Some x => TaskSpec_ContainerImage x | None => "" end.
Definition TaskSpec_GetCommand (x : option TaskSpec) : list string :=
  match x with Some x => TaskSpec_Command x | None => [] end.
Definition TaskSpec_GetEnv (x : option TaskSpec) : gmap string string :=
  match x with Some x => TaskSpec_Env x | None => ∅ end.
Definition TaskSpec_GetRequirements (x : option TaskSpec) : option ResourceRequirements :=
  match x with Some x => TaskSpec_Requirements x | None => None end.
Definition TaskSpec_GetMemoryHandles (x : option TaskSpec) : list MemoryHandle :=
  match x with Some x => TaskSpec_MemoryHandles x | None => [] end.
Definition TaskSpec_GetGpuHandles (x : option TaskSpec) : list GPUHandle :=
  match x with Some x => TaskSpec_GpuHandles x | None => [] end.
Definition TaskSpec_GetPriority (x : option TaskSpec) : Z :=
  match x with Some x => TaskSpec_Priority x | None => 0 end.

Record PendingTask := mkPendingTask {
  PendingTask_Spec : option TaskSpec
}.
Definition PendingTask_Reset : PendingTask :=
  mkPendingTask None.
Definition PendingTask_GetSpec (x : option PendingTask) : option TaskSpec :=
  match x with Some x => PendingTask_Spec x | None => None end.

Record HeartbeatResponse := mkHeartbeatResponse {
  HeartbeatResponse_Acknowledged : bool;
  HeartbeatResponse_Sequence : Z;
  HeartbeatResponse_PendingTasks : list PendingTask;
  HeartbeatResponse_CancelTaskIds : list string
}.
Definition HeartbeatResponse_Reset : HeartbeatResponse :=
  mkHeartbeatResponse false 0 [] [].
Definition HeartbeatResponse_GetAcknowledged (x : option HeartbeatResponse) : bool :=
  match x with Some x => HeartbeatResponse_Acknowledged x | None => false end.
Definition HeartbeatResponse_GetSequence (x : option HeartbeatResponse) : Z :=
  match x with Some x => HeartbeatResponse_Sequence x | None => 0 end.
Definition HeartbeatResponse_GetPendingTasks (x : option HeartbeatResponse) : list PendingTask :=
  match x with Some x => HeartbeatResponse_PendingTasks x | None => [] end.
Definition HeartbeatResponse_GetCancelTaskIds (x : option HeartbeatResponse) : list string :=
  match x with Some x => HeartbeatResponse_CancelTaskIds x | None => [] end.

Record TaskAck := mkTaskAck {
  TaskAck_Accepted : bool;
  TaskAck_Error : string
}.
Definition TaskAck_Reset : TaskAck :=
  mkTaskAck false "".
Definition TaskAck_GetAccepted (x : option TaskAck) : bool :=
  match x with Some x => TaskAck_Accepted x | None => false end.
Definition TaskAck_GetError (x : option TaskAck) : string :=
  match x with Some x => TaskAck_Error x | None => "" end.

Record ConsistencyMode := mkConsistencyMode {
  ConsistencyMode_Mode_ : ConsistencyMode_Mode
}.
Definition ConsistencyMode_Reset : ConsistencyMode :=
  mkConsistencyMode 0.
Definition ConsistencyMode_GetMode (x : option ConsistencyMode) : ConsistencyMode_Mode :=
  match x with Some x => ConsistencyMode_Mode_ x | None => ConsistencyMode_STRICT end.

Record MemoryAllocRequest := mkMemoryAllocRequest {
  MemoryAllocRequest_AllocationId : string;
  MemoryAllocRequest_SizeBytes : Z;
  MemoryAllocRequest_Consistency : option ConsistencyMode;
  MemoryAllocRequest_UseHugepages : bool;
  MemoryAllocRequest_ReplicationFactor : Z
}.
Definition MemoryAllocRequest_Reset : MemoryAllocRequest :=
  mkMemoryAllocRequest "" 0 None false 0.
Definition MemoryAllocRequest_GetAllocationId (x : option MemoryAllocRequest) : string :=
  match x with Some x => MemoryAllocRequest_AllocationId x | None => "" end.
Definition MemoryAllocRequest_GetSizeBytes (x : option MemoryAllocRequest) : Z :=
  match x with Some x => MemoryAllocRequest_SizeBytes x | None => 0 end.
Definition MemoryAllocRequest_GetConsistency (x : option MemoryAllocRequest) : option ConsistencyMode :=
  match x with Some x => MemoryAllocRequest_Consistency x | None => None end.
Definition MemoryAllocRequest_GetUseHugepages (x : option MemoryAllocRequest) : bool :=
  match x with Some x => MemoryAllocRequest_UseHugepages x | None => false end.
Definition MemoryAllocRequest_GetReplicationFactor (x : option MemoryAllocRequest) : Z :=
  match x with Some x => MemoryAllocRequest_ReplicationFactor x | None => 0 end.

Record MemoryAllocResponse := mkMemoryAllocResponse {
  MemoryAllocResponse_Success : bool;
  MemoryAllocResponse_Handle : option MemoryHandle;
  MemoryAllocResponse_Error : string
}.
Definition MemoryAllocResponse_Reset : MemoryAllocResponse :=
  mkMemoryAllocResponse false None "".
Definition MemoryAllocResponse_GetSuccess (x : option MemoryAllocResponse) : bool :=
  match x with Some x => MemoryAllocResponse_Success x | None => false end.
Definition MemoryAllocResponse_GetHandle (x : option MemoryAllocResponse) : option MemoryHandle :=
  match x with Some x => MemoryAllocResponse_Handle x | None => None end.
Definition MemoryAllocResponse_GetError (x : option MemoryAllocResponse) : string :=
  match x with Some x => MemoryAllocResponse_Error x | None => "" end.

Record FreeMemoryRequest := mkFreeMemoryRequest {
  FreeMemoryRequest_AllocationId : string
}.
Definition FreeMemoryRequest_Reset : FreeMemoryRequest :=
  mkFreeMemoryRequest "".
Definition FreeMemoryRequest_GetAllocationId (x : option FreeMemoryRequest) : string :=
  match x with Some x => FreeMemoryRequest_AllocationId x | None => "" end.

Record FreeMemoryResponse := mkFreeMemoryResponse {
  FreeMemoryResponse_Success : bool
}.
Definition FreeMemoryResponse_Reset : FreeMemoryResponse :=
  mkFreeMemoryResponse false.
Definition FreeMemoryResponse_GetSuccess (x : option FreeMemoryResponse) : bool :=
  match x with Some x => FreeMemoryResponse_Success x | None => false end.

Record GPUMemoryAllocRequest := mkGPUMemoryAllocRequest {
  GPUMemoryAllocRequest_AllocationId : string;
  GPUMemoryAllocRequest_SizeBytes : Z;
  GPUMemoryAllocRequest_GpuDeviceIndex : Z
}.
Definition GPUMemoryAllocRequest_Reset : GPUMemoryAllocRequest :=
  mkGPUMemoryAllocRequest "" 0 0.
Definition GPUMemoryAllocRequest_GetAllocationId (x : option GPUMemoryAllocRequest) : string :=
  match x with Some x => GPUMemoryAllocRequest_AllocationId x | None => "" end.
Definition GPUMemoryAllocRequest_GetSizeBytes (x : option GPUMemoryAllocRequest) : Z :=
  match x with Some x => GPUMemoryAllocRequest_SizeBytes x | None => 0 end.
Definition GPUMemoryAllocRequest_GetGpuDeviceIndex (x : option GPUMemoryAllocRequest) : Z :=
  match x with Some x => GPUMemoryAllocRequest_GpuDeviceIndex x | None => 0 end.

Record GPUMemoryAllocResponse := mkGPUMemoryAllocResponse {
  GPUMemoryAllocResponse_Success : bool;
  GPUMemoryAllocResponse_Handle : option GPUHandle;
  GPUMemoryAllocResponse_Error : string
}.
Definition GPUMemoryAllocResponse_Reset : GPUMemoryAllocResponse :=
  mkGPUMemoryAllocResponse false None "".
Definition GPUMemoryAllocResponse_GetSuccess (x : option GPUMemoryAllocResponse) : bool :=
  match x with Some x => GPUMemoryAllocResponse_Success x | None => false end.
Definition GPUMemoryAllocResponse_GetHandle (x : option GPUMemoryAllocResponse) : option GPUHandle :=
  match x with Some x => GPUMemoryAllocResponse_Handle x | None => None end.
Definition GPUMemoryAllocResponse_GetError (x : option GPUMemoryAllocResponse) : string :=
  match x with Some x => GPUMemoryAllocResponse_Error x | None => "" end.

Record FreeGPUMemoryRequest := mkFreeGPUMemoryRequest {
  FreeGPUMemoryRequest_AllocationId : string
}.
Definition FreeGPUMemoryRequest_Reset : FreeGPUMemoryRequest :=
  mkFreeGPUMemoryRequest "".
Definition FreeGPUMemoryRequest_GetAllocationId (x : option FreeGPUMemoryRequest) : string :=
  match x with Some x => FreeGPUMemoryRequest_AllocationId x | None => "" end.

Record FreeGPUMemoryResponse := mkFreeGPUMemoryResponse {
  FreeGPUMemoryResponse_Success : bool
}.
Definition FreeGPUMemoryResponse_Reset : FreeGPUMemoryResponse :=
  mkFreeGPUMemoryResponse false.
Definition FreeGPUMemoryResponse_GetSuccess (x : option FreeGPUMemoryResponse) : bool :=
  match x with Some x => FreeGPUMemoryResponse_Success x | None => false end.

