(* ===== verification/PbMemory.v ===== *)
(** The wire types of [control-plane/gen/compute/v1/memory.pb.go]: distributed memory.

    A message is a record; a Go pointer to a message is an [option] ([None] is nil),
    a repeated field a list, an enum its int32 value.  Every getter takes a possibly
    nil receiver, as in the Go code, and [Reset] stores the zero message. A field whose name is also 
    the name of an enum gets a final underscore. *)
From Stdlib Require Import ZArith SpecFloat.
From stdpp Require Import base strings gmap list.
From S2P Require Import Prelude PbAgent.
Local Open Scope string_scope.
Local Open Scope Z_scope.

Record DistributedAllocRequest := mkDistributedAllocRequest {
  DistributedAllocRequest_SizeBytes : Z;
  DistributedAllocRequest_Consistency : ConsistencyMode_Mode;
  DistributedAllocRequest_UseHugepages : bool;
  DistributedAllocRequest_ReplicationFactor : Z;
  DistributedAllocRequest_TenantId : string
}.
Definition DistributedAllocRequest_Reset : DistributedAllocRequest :=
  mkDistributedAllocRequest 0 0 false 0 "".
Definition DistributedAllocRequest_GetSizeBytes (x : option DistributedAllocRequest) : Z :=
  match x with Some x => DistributedAllocRequest_SizeBytes x | None => 0 end.
Definition DistributedAllocRequest_GetConsistency (x : option DistributedAllocRequest) : ConsistencyMode_Mode :=
  match x with Some x => DistributedAllocRequest_Consistency x | None => ConsistencyMode_STRICT end.
Definition DistributedAllocRequest_GetUseHugepages (x : option DistributedAllocRequest) : bool :=
  match x with Some x => DistributedAllocRequest_UseHugepages x | None => false end.
Definition DistributedAllocRequest_GetReplicationFactor (x : option DistributedAllocRequest) : Z :=
  match x with Some x => DistributedAllocRequest_ReplicationFactor x | None => 0 end.
Definition DistributedAllocRequest_GetTenantId (x : option DistributedAllocRequest) : string :=
  match x with Some x => DistributedAllocRequest_TenantId x | None => "" end.

Record DistributedAllocResponse := mkDistributedAllocResponse {
  DistributedAllocResponse_Success : bool;
  DistributedAllocResponse_AllocationId : string;
  DistributedAllocResponse_Handles : list MemoryHandle;
  DistributedAllocResponse_Error : string
}.
Definition DistributedAllocResponse_Reset : DistributedAllocResponse :=
  mkDistributedAllocResponse false "" [] "".
Definition DistributedAllocResponse_GetSuccess (x : option DistributedAllocResponse) : bool :=
  match x with Some x => DistributedAllocResponse_Success x | None => false end.
Definition DistributedAllocResponse_GetAllocationId (x : option DistributedAllocResponse) : string :=
  match x with Some x => DistributedAllocResponse_AllocationId x | None => "" end.
Definition DistributedAllocResponse_GetHandles (x : option DistributedAllocResponse) : list MemoryHandle :=
  match x with Some x => DistributedAllocResponse_Handles x | None => [] end.
Definition DistributedAllocResponse_GetError (x : option DistributedAllocResponse) : string :=
  match x with Some x => DistributedAllocResponse_Error x | None => "" end.

Record MigrateRegionRequest := mkMigrateRegionRequest {
  MigrateRegionRequest_AllocationId : string;
  MigrateRegionRequest_TargetNodeId : string;
  MigrateRegionRequest_TargetTier : string
}.
Definition MigrateRegionRequest_Reset : MigrateRegionRequest :=
  mkMigrateRegionRequest "" "" "".
Definition MigrateRegionRequest_GetAllocationId (x : option MigrateRegionRequest) : string :=
  match x with Some x => MigrateRegionRequest_AllocationId x | None => "" end.
Definition MigrateRegionRequest_GetTargetNodeId (x : option MigrateRegionRequest) : string :=
  match x with Some x => MigrateRegionRequest_TargetNodeId x | None => "" end.
Definition MigrateRegionRequest_GetTargetTier (x : option MigrateRegionRequest) : string :=
  match x with Some x => MigrateRegionRequest_TargetTier x | None => "" end.

Record MigrateRegionResponse := mkMigrateRegionResponse {
  MigrateRegionResponse_Success : bool;
  MigrateRegionResponse_Error : string
}.
Definition MigrateRegionResponse_Reset : MigrateRegionResponse :=
  mkMigrateRegionResponse false "".
Definition MigrateRegionResponse_GetSuccess (x : option MigrateRegionResponse) : bool :=
  match x with Some x => MigrateRegionResponse_Success x | None => false end.
Definition MigrateRegionResponse_GetError (x : option MigrateRegionResponse) : string :=
  match x with Some x => MigrateRegionResponse_Error x | None => "" end.

Record GetRegionRequest := mkGetRegionRequest {
  GetRegionRequest_AllocationId : string
}.
Definition GetRegionRequest_Reset : GetRegionRequest :=
  mkGetRegionRequest "".
Definition GetRegionRequest_GetAllocationId (x : option GetRegionRequest) : string :=
  match x with Some x => GetRegionRequest_AllocationId x | None => "" end.

Record GetRegionResponse := mkGetRegionResponse {
  GetRegionResponse_AllocationId : string;
  GetRegionResponse_SizeBytes : Z;
  GetRegionResponse_Consistency : ConsistencyMode_Mode;
  GetRegionResponse_Handles : list MemoryHandle;
  GetRegionResponse_AccessCount : Z;
  GetRegionResponse_CurrentTier : string
}.
Definition GetRegionResponse_Reset : GetRegionResponse :=
  mkGetRegionResponse "" 0 0 [] 0 "".
Definition GetRegionResponse_GetAllocationId (x : option GetRegionResponse) : string :=
  match x with Some x => GetRegionResponse_AllocationId x | None => "" end.
Definition GetRegionResponse_GetSizeBytes (x : option GetRegionResponse) : Z :=
  match x with Some x => GetRegionResponse_SizeBytes x | None => 0 end.
Definition GetRegionResponse_GetConsistency (x : option GetRegionResponse) : ConsistencyMode_Mode :=
  match x with Some x => GetRegionResponse_Consistency x | None => ConsistencyMode_STRICT end.
Definition GetRegionResponse_GetHandles (x : option GetRegionResponse) : list MemoryHandle :=
  match x with Some x => GetRegionResponse_Handles x | None => [] end.
Definition GetRegionResponse_GetAccessCount (x : option GetRegionResponse) : Z :=
  match x with Some x => GetRegionResponse_AccessCount x | None => 0 end.
Definition GetRegionResponse_GetCurrentTier (x : option GetRegionResponse) : string :=
  match x with Some x => GetRegionResponse_CurrentTier x | None => "" end.

