(* ===== verification/PbStorage.v ===== *)
(** The wire types of [control-plane/gen/compute/v1/storage.pb.go]: datasets.

    A message is a record; a Go pointer to a message is an [option] ([None] is nil),
    a repeated field a list, an enum its int32 value.  Every getter takes a possibly
    nil receiver, as in the Go code, and [Reset] stores the zero message. A field whose name is also 
    the name of an enum gets a final underscore. *)
From Stdlib Require Import ZArith SpecFloat.
From stdpp Require Import base strings gmap list.
From S2P Require Import Prelude.
Local Open Scope string_scope.
Local Open Scope Z_scope.

Definition ReplicationPolicy_Mode : Type := Z.
Definition ReplicationPolicy_SYNCHRONOUS : ReplicationPolicy_Mode := 0.
Definition ReplicationPolicy_ASYNCHRONOUS : ReplicationPolicy_Mode := 1.
Definition ReplicationPolicy_ERASURE_CODED : ReplicationPolicy_Mode := 2.
Definition ReplicationPolicy_Mode_name : gmap Z string :=
  list_to_map [(0, "SYNCHRONOUS"); (1, "ASYNCHRONOUS"); (2, "ERASURE_CODED")].
Definition ReplicationPolicy_Mode_value : gmap string Z :=
  list_to_map [("SYNCHRONOUS", 0); ("ASYNCHRONOUS", 1); ("ERASURE_CODED", 2)].

Record ReplicationPolicy := mkReplicationPolicy {
  ReplicationPolicy_Mode_ : ReplicationPolicy_Mode;
  ReplicationPolicy_ReplicationFactor : Z
}.
Definition ReplicationPolicy_Reset : ReplicationPolicy :=
  mkReplicationPolicy 0 0.
Definition ReplicationPolicy_GetMode (x : option ReplicationPolicy) : ReplicationPolicy_Mode :=
  match x with Some x => ReplicationPolicy_Mode_ x | None => ReplicationPolicy_SYNCHRONOUS end.
Definition ReplicationPolicy_GetReplicationFactor (x : option ReplicationPolicy) : Z :=
  match x with Some x => ReplicationPolicy_ReplicationFactor x | None => 0 end.

Record CreateDatasetRequest := mkCreateDatasetRequest {
  CreateDatasetRequest_Name : string;
  CreateDatasetRequest_SizeBytes : Z;
  CreateDatasetRequest_Replication : option ReplicationPolicy;
  CreateDatasetRequest_TenantId : string
}.
Definition CreateDatasetRequest_Reset : CreateDatasetRequest :=
  mkCreateDatasetRequest "" 0 None "".
Definition CreateDatasetRequest_GetName (x : option CreateDatasetRequest) : string :=
  match x with Some x => CreateDatasetRequest_Name x | None => "" end.
Definition CreateDatasetRequest_GetSizeBytes (x : option CreateDatasetRequest) : Z :=
  match x with Some x => CreateDatasetRequest_SizeBytes x | None => 0 end.
Definition CreateDatasetRequest_GetReplication (x : option CreateDatasetRequest) : option ReplicationPolicy :=
  match x with Some x => CreateDatasetRequest_Replication x | None => None end.
Definition CreateDatasetRequest_GetTenantId (x : option CreateDatasetRequest) : string :=
  match x with Some x => CreateDatasetRequest_TenantId x | None => "" end.

Record CreateDatasetResponse := mkCreateDatasetResponse {
  CreateDatasetResponse_Success : bool;
  CreateDatasetResponse_DatasetId : string;
  CreateDatasetResponse_Error : string
}.
Definition CreateDatasetResponse_Reset : CreateDatasetResponse :=
  mkCreateDatasetResponse false "" "".
Definition CreateDatasetResponse_GetSuccess (x : option CreateDatasetResponse) : bool :=
  match x with Some x => CreateDatasetResponse_Success x | None => false end.
Definition CreateDatasetResponse_GetDatasetId (x : option CreateDatasetResponse) : string :=
  match x with Some x => CreateDatasetResponse_DatasetId x | None => "" end.
Definition CreateDatasetResponse_GetError (x : option CreateDatasetResponse) : string :=
  match x with Some x => CreateDatasetResponse_Error x | None => "" end.

Record ListDatasetsRequest := mkListDatasetsRequest {
  ListDatasetsRequest_TenantId : string
}.
Definition ListDatasetsRequest_Reset : ListDatasetsRequest :=
  mkListDatasetsRequest "".
Definition ListDatasetsRequest_GetTenantId (x : option ListDatasetsRequest) : string :=
  match x with Some x => ListDatasetsRequest_TenantId x | None => "" end.

Record DatasetInfo := mkDatasetInfo {
  DatasetInfo_DatasetId : string;
  DatasetInfo_Name : string;
  DatasetInfo_SizeBytes : Z;
  DatasetInfo_Replication : option ReplicationPolicy;
  DatasetInfo_Nodes : list string
}.
Definition DatasetInfo_Reset : DatasetInfo :=
  mkDatasetInfo "" "" 0 None [].
Definition DatasetInfo_GetDatasetId (x : option DatasetInfo) : string :=
  match x with Some x => DatasetInfo_DatasetId x | None => "" end.
Definition DatasetInfo_GetName (x : option DatasetInfo) : string :=
  match x with Some x => DatasetInfo_Name x | None => "" end.
Definition DatasetInfo_GetSizeBytes (x : option DatasetInfo) : Z :=
  match x with Some x => DatasetInfo_SizeBytes x | None => 0 end.
Definition DatasetInfo_GetReplication (x : option DatasetInfo) : option ReplicationPolicy :=
  match x with Some x => DatasetInfo_Replication x | None => None end.
Definition DatasetInfo_GetNodes (x : option DatasetInfo) : list string :=
  match x with Some x => DatasetInfo_Nodes x | None => [] end.

Record ListDatasetsResponse := mkListDatasetsResponse {
  ListDatasetsResponse_Datasets : list DatasetInfo
}.
Definition ListDatasetsResponse_Reset : ListDatasetsResponse :=
  mkListDatasetsResponse [].
Definition ListDatasetsResponse_GetDatasets (x : option ListDatasetsResponse) : list DatasetInfo :=
  match x with Some x => ListDatasetsResponse_Datasets x | None => [] end.

Record GetDatasetStatusRequest := mkGetDatasetStatusRequest {
  GetDatasetStatusRequest_DatasetId : string
}.
Definition GetDatasetStatusRequest_Reset : GetDatasetStatusRequest :=
  mkGetDatasetStatusRequest "".
Definition GetDatasetStatusRequest_GetDatasetId (x : option GetDatasetStatusRequest) : string :=
  match x with Some x => GetDatasetStatusRequest_DatasetId x | None => "" end.

Record GetDatasetStatusResponse := mkGetDatasetStatusResponse {
  GetDatasetStatusResponse_Info : option DatasetInfo;
  GetDatasetStatusResponse_ReadIops : Z;
  GetDatasetStatusResponse_WriteIops : Z;
  GetDatasetStatusResponse_CurrentTier : string
}.
Definition GetDatasetStatusResponse_Reset : GetDatasetStatusResponse :=
  mkGetDatasetStatusResponse None 0 0 "".
Definition GetDatasetStatusResponse_GetInfo (x : option GetDatasetStatusResponse) : option DatasetInfo :=
  match x with Some x => GetDatasetStatusResponse_Info x | None => None end.
Definition GetDatasetStatusResponse_GetReadIops (x : option GetDatasetStatusResponse) : Z :=
  match x with Some x => GetDatasetStatusResponse_ReadIops x | None => 0 end.
Definition GetDatasetStatusResponse_GetWriteIops (x : option GetDatasetStatusResponse) : Z :=
  match x with Some x => GetDatasetStatusResponse_WriteIops x | None => 0 end.
Definition GetDatasetStatusResponse_GetCurrentTier (x : option GetDatasetStatusResponse) : string :=
  match x with Some x => GetDatasetStatusResponse_CurrentTier x | None => "" end.

