(* ===== verification/PbJob.v ===== *)
(** The wire types of [control-plane/gen/compute/v1/job.pb.go]: jobs.

    A message is a record; a Go pointer to a message is an [option] ([None] is nil),
    a repeated field a list, an enum its int32 value.  Every getter takes a possibly
    nil receiver, as in the Go code, and [Reset] stores the zero message. A field whose name is also 
    the name of an enum gets a final underscore. *)
From Stdlib Require Import ZArith SpecFloat.
From stdpp Require Import base strings gmap list.
From S2P Require Import Prelude PbResource PbAgent.
Local Open Scope string_scope.
Local Open Scope Z_scope.

Definition JobType : Type := Z.
Definition JobType_JOB_TYPE_UNKNOWN : JobType := 0.
Definition JobType_JOB_TYPE_SIMPLE : JobType := 1.
Definition JobType_JOB_TYPE_DAG : JobType := 2.
Definition JobType_JOB_TYPE_GANG : JobType := 3.
Definition JobType_JOB_TYPE_SERVICE : JobType := 4.
Definition JobType_name : gmap Z string :=
  list_to_map [(0, "JOB_TYPE_UNKNOWN"); (1, "JOB_TYPE_SIMPLE"); (2, "JOB_TYPE_DAG"); (3, "JOB_TYPE_GANG"); (4, "JOB_TYPE_SERVICE")].
Definition JobType_value : gmap string Z :=
  list_to_map [("JOB_TYPE_UNKNOWN", 0); ("JOB_TYPE_SIMPLE", 1); ("JOB_TYPE_DAG", 2); ("JOB_TYPE_GANG", 3); ("JOB_TYPE_SERVICE", 4)].

Definition JobState : Type := Z.
Definition JobState_JOB_STATE_UNKNOWN : JobState := 0.
Definition JobState_JOB_STATE_QUEUED : JobState := 1.
Definition JobState_JOB_STATE_SCHEDULING : JobState := 2.
Definition JobState_JOB_STATE_RUNNING : JobState := 3.
Definition JobState_JOB_STATE_COMPLETED : JobState := 4.
Definition JobState_JOB_STATE_FAILED : JobState := 5.
Definition JobState_JOB_STATE_CANCELLED : JobState := 6.
Definition JobState_JOB_STATE_PREEMPTED : JobState := 7.
Definition JobState_name : gmap Z string :=
  list_to_map [(0, "JOB_STATE_UNKNOWN"); (1, "JOB_STATE_QUEUED"); (2, "JOB_STATE_SCHEDULING"); (3, "JOB_STATE_RUNNING"); (4, "JOB_STATE_COMPLETED"); (5, "JOB_STATE_FAILED"); (6, "JOB_STATE_CANCELLED"); (7, "JOB_STATE_PREEMPTED")].
Definition JobState_value : gmap string Z :=
  list_to_map [("JOB_STATE_UNKNOWN", 0); ("JOB_STATE_QUEUED", 1); ("JOB_STATE_SCHEDULING", 2); ("JOB_STATE_RUNNING", 3); ("JOB_STATE_COMPLETED", 4); ("JOB_STATE_FAILED", 5); ("JOB_STATE_CANCELLED", 6); ("JOB_STATE_PREEMPTED", 7)].

Record DAGTask := mkDAGTask {
  DAGTask_TaskId : string;
  DAGTask_Name : string;
  DAGTask_ContainerImage : string;
  DAGTask_Command : list string;
  DAGTask_Requirements : option ResourceRequirements
}.
Definition DAGTask_Reset : DAGTask :=
  mkDAGTask "" "" "" [] None.
Definition DAGTask_GetTaskId (x : option DAGTask) : string :=
  match x with Some x => DAGTask_TaskId x | None => "" end.
Definition DAGTask_GetName (x : option DAGTask) : string :=
  match x with Some x => DAGTask_Name x | None => "" end.
Definition DAGTask_GetContainerImage (x : option DAGTask) : string :=
  match x with Some x => DAGTask_ContainerImage x | None => "" end.
Definition DAGTask_GetCommand (x : option DAGTask) : list string :=
  match x with Some x => DAGTask_Command x | None => [] end.
Definition DAGTask_GetRequirements (x : option DAGTask) : option ResourceRequirements :=
  match x with Some x => DAGTask_Requirements x | None => None end.

Record DAGEdge := mkDAGEdge {
  DAGEdge_FromTask : string;
  DAGEdge_ToTask : string
}.
Definition DAGEdge_Reset : DAGEdge :=
  mkDAGEdge "" "".
Definition DAGEdge_GetFromTask (x : option DAGEdge) : string :=
  match x with Some x => DAGEdge_FromTask x | None => "" end.
Definition DAGEdge_GetToTask (x : option DAGEdge) : string :=
  match x with Some x => DAGEdge_ToTask x | None => "" end.

Record DAGSpec := mkDAGSpec {
  DAGSpec_Tasks : list DAGTask;
  DAGSpec_Edges : list DAGEdge
}.
Definition DAGSpec_Reset : DAGSpec :=
  mkDAGSpec [] [].
Definition DAGSpec_GetTasks (x : option DAGSpec) : list DAGTask :=
  match x with Some x => DAGSpec_Tasks x | None => [] end.
Definition DAGSpec_GetEdges (x : option DAGSpec) : list DAGEdge :=
  match x with Some x => DAGSpec_Edges x | None => [] end.

Record CheckpointConfig := mkCheckpointConfig {
  CheckpointConfig_Enabled : bool;
  CheckpointConfig_IntervalSeconds : Z;
  CheckpointConfig_StoragePath : string;
  CheckpointConfig_Incremental : bool;
  CheckpointConfig_Transparent : bool
}.
Definition CheckpointConfig_Reset : CheckpointConfig :=
  mkCheckpointConfig false 0 "" false false.
Definition CheckpointConfig_GetEnabled (x : option CheckpointConfig) : bool :=
  match x with Some x => CheckpointConfig_Enabled x | None => false end.
Definition CheckpointConfig_GetIntervalSeconds (x : option CheckpointConfig) : Z :=
  match x with Some x => CheckpointConfig_IntervalSeconds x | None => 0 end.
Definition CheckpointConfig_GetStoragePath (x : option CheckpointConfig) : string :=
  match x with Some x => CheckpointConfig_StoragePath x | None => "" end.
Definition CheckpointConfig_GetIncremental (x : option CheckpointConfig) : bool :=
  match x with Some x => CheckpointConfig_Incremental x | None => false end.
Definition CheckpointConfig_GetTransparent (x : option CheckpointConfig) : bool :=
  match x with Some x => CheckpointConfig_Transparent x | None => false end.

Record RetryPolicy := mkRetryPolicy {
  RetryPolicy_MaxRetries : Z;
  RetryPolicy_InitialBackoffMs : Z;
  RetryPolicy_MaxBackoffMs : Z;
  RetryPolicy_BackoffMultiplier : spec_float;
  RetryPolicy_RetryOnInfrastructureFailure : bool;
  RetryPolicy_RetryOnApplicationError : bool
}.
Definition RetryPolicy_Reset : RetryPolicy :=
  mkRetryPolicy 0 0 0 (S754_zero false) false false.
Definition RetryPolicy_GetMaxRetries (x : option RetryPolicy) : Z :=
  match x with Some x => RetryPolicy_MaxRetries x | None => 0 end.
Definition RetryPolicy_GetInitialBackoffMs (x : option RetryPolicy) : Z :=
  match x with Some x => RetryPolicy_InitialBackoffMs x | None => 0 end.
Definition RetryPolicy_GetMaxBackoffMs (x : option RetryPolicy) : Z :=
  match x with Some x => RetryPolicy_MaxBackoffMs x | None => 0 end.
Definition RetryPolicy_GetBackoffMultiplier (x : option RetryPolicy) : spec_float :=
  match x with Some x => RetryPolicy_BackoffMultiplier x | None => (S754_zero false) end.
Definition RetryPolicy_GetRetryOnInfrastructureFailure (x : option RetryPolicy) : bool :=
  match x with Some x => RetryPolicy_RetryOnInfrastructureFailure x | None => false end.
Definition RetryPolicy_GetRetryOnApplicationError (x : option RetryPolicy) : bool :=
  match x with Some x => RetryPolicy_RetryOnApplicationError x | None => false end.

Record SubmitJobRequest := mkSubmitJobRequest {
  SubmitJobRequest_Name : string;
  SubmitJobRequest_TenantId : string;
  SubmitJobRequest_ContainerImage : string;
  SubmitJobRequest_Command : list string;
  SubmitJobRequest_Env : gmap string string;
  SubmitJobRequest_Requirements : option ResourceRequirements;
  SubmitJobRequest_Type : JobType;
  SubmitJobRequest_Dag : option DAGSpec;
  SubmitJobRequest_Checkpoint : option CheckpointConfig;
  SubmitJobRequest_RetryPolicy : option RetryPolicy
}.
Definition SubmitJobRequest_Reset : SubmitJobRequest :=
  mkSubmitJobRequest "" "" "" [] ∅ None 0 None None None.
Definition SubmitJobRequest_GetName (x : option SubmitJobRequest) : string :=
  match x with Some x => SubmitJobRequest_Name x | None => "" end.
Definition SubmitJobRequest_GetTenantId (x : option SubmitJobRequest) : string :=
  match x with Some x => SubmitJobRequest_TenantId x | None => "" end.
Definition SubmitJobRequest_GetContainerImage (x : option SubmitJobRequest) : string :=
  match x with Some x => SubmitJobRequest_ContainerImage x | None => "" end.
Definition SubmitJobRequest_GetCommand (x : option SubmitJobRequest) : list string :=
  match x with Some x => SubmitJobRequest_Command x | None => [] end.
Definition SubmitJobRequest_GetEnv (x : option SubmitJobRequest) : gmap string string :=
  match x with Some x => SubmitJobRequest_Env x | None => ∅ end.
Definition SubmitJobRequest_GetRequirements (x : option SubmitJobRequest) : option ResourceRequirements :=
  match x with Some x => SubmitJobRequest_Requirements x | None => None end.
Definition SubmitJobRequest_GetType (x : option SubmitJobRequest) : JobType :=
  match x with Some x => SubmitJobRequest_Type x | None => JobType_JOB_TYPE_UNKNOWN end.
Definition SubmitJobRequest_GetDag (x : option SubmitJobRequest) : option DAGSpec :=
  match x with Some x => SubmitJobRequest_Dag x | None => None end.
Definition SubmitJobRequest_GetCheckpoint (x : option SubmitJobRequest) : option CheckpointConfig :=
  match x with Some x => SubmitJobRequest_Checkpoint x | None => None end.
Definition SubmitJobRequest_GetRetryPolicy (x : option SubmitJobRequest) : option RetryPolicy :=
  match x with Some x => SubmitJobRequest_RetryPolicy x | None => None end.

Record SubmitJobResponse := mkSubmitJobResponse {
  SubmitJobResponse_Accepted : bool;
  SubmitJobResponse_JobId : string;
  SubmitJobResponse_Error : string;
  SubmitJobResponse_EstimatedWaitMs : Z
}.
Definition SubmitJobResponse_Reset : SubmitJobResponse :=
  mkSubmitJobResponse false "" "" 0.
Definition SubmitJobResponse_GetAccepted (x : option SubmitJobResponse) : bool :=
  match x with Some x => SubmitJobResponse_Accepted x | None => false end.
Definition SubmitJobResponse_GetJobId (x : option SubmitJobResponse) : string :=
  match x with Some x => SubmitJobResponse_JobId x | None => "" end.
Definition SubmitJobResponse_GetError (x : option SubmitJobResponse) : string :=
  match x with Some x => SubmitJobResponse_Error x | None => "" end.
Definition SubmitJobResponse_GetEstimatedWaitMs (x : option SubmitJobResponse) : Z :=
  match x with Some x => SubmitJobResponse_EstimatedWaitMs x | None => 0 end.

Record GetJobRequest := mkGetJobRequest {
  GetJobRequest_JobId : string
}.
Definition GetJobRequest_Reset : GetJobRequest :=
  mkGetJobRequest "".
Definition GetJobRequest_GetJobId (x : option GetJobRequest) : string :=
  match x with Some x => GetJobRequest_JobId x | None => "" end.

Record Task := mkTask {
  Task_TaskId : string;
  Task_JobId : string;
  Task_NodeId : string;
  Task_State : TaskState;
  Task_ReplicaIndex : Z;
  Task_Utilization : option ResourceUtilization;
  Task_StartedAtNs : Z;
  Task_FinishedAtNs : Z;
  Task_ErrorMessage : string;
  Task_LogsUrl : string
}.
Definition Task_Reset : Task :=
  mkTask "" "" "" 0 0 None 0 0 "" "".
Definition Task_GetTaskId (x : option Task) : string :=
  match x with Some x => Task_TaskId x | None => "" end.
Definition Task_GetJobId (x : option Task) : string :=
  match x with Some x => Task_JobId x | None => "" end.
Definition Task_GetNodeId (x : option Task) : string :=
  match x with Some x => Task_NodeId x | None => "" end.
Definition Task_GetState (x : option Task) : TaskState :=
  match x with Some x => Task_State x | None => TaskState_TASK_STATE_UNKNOWN end.
Definition Task_GetReplicaIndex (x : option Task) : Z :=
  match x with Some x => Task_ReplicaIndex x | None => 0 end.
Definition Task_GetUtilization (x : option Task) : option ResourceUtilization :=
  match x with Some x => Task_Utilization x | None => None end.
Definition Task_GetStartedAtNs (x : option Task) : Z :=
  match x with Some x => Task_StartedAtNs x | None => 0 end.
Definition Task_GetFinishedAtNs (x : option Task) : Z :=
  match x with Some x => Task_FinishedAtNs x | None => 0 end.
Definition Task_GetErrorMessage (x : option Task) : string :=
  match x with Some x => Task_ErrorMessage x | None => "" end.
Definition Task_GetLogsUrl (x : option Task) : string :=
  match x with Some x => Task_LogsUrl x | None => "" end.

Record Job := mkJob {
  Job_JobId : string;
  Job_Name : string;
  Job_TenantId : string;
  Job_State : JobState;
  Job_Type : JobType;
  Job_ContainerImage : string;
  Job_Requirements : option ResourceRequirements;
  Job_Tasks : list Task;
  Job_CreatedAtNs : Z;
  Job_StartedAtNs : Z;
  Job_FinishedAtNs : Z;
  Job_ErrorMessage : string;
  Job_RetryCount : Z;
  Job_Checkpoint : option CheckpointConfig
}.
Definition Job_Reset : Job :=
  mkJob "" "" "" 0 0 "" None [] 0 0 0 "" 0 None.
Definition Job_GetJobId (x : option Job) : string :=
  match x with Some x => Job_JobId x | None => "" end.
Definition Job_GetName (x : option Job) : string :=
  match x with Some x => Job_Name x | None => "" end.
Definition Job_GetTenantId (x : option Job) : string :=
  match x with Some x => Job_TenantId x | None => "" end.
Definition Job_GetState (x : option Job) : JobState :=
  match x with Some x => Job_State x | None => JobState_JOB_STATE_UNKNOWN end.
Definition Job_GetType (x : option Job) : JobType :=
  match x with Some x => Job_Type x | None => JobType_JOB_TYPE_UNKNOWN end.
Definition Job_GetContainerImage (x : option Job) : string :=
  match x with Some x => Job_ContainerImage x | None => "" end.
Definition Job_GetRequirements (x : option Job) : option ResourceRequirements :=
  match x with Some x => Job_Requirements x | None => None end.
Definition Job_GetTasks (x : option Job) : list Task :=
  match x with Some x => Job_Tasks x | None => [] end.
Definition Job_GetCreatedAtNs (x : option Job) : Z :=
  match x with Some x => Job_CreatedAtNs x | None => 0 end.
Definition Job_GetStartedAtNs (x : option Job) : Z :=
  match x with Some x => Job_StartedAtNs x | None => 0 end.
Definition Job_GetFinishedAtNs (x : option Job) : Z :=
  match x with Some x => Job_FinishedAtNs x | None => 0 end.
Definition Job_GetErrorMessage (x : option Job) : string :=
  match x with Some x => Job_ErrorMessage x | None => "" end.
Definition Job_GetRetryCount (x : option Job) : Z :=
  match x with Some x => Job_RetryCount x | None => 0 end.
Definition Job_GetCheckpoint (x : option Job) : option CheckpointConfig :=
  match x with Some x => Job_Checkpoint x | None => None end.

Record GetJobResponse := mkGetJobResponse {
  GetJobResponse_Job : option Job
}.
Definition GetJobResponse_Reset : GetJobResponse :=
  mkGetJobResponse None.
Definition GetJobResponse_GetJob (x : option GetJobResponse) : option Job :=
  match x with Some x => GetJobResponse_Job x | None => None end.

Record ListJobsRequest := mkListJobsRequest {
  ListJobsRequest_TenantId : string;
  ListJobsRequest_States : list JobState;
  ListJobsRequest_PageSize : Z;
  ListJobsRequest_PageToken : string
}.
Definition ListJobsRequest_Reset : ListJobsRequest :=
  mkListJobsRequest "" [] 0 "".
Definition ListJobsRequest_GetTenantId (x : option ListJobsRequest) : string :=
  match x with Some x => ListJobsRequest_TenantId x | None => "" end.
Definition ListJobsRequest_GetStates (x : option ListJobsRequest) : list JobState :=
  match x with Some x => ListJobsRequest_States x | None => [] end.
Definition ListJobsRequest_GetPageSize (x : option ListJobsRequest) : Z :=
  match x with Some x => ListJobsRequest_PageSize x | None => 0 end.
Definition ListJobsRequest_GetPageToken (x : option ListJobsRequest) : string :=
  match x with Some x => ListJobsRequest_PageToken x | None => "" end.

Record ListJobsResponse := mkListJobsResponse {
  ListJobsResponse_Jobs : list Job;
  ListJobsResponse_NextPageToken : string
}.
Definition ListJobsResponse_Reset : ListJobsResponse :=
  mkListJobsResponse [] "".
Definition ListJobsResponse_GetJobs (x : option ListJobsResponse) : list Job :=
  match x with Some x => ListJobsResponse_Jobs x | None => [] end.
Definition ListJobsResponse_GetNextPageToken (x : option ListJobsResponse) : string :=
  match x with Some x => ListJobsResponse_NextPageToken x | None => "" end.

Record CancelJobRequest := mkCancelJobRequest {
  CancelJobRequest_JobId : string;
  CancelJobRequest_Reason : string
}.
Definition CancelJobRequest_Reset : CancelJobRequest :=
  mkCancelJobRequest "" "".
Definition CancelJobRequest_GetJobId (x : option CancelJobRequest) : string :=
  match x with Some x => CancelJobRequest_JobId x | None => "" end.
Definition CancelJobRequest_GetReason (x : option CancelJobRequest) : string :=
  match x with Some x => CancelJobRequest_Reason x | None => "" end.

Record CancelJobResponse := mkCancelJobResponse {
  CancelJobResponse_Success : bool
}.
Definition CancelJobResponse_Reset : CancelJobResponse :=
  mkCancelJobResponse false.
Definition CancelJobResponse_GetSuccess (x : option CancelJobResponse) : bool :=
  match x with Some x => CancelJobResponse_Success x | None => false end.

Record StreamLogsRequest := mkStreamLogsRequest {
  StreamLogsRequest_JobId : string;
  StreamLogsRequest_TaskId : string;
  StreamLogsRequest_Follow : bool;
  StreamLogsRequest_TailLines : Z
}.
Definition StreamLogsRequest_Reset : StreamLogsRequest :=
  mkStreamLogsRequest "" "" false 0.
Definition StreamLogsRequest_GetJobId (x : option StreamLogsRequest) : string :=
  match x with Some x => StreamLogsRequest_JobId x | None => "" end.
Definition StreamLogsRequest_GetTaskId (x : option StreamLogsRequest) : string :=
  match x with Some x => StreamLogsRequest_TaskId x | None => "" end.
Definition StreamLogsRequest_GetFollow (x : option StreamLogsRequest) : bool :=
  match x with Some x => StreamLogsRequest_Follow x | None => false end.
Definition StreamLogsRequest_GetTailLines (x : option StreamLogsRequest) : Z :=
  match x with Some x => StreamLogsRequest_TailLines x | None => 0 end.

Record LogEntry := mkLogEntry {
  LogEntry_TaskId : string;
  LogEntry_NodeId : string;
  LogEntry_TimestampNs : Z;
  LogEntry_Stream : string;
  LogEntry_Message : string
}.
Definition LogEntry_Reset : LogEntry :=
  mkLogEntry "" "" 0 "" "".
Definition LogEntry_GetTaskId (x : option LogEntry) : string :=
  match x with Some x => LogEntry_TaskId x | None => "" end.
Definition LogEntry_GetNodeId (x : option LogEntry) : string :=
  match x with Some x => LogEntry_NodeId x | None => "" end.
Definition LogEntry_GetTimestampNs (x : option LogEntry) : Z :=
  match x with Some x => LogEntry_TimestampNs x | None => 0 end.
Definition LogEntry_GetStream (x : option LogEntry) : string :=
  match x with Some x => LogEntry_Stream x | None => "" end.
Definition LogEntry_GetMessage (x : option LogEntry) : string :=
  match x with Some x => LogEntry_Message x | None => "" end.

Record GetJobMetricsRequest := mkGetJobMetricsRequest {
  GetJobMetricsRequest_JobId : string;
  GetJobMetricsRequest_StartTimeNs : Z;
  GetJobMetricsRequest_EndTimeNs : Z
}.
Definition GetJobMetricsRequest_Reset : GetJobMetricsRequest :=
  mkGetJobMetricsRequest "" 0 0.
Definition GetJobMetricsRequest_GetJobId (x : option GetJobMetricsRequest) : string :=
  match x with Some x => GetJobMetricsRequest_JobId x | None => "" end.
Definition GetJobMetricsRequest_GetStartTimeNs (x : option GetJobMetricsRequest) : Z :=
  match x with Some x => GetJobMetricsRequest_StartTimeNs x | None => 0 end.
Definition GetJobMetricsRequest_GetEndTimeNs (x : option GetJobMetricsRequest) : Z :=
  match x with Some x => GetJobMetricsRequest_EndTimeNs x | None => 0 end.

Record MetricPoint := mkMetricPoint {
  MetricPoint_TimestampNs : Z;
  MetricPoint_Value : spec_float
}.
Definition MetricPoint_Reset : MetricPoint :=
  mkMetricPoint 0 (S754_zero false).
Definition MetricPoint_GetTimestampNs (x : option MetricPoint) : Z :=
  match x with Some x => MetricPoint_TimestampNs x | None => 0 end.
Definition MetricPoint_GetValue (x : option MetricPoint) : spec_float :=
  match x with Some x => MetricPoint_Value x | None => (S754_zero false) end.

Record MetricSeries := mkMetricSeries {
  MetricSeries_Name : string;
  MetricSeries_TaskId : string;
  MetricSeries_Points : list MetricPoint
}.
Definition MetricSeries_Reset : MetricSeries :=
  mkMetricSeries "" "" [].
Definition MetricSeries_GetName (x : option MetricSeries) : string :=
  match x with Some x => MetricSeries_Name x | None => "" end.
Definition MetricSeries_GetTaskId (x : option MetricSeries) : string :=
  match x with Some x => MetricSeries_TaskId x | None => "" end.
Definition MetricSeries_GetPoints (x : option MetricSeries) : list MetricPoint :=
  match x with Some x => MetricSeries_Points x | None => [] end.

Record GetJobMetricsResponse := mkGetJobMetricsResponse {
  GetJobMetricsResponse_JobId : string;
  GetJobMetricsResponse_Series : list MetricSeries
}.
Definition GetJobMetricsResponse_Reset : GetJobMetricsResponse :=
  mkGetJobMetricsResponse "" [].
Definition GetJobMetricsResponse_GetJobId (x : option GetJobMetricsResponse) : string :=
  match x with Some x => GetJobMetricsResponse_JobId x | None => "" end.
Definition GetJobMetricsResponse_GetSeries (x : option GetJobMetricsResponse) : list MetricSeries :=
  match x with Some x => GetJobMetricsResponse_Series x | None => [] end.

