(* ===== verification/PbControl.v ===== *)
(** The wire types of [control-plane/gen/compute/v1/control.pb.go]: the cluster state.

    A message is a record; a Go pointer to a message is an [option] ([None] is nil),
    a repeated field a list, an enum its int32 value.  Every getter takes a possibly
    nil receiver, as in the Go code, and [Reset] stores the zero message. A field whose name is also 
    the name of an enum gets a final underscore. *)
From Stdlib Require Import ZArith SpecFloat.
From stdpp Require Import base strings gmap list.
From S2P Require Import Prelude.
Local Open Scope string_scope.
Local Open Scope Z_scope.

Record GetClusterStateRequest := mkGetClusterStateRequest {

}.
Definition GetClusterStateRequest_Reset : GetClusterStateRequest := mkGetClusterStateRequest.

Record ClusterResourceSummary := mkClusterResourceSummary {
  ClusterResourceSummary_NodeCount : Z;
  ClusterResourceSummary_TotalCpuCores : Z;
  ClusterResourceSummary_TotalRamBytes : Z;
  ClusterResourceSummary_TotalGpuCount : Z;
  ClusterResourceSummary_TotalVramBytes : Z;
  ClusterResourceSummary_OnlineNodeCount : Z
}.
Definition ClusterResourceSummary_Reset : ClusterResourceSummary :=
  mkClusterResourceSummary 0 0 0 0 0 0.
Definition ClusterResourceSummary_GetNodeCount (x : option ClusterResourceSummary) : Z :=
  match x with Some x => ClusterResourceSummary_NodeCount x | None => 0 end.
Definition ClusterResourceSummary_GetTotalCpuCores (x : option ClusterResourceSummary) : Z :=
  match x with Some x => ClusterResourceSummary_TotalCpuCores x | None => 0 end.
Definition ClusterResourceSummary_GetTotalRamBytes (x : option ClusterResourceSummary) : Z :=
  match x with Some x => ClusterResourceSummary_TotalRamBytes x | None => 0 end.
Definition ClusterResourceSummary_GetTotalGpuCount (x : option ClusterResourceSummary) : Z :=
  match x with Some x => ClusterResourceSummary_TotalGpuCount x | None => 0 end.
Definition ClusterResourceSummary_GetTotalVramBytes (x : option ClusterResourceSummary) : Z :=
  match x with Some x => ClusterResourceSummary_TotalVramBytes x | None => 0 end.
Definition ClusterResourceSummary_GetOnlineNodeCount (x : option ClusterResourceSummary) : Z :=
  match x with Some x => ClusterResourceSummary_OnlineNodeCount x | None => 0 end.

Record GetClusterStateResponse := mkGetClusterStateResponse {
  GetClusterStateResponse_LeaderId : string;
  GetClusterStateResponse_MemberIds : list string;
  GetClusterStateResponse_Resources : option ClusterResourceSummary
}.
Definition GetClusterStateResponse_Reset : GetClusterStateResponse :=
  mkGetClusterStateResponse "" [] None.
Definition GetClusterStateResponse_GetLeaderId (x : option GetClusterStateResponse) : string :=
  match x with Some x => GetClusterStateResponse_LeaderId x | None => "" end.
Definition GetClusterStateResponse_GetMemberIds (x : option GetClusterStateResponse) : list string :=
  match x with Some x => GetClusterStateResponse_MemberIds x | None => [] end.
Definition GetClusterStateResponse_GetResources (x : option GetClusterStateResponse) : option ClusterResourceSummary :=
  match x with Some x => GetClusterStateResponse_Resources x | None => None end.

Record JoinClusterRequest := mkJoinClusterRequest {
  JoinClusterRequest_NodeId : string;
  JoinClusterRequest_RaftAddress : string
}.
Definition JoinClusterRequest_Reset : JoinClusterRequest :=
  mkJoinClusterRequest "" "".
Definition JoinClusterRequest_GetNodeId (x : option JoinClusterRequest) : string :=
  match x with Some x => JoinClusterRequest_NodeId x | None => "" end.
Definition JoinClusterRequest_GetRaftAddress (x : option JoinClusterRequest) : string :=
  match x with Some x => JoinClusterRequest_RaftAddress x | None => "" end.

Record JoinClusterResponse := mkJoinClusterResponse {
  JoinClusterResponse_Accepted : bool;
  JoinClusterResponse_LeaderAddress : string
}.
Definition JoinClusterResponse_Reset : JoinClusterResponse :=
  mkJoinClusterResponse false "".
Definition JoinClusterResponse_GetAccepted (x : option JoinClusterResponse) : bool :=
  match x with Some x => JoinClusterResponse_Accepted x | None => false end.
Definition JoinClusterResponse_GetLeaderAddress (x : option JoinClusterResponse) : string :=
  match x with Some x => JoinClusterResponse_LeaderAddress x | None => "" end.

