(* ===== verification/Grpc.v ===== *)
(** Errors, and what the sources rely on of the libraries they link against: gRPC's
    contexts, metadata and status codes, and protobuf's message cloning.  The libraries are
    interfaces here: a class of operations, and a class of the laws that their
    documentation states. *)
From S2P Require Import Prelude PbResource.
Local Open Scope string_scope.

(** [google.golang.org/grpc/codes.Code]. *)
Inductive Code : Type :=
  | OK | Canceled | Unknown | InvalidArgument | DeadlineExceeded | NotFound | AlreadyExists
  | PermissionDenied | ResourceExhausted | FailedPrecondition | Aborted | OutOfRange
  | Unimplemented | Internal | Unavailable | DataLoss | Unauthenticated.
#[export] Instance Code_eq_dec : EqDecision Code.
Proof. solve_decision. Defined.

(** An [error] value: [io.EOF], a gRPC status error or any other error.  A Go result of
    type [error] is an [option error], [None] being nil. *)
Inductive error : Type :=
  | EOF
  | StatusError (c : Code) (msg : string)
  | OtherError (msg : string).
#[export] Instance error_eq_dec : EqDecision error.
Proof. solve_decision. Defined.

(** [status.Error] / [status.Errorf] with an already formatted message. *)
Definition status_Error (c : Code) (msg : string) : option error := Some (StatusError c msg).

Class GrpcLib := {
  Ctx : Type;                                      (* context.Context *)
  MD : Type;                                       (* metadata.MD *)
  FromIncomingContext : Ctx -> option MD;
  md_Get : MD -> string -> list string;
  peer_FromContext : Ctx -> option string;         (* p.Addr.String() *)
  status_Code : option error -> Code;
  Code_String : Code -> string;
  err_Error : error -> string                      (* err.Error() *)
}.

Class GrpcLibLaws `{!GrpcLib} : Prop := {
  status_Code_nil : status_Code None = OK;
  status_Code_status c msg : status_Code (Some (StatusError c msg)) = c;
  Code_String_inj c1 c2 : Code_String c1 = Code_String c2 -> c1 = c2
}.

(** [proto.CloneOf]: the copy has the contents of the original. *)
Class ProtoLib := { CloneOf : NodeResources -> NodeResources }.
Class ProtoLibLaws `{!ProtoLib} : Prop := { CloneOf_eq r : CloneOf r = r }.

(** Concrete instances, for the witnesses. A context is its metadata and its peer. *)
Definition test_Code_String (c : Code) : string :=
  match c with
  | OK => "OK" | Canceled => "Canceled" | Unknown => "Unknown"
  | InvalidArgument => "InvalidArgument" | DeadlineExceeded => "DeadlineExceeded"
  | NotFound => "NotFound" | AlreadyExists => "AlreadyExists"
  | PermissionDenied => "PermissionDenied" | ResourceExhausted => "ResourceExhausted"
  | FailedPrecondition => "FailedPrecondition" | Aborted => "Aborted"
  | OutOfRange => "OutOfRange" | Unimplemented => "Unimplemented" | Internal => "Internal"
  | Unavailable => "Unavailable" | DataLoss => "DataLoss" | Unauthenticated => "Unauthenticated"
  end.

Definition test_grpc : GrpcLib := {|
  Ctx := option (list (string * string)) * option string;
  MD := list (string * string);
  FromIncomingContext := fst;
  md_Get md k := (filter (fun p => p.1 = k) md).*2;
  peer_FromContext := snd;
  status_Code e := match e with
                   | None => OK
                   | Some (StatusError c _) => c
                   | Some _ => Unknown
                   end;
  Code_String := test_Code_String;
  err_Error e := match e with
                 | EOF => "EOF"
                 | StatusError c m =>
                     "rpc error: code = " +:+ test_Code_String c +:+ " desc = " +:+ m
                 | OtherError m => m
                 end
|}.

Lemma test_grpc_laws : @GrpcLibLaws test_grpc.
Proof. split; [done|done|]. intros [] []; simpl; intros; done. Qed.

Definition test_proto : ProtoLib := {| CloneOf r := r |}.
Lemma test_proto_laws : @ProtoLibLaws test_proto.
Proof. done. Qed.
