(* ===== verification/World.v ===== *)
(** The state the control plane's components share: the registry's node map, the cache of
    method names, and the trace of calls made on the metrics and on the log. *)
From S2P Require Import Prelude GoRuntime GoStrings PbResource PbAgent Grpc.

(** ** The trace

    A metric or log call is recorded, newest first, with its arguments. *)
Inductive Metric : Type :=
  | grpcServerRequests | grpcServerLatency | grpcActiveStreams
  | RegisteredNodes | RegistrationsTotal | HeartbeatsTotal | StaleNodesRemoved
  | TasksRunning | TLSCertLoadTotal.
#[export] Instance Metric_eq_dec : EqDecision Metric.
Proof. solve_decision. Defined.

Inductive MetricOp : Type :=
  | Inc | Dec | Add (v : Z) | Set_ (v : Z)
  | Observe (ns : Z).  (* a duration; the conversion to seconds is not modelled *)

Inductive LogLevel : Type := LDebug | LInfo | LWarn | LFatal.
Inductive LogVal : Type :=
  | LStr (s : string) | LInt (z : Z) | LBool (b : bool) | LErr (e : error).

Record LogEntry := mkLog {
  log_level : LogLevel;
  log_msg : string;
  log_fields : list (string * LogVal)
}.

Inductive Event : Type :=
  | EvMetric (m : Metric) (labels : list string) (op : MetricOp)
  | EvLog (e : LogEntry)
  | EvCall (callee : string).    (* a call into a library that starts or stops something *)

(** The value a series has after the calls of a trace: the last [Set] plus the increments
    since; for a histogram, the number of observations. *)
Definition apply_op (op : MetricOp) (v : Z) : Z :=
  match op with
  | Inc => v + 1
  | Dec => v - 1
  | Add d => v + d
  | Set_ d => d
  | Observe _ => v + 1
  end.

Fixpoint series_value (m : Metric) (labels : list string) (tr : list Event) : Z :=
  match tr with
  | [] => 0
  | EvMetric m' labels' op :: tr =>
      if decide (m' = m /\ labels' = labels)
      then apply_op op (series_value m labels tr)
      else series_value m labels tr
  | EvLog _ :: tr | EvCall _ :: tr => series_value m labels tr
  end.

(** ** Registered nodes *)
Record NodeInfo := mkNodeInfo {
  NodeID : string;
  Address : string;
  Resources : option NodeResources;
  LastBeat : Time;
  Tasks : gmap string TaskStatus;
  ConnectionID : Z
}.

(** ** The shared state *)
Record World := mkWorld {
  w_nodes : gmap string NodeInfo;      (* NodeRegistry.nodes *)
  w_known : gset string;               (* metrics.knownMethods *)
  w_trace : list Event;
  w_tick : nat                         (* serial number of the next clock reading or range *)
}.

Definition set_nodes (f : gmap string NodeInfo -> gmap string NodeInfo) (w : World) : World :=
  mkWorld (f (w_nodes w)) (w_known w) (w_trace w) (w_tick w).
Definition add_known (k : string) (w : World) : World :=
  mkWorld (w_nodes w) ({[k]} ∪ w_known w) (w_trace w) (w_tick w).
Definition add_event (e : Event) (w : World) : World :=
  mkWorld (w_nodes w) (w_known w) (e :: w_trace w) (w_tick w).
Definition next_tick (w : World) : World :=
  mkWorld (w_nodes w) (w_known w) (w_trace w) (S (w_tick w)).

Definition get_nodes : Go World (gmap string NodeInfo) := fun w => (Ret (w_nodes w), w).
Definition mod_nodes f : Go World unit := go_modify (set_nodes f).
Definition metric (m : Metric) (labels : list string) (op : MetricOp) : Go World unit :=
  go_modify (add_event (EvMetric m labels op)).
Definition log (l : LogLevel) (msg : string) (fields : list (string * LogVal)) : Go World unit :=
  go_modify (add_event (EvLog (mkLog l msg fields))).

Definition call (callee : string) : Go World unit := go_modify (add_event (EvCall callee)).

Section env.
Context `{!GoEnv}.

(** [time.Now()]. *)
Definition Now : Go World Time := fun w => (Ret (now_at (w_tick w)), next_tick w).

(** The entries of a map in the order one [range] statement visits them. *)
Definition range {V} (m : gmap string V) : Go World (list (string * V)) :=
  fun w => (Ret (range_at V (w_tick w) m), next_tick w).
End env.

(** Run the monadic operations of the goal on a state. *)
Ltac go_run :=
  unfold get_nodes, mod_nodes, metric, log, Now, range, go_modify, go_get, go_panic,
    mbind, go_bind, mret, go_ret; simpl.

(** ** Series values along the trace *)
Lemma series_value_metric m labels op w :
  series_value m labels (w_trace (add_event (EvMetric m labels op) w)) =
  apply_op op (series_value m labels (w_trace w)).
Proof. simpl. by rewrite decide_True. Qed.

Lemma series_value_other m labels m' labels' op w :
  ~ (m' = m /\ labels' = labels) ->
  series_value m labels (w_trace (add_event (EvMetric m' labels' op) w)) =
  series_value m labels (w_trace w).
Proof. intros H. simpl. by rewrite decide_False. Qed.

(** [series_simpl] evaluates series values along a trace of concrete calls. *)
Ltac series_simpl :=
  repeat first
    [ progress simpl
    | rewrite decide_True by done
    | rewrite decide_False by (intros [? ?]; congruence) ].

(** ** The log alone, and advancing the clock *)
Fixpoint logs_of (tr : list Event) : list LogEntry :=
  match tr with
  | [] => []
  | EvLog e :: tr => e :: logs_of tr
  | EvMetric _ _ _ :: tr | EvCall _ :: tr => logs_of tr
  end.
Definition logs (w : World) : list LogEntry := logs_of (w_trace w).

(** The calls alone. *)
Fixpoint calls_of (tr : list Event) : list string :=
  match tr with
  | [] => []
  | EvCall c :: tr => c :: calls_of tr
  | EvMetric _ _ _ :: tr | EvLog _ :: tr => calls_of tr
  end.
Definition calls (w : World) : list string := calls_of (w_trace w).

Definition ticks (k : nat) (w : World) : World :=
  mkWorld (w_nodes w) (w_known w) (w_trace w) (k + w_tick w).

Lemma ticks_0 w : ticks 0 w = w.
Proof. by destruct w. Qed.
Lemma ticks_add j k w : ticks j (ticks k w) = ticks (j + k) w.
Proof. unfold ticks. simpl. by rewrite Nat.add_assoc. Qed.
#[export] Hint Rewrite ticks_0 ticks_add : nmonit_rw.

(** ** Invariants of the basic operations *)
Section keeps_basic.
Context `{!GoEnv}.
Lemma keeps_Now (P : World -> Prop) : (forall w, P w -> P (next_tick w)) -> keeps P Now.
Proof. intros HP w. apply HP. Qed.
Lemma keeps_range (P : World -> Prop) {V} (m : gmap string V) :
  (forall w, P w -> P (next_tick w)) -> keeps P (range m).
Proof. intros HP w. apply HP. Qed.
Lemma keeps_get_nodes (P : World -> Prop) : keeps P get_nodes.
Proof. by intros w. Qed.
Lemma keeps_mod_nodes (P : World -> Prop) f :
  (forall w, P w -> P (set_nodes f w)) -> keeps P (mod_nodes f).
Proof. intros HP w. apply HP. Qed.
Lemma keeps_metric (P : World -> Prop) m labels op :
  (forall w, P w -> P (add_event (EvMetric m labels op) w)) -> keeps P (metric m labels op).
Proof. intros HP w. apply HP. Qed.
Lemma keeps_log (P : World -> Prop) l msg fields :
  (forall w, P w -> P (add_event (EvLog (mkLog l msg fields)) w)) -> keeps P (log l msg fields).
Proof. intros HP w. apply HP. Qed.
End keeps_basic.

(** Go through the steps of a computation; [tac] closes what each basic operation leaves. *)
Ltac keeps_world tac :=
  repeat first
    [ apply keeps_ret | apply keeps_panic | apply keeps_get_nodes
    | apply keeps_metric; intros ? ?; tac
    | apply keeps_log; intros ? ?; tac
    | apply keeps_Now; intros ? ?; tac
    | apply keeps_range; intros ? ?; tac
    | apply keeps_mod_nodes; intros ? ?; tac
    | apply keeps_defer
    | apply keeps_bind; [|intros ?]
    | apply keeps_for; intros ?
    | progress case_match ].
