(* ===== verification/Registry.v ===== *)
(** [control-plane/internal/registry/registry.go]: the registry of connected nodes.

    Every method holds [r.mu] for its whole body (the nil check of [Register] comes before
    the lock and reads no shared state), so a method is one computation over the shared
    state, and an interleaving of methods is a sequence of them. The [*NodeInfo] of a node
    never leaves the registry, hence a node is a value of the map. *)
From S2P Require Import Prelude GoRuntime GoStrings PbResource PbAgent Grpc World.
Local Open Scope string_scope.
Local Open Scope Z_scope.

Record NodeSummary := mkNodeSummary {
  ns_NodeID : string;
  ns_Hostname : string;
  ns_Address : string;
  ns_LastBeat : Time;
  ns_CPU : option CpuResources;
  ns_Memory : option MemoryResources;
  ns_GPUs : list GpuResources;
  ns_ConnectionID : Z
}.

(** [NewNodeRegistry] (with the metrics and caches as the process starts with). *)
Definition NewNodeRegistry : gmap string NodeInfo := ∅.

Section registry.
Context `{!GoEnv, !ProtoLib}.

Definition NodeRegistry_Register (nodeID addr : string) (res : option NodeResources)
  : Go World unit :=
  match res with
  | None => go_panic "NodeRegistry.Register: nil NodeResources for node_id=%q" [nodeID]
  | Some _ =>
      nodes ← get_nodes;
      let connID := match nodes !! nodeID with
                    | Some existing => wrapU64 (ConnectionID existing + 1)
                    | None => 1
                    end in
      now ← Now;
      mod_nodes (insert nodeID {|
        NodeID := nodeID; Address := addr; Resources := res; LastBeat := now;
        Tasks := ∅; ConnectionID := connID |}) ;;
      metric RegistrationsTotal [] Inc ;;
      nodes ← get_nodes;
      metric RegisteredNodes [] (Set_ (Z.of_nat (size nodes)))
  end.

(** The task map a heartbeat installs: later entries of the message overwrite earlier ones. *)
Definition task_map (tasks : list TaskStatus) : gmap string TaskStatus :=
  foldl (fun m t => <[TaskStatus_TaskId t := t]> m) ∅ tasks.

Definition totalTasksLocked : Go World Z :=
  nodes ← get_nodes;
  l ← range nodes;
  mret (foldl (fun total '(_, n) => wrapI64 (total + Z.of_nat (size (Tasks n)))) 0 l).

Definition NodeRegistry_UpdateHeartbeat (nodeID : string) (_ : option NodeUtilization)
    (tasks : list TaskStatus) : Go World unit :=
  nodes ← get_nodes;
  match nodes !! nodeID with
  | Some n =>
      now ← Now;
      mod_nodes (insert nodeID (mkNodeInfo (NodeID n) (Address n) (Resources n) now
                                           (task_map tasks) (ConnectionID n)))
  | None => mret tt
  end ;;
  metric HeartbeatsTotal [] Inc ;;
  total ← totalTasksLocked;
  metric TasksRunning [] (Set_ total).

Definition summary (v : NodeInfo) : NodeSummary :=
  let cl := CloneOf <$> Resources v in
  {| ns_NodeID := NodeID v;
     ns_Hostname := match cl with Some cl => NodeResources_Hostname cl | None => "" end;
     ns_Address := Address v;
     ns_LastBeat := LastBeat v;
     ns_CPU := match cl with Some cl => NodeResources_Cpu cl | None => None end;
     ns_Memory := match cl with Some cl => NodeResources_Memory cl | None => None end;
     ns_GPUs := match cl with Some cl => NodeResources_Gpus cl | None => [] end;
     ns_ConnectionID := ConnectionID v |}.

Definition NodeRegistry_GetAll : Go World (list NodeSummary) :=
  nodes ← get_nodes;
  l ← range nodes;
  mret (foldl (fun out '(_, v) => (out ++ [summary v])%list) [] l).

Definition NodeRegistry_Remove (nodeID : string) : Go World unit :=
  mod_nodes (delete nodeID) ;;
  nodes ← get_nodes;
  metric RegisteredNodes [] (Set_ (Z.of_nat (size nodes))) ;;
  total ← totalTasksLocked;
  metric TasksRunning [] (Set_ total).

Definition NodeRegistry_RemoveIfConnectionMatches (nodeID : string) (connID : Z)
  : Go World unit :=
  nodes ← get_nodes;
  match nodes !! nodeID with
  | Some n =>
      if ConnectionID n =? connID then
        mod_nodes (delete nodeID) ;;
        nodes ← get_nodes;
        metric RegisteredNodes [] (Set_ (Z.of_nat (size nodes))) ;;
        total ← totalTasksLocked;
        metric TasksRunning [] (Set_ total)
      else mret tt
  | None => mret tt
  end.

Definition NodeRegistry_ConnectionID (nodeID : string) : Go World Z :=
  nodes ← get_nodes;
  mret match nodes !! nodeID with Some n => ConnectionID n | None => 0 end.

(** The loop of the cleanup over the entries a [range] visits; a node is deleted while the
    map is ranged over, which Go allows. Returns the number of nodes removed. *)
Fixpoint cleanup_loop (now : Time) (threshold : Z) (l : list (string * NodeInfo))
    (removed : Z) : Go World Z :=
  match l with
  | [] => mret removed
  | (id, info) :: l =>
      if Sub now (LastBeat info) >? threshold then
        mod_nodes (delete id) ;;
        log LWarn "node marked offline (stale)"
            [("node_id", LStr id); ("since_last_beat", LInt (Sub now (LastBeat info)))] ;;
        cleanup_loop now threshold l (removed + 1)
      else cleanup_loop now threshold l removed
  end.

(** What one tick of the cleanup goroutine does, under the lock. *)
Definition cleanup_tick (threshold : Z) : Go World unit :=
  now ← Now;
  nodes ← get_nodes;
  l ← range nodes;
  removed ← cleanup_loop now threshold l 0;
  if removed >? 0 then
    metric StaleNodesRemoved [] (Add removed) ;;
    nodes ← get_nodes;
    metric RegisteredNodes [] (Set_ (Z.of_nat (size nodes))) ;;
    total ← totalTasksLocked;
    metric TasksRunning [] (Set_ total)
  else mret tt.

(** The goroutine, over the cases its [select] takes: [ctx.Done()] or a tick. *)
Inductive cleanup_event := CtxDone | Tick.

Fixpoint StaleNodeCleanup (threshold : Z) (evs : list cleanup_event) : Go World unit :=
  match evs with
  | [] => mret tt                       (* blocked in [select] *)
  | CtxDone :: _ => mret tt
  | Tick :: evs => cleanup_tick threshold ;; StaleNodeCleanup threshold evs
  end.
End registry.

(** * What the methods do to the node map *)

(** The number of tasks of all nodes, as an exact number. *)
Definition total_tasks (nodes : gmap string NodeInfo) : Z :=
  Z.of_nat (sum_list_with (fun p => size (Tasks p.2)) (map_to_list nodes)).

(** The nodes whose last beat is more than [threshold] before [now]. *)
Definition stale (now : Time) (threshold : Z) (p : string * NodeInfo) : Prop :=
  Sub now (LastBeat p.2) > threshold.
#[export] Instance stale_dec now threshold p : Decision (stale now threshold p).
Proof. unfold stale. apply _. Defined.

Definition fresh_nodes (now : Time) (threshold : Z) (nodes : gmap string NodeInfo)
  : gmap string NodeInfo := filter (fun p => ~ stale now threshold p) nodes.

Section registry_facts.
Context `{!GoEnv, !ProtoLib}.

Lemma wrapI64_add_l a b : wrapI64 (wrapI64 a + b) = wrapI64 (a + b).
Proof.
  unfold wrapI64. f_equal.
  replace ((a + 2 ^ 63) `mod` 2 ^ 64 - 2 ^ 63 + b + 2 ^ 63)
    with ((a + 2 ^ 63) `mod` 2 ^ 64 + b) by lia.
  rewrite Z.add_mod_idemp_l by lia. f_equal. lia.
Qed.

Lemma total_fold (l : list (string * NodeInfo)) acc :
  foldl (fun total '(_, n) => wrapI64 (total + Z.of_nat (size (Tasks n)))) (wrapI64 acc) l =
  wrapI64 (acc + Z.of_nat (sum_list_with (fun p => size (Tasks p.2)) l)).
Proof.
  revert acc. induction l as [|[k n] l IH]; intros acc; simpl.
  - by rewrite Z.add_0_r.
  - rewrite wrapI64_add_l, IH. f_equal. lia.
Qed.

(** The sum does not depend on the order the map is visited in. *)
Lemma totalTasksLocked_run `{!GoEnvLaws} w :
  totalTasksLocked w = (Ret (wrapI64 (total_tasks (w_nodes w))), next_tick w).
Proof.
  unfold totalTasksLocked. go_run. do 2 f_equal.
  etrans; [apply (total_fold _ 0)|]. unfold total_tasks. rewrite Z.add_0_l.
  do 2 f_equal. apply sum_list_with_perm, range_at_perm.
Qed.

#[local] Opaque totalTasksLocked.

(** Deleting the stale entries of the visited list. *)
Lemma cleanup_loop_nodes now threshold l removed w :
  exists w', cleanup_loop now threshold l removed w =
    (Ret (removed + Z.of_nat (length (filter (stale now threshold) l))), w')
  /\ w_nodes w' = foldl (fun m k => delete k m) (w_nodes w) (filter (stale now threshold) l).*1
  /\ w_known w' = w_known w /\ w_tick w' = w_tick w
  /\ (forall m labels, series_value m labels (w_trace w') = series_value m labels (w_trace w)).
Proof.
  revert removed w. induction l as [|[id info] l IH]; intros removed w; simpl.
  - exists w. rewrite Z.add_0_r. done.
  - rewrite filter_cons. destruct (Z.gtb_spec (Sub now (LastBeat info)) threshold) as [Hgt|Hle].
    + rewrite decide_True by (unfold stale; simpl; lia). go_run.
      edestruct IH as (w' & -> & Hn & Hk & Ht & Hs).
      exists w'. rewrite Hn, Hk, Ht. split; [do 2 f_equal; lia|]. done.
    + rewrite decide_False by (unfold stale; simpl; lia). apply IH.
Qed.

(** ** The methods, run *)
Definition registered (now : Time) (id addr : string) (r : NodeResources)
    (nodes : gmap string NodeInfo) : NodeInfo :=
  mkNodeInfo id addr (Some r) now ∅
    match nodes !! id with Some n => wrapU64 (ConnectionID n + 1) | None => 1 end.

Definition beaten (now : Time) (tasks : list TaskStatus) (n : NodeInfo) : NodeInfo :=
  mkNodeInfo (NodeID n) (Address n) (Resources n) now (task_map tasks) (ConnectionID n).

Lemma Register_run id addr r w :
  NodeRegistry_Register id addr (Some r) w =
  (Ret tt,
   let nodes := <[id := registered (now_at (w_tick w)) id addr r (w_nodes w)]> (w_nodes w) in
   mkWorld nodes (w_known w)
     (EvMetric RegisteredNodes [] (Set_ (Z.of_nat (size nodes)))
      :: EvMetric RegistrationsTotal [] Inc :: w_trace w)
     (S (w_tick w))).
Proof. reflexivity. Qed.

Lemma Register_nil id addr w : exec (NodeRegistry_Register id addr None) w = w.
Proof. reflexivity. Qed.

Lemma UpdateHeartbeat_run `{!GoEnvLaws} id util tasks w :
  let nodes := alter (beaten (now_at (w_tick w)) tasks) id (w_nodes w) in
  exists tick,
  NodeRegistry_UpdateHeartbeat id util tasks w =
  (Ret tt, mkWorld nodes (w_known w)
     (EvMetric TasksRunning [] (Set_ (wrapI64 (total_tasks nodes)))
      :: EvMetric HeartbeatsTotal [] Inc :: w_trace w) tick).
Proof.
  simpl. unfold NodeRegistry_UpdateHeartbeat. go_run.
  destruct (w_nodes w !! id) as [n|] eqn:E; go_run; rewrite totalTasksLocked_run; simpl.
  - eexists. by rewrite (alter_Some_insert _ _ _ n).
  - eexists. by rewrite alter_None.
Qed.

(** What removals leave behind: the gauges set from the new map. *)
Definition removed_world (nodes : gmap string NodeInfo) (tr : list Event) (tick : nat)
    (w : World) : World :=
  mkWorld nodes (w_known w)
    (EvMetric TasksRunning [] (Set_ (wrapI64 (total_tasks nodes)))
     :: EvMetric RegisteredNodes [] (Set_ (Z.of_nat (size nodes))) :: tr) tick.

Lemma Remove_run `{!GoEnvLaws} id w :
  NodeRegistry_Remove id w =
  (Ret tt, removed_world (delete id (w_nodes w)) (w_trace w) (S (w_tick w)) w).
Proof. unfold NodeRegistry_Remove. go_run. by rewrite totalTasksLocked_run. Qed.

Lemma RemoveIf_run `{!GoEnvLaws} id conn w :
  NodeRegistry_RemoveIfConnectionMatches id conn w =
  (Ret tt,
   if decide (ConnectionID <$> w_nodes w !! id = Some conn)
   then removed_world (delete id (w_nodes w)) (w_trace w) (S (w_tick w)) w
   else w).
Proof.
  unfold NodeRegistry_RemoveIfConnectionMatches. go_run.
  destruct (w_nodes w !! id) as [n|]; simpl; [|done].
  destruct (Z.eqb_spec (ConnectionID n) conn) as [->|Hne]; go_run.
  - by rewrite totalTasksLocked_run, decide_True.
  - rewrite decide_False; [done|congruence].
Qed.

Lemma ConnectionID_run id w :
  NodeRegistry_ConnectionID id w =
  (Ret match w_nodes w !! id with Some n => ConnectionID n | None => 0 end, w).
Proof. reflexivity. Qed.

Lemma GetAll_run w :
  NodeRegistry_GetAll w =
  (Ret (map (fun p => summary p.2) (range_at NodeInfo (w_tick w) (w_nodes w))), next_tick w).
Proof.
  unfold NodeRegistry_GetAll. go_run. do 2 f_equal.
  assert (Hf : forall l (out : list NodeSummary),
    foldl (fun out '((_, v) : string * NodeInfo) => (out ++ [summary v])%list) out l
    = (out ++ map (fun p => summary p.2) l)%list).
  { induction l as [|[k v] l IH]; intros out; simpl; [by rewrite app_nil_r|].
    by rewrite IH, <- app_assoc. }
  apply Hf.
Qed.

(** One tick of the cleanup keeps exactly the nodes that are not stale, whatever order the
    map is visited in; the metrics change only when a node went. *)
Lemma cleanup_tick_run `{!GoEnvLaws} threshold w :
  let nodes := fresh_nodes (now_at (w_tick w)) threshold (w_nodes w) in
  let removed := Z.of_nat (size (w_nodes w)) - Z.of_nat (size nodes) in
  exists w',
  cleanup_tick threshold w = (Ret tt, w')
  /\ w_nodes w' = nodes /\ w_known w' = w_known w
  /\ 0 <= removed
  /\ (forall m labels, series_value m labels (w_trace w') =
        series_value m labels
          (if removed >? 0 then
             EvMetric TasksRunning [] (Set_ (wrapI64 (total_tasks nodes)))
             :: EvMetric RegisteredNodes [] (Set_ (Z.of_nat (size nodes)))
             :: EvMetric StaleNodesRemoved [] (Add removed) :: w_trace w
           else w_trace w)).
Proof.
  simpl. set (now := now_at (w_tick w)).
  set (l := range_at NodeInfo (S (w_tick w)) (w_nodes w)).
  assert (Hl : is_range l (w_nodes w)) by apply range_at_perm.
  destruct (cleanup_loop_nodes now threshold l 0 (next_tick (next_tick w)))
    as (w1 & Hrun & Hn & Hk & _ & Hs).
  rewrite foldl_delete_filter in Hn by exact Hl. fold (fresh_nodes now threshold (w_nodes w)) in Hn.
  pose proof (size_filter_split (stale now threshold) l (w_nodes w) Hl) as Hsz.
  fold (fresh_nodes now threshold (w_nodes w)) in Hsz.
  unfold cleanup_tick. go_run. fold now l. rewrite Hrun. rewrite Z.add_0_l.
  set (r := Z.of_nat (length (filter (stale now threshold) l))) in *.
  replace (Z.of_nat (size (w_nodes w)) - _) with r by lia.
  destruct (Z.gtb_spec r 0) as [Hr|Hr]; go_run.
  - rewrite totalTasksLocked_run. simpl. eexists. split; [done|]. simpl.
    rewrite Hn, Hk. repeat split; [lia|]. intros m labels. simpl.
    by repeat case_decide; rewrite ?Hs.
  - exists w1. repeat split; [done|done|lia|]. intros m labels. apply Hs.
Qed.
End registry_facts.

(** The entry a heartbeat's task list leaves for an identifier is the last one naming it. *)
Lemma task_map_lookup tasks tid :
  task_map tasks !! tid = last (filter (fun t => TaskStatus_TaskId t = tid) tasks).
Proof.
  unfold task_map. induction tasks as [|t tasks IH] using rev_ind; [done|].
  rewrite foldl_app, filter_app. simpl. rewrite filter_cons, filter_nil.
  destruct (decide (TaskStatus_TaskId t = tid)) as [<-|Hne].
  - by rewrite lookup_insert_eq, last_snoc.
  - by rewrite lookup_insert_ne, app_nil_r.
Qed.

Lemma task_map_size tasks : (size (task_map tasks) <= length tasks)%nat.
Proof.
  unfold task_map. induction tasks as [|t tasks IH] using rev_ind; [done|].
  rewrite foldl_app, length_app. simpl.
  rewrite map_size_insert. case_match; simpl; lia.
Qed.

(** ** Sums over the nodes *)
Lemma total_tasks_empty : total_tasks ∅ = 0.
Proof. reflexivity. Qed.

Lemma total_tasks_insert_new k n nodes :
  nodes !! k = None -> total_tasks (<[k := n]> nodes) = Z.of_nat (size (Tasks n)) + total_tasks nodes.
Proof.
  intros H. unfold total_tasks.
  rewrite (sum_list_with_perm _ _ _ (map_to_list_insert nodes k n H)). simpl. lia.
Qed.

Lemma total_tasks_delete k n nodes :
  nodes !! k = Some n -> total_tasks nodes = Z.of_nat (size (Tasks n)) + total_tasks (delete k nodes).
Proof.
  intros H. rewrite <- (total_tasks_insert_new k) by apply lookup_delete_eq.
  by rewrite insert_delete_id.
Qed.

Lemma total_tasks_nonneg nodes : 0 <= total_tasks nodes.
Proof. unfold total_tasks. lia. Qed.
#[export] Hint Resolve total_tasks_nonneg : nmonit.

(** * Properties of the methods *)
Section registry_properties.
Context `{!GoEnv, !ProtoLib}.

(** [Register] with resources returns, and installs a node that carries them with an
    empty task map, the instant of the call as its last beat, and connection identifier 1,
    or one more (modulo 2^64) than the one it replaces; no other node changes, the
    registration counter goes up by one and the node gauge is the size of the map.  With
    nil resources it panics and changes nothing. *)
Theorem Register_spec id addr r w :
  let w' := exec (NodeRegistry_Register id addr (Some r)) w in
  value (NodeRegistry_Register id addr (Some r)) w = Some tt
  /\ w_nodes w' !! id = Some {|
       NodeID := id; Address := addr; Resources := Some r; LastBeat := now_at (w_tick w);
       Tasks := ∅;
       ConnectionID := match w_nodes w !! id with
                       | Some n => (ConnectionID n + 1) mod 2 ^ 64
                       | None => 1
                       end |}
  /\ (forall k, k <> id -> w_nodes w' !! k = w_nodes w !! k)
  /\ series_value RegistrationsTotal [] (w_trace w') =
     series_value RegistrationsTotal [] (w_trace w) + 1
  /\ series_value RegisteredNodes [] (w_trace w') = Z.of_nat (size (w_nodes w'))
  /\ exec (NodeRegistry_Register id addr None) w = w
  /\ value (NodeRegistry_Register id addr None) w = None.
Proof.
  unfold exec, value. rewrite Register_run. simpl.
  split; [done|]. split; [by rewrite lookup_insert_eq|].
  split; [intros k Hk; by rewrite lookup_insert_ne|]. by series_simpl.
Qed.

(** C5: a heartbeat for a registered node moves its last beat to the instant of the call,
    replaces its task map by the message's tasks (for a repeated identifier the last one
    counts) and keeps its identity, address, resources and connection identifier; every
    other node is untouched, no node appears or disappears, and a heartbeat for an unknown
    node changes no node.  In both cases the heartbeat counter goes up by one and the task
    gauge becomes the number of tasks of all nodes. *)
Theorem UpdateHeartbeat_spec `{!GoEnvLaws} id util tasks w :
  let w' := exec (NodeRegistry_UpdateHeartbeat id util tasks) w in
  value (NodeRegistry_UpdateHeartbeat id util tasks) w = Some tt
  /\ match w_nodes w !! id with
     | Some n => exists n', w_nodes w' !! id = Some n'
         /\ LastBeat n' = now_at (w_tick w)
         /\ (forall tid, Tasks n' !! tid
              = last (filter (fun t => TaskStatus_TaskId t = tid) tasks))
         /\ NodeID n' = NodeID n /\ Address n' = Address n /\ Resources n' = Resources n
         /\ ConnectionID n' = ConnectionID n
     | None => w_nodes w' = w_nodes w
     end
  /\ (forall k, k <> id -> w_nodes w' !! k = w_nodes w !! k)
  /\ dom (w_nodes w') = dom (w_nodes w)
  /\ series_value HeartbeatsTotal [] (w_trace w') =
     series_value HeartbeatsTotal [] (w_trace w) + 1
  /\ series_value TasksRunning [] (w_trace w') = wrapI64 (total_tasks (w_nodes w')).
Proof.
  unfold exec, value. destruct (UpdateHeartbeat_run id util tasks w) as (tick & ->). simpl.
  split; [done|]. split; [|split; [intros k Hk; by rewrite lookup_alter_ne|]].
  - destruct (w_nodes w !! id) as [n|] eqn:E; [|by rewrite alter_None].
    eexists. rewrite lookup_alter_eq, E. split; [done|]. simpl.
    split; [done|]. split; [apply task_map_lookup|done].
  - split; [by rewrite dom_alter_L|]. by series_simpl.
Qed.

(** C4: a tick of the stale-node cleanup keeps exactly the nodes whose last beat is at most
    the threshold before the instant of the tick, with everything they carry, whatever
    order the map is visited in; the stale counter grows by the number of nodes removed,
    and when there are any the node gauge is the size of the remaining map. *)
Theorem cleanup_tick_spec `{!GoEnvLaws} threshold w :
  let w' := exec (cleanup_tick threshold) w in
  value (cleanup_tick threshold) w = Some tt
  /\ (forall id n, w_nodes w' !! id = Some n <->
        w_nodes w !! id = Some n /\ Sub (now_at (w_tick w)) (LastBeat n) <= threshold)
  /\ series_value StaleNodesRemoved [] (w_trace w') =
     series_value StaleNodesRemoved [] (w_trace w)
     + (Z.of_nat (size (w_nodes w)) - Z.of_nat (size (w_nodes w')))
  /\ (w_nodes w' <> w_nodes w ->
      series_value RegisteredNodes [] (w_trace w') = Z.of_nat (size (w_nodes w'))).
Proof.
  unfold exec, value. destruct (cleanup_tick_run threshold w) as (w' & -> & Hn & _ & Hr & Hs).
  simpl. split; [done|]. rewrite Hn, !Hs.
  set (nodes := fresh_nodes _ _ _) in *.
  split; [|split].
  - intros id n. unfold nodes, fresh_nodes. rewrite map_lookup_filter_Some. unfold stale. simpl.
    split; intros [? ?]; (split; [done|lia]).
  - destruct (Z.gtb_spec (Z.of_nat (size (w_nodes w)) - Z.of_nat (size nodes)) 0); series_simpl;
      lia.
  - intros Hne. assert (Hlt : (size nodes < size (w_nodes w))%nat).
    { apply map_subset_size. split; [apply map_filter_subseteq|].
      intros Hsub. apply Hne. apply (anti_symm (⊆)); [apply map_filter_subseteq|done]. }
    rewrite (proj2 (Z.gtb_lt _ _)) by lia. by series_simpl.
Qed.

(** A snapshot lists every registered node exactly once, in some order, with its
    identity, address, last beat, connection identifier, hostname and hardware, and taking
    it changes no node and no metric. *)
Theorem GetAll_spec `{!GoEnvLaws, !ProtoLibLaws} w :
  exists out, value NodeRegistry_GetAll w = Some out
  /\ out ≡ₚ (fun p : string * NodeInfo => {|
         ns_NodeID := NodeID p.2;
         ns_Hostname := NodeResources_GetHostname (Resources p.2);
         ns_Address := Address p.2;
         ns_LastBeat := LastBeat p.2;
         ns_CPU := NodeResources_GetCpu (Resources p.2);
         ns_Memory := NodeResources_GetMemory (Resources p.2);
         ns_GPUs := NodeResources_GetGpus (Resources p.2);
         ns_ConnectionID := ConnectionID p.2 |}) <$> map_to_list (w_nodes w)
  /\ w_nodes (exec NodeRegistry_GetAll w) = w_nodes w
  /\ w_trace (exec NodeRegistry_GetAll w) = w_trace w.
Proof.
  unfold exec, value. rewrite GetAll_run. simpl. eexists. split; [done|]. split; [|done].
  rewrite <- (range_at_perm _ (w_tick w) (w_nodes w)). apply reflexive_eq.
  apply list_fmap_ext. intros _ [k n] _. simpl. unfold summary.
  destruct (Resources n) as [r|]; simpl; [|done]. by rewrite CloneOf_eq.
Qed.

(** Removing a node by its connection identifier removes it exactly when that is still
    its identifier; in every case the other nodes keep what they carry, and when the
    identifier differs or the node is unknown nothing at all changes. *)
Theorem RemoveIfConnectionMatches_spec `{!GoEnvLaws} id conn w :
  let w' := exec (NodeRegistry_RemoveIfConnectionMatches id conn) w in
  (forall k, w_nodes w' !! k =
     if decide (k = id /\ ConnectionID <$> w_nodes w !! id = Some conn)
     then None else w_nodes w !! k)
  /\ (ConnectionID <$> w_nodes w !! id <> Some conn -> w' = w).
Proof.
  unfold exec. rewrite RemoveIf_run. simpl.
  destruct (decide (ConnectionID <$> w_nodes w !! id = Some conn)) as [He|He]; simpl.
  - split; [|done]. intros k. destruct (decide (k = id)) as [->|Hk].
    + by rewrite lookup_delete_eq, decide_True.
    + rewrite lookup_delete_ne by done. by rewrite decide_False by (by intros [? _]).
  - split; [|done]. intros k. by rewrite decide_False by (by intros [_ ?]).
Qed.
End registry_properties.
