(* ===== verification/RegistrySafety.v ===== *)
(** The registry over time: any sequence of its methods, interleaved with what the rest of
    the process does to the shared trace, as a transition system; invariants of its reachable
    states, the behaviour of connection identifiers and of the task gauge. *)
From S2P Require Import Prelude GoRuntime GoStrings PbResource PbAgent Grpc World Registry.
Local Open Scope string_scope.
Local Open Scope Z_scope.

(** From here on the methods are used through their run lemmas. *)
#[local] Opaque NodeRegistry_Register NodeRegistry_UpdateHeartbeat NodeRegistry_GetAll
  NodeRegistry_Remove NodeRegistry_RemoveIfConnectionMatches cleanup_tick.

(** One call of a method of the registry. *)
Inductive reg_op : Type :=
  | ORegister (id addr : string) (res : option NodeResources)
  | OHeartbeat (id : string) (util : option NodeUtilization) (tasks : list TaskStatus)
  | OGetAll
  | ORemove (id : string)
  | ORemoveIf (id : string) (conn : Z)
  | OConnectionID (id : string)
  | OCleanup (threshold : Z).

Section transition_system.
Context `{!GoEnv, !ProtoLib}.

Definition run_op (o : reg_op) : Go World unit :=
  match o with
  | ORegister id addr res => NodeRegistry_Register id addr res
  | OHeartbeat id util tasks => NodeRegistry_UpdateHeartbeat id util tasks
  | OGetAll => NodeRegistry_GetAll ;; mret tt
  | ORemove id => NodeRegistry_Remove id
  | ORemoveIf id conn => NodeRegistry_RemoveIfConnectionMatches id conn
  | OConnectionID id => NodeRegistry_ConnectionID id ;; mret tt
  | OCleanup threshold => cleanup_tick threshold
  end.

(** The series the registry owns; the rest of the process leaves them alone. *)
Definition registry_metric (m : Metric) : Prop :=
  m ∈ [RegisteredNodes; RegistrationsTotal; HeartbeatsTotal; StaleNodesRemoved; TasksRunning].

Definition frame (w w' : World) : Prop :=
  w_nodes w' = w_nodes w
  /\ forall m, registry_metric m ->
       series_value m [] (w_trace w') = series_value m [] (w_trace w).

Inductive reg_step : World -> World -> Prop :=
  | step_op o w : reg_step w (exec (run_op o) w)
  | step_frame w w' : frame w w' -> reg_step w w'.

(** The process starts with an empty registry and no call made. *)
Definition initial (w : World) : Prop := w_nodes w = NewNodeRegistry /\ w_trace w = [].

Definition reachable (w : World) : Prop := exists w0, initial w0 /\ rtc reg_step w0 w.
End transition_system.

(** ** Invariant *)
Definition node_ok (k : string) (n : NodeInfo) : Prop :=
  NodeID n = k /\ is_Some (Resources n) /\ is_u64 (ConnectionID n).

Record registry_ok (w : World) : Prop := {
  ok_nodes : map_Forall node_ok (w_nodes w);
  ok_gauge : series_value RegisteredNodes [] (w_trace w) = Z.of_nat (size (w_nodes w));
  ok_stale : 0 <= series_value StaleNodesRemoved [] (w_trace w);
  ok_balance : Z.of_nat (size (w_nodes w)) + series_value StaleNodesRemoved [] (w_trace w)
               <= series_value RegistrationsTotal [] (w_trace w)
}.

Section invariant.
Context `{!GoEnv, !ProtoLib}.

Lemma registry_ok_frame w w' : frame w w' -> registry_ok w -> registry_ok w'.
Proof.
  intros [Hn Hs] [Ok1 Ok2 Ok3 Ok4].
  split; rewrite ?Hn, ?Hs; auto; unfold registry_metric; set_solver.
Qed.

Lemma registry_ok_Register id addr res w :
  registry_ok w -> registry_ok (exec (NodeRegistry_Register id addr res) w).
Proof.
  intros [Ok1 Ok2 Ok3 Ok4]. destruct res as [r|]; [|by rewrite Register_nil].
  unfold exec. rewrite Register_run. split; simpl.
  - apply map_Forall_insert_2; [|done]. unfold node_ok, registered; simpl.
    split; [done|]. split; [by eexists|].
    destruct (w_nodes w !! id); [apply wrapU64_range|unfold is_u64; lia].
  - done.
  - by series_simpl.
  - series_simpl. rewrite map_size_insert. destruct (w_nodes w !! id); simpl; lia.
Qed.

Lemma registry_ok_removed nodes tr tick w :
  map_Forall node_ok nodes ->
  0 <= series_value StaleNodesRemoved [] tr ->
  Z.of_nat (size nodes) + series_value StaleNodesRemoved [] tr
    <= series_value RegistrationsTotal [] tr ->
  registry_ok (removed_world nodes tr tick w).
Proof. intros Hr1 Hr2 Hr3. split; simpl; by series_simpl. Qed.

Lemma registry_ok_delete id tick w :
  registry_ok w -> registry_ok (removed_world (delete id (w_nodes w)) (w_trace w) tick w).
Proof.
  intros [Ok1 Ok2 Ok3 Ok4]. apply registry_ok_removed; [by apply map_Forall_delete|done|].
  rewrite map_size_delete. destruct (w_nodes w !! id); simpl; lia.
Qed.

Lemma registry_ok_op `{!GoEnvLaws} o w : registry_ok w -> registry_ok (exec (run_op o) w).
Proof.
  intros Hok. destruct o as [id addr res|id util tasks| |id|id conn|id|threshold]; simpl.
  - by apply registry_ok_Register.
  - destruct Hok as [Ok1 Ok2 Ok3 Ok4].
    unfold exec. destruct (UpdateHeartbeat_run id util tasks w) as (tick & ->).
    split; simpl; series_simpl; rewrite ?size_alter; try done.
    intros k n. rewrite lookup_alter. case_decide as Hk; [|apply Ok1].
    subst. destruct (w_nodes w !! k) as [n'|] eqn:E; [|done]. intros [= <-]. by apply (Ok1 k) in E.
  - unfold exec, mbind, go_bind. rewrite GetAll_run. by apply (registry_ok_frame w).
  - unfold exec. rewrite Remove_run. by apply registry_ok_delete.
  - unfold exec. rewrite RemoveIf_run. simpl. case_decide; [|done]. by apply registry_ok_delete.
  - done.
  - destruct Hok as [Ok1 Ok2 Ok3 Ok4]. unfold exec.
    destruct (cleanup_tick_run threshold w) as (w' & -> & Hn & _ & Hr & Hs).
    split; simpl; rewrite ?Hn, ?Hs.
    + intros k n Hk. unfold fresh_nodes in Hk. apply map_lookup_filter_Some in Hk as [Hk _].
      by apply Ok1.
    + destruct (Z.gtb_spec (Z.of_nat (size (w_nodes w)) -
        Z.of_nat (size (fresh_nodes (now_at (w_tick w)) threshold (w_nodes w)))) 0);
        series_simpl; lia.
    + case_match; series_simpl; lia.
    + destruct (Z.gtb_spec (Z.of_nat (size (w_nodes w)) -
        Z.of_nat (size (fresh_nodes (now_at (w_tick w)) threshold (w_nodes w)))) 0);
        series_simpl; lia.
Qed.

Lemma reachable_ok `{!GoEnvLaws} w : reachable w -> registry_ok w.
Proof.
  intros (w0 & [Hi1 Hi2] & Hsteps).
  assert (Hok : registry_ok w0) by (split; rewrite ?Hi1, ?Hi2; done).
  clear Hi1 Hi2. induction Hsteps as [|w1 w2 w3 Hstep _ IH]; [done|]. apply IH.
  destruct Hstep as [o v|v v' Hf]; [by apply registry_ok_op|by apply (registry_ok_frame v)].
Qed.

(** C1: in every state the process can reach, each key of the node map is the identity of
    the node under it, every node carries resources (the condition [GetAll] relies on) and a
    64-bit connection identifier; the node gauge is the number of nodes; and the nodes
    registered now together with those the cleanup ever removed never outnumber the
    registrations. *)
Theorem registry_invariant `{!GoEnvLaws} w :
  reachable w ->
  (forall k n, w_nodes w !! k = Some n ->
     NodeID n = k /\ Resources n <> None /\ 0 <= ConnectionID n < 2 ^ 64)
  /\ series_value RegisteredNodes [] (w_trace w) = Z.of_nat (size (w_nodes w))
  /\ Z.of_nat (size (w_nodes w)) + series_value StaleNodesRemoved [] (w_trace w)
     <= series_value RegistrationsTotal [] (w_trace w).
Proof.
  intros [Hn Hg _ Hb]%reachable_ok. split; [|done].
  intros k n Hk. apply Hn in Hk as (Hid & [r Hr] & Hc). rewrite Hr. done.
Qed.
End invariant.

(** * Connection identifiers *)

(** How many times an operation registers [id]. *)
Definition registers (id : string) (o : reg_op) : nat :=
  match o with
  | ORegister id' _ (Some _) => if decide (id' = id) then 1 else 0
  | _ => 0
  end.

Section connections.
Context `{!GoEnv, !ProtoLib}.

(** [stays id w w' k]: from [w] to [w'] the node [id] is registered in every state on the
    way, and is registered again [k] times. *)
Inductive stays (id : string) : World -> World -> nat -> Prop :=
  | stays_refl w : is_Some (w_nodes w !! id) -> stays id w w 0
  | stays_op o w w' k :
      is_Some (w_nodes w !! id) -> stays id (exec (run_op o) w) w' k ->
      stays id w w' (registers id o + k)
  | stays_frame w w1 w' k : frame w w1 -> stays id w1 w' k -> stays id w w' k.

Lemma stays_start id w w' k : stays id w w' k -> is_Some (w_nodes w !! id).
Proof. induction 1 as [| |w w1 w' k [Hn _] _ IH]; [done|done|]. by rewrite Hn in IH. Qed.

(** An operation that leaves [id] registered adds its registrations to the identifier. *)
Lemma op_connection `{!GoEnvLaws} id o w n :
  w_nodes w !! id = Some n -> is_u64 (ConnectionID n) ->
  is_Some (w_nodes (exec (run_op o) w) !! id) ->
  ConnectionID <$> w_nodes (exec (run_op o) w) !! id
    = Some (wrapU64 (ConnectionID n + Z.of_nat (registers id o))).
Proof.
  intros Hn Hu. assert (Hid : ConnectionID <$> w_nodes w !! id
    = Some (wrapU64 (ConnectionID n + 0))) by (by rewrite Hn, Z.add_0_r, wrapU64_id).
  destruct o as [id' addr [r|]|id' util tasks| |id'|id' conn|id'|threshold]; simpl; try done.
  - unfold exec. rewrite Register_run. simpl. intros _.
    destruct (decide (id' = id)) as [->|Hne].
    + rewrite lookup_insert_eq. simpl. by rewrite Hn.
    + by rewrite lookup_insert_ne.
  - unfold exec. destruct (UpdateHeartbeat_run id' util tasks w) as (tick & ->). simpl.
    intros _. rewrite lookup_alter. case_decide as Hk; [|done]. subst id'. rewrite Hn.
    simpl. by rewrite Z.add_0_r, wrapU64_id.
  - unfold exec. rewrite Remove_run. simpl. rewrite lookup_delete.
    case_decide; [|done]. by intros [? [=]].
  - unfold exec. rewrite RemoveIf_run. case_decide; simpl; [|done].
    rewrite lookup_delete. case_decide; [|done]. by intros [? [=]].
  - unfold exec. destruct (cleanup_tick_run threshold w) as (w' & -> & Hnodes & _). simpl.
    rewrite Hnodes. intros [n' Hn']. pose proof Hn' as Hn2.
    apply map_lookup_filter_Some in Hn2 as [Hn2 _]. rewrite Hn'. by rewrite Hn2 in Hid.
Qed.

Lemma stays_connection `{!GoEnvLaws} id w w' k n :
  stays id w w' k -> w_nodes w !! id = Some n -> is_u64 (ConnectionID n) ->
  ConnectionID <$> w_nodes w' !! id = Some (wrapU64 (ConnectionID n + Z.of_nat k)).
Proof.
  intros Hst. revert n. induction Hst as [w Hw|o w w' k Hw Hst IH|w w1 w' k [Hf _] Hst IH];
    intros n Hn Hu.
  - by rewrite Hn, Z.add_0_r, wrapU64_id.
  - pose proof (op_connection id o w n Hn Hu (stays_start _ _ _ _ Hst)) as Hc.
    apply fmap_Some in Hc as (n1 & Hn1 & Hc).
    rewrite (IH n1 Hn1) by (rewrite <- Hc; apply wrapU64_range).
    rewrite <- Hc. unfold wrapU64. rewrite Z.add_mod_idemp_l by lia. do 2 f_equal. lia.
  - apply IH; [by rewrite Hf|done].
Qed.

(** C6: a connection identifier read for a node is out of date after the node has been
    registered again, as long as the node stayed registered in between and was registered
    fewer than 2^64 times: removing by the old identifier then changes nothing.  This is
    the protection of a reconnected node against its old heartbeat stream. *)
Theorem old_connection_removes_nothing `{!GoEnvLaws} id w w' k c :
  reachable w -> stays id w w' k -> 0 < Z.of_nat k < 2 ^ 64 ->
  value (NodeRegistry_ConnectionID id) w = Some c ->
  exec (NodeRegistry_RemoveIfConnectionMatches id c) w' = w'.
Proof.
  intros Hr Hst Hk Hc. destruct (stays_start _ _ _ _ Hst) as [n Hn].
  assert (c = ConnectionID n) as -> by (unfold value in Hc; simpl in Hc; rewrite Hn in Hc; congruence).
  assert (Hu : is_u64 (ConnectionID n)).
  { destruct Hr as (w0 & [Hi1 Hi2] & Hsteps). clear Hst Hk Hc.
    assert (Hok : registry_ok w0) by (split; by rewrite ?Hi1, ?Hi2).
    revert Hn. clear Hi1 Hi2. induction Hsteps as [w|w1 w2 w3 Hstep _ IH].
    - intros Hn. by apply (ok_nodes _ Hok) in Hn as (_ & _ & ?).
    - apply IH. destruct Hstep as [o v|v v' Hf]; [by apply registry_ok_op|].
      by apply (registry_ok_frame v). }
  unfold exec. rewrite RemoveIf_run. simpl.
  rewrite (stays_connection _ _ _ _ _ Hst Hn Hu). rewrite decide_False; [done|].
  intros [= Heq]. unfold wrapU64, is_u64 in *.
  pose proof (Z.div_mod (ConnectionID n + Z.of_nat k) (2 ^ 64)).
  set (q := (ConnectionID n + Z.of_nat k) / 2 ^ 64) in *. nia.
Qed.

(** The protection ends when the node disappears in between.  A node registered for the
    first time gets identifier 1; once it has been removed (by the stale cleanup, say), in
    whatever state [w2] it registers again it gets identifier 1 again, so a removal by the
    identifier read from the first registration deletes the second one. *)
Theorem reused_connection_removes_new_node `{!GoEnvLaws} id addr1 r1 addr2 r2 w w2 c :
  w_nodes w !! id = None -> w_nodes w2 !! id = None ->
  value (NodeRegistry_ConnectionID id) (exec (run_op (ORegister id addr1 (Some r1))) w)
    = Some c ->
  let w3 := exec (run_op (ORegister id addr2 (Some r2))) w2 in
  (exists n, w_nodes w3 !! id = Some n /\ Address n = addr2)
  /\ w_nodes (exec (run_op (ORemoveIf id c)) w3) !! id = None.
Proof.
  intros Hw Hw2. cbn [run_op]. unfold exec, value. rewrite !Register_run. simpl.
  rewrite lookup_insert_eq. unfold registered. rewrite Hw. simpl. intros [= <-].
  split; [by eexists; rewrite lookup_insert_eq|].
  rewrite RemoveIf_run. simpl. rewrite lookup_insert_eq. simpl.
  rewrite Hw2. rewrite decide_True by done. simpl. by rewrite lookup_delete_eq.
Qed.
End connections.

(** * The task gauge *)
Definition tasks_gauge_ok (w : World) : Prop :=
  series_value TasksRunning [] (w_trace w) = wrapI64 (total_tasks (w_nodes w)).

Section task_gauge.
Context `{!GoEnv, !ProtoLib}.

(** Once the task gauge shows the number of tasks of all nodes, every operation keeps it
    right, except registering again a node that has tasks. *)
Theorem tasks_gauge_preserved `{!GoEnvLaws} o w :
  tasks_gauge_ok w ->
  (forall id addr r n, o = ORegister id addr (Some r) -> w_nodes w !! id = Some n ->
     Tasks n = ∅) ->
  tasks_gauge_ok (exec (run_op o) w).
Proof.
  unfold tasks_gauge_ok. intros Hok Hreg.
  destruct o as [id addr [r|]|id util tasks| |id|id conn|id|threshold]; simpl; try done.
  - unfold exec. rewrite Register_run. series_simpl. rewrite Hok. f_equal.
    destruct (w_nodes w !! id) as [n|] eqn:E.
    + rewrite <- insert_delete_eq, total_tasks_insert_new by apply lookup_delete_eq.
      rewrite (total_tasks_delete id n) by done. by rewrite (Hreg id addr r n).
    + by rewrite total_tasks_insert_new.
  - unfold exec. destruct (UpdateHeartbeat_run id util tasks w) as (tick & ->). by series_simpl.
  - unfold exec. rewrite Remove_run. by series_simpl.
  - unfold exec. rewrite RemoveIf_run. case_decide; by series_simpl.
  - unfold exec. destruct (cleanup_tick_run threshold w) as (w' & -> & Hn & _ & Hr & Hs).
    simpl. rewrite Hs, Hn.
    destruct (Z.gtb_spec (Z.of_nat (size (w_nodes w)) -
      Z.of_nat (size (fresh_nodes (now_at (w_tick w)) threshold (w_nodes w)))) 0);
      series_simpl; [done|]. rewrite Hok. do 2 f_equal. symmetry.
    apply map_subseteq_size_eq; [apply map_filter_subseteq|lia].
Qed.

(** Registering again a node that has one task empties its task map and leaves the task
    gauge at 1: the gauge then counts a task that no node carries. *)
Theorem tasks_gauge_stale_after_reregister `{!GoEnvLaws} id addr r t w :
  initial w ->
  let w3 := exec (run_op (ORegister id addr (Some r)))
              (exec (run_op (OHeartbeat id None [t]))
                 (exec (run_op (ORegister id addr (Some r))) w)) in
  total_tasks (w_nodes w3) = 0 /\ series_value TasksRunning [] (w_trace w3) = 1.
Proof.
  intros [Hn _]. cbn [run_op]. unfold exec. rewrite (Register_run id addr r w). cbn [snd].
  match goal with |- context [NodeRegistry_UpdateHeartbeat _ _ _ ?v] => set (w1 := v) end.
  destruct (UpdateHeartbeat_run id None [t] w1) as (tick & ->). rewrite Register_run.
  simpl. rewrite Hn. unfold NewNodeRegistry.
  rewrite (alter_Some_insert _ _ _ (registered (now_at (w_tick w)) id addr r ∅))
    by apply lookup_insert_eq.
  rewrite !insert_insert_eq. split.
  - by rewrite total_tasks_insert_new by apply lookup_empty.
  - series_simpl. rewrite total_tasks_insert_new by apply lookup_empty. simpl.
    unfold task_map. simpl. rewrite map_size_insert_None by apply lookup_empty. done.
Qed.
End task_gauge.
