(* ===== verification/RegistryApi.v ===== *)
(** What the registry promises to its clients ([control-plane/internal/agent] and
    [control-plane/internal/restapi]): an interface of operations with its laws.  The
    handlers are written and proved against the interface; the registry discharges it. *)
From S2P Require Import Prelude GoRuntime GoStrings PbResource PbAgent Grpc World Registry.
Local Open Scope Z_scope.

Class RegistryOps := {
  reg_Register : string -> string -> option NodeResources -> Go World unit;
  reg_UpdateHeartbeat : string -> option NodeUtilization -> list TaskStatus -> Go World unit;
  reg_GetAll : Go World (list NodeSummary);
  reg_RemoveIfConnectionMatches : string -> Z -> Go World unit;
  reg_ConnectionID : string -> Go World Z
}.

(** What no operation of the registry does: touch the label cache, write the log, or turn
    back the clock. *)
Definition reg_frame (w w' : World) : Prop :=
  w_known w' = w_known w /\ logs w' = logs w /\ (w_tick w <= w_tick w')%nat.

(** The connection identifier a registration gives. *)
Definition next_conn (old : option NodeInfo) : Z :=
  match old with Some n => wrapU64 (ConnectionID n + 1) | None => 1 end.

Class RegistryLaws `{!RegistryOps} : Prop := {
  law_Register id addr r w : exists w' now,
    reg_Register id addr (Some r) w = (Ret tt, w') /\ reg_frame w w' /\
    w_nodes w' = <[id := mkNodeInfo id addr (Some r) now ∅ (next_conn (w_nodes w !! id))]>
                   (w_nodes w);
  law_Register_nil id addr w : exists f args,
    reg_Register id addr None w = (Panicked f args, w);
  law_UpdateHeartbeat id util tasks w : exists w' now,
    reg_UpdateHeartbeat id util tasks w = (Ret tt, w') /\ reg_frame w w' /\
    w_nodes w' = alter (beaten now tasks) id (w_nodes w);
  law_GetAll w : exists l w',
    reg_GetAll w = (Ret l, w') /\ reg_frame w w' /\ w_nodes w' = w_nodes w /\
    l ≡ₚ (fun p : string * NodeInfo => {|
           ns_NodeID := NodeID p.2;
           ns_Hostname := NodeResources_GetHostname (Resources p.2);
           ns_Address := Address p.2;
           ns_LastBeat := LastBeat p.2;
           ns_CPU := NodeResources_GetCpu (Resources p.2);
           ns_Memory := NodeResources_GetMemory (Resources p.2);
           ns_GPUs := NodeResources_GetGpus (Resources p.2);
           ns_ConnectionID := ConnectionID p.2 |}) <$> map_to_list (w_nodes w);
  law_RemoveIf id conn w : exists w',
    reg_RemoveIfConnectionMatches id conn w = (Ret tt, w') /\ reg_frame w w' /\
    w_nodes w' = if decide (ConnectionID <$> w_nodes w !! id = Some conn)
                 then delete id (w_nodes w) else w_nodes w;
  law_ConnectionID id w :
    reg_ConnectionID id w =
    (Ret match w_nodes w !! id with Some n => ConnectionID n | None => 0 end, w)
}.

(** ** The registry implements it *)
#[export] Instance registry_ops `{!GoEnv, !ProtoLib} : RegistryOps := {|
  reg_Register := NodeRegistry_Register;
  reg_UpdateHeartbeat := NodeRegistry_UpdateHeartbeat;
  reg_GetAll := NodeRegistry_GetAll;
  reg_RemoveIfConnectionMatches := NodeRegistry_RemoveIfConnectionMatches;
  reg_ConnectionID := NodeRegistry_ConnectionID
|}.

Section implementation.
Context `{!GoEnv, !ProtoLib}.

#[local] Ltac frame_step := unfold reg_frame, logs in *; simpl in *; intuition lia.

Lemma totalTasks_frame w0 : keeps (reg_frame w0) totalTasksLocked.
Proof. unfold totalTasksLocked. keeps_world frame_step. Qed.

Lemma Register_frame w0 id addr r : keeps (reg_frame w0) (NodeRegistry_Register id addr r).
Proof. unfold NodeRegistry_Register. keeps_world frame_step. Qed.

Lemma UpdateHeartbeat_frame w0 id util tasks :
  keeps (reg_frame w0) (NodeRegistry_UpdateHeartbeat id util tasks).
Proof.
  unfold NodeRegistry_UpdateHeartbeat.
  repeat (apply totalTasks_frame || keeps_world frame_step).
Qed.

Lemma RemoveIf_frame w0 id conn :
  keeps (reg_frame w0) (NodeRegistry_RemoveIfConnectionMatches id conn).
Proof.
  unfold NodeRegistry_RemoveIfConnectionMatches.
  repeat (apply totalTasks_frame || keeps_world frame_step).
Qed.

Lemma reg_frame_refl w : reg_frame w w.
Proof. done. Qed.

#[export] Instance registry_laws `{!GoEnvLaws, !ProtoLibLaws} : RegistryLaws.
Proof.
  split; simpl.
  - intros id addr r w. pose proof (Register_frame w id addr (Some r) w (reg_frame_refl w)) as Hf.
    rewrite Register_run in *. eexists _, _. split; [done|]. split; [exact Hf|done].
  - intros id addr w. by eexists _, _.
  - intros id util tasks w.
    pose proof (UpdateHeartbeat_frame w id util tasks w (reg_frame_refl w)) as Hf.
    destruct (UpdateHeartbeat_run id util tasks w) as (tick & Heq). rewrite Heq in *.
    eexists _, _. split; [done|]. split; [exact Hf|done].
  - intros w. rewrite GetAll_run. eexists _, _. split; [done|].
    split; [unfold reg_frame; simpl; auto with lia|]. split; [done|].
    rewrite <- (range_at_perm _ (w_tick w) (w_nodes w)). apply reflexive_eq.
    apply list_fmap_ext. intros _ [k n] _. simpl. unfold summary.
    destruct (Resources n) as [r|]; simpl; [|done]. by rewrite CloneOf_eq.
  - intros id conn w. pose proof (RemoveIf_frame w id conn w (reg_frame_refl w)) as Hf.
    rewrite RemoveIf_run in *. eexists. split; [done|]. split; [exact Hf|].
    by case_decide.
  - intros id w. apply ConnectionID_run.
Qed.
End implementation.
