(* ===== verification/Validator.v ===== *)
(** [control-plane/internal/validator/validator.go]: the per-field input checks.

    A check returns nil ([None]) or a gRPC status error with its message.  Messages built by
    [status.Errorf] are formatted here ([%s] as is, [%d] in decimal). *)
From S2P Require Import Prelude GoRuntime GoStrings Regexp PbResource Grpc World.
From Stdlib Require Import Ascii.
Local Open Scope string_scope.
Local Open Scope Z_scope.

(** ** Bounds *)
Definition MaxNodeIDLen : Z := 255.
Definition MaxTaskIDLen : Z := 255.
Definition MaxJobIDLen : Z := 255.
Definition MaxAllocationIDLen : Z := 255.
Definition MaxContainerImageLen : Z := 1024.
Definition MaxCommandLen : Z := 256 * 1024.
Definition MaxEnvKeyLen : Z := 128.
Definition MaxEnvValueLen : Z := 4096.
Definition MaxEnvCount : Z := 128.
Definition MaxMemoryBytes : Z := Z.shiftl 1 40.
Definition MaxGPUMemBytes : Z := Z.shiftl 256 30.
Definition MaxReplicas : Z := 100.
Definition MaxPriority : Z := 100.
Definition MaxTasksPerHeartbeat : Z := 10000.

(** ** Patterns *)
Definition az : Z * Z := rng "a"%char "z"%char.
Definition AZ : Z * Z := rng "A"%char "Z"%char.
Definition d09 : Z * Z := rng "0"%char "9"%char.

(** [^[a-zA-Z0-9][a-zA-Z0-9\-_.]*$] *)
Definition SafeIDPattern : regex :=
  RCat (RClass [az; AZ; d09])
       (RStar (RClass [az; AZ; d09; chr "-"%char; chr "_"%char; chr "."%char])).

(** [[a-zA-Z0-9][a-zA-Z0-9.\-_]*], the name components of an image reference. *)
Definition name_chars : rune_class := [az; AZ; d09; chr "."%char; chr "-"%char; chr "_"%char].
Definition image_name : regex := RCat (RClass [az; AZ; d09]) (RStar (RClass name_chars)).

(** [^NAME(:[0-9]+)?(/NAME)*(:(?i)[a-zA-Z0-9.\-_]+)?(@sha256:[a-fA-F0-9]{64})?$].
    The flag [(?i)] holds to the end of its group. *)
Definition image_port : regex := RCat (RLit ":") (RPlus (RClass [d09])).
Definition image_path : regex := RCat (RLit "/") image_name.
Definition image_tag : regex := RCat (RLit ":") (RPlus (RClass (fold_class name_chars))).
Definition image_digest : regex :=
  RCat (RLit "@sha256:") (RRep 64 (RClass [rng "a"%char "f"%char; rng "A"%char "F"%char; d09])).
Definition ContainerImagePattern : regex :=
  RCat image_name (RCat (ROpt image_port) (RCat (RStar image_path)
    (RCat (ROpt image_tag) (ROpt image_digest)))).

(** ** Checks *)
Definition HasNullBytes (s : string) : bool := ContainsByte s "000"%char.

Definition ValidateStringID (s fieldName : string) (maxLen : Z) : option error :=
  if String.eqb s "" then
    status_Error InvalidArgument (fieldName +:+ " must not be empty")
  else if HasNullBytes s then
    status_Error InvalidArgument (fieldName +:+ " contains null bytes")
  else if len s >? maxLen then
    status_Error InvalidArgument
      (fieldName +:+ " exceeds max length " +:+ pretty maxLen +:+ " (got " +:+ pretty (len s) +:+ ")")
  else if negb (MatchString SafeIDPattern s) then
    status_Error InvalidArgument (fieldName +:+ " contains invalid characters")
  else None.

Definition ValidateNodeID (nodeID : string) : option error :=
  ValidateStringID nodeID "node_id" MaxNodeIDLen.
Definition ValidateTaskID (taskID : string) : option error :=
  ValidateStringID taskID "task_id" MaxTaskIDLen.
Definition ValidateJobID (jobID : string) : option error :=
  ValidateStringID jobID "job_id" MaxJobIDLen.
Definition ValidateAllocationID (allocID : string) : option error :=
  ValidateStringID allocID "allocation_id" MaxAllocationIDLen.

Definition ValidateContainerImage (image : string) : option error :=
  if String.eqb image "" then
    status_Error InvalidArgument "container_image must not be empty"
  else if HasNullBytes image then
    status_Error InvalidArgument "container_image contains null bytes"
  else if len image >? MaxContainerImageLen then
    status_Error InvalidArgument
      ("container_image exceeds max length " +:+ pretty MaxContainerImageLen)
  else if negb (MatchString ContainerImagePattern image) then
    status_Error InvalidArgument "container_image has invalid format"
  else None.

(** [size] is a [uint64]. *)
Definition ValidateMemorySize (size : Z) : option error :=
  if size =? 0 then status_Error InvalidArgument "size_bytes must be > 0"
  else if size >? MaxMemoryBytes then
    status_Error InvalidArgument ("size_bytes exceeds max (" +:+ pretty MaxMemoryBytes +:+ " bytes)")
  else None.

Definition ValidateGPUMemorySize (size : Z) : option error :=
  if size =? 0 then status_Error InvalidArgument "size_bytes must be > 0"
  else if size >? MaxGPUMemBytes then
    status_Error InvalidArgument ("size_bytes exceeds max (" +:+ pretty MaxGPUMemBytes +:+ " bytes)")
  else None.

(** [n], [p] and [idx] are [int32]. *)
Definition ValidateReplicationFactor (n : Z) : option error :=
  if (n <? 0) || (n >? MaxReplicas) then
    status_Error InvalidArgument ("replication_factor must be 0-" +:+ pretty MaxReplicas)
  else None.

Definition ValidatePriority (p : Z) : option error :=
  if (p <? 0) || (p >? MaxPriority) then
    status_Error InvalidArgument ("priority must be 0-" +:+ pretty MaxPriority)
  else None.

Definition ValidateGPUDeviceIndex (idx : Z) : option error :=
  if idx <? -1 then status_Error InvalidArgument "gpu_device_index must be >= -1" else None.

(** The loop over the entries of the environment, in the order the [range] visits them. *)
Fixpoint env_loop (l : list (string * string)) : option error :=
  match l with
  | [] => None
  | (k, v) :: l =>
      if (len k =? 0) || (len k >? MaxEnvKeyLen) then
        status_Error InvalidArgument ("env key length must be 1-" +:+ pretty MaxEnvKeyLen)
      else if len v >? MaxEnvValueLen then
        status_Error InvalidArgument
          ("env value exceeds max " +:+ pretty MaxEnvValueLen +:+ " bytes")
      else env_loop l
  end.

Definition ValidateEnvVars `{!GoEnv} (env : gmap string string) : Go World (option error) :=
  if Z.of_nat (size env) >? MaxEnvCount then
    mret (status_Error InvalidArgument ("env exceeds max " +:+ pretty MaxEnvCount +:+ " entries"))
  else
    l ← range env;
    mret (env_loop l).

(** [total += len(c)] on the platform's 64-bit [int]. *)
Definition ValidateCommands (cmds : list string) : option error :=
  let total := foldl (fun total c => wrapI64 (total + len c)) 0 cmds in
  if total >? MaxCommandLen then
    status_Error InvalidArgument
      ("command+args total exceeds max " +:+ pretty MaxCommandLen +:+ " bytes")
  else None.

Definition ValidateHeartbeatTaskCount (n : Z) : option error :=
  if n >? MaxTasksPerHeartbeat then
    status_Error InvalidArgument ("tasks count exceeds max " +:+ pretty MaxTasksPerHeartbeat)
  else None.

Definition ValidateVersion (v : string) : option error :=
  if HasNullBytes v then status_Error InvalidArgument "agent_version contains null bytes"
  else if len v >? 64 then status_Error InvalidArgument "agent_version exceeds max length 64"
  else None.

Definition ValidateAddress (addr : string) : option error :=
  if HasNullBytes addr then status_Error InvalidArgument "address contains null bytes"
  else if len addr >? 512 then status_Error InvalidArgument "address exceeds max length 512"
  else None.

(** * Specifications *)

(** A letter or a digit, and the characters an identifier continues with. *)
Definition id_start (b : Z) : bool :=
  (97 <=? b) && (b <=? 122) || (65 <=? b) && (b <=? 90) || (48 <=? b) && (b <=? 57).
Definition id_char (b : Z) : bool := id_start b || (b =? 45) || (b =? 95) || (b =? 46).

(** The identifiers the checks accept, on bytes: no pattern, no runes, no null bytes. *)
Definition safe_id (maxLen : Z) (s : string) : Prop :=
  len s <= maxLen /\
  match bytes s with
  | [] => False
  | b :: bs => id_start b = true /\ Forall (fun b => id_char b = true) bs
  end.

(** An error is either absent or an [InvalidArgument] status. *)
Definition invalid_argument (e : option error) : Prop :=
  match e with None => True | Some (StatusError InvalidArgument _) => True | _ => False end.

Lemma in_class_start r : in_class [az; AZ; d09] r = id_start r.
Proof.
  unfold in_class, id_start, az, AZ, d09, rng, byte_val. simpl.
  by rewrite orb_false_r, orb_assoc.
Qed.

Lemma eqb_range a r : (a <=? r) && (r <=? a) = (r =? a).
Proof. destruct (Z.eqb_spec r a); nm_bool; lia. Qed.

Lemma in_class_char r :
  in_class [az; AZ; d09; chr "-"%char; chr "_"%char; chr "."%char] r = id_char r.
Proof.
  unfold id_char. rewrite <- in_class_start.
  unfold in_class, chr, byte_val. simpl. rewrite !eqb_range. by rewrite !orb_false_r, !orb_assoc.
Qed.

Lemma id_char_ascii r : id_char r = true -> 0 < r < 0x80.
Proof. unfold id_char, id_start. nm_bool. lia. Qed.
Lemma id_start_char r : id_start r = true -> id_char r = true.
Proof. unfold id_char. intros ->. done. Qed.

(** A text matches the identifier pattern exactly when its bytes are as [safe_id] says. *)
Lemma SafeIDPattern_bytes s :
  MatchString SafeIDPattern s = true <->
  match bytes s with
  | [] => False
  | b :: bs => id_start b = true /\ Forall (fun b => id_char b = true) bs
  end.
Proof.
  unfold MatchString. rewrite matchb_spec. unfold SafeIDPattern. rewrite matches_class_star.
  setoid_rewrite in_class_start. setoid_rewrite in_class_char.
  split.
  - intros (c & t & Hr & Hc & Ht).
    assert (Hall : Forall (fun b => id_char b = true) (bytes s)).
    { apply runes_ascii; [intros r Hr'; apply id_char_ascii in Hr'; lia|].
      rewrite Hr. constructor; [by apply id_start_char|done]. }
    rewrite runes_id in Hr; [by rewrite Hr|].
    eapply Forall_impl; [exact Hall|]. intros b Hb. apply id_char_ascii in Hb. lia.
  - destruct (bytes s) as [|b bs] eqn:E; [done|]. intros [Hb Hbs]. exists b, bs.
    split; [|done]. rewrite <- E. apply runes_id. rewrite E. constructor.
    + apply id_start_char, id_char_ascii in Hb. lia.
    + eapply Forall_impl; [exact Hbs|]. intros c Hc. apply id_char_ascii in Hc. lia.
Qed.

Lemma safe_no_null s b bs :
  bytes s = b :: bs -> id_start b = true -> Forall (fun b => id_char b = true) bs ->
  HasNullBytes s = false.
Proof.
  intros E Hb Hbs. destruct (HasNullBytes s) eqn:H; [|done]. exfalso.
  apply ContainsByte_bytes in H. rewrite E in H.
  assert (Hall : Forall (fun b => id_char b = true) (b :: bs))
    by (constructor; [by apply id_start_char|done]).
  rewrite Forall_forall in Hall. apply Hall, id_char_ascii in H.
  change (byte_val "000"%char) with 0 in H. lia.
Qed.

(** ** Image references *)

(** A name component, an optional port, path, tag and digest, as lists of runes. *)
Definition name_ok (n : list Z) : Prop :=
  match n with
  | [] => False
  | c :: t => id_start c = true /\ Forall (fun c => id_char c = true) t
  end.
Definition digit (c : Z) : Prop := 48 <= c <= 57.
Definition hex_digit (c : Z) : Prop := digit c \/ 97 <= c <= 102 \/ 65 <= c <= 70.
(** The tag's class is folded: U+017F (long s) and U+212A (Kelvin sign) belong to it. *)
Definition tag_char (c : Z) : Prop := id_char c = true \/ c = 0x17F \/ c = 0x212A.

Definition image_ref (rs : list Z) : Prop := exists name port path tag digest,
  rs = (name ++ port ++ concat path ++ tag ++ digest)%list
  /\ name_ok name
  /\ (port = [] \/ exists c ds, port = 58 :: c :: ds /\ Forall digit (c :: ds))
  /\ Forall (fun p => exists n, p = 47 :: n /\ name_ok n) path
  /\ (tag = [] \/ exists c t, tag = 58 :: c :: t /\ Forall tag_char (c :: t))
  /\ (digest = [] \/ exists h, digest = (bytes "@sha256:" ++ h)%list
                           /\ length h = 64%nat /\ Forall hex_digit h).

Lemma in_name_chars r : in_class name_chars r = id_char r.
Proof.
  rewrite <- in_class_char. unfold in_class, name_chars. simpl. f_equal. f_equal. f_equal.
  by destruct (_ && _), (_ && _), (_ && _).
Qed.

(** The runes folding adds, for every member of the class. *)
Lemma fold_orbit_tag c r : id_char c = true -> r ∈ fold_orbit c -> tag_char r.
Proof.
  intros Hc Hr. pose proof (id_char_ascii c Hc) as Hb.
  assert (Hall : forallb (fun c => negb (id_char c) || forallb
      (fun r => id_char r || (r =? 0x17F) || (r =? 0x212A)) (fold_orbit c)) (seqZ 0 128) = true)
    by (vm_compute; reflexivity).
  rewrite forallb_forall in Hall. specialize (Hall c).
  rewrite Hc in Hall. simpl in Hall. rewrite forallb_forall in Hall.
  assert (Hin : List.In c (seqZ 0 128)) by (apply list_elem_of_In, elem_of_seqZ; lia).
  specialize (Hall Hin r). rewrite <- list_elem_of_In in Hall. specialize (Hall Hr).
  unfold tag_char. rewrite !orb_true_iff, !Z.eqb_eq in Hall. tauto.
Qed.

Lemma in_tag_chars r : in_class (fold_class name_chars) r = true <-> tag_char r.
Proof.
  rewrite in_fold_class. setoid_rewrite in_name_chars. split.
  - intros (c & Hc & Hr). by eapply fold_orbit_tag.
  - intros [Hr|[->| ->]].
    + exists r. split; [done|]. unfold fold_orbit. apply elem_of_app. left.
      repeat case_match; left.
    + exists 115. split; [done|]. by apply list_elem_of_In; right; right; left.
    + exists 107. split; [done|]. by apply list_elem_of_In; right; right; left.
Qed.

Lemma matches_name s : matches image_name s <-> name_ok s.
Proof.
  unfold image_name. rewrite matches_class_star. setoid_rewrite in_class_start.
  setoid_rewrite in_name_chars. unfold name_ok. split.
  - by intros (c & t & -> & H).
  - destruct s as [|c t]; [done|]. intros H. by exists c, t.
Qed.

Lemma matches_plus_class rs s :
  matches (RPlus (RClass rs)) s <->
  exists c t, s = c :: t /\ Forall (fun c => in_class rs c = true) (c :: t).
Proof.
  unfold RPlus. rewrite matches_class_star. setoid_rewrite Forall_cons. done.
Qed.

(** A literal byte and something after it. *)
Lemma matches_lit_cat t r s :
  matches (RCat (RLit t) r) s <-> exists u, s = (bytes t ++ u)%list /\ matches r u.
Proof.
  rewrite matches_cat. setoid_rewrite matches_lit. split.
  - intros (s1 & s2 & -> & -> & H). by exists s2.
  - intros (u & -> & H). by exists (bytes t), u.
Qed.

Lemma Forall_iff_pred {A} (P Q : A -> Prop) l :
  (forall x, P x <-> Q x) -> Forall P l <-> Forall Q l.
Proof. intros H. split; intros Hl; eapply Forall_impl; [exact Hl| |exact Hl|]; apply H. Qed.

Lemma matches_cat5 r1 r2 r3 r4 r5 s :
  matches (RCat r1 (RCat r2 (RCat r3 (RCat r4 r5)))) s <->
  exists s1 s2 s3 s4 s5, s = (s1 ++ s2 ++ s3 ++ s4 ++ s5)%list
    /\ matches r1 s1 /\ matches r2 s2 /\ matches r3 s3 /\ matches r4 s4 /\ matches r5 s5.
Proof.
  split.
  - intros (s1 & t1 & -> & H1 & (s2 & t2 & -> & H2 & (s3 & t3 & -> & H3 &
      (s4 & s5 & -> & H4 & H5)%matches_cat)%matches_cat)%matches_cat)%matches_cat.
    by exists s1, s2, s3, s4, s5.
  - intros (s1 & s2 & s3 & s4 & s5 & -> & H1 & H2 & H3 & H4 & H5).
    repeat (apply matches_cat; eexists _, _; split; [done|]; split; [done|]). done.
Qed.

(** The optional parts of a reference. *)
Lemma matches_opt_plus (c : Z) t rs (P : Z -> Prop) s :
  bytes t = [c] -> (forall x, in_class rs x = true <-> P x) ->
  matches (ROpt (RCat (RLit t) (RPlus (RClass rs)))) s <->
  s = [] \/ exists d ds, s = c :: d :: ds /\ Forall P (d :: ds).
Proof.
  intros Ht HP. rewrite matches_opt, matches_lit_cat, Ht. f_equiv.
  setoid_rewrite matches_plus_class. setoid_rewrite (Forall_iff_pred _ _ _ HP). split.
  - intros (u & -> & d & ds & -> & H). by exists d, ds.
  - intros (d & ds & -> & H). exists (d :: ds). split; [done|]. by exists d, ds.
Qed.

(** The pattern, read component by component. *)
Lemma matches_image rs : matches ContainerImagePattern rs <-> image_ref rs.
Proof.
  assert (Hd : forall c, in_class [d09] c = true <-> digit c).
  { intros c. change d09 with (48, 57). unfold digit. simpl. nm_bool. lia. }
  assert (Hh : forall c, in_class [rng "a"%char "f"%char; rng "A"%char "F"%char; d09] c = true
                         <-> hex_digit c).
  { intros c. change d09 with (48, 57). change (rng "a"%char "f"%char) with (97, 102).
    change (rng "A"%char "F"%char) with (65, 70). unfold hex_digit, digit. simpl. nm_bool. lia. }
  assert (Hpath : forall p, matches image_path p <-> exists n, p = 47 :: n /\ name_ok n).
  { intros p. unfold image_path. rewrite matches_lit_cat. by setoid_rewrite matches_name. }
  unfold ContainerImagePattern, image_port, image_tag, image_digest, image_ref.
  rewrite matches_cat5. setoid_rewrite matches_name.
  setoid_rewrite (matches_opt_plus 58 ":" _ _ _ eq_refl Hd).
  setoid_rewrite (matches_opt_plus 58 ":" _ _ _ eq_refl in_tag_chars).
  setoid_rewrite matches_opt. setoid_rewrite matches_lit_cat. setoid_rewrite matches_rep_class.
  setoid_rewrite matches_star. setoid_rewrite (Forall_iff_pred _ _ _ Hpath).
  setoid_rewrite (Forall_iff_pred _ _ _ Hh).
  split.
  - intros (name & port & q & tag & dg & -> & Hn & Hp & (ps & -> & Hps) & Ht & Hg).
    by exists name, port, ps, tag, dg.
  - intros (name & port & ps & tag & dg & -> & Hn & Hp & Hps & Ht & Hg).
    exists name, port, (concat ps), tag, dg. do 3 (split; [done|]). split; [|done]. by exists ps.
Qed.

(** ** Sums and loops of the checks *)
Lemma foldl_len_acc (cmds : list string) a :
  0 <= a -> a + Z.of_nat (sum_list_with (fun c => String.length c) cmds) < 2 ^ 63 ->
  foldl (fun total c => wrapI64 (total + len c)) a cmds
  = a + Z.of_nat (sum_list_with (fun c => String.length c) cmds).
Proof.
  revert a. induction cmds as [|c cmds IH]; intros a Ha Hs; simpl in *; [lia|].
  rewrite wrapI64_id by (unfold is_i64, len; lia). unfold len.
  rewrite IH by lia. lia.
Qed.

(** An entry the environment check accepts. *)
Definition env_entry_ok (p : string * string) : Prop :=
  1 <= len p.1 <= MaxEnvKeyLen /\ len p.2 <= MaxEnvValueLen.

Lemma env_loop_spec l :
  (env_loop l = None <-> Forall env_entry_ok l) /\ invalid_argument (env_loop l).
Proof.
  induction l as [|[k v] l [IH IHe]]; simpl; [by split; [split|]|].
  rewrite Forall_cons. unfold env_entry_ok at 1. simpl. pose proof (len_nonneg k).
  destruct (Z.eqb_spec (len k) 0); simpl; [split; [split; [done|lia]|done]|].
  rewrite !Z.gtb_ltb.
  destruct (Z.ltb_spec MaxEnvKeyLen (len k)); [split; [split; [done|lia]|done]|].
  destruct (Z.ltb_spec MaxEnvValueLen (len v)); [split; [split; [done|lia]|done]|].
  split; [rewrite IH; intuition lia|done].
Qed.

(** * What each check accepts *)

Lemma HasNullBytes_spec s : HasNullBytes s = true <-> 0 ∈ bytes s.
Proof. apply (ContainsByte_bytes s "000"%char). Qed.

Lemma ValidateStringID_ok s fieldName maxLen :
  (ValidateStringID s fieldName maxLen = None <-> safe_id maxLen s)
  /\ invalid_argument (ValidateStringID s fieldName maxLen).
Proof.
  pose proof (SafeIDPattern_bytes s) as Hpat. unfold ValidateStringID, safe_id.
  destruct (String.eqb_spec s "") as [->|Hne]; [split; [split; [done|]|done]; simpl; tauto|].
  destruct (HasNullBytes s) eqn:Hn.
  { split; [split; [done|]|done]. intros [_ Hs]. destruct (bytes s) as [|b bs] eqn:E; [done|].
    destruct Hs as [Hb Hbs]. exfalso. by rewrite (safe_no_null s b bs) in Hn. }
  rewrite Z.gtb_ltb. destruct (Z.ltb_spec maxLen (len s)); [split; [split; [done|lia]|done]|].
  rewrite <- Hpat. destruct (MatchString SafeIDPattern s); simpl; (split; [|done]);
    (split; [done || (intros _; by split)|]); done || by intros [_ ?].
Qed.

Lemma ValidateContainerImage_ok image :
  (ValidateContainerImage image = None <->
     len image <= MaxContainerImageLen /\ ~ (0 ∈ bytes image) /\ image_ref (runes image))
  /\ invalid_argument (ValidateContainerImage image).
Proof.
  pose proof (matchb_spec ContainerImagePattern (runes image)) as Hpat.
  rewrite matches_image in Hpat. unfold ValidateContainerImage. rewrite <- HasNullBytes_spec.
  destruct (String.eqb_spec image "") as [->|Hne].
  { split; [|done]. split; [done|]. intros (_ & _ & Hr). apply Hpat in Hr.
    vm_compute in Hr. done. }
  destruct (HasNullBytes image); [split; [split; [done|tauto]|done]|].
  rewrite Z.gtb_ltb.
  destruct (Z.ltb_spec MaxContainerImageLen (len image)); [split; [split; [done|lia]|done]|].
  unfold MatchString. rewrite <- Hpat.
  destruct (matchb ContainerImagePattern (runes image)); simpl; split; try done.
  by split; [|intros (_ & _ & ?)].
Qed.

(** A text of at most [maxLen] bytes without null bytes. *)
Definition plain_text (maxLen : Z) (s : string) : Prop := len s <= maxLen /\ ~ (0 ∈ bytes s).

Lemma plain_check_ok s maxLen m1 m2 :
  let e := if HasNullBytes s then status_Error InvalidArgument m1
           else if len s >? maxLen then status_Error InvalidArgument m2 else None in
  (e = None <-> plain_text maxLen s) /\ invalid_argument e.
Proof.
  simpl. unfold plain_text. rewrite <- HasNullBytes_spec, Z.gtb_ltb.
  destruct (HasNullBytes s); [by split; [split; [done|tauto]|]|].
  destruct (Z.ltb_spec maxLen (len s)); (split; [|done]); (split; [done || (intros _; by split)|]);
    lia || done.
Qed.

Lemma ValidateAddress_ok s :
  (ValidateAddress s = None <-> plain_text 512 s) /\ invalid_argument (ValidateAddress s).
Proof. apply plain_check_ok. Qed.
Lemma ValidateVersion_ok s :
  (ValidateVersion s = None <-> plain_text 64 s) /\ invalid_argument (ValidateVersion s).
Proof. apply plain_check_ok. Qed.

(** The numeric checks: what is left after the tests are decided is arithmetic. *)
#[local] Ltac numeric_check f :=
  unfold f; rewrite ?Z.gtb_ltb;
  repeat match goal with
  | |- context [ ?a =? ?b ] => destruct (Z.eqb_spec a b)
  | |- context [ ?a <? ?b ] => destruct (Z.ltb_spec a b)
  end; simpl; (split; [|done]); (split; [done || (intros _)|]); done || lia.

Lemma ValidateMemorySize_ok size : 0 <= size ->
  (ValidateMemorySize size = None <-> 1 <= size <= 2 ^ 40)
  /\ invalid_argument (ValidateMemorySize size).
Proof. intros Hs. change (2 ^ 40) with MaxMemoryBytes. numeric_check ValidateMemorySize. Qed.
Lemma ValidateGPUMemorySize_ok size : 0 <= size ->
  (ValidateGPUMemorySize size = None <-> 1 <= size <= 2 ^ 38)
  /\ invalid_argument (ValidateGPUMemorySize size).
Proof. intros Hs. change (2 ^ 38) with MaxGPUMemBytes. numeric_check ValidateGPUMemorySize. Qed.
Lemma ValidateReplicationFactor_ok n :
  (ValidateReplicationFactor n = None <-> 0 <= n <= 100)
  /\ invalid_argument (ValidateReplicationFactor n).
Proof. change 100 with MaxReplicas. numeric_check ValidateReplicationFactor. Qed.
Lemma ValidatePriority_ok n :
  (ValidatePriority n = None <-> 0 <= n <= 100) /\ invalid_argument (ValidatePriority n).
Proof. change 100 with MaxPriority. numeric_check ValidatePriority. Qed.
Lemma ValidateGPUDeviceIndex_ok n :
  (ValidateGPUDeviceIndex n = None <-> -1 <= n) /\ invalid_argument (ValidateGPUDeviceIndex n).
Proof. numeric_check ValidateGPUDeviceIndex. Qed.
Lemma ValidateHeartbeatTaskCount_ok n :
  (ValidateHeartbeatTaskCount n = None <-> n <= 10000)
  /\ invalid_argument (ValidateHeartbeatTaskCount n).
Proof.
  change 10000 with MaxTasksPerHeartbeat. numeric_check ValidateHeartbeatTaskCount.
Qed.

(** The bytes of a command line, altogether. *)
Definition total_len (cmds : list string) : Z :=
  Z.of_nat (sum_list_with (fun c => String.length c) cmds).

Lemma ValidateCommands_ok cmds : total_len cmds < 2 ^ 63 ->
  (ValidateCommands cmds = None <-> total_len cmds <= 262144)
  /\ invalid_argument (ValidateCommands cmds).
Proof.
  intros Hs. unfold ValidateCommands. rewrite foldl_len_acc by done. fold (total_len cmds).
  rewrite Z.add_0_l. change 262144 with MaxCommandLen.
  rewrite Z.gtb_ltb. destruct (Z.ltb_spec MaxCommandLen (total_len cmds)); simpl;
    (split; [|done]); (split; [done || (intros _)|]); done || lia.
Qed.

Definition env_ok (env : gmap string string) : Prop :=
  (size env <= 128)%nat
  /\ forall k v, env !! k = Some v -> 1 <= len k <= 128 /\ len v <= 4096.

Lemma ValidateEnvVars_ok `{!GoEnv} `{!GoEnvLaws} env w :
  exists e k, ValidateEnvVars env w = (Ret e, ticks k w)
  /\ (e = None <-> env_ok env) /\ invalid_argument e.
Proof.
  unfold ValidateEnvVars, env_ok. rewrite Z.gtb_ltb. change MaxEnvCount with 128.
  destruct (Z.ltb_spec 128 (Z.of_nat (size env))) as [Hc|Hc].
  { eexists _, O. rewrite ticks_0. split; [done|]. split; [|done]. split; [done|lia]. }
  go_run. eexists _, 1%nat. split; [done|].
  destruct (env_loop_spec (range_at string (w_tick w) env)) as [Hl He].
  split; [|done]. rewrite Hl, Forall_forall. split.
  - intros Hall. split; [lia|]. intros k v Hkv. apply (Hall (k, v)).
    rewrite (is_range_elem _ _ _ _ (range_at_perm _ (w_tick w) env)). done.
  - intros [_ Hall] [k v] Hin.
    apply (is_range_elem _ _ _ _ (range_at_perm _ (w_tick w) env)) in Hin. by apply Hall.
Qed.

(** * Properties of the checks *)

(** C35: the identifier check accepts exactly the identifiers of at most [maxLen] bytes that
    start with an ASCII letter or digit and go on with letters, digits, hyphens, underscores
    and dots.  What it rejects it rejects with [InvalidArgument], and the message names the
    first cause of the list: empty, a null byte anywhere, too long, other characters. *)
Theorem ValidateStringID_spec s fieldName maxLen :
  (ValidateStringID s fieldName maxLen = None <-> safe_id maxLen s)
  /\ invalid_argument (ValidateStringID s fieldName maxLen)
  /\ (s = "" -> ValidateStringID s fieldName maxLen =
        status_Error InvalidArgument (fieldName +:+ " must not be empty"))
  /\ (0 ∈ bytes s -> ValidateStringID s fieldName maxLen =
        status_Error InvalidArgument (fieldName +:+ " contains null bytes"))
  /\ (s <> "" -> ~ (0 ∈ bytes s) -> len s > maxLen -> ValidateStringID s fieldName maxLen =
        status_Error InvalidArgument (fieldName +:+ " exceeds max length " +:+ pretty maxLen
                                      +:+ " (got " +:+ pretty (len s) +:+ ")"))
  /\ (s <> "" -> ~ (0 ∈ bytes s) -> len s <= maxLen -> ~ safe_id maxLen s ->
        ValidateStringID s fieldName maxLen =
        status_Error InvalidArgument (fieldName +:+ " contains invalid characters")).
Proof.
  destruct (ValidateStringID_ok s fieldName maxLen) as [Hok He].
  split; [done|]. split; [done|]. rewrite <- Hok. unfold ValidateStringID.
  rewrite <- HasNullBytes_spec.
  destruct (String.eqb_spec s "") as [->|Hne]; [done|].
  split; [done|]. split; [by intros ->|].
  destruct (HasNullBytes s); [done|]. rewrite Z.gtb_ltb. destruct (Z.ltb_spec maxLen (len s)).
  - split; [done|lia].
  - split; [lia|]. intros _ _ _. by destruct (MatchString SafeIDPattern s).
Qed.

(** C34: the image check accepts exactly the references of at most 1024 bytes, without null
    byte, that are a name, then an optional [:port], any number of [/name] components, an
    optional [:tag] and an optional [@sha256:] digest of 64 hexadecimal digits; rejections
    are [InvalidArgument].  The characters of a tag are those of a name and, because its
    class is case-folded, U+017F and U+212A. *)
Theorem ValidateContainerImage_spec image :
  (ValidateContainerImage image = None <->
     len image <= 1024 /\ ~ (0 ∈ bytes image) /\ image_ref (runes image))
  /\ invalid_argument (ValidateContainerImage image).
Proof. apply ValidateContainerImage_ok. Qed.

(** The numeric checks accept exactly: memory sizes 1 to 1 TiB, GPU memory sizes 1 to
    256 GiB, replication factors and priorities 0 to 100, device indexes from -1 on and task
    counts up to 10000; every rejection is [InvalidArgument]. *)
Theorem numeric_checks_spec size n :
  is_u64 size ->
  (ValidateMemorySize size = None <-> 1 <= size <= 2 ^ 40)
  /\ (ValidateGPUMemorySize size = None <-> 1 <= size <= 2 ^ 38)
  /\ (ValidateReplicationFactor n = None <-> 0 <= n <= 100)
  /\ (ValidatePriority n = None <-> 0 <= n <= 100)
  /\ (ValidateGPUDeviceIndex n = None <-> -1 <= n)
  /\ (ValidateHeartbeatTaskCount n = None <-> n <= 10000)
  /\ Forall invalid_argument [ValidateMemorySize size; ValidateGPUMemorySize size;
       ValidateReplicationFactor n; ValidatePriority n; ValidateGPUDeviceIndex n;
       ValidateHeartbeatTaskCount n].
Proof.
  intros [Hu _].
  destruct (ValidateMemorySize_ok size Hu), (ValidateGPUMemorySize_ok size Hu),
    (ValidateReplicationFactor_ok n), (ValidatePriority_ok n), (ValidateGPUDeviceIndex_ok n),
    (ValidateHeartbeatTaskCount_ok n).
  rewrite !Forall_cons. by split_and!.
Qed.

(** C36: the command check accepts exactly the lists whose strings have at most 262144 bytes
    altogether, provided their sum is a machine [int]; the environment check accepts exactly
    the maps of at most 128 entries whose keys have 1 to 128 bytes and whose values at most
    4096, in whatever order the map is visited, and touches neither nodes nor trace.  Both
    reject with [InvalidArgument]. *)
Theorem command_env_checks_spec `{!GoEnv} `{!GoEnvLaws} cmds env w :
  total_len cmds < 2 ^ 63 ->
  (ValidateCommands cmds = None <-> total_len cmds <= 262144)
  /\ invalid_argument (ValidateCommands cmds)
  /\ exists e, value (ValidateEnvVars env) w = Some e
     /\ (e = None <-> (size env <= 128)%nat
           /\ forall k v, env !! k = Some v -> 1 <= len k <= 128 /\ len v <= 4096)
     /\ invalid_argument e
     /\ w_nodes (exec (ValidateEnvVars env) w) = w_nodes w
     /\ w_trace (exec (ValidateEnvVars env) w) = w_trace w.
Proof.
  intros Hs. destruct (ValidateCommands_ok cmds Hs) as [Hc Hi]. split; [done|]. split; [done|].
  unfold value, exec. destruct (ValidateEnvVars_ok env w) as (e & k & -> & He & Hie).
  exists e. simpl. by split_and!.
Qed.
