(* ===== verification/Metrics.v ===== *)
(** [control-plane/internal/metrics/metrics.go]: the metrics, the label of a method and the
    two interceptors that count requests.

    A metric's registration with the Prometheus library and its exposition ([Handler]) are
    not modelled; what the library requires of its users is: distinct names, as many label
    values as labels were declared, and no decrement of a counter. *)
From S2P Require Import Prelude GoRuntime GoStrings PbResource Grpc World.
From Stdlib Require Import Ascii.
Local Open Scope string_scope.
Local Open Scope Z_scope.

(** ** The declared metrics *)
Inductive MetricKind := Counter | Gauge | Histogram.

Definition Metric_kind (m : Metric) : MetricKind :=
  match m with
  | grpcServerRequests => Counter
  | grpcServerLatency => Histogram
  | grpcActiveStreams => Gauge
  | RegisteredNodes => Gauge
  | RegistrationsTotal => Counter
  | HeartbeatsTotal => Counter
  | StaleNodesRemoved => Counter
  | TasksRunning => Gauge
  | TLSCertLoadTotal => Counter
  end.

Definition Metric_Name (m : Metric) : string :=
  match m with
  | grpcServerRequests => "nmonit_grpc_server_requests_total"
  | grpcServerLatency => "nmonit_grpc_server_latency_seconds"
  | grpcActiveStreams => "nmonit_grpc_server_streams_active"
  | RegisteredNodes => "nmonit_nodes_registered_total"
  | RegistrationsTotal => "nmonit_registrations_total"
  | HeartbeatsTotal => "nmonit_heartbeats_total"
  | StaleNodesRemoved => "nmonit_nodes_stale_removed_total"
  | TasksRunning => "nmonit_tasks_running_total"
  | TLSCertLoadTotal => "nmonit_tls_cert_load_total"
  end.

Definition Metric_labels (m : Metric) : list string :=
  match m with
  | grpcServerRequests => ["grpc_method"; "grpc_type"; "grpc_code"]
  | grpcServerLatency => ["grpc_method"; "grpc_type"]
  | grpcActiveStreams => ["grpc_method"]
  | RegisteredNodes => []
  | RegistrationsTotal => []
  | HeartbeatsTotal => []
  | StaleNodesRemoved => []
  | TasksRunning => []
  | TLSCertLoadTotal => ["result"]
  end.

(** ** Method labels *)
Definition knownServiceMethods : list string := [
  "AgentService/Register";
  "AgentService/Heartbeat";
  "AgentService/ExecuteTask";
  "AgentService/AllocateMemory";
  "AgentService/AllocateGPUMemory";
  "AgentService/FreeMemory";
  "AgentService/FreeGPUMemory";
  "MemoryService/AllocateDistributed";
  "MemoryService/MigrateRegion";
  "MemoryService/GetRegion";
  "ControlService/GetClusterState";
  "ControlService/JoinCluster"
].

(** The metrics [init] registers, in its order, and the cache it fills. *)
Definition init_registered : list Metric := [
  grpcServerRequests; grpcServerLatency; grpcActiveStreams; RegisteredNodes;
  RegistrationsTotal; HeartbeatsTotal; StaleNodesRemoved; TasksRunning; TLSCertLoadTotal
].
Definition init : Go World unit :=
  go_for knownServiceMethods (fun m =>
    go_modify (add_known (ReplaceAll m "/"%char "."%char))).

Definition knownMethods_Load (k : string) : Go World bool :=
  fun w => (Ret (bool_decide (k ∈ w_known w)), w).
Definition knownMethods_Store (k : string) : Go World unit := go_modify (add_known k).

Definition sanitizeMethod (full : string) : Go World string :=
  let full := TrimPrefix full "/" in
  let method := ReplaceAll full "/"%char "."%char in
  ok ← knownMethods_Load method;
  if ok : bool then mret method
  else
    let parts := SplitN method "." 4 in
    if Z.of_nat (length parts) >=? 3 then
      let service := nth (length parts - 2) parts "" +:+ "/"
                     +:+ nth (length parts - 1) parts "" in
      if existsb (String.eqb service) knownServiceMethods
      then knownMethods_Store method ;; mret method
      else mret "unknown_method"
    else mret "unknown_method".

(** ** Interceptors *)
Section interceptors.
Context `{!GoEnv, !GrpcLib}.

(** [time.Since]. *)
Definition Since (start : Time) : Go World Z :=
  now ← Now;
  mret (Sub now start).

Definition UnaryServerInterceptor {Req Resp} (ctx : Ctx) (req : Req) (FullMethod : string)
    (handler : Ctx -> Req -> Go World (Resp * option error))
    : Go World (Resp * option error) :=
  start ← Now;
  '(resp, err) ← handler ctx req;
  elapsed ← Since start;
  method ← sanitizeMethod FullMethod;
  let code := Code_String (status_Code err) in
  metric grpcServerRequests [method; "unary"; code] Inc ;;
  metric grpcServerLatency [method; "unary"] (Observe elapsed) ;;
  mret (resp, err).

Definition StreamServerInterceptor {Srv SS} (srv : Srv) (ss : SS) (FullMethod : string)
    (handler : Srv -> SS -> Go World (option error)) : Go World (option error) :=
  method ← sanitizeMethod FullMethod;
  metric grpcActiveStreams [method] Inc ;;
  go_defer (metric grpcActiveStreams [method] Dec)
    (start ← Now;
     err ← handler srv ss;
     elapsed ← Since start;
     let code := Code_String (status_Code err) in
     metric grpcServerRequests [method; "stream"; code] Inc ;;
     metric grpcServerLatency [method; "stream"] (Observe elapsed) ;;
     mret err).
End interceptors.

(** * Facts *)

(** ** Labels, without the cache *)

(** What [init] stores for a method. *)
Definition dotted (known : string) : string := ReplaceAll known "/"%char "."%char.

(** The method names the label keeps: a known [Service.Method], alone or after one or two
    segments. *)
Definition known_label (method : string) : Prop :=
  exists known, known ∈ knownServiceMethods /\
    (method = dotted known
     \/ (exists a, ContainsByte a "."%char = false /\ method = a +:+ "." +:+ dotted known)
     \/ (exists a b, ContainsByte a "."%char = false /\ ContainsByte b "."%char = false
                    /\ method = a +:+ "." +:+ b +:+ "." +:+ dotted known)).

(** The last two parts of a split of at least three, joined by a slash, are a known method. *)
Definition parts_known (method : string) : bool :=
  let parts := SplitN method "." 4 in
  (Z.of_nat (length parts) >=? 3) &&
  existsb (String.eqb (nth (length parts - 2) parts "" +:+ "/" +:+ nth (length parts - 1) parts ""))
    knownServiceMethods.

Lemma known_shape known :
  known ∈ knownServiceMethods ->
  exists s m, known = s +:+ "/" +:+ m /\ dotted known = s +:+ "." +:+ m
    /\ ContainsByte s "."%char = false /\ ContainsByte m "."%char = false.
Proof.
  intros H.
  assert (Hall : Forall (fun k =>
      let s := nth 0 (SplitN k "/" 2) "" in let m := nth 1 (SplitN k "/" 2) "" in
      k = s +:+ "/" +:+ m /\ dotted k = s +:+ "." +:+ m
      /\ ContainsByte s "."%char = false /\ ContainsByte m "."%char = false) knownServiceMethods)
    by (repeat constructor).
  rewrite Forall_forall in Hall. destruct (Hall known H) as (H1 & H2 & H3 & H4).
  eexists _, _. eauto.
Qed.

Lemma existsb_known s : existsb (String.eqb s) knownServiceMethods = true <-> s ∈ knownServiceMethods.
Proof.
  rewrite existsb_exists. setoid_rewrite <- list_elem_of_In. split.
  - by intros (k & Hk & ->%String.eqb_eq).
  - intros H. exists s. split; [done|]. apply String.eqb_refl.
Qed.

(** A method name has no slash, so a service and a method found in it are joined by a dot. *)
Lemma dotted_slash s m :
  ContainsByte s "/"%char = false -> ContainsByte m "/"%char = false ->
  dotted (s +:+ "/" +:+ m) = s +:+ "." +:+ m.
Proof.
  intros Hs Hm. unfold dotted. rewrite !ReplaceAll_app. simpl. by rewrite !ReplaceAll_id.
Qed.

Lemma parts_known_label method :
  ContainsByte method "/"%char = false -> parts_known method = true -> known_label method.
Proof.
  intros Hs. unfold parts_known.
  destruct (byte_cut method ".") as [Hd|(a & r & -> & Ha)]; [by rewrite SplitN_whole|].
  rewrite SplitN_cut by done.
  destruct (byte_cut r ".") as [Hd|(b & r2 & -> & Hb)]; [by rewrite SplitN_whole|].
  rewrite SplitN_cut by done.
  repeat (rewrite ContainsByte_app in Hs; simpl in Hs).
  apply orb_false_iff in Hs as [Hsa [Hsb Hs]%orb_false_iff].
  destruct (byte_cut r2 ".") as [Hd|(c & r3 & -> & Hc)].
  - rewrite SplitN_whole by done. simpl. intros Hk%existsb_known.
    exists (b +:+ "/" +:+ r2). split; [done|]. right; left.
    exists a. by rewrite dotted_slash.
  - rewrite SplitN_cut by done. simpl. intros Hk%existsb_known.
    rewrite ContainsByte_app in Hs. simpl in Hs. apply orb_false_iff in Hs as [Hsc Hs3].
    exists (c +:+ "/" +:+ r3). split; [done|]. right; right.
    exists a, b. by rewrite dotted_slash.
Qed.

Lemma label_parts_known a known :
  ContainsByte a "."%char = false -> known ∈ knownServiceMethods ->
  parts_known (a +:+ "." +:+ dotted known) = true.
Proof.
  intros Ha Hk. destruct (known_shape known Hk) as (s & m & Hkn & -> & Hs & Hm).
  unfold parts_known. simpl. rewrite SplitN_cut, SplitN_cut, SplitN_whole by done. simpl.
  change (s +:+ String "/" m) with (s +:+ "/" +:+ m). rewrite <- Hkn. by apply existsb_known.
Qed.

Lemma label_parts_known2 a b known :
  ContainsByte a "."%char = false -> ContainsByte b "."%char = false ->
  known ∈ knownServiceMethods ->
  parts_known (a +:+ "." +:+ b +:+ "." +:+ dotted known) = true.
Proof.
  intros Ha Hb Hk. destruct (known_shape known Hk) as (s & m & Hkn & -> & Hs & Hm).
  unfold parts_known. simpl. rewrite SplitN_cut, SplitN_cut, SplitN_cut by done. simpl.
  change (s +:+ String "/" m) with (s +:+ "/" +:+ m). rewrite <- Hkn. by apply existsb_known.
Qed.

(** ** The cache *)

(** The cache holds what [init] stored, and only labels that are kept anyway. *)
Definition cache_ok (w : World) : Prop :=
  (forall known, known ∈ knownServiceMethods -> dotted known ∈ w_known w) /\
  (forall k, k ∈ w_known w -> known_label k).

Lemma init_run w :
  init w = (Ret tt, mkWorld (w_nodes w) (list_to_set (dotted <$> knownServiceMethods) ∪ w_known w)
                            (w_trace w) (w_tick w)).
Proof.
  unfold init. rewrite go_for_modify. f_equal. fold dotted.
  assert (H : forall l w, foldl (fun s a => add_known (dotted a) s) w l
     = mkWorld (w_nodes w) (list_to_set (dotted <$> l) ∪ w_known w) (w_trace w) (w_tick w)).
  { induction l as [|k l IH]; intros w'; simpl.
    - rewrite (left_id_L ∅ (∪)). by destruct w'.
    - rewrite IH. unfold add_known. simpl. f_equal.
      by rewrite (assoc_L (∪)), (comm_L (∪) _ {[dotted k]}). }
  apply H.
Qed.

Lemma init_cache_ok w : w_known w = ∅ -> cache_ok (exec init w).
Proof.
  intros He. assert (Hk : forall k, k ∈ w_known (exec init w) <-> k ∈ dotted <$> knownServiceMethods).
  { intros k. unfold exec. rewrite init_run. cbn [snd w_known].
    by rewrite He, (right_id_L ∅ (∪)), elem_of_list_to_set. }
  split.
  - intros known Hin. apply Hk, list_elem_of_fmap. eauto.
  - intros k (known & -> & Hin)%Hk%list_elem_of_fmap. exists known. auto.
Qed.

(** What a label lookup returns and leaves, when the cache is as above. *)
Definition method_of (full : string) : string :=
  ReplaceAll (TrimPrefix full "/") "/"%char "."%char.

Lemma method_of_no_slash full : ContainsByte (method_of full) "/"%char = false.
Proof. by apply ReplaceAll_gone. Qed.

Lemma sanitizeMethod_run full w :
  cache_ok w ->
  exists label known, sanitizeMethod full w = (Ret label, mkWorld (w_nodes w) known (w_trace w) (w_tick w))
  /\ cache_ok (mkWorld (w_nodes w) known (w_trace w) (w_tick w))
  /\ (known_label (method_of full) -> label = method_of full)
  /\ (~ known_label (method_of full) -> label = "unknown_method").
Proof.
  intros [Hin Hok]. unfold sanitizeMethod. fold (method_of full). set (m := method_of full).
  pose proof (method_of_no_slash full) as Hsl. fold m in Hsl.
  unfold knownMethods_Load, knownMethods_Store. go_run.
  destruct (decide (m ∈ w_known w)) as [Hm|Hm].
  { rewrite bool_decide_true by done. exists m, (w_known w). split; [by destruct w|].
    split; [by split|]. split; [done|]. by intros []; apply Hok. }
  rewrite bool_decide_false by done.
  destruct (parts_known m) eqn:Hp; pose proof Hp as Hp'; unfold parts_known in Hp';
    simpl in Hp'; [apply andb_true_iff in Hp' as [-> ->]|].
  - pose proof (parts_known_label m Hsl Hp) as Hk. exists m, ({[m]} ∪ w_known w).
    split; [done|]. split; [|done]. split; simpl; [intros kn Hkn; apply elem_of_union; right; by apply Hin|].
    intros k [->%elem_of_singleton|Hk']%elem_of_union; auto.
  - exists "unknown_method", (w_known w). split.
    { destruct (_ >=? 3); [rewrite andb_true_l in Hp'; rewrite Hp'|]; by destruct w. }
    split; [by split|]. split; [|done]. intros (kn & Hkn & [->|[(a & Ha & ->)|(a & b & Ha & Hb & ->)]]).
    + destruct Hm. by apply Hin.
    + by rewrite label_parts_known in Hp.
    + by rewrite label_parts_known2 in Hp.
Qed.

(** The label depends on the state only through the cache. *)
Lemma sanitizeMethod_cache full w1 w2 :
  w_known w1 = w_known w2 -> (sanitizeMethod full w1).1 = (sanitizeMethod full w2).1.
Proof.
  intros Hk. unfold sanitizeMethod, knownMethods_Load, knownMethods_Store. go_run. rewrite Hk.
  by repeat case_match.
Qed.

(** * Properties *)

(** C13: [sanitizeMethod] returns the dotted name of a method exactly when it is a known
    [Service/Method], alone or after one or two dot-free segments, and ["unknown_method"]
    otherwise; the cache of earlier calls never changes the answer, stays consistent, and no
    node or metric is touched.  The consistency holds after [init]. *)
Theorem sanitizeMethod_spec full w :
  cache_ok w ->
  (exists label, value (sanitizeMethod full) w = Some label
     /\ (known_label (method_of full) -> label = method_of full)
     /\ (~ known_label (method_of full) -> label = "unknown_method"))
  /\ cache_ok (exec (sanitizeMethod full) w)
  /\ w_nodes (exec (sanitizeMethod full) w) = w_nodes w
  /\ w_trace (exec (sanitizeMethod full) w) = w_trace w
  /\ (forall w0, w_known w0 = ∅ -> cache_ok (exec init w0)).
Proof.
  intros Hok. unfold value, exec.
  destruct (sanitizeMethod_run full w Hok) as (label & known & -> & Hok' & Hk & Hn). simpl.
  split; [by exists label|]. do 3 (split; [done|]). apply init_cache_ok.
Qed.

(** [init] registers each declared metric once, and no two declared metrics share a name,
    so the registration does not panic. *)
Theorem init_registers_once :
  (forall m, m ∈ init_registered) /\ NoDup (Metric_Name <$> init_registered).
Proof.
  split; [intros []; apply (bool_decide_unpack _); reflexivity|].
  apply (bool_decide_unpack _). reflexivity.
Qed.

Section interceptor_facts.
Context `{!GoEnv, !GoEnvLaws, !GrpcLib}.

Lemma Since_run start w :
  Since start w = (Ret (Sub (now_at (w_tick w)) start), next_tick w).
Proof. reflexivity. Qed.

(** Time does not run backwards between two readings. *)
Lemma Sub_nonneg i j : (i <= j)%nat -> 0 <= Sub (now_at j) (now_at i).
Proof.
  intros Hij. unfold Sub. rewrite subMono_clamp by apply now_at_i64.
  pose proof (now_at_mono i j Hij). unfold minInt64, maxInt64. lia.
Qed.

(** The unary interceptor hands the request to the handler and returns its response and
    error unchanged; after the handler has returned, and whatever it returned, exactly one
    request is counted, under the method's label and the code of the error, with one
    latency observation that is not negative.  When the handler panics nothing is counted
    and the panic goes on. *)
Theorem UnaryServerInterceptor_spec {Req Resp} ctx (req : Req) full
    (handler : Ctx -> Req -> Go World (Resp * option error)) w :
  (forall resp err w1, handler ctx req (next_tick w) = (Ret (resp, err), w1) ->
     cache_ok w1 -> (w_tick w < w_tick w1)%nat ->
     let w' := exec (UnaryServerInterceptor ctx req full handler) w in
     value (UnaryServerInterceptor ctx req full handler) w = Some (resp, err)
     /\ w_nodes w' = w_nodes w1 /\ cache_ok w'
     /\ exists label d, value (sanitizeMethod full) w1 = Some label /\ 0 <= d
        /\ w_trace w' =
           EvMetric grpcServerLatency [label; "unary"] (Observe d)
           :: EvMetric grpcServerRequests [label; "unary"; Code_String (status_Code err)] Inc
           :: w_trace w1)
  /\ (forall f args w1, handler ctx req (next_tick w) = (Panicked f args, w1) ->
       UnaryServerInterceptor ctx req full handler w = (Panicked f args, w1)).
Proof.
  split.
  - intros resp err w1 Hh Hok Ht. unfold exec, value, UnaryServerInterceptor, Since. go_run.
    rewrite Hh. simpl.
    destruct (sanitizeMethod_run full w1 Hok) as (label & known & Hs & _).
    destruct (sanitizeMethod_run full (next_tick w1) Hok) as (label' & known' & Hs' & Hok2 & _).
    pose proof (sanitizeMethod_cache full w1 (next_tick w1) eq_refl) as Heq.
    rewrite Hs, Hs' in Heq. injection Heq as <-.
    rewrite Hs', Hs. simpl. split; [done|]. split; [done|]. split; [exact Hok2|].
    eexists _, _. split; [done|]. split; [|done]. apply Sub_nonneg. lia.
  - intros f args w1 Hh. unfold UnaryServerInterceptor. go_run. by rewrite Hh.
Qed.

(** The stream interceptor counts one more open stream under the method's label before
    it runs the handler and one less when the handler is done, whether it returned or
    panicked; a return is counted as one request with the code of the error, which the
    interceptor passes on; a panic goes on uncounted. *)
Theorem StreamServerInterceptor_spec {Srv SS} (srv : Srv) (ss : SS) full
    (handler : Srv -> SS -> Go World (option error)) w :
  cache_ok w ->
  exists label w0, value (sanitizeMethod full) w = Some label
  /\ w_nodes w0 = w_nodes w
  /\ w_trace w0 = EvMetric grpcActiveStreams [label] Inc :: w_trace w
  /\ (forall err w1, handler srv ss w0 = (Ret err, w1) -> (w_tick w < w_tick w1)%nat ->
       value (StreamServerInterceptor srv ss full handler) w = Some err
       /\ w_nodes (exec (StreamServerInterceptor srv ss full handler) w) = w_nodes w1
       /\ exists d, 0 <= d
          /\ w_trace (exec (StreamServerInterceptor srv ss full handler) w) =
             EvMetric grpcActiveStreams [label] Dec
             :: EvMetric grpcServerLatency [label; "stream"] (Observe d)
             :: EvMetric grpcServerRequests [label; "stream"; Code_String (status_Code err)] Inc
             :: w_trace w1)
  /\ (forall f args w1, handler srv ss w0 = (Panicked f args, w1) ->
       StreamServerInterceptor srv ss full handler w =
       (Panicked f args, add_event (EvMetric grpcActiveStreams [label] Dec) w1)).
Proof.
  intros Hok. destruct (sanitizeMethod_run full w Hok) as (label & known & Hs & _).
  unfold exec, value, StreamServerInterceptor, Since. go_run. rewrite Hs. unfold go_defer. go_run.
  eexists label, _. split; [done|]. split; [|split; [|split]].
  3:{ intros err w1 Hh Ht. rewrite Hh. simpl.
      split; [done|]. split; [done|]. eexists. split; [|done]. apply Sub_nonneg. lia. }
  3:{ intros f args w1 Hh. by rewrite Hh. }
  all: done.
Qed.
End interceptor_facts.
