(* ===== verification/Agent.v ===== *)
(** [control-plane/internal/agent/agent.go]: authentication, input validation with its audit
    log, and the unary handlers of the agent service.  The heartbeat stream is in
    [Heartbeat.v].

    A request pointer is never nil (the gRPC dispatcher allocates it), so a handler takes the
    message itself; a nil response is [None].  A check closure is a computation, since the
    environment check ranges over a map. *)
From S2P Require Import Prelude GoRuntime GoStrings PbResource PbAgent Grpc World Registry.
From S2P Require Import RegistryApi Validator.
Local Open Scope string_scope.
Local Open Scope Z_scope.

(** [AgentServer]; the registry it is wired to is the one of the shared state. *)
Record AgentServer := mkAgentServer {
  clusterID : string;
  leaderAddr : string;
  agentToken : string
}.
Definition NewAgentServer (clusterID leaderAddr agentToken : string) : AgentServer :=
  mkAgentServer clusterID leaderAddr agentToken.

(** [trimToRepoPath]. *)
Fixpoint first_marker (abs : string) (markers : list string) : option string :=
  match markers with
  | [] => None
  | marker :: markers =>
      match Index abs ("/" +:+ marker) with
      | Some i => Some (str_drop (i + 1) abs)
      | None => first_marker abs markers
      end
  end.
Definition trimToRepoPath (abs : string) : string :=
  match Index abs "/internal/" with
  | Some i => str_drop (i + 1) abs
  | None =>
      match first_marker abs ["control-plane/"; "cli/"] with
      | Some p => p
      | None => Base abs
      end
  end.

Record validationCheck := mkCheck {
  field : string;
  sourceFile : string;
  sourceLine : Z;
  check : Go World (option error)
}.

(** [newCheck]; [caller] is what [runtime.Caller(1)] answers: the file and line of the call. *)
Definition newCheck (caller : option (string * Z)) (fld : string)
    (chk : Go World (option error)) : validationCheck :=
  match caller with
  | None => mkCheck fld "unknown" 0 chk
  | Some (file, line) => mkCheck fld (trimToRepoPath file) line chk
  end.

(** The path the compiler recorded for [agent.go]. *)
Class BuildInfo := { agent_go : string }.

Section agent.
Context `{!GoEnv, !GrpcLib, !BuildInfo, !RegistryOps}.

Definition validateBearerToken (ctx : Ctx) (expectedToken : string) : option error :=
  if String.eqb expectedToken "" then None
  else
    match FromIncomingContext ctx with
    | None => status_Error Unauthenticated "missing metadata"
    | Some md =>
        let tokens := md_Get md "authorization" in
        if Z.of_nat (length tokens) =? 0 then
          status_Error Unauthenticated "missing authorization token"
        else
          let expected := "Bearer " +:+ expectedToken in
          if existsb (fun tok => ConstantTimeCompare tok expected =? 1) tokens then None
          else status_Error PermissionDenied "invalid token"
    end.

Definition checkAuth (s : AgentServer) (ctx : Ctx) : option error :=
  validateBearerToken ctx (agentToken s).

(** The response of a call that returns an error is nil. *)
Definition AuthUnaryInterceptorFor (agentToken : string) {Req Resp} (ctx : Ctx) (req : Req)
    (FullMethod : string) (handler : Ctx -> Req -> Go World (option Resp * option error))
    : Go World (option Resp * option error) :=
  match validateBearerToken ctx agentToken with
  | Some err => mret (None, Some err)
  | None => handler ctx req
  end.

Definition logValidationRejection (ctx : Ctx) (method field detail sourceFile : string)
    (sourceLine position : Z) : Go World unit :=
  let remoteIP := match peer_FromContext ctx with Some addr => addr | None => "unknown" end in
  log LWarn "validation rejected"
    [("remote_ip", LStr remoteIP); ("method", LStr method); ("field", LStr field);
     ("chain_pos", LInt position); ("source_file", LStr sourceFile);
     ("source_line", LInt sourceLine); ("detail", LStr detail)].

(** The loop of [validateAll] from index [i] on. *)
Fixpoint validate_from (ctx : Ctx) (method : string) (i : Z) (checks : list validationCheck)
    : Go World (option error) :=
  match checks with
  | [] => mret None
  | c :: checks =>
      err ← check c;
      match err with
      | Some e =>
          logValidationRejection ctx method (field c) (err_Error e) (sourceFile c)
            (sourceLine c) i ;;
          mret (Some e)
      | None => validate_from ctx method (i + 1) checks
      end
  end.
Definition validateAll (ctx : Ctx) (method : string) (checks : list validationCheck)
    : Go World (option error) := validate_from ctx method 0 checks.

(** The call site of a [newCheck] in [agent.go]. *)
Definition at_line (line : Z) : option (string * Z) := Some (agent_go, line).

(** ** Handlers *)
Definition AgentServer_Register (s : AgentServer) (ctx : Ctx) (req : RegisterRequest)
    : Go World (option RegisterResponse * option error) :=
  err ← validateAll ctx "Register" [
    newCheck (at_line 213) "node_id" (mret (ValidateNodeID (RegisterRequest_NodeId req)));
    newCheck (at_line 214) "address" (mret (ValidateAddress (RegisterRequest_Address req)));
    newCheck (at_line 215) "agent_version"
      (mret (ValidateVersion (RegisterRequest_AgentVersion req)))];
  match err with
  | Some err => mret (None, Some err)
  | None =>
      log LInfo "node registering"
        [("node_id", LStr (RegisterRequest_NodeId req));
         ("address", LStr (RegisterRequest_Address req));
         ("version", LStr (RegisterRequest_AgentVersion req))] ;;
      reg_Register (RegisterRequest_NodeId req) (RegisterRequest_Address req)
                   (RegisterRequest_Resources req) ;;
      mret (Some {|
        RegisterResponse_Accepted := true;
        RegisterResponse_ClusterId := clusterID s;
        RegisterResponse_ControlPlaneLeader := leaderAddr s;
        RegisterResponse_HeartbeatIntervalMs := 5000 |}, None)
  end.

Definition ExecuteTask (s : AgentServer) (ctx : Ctx) (req : TaskSpec)
    : Go World (option TaskAck * option error) :=
  err ← validateAll ctx "ExecuteTask" [
    newCheck (at_line 326) "task_id" (mret (ValidateTaskID (TaskSpec_TaskId req)));
    newCheck (at_line 327) "job_id" (mret (ValidateJobID (TaskSpec_JobId req)));
    newCheck (at_line 328) "container_image"
      (mret (ValidateContainerImage (TaskSpec_ContainerImage req)));
    newCheck (at_line 329) "command" (mret (ValidateCommands (TaskSpec_Command req)));
    newCheck (at_line 330) "env" (ValidateEnvVars (TaskSpec_Env req));
    newCheck (at_line 331) "priority" (mret (ValidatePriority (TaskSpec_Priority req)))];
  match err with
  | Some err => mret (None, Some err)
  | None =>
      log LInfo "task execution requested"
        [("task_id", LStr (TaskSpec_TaskId req)); ("image", LStr (TaskSpec_ContainerImage req))] ;;
      mret (Some (mkTaskAck true ""), None)
  end.

Definition AllocateMemory (s : AgentServer) (ctx : Ctx) (req : MemoryAllocRequest)
    : Go World (option MemoryAllocResponse * option error) :=
  err ← validateAll ctx "AllocateMemory" [
    newCheck (at_line 349) "allocation_id"
      (mret (ValidateAllocationID (MemoryAllocRequest_AllocationId req)));
    newCheck (at_line 350) "size_bytes"
      (mret (ValidateMemorySize (MemoryAllocRequest_SizeBytes req)));
    newCheck (at_line 351) "replication_factor"
      (mret (ValidateReplicationFactor (MemoryAllocRequest_ReplicationFactor req)))];
  match err with
  | Some err => mret (None, Some err)
  | None =>
      log LInfo "memory allocation requested"
        [("allocation_id", LStr (MemoryAllocRequest_AllocationId req));
         ("size_bytes", LInt (MemoryAllocRequest_SizeBytes req))] ;;
      mret (Some {|
        MemoryAllocResponse_Success := true;
        MemoryAllocResponse_Handle := Some
          (mkMemoryHandle (MemoryAllocRequest_AllocationId req) "" 0 0
                          (MemoryAllocRequest_SizeBytes req));
        MemoryAllocResponse_Error := "" |}, None)
  end.

Definition AllocateGPUMemory (s : AgentServer) (ctx : Ctx) (req : GPUMemoryAllocRequest)
    : Go World (option GPUMemoryAllocResponse * option error) :=
  err ← validateAll ctx "AllocateGPUMemory" [
    newCheck (at_line 370) "allocation_id"
      (mret (ValidateAllocationID (GPUMemoryAllocRequest_AllocationId req)));
    newCheck (at_line 371) "size_bytes"
      (mret (ValidateGPUMemorySize (GPUMemoryAllocRequest_SizeBytes req)));
    newCheck (at_line 372) "gpu_device_index"
      (mret (ValidateGPUDeviceIndex (GPUMemoryAllocRequest_GpuDeviceIndex req)))];
  match err with
  | Some err => mret (None, Some err)
  | None =>
      log LInfo "GPU memory allocation requested"
        [("allocation_id", LStr (GPUMemoryAllocRequest_AllocationId req));
         ("size_bytes", LInt (GPUMemoryAllocRequest_SizeBytes req))] ;;
      mret (Some {|
        GPUMemoryAllocResponse_Success := true;
        GPUMemoryAllocResponse_Handle := Some
          (mkGPUHandle (GPUMemoryAllocRequest_AllocationId req) "" 0 0
                       (GPUMemoryAllocRequest_SizeBytes req) 0);
        GPUMemoryAllocResponse_Error := "" |}, None)
  end.

Definition FreeMemory (s : AgentServer) (ctx : Ctx) (req : FreeMemoryRequest)
    : Go World (option FreeMemoryResponse * option error) :=
  err ← validateAll ctx "FreeMemory" [
    newCheck (at_line 391) "allocation_id"
      (mret (ValidateAllocationID (FreeMemoryRequest_AllocationId req)))];
  match err with
  | Some err => mret (None, Some err)
  | None =>
      log LInfo "memory free requested"
        [("allocation_id", LStr (FreeMemoryRequest_AllocationId req))] ;;
      mret (Some (mkFreeMemoryResponse true), None)
  end.

Definition FreeGPUMemory (s : AgentServer) (ctx : Ctx) (req : FreeGPUMemoryRequest)
    : Go World (option FreeGPUMemoryResponse * option error) :=
  err ← validateAll ctx "FreeGPUMemory" [
    newCheck (at_line 401) "allocation_id"
      (mret (ValidateAllocationID (FreeGPUMemoryRequest_AllocationId req)))];
  match err with
  | Some err => mret (None, Some err)
  | None =>
      log LInfo "GPU memory free requested"
        [("allocation_id", LStr (FreeGPUMemoryRequest_AllocationId req))] ;;
      mret (Some (mkFreeGPUMemoryResponse true), None)
  end.
End agent.
