(* ===== verification/AgentFacts.v ===== *)
(** Properties of authentication, of the validation chain and of the unary handlers. *)
From S2P Require Import Prelude GoRuntime GoStrings PbResource PbAgent Grpc World Registry.
From S2P Require Import RegistryApi Validator Agent.
From Stdlib Require Import Ascii.
Local Open Scope string_scope.
Local Open Scope Z_scope.

(** ** Check closures *)

(** A check that may read the clock or range over maps, and that passes exactly when [P]. *)
Definition check_decides (c : validationCheck) (P : Prop) : Prop :=
  forall w, exists e k,
    check c w = (Ret e, ticks k w) /\ (e = None <-> P) /\ invalid_argument e.

Lemma check_mret caller fld e P :
  (e = None <-> P) -> invalid_argument e -> check_decides (newCheck caller fld (mret e)) P.
Proof.
  intros HP He w. exists e, O. rewrite ticks_0. by destruct caller as [[file line]|].
Qed.


(** [decides] closes the goal that a check of a handler decides what the validator says. *)
#[export] Hint Resolve ValidateAddress_ok ValidateVersion_ok ValidateReplicationFactor_ok
  ValidatePriority_ok ValidateGPUDeviceIndex_ok ValidateHeartbeatTaskCount_ok : nmonit.

Lemma check_validator caller fld e P :
  (e = None <-> P) /\ invalid_argument e -> check_decides (newCheck caller fld (mret e)) P.
Proof. intros [HP He]. by apply check_mret. Qed.

Lemma check_env `{!GoEnv, !GoEnvLaws} caller fld env :
  check_decides (newCheck caller fld (ValidateEnvVars env)) (env_ok env).
Proof. intros w. destruct caller as [[file line]|]; apply ValidateEnvVars_ok. Qed.

Section facts.
Context `{!GoEnv, !GrpcLib, !BuildInfo}.

(** The audit entry of a rejection. *)
Definition rejection (ctx : Ctx) (method : string) (c : validationCheck) (i : Z) (e : error)
  : LogEntry :=
  mkLog LWarn "validation rejected"
    [("remote_ip", LStr (default "unknown" (peer_FromContext ctx)));
     ("method", LStr method); ("field", LStr (field c)); ("chain_pos", LInt i);
     ("source_file", LStr (sourceFile c)); ("source_line", LInt (sourceLine c));
     ("detail", LStr (err_Error e))].

Definition rejected (ctx : Ctx) (method : string) (c : validationCheck) (i : Z) (e : error)
    (w : World) : World := add_event (EvLog (rejection ctx method c i e)) w.

Lemma logValidationRejection_run ctx method c i e w :
  logValidationRejection ctx method (field c) (err_Error e) (sourceFile c) (sourceLine c) i w =
  (Ret tt, rejected ctx method c i e w).
Proof. unfold logValidationRejection, rejected, rejection. go_run. by destruct (peer_FromContext ctx). Qed.

(** The chain: nothing happens when every check passes; otherwise the first check that
    fails is reported, with its position, and its error returned. *)
Lemma validate_from_run ctx method i checks Ps w :
  Forall2 check_decides checks Ps ->
  exists e k,
    ((e = None /\ validate_from ctx method i checks w = (Ret None, ticks k w))
     \/ exists j c err, e = Some err /\ checks !! j = Some c
        /\ validate_from ctx method i checks w =
           (Ret (Some err), rejected ctx method c (i + Z.of_nat j) err (ticks k w))
        /\ Forall id (take j Ps) /\ (exists P, Ps !! j = Some P /\ ~ P))
    /\ (e = None <-> Forall id Ps) /\ invalid_argument e.
Proof.
  intros Hall. revert i w. induction Hall as [|c P checks Ps Hc Hall IH]; intros i w; simpl.
  - exists None, O. rewrite ticks_0. split; [by left|]. split; [by split|done].
  - destruct (Hc w) as (e & k & Hrun & HP & He). unfold mbind, go_bind. rewrite Hrun.
    destruct e as [err|].
    + exists (Some err), k. rewrite logValidationRejection_run. split.
      * right. exists O, c, err. rewrite Z.add_0_r. do 3 (split; [done|]).
        split; [constructor|]. exists P. split; [done|]. intros HPt. by apply HP in HPt.
      * split; [|done]. split; [done|]. intros [HPt _]%Forall_cons. by apply HP in HPt.
    + destruct (IH (i + 1) (ticks k w)) as (e & k2 & Hcase & Hiff & Hinv).
      assert (HPt : P) by (by apply HP).
      exists e, (k2 + k)%nat. rewrite Forall_cons. split; [|split; [unfold id at 1; tauto|done]].
      destruct Hcase as [(-> & Hr)|(j & c' & err & -> & Hj & Hr & Hpre & Hex)].
      * left. rewrite Hr, ticks_add. done.
      * right. exists (S j), c', err. split; [done|]. split; [done|].
        rewrite Hr, ticks_add. split; [do 2 f_equal; lia|]. split; [by constructor|done].
Qed.

(** The same for [validateAll], as its callers use it. *)
Lemma validateAll_run ctx method checks Ps w :
  Forall2 check_decides checks Ps ->
  (Forall id Ps /\ exists k, validateAll ctx method checks w = (Ret None, ticks k w))
  \/ (~ Forall id Ps /\ exists j c err k,
        checks !! j = Some c /\ Forall id (take j Ps) /\ (exists P, Ps !! j = Some P /\ ~ P)
        /\ invalid_argument (Some err)
        /\ validateAll ctx method checks w =
           (Ret (Some err), rejected ctx method c (Z.of_nat j) err (ticks k w))).
Proof.
  intros Hall. destruct (validate_from_run ctx method 0 checks Ps w Hall)
    as (e & k & [(-> & Hr)|(j & c & err & -> & Hj & Hr & Hpre & Hex)] & Hiff & Hinv).
  - left. split; [by apply Hiff|]. by exists k.
  - right. split; [intros HF; by apply Hiff in HF|]. exists j, c, err, k. done.
Qed.
End facts.

Section handlers.
Context `{!GoEnv, !GrpcLib, !BuildInfo, !RegistryOps}.

(** A request rejected because of the [j]-th of its checks, the first whose condition (of
    [Ps]) fails: the error is [InvalidArgument], no node changes, no metric is touched, and
    the log gets one entry that names the method, the field, its position and the line of
    the check in [agent.go]. *)
Definition rejected_by (ctx : Ctx) (method : string) (fields : list (string * Z))
    (Ps : list Prop) (w : World) (err : error) (w' : World) : Prop :=
  exists j fld line,
    fields !! j = Some (fld, line) /\ Forall id (take j Ps) /\ (exists P, Ps !! j = Some P /\ ~ P)
    /\ (exists msg, err = StatusError InvalidArgument msg)
    /\ w_nodes w' = w_nodes w /\ w_known w' = w_known w
    /\ w_trace w' = EvLog (mkLog LWarn "validation rejected"
         [("remote_ip", LStr (default "unknown" (peer_FromContext ctx)));
          ("method", LStr method); ("field", LStr fld); ("chain_pos", LInt (Z.of_nat j));
          ("source_file", LStr (trimToRepoPath agent_go)); ("source_line", LInt line);
          ("detail", LStr (err_Error err))]) :: w_trace w.

(** The chain of a handler, whose checks are declared at lines of [agent.go]. *)
Definition handler_checks (l : list (string * Z * Go World (option error)))
  : list validationCheck := (fun p => newCheck (at_line p.1.2) p.1.1 p.2) <$> l.

Lemma validate_handler ctx method l Ps w :
  Forall2 check_decides (handler_checks l) Ps ->
  (Forall id Ps /\ exists k, validateAll ctx method (handler_checks l) w = (Ret None, ticks k w))
  \/ (~ Forall id Ps /\ exists err w',
        validateAll ctx method (handler_checks l) w = (Ret (Some err), w')
        /\ rejected_by ctx method l.*1 Ps w err w').
Proof.
  intros Hall. destruct (validateAll_run ctx method _ Ps w Hall)
    as [?|(HF & j & c & err & k & Hj & Hpre & Hex & Hinv & Hr)]; [by left|right].
  split; [done|]. exists err, (rejected ctx method c (Z.of_nat j) err (ticks k w)).
  split; [done|]. unfold handler_checks in Hj.
  apply list_lookup_fmap_Some in Hj as ([[fld line] chk] & -> & Hj). simpl in *.
  exists j, fld, line. split.
  { apply list_lookup_fmap_Some. by exists (fld, line, chk). }
  do 2 (split; [done|]). split; [|done].
  destruct err as [|cd m|]; try done. destruct cd; try done. by exists m.
Qed.

(** Handlers that only answer: the request is accepted with a fixed answer and one log
    entry, or rejected. *)
Definition answers {Resp} (m : Go World (option Resp * option error)) (ctx : Ctx)
    (method : string) (fields : list (string * Z)) (Ps : list Prop) (resp : Resp)
    (entry : LogEntry) (w : World) : Prop :=
  (Forall id Ps ->
     value m w = Some (Some resp, None) /\ w_nodes (exec m w) = w_nodes w
     /\ w_known (exec m w) = w_known w /\ w_trace (exec m w) = EvLog entry :: w_trace w)
  /\ (~ Forall id Ps -> exists err,
     value m w = Some (None, Some err) /\ rejected_by ctx method fields Ps w err (exec m w))
  /\ (Forall id Ps \/ ~ Forall id Ps).

Lemma answers_run {Resp} ctx method l Ps (resp : Resp) msg fs w :
  Forall2 check_decides (handler_checks l) Ps ->
  answers (err ← validateAll ctx method (handler_checks l);
           match err with
           | Some err => mret (None, Some err)
           | None => log LInfo msg fs ;; mret (Some resp, None)
           end) ctx method l.*1 Ps resp (mkLog LInfo msg fs) w.
Proof.
  intros Hall. unfold answers, value, exec, mbind, go_bind.
  destruct (validate_handler ctx method l Ps w Hall) as [(HF & k & ->)|(HF & err & w' & -> & Hr)].
  - split; [done|]. split; [done|by left].
  - split; [done|]. split; [intros _; by exists err|by right].
Qed.
End handlers.

(** * Properties *)
Section properties.
Context `{!GoEnv, !GrpcLib, !BuildInfo, !RegistryOps}.

(** The credentials a call has to present. *)
Definition bearer_accepted (ctx : Ctx) (token : string) : Prop :=
  token = "" \/ exists md, FromIncomingContext ctx = Some md
                 /\ ("Bearer " +:+ token) ∈ md_Get md "authorization".

Lemma bearer_decides {Req Resp} ctx token (req : Req) full
    (handler : Ctx -> Req -> Go World (option Resp * option error)) w :
  (validateBearerToken ctx token = None <-> bearer_accepted ctx token)
  /\ (bearer_accepted ctx token -> AuthUnaryInterceptorFor token ctx req full handler w = handler ctx req w)
  /\ (~ bearer_accepted ctx token -> exists code msg,
        validateBearerToken ctx token = Some (StatusError code msg)
        /\ AuthUnaryInterceptorFor token ctx req full handler w =
           (Ret (None, Some (StatusError code msg)), w)
        /\ code = match FromIncomingContext ctx with
                  | Some md => match md_Get md "authorization" with
                               | [] => Unauthenticated
                               | _ => PermissionDenied
                               end
                  | None => Unauthenticated
                  end).
Proof.
  assert (Hex : forall l, existsb (fun tok => ConstantTimeCompare tok ("Bearer " +:+ token) =? 1) l = true
                <-> ("Bearer " +:+ token) ∈ l).
  { intros l. rewrite existsb_exists, list_elem_of_In. split.
    - intros (x & Hx & Hc). rewrite ConstantTimeCompare_eq in Hc. case_decide; [by subst|done].
    - intros Hx. eexists. split; [done|]. by rewrite ConstantTimeCompare_eq, decide_True. }
  unfold bearer_accepted, AuthUnaryInterceptorFor, validateBearerToken.
  destruct (String.eqb_spec token "") as [->|Hne]; [split; [|split]; [by split; [left|]|done|tauto]|].
  destruct (FromIncomingContext ctx) as [md|].
  2:{ split; [split; [done|by intros [?|(? & ? & _)]]|].
      split; [by intros [?|(? & ? & _)]|]. intros _. by eexists _, _. }
  assert (Hacc : token = "" \/ (exists md', Some md = Some md'
      /\ ("Bearer " +:+ token) ∈ md_Get md' "authorization")
      <-> ("Bearer " +:+ token) ∈ md_Get md "authorization").
  { split; [by intros [?|(? & [= <-] & Hin)]|]. eauto. }
  rewrite Hacc. clear Hacc.
  destruct (Z.eqb_spec (Z.of_nat (length (md_Get md "authorization"))) 0) as [Hl|Hl].
  { assert (E : md_Get md "authorization" = []) by (apply nil_length_inv; lia). rewrite E.
    split; [split; [done|by intros ?%not_elem_of_nil]|].
    split; [by intros ?%not_elem_of_nil|]. intros _. by eexists _, _. }
  destruct (existsb _ (md_Get md "authorization")) eqn:Hx.
  - apply Hex in Hx. split; [by split|]. by split.
  - assert (Ha : ~ ("Bearer " +:+ token) ∈ md_Get md "authorization")
      by (intros Hin; apply Hex in Hin; congruence).
    split; [by split|]. split; [done|]. intros _. eexists _, _. do 2 (split; [done|]).
    destruct (md_Get md "authorization"); [done|done].
Qed.

(** C7: a bearer token is accepted exactly when none is configured or one of the call's
    authorization values is ["Bearer "] followed by it, byte for byte; a call without
    metadata or without such a value is [Unauthenticated], one with only wrong values
    [PermissionDenied].  The unary interceptor runs the handler exactly on accepted calls;
    on the others it returns a nil response with that error and changes nothing. *)
Theorem validateBearerToken_spec {Req Resp} ctx token (req : Req) full
    (handler : Ctx -> Req -> Go World (option Resp * option error)) w :
  (validateBearerToken ctx token = None <-> bearer_accepted ctx token)
  /\ (bearer_accepted ctx token -> AuthUnaryInterceptorFor token ctx req full handler w = handler ctx req w)
  /\ (~ bearer_accepted ctx token -> exists code msg,
        validateBearerToken ctx token = Some (StatusError code msg)
        /\ AuthUnaryInterceptorFor token ctx req full handler w =
           (Ret (None, Some (StatusError code msg)), w)
        /\ code = match FromIncomingContext ctx with
                  | Some md => match md_Get md "authorization" with
                               | [] => Unauthenticated
                               | _ => PermissionDenied
                               end
                  | None => Unauthenticated
                  end).
Proof. by apply bearer_decides. Qed.

(** The chain of checks runs them in order up to the first that fails: when all pass
    nothing is logged and nil is returned; otherwise the error of the first failing check is
    returned unchanged, after one audit entry with the peer, the method and that check's
    field, index, file and line, and no later check is run. *)
Theorem validateAll_first_failure ctx method checks Ps w :
  Forall2 check_decides checks Ps ->
  (Forall id Ps -> exists k, validateAll ctx method checks w = (Ret None, ticks k w))
  /\ (forall j P c, Forall id (take j Ps) -> Ps !! j = Some P -> ~ P -> checks !! j = Some c ->
       exists err k, validateAll ctx method checks w =
         (Ret (Some err), add_event (EvLog (mkLog LWarn "validation rejected"
            [("remote_ip", LStr (default "unknown" (peer_FromContext ctx)));
             ("method", LStr method); ("field", LStr (field c));
             ("chain_pos", LInt (Z.of_nat j)); ("source_file", LStr (sourceFile c));
             ("source_line", LInt (sourceLine c)); ("detail", LStr (err_Error err))]))
          (ticks k w))
       /\ exists w0 k0, check c w0 = (Ret (Some err), ticks k0 w0)).
Proof.
  intros Hall. split.
  - intros HF. destruct (validateAll_run ctx method checks Ps w Hall) as [[_ ?]|[? _]]; done.
  - intros j P c. unfold validateAll. rewrite <- (Z.add_0_l (Z.of_nat j)). generalize 0.
    revert j P c w. induction Hall as [|c0 P0 checks Ps Hc Hall IH]; intros j P c w i Hpre Hj HP Hcj;
      [done|].
    destruct (Hc w) as (e & k & Hrun & HP0 & _). simpl. unfold mbind, go_bind. rewrite Hrun.
    destruct j as [|j].
    + injection Hj as ->. injection Hcj as ->.
      destruct e as [err|]; [|by destruct HP; apply HP0].
      rewrite logValidationRejection_run, Z.add_0_r. exists err, k. split; [done|]. by exists w, k.
    + apply Forall_cons in Hpre as [HPt Hpre]. apply HP0 in HPt as ->.
      destruct (IH j P c (ticks k w) (i + 1) Hpre Hj HP Hcj) as (err & k2 & Hr & Hex).
      exists err, (k2 + k)%nat. rewrite Hr, ticks_add. split; [|done].
      by replace (i + 1 + Z.of_nat j) with (i + Z.of_nat (S j)) by lia.
Qed.
End properties.

(** ** The handlers *)
#[local] Ltac chain := repeat (constructor; [first [ apply check_env | apply check_validator; auto with nmonit ]|]); try constructor.

Section handler_properties.
Context `{!GoEnv, !GoEnvLaws, !GrpcLib, !BuildInfo, !RegistryOps, !RegistryLaws}.

(** The identifier checks of the handlers. *)
Lemma ValidateAllocationID_ok id :
  (ValidateAllocationID id = None <-> safe_id 255 id) /\ invalid_argument (ValidateAllocationID id).
Proof. apply ValidateStringID_ok. Qed.
Lemma ValidateNodeID_ok id :
  (ValidateNodeID id = None <-> safe_id 255 id) /\ invalid_argument (ValidateNodeID id).
Proof. apply ValidateStringID_ok. Qed.
Lemma ValidateTaskID_ok id :
  (ValidateTaskID id = None <-> safe_id 255 id) /\ invalid_argument (ValidateTaskID id).
Proof. apply ValidateStringID_ok. Qed.
Lemma ValidateJobID_ok id :
  (ValidateJobID id = None <-> safe_id 255 id) /\ invalid_argument (ValidateJobID id).
Proof. apply ValidateStringID_ok. Qed.
#[local] Hint Resolve ValidateAllocationID_ok ValidateNodeID_ok ValidateTaskID_ok
  ValidateJobID_ok ValidateContainerImage_ok ValidateCommands_ok ValidateMemorySize_ok ValidateGPUMemorySize_ok
  : nmonit.

Lemma ExecuteTask_answers s ctx req w :
  total_len (TaskSpec_Command req) < 2 ^ 63 ->
  answers (ExecuteTask s ctx req) ctx "ExecuteTask"
    [("task_id", 326); ("job_id", 327); ("container_image", 328); ("command", 329);
     ("env", 330); ("priority", 331)]
    [safe_id 255 (TaskSpec_TaskId req); safe_id 255 (TaskSpec_JobId req);
     len (TaskSpec_ContainerImage req) <= 1024 /\ ~ (0 ∈ bytes (TaskSpec_ContainerImage req))
       /\ image_ref (runes (TaskSpec_ContainerImage req));
     total_len (TaskSpec_Command req) <= 262144;
     env_ok (TaskSpec_Env req); 0 <= TaskSpec_Priority req <= 100]
    (mkTaskAck true "")
    (mkLog LInfo "task execution requested"
       [("task_id", LStr (TaskSpec_TaskId req)); ("image", LStr (TaskSpec_ContainerImage req))]) w.
Proof.
  intros Hc. apply (answers_run ctx "ExecuteTask"
    [("task_id", 326, mret (ValidateTaskID (TaskSpec_TaskId req)));
     ("job_id", 327, mret (ValidateJobID (TaskSpec_JobId req)));
     ("container_image", 328, mret (ValidateContainerImage (TaskSpec_ContainerImage req)));
     ("command", 329, mret (ValidateCommands (TaskSpec_Command req)));
     ("env", 330, ValidateEnvVars (TaskSpec_Env req));
     ("priority", 331, mret (ValidatePriority (TaskSpec_Priority req)))]).
  chain.
Qed.

(** C11: the task handler accepts a request exactly when its six fields pass their checks
    (the command line being shorter than 2^63 bytes), and answers [Accepted] without
    touching any node; otherwise it rejects it because of the first field that does not. *)
Theorem ExecuteTask_spec s ctx req w :
  total_len (TaskSpec_Command req) < 2 ^ 63 ->
  answers (ExecuteTask s ctx req) ctx "ExecuteTask"
    [("task_id", 326); ("job_id", 327); ("container_image", 328); ("command", 329);
     ("env", 330); ("priority", 331)]
    [safe_id 255 (TaskSpec_TaskId req); safe_id 255 (TaskSpec_JobId req);
     len (TaskSpec_ContainerImage req) <= 1024 /\ ~ (0 ∈ bytes (TaskSpec_ContainerImage req))
       /\ image_ref (runes (TaskSpec_ContainerImage req));
     total_len (TaskSpec_Command req) <= 262144;
     env_ok (TaskSpec_Env req); 0 <= TaskSpec_Priority req <= 100]
    (mkTaskAck true "")
    (mkLog LInfo "task execution requested"
       [("task_id", LStr (TaskSpec_TaskId req)); ("image", LStr (TaskSpec_ContainerImage req))]) w.
Proof. by apply ExecuteTask_answers. Qed.

(** The memory and the GPU memory handler accept a request exactly when its identifier,
    its size and its replication factor (device index) are in range, and answer success with
    a handle that carries the identifier and the size requested; otherwise they reject it
    because of the first field that is not.  Neither touches a node. *)
Theorem AllocateMemory_spec s ctx req greq w :
  is_u64 (MemoryAllocRequest_SizeBytes req) -> is_u64 (GPUMemoryAllocRequest_SizeBytes greq) ->
  answers (AllocateMemory s ctx req) ctx "AllocateMemory"
    [("allocation_id", 349); ("size_bytes", 350); ("replication_factor", 351)]
    [safe_id 255 (MemoryAllocRequest_AllocationId req);
     1 <= MemoryAllocRequest_SizeBytes req <= 2 ^ 40;
     0 <= MemoryAllocRequest_ReplicationFactor req <= 100]
    (mkMemoryAllocResponse true (Some (mkMemoryHandle (MemoryAllocRequest_AllocationId req) "" 0 0
       (MemoryAllocRequest_SizeBytes req))) "")
    (mkLog LInfo "memory allocation requested"
       [("allocation_id", LStr (MemoryAllocRequest_AllocationId req));
        ("size_bytes", LInt (MemoryAllocRequest_SizeBytes req))]) w
  /\ answers (AllocateGPUMemory s ctx greq) ctx "AllocateGPUMemory"
    [("allocation_id", 370); ("size_bytes", 371); ("gpu_device_index", 372)]
    [safe_id 255 (GPUMemoryAllocRequest_AllocationId greq);
     1 <= GPUMemoryAllocRequest_SizeBytes greq <= 2 ^ 38;
     -1 <= GPUMemoryAllocRequest_GpuDeviceIndex greq]
    (mkGPUMemoryAllocResponse true (Some (mkGPUHandle (GPUMemoryAllocRequest_AllocationId greq)
       "" 0 0 (GPUMemoryAllocRequest_SizeBytes greq) 0)) "")
    (mkLog LInfo "GPU memory allocation requested"
       [("allocation_id", LStr (GPUMemoryAllocRequest_AllocationId greq));
        ("size_bytes", LInt (GPUMemoryAllocRequest_SizeBytes greq))]) w.
Proof.
  intros [Hu _] [Hg _]. split.
  - apply (answers_run ctx "AllocateMemory"
      [("allocation_id", 349, mret (ValidateAllocationID (MemoryAllocRequest_AllocationId req)));
       ("size_bytes", 350, mret (ValidateMemorySize (MemoryAllocRequest_SizeBytes req)));
       ("replication_factor", 351,
          mret (ValidateReplicationFactor (MemoryAllocRequest_ReplicationFactor req)))]).
    chain.
  - apply (answers_run ctx "AllocateGPUMemory"
      [("allocation_id", 370, mret (ValidateAllocationID (GPUMemoryAllocRequest_AllocationId greq)));
       ("size_bytes", 371, mret (ValidateGPUMemorySize (GPUMemoryAllocRequest_SizeBytes greq)));
       ("gpu_device_index", 372,
          mret (ValidateGPUDeviceIndex (GPUMemoryAllocRequest_GpuDeviceIndex greq)))]).
    chain.
Qed.

(** The two free handlers accept a request exactly when its allocation identifier is
    well-formed, known or not, and answer success without touching any node; otherwise they
    reject it. *)
Theorem FreeMemory_spec s ctx req greq w :
  answers (FreeMemory s ctx req) ctx "FreeMemory" [("allocation_id", 391)]
    [safe_id 255 (FreeMemoryRequest_AllocationId req)] (mkFreeMemoryResponse true)
    (mkLog LInfo "memory free requested"
       [("allocation_id", LStr (FreeMemoryRequest_AllocationId req))]) w
  /\ answers (FreeGPUMemory s ctx greq) ctx "FreeGPUMemory" [("allocation_id", 401)]
    [safe_id 255 (FreeGPUMemoryRequest_AllocationId greq)] (mkFreeGPUMemoryResponse true)
    (mkLog LInfo "GPU memory free requested"
       [("allocation_id", LStr (FreeGPUMemoryRequest_AllocationId greq))]) w.
Proof.
  split.
  - apply (answers_run ctx "FreeMemory"
      [("allocation_id", 391, mret (ValidateAllocationID (FreeMemoryRequest_AllocationId req)))]).
    chain.
  - apply (answers_run ctx "FreeGPUMemory"
      [("allocation_id", 401, mret (ValidateAllocationID (FreeGPUMemoryRequest_AllocationId greq)))]).
    chain.
Qed.

Lemma Register_answers s ctx req w :
  let valid := safe_id 255 (RegisterRequest_NodeId req)
               /\ plain_text 512 (RegisterRequest_Address req)
               /\ plain_text 64 (RegisterRequest_AgentVersion req) in
  let run := AgentServer_Register s ctx req in
  (valid -> forall r, RegisterRequest_Resources req = Some r ->
     value run w = Some (Some (mkRegisterResponse true (clusterID s) (leaderAddr s) 5000), None)
     /\ (exists now, w_nodes (exec run w) = <[RegisterRequest_NodeId req :=
           mkNodeInfo (RegisterRequest_NodeId req) (RegisterRequest_Address req) (Some r) now ∅
             (next_conn (w_nodes w !! RegisterRequest_NodeId req))]> (w_nodes w))
     /\ logs (exec run w) = mkLog LInfo "node registering"
          [("node_id", LStr (RegisterRequest_NodeId req));
           ("address", LStr (RegisterRequest_Address req));
           ("version", LStr (RegisterRequest_AgentVersion req))] :: logs w)
  /\ (valid -> RegisterRequest_Resources req = None ->
     value run w = None /\ w_nodes (exec run w) = w_nodes w)
  /\ (~ valid -> exists err, value run w = Some (None, Some err)
     /\ rejected_by ctx "Register" [("node_id", 213); ("address", 214); ("agent_version", 215)]
          [safe_id 255 (RegisterRequest_NodeId req); plain_text 512 (RegisterRequest_Address req);
           plain_text 64 (RegisterRequest_AgentVersion req)] w err (exec run w)).
Proof.
  simpl. unfold value, exec, AgentServer_Register, mbind, go_bind.
  set (l := [("node_id", 213, mret (ValidateNodeID (RegisterRequest_NodeId req)));
     ("address", 214, mret (ValidateAddress (RegisterRequest_Address req)));
     ("agent_version", 215, mret (ValidateVersion (RegisterRequest_AgentVersion req)))]
     : list (string * Z * Go World (option error))).
  change [newCheck (at_line 213) _ _; _; _] with (handler_checks l).
  destruct (validate_handler ctx "Register" l
    [safe_id 255 (RegisterRequest_NodeId req); plain_text 512 (RegisterRequest_Address req);
     plain_text 64 (RegisterRequest_AgentVersion req)] w)
    as [(HF & k & ->)|(HF & err & w' & -> & Hr)];
    [chain| |]; rewrite !Forall_cons, Forall_nil in HF; unfold id in HF.
  - split; [|split; [|tauto]].
    + intros _ r ->. simpl.
      destruct (law_Register (RegisterRequest_NodeId req) (RegisterRequest_Address req) r
        (add_event (EvLog (mkLog LInfo "node registering"
          [("node_id", LStr (RegisterRequest_NodeId req));
           ("address", LStr (RegisterRequest_Address req));
           ("version", LStr (RegisterRequest_AgentVersion req))])) (ticks k w)))
        as (w' & now & Heq & (_ & Hl & _) & Hn).
      unfold log, go_modify. rewrite Heq. simpl. split; [done|]. split; [by exists now|]. done.
    + intros _ ->. simpl.
      destruct (law_Register_nil (RegisterRequest_NodeId req) (RegisterRequest_Address req)
        (add_event (EvLog (mkLog LInfo "node registering"
          [("node_id", LStr (RegisterRequest_NodeId req));
           ("address", LStr (RegisterRequest_Address req));
           ("version", LStr (RegisterRequest_AgentVersion req))])) (ticks k w)))
        as (f & args & Heq).
      unfold log, go_modify. rewrite Heq. done.
  - split; [tauto|]. split; [tauto|]. intros _. exists err. by split.
Qed.

(** C12: a registration whose identifier, address and version pass their checks, and that
    carries resources, is accepted: the node is installed with them, an empty task map and
    the next connection identifier, and the answer carries the cluster's identity, the
    leader and the heartbeat interval.  One that fails a check is rejected and changes no
    node.  One that passes them without resources panics: nothing checks for them. *)
Theorem AgentServer_Register_spec s ctx req w :
  let valid := safe_id 255 (RegisterRequest_NodeId req)
               /\ plain_text 512 (RegisterRequest_Address req)
               /\ plain_text 64 (RegisterRequest_AgentVersion req) in
  let run := AgentServer_Register s ctx req in
  (valid -> forall r, RegisterRequest_Resources req = Some r ->
     value run w = Some (Some (mkRegisterResponse true (clusterID s) (leaderAddr s) 5000), None)
     /\ (exists now, w_nodes (exec run w) = <[RegisterRequest_NodeId req :=
           mkNodeInfo (RegisterRequest_NodeId req) (RegisterRequest_Address req) (Some r) now ∅
             (next_conn (w_nodes w !! RegisterRequest_NodeId req))]> (w_nodes w))
     /\ logs (exec run w) = mkLog LInfo "node registering"
          [("node_id", LStr (RegisterRequest_NodeId req));
           ("address", LStr (RegisterRequest_Address req));
           ("version", LStr (RegisterRequest_AgentVersion req))] :: logs w)
  /\ (valid -> RegisterRequest_Resources req = None ->
     value run w = None /\ w_nodes (exec run w) = w_nodes w)
  /\ (~ valid -> exists err, value run w = Some (None, Some err)
     /\ rejected_by ctx "Register" [("node_id", 213); ("address", 214); ("agent_version", 215)]
          [safe_id 255 (RegisterRequest_NodeId req); plain_text 512 (RegisterRequest_Address req);
           plain_text 64 (RegisterRequest_AgentVersion req)] w err (exec run w)).
Proof. by apply Register_answers. Qed.
End handler_properties.

(** ** Source paths *)

(** [m] occurs in [abs] after [a] and before [b], and not earlier. *)
Definition first_at (abs m a b : string) : Prop :=
  abs = a +:+ m +:+ b /\
  forall a' b', abs = a' +:+ m +:+ b' -> (String.length a <= String.length a')%nat.

Lemma first_at_Index abs m a b : first_at abs m a b -> Index abs m = Some (String.length a).
Proof.
  intros [Heq Hmin]. destruct (Index abs m) as [n|] eqn:E.
  - pose proof (Index_first abs m n a b E Heq) as Hle.
    destruct (Index_Some abs m n E) as (a' & b' & Heq' & <-).
    f_equal. apply Nat.le_antisymm; [done|]. by eapply Hmin.
  - exfalso. by apply (proj1 (Index_None abs m) E a b).
Qed.

(** The source path of an audit entry: the part of the recorded path from the first
    directory [internal] below another one on; without such a directory, from the first
    [control-plane] on, then from the first [cli] on; without any of them, its last element. *)
Theorem trimToRepoPath_spec abs :
  let has m := exists a b, abs = a +:+ m +:+ b in
  (forall a b, first_at abs "/internal/" a b -> trimToRepoPath abs = "internal/" +:+ b)
  /\ (~ has "/internal/" -> forall a b, first_at abs "/control-plane/" a b ->
      trimToRepoPath abs = "control-plane/" +:+ b)
  /\ (~ has "/internal/" -> ~ has "/control-plane/" -> forall a b, first_at abs "/cli/" a b ->
      trimToRepoPath abs = "cli/" +:+ b)
  /\ (~ has "/internal/" -> ~ has "/control-plane/" -> ~ has "/cli/" ->
      trimToRepoPath abs = Base abs).
Proof.
  intros has.
  assert (Hno : forall m, ~ has m -> Index abs m = None).
  { intros m Hm. apply Index_None. intros a b Heq. apply Hm. by exists a, b. }
  assert (Hat : forall m a b, first_at abs (String "/"%char m) a b ->
            Index abs (String "/"%char m) = Some (String.length a)
            /\ str_drop (String.length a + 1) abs = m +:+ b).
  { intros m a b H. split; [by eapply first_at_Index|]. destruct H as [-> _].
    by rewrite str_drop_add. }
  unfold trimToRepoPath, first_marker. change ("/" +:+ "control-plane/") with "/control-plane/".
  change ("/" +:+ "cli/") with "/cli/". split; [|split; [|split]].
  - by intros a b (-> & ->)%Hat.
  - intros ->%Hno a b (-> & ->)%Hat. done.
  - intros ->%Hno ->%Hno a b (-> & ->)%Hat. done.
  - by intros ->%Hno ->%Hno ->%Hno.
Qed.
