(* ===== verification/Heartbeat.v ===== *)
(** [AgentServer.Heartbeat] of [control-plane/internal/agent/agent.go]: one heartbeat stream as
    a state machine.

    The handler blocks in [Recv] and [Send] and shares the registry with every other call, so
    it runs in steps: a step is one call that blocks or touches the shared state, with the
    computation that follows it up to the next one.  The environment supplies what a blocking
    call returns ([input]); between two steps anything else may run.  The goroutine that sends
    periodic acknowledgements is the second thread of the same stream. *)
From S2P Require Import Prelude GoRuntime GoStrings PbResource PbAgent Grpc World Registry.
From S2P Require Import RegistryApi Validator Agent AgentFacts.
Local Open Scope string_scope.
Local Open Scope Z_scope.

(** Where the handler is. *)
Inductive hb_pc : Type :=
  | HbAuth                                                   (* entry *)
  | HbRecvFirst                                              (* first, err := stream.Recv() *)
  | HbConnID (first : HeartbeatRequest)                      (* registry.ConnectionID *)
  | HbUpdateFirst (first : HeartbeatRequest) (connID : Z)    (* registry.UpdateHeartbeat *)
  | HbSendFirst (first : HeartbeatRequest) (connID : Z)      (* stream.Send, first ack *)
  | HbRecv (nodeID : string) (connID : Z)                    (* req, err := stream.Recv() *)
  | HbUpdate (nodeID : string) (connID : Z) (req : HeartbeatRequest)
  | HbRemove (nodeID : string) (connID : Z) (err : option error)
  | HbDone (err : option error).                             (* returned *)

(** The goroutine of the periodic acknowledgements. *)
Inductive hb_ticker : Type := TickerNone | TickerRunning | TickerStopped.

Record hb_stream := mkStream {
  hb_at : hb_pc;
  hb_tick : hb_ticker;
  hb_sent : list HeartbeatResponse     (* every Send so far, newest first *)
}.
Definition hb_open : hb_stream := mkStream HbAuth TickerNone [].

(** What a step is given: the result of [Recv], the result of [Send], a tick of the ticker
    with the result of its [Send], the ticker noticing [done], or nothing. *)
Inductive recv_result : Type := RecvMsg (m : HeartbeatRequest) | RecvErr (e : error).
Inductive hb_input : Type :=
  | IStep
  | IRecv (r : recv_result)
  | ISend (err : option error)
  | ITick (err : option error)
  | IClose.

Section heartbeat.
Context `{!GoEnv, !GrpcLib, !BuildInfo, !RegistryOps}.

Definition at_pc (st : hb_stream) (pc : hb_pc) : hb_stream :=
  mkStream pc (hb_tick st) (hb_sent st).

(** The two checks of a message, declared at two lines. *)
Definition heartbeat_checks (line : Z) (m : HeartbeatRequest) : list validationCheck := [
  newCheck (at_line line) "node_id" (mret (ValidateNodeID (HeartbeatRequest_NodeId m)));
  newCheck (at_line (line + 1)) "tasks"
    (mret (ValidateHeartbeatTaskCount (Z.of_nat (length (HeartbeatRequest_Tasks m)))))].

(** One step of the handler; [None] when the input is not what it waits for. *)
Definition hb_handler (s : AgentServer) (ctx : Ctx) (pc : hb_pc) (i : hb_input)
    : option (Go World hb_pc) :=
  match pc, i with
  | HbAuth, IStep =>
      Some (mret match checkAuth s ctx with
                 | Some err => HbDone (Some err)
                 | None => HbRecvFirst
                 end)
  | HbRecvFirst, IRecv (RecvErr err) =>
      Some (mret (if decide (err = EOF) then HbDone None else HbDone (Some err)))
  | HbRecvFirst, IRecv (RecvMsg first) =>
      Some (err ← validateAll ctx "Heartbeat" (heartbeat_checks 254 first);
            mret match err with
                 | Some err => HbDone (Some err)
                 | None => HbConnID first
                 end)
  | HbConnID first, IStep =>
      Some (connID ← reg_ConnectionID (HeartbeatRequest_NodeId first);
            log LInfo "heartbeat stream opened"
              [("node_id", LStr (HeartbeatRequest_NodeId first)); ("conn_id", LInt connID)] ;;
            mret (HbUpdateFirst first connID))
  | HbUpdateFirst first connID, IStep =>
      Some (reg_UpdateHeartbeat (HeartbeatRequest_NodeId first)
              (HeartbeatRequest_Utilization first) (HeartbeatRequest_Tasks first) ;;
            mret (HbSendFirst first connID))
  | HbSendFirst first connID, ISend err =>
      Some (match err with
            | Some err =>
                log LWarn "failed to send initial heartbeat ack" [("error", LErr err)] ;;
                mret (HbDone (Some err))
            | None => mret (HbRecv (HeartbeatRequest_NodeId first) connID)
            end)
  | HbRecv nodeID connID, IRecv (RecvErr err) =>
      Some (if decide (err = EOF) then
              log LInfo "heartbeat stream closed" [("node_id", LStr nodeID)] ;;
              mret (HbRemove nodeID connID None)
            else
              log LWarn "heartbeat stream error" [("error", LErr err); ("node_id", LStr nodeID)] ;;
              mret (HbRemove nodeID connID (Some err)))
  | HbRecv nodeID connID, IRecv (RecvMsg req) =>
      Some (err ← validateAll ctx "Heartbeat" (heartbeat_checks 309 req);
            mret match err with
                 | Some err => HbDone (Some err)
                 | None => HbUpdate nodeID connID req
                 end)
  | HbUpdate nodeID connID req, IStep =>
      Some (reg_UpdateHeartbeat (HeartbeatRequest_NodeId req)
              (HeartbeatRequest_Utilization req) (HeartbeatRequest_Tasks req) ;;
            log LDebug "heartbeat received"
              [("node_id", LStr (HeartbeatRequest_NodeId req));
               ("sequence", LInt (HeartbeatRequest_Sequence req))] ;;
            mret (HbRecv nodeID connID))
  | HbRemove nodeID connID err, IStep =>
      Some (reg_RemoveIfConnectionMatches nodeID connID ;; mret (HbDone err))
  | _, _ => None
  end.

(** The acknowledgements: of the first message, and of the ticker. *)
Definition first_ack (first : HeartbeatRequest) : HeartbeatResponse :=
  mkHeartbeatResponse true (HeartbeatRequest_Sequence first) [] [].
Definition tick_ack : HeartbeatResponse := mkHeartbeatResponse true 0 [] [].

(** A step of the stream: of the ticker goroutine (started after the first acknowledgement,
    it ends when [done] is closed, that is once the handler has returned, or when its [Send]
    fails), or of the handler. *)
Definition hb_step (s : AgentServer) (ctx : Ctx) (st : hb_stream) (i : hb_input)
    : option (Go World hb_stream) :=
  match i with
  | ITick err =>
      match hb_tick st with
      | TickerRunning =>
          let sent := tick_ack :: hb_sent st in
          Some (match err with
                | Some err =>
                    log LWarn "failed to send heartbeat ack" [("error", LErr err)] ;;
                    mret (mkStream (hb_at st) TickerStopped sent)
                | None => mret (mkStream (hb_at st) TickerRunning sent)
                end)
      | _ => None
      end
  | IClose =>
      match hb_tick st, hb_at st with
      | TickerRunning, HbDone _ => Some (mret (mkStream (hb_at st) TickerStopped (hb_sent st)))
      | _, _ => None
      end
  | _ =>
      match hb_handler s ctx (hb_at st) i with
      | Some m =>
          Some (pc ← m;
                mret match hb_at st, pc with
                     | HbSendFirst first _, HbRecv _ _ =>
                         mkStream pc TickerRunning (first_ack first :: hb_sent st)
                     | HbSendFirst first _, _ =>
                         mkStream pc (hb_tick st) (first_ack first :: hb_sent st)
                     | _, _ => mkStream pc (hb_tick st) (hb_sent st)
                     end)
      | None => None
      end
  end.

(** A whole stream that nothing interferes with: the inputs in turn; [None] when an input
    does not fit. *)
Fixpoint hb_run (s : AgentServer) (ctx : Ctx) (st : hb_stream) (inputs : list hb_input)
    (w : World) : option (hb_stream * World) :=
  match inputs with
  | [] => Some (st, w)
  | i :: inputs =>
      match hb_step s ctx st i with
      | Some m => match m w with
                  | (Ret st', w') => hb_run s ctx st' inputs w'
                  | (Panicked _ _, _) => None
                  end
      | None => None
      end
  end.
End heartbeat.

(** * One stream *)
Section stream_facts.
Context `{!GoEnv, !GoEnvLaws, !GrpcLib, !BuildInfo, !RegistryOps, !RegistryLaws}.

(** What the two checks of a message decide. *)
Definition heartbeat_valid (m : HeartbeatRequest) : Prop :=
  safe_id 255 (HeartbeatRequest_NodeId m)
  /\ Z.of_nat (length (HeartbeatRequest_Tasks m)) <= 10000.

Lemma heartbeat_checks_run ctx line m w :
  (heartbeat_valid m /\
     exists k, validateAll ctx "Heartbeat" (heartbeat_checks line m) w = (Ret None, ticks k w))
  \/ (~ heartbeat_valid m /\ exists err w',
        validateAll ctx "Heartbeat" (heartbeat_checks line m) w = (Ret (Some err), w')
        /\ rejected_by ctx "Heartbeat" [("node_id", line); ("tasks", line + 1)]
             [safe_id 255 (HeartbeatRequest_NodeId m);
              Z.of_nat (length (HeartbeatRequest_Tasks m)) <= 10000] w err w').
Proof.
  set (l := [("node_id", line, mret (ValidateNodeID (HeartbeatRequest_NodeId m)));
             ("tasks", line + 1,
              mret (ValidateHeartbeatTaskCount (Z.of_nat (length (HeartbeatRequest_Tasks m)))))]
            : list (string * Z * Go World (option error))).
  change (heartbeat_checks line m) with (handler_checks l).
  destruct (validate_handler ctx "Heartbeat" l
    [safe_id 255 (HeartbeatRequest_NodeId m);
     Z.of_nat (length (HeartbeatRequest_Tasks m)) <= 10000] w)
    as [(HF & Hr)|(HF & Hr)].
  - constructor; [apply check_validator, ValidateStringID_ok|].
    constructor; [apply check_validator, ValidateHeartbeatTaskCount_ok|constructor].
  - left. rewrite !Forall_cons in HF. unfold heartbeat_valid, id in *. tauto.
  - right. rewrite !Forall_cons, Forall_nil in HF. unfold heartbeat_valid, id in *. tauto.
Qed.

(** ** What a step does to the node map *)

(** The registry call of a step, if it makes one that can change the map. *)
Definition step_effect (pc : hb_pc) (i : hb_input) (nodes nodes' : gmap string NodeInfo)
  : Prop :=
  match pc, i with
  | HbUpdateFirst m _, IStep | HbUpdate _ _ m, IStep =>
      exists now, nodes' = alter (beaten now (HeartbeatRequest_Tasks m)) (HeartbeatRequest_NodeId m) nodes
  | HbRemove id conn _, IStep =>
      nodes' = if decide (ConnectionID <$> nodes !! id = Some conn) then delete id nodes else nodes
  | _, _ => nodes' = nodes
  end.

Lemma hb_handler_run s ctx pc i m w :
  hb_handler s ctx pc i = Some m ->
  exists pc' w', m w = (Ret pc', w') /\ step_effect pc i (w_nodes w) (w_nodes w').
Proof.
  intros Hm. destruct pc as [| |first|first conn|first conn|id conn|id conn req|id conn err|err],
    i as [|[r|e]|err'|err'|]; simpl in Hm; try discriminate; injection Hm as <-.
  - by eexists _, _.
  - destruct (heartbeat_checks_run ctx 254 r w) as [(Hv & k & Hr)|(Hv & err & w' & Hr & Hrej)];
      unfold mbind, go_bind; rewrite Hr; eexists _, _; (split; [done|]); [done|].
    by destruct Hrej as (? & ? & ? & _ & _ & _ & _ & ? & _).
  - by eexists _, _.
  - unfold mbind, go_bind. rewrite law_ConnectionID. by eexists _, _.
  - destruct (law_UpdateHeartbeat (HeartbeatRequest_NodeId first)
      (HeartbeatRequest_Utilization first) (HeartbeatRequest_Tasks first) w)
      as (w' & now & Hr & _ & Hn).
    unfold mbind, go_bind. rewrite Hr. eexists _, _. split; [done|]. by exists now.
  - destruct err'; by eexists _, _.
  - destruct (heartbeat_checks_run ctx 309 r w) as [(Hv & k & Hr)|(Hv & err & w' & Hr & Hrej)];
      unfold mbind, go_bind; rewrite Hr; eexists _, _; (split; [done|]); [done|].
    by destruct Hrej as (? & ? & ? & _ & _ & _ & _ & ? & _).
  - destruct (decide (e = EOF)); by eexists _, _.
  - destruct (law_UpdateHeartbeat (HeartbeatRequest_NodeId req)
      (HeartbeatRequest_Utilization req) (HeartbeatRequest_Tasks req) w)
      as (w' & now & Hr & _ & Hn).
    unfold mbind, go_bind. rewrite Hr. eexists _, _. split; [done|]. by exists now.
  - destruct (law_RemoveIf id conn w) as (w' & Hr & _ & Hn).
    unfold mbind, go_bind. rewrite Hr. by eexists _, _.
Qed.

(** A handler step always returns. *)
Lemma hb_step_run s ctx st i m w :
  hb_step s ctx st i = Some m ->
  exists st' w', m w = (Ret st', w')
  /\ (match i with
      | ITick _ | IClose => w_nodes w' = w_nodes w
      | _ => step_effect (hb_at st) i (w_nodes w) (w_nodes w')
      end).
Proof.
  destruct i as [|r|err|err|]; simpl.
  4:{ destruct (hb_tick st); try done. intros [= <-]. destruct err; by eexists _, _. }
  4:{ destruct (hb_tick st); try done. destruct (hb_at st); try done.
      intros [= <-]. by eexists _, _. }
  all: match goal with |- match hb_handler ?s ?ctx ?pc ?i with _ => _ end = _ -> _ =>
         destruct (hb_handler s ctx pc i) as [h|] eqn:Hh; [|done] end.
  all: intros [= <-]; destruct (hb_handler_run _ _ _ _ _ w Hh) as (pc' & w' & Hr & He).
  all: unfold mbind, go_bind; rewrite Hr.
  all: eexists _, w'; (split; [reflexivity|exact He]).
Qed.
End stream_facts.

(** ** Reachable streams

    The states a stream can get into, whatever the environment answers and whatever happens to
    the shared state between its steps. *)
Section reachable_streams.
Context `{!GoEnv, !GrpcLib, !BuildInfo, !RegistryOps}.

Definition received (i : hb_input) : list HeartbeatRequest :=
  match i with IRecv (RecvMsg m) => [m] | _ => [] end.

Inductive hb_reach (s : AgentServer) (ctx : Ctx) : hb_stream -> list HeartbeatRequest -> Prop :=
  | reach_open : hb_reach s ctx hb_open []
  | reach_step st got i m w st' w' :
      hb_reach s ctx st got -> hb_step s ctx st i = Some m -> m w = (Ret st', w') ->
      hb_reach s ctx st' (got ++ received i).

(** The first message, while the handler works on it. *)
Definition pc_first (pc : hb_pc) : option HeartbeatRequest :=
  match pc with
  | HbConnID first | HbUpdateFirst first _ | HbSendFirst first _ => Some first
  | _ => None
  end.

(** Before its first acknowledgement. *)
Definition before_ack (pc : hb_pc) : bool :=
  match pc with
  | HbAuth | HbRecvFirst | HbConnID _ | HbUpdateFirst _ _ | HbSendFirst _ _ => true
  | _ => false
  end.

Record stream_ok (st : hb_stream) (got : list HeartbeatRequest) : Prop := {
  so_before : before_ack (hb_at st) = true -> hb_sent st = [] /\ hb_tick st = TickerNone;
  so_nothing : hb_at st = HbAuth \/ hb_at st = HbRecvFirst -> got = [];
  so_first : forall first, pc_first (hb_at st) = Some first -> head got = Some first;
  so_sent : hb_sent st = [] \/ exists first n, head got = Some first
            /\ hb_sent st = (replicate n tick_ack ++ [first_ack first])%list;
  so_tick : hb_tick st <> TickerNone -> hb_sent st <> []
}.

(** What a run goes through is reachable. *)
Lemma hb_run_reach s ctx st got inputs w st' w' :
  hb_reach s ctx st got -> hb_run s ctx st inputs w = Some (st', w') ->
  hb_reach s ctx st' (got ++ mjoin (received <$> inputs)).
Proof.
  revert st got w. induction inputs as [|i inputs IH]; intros st got w Hst; simpl.
  { intros [= <- _]. by rewrite app_nil_r. }
  destruct (hb_step s ctx st i) as [m|] eqn:Hs; [|done].
  destruct (m w) as [[st1|] w1] eqn:Hr; [|done]. rewrite app_assoc. apply IH. by eapply reach_step.
Qed.

(** Where a handler step can lead. *)
Definition next_pc (s : AgentServer) (ctx : Ctx) (pc : hb_pc) (i : hb_input)
    (pc' : hb_pc) : Prop :=
  match pc with
  | HbAuth => i = IStep /\ pc' = match checkAuth s ctx with
                                | Some err => HbDone (Some err)
                                | None => HbRecvFirst
                                end
  | HbRecvFirst => (exists m, i = IRecv (RecvMsg m) /\ pc' = HbConnID m) \/ exists e, pc' = HbDone e
  | HbConnID m => exists c, pc' = HbUpdateFirst m c
  | HbUpdateFirst m c => pc' = HbSendFirst m c
  | HbSendFirst m c => pc' = HbRecv (HeartbeatRequest_NodeId m) c \/ exists e, pc' = HbDone (Some e)
  | HbRecv id c => (exists m, pc' = HbUpdate id c m) \/ (exists e, pc' = HbDone (Some e))
                   \/ exists e, pc' = HbRemove id c e
  | HbUpdate id c _ => pc' = HbRecv id c
  | HbRemove _ _ e => pc' = HbDone e
  | HbDone _ => False
  end.

Lemma hb_handler_next s ctx pc i m w pc' w' :
  hb_handler s ctx pc i = Some m -> m w = (Ret pc', w') -> next_pc s ctx pc i pc'.
Proof.
  intros Hm Hr. destruct pc as [| |first|first conn|first conn|id conn|id conn req|id conn err|err],
    i as [|[r|e]|err'|err'|]; simpl in Hm; try discriminate; injection Hm as <-; simpl.
  - by injection Hr as <- _.
  - apply bind_Ret in Hr as (err & w1 & _ & [= <- _]). destruct err; eauto.
  - injection Hr as <- _. case_decide; eauto.
  - apply bind_Ret in Hr as (c & w1 & _ & Hr). apply bind_Ret in Hr as (? & ? & _ & [= <- _]). eauto.
  - by apply bind_Ret in Hr as (? & w1 & _ & [= <- _]).
  - destruct err' as [e|]; [apply bind_Ret in Hr as (? & w1 & _ & [= <- _])|injection Hr as <- _]; eauto.
  - apply bind_Ret in Hr as (err & w1 & _ & [= <- _]). destruct err; eauto.
  - case_decide; apply bind_Ret in Hr as (? & w1 & _ & [= <- _]); eauto.
  - apply bind_Ret in Hr as (c & w1 & _ & Hr). by apply bind_Ret in Hr as (? & ? & _ & [= <- _]).
  - by apply bind_Ret in Hr as (? & w1 & _ & [= <- _]).
Qed.

(** The stream after a step of the handler. *)
Definition after_handler (st : hb_stream) (pc : hb_pc) : hb_stream :=
  match hb_at st, pc with
  | HbSendFirst first _, HbRecv _ _ =>
      mkStream pc TickerRunning (first_ack first :: hb_sent st)
  | HbSendFirst first _, _ => mkStream pc (hb_tick st) (first_ack first :: hb_sent st)
  | _, _ => mkStream pc (hb_tick st) (hb_sent st)
  end.

(** A step of a stream is one of the handler, a tick, or the end of the ticker. *)
Lemma hb_step_cases s ctx st i m w st' w' :
  hb_step s ctx st i = Some m -> m w = (Ret st', w') ->
  (exists pc, next_pc s ctx (hb_at st) i pc /\ st' = after_handler st pc)
  \/ (hb_tick st = TickerRunning /\ (exists t, t <> TickerNone /\
        st' = mkStream (hb_at st) t (tick_ack :: hb_sent st)))
  \/ (hb_tick st = TickerRunning /\ st' = mkStream (hb_at st) TickerStopped (hb_sent st)).
Proof.
  intros Hs Hr. destruct i as [|r|err|err|]; simpl in Hs.
  4:{ destruct (hb_tick st); try done. injection Hs as <-. right; left. split; [done|].
      destruct err; [apply bind_Ret in Hr as (? & ? & _ & [= <- _])|injection Hr as <- _];
        eexists; (split; [|reflexivity]); done. }
  4:{ destruct (hb_tick st); try done. destruct (hb_at st); try done. injection Hs as <-.
      injection Hr as <- _. by right; right. }
  all: match type of Hs with match hb_handler ?s ?ctx ?pc ?i with _ => _ end = _ =>
         destruct (hb_handler s ctx pc i) as [h|] eqn:Hh; [|done] end.
  all: injection Hs as <-; apply bind_Ret in Hr as (pc & w1 & Hr & [= <- _]); left; exists pc;
    split; [by eapply hb_handler_next|done].
Qed.

Lemma stream_ok_step s ctx st got i m w st' w' :
  stream_ok st got -> hb_step s ctx st i = Some m -> m w = (Ret st', w') ->
  stream_ok st' (got ++ received i).
Proof.
  intros [Hb Hno Hf Hse Ht] Hs Hr.
  assert (Hhead : forall first, head got = Some first -> head (got ++ received i) = Some first)
    by (by destruct got).
  assert (Hse' : hb_sent st = [] \/ exists first n, head (got ++ received i) = Some first
            /\ hb_sent st = (replicate n tick_ack ++ [first_ack first])%list)
    by (destruct Hse as [?|(first & n & ? & ?)]; eauto 6).
  assert (Hkeep : forall pc, (before_ack pc = true -> before_ack (hb_at st) = true) ->
      (pc = HbAuth \/ pc = HbRecvFirst -> (got ++ received i)%list = []) ->
      (forall first, pc_first pc = Some first -> head (got ++ received i) = Some first) ->
      stream_ok (mkStream pc (hb_tick st) (hb_sent st)) (got ++ received i))
    by (intros pc ? ? ?; split; simpl; auto).
  assert (Hticks : hb_tick st = TickerRunning -> pc_first (hb_at st) = None /\
      ~ (hb_at st = HbAuth \/ hb_at st = HbRecvFirst) /\ before_ack (hb_at st) = false)
    by (intros HT; destruct (hb_at st); simpl in *; try (by destruct Hb; congruence);
        split_and!; try done; by intros [|]).
  destruct (hb_step_cases _ _ _ _ _ _ _ _ Hs Hr)
    as [(pc & Hnext & ->)|[(HT & t & Hne & ->)|(HT & ->)]].
  - unfold after_handler. clear Hse Hse'.
    destruct (hb_at st) as [| |f|f c|f c|id c|id c r|id c e|e]; simpl in Hnext, Hb, Hf, Hkeep.
    5:{ destruct (Hb eq_refl) as [-> ->]. pose proof (Hhead f (Hf f eq_refl)) as Hf'.
        assert (Hack : [first_ack f] = (replicate 0 tick_ack ++ [first_ack f])%list) by done.
        destruct Hnext as [->|[e ->]]; (split; simpl; try done; [by intros [|]|eauto 7]). }
    all: repeat match goal with
      | Hd : _ \/ _ |- _ => destruct Hd
      | Hd : ex _ |- _ => destruct Hd
      | Hd : _ /\ _ |- _ => destruct Hd
      end; subst; try rewrite Hno in * by auto; apply Hkeep; simpl; repeat case_match; auto;
      (by intros [|]) || by intros ? [= <-]; auto.
  - destruct (Hticks HT) as (Hp & Hn & Hbf).
    split; simpl; rewrite ?Hp, ?Hbf; try done.
    right. destruct Hse' as [He|(first & n & Hh & He)]; [by destruct Ht; [congruence|]|].
    exists first, (S n). by rewrite He.
  - destruct (Hticks HT) as (Hp & Hn & Hbf).
    split; simpl; rewrite ?Hp, ?Hbf; try done. intros _. apply Ht. congruence.
Qed.

Lemma reach_ok s ctx st got : hb_reach s ctx st got -> stream_ok st got.
Proof.
  induction 1 as [|st got i m w st' w' _ IH Hs Hr]; [|by eapply stream_ok_step].
  split; simpl; auto; done.
Qed.
End reachable_streams.

(** * Properties of a stream *)
Section stream_properties.
Context `{!GoEnv, !GrpcLib, !BuildInfo, !RegistryOps}.

(** C10: the acknowledgements of a stream, whatever the environment answers and whatever runs
    between its steps: none before the first heartbeat has been recorded, then one that
    echoes the sequence number of the first message the stream received, then only those of
    the ticker, whose sequence number is 0; the ticker runs only after the first
    acknowledgement has been sent, so the two goroutines never send at the same time. *)
Theorem heartbeat_acks s ctx st got :
  hb_reach s ctx st got ->
  (before_ack (hb_at st) = true -> hb_sent st = [] /\ hb_tick st = TickerNone)
  /\ (hb_sent st = [] \/ exists first rest n, got = first :: rest /\
        hb_sent st = (replicate n (mkHeartbeatResponse true 0 [] [])
          ++ [mkHeartbeatResponse true (HeartbeatRequest_Sequence first) [] []])%list)
  /\ (hb_tick st <> TickerNone -> hb_sent st <> []).
Proof.
  intros [Hb _ _ Hse Ht]%reach_ok. split; [done|]. split; [|done].
  destruct Hse as [?|(first & n & Hh & ->)]; [by left|]. right.
  destruct got as [|g rest]; [done|]. injection Hh as ->. by exists first, rest, n.
Qed.

(** A stream whose call does not authenticate never receives, acknowledges or reaches
    the registry: it is at its entry or has returned the authentication error. *)
Theorem heartbeat_unauthenticated s ctx st got err :
  checkAuth s ctx = Some err -> hb_reach s ctx st got ->
  hb_sent st = [] /\ (hb_at st = HbAuth \/ hb_at st = HbDone (Some err)).
Proof.
  intros Ha Hst.
  assert (Hall : hb_sent st = [] /\ hb_tick st = TickerNone
                 /\ (hb_at st = HbAuth \/ hb_at st = HbDone (Some err))); [|tauto].
  induction Hst as [|st got i m w st' w' _ (IHs & IHt & IHp) Hs Hr]; [by auto|].
  destruct (hb_step_cases _ _ _ _ _ _ _ _ Hs Hr)
    as [(pc & Hnext & ->)|[(HT & _)|(HT & _)]]; [|congruence|congruence].
  unfold after_handler. destruct IHp as [Hp|Hp]; rewrite Hp in *; simpl in *; [|done].
  destruct Hnext as [_ Hnext]. rewrite Ha in Hnext. subst pc. simpl. auto.
Qed.
End stream_properties.

(** ** An undisturbed stream *)
Section session.
Context `{!GoEnv, !GoEnvLaws, !GrpcLib, !BuildInfo, !RegistryOps, !RegistryLaws}.

(** The inputs of a stream whose client sends [first], then [reqs], and whose next receive
    then fails with [e]. *)
Definition session_inputs (first : HeartbeatRequest) (reqs : list HeartbeatRequest) (e : error)
  : list hb_input :=
  ([IStep; IRecv (RecvMsg first); IStep; IStep; ISend None]
   ++ mjoin ((fun m => [IRecv (RecvMsg m); IStep]) <$> reqs)
   ++ [IRecv (RecvErr e); IStep])%list.

Lemma hb_run_app s ctx st is1 is2 w st1 w1 :
  hb_run s ctx st is1 w = Some (st1, w1) ->
  hb_run s ctx st (is1 ++ is2)%list w = hb_run s ctx st1 is2 w1.
Proof.
  revert st w. induction is1 as [|i is1 IH]; intros st w; simpl; [by intros [= -> ->]|].
  destruct (hb_step s ctx st i) as [m|]; [|done].
  destruct (m w) as [[st'|] w']; [apply IH|done].
Qed.

(** Heartbeats change when and with which tasks a node was last seen, nothing else. *)
Definition same_nodes (named : string -> Prop) (nodes nodes' : gmap string NodeInfo) : Prop :=
  forall k, match nodes !! k with
       | Some n => exists n', nodes' !! k = Some n' /\ NodeID n' = NodeID n /\ Address n' = Address n
           /\ Resources n' = Resources n /\ ConnectionID n' = ConnectionID n
           /\ (~ named k -> n' = n)
       | None => nodes' !! k = None
       end.

Lemma same_nodes_refl named nodes : same_nodes named nodes nodes.
Proof. intros k. destruct (nodes !! k) as [n|]; [|done]. by exists n. Qed.

Lemma same_nodes_beat (named : string -> Prop) nodes nodes' now tasks id :
  named id -> same_nodes named nodes nodes' ->
  same_nodes named nodes (alter (beaten now tasks) id nodes').
Proof.
  intros Hid Hs k. specialize (Hs k). rewrite lookup_alter.
  destruct (decide (id = k)) as [->|Hk]; [|done].
  destruct (nodes !! k) as [n|].
  - destruct Hs as (n' & -> & ? & ? & ? & ? & Hq). simpl. eexists. split; [done|].
    repeat split; auto; tauto.
  - by rewrite Hs.
Qed.

Lemma same_nodes_mono (P Q : string -> Prop) nodes nodes' :
  (forall k, P k -> Q k) -> same_nodes P nodes nodes' -> same_nodes Q nodes nodes'.
Proof.
  intros HPQ Hs k. specialize (Hs k). destruct (nodes !! k); [|done].
  destruct Hs as (n' & ? & ? & ? & ? & ? & Hq). exists n'. repeat split; auto.
Qed.

#[local] Ltac take_heartbeat w1 now Hn :=
  match goal with |- context [reg_UpdateHeartbeat ?a ?b ?c ?v] =>
    let Hu := fresh in
    destruct (law_UpdateHeartbeat a b c v) as (w1 & now & Hu & _ & Hn); rewrite Hu end.
#[local] Ltac step_run :=
  do 2 (unfold mbind, go_bind, mret, go_ret, log, go_modify; simpl).

Lemma loop_run s ctx id conn t sent reqs w :
  Forall heartbeat_valid reqs ->
  exists w', hb_run s ctx (mkStream (HbRecv id conn) t sent)
               (mjoin ((fun m => [IRecv (RecvMsg m); IStep]) <$> reqs)) w
             = Some (mkStream (HbRecv id conn) t sent, w')
  /\ same_nodes (fun k => exists m, m ∈ reqs /\ HeartbeatRequest_NodeId m = k) (w_nodes w) (w_nodes w').
Proof.
  intros Hall. revert w. induction Hall as [|m reqs Hm Hall IH]; intros w.
  { exists w. split; [done|]. apply same_nodes_refl. }
  simpl. destruct (heartbeat_checks_run ctx 309 m w) as [(_ & k & Hr)|(Hv & _)]; [|done].
  step_run. rewrite Hr. step_run. take_heartbeat w1 now Hn. step_run.
  edestruct IH as (w' & -> & Hsame). exists w'. split; [done|].
  intros k'. specialize (Hsame k'). simpl in Hsame. rewrite Hn in Hsame. simpl in Hsame.
  rewrite lookup_alter in Hsame.
  destruct (decide (HeartbeatRequest_NodeId m = k')) as [Hk|Hk]; [rewrite Hk in Hsame|];
    destruct (w_nodes w !! k') as [n|]; simpl in Hsame; try done;
    destruct Hsame as (n' & ? & ? & ? & ? & ? & Hrest); exists n'; repeat split; auto;
    intros Hno.
  - destruct Hno. exists m. split; [left|done].
  - apply Hrest. intros (m' & Hm' & ?). apply Hno. exists m'. split; [by right|done].
Qed.

(** Up to the first acknowledgement. *)
Lemma open_run s ctx first w :
  checkAuth s ctx = None -> heartbeat_valid first ->
  let id := HeartbeatRequest_NodeId first in
  exists w1,
    hb_run s ctx hb_open [IStep; IRecv (RecvMsg first); IStep; IStep; ISend None] w =
      Some (mkStream (HbRecv id (match w_nodes w !! id with Some n => ConnectionID n | None => 0 end))
                     TickerRunning [first_ack first], w1)
    /\ same_nodes (fun k => k = id) (w_nodes w) (w_nodes w1).
Proof.
  intros Ha Hf. simpl. rewrite Ha. step_run.
  destruct (heartbeat_checks_run ctx 254 first w) as [(_ & k & Hr)|(Hv & _)]; [|done].
  rewrite Hr. step_run. rewrite law_ConnectionID. step_run.
  take_heartbeat w1 now Hn. step_run. exists w1. split; [done|].
  rewrite Hn. apply same_nodes_beat; [done|]. apply same_nodes_refl.
Qed.

(** From the failing receive on. *)
Lemma close_run s ctx id conn t sent e w :
  exists w', hb_run s ctx (mkStream (HbRecv id conn) t sent) [IRecv (RecvErr e); IStep] w =
    Some (mkStream (HbDone (if decide (e = EOF) then None else Some e)) t sent, w')
  /\ w_nodes w' = if decide (ConnectionID <$> w_nodes w !! id = Some conn)
                  then delete id (w_nodes w) else w_nodes w.
Proof.
  simpl. destruct (decide (e = EOF)) as [He|He]; step_run;
    match goal with |- context [reg_RemoveIfConnectionMatches ?a ?b ?v] =>
      destruct (law_RemoveIf a b v) as (w' & Hr & _ & Hn) end; rewrite Hr; step_run; by exists w'.
Qed.

(** C3: a stream that authenticates, whose messages all pass their checks and that nothing
    interferes with, ends with the error of its last receive (none for EOF) and one
    acknowledgement; the node of its first message is not registered any more, every other
    node still is, with its address, resources and connection identifier, and is as it was
    unless a message of the stream named it. *)
Theorem heartbeat_session_spec s ctx first reqs e w :
  checkAuth s ctx = None -> Forall heartbeat_valid (first :: reqs) ->
  exists st w', hb_run s ctx hb_open (session_inputs first reqs e) w = Some (st, w')
  /\ hb_at st = HbDone (if decide (e = EOF) then None else Some e)
  /\ hb_sent st = [mkHeartbeatResponse true (HeartbeatRequest_Sequence first) [] []]
  /\ w_nodes w' !! HeartbeatRequest_NodeId first = None
  /\ (forall k, k <> HeartbeatRequest_NodeId first -> match w_nodes w !! k with
       | Some n => exists n', w_nodes w' !! k = Some n' /\ NodeID n' = NodeID n
           /\ Address n' = Address n /\ Resources n' = Resources n
           /\ ConnectionID n' = ConnectionID n
           /\ (~ (exists m, m ∈ reqs /\ HeartbeatRequest_NodeId m = k) -> n' = n)
       | None => w_nodes w' !! k = None
       end).
Proof.
  intros Ha [Hf Hall]%Forall_cons. unfold session_inputs.
  set (id := HeartbeatRequest_NodeId first).
  destruct (open_run s ctx first w Ha Hf) as (w1 & Hq1 & Hs1). fold id in Hq1, Hs1.
  set (conn := match w_nodes w !! id with Some n => ConnectionID n | None => 0 end) in *.
  rewrite (hb_run_app _ _ _ _ _ _ _ _ Hq1).
  destruct (loop_run s ctx id conn TickerRunning [first_ack first] reqs w1 Hall) as (w2 & Hq2 & Hs2).
  rewrite (hb_run_app _ _ _ _ _ _ _ _ Hq2).
  destruct (close_run s ctx id conn TickerRunning [first_ack first] e w2) as (w4 & -> & Hn4).
  eexists _, w4. split; [done|]. simpl. do 2 (split; [done|]). rewrite Hn4. clear Hn4.
  pose proof (Hs1 id) as Hid1. pose proof (Hs2 id) as Hid2. unfold conn.
  split.
  - destruct (w_nodes w !! id) as [n|].
    + destruct Hid1 as (n1 & E1 & _ & _ & _ & Hc1 & _). rewrite E1 in Hid2.
      destruct Hid2 as (n2 & E2 & _ & _ & _ & Hc2 & _).
      case_decide as Hd; [apply lookup_delete_eq|]. destruct Hd. rewrite E2. simpl. congruence.
    + rewrite Hid1 in Hid2. by case_decide; [apply lookup_delete_eq|].
  - intros k Hk. assert (Hd : forall P `{!Decision P} (m : gmap string NodeInfo),
      (if decide P then delete id m else m) !! k = m !! k)
      by (intros P ? m; case_decide; [by rewrite lookup_delete_ne|done]).
    rewrite Hd. specialize (Hs1 k). specialize (Hs2 k).
    destruct (w_nodes w !! k) as [n|].
    + destruct Hs1 as (n1 & E1 & ? & ? & ? & ? & Hsame1). rewrite E1 in Hs2.
      destruct Hs2 as (n2 & E2 & ? & ? & ? & ? & Hsame2). exists n2.
      repeat split; try congruence. intros Hno. rewrite Hsame2 by done. by apply Hsame1.
    + by rewrite Hs1 in Hs2.
Qed.
End session.

Section early_end.
Context `{!GoEnv, !GoEnvLaws, !GrpcLib, !BuildInfo, !RegistryOps, !RegistryLaws}.

(** C33: a stream that returns because a message fails its checks, or because its first
    acknowledgement cannot be sent, leaves the node map as it is, and so does whatever is
    left of the stream: its node stays registered (until the stale cleanup). *)
Theorem heartbeat_early_end s ctx st w :
  (forall id conn m, hb_at st = HbRecv id conn -> ~ heartbeat_valid m ->
     exists run st' w' err, hb_step s ctx st (IRecv (RecvMsg m)) = Some run
     /\ run w = (Ret st', w') /\ hb_at st' = HbDone (Some err) /\ w_nodes w' = w_nodes w)
  /\ (forall first conn e, hb_at st = HbSendFirst first conn ->
     exists run st' w', hb_step s ctx st (ISend (Some e)) = Some run
     /\ run w = (Ret st', w') /\ hb_at st' = HbDone (Some e) /\ w_nodes w' = w_nodes w)
  /\ (forall e i run st' w', hb_at st = HbDone e -> hb_step s ctx st i = Some run ->
     run w = (Ret st', w') -> hb_at st' = HbDone e /\ w_nodes w' = w_nodes w).
Proof.
  split; [|split].
  - intros id conn m Hat Hv. simpl. rewrite Hat. simpl.
    destruct (heartbeat_checks_run ctx 309 m w) as [(? & _)|(_ & err & w' & Hr & Hrej)]; [done|].
    eexists _, _, w', err. split; [done|]. unfold mbind, go_bind. rewrite Hr.
    split; [done|]. split; [done|]. by destruct Hrej as (? & ? & ? & _ & _ & _ & _ & ? & _).
  - intros first conn e Hat. simpl. rewrite Hat. simpl. by eexists _, _, _.
  - intros e i run st' w' Hat Hs Hr.
    destruct (hb_step_run s ctx st i run w Hs) as (st1 & w1 & Hr1 & Heff).
    rewrite Hr in Hr1. injection Hr1 as <- <-. split.
    + destruct (hb_step_cases _ _ _ _ _ _ _ _ Hs Hr)
        as [(pc & Hn & _)|[(_ & t & _ & ->)|(_ & ->)]]; [by rewrite Hat in Hn|done|done].
    + destruct i; simpl in *; rewrite ?Hat in *; done.
Qed.
End early_end.
