(* ===== verification/HeartbeatBounds.v ===== *)
(** How much a heartbeat stream does ([AgentServer.Heartbeat]): its handler is never stuck, takes
    a bounded number of steps for the messages it receives, and ends one step after a failed
    receive at the latest. *)
From S2P Require Import Prelude GoRuntime GoStrings PbResource PbAgent Grpc World Registry.
From S2P Require Import RegistryApi Validator Agent AgentFacts Heartbeat.
Local Open Scope string_scope.
Local Open Scope nat_scope.

(** An input of the handler, not of the ticker goroutine. *)
Definition handler_input (i : hb_input) : bool :=
  match i with ITick _ | IClose => false | _ => true end.

(** The handler's steps, and the messages it received. *)
Definition steps (inputs : list hb_input) : nat :=
  length (filter (fun i => handler_input i = true) inputs).
Definition messages (inputs : list hb_input) : nat := length (mjoin (received <$> inputs)).

Section bounds.
Context `{!GoEnv, !GrpcLib, !BuildInfo, !RegistryOps}.

(** The inputs of a stream since it was opened; between two of its steps the rest of the
    process may have changed the shared state. *)
Inductive hb_trace (s : AgentServer) (ctx : Ctx) : list hb_input -> hb_stream -> Prop :=
  | trace_open : hb_trace s ctx [] hb_open
  | trace_step inputs st i m w st' w' :
      hb_trace s ctx inputs st -> hb_step s ctx st i = Some m -> m w = (Ret st', w') ->
      hb_trace s ctx (inputs ++ [i]) st'.

(** The steps of the handler beyond two for each message, at most. *)
Definition surplus (pc : hb_pc) : nat :=
  match pc with
  | HbAuth => 0
  | HbRecvFirst => 1
  | HbConnID _ => 0
  | HbUpdateFirst _ _ => 1
  | HbSendFirst _ _ => 2
  | HbRecv _ _ => 3
  | HbUpdate _ _ _ => 2
  | HbRemove _ _ _ => 4
  | HbDone _ => 5
  end.

Definition ending (pc : hb_pc) : Prop :=
  match pc with HbRemove _ _ _ | HbDone _ => True | _ => False end.

Lemma steps_snoc inputs i :
  steps (inputs ++ [i]) = steps inputs + (if handler_input i then 1 else 0).
Proof.
  unfold steps. rewrite filter_app, length_app, filter_cons. by destruct (handler_input i).
Qed.

Lemma messages_snoc inputs i : messages (inputs ++ [i]) = messages inputs + length (received i).
Proof.
  unfold messages. rewrite fmap_app, join_app, length_app. simpl. by rewrite app_nil_r.
Qed.

(** One step of the handler pays for itself. *)
Lemma surplus_step s ctx pc i m w pc' w' :
  hb_handler s ctx pc i = Some m -> m w = (Ret pc', w') ->
  surplus pc + 1 <= 2 * length (received i) + surplus pc'
  /\ (forall e, i = IRecv (RecvErr e) -> ending pc') /\ (ending pc -> ending pc').
Proof.
  intros Hm Hr. pose proof (hb_handler_next _ _ _ _ _ _ _ _ Hm Hr) as Hn.
  destruct pc, i as [|[?|?]|?|?|]; simpl in Hm; try discriminate; simpl in *;
    repeat match goal with
    | H : _ \/ _ |- _ => destruct H
    | H : ex _ |- _ => destruct H
    | H : _ /\ _ |- _ => destruct H
    end; subst; try discriminate; repeat case_match; simpl; try (split_and!; try done; lia).
  all: injection Hm as <-; apply bind_Ret in Hr as (? & ? & _ & [=]).
Qed.

Lemma after_handler_at st pc : hb_at (after_handler st pc) = pc.
Proof. unfold after_handler. by destruct (hb_at st), pc. Qed.

(** A step of the stream is one of its handler, or leaves the handler where it is. *)
Lemma hb_step_handler s ctx st i m w st' w' :
  hb_step s ctx st i = Some m -> m w = (Ret st', w') ->
  if handler_input i
  then exists h w1, hb_handler s ctx (hb_at st) i = Some h /\ h w = (Ret (hb_at st'), w1)
  else hb_at st' = hb_at st.
Proof.
  intros Hs Hr. destruct i as [|r|err|err|]; simpl in *.
  4:{ destruct (hb_tick st); try done. injection Hs as <-.
      destruct err; [apply bind_Ret in Hr as (? & ? & _ & [= <- _])|injection Hr as <- _]; done. }
  4:{ destruct (hb_tick st); try done. destruct (hb_at st) eqn:E; try done. injection Hs as <-.
      by injection Hr as <- _. }
  all: match type of Hs with match hb_handler ?s ?ctx ?pc ?i with _ => _ end = _ =>
         destruct (hb_handler s ctx pc i) as [h|] eqn:Hh; [|done] end.
  all: injection Hs as <-; apply bind_Ret in Hr as (pc & w1 & Hr & [= <- _]).
  all: exists h, w1; split; [done|]; rewrite Hr; do 2 f_equal; symmetry; apply (after_handler_at st pc).
Qed.

Lemma trace_bound s ctx inputs st :
  hb_trace s ctx inputs st ->
  steps inputs <= 2 * messages inputs + surplus (hb_at st)
  /\ ((exists e, IRecv (RecvErr e) ∈ inputs) -> ending (hb_at st)).
Proof.
  induction 1 as [|inputs st i m w st' w' _ (IHs & IHe) Hs Hr].
  { split; [vm_compute; lia|]. by intros [e He%not_elem_of_nil]. }
  rewrite steps_snoc, messages_snoc. pose proof (hb_step_handler _ _ _ _ _ _ _ _ Hs Hr) as Hcase.
  destruct (handler_input i) eqn:Hi.
  - destruct Hcase as (h & w1 & Hh & Hrun).
    destruct (surplus_step _ _ _ _ _ _ _ _ Hh Hrun) as (Hsur & Herr & Hend). split; [lia|].
    intros [e [He|He%list_elem_of_singleton]%elem_of_app]; eauto.
  - rewrite Hcase. split; [lia|].
    intros [e [He|He%list_elem_of_singleton]%elem_of_app]; [eauto|]. by subst i.
Qed.

(** What a handler that has not returned waits for. *)
Lemma handler_ready s ctx pc :
  (exists e, pc = HbDone e)
  \/ exists i h, handler_input i = true /\ received i = [] /\ hb_handler s ctx pc i = Some h.
Proof.
  destruct pc; [| | | | | | | |left; by eexists].
  all: right; first [by exists IStep; eexists | by exists (IRecv (RecvErr EOF)); eexists
                    | by exists (ISend None); eexists].
Qed.
End bounds.

(** * Properties *)
Section properties.
Context `{!GoEnv, !GoEnvLaws, !GrpcLib, !BuildInfo, !RegistryOps, !RegistryLaws}.

(** C27: a heartbeat stream does a bounded amount of work: after any inputs, and whatever the
    rest of the process does in between, its handler has taken at most two steps for each
    message received and five more; it has returned, or there is an input it takes and every
    step it takes returns; and once a receive has failed it is in its last step or done. *)
Theorem heartbeat_terminates s ctx inputs st :
  hb_trace s ctx inputs st ->
  length (filter (fun i => handler_input i = true) inputs)
    <= 2 * length (mjoin (received <$> inputs)) + 5
  /\ ((exists e, hb_at st = HbDone e)
      \/ exists i m, handler_input i = true /\ hb_step s ctx st i = Some m)
  /\ (forall i m w, hb_step s ctx st i = Some m -> exists st' w', m w = (Ret st', w'))
  /\ ((exists e, IRecv (RecvErr e) ∈ inputs) -> ending (hb_at st)).
Proof.
  intros Ht. destruct (trace_bound _ _ _ _ Ht) as [Hb He].
  split; [|split; [|split; [|exact He]]].
  - assert (surplus (hb_at st) <= 5) by (destruct (hb_at st); simpl; lia).
    unfold steps, messages in Hb. lia.
  - destruct (handler_ready s ctx (hb_at st)) as [?|(i & h & Hi & _ & Hh)]; [by left|right].
    destruct i; try done; (eexists _, _; split; [exact Hi|]; simpl; by rewrite Hh).
  - intros i m w Hs. destruct (hb_step_run s ctx st i m w Hs) as (st' & w' & Hr & _). eauto.
Qed.
End properties.
