(* ===== verification/AgentHost.v ===== *)
(** The node agent's view of its machine ([agent/src/resources.rs], [agent/src/gpu.rs]): what it
    reports when it registers and with each heartbeat.

    What the operating system, [sysinfo] and NVML answer is a record of readings; a collection
    at another time is another record.  The generated messages are those of the control plane
    ([PbResource.v]): both sides compile the same definitions. *)
From S2P Require Import Prelude GoRuntime GoStrings GoFloat RustStd PbResource.
From Stdlib Require Import SpecFloat.
Local Open Scope string_scope.
Local Open Scope Z_scope.
Local Open Scope list_scope.

(** ** Readings *)
Record CpuReading := mkCpuReading {
  cpu_name : string;
  cpu_usage : spec_float                        (* cpu_usage() as f64 *)
}.
Record Device := mkDevice {                     (* nvml_wrapper::Device; None is an error *)
  dev_name : option string;
  memory_info : option (Z * Z);                 (* total, used: u64 *)
  utilization_rates : option (Z * Z);           (* gpu, memory: u32 *)
  temperature : option Z;                       (* u32 *)
  power_usage : option Z;                       (* u32, milliwatts *)
  power_management_limit : option Z;
  clock_graphics : option Z;                    (* u32 *)
  clock_memory : option Z
}.
Record Nvml := mkNvml {
  device_count : option Z;                      (* u32 *)
  device_by_index : Z -> option Device
}.
Record Machine := mkMachine {
  hostname_get : nat -> option string;          (* hostname::get(), by call, as a String *)
  physical_core_count : option Z;               (* usize *)
  cpus : list CpuReading;
  total_memory : Z;                             (* u64 *)
  available_memory : Z;
  load_average : spec_float * spec_float * spec_float;
  consts_ARCH : string;
  read_to_string : string -> option string;     (* std::fs::read_to_string *)
  networks : list (string * (string * list string));   (* name, MAC address, IP addresses *)
  uname_release : option string;
  nvml : option Nvml;                           (* Nvml::init() *)
  system_time : option Z                        (* nanoseconds since the epoch *)
}.

(** What of [Args] discovery reads. *)
Record HostArgs := mkHostArgs {
  arg_node_id : option string;
  arg_mock_gpu_count : option Z
}.

(** ** gpu.rs *)
Definition mock_gpu (i : Z) : GpuResources := {|
  GpuResources_Index := as_i32 i;
  GpuResources_Vendor := "nvidia";
  GpuResources_Model := "Mock RTX 4090";
  GpuResources_Architecture := "";
  GpuResources_ArchitectureGeneration := 0;
  GpuResources_VramBytes := 24 * 1024 * 1024 * 1024;
  GpuResources_ComputeCapability := "";
  GpuResources_Capabilities := [];
  GpuResources_MultiprocessorCount := 0;
  GpuResources_MaxClockMhz := 0;
  GpuResources_MemoryClockMhz := 0;
  GpuResources_MemoryBusWidthBits := 0;
  GpuResources_MemoryBandwidthMbps := 0;
  GpuResources_PcieGeneration := 0;
  GpuResources_PcieWidth := 0;
  GpuResources_NvlinkCount := 0;
  GpuResources_NvlinkBandwidthMbps := 0;
  GpuResources_SupportsGpudirectRdma := false;
  GpuResources_SupportsMig := false;
  GpuResources_SupportsSriov := false |}.

(** One device of the discovery loop; [None] is its [continue]. *)
Definition discover_device (nvml : Nvml) (i : Z) : option GpuResources :=
  device ← device_by_index nvml i;
  let name := default "Unknown NVIDIA GPU" (dev_name device) in
  mem_info ← memory_info device;
  Some (mkGpuResources (as_i32 i) "nvidia" name "" 0 mem_info.1 "" [] 0 0 0 0 0 0 0 0 0
          false false false).

Definition discover_nvidia_gpus (h : Machine) : list GpuResources :=
  match nvml h with
  | None => []
  | Some nvml =>
      match device_count nvml with
      | None => []
      | Some device_count => omap (discover_device nvml) (seqZ 0 device_count)
      end
  end.

Definition discover_gpus (h : Machine) (args : HostArgs) : list GpuResources :=
  match arg_mock_gpu_count args with
  | Some count => mock_gpu <$> seqZ 0 count
  | None => discover_nvidia_gpus h
  end.

Definition device_utilization (nvml : Nvml) (i : Z) : option GpuUtilization :=
  device ← device_by_index nvml i;
  let utilization := utilization_rates device in
  let mem_info := memory_info device in
  let gpu_pct := default (S754_zero false) ((fun u : Z * Z => float64_of u.1) <$> utilization) in
  let mem_pct := default (S754_zero false) ((fun u : Z * Z => float64_of u.2) <$> utilization) in
  Some {|
    GpuUtilization_Index := as_i32 i;
    GpuUtilization_GpuPercent := gpu_pct;
    GpuUtilization_MemoryPercent := mem_pct;
    GpuUtilization_VramUsedBytes := default 0 (snd <$> mem_info);
    GpuUtilization_VramTotalBytes := default 0 (fst <$> mem_info);
    GpuUtilization_TemperatureCelsius := default 0 (as_i32 <$> temperature device);
    GpuUtilization_PowerDrawWatts := default 0 (power_usage device) / 1000;
    GpuUtilization_PowerLimitWatts := default 0 (power_management_limit device) / 1000;
    GpuUtilization_ClockMhz := default 0 (clock_graphics device);
    GpuUtilization_MemoryClockMhz := default 0 (clock_memory device);
    GpuUtilization_PcieTxMbps := S754_zero false;
    GpuUtilization_PcieRxMbps := S754_zero false;
    GpuUtilization_NvlinkTxMbps := S754_zero false;
    GpuUtilization_NvlinkRxMbps := S754_zero false;
    GpuUtilization_Processes := [] |}.

Definition collect_gpu_utilization (h : Machine) : list GpuUtilization :=
  match nvml h with
  | None => []
  | Some nvml =>
      match device_count nvml with
      | None => []
      | Some device_count => omap (device_utilization nvml) (seqZ 0 device_count)
      end
  end.

(** ** resources.rs: discovery *)
Definition discover_cpu (h : Machine) : CpuResources := {|
  CpuResources_PhysicalCores := as_i32 (default 1 (physical_core_count h));
  CpuResources_LogicalCores := as_i32 (Z.of_nat (length (cpus h)));
  CpuResources_Architecture := consts_ARCH h;
  CpuResources_ModelName := default "Unknown CPU" (cpu_name <$> head (cpus h));
  CpuResources_FrequencyMhz := 0;
  CpuResources_MaxFrequencyMhz := 0;
  CpuResources_NumaNodes := [] |}.

Definition discover_memory (h : Machine) : MemoryResources :=
  mkMemoryResources (total_memory h) 0 0 0 "" [].

(** The file systems left out. *)
Definition pseudo_filesystems : list string :=
  ["proc"; "sysfs"; "devtmpfs"; "tmpfs"; "cgroup"; "cgroup2"; "pstore"; "bpf"; "debugfs";
   "tracefs"; "securityfs"; "configfs"; "hugetlbfs"; "fusectl"; "mqueue"].

Definition detect_disk_type (h : Machine) (device : string) : string :=
  let base := trim_end_matches is_ascii_digit (trim_start_matches "/dev/" device) in
  let rotational_path := "/sys/block/" +:+ base +:+ "/queue/rotational" in
  match read_to_string h rotational_path with
  | Some content => if String.eqb (trim content) "0" then "ssd" else "hdd"
  | None => "hdd"
  end.

Definition dev_type (h : Machine) (device fs_type : string) : string :=
  if contains device "nvme" then "nvme"
  else if String.eqb fs_type "fuse" || String.eqb fs_type "fuse.sshfs" then "network"
  else if contains device "sd" || contains device "vd" then detect_disk_type h device
  else "unknown".

(** The closure of [filter_map]: one line of /proc/mounts. *)
Definition mount_device (h : Machine) (line : string) : option StorageDevice :=
  match split_whitespace line with
  | device :: mount :: fs_type :: _ =>
      if existsb (String.eqb fs_type) pseudo_filesystems then None
      else if negb (starts_with "/" device) then None
      else Some (mkStorageDevice mount (dev_type h device fs_type) fs_type 0 0 0 0 0 0)
  | _ => None
  end.

Definition discover_storage (h : Machine) : StorageResources :=
  mkStorageResources
    (match read_to_string h "/proc/mounts" with
     | Some content => omap (mount_device h) (lines content)
     | None => []
     end).

Definition discover_network (h : Machine) : NetworkResources :=
  mkNetworkResources
    ((fun n => mkNetworkInterface n.1 "" n.2.1 n.2.2 0 false false false "" 0) <$> networks h) 0.

Definition discover_kernel_version (h : Machine) : string := default "" (uname_release h).

Definition discover_os_release (h : Machine) : string :=
  default ""
    (content ← read_to_string h "/etc/os-release";
     find_map (fun line => trim_matches 34 <$> strip_prefix "PRETTY_NAME=" line) (lines content)).

Definition discover_resources (h : Machine) (args : HostArgs) : NodeResources :=
  let '(node_id, next) :=
    match arg_node_id args with
    | Some id => (id, O)
    | None => (default "unknown-node" (hostname_get h 0), 1%nat)
    end in
  let hostname_str := default "unknown" (hostname_get h next) in
  mkNodeResources node_id hostname_str (Some (discover_cpu h)) (Some (discover_memory h))
    (discover_gpus h args) (Some (discover_storage h)) (Some (discover_network h)) []
    (discover_kernel_version h) (discover_os_release h).

(** ** resources.rs: utilization *)
Definition collect_cpu_utilization (h : Machine) : CpuUtilization :=
  let per_core := cpu_usage <$> cpus h in
  let overall :=
    if Z.of_nat (length per_core) =? 0 then S754_zero false
    else f64_div (f64_sum per_core) (float64_of (Z.of_nat (length per_core))) in
  let '(one, five, fifteen) := load_average h in
  mkCpuUtilization overall per_core one five fifteen.

Definition collect_memory_utilization (h : Machine) : MemoryUtilization :=
  let used := saturating_sub (total_memory h) (available_memory h) in
  mkMemoryUtilization used (available_memory h) 0 0.

Definition collect_utilization (h : Machine) : NodeUtilization := {|
  NodeUtilization_NodeId := "";
  NodeUtilization_TimestampNs := as_u64 (default 0 (system_time h));
  NodeUtilization_Cpu := Some (collect_cpu_utilization h);
  NodeUtilization_Memory := Some (collect_memory_utilization h);
  NodeUtilization_Gpus := collect_gpu_utilization h;
  NodeUtilization_Storage := Some StorageUtilization_Reset;
  NodeUtilization_Network := Some NetworkUtilization_Reset |}.

(** * Storage *)

(** An entry of the mount table, and the table's text. *)
Record Mount := mkMount {
  mnt_device : string;
  mnt_path : string;
  mnt_type : string;
  mnt_rest : list string                        (* options, dump, pass *)
}.
Definition mount_fields (m : Mount) : list string :=
  mnt_device m :: mnt_path m :: mnt_type m :: mnt_rest m.
Definition mount_line (m : Mount) : string := str_join " " (mount_fields m).
Definition mounts_text (l : list Mount) : string :=
  foldr (fun m s => (mount_line m +:+ String LF s)%string) "" l.

(** Fields are visible ASCII: the kernel writes white space in them as [\040]. *)
Definition mount_ok (m : Mount) : Prop := Forall (fun s => s <> "" /\ visible s) (mount_fields m).

(** A mount of a file or directory of this machine. *)
Definition real_mount (m : Mount) : Prop :=
  (mnt_type m ∉ pseudo_filesystems) /\ starts_with "/" (mnt_device m) = true.
#[export] Instance real_mount_dec m : Decision (real_mount m).
Proof. unfold real_mount. apply _. Defined.

Lemma join_printable l : Forall (fun s => s <> "" /\ visible s) l -> printable (str_join " " l).
Proof.
  induction 1 as [|a l [_ Ha] Hl IH]; [constructor|].
  assert (Hp : printable a) by (eapply Forall_impl; [exact Ha|simpl; lia]).
  destruct l as [|a' l]; [exact Hp|].
  unfold printable in *. cbn [str_join]. rewrite !bytes_app. apply Forall_app_2; [done|].
  constructor; [done|exact IH].
Qed.

Lemma lines_mounts l : Forall mount_ok l -> lines (mounts_text l) = mount_line <$> l.
Proof.
  induction 1 as [|m l Hm _ IH]; [done|]. cbn [mounts_text foldr fmap list_fmap].
  rewrite lines_cons by (by apply join_printable). f_equal. exact IH.
Qed.

Lemma existsb_elem (s : string) l : existsb (String.eqb s) l = bool_decide (s ∈ l).
Proof.
  apply eq_true_iff_eq. rewrite bool_decide_eq_true, existsb_exists. split.
  - intros (x & Hx & He%String.eqb_eq). subst. by apply list_elem_of_In.
  - intros Hs. exists s. split; [by apply list_elem_of_In|apply String.eqb_refl].
Qed.

Lemma mount_device_line h m :
  mount_ok m ->
  mount_device h (mount_line m) =
  (if decide (real_mount m)
   then Some (mkStorageDevice (mnt_path m) (dev_type h (mnt_device m) (mnt_type m)) (mnt_type m) 0 0 0 0 0 0)
   else None).
Proof.
  intros Hm. unfold mount_device, mount_line. rewrite split_whitespace_join by done.
  cbn [mount_fields]. rewrite existsb_elem. destruct (decide (real_mount m)) as [[Hp Hd]|Hn].
  - by rewrite bool_decide_eq_false_2, Hd.
  - case_bool_decide as Hp; [done|]. destruct (starts_with "/" (mnt_device m)) eqn:Hd; [|done].
    by destruct Hn.
Qed.

Lemma dev_type_kinds h device fs :
  dev_type h device fs ∈ ["nvme"; "network"; "ssd"; "hdd"; "unknown"].
Proof.
  unfold dev_type, detect_disk_type. repeat case_match; repeat first [left; reflexivity|right].
Qed.


(** * Utilization *)

(** Readings within the types the libraries return them in. *)
Definition device_typed (d : Device) : Prop :=
  (forall p, memory_info d = Some p -> is_u64 p.1 /\ is_u64 p.2)
  /\ (forall p, utilization_rates d = Some p -> is_u32 p.1 /\ is_u32 p.2)
  /\ (forall x, power_usage d = Some x -> is_u32 x)
  /\ (forall x, power_management_limit d = Some x -> is_u32 x)
  /\ (forall x, clock_graphics d = Some x -> is_u32 x)
  /\ (forall x, clock_memory d = Some x -> is_u32 x).
Definition machine_typed (h : Machine) : Prop :=
  is_u64 (total_memory h) /\ is_u64 (available_memory h)
  /\ forall n, nvml h = Some n -> forall i d, device_by_index n i = Some d -> device_typed d.

(** Values within the types of the message's fields. *)
Definition gpu_in_range (u : GpuUtilization) : Prop :=
  is_i32 (GpuUtilization_Index u)
  /\ float64 (GpuUtilization_GpuPercent u) /\ float64 (GpuUtilization_MemoryPercent u)
  /\ is_u64 (GpuUtilization_VramUsedBytes u) /\ is_u64 (GpuUtilization_VramTotalBytes u)
  /\ is_i32 (GpuUtilization_TemperatureCelsius u)
  /\ 0 <= GpuUtilization_PowerDrawWatts u <= 4294967
  /\ 0 <= GpuUtilization_PowerLimitWatts u <= 4294967
  /\ is_u32 (GpuUtilization_ClockMhz u) /\ is_u32 (GpuUtilization_MemoryClockMhz u).

Lemma float64_of_u32 n : is_u32 n -> float64 (float64_of n).
Proof.
  intros Hn. destruct (decide (n = 0)) as [->|Hne]; [by vm_compute|].
  apply (normal_float64 (-52) 13); [lia..|]. apply float64_of_normal. unfold is_u32 in Hn. lia.
Qed.

Lemma device_utilization_range n i u :
  (forall i d, device_by_index n i = Some d -> device_typed d) ->
  device_utilization n i = Some u -> gpu_in_range u.
Proof.
  intros Hd. unfold device_utilization. destruct (device_by_index n i) as [d|] eqn:E; [|done].
  destruct (Hd _ _ E) as (Hm & Hu & Hp & Hl & Hc & Hmc). intros [= <-]. unfold gpu_in_range. simpl.
  assert (float64 (S754_zero false)) by (by vm_compute).
  assert (is_i32 0) by (unfold is_i32; lia). assert (is_u64 0) by (unfold is_u64; lia).
  assert (is_u32 0) by (unfold is_u32; lia).
  assert (Hw : forall o, (forall x, o = Some x -> is_u32 x) -> 0 <= default 0 o / 1000 <= 4294967).
  { intros o Ho. assert (Hx : is_u32 (default 0 o)) by (destruct o; [by apply Ho|done]).
    unfold is_u32 in Hx. Z.div_mod_to_equations; lia. }
  split_and!; try (by apply Hw); auto with nmonit.
  - destruct (utilization_rates d) as [p|]; [|done]. destruct (Hu p eq_refl). by apply float64_of_u32.
  - destruct (utilization_rates d) as [p|]; [|done]. destruct (Hu p eq_refl). by apply float64_of_u32.
  - destruct (memory_info d) as [p|]; [|done]. by destruct (Hm p eq_refl).
  - destruct (memory_info d) as [p|]; [|done]. by destruct (Hm p eq_refl).
  - destruct (temperature d); simpl; auto with nmonit.
  - destruct (clock_graphics d); [by apply Hc|done].
  - destruct (clock_memory d); [by apply Hmc|done].
Qed.

(** A utilization report stays within the types of its fields: used memory is the total less
    the available, never below zero, so that used and available add up to the larger of total
    and available; the time stamp and every number of every graphics card fit their fields,
    power in whole watts; and the report names no node. *)
Theorem collect_utilization_bounds h :
  machine_typed h ->
  let u := collect_utilization h in
  (exists m, NodeUtilization_Memory u = Some m
     /\ is_u64 (MemoryUtilization_UsedBytes m)
     /\ MemoryUtilization_UsedBytes m <= total_memory h
     /\ MemoryUtilization_UsedBytes m + MemoryUtilization_AvailableBytes m
        = Z.max (total_memory h) (available_memory h))
  /\ is_u64 (NodeUtilization_TimestampNs u)
  /\ Forall gpu_in_range (NodeUtilization_Gpus u)
  /\ NodeUtilization_NodeId u = "".
Proof.
  intros (Ht & Ha & Hd) u. split_and!; [| | |done].
  - eexists. split; [done|]. simpl. unfold saturating_sub, is_u64 in *. lia.
  - apply as_u64_range.
  - simpl. unfold collect_gpu_utilization. destruct (nvml h) as [n|] eqn:En; [|constructor].
    destruct (device_count n); [|constructor]. apply Forall_forall. intros g Hg.
    apply list_elem_of_omap in Hg as (i & _ & Hi). eapply device_utilization_range; [|exact Hi].
    by apply Hd.
Qed.
