(* ===== verification/AgentClient.v ===== *)
(** The node agent's connection to the control plane ([agent/src/heartbeat.rs]).

    [connect] is a program that waits for the answers of the calls it makes, one after the other
    ([prog]); who answers is the environment.  The task that reads the responses of a heartbeat
    stream, and the bounded channel it fills, are a state machine ([reader_step]).  Log lines
    are left out; an error is the text it is displayed as. *)
From S2P Require Import Prelude GoRuntime GoStrings RustStd PbResource PbAgent.
Local Open Scope string_scope.
Local Open Scope Z_scope.
Local Open Scope list_scope.

(** ** Programs that wait *)

(** What is awaited (or may fail): gRPC's and tokio's operations, each with what it replies
    unless it fails. *)
Inductive Call : Type :=
  | Endpoint_from_shared (addr : string)
  | fs_read (path : string)
  | tls_config (ca cert key domain : string)
  | endpoint_connect
  | client_register (req : RegisterRequest) (authorization : option string)
  | client_heartbeat (authorization : option string)     (* until the response's headers *)
  | request_tx_send (req : HeartbeatRequest).
Definition Reply (c : Call) : Type :=
  match c with
  | fs_read _ => string
  | client_register _ _ => RegisterResponse
  | _ => unit
  end.

Inductive prog (A : Type) : Type :=
  | Done (a : A)
  | Await (c : Call) (k : option (Reply c) -> prog A).
Arguments Done {A} a.
Arguments Await {A} c k.

#[export] Instance prog_ret : MRet prog := @Done.
#[export] Instance prog_bind : MBind prog := fun A B f =>
  fix bind (p : prog A) : prog B :=
    match p with
    | Done a => f a
    | Await c k => Await c (fun r => bind (k r))
    end.
Definition await (c : Call) : prog (option (Reply c)) := Await c Done.

(** [p.context(ctx)?] before [k]. *)
Definition or_fail {A B} (p : prog (option A)) (ctx : string) (k : A -> prog (result B))
  : prog (result B) :=
  p ≫= fun o => match o with Some a => k a | None => Done (Err ctx) end.
Notation "'let?' x := p 'else' ctx 'in' k" := (or_fail p ctx (fun x => k))
  (at level 10, x pattern, p at level 100, ctx at level 100, k at level 200,
   format "'[v' 'let?'  x  :=  p  'else'  ctx  'in' '/' k ']'") : nmonit_scope.

(** Against an environment that answers each call: the result, and the calls made. *)
Fixpoint run {A} (h : forall c, option (Reply c)) (p : prog A) : A * list Call :=
  match p with
  | Done a => (a, [])
  | Await c k => let '(a, l) := run h (k (h c)) in (a, c :: l)
  end.

(** ** Connecting *)
Record TlsConfig := mkTlsConfig {
  ca_cert_path : string;
  cert_path : string;
  key_path : string;
  domain_name : option string
}.

Inductive ControlInstruction : Type :=
  | PendingTasks (tasks : list PendingTask)
  | CancelTasks (ids : list string).

(** The channel ends and the task of a connection are in [reader] and in the steps of the
    application ([AgentMain.v]). *)
Record HeartbeatConnection := mkConnection {
  node_id : string;
  heartbeat_interval_ms : Z
}.

Definition CARGO_PKG_VERSION : string := "0.1.0".

(** The messages of [connect], and of [send_heartbeat]. *)
Definition register_request (resources : NodeResources) : RegisterRequest :=
  mkRegisterRequest (NodeResources_NodeId resources) "" (Some resources) CARGO_PKG_VERSION.
Definition init_request (node_id : string) : HeartbeatRequest :=
  mkHeartbeatRequest node_id 0 None [].
Definition heartbeat_request (conn : HeartbeatConnection) (sequence : Z)
    (utilization : NodeUtilization) : HeartbeatRequest :=
  mkHeartbeatRequest (node_id conn) sequence (Some utilization) [].

Class Tonic := { MetadataValue_ok : string -> bool }.    (* MetadataValue::try_from *)

Section connect.
Context `{!Tonic}.
Local Open Scope nmonit_scope.

(** The [authorization] entry of a request's metadata; [None] when the token cannot be one. *)
Definition bearer (agent_token : option string) : option (option string) :=
  match agent_token with
  | Some token =>
      let value := ("Bearer " +:+ token)%string in
      if MetadataValue_ok value then Some (Some value) else None
  | None => Some None
  end.

Definition configure_tls (tls : option TlsConfig) (k : prog (result HeartbeatConnection))
  : prog (result HeartbeatConnection) :=
  match tls with
  | Some cfg =>
      let? ca_pem := await (fs_read (ca_cert_path cfg)) else "failed to read CA certificate" in
      let? cert_pem := await (fs_read (cert_path cfg)) else "failed to read agent certificate" in
      let? key_pem := await (fs_read (key_path cfg)) else "failed to read agent key" in
      let domain := default "control-plane" (domain_name cfg) in
      let? _ := await (tls_config ca_pem cert_pem key_pem domain) else "failed to configure TLS" in
      k
  | None => k
  end.

Definition connect (control_plane_addr : string) (resources : NodeResources)
    (agent_token : option string) (tls : option TlsConfig) : prog (result HeartbeatConnection) :=
  let? _ := await (Endpoint_from_shared control_plane_addr)
    else "invalid control plane address" in
  configure_tls tls (
    let? _ := await endpoint_connect else "failed to connect to control plane" in
    let node_id := NodeResources_NodeId resources in
    let? authorization := Done (bearer agent_token) else "invalid agent token" in
    let? resp := await (client_register (register_request resources) authorization)
      else "registration RPC failed" in
    if negb (RegisterResponse_Accepted resp)
    then Done (Err "registration rejected by control plane")
    else
      let heartbeat_ms := RegisterResponse_HeartbeatIntervalMs resp in
      let? authorization := Done (bearer agent_token) else "invalid agent token" in
      let? _ := await (client_heartbeat authorization) else "failed to open heartbeat stream" in
      let? _ := await (request_tx_send (init_request node_id))
        else "failed to send initial heartbeat" in
      Done (Ok (mkConnection node_id heartbeat_ms))).
End connect.

(** ** Reading the responses *)

(** What a response asks for, in order. *)
Definition instructions (resp : HeartbeatResponse) : list ControlInstruction :=
  (if bool_decide (HeartbeatResponse_PendingTasks resp = []) then []
   else [PendingTasks (HeartbeatResponse_PendingTasks resp)])
  ++ (if bool_decide (HeartbeatResponse_CancelTaskIds resp = []) then []
      else [CancelTasks (HeartbeatResponse_CancelTaskIds resp)]).

(** The task that reads the stream, and its channel of at most 256 instructions. *)
Definition channel_capacity : nat := 256.
Inductive reader_pc : Type :=
  | RdMessage                                   (* response_stream.message().await *)
  | RdSend (rest : list ControlInstruction)     (* instruction_tx.send(_).await, then the rest *)
  | RdEnded.
Record reader := mkReader {
  rd_at : reader_pc;
  rd_channel : list ControlInstruction;
  rd_connected : bool                           (* the connection is not dropped *)
}.
Definition reader_start : reader := mkReader RdMessage [] true.

Inductive reader_input : Type :=
  | RMessage (resp : HeartbeatResponse)         (* Ok(Some(resp)) *)
  | RClosed                                     (* Ok(None) or Err(e) *)
  | RSend                                       (* the pending send finds room, or is refused *)
  | RNext                                       (* next_instruction takes one *)
  | RDrop.                                      (* drop(conn): aborts the task *)

(** Send what is left of a response, then wait for the next one. *)
Definition send_rest (rest : list ControlInstruction) : reader_pc :=
  match rest with [] => RdMessage | _ => RdSend rest end.

(** A step, with the instruction that [next_instruction] returns. *)
Definition reader_step (st : reader) (i : reader_input)
  : option (reader * option ControlInstruction) :=
  match i, rd_at st with
  | RMessage resp, RdMessage =>
      Some (mkReader (send_rest (instructions resp)) (rd_channel st) (rd_connected st), None)
  | RClosed, RdMessage => Some (mkReader RdEnded (rd_channel st) (rd_connected st), None)
  | RSend, RdSend (x :: rest) =>
      if negb (rd_connected st) then Some (mkReader RdEnded (rd_channel st) false, None)
      else if decide (length (rd_channel st) < channel_capacity)%nat
      then Some (mkReader (send_rest rest) (rd_channel st ++ [x]) true, None)
      else None
  | RNext, _ =>
      match rd_connected st, rd_channel st with
      | true, x :: l => Some (mkReader (rd_at st) l true, Some x)
      | _, _ => None
      end
  | RDrop, _ => if rd_connected st then Some (mkReader RdEnded [] false, None) else None
  | _, _ => None
  end.

(** Any number of steps, with what [next_instruction] returned. *)
Fixpoint reader_run (st : reader) (inputs : list reader_input)
  : option (reader * list ControlInstruction) :=
  match inputs with
  | [] => Some (st, [])
  | i :: inputs =>
      '(st1, o) ← reader_step st i;
      '(st2, l) ← reader_run st1 inputs;
      Some (st2, match o with Some x => x :: l | None => l end)
  end.

(** The responses received. *)
Definition responses (inputs : list reader_input) : list HeartbeatResponse :=
  omap (fun i => match i with RMessage resp => Some resp | _ => None end) inputs.

(** * Facts *)

(** ** What connecting does *)
Section connect_facts.
Context `{!Tonic}.

(** A stage of [connect]: the call it makes, whether it succeeds, the error if not. *)
Record stage := mkStage { stage_call : option Call; stage_ok : bool; stage_error : string }.
Definition is_ok {A} (o : option A) : bool := match o with Some _ => true | None => false end.

Definition calling (h : forall c, option (Reply c)) (c : Call) (e : string) : stage :=
  mkStage (Some c) (is_ok (h c)) e.

Definition connect_stages (h : forall c, option (Reply c)) addr resources token tls : list stage :=
  [calling h (Endpoint_from_shared addr) "invalid control plane address"]
  ++ match tls with
     | Some cfg =>
         let file p := default "" (h (fs_read p)) in
         [calling h (fs_read (ca_cert_path cfg)) "failed to read CA certificate";
          calling h (fs_read (cert_path cfg)) "failed to read agent certificate";
          calling h (fs_read (key_path cfg)) "failed to read agent key";
          calling h (tls_config (file (ca_cert_path cfg)) (file (cert_path cfg)) (file (key_path cfg))
                       (default "control-plane" (domain_name cfg))) "failed to configure TLS"]
     | None => []
     end
  ++ let authorization := default None (bearer token) in
     let register := client_register (register_request resources) authorization in
     [calling h endpoint_connect "failed to connect to control plane";
      mkStage None (is_ok (bearer token)) "invalid agent token";
      calling h register "registration RPC failed";
      mkStage None (RegisterResponse_GetAccepted (h register))
        "registration rejected by control plane";
      calling h (client_heartbeat authorization) "failed to open heartbeat stream";
      calling h (request_tx_send (init_request (NodeResources_NodeId resources)))
        "failed to send initial heartbeat"].

(** The first stage that fails decides the error; later stages are not reached. *)
Fixpoint first_failure (l : list stage) : option string :=
  match l with
  | [] => None
  | s :: l => if stage_ok s then first_failure l else Some (stage_error s)
  end.
Fixpoint calls_made (l : list stage) : list Call :=
  match l with
  | [] => []
  | s :: l => option_list (stage_call s) ++ if stage_ok s then calls_made l else []
  end.

(** C25: connecting goes through its stages in order and stops at the first that fails, with that
    stage's error and without any later call: the address, the three certificate files and
    the TLS configuration if there is one, the connection, the token, the registration, its
    acceptance, the stream, the first heartbeat.  The registration carries the node's resources
    under their node identity, with an empty address; the first heartbeat has sequence number
    0 and reports nothing.  If every stage succeeds the connection has the node's identity and
    the interval the control plane answered. *)
Theorem connect_spec h addr resources token tls :
  let stages := connect_stages h addr resources token tls in
  let registered := h (client_register (register_request resources) (default None (bearer token))) in
  run h (connect addr resources token tls) =
    (match first_failure stages with
     | Some e => Err e
     | None => Ok (mkConnection (NodeResources_NodeId resources)
                     (RegisterResponse_GetHeartbeatIntervalMs registered))
     end, calls_made stages).
Proof.
  intros stages registered. unfold stages, connect_stages, registered, connect, configure_tls, calling.
  unfold or_fail, await. clear stages registered.
  destruct (bearer token) as [authorization|]; destruct tls as [cfg|]; simpl;
    repeat first
      [ reflexivity
      | progress simplify_eq
      | match goal with
        | |- context [h ?c] => destruct (h c) eqn:?; simpl
        | |- context [negb (RegisterResponse_Accepted ?r)] =>
            destruct (RegisterResponse_Accepted r); simpl
        end ].
Qed.
End connect_facts.

(** ** What the reader delivers *)
Definition unsent (pc : reader_pc) : list ControlInstruction :=
  match pc with RdSend rest => rest | _ => [] end.
Definition asked (inputs : list reader_input) : list ControlInstruction :=
  mjoin (instructions <$> responses inputs).

(** Not yet delivered. *)
Definition held (st : reader) : list ControlInstruction := rd_channel st ++ unsent (rd_at st).

Lemma unsent_rest l : unsent (send_rest l) = l.
Proof. by destruct l. Qed.

Definition is_drop (i : reader_input) : bool := match i with RDrop => true | _ => false end.

(** One step: what it delivers and then holds is what was held and is newly asked for, unless
    the connection is dropped. *)
Lemma reader_step_held st i st' o :
  reader_step st i = Some (st', o) -> rd_connected st = true ->
  let all := held st ++ asked [i] in
  if is_drop i then o = None /\ rd_connected st' = false
  else rd_connected st' = true /\ option_list o ++ held st' = all.
Proof.
  intros Hs Hc. unfold held, asked. destruct i as [resp| | | |]; simpl in Hs.
  - destruct (rd_at st) eqn:E; try discriminate. injection Hs as <- <-.
    split; [done|]. simpl.
    by rewrite unsent_rest, !app_nil_r.
  - destruct (rd_at st) eqn:E; try discriminate. injection Hs as <- <-.
    split; [done|]. simpl. by rewrite !app_nil_r.
  - destruct (rd_at st) as [|[|x rest]|] eqn:E; try discriminate. rewrite Hc in Hs. simpl in Hs.
    case_decide; [|done]. injection Hs as <- <-.
    split; [done|]. simpl. by rewrite unsent_rest, app_nil_r, <- app_assoc.
  - rewrite Hc in Hs. destruct (rd_channel st) as [|x l]; [by destruct (rd_at st)|].
    assert (Hs' : Some (mkReader (rd_at st) l true, Some x) = Some (st', o))
      by (by destruct (rd_at st)).
    injection Hs' as <- <-. split; [done|].
    simpl. by rewrite app_nil_r.
  - rewrite Hc in Hs.
    assert (Hs' : Some (mkReader RdEnded [] false, None) = Some (st', o)) by (by destruct (rd_at st)).
    by injection Hs' as <- <-.
Qed.

Lemma reader_step_dropped st i st' o :
  reader_step st i = Some (st', o) -> rd_connected st = false -> o = None /\ rd_connected st' = false.
Proof.
  intros Hs Hc. destruct i; simpl in Hs; rewrite ?Hc in Hs;
    destruct (rd_at st) as [|[|]|]; simpl in Hs; try discriminate; injection Hs as <- <-; done.
Qed.

Lemma reader_step_bound st i st' o :
  reader_step st i = Some (st', o) -> (length (rd_channel st) <= channel_capacity)%nat ->
  (length (rd_channel st') <= channel_capacity)%nat.
Proof.
  intros Hs Hb. destruct i; simpl in Hs;
    destruct (rd_at st) as [|[|]|], (rd_connected st); simpl in Hs; try discriminate;
    repeat case_match; simplify_eq/=; rewrite ?length_app; simpl in *; lia.
Qed.

Lemma asked_cons i inputs : asked (i :: inputs) = asked [i] ++ asked inputs.
Proof. unfold asked. destruct i; simpl; by rewrite ?app_nil_r. Qed.

Lemma reader_run_cons st i inputs st' l :
  reader_run st (i :: inputs) = Some (st', l) ->
  exists st1 o l', reader_step st i = Some (st1, o) /\ reader_run st1 inputs = Some (st', l')
  /\ l = option_list o ++ l'.
Proof.
  simpl. destruct (reader_step st i) as [[st1 o]|]; [|done]. cbn [mbind option_bind].
  destruct (reader_run st1 inputs) as [[st2 l']|] eqn:E; [|done]. cbn [mbind option_bind].
  intros [= <- <-]. exists st1, o, l'. split; [done|]. split; [done|]. by destruct o.
Qed.

Lemma dropped_run st inputs st' l :
  reader_run st inputs = Some (st', l) -> rd_connected st = false -> l = [].
Proof.
  revert st l. induction inputs as [|i inputs IH]; intros st l Hr Hc; [by injection Hr as _ <-|].
  apply reader_run_cons in Hr as (st1 & o & l' & Hs & Hr & ->).
  destruct (reader_step_dropped _ _ _ _ Hs Hc) as [-> Hc1]. by eapply IH.
Qed.

Lemma reader_run_held st inputs st' l :
  reader_run st inputs = Some (st', l) -> rd_connected st = true ->
  l `prefix_of` held st ++ asked inputs
  /\ (RDrop ∉ inputs -> l ++ held st' = held st ++ asked inputs).
Proof.
  revert st l. induction inputs as [|i inputs IH]; intros st l Hr Hc.
  { injection Hr as <- <-. unfold asked. simpl. rewrite app_nil_r. split; [|done]. by apply prefix_nil. }
  apply reader_run_cons in Hr as (st1 & o & l' & Hs & Hr & ->). rewrite asked_cons, app_assoc.
  pose proof (reader_step_held _ _ _ _ Hs Hc) as Hh. simpl in Hh. destruct (is_drop i) eqn:Hd.
  - destruct Hh as [-> Hc1]. rewrite (dropped_run _ _ _ _ Hr Hc1). split; [by apply prefix_nil|].
    intros Hn. destruct Hn. destruct i; try done. left.
  - destruct Hh as [Hc1 <-]. destruct (IH _ _ Hr Hc1) as [Hp He]. rewrite <- !app_assoc.
    split; [by apply prefix_app|]. intros Hn. f_equal. apply He. intros Hin. apply Hn. by right.
Qed.

(** The tasks, and the task identifiers to cancel, that instructions carry. *)
Definition tasks_in (l : list ControlInstruction) : list PendingTask :=
  mjoin ((fun x => match x with PendingTasks tasks => tasks | CancelTasks _ => [] end) <$> l).
Definition cancels_in (l : list ControlInstruction) : list string :=
  mjoin ((fun x => match x with PendingTasks _ => [] | CancelTasks ids => ids end) <$> l).

Lemma asked_carries inputs :
  tasks_in (asked inputs) = mjoin (HeartbeatResponse_PendingTasks <$> responses inputs)
  /\ cancels_in (asked inputs) = mjoin (HeartbeatResponse_CancelTaskIds <$> responses inputs).
Proof.
  assert (Happ : forall l l', tasks_in (l ++ l') = tasks_in l ++ tasks_in l'
                              /\ cancels_in (l ++ l') = cancels_in l ++ cancels_in l').
  { intros l l'. unfold tasks_in, cancels_in. by rewrite !fmap_app, !join_app. }
  unfold asked. induction (responses inputs) as [|resp l [IHt IHc]]; [done|].
  change (mjoin (instructions <$> resp :: l)) with (instructions resp ++ mjoin (instructions <$> l)).
  destruct (Happ (instructions resp) (mjoin (instructions <$> l))) as [-> ->].
  rewrite IHt, IHc, !fmap_cons. unfold instructions, tasks_in, cancels_in.
  split; cbn [mjoin list_join]; f_equal; do 2 case_bool_decide; simpl; rewrite ?app_nil_r; congruence.
Qed.

(** C39: what the application takes from a connection is what the control plane's responses ask for:
    pending tasks and then cancellations of each response, in the responses' order, nothing
    lost, invented or repeated; what has not been taken waits in the channel (never more than
    256 instructions) or with the reader.  Every task and every cancellation received is in
    exactly one of the three.  Dropping the connection discards the rest. *)
Theorem reader_delivers inputs st taken :
  reader_run reader_start inputs = Some (st, taken) ->
  taken `prefix_of` asked inputs
  /\ (RDrop ∉ inputs ->
      let all := taken ++ rd_channel st ++ unsent (rd_at st) in
      all = asked inputs
      /\ tasks_in all = mjoin (HeartbeatResponse_PendingTasks <$> responses inputs)
      /\ cancels_in all = mjoin (HeartbeatResponse_CancelTaskIds <$> responses inputs))
  /\ (length (rd_channel st) <= channel_capacity)%nat.
Proof.
  intros Hr. destruct (reader_run_held _ _ _ _ Hr eq_refl) as [Hp He]. split; [exact Hp|].
  split. { intros Hd all. specialize (He Hd). change (all = asked inputs) in He.
    rewrite He. split; [done|apply asked_carries]. }
  clear Hp He. revert Hr.
  assert (H0 : (length (rd_channel reader_start) <= channel_capacity)%nat) by (simpl; lia).
  revert H0. generalize reader_start. revert taken.
  induction inputs as [|i inputs IH]; intros taken st0 H0 Hr; [by injection Hr as <- _|].
  apply reader_run_cons in Hr as (st1 & o & l' & Hs & Hr & _).
  eapply IH; [|exact Hr]. by eapply reader_step_bound.
Qed.

(** ** Reasoning about programs *)

(** Whatever replies [ok] allows, every call the program makes satisfies [pre] and its result [Q]. *)
Fixpoint safe {A} (pre : Call -> Prop) (ok : forall c, option (Reply c) -> Prop) (Q : A -> Prop)
    (p : prog A) : Prop :=
  match p with
  | Done a => Q a
  | Await c k => pre c /\ forall r, ok c r -> safe pre ok Q (k r)
  end.

(** At most [n] calls. *)
Fixpoint bounded {A} (n : nat) (p : prog A) : Prop :=
  match p, n with
  | Done _, _ => True
  | Await _ _, O => False
  | Await _ k, S n => forall r, bounded n (k r)
  end.

(** The stream is never opened. *)
Definition not_opened (c : Call) : option (Reply c) -> Prop :=
  match c with client_heartbeat _ => fun r => r = None | _ => fun _ => True end.
Definition no_heartbeat (c : Call) : Prop :=
  match c with request_tx_send _ => False | _ => True end.
Definition is_err {A} (r : result A) : Prop := match r with Ok _ => False | Err _ => True end.

Section connect_programs.
Context `{!Tonic}.

#[local] Ltac walk tls token :=
  unfold connect, configure_tls, or_fail, await;
  destruct tls as [cfg|], (bearer token) as [authorization|]; simpl;
  repeat first
    [ exact I
    | progress simpl
    | match goal with
      | |- _ /\ _ => split
      | |- forall r : option _, _ => intros [?|]
      | |- context [negb (RegisterResponse_Accepted ?r)] => destruct (RegisterResponse_Accepted r)
      end
    | discriminate | progress intros ].

Lemma connect_bounded addr resources token tls : bounded 9 (connect addr resources token tls).
Proof. walk tls token. Qed.

Lemma connect_unopened addr resources token tls :
  safe no_heartbeat not_opened is_err (connect addr resources token tls).
Proof. walk tls token. Qed.

Lemma connect_waits addr resources token tls :
  exists c k, connect addr resources token tls = Await c k.
Proof. eexists _, _. reflexivity. Qed.
End connect_programs.
