(* ===== verification/AgentMain.v ===== *)
(** The node agent's process ([agent/src/main.rs]): discovery, then rounds of connecting, running
    until the stream ends, and waiting before the next round.

    The process is a state machine: a step is given what it waits for, a call's reply, a tick of
    the heartbeat timer, an instruction, an interrupt, the end of a sleep.  What it sends is
    the step's output. *)
From S2P Require Import Prelude GoRuntime GoStrings RustStd PbResource PbAgent AgentHost AgentClient.
Local Open Scope string_scope.
Local Open Scope Z_scope.
Local Open Scope list_scope.

(** ** Arguments *)
Record Args := mkArgs {
  control_plane : string;
  host_args : HostArgs;                         (* node_id, mock_gpu_count *)
  agent_token : string;
  tls_ca_cert : option string;
  tls_cert : option string;
  tls_key : option string;
  tls_domain : string;
  max_reconnect_attempts : Z;                   (* u32 *)
  reconnect_backoff_secs : Z                    (* u64 *)
}.
Definition default_args : Args := {|
  control_plane := "http://localhost:9000";
  host_args := mkHostArgs None None;
  agent_token := "";
  tls_ca_cert := None; tls_cert := None; tls_key := None; tls_domain := "control-plane";
  max_reconnect_attempts := 10; reconnect_backoff_secs := 1 |}.

Definition token_of (args : Args) : option string :=
  if String.eqb (agent_token args) "" then None else Some (agent_token args).
Definition tls_of (args : Args) : option TlsConfig :=
  match tls_ca_cert args, tls_cert args, tls_key args with
  | Some ca, Some cert, Some key => Some (mkTlsConfig ca cert key (Some (tls_domain args)))
  | _, _, _ => None
  end.

(** ** The process *)
Inductive main_state : Type :=
  | Connecting (attempt backoff : Z) (p : prog (result HeartbeatConnection))
  | Selecting (attempt backoff : Z) (conn : HeartbeatConnection) (sequence : Z)   (* select! *)
  | Sending (attempt backoff : Z) (conn : HeartbeatConnection) (sequence : Z)
            (req : HeartbeatRequest)            (* conn.send_heartbeat(..).await *)
  | Sleeping (attempt backoff : Z)              (* backoff in seconds *)
  | Exited (r : result unit)
  | Aborted.                                    (* a panic *)

(** What a step is given: the reply to the call that is waited for, the timer with the result of
    the collection ([None] when it panicked), the instruction or the end of the stream, an
    interrupt, the outcome of a send, the end of a sleep. *)
Inductive main_input : Type :=
  | InReply (h : forall c, option (Reply c))
  | InTick (utilization : option NodeUtilization)
  | InInstruction (o : option ControlInstruction)
  | InCtrlC
  | InSent (ok : bool)
  | InSlept.

Definition max_backoff : Z := 60.

(** The period of the heartbeat timer, in milliseconds. *)
Definition heartbeat_period (conn : HeartbeatConnection) : Z :=
  Z.max (heartbeat_interval_ms conn) 1000.

Section main.
Context `{!Tonic}.
Variable args : Args.
Variable resources : NodeResources.

(** The top of the loop. *)
Definition start_round (attempt backoff : Z) : main_state :=
  Connecting (wrapU32 (attempt + 1)) backoff
    (connect (control_plane args) resources (token_of args) (tls_of args)).

(** After a round: give up, or sleep. *)
Definition after_round (attempt backoff : Z) : main_state :=
  if (0 <? max_reconnect_attempts args) && (max_reconnect_attempts args <=? attempt)
  then Exited (Err ("max reconnection attempts (" +:+ pretty (max_reconnect_attempts args)
                    +:+ ") reached"))
  else Sleeping attempt backoff.

(** After the sleep; a [Duration] multiplied past its range panics. *)
Definition woke (attempt backoff : Z) : main_state :=
  if 2 ^ 64 <=? backoff * 2 then Aborted
  else start_round attempt (Z.min (backoff * 2) max_backoff).

(** The [match] on the result of [connect]. *)
Definition settle (attempt backoff : Z) (p : prog (result HeartbeatConnection)) : main_state :=
  match p with
  | Done (Ok conn) => Selecting 0 (reconnect_backoff_secs args) conn 0
  | Done (Err _) => after_round attempt backoff
  | Await _ _ => Connecting attempt backoff p
  end.

(** The heartbeat that a reply puts into the stream. *)
Definition queued (c : Call) (r : option (Reply c)) : list HeartbeatRequest :=
  match c, r with request_tx_send req, Some _ => [req] | _, _ => [] end.

Definition main_step (st : main_state) (i : main_input) : option (main_state * list HeartbeatRequest) :=
  match st, i with
  | Connecting attempt backoff (Await c k), InReply h =>
      Some (settle attempt backoff (k (h c)), queued c (h c))
  | Selecting attempt backoff conn sequence, InTick utilization =>
      let sequence := as_u64 (sequence + 1) in
      let util := default NodeUtilization_Reset utilization in
      Some (Sending attempt backoff conn sequence (heartbeat_request conn sequence util), [])
  | Selecting attempt backoff conn sequence, InInstruction (Some _) =>
      Some (Selecting attempt backoff conn sequence, [])           (* logged *)
  | Selecting attempt backoff conn sequence, InInstruction None =>
      Some (after_round attempt backoff, [])
  | Selecting _ _ _ _, InCtrlC => Some (Exited (Ok tt), [])
  | Sending attempt backoff conn sequence req, InSent true =>
      Some (Selecting attempt backoff conn sequence, [req])
  | Sending attempt backoff _ _ _, InSent false => Some (after_round attempt backoff, [])
  | Sleeping attempt backoff, InSlept => Some (woke attempt backoff, [])
  | _, _ => None
  end.

(** The process from its start, and any number of its steps. *)
Definition main : main_state := start_round 0 (reconnect_backoff_secs args).
Fixpoint main_run (st : main_state) (inputs : list main_input)
  : option (main_state * list HeartbeatRequest) :=
  match inputs with
  | [] => Some (st, [])
  | i :: inputs =>
      '(st1, l1) ← main_step st i;
      '(st2, l2) ← main_run st1 inputs;
      Some (st2, l1 ++ l2)
  end.
End main.

(** The call it waits for. *)
Definition pending (st : main_state) : option Call :=
  match st with Connecting _ _ (Await c _) => Some c | _ => None end.

(** The process on a machine. *)
Definition agent `{!Tonic} (h : Machine) (args : Args) : main_state :=
  main args (discover_resources h (host_args args)).

(** * Facts *)
Section facts.
Context `{!Tonic}.
Variable args : Args.
Variable resources : NodeResources.

Lemma main_run_snoc st inputs i st2 sent :
  main_run args resources st (inputs ++ [i]) = Some (st2, sent) ->
  exists st1 l1 l2, main_run args resources st inputs = Some (st1, l1) /\ main_step args resources st1 i = Some (st2, l2)
  /\ sent = l1 ++ l2.
Proof.
  revert st sent. induction inputs as [|j inputs IH]; intros st sent; simpl.
  - destruct (main_step args resources st i) as [[st1 l]|] eqn:E; [|done]. cbn [mbind option_bind].
    intros [= <- <-]. eexists _, [], l. by rewrite app_nil_r.
  - destruct (main_step args resources st j) as [[st1 l]|]; [|done]. cbn [mbind option_bind].
    destruct (main_run args resources st1 (inputs ++ [i])) as [[st3 l']|] eqn:E; [|done]. cbn [mbind option_bind].
    intros [= <- <-]. destruct (IH _ _ E) as (st4 & l1 & l2 & -> & Hs & ->).
    cbn [mbind option_bind]. exists st4, (l ++ l1), l2. by rewrite app_assoc.
Qed.

(** ** Giving up *)

(** The wait before round [k + 2]. *)
Definition backoff_at (k : nat) : Z :=
  match k with
  | O => reconnect_backoff_secs args
  | S _ => Z.min (reconnect_backoff_secs args * 2 ^ Z.of_nat k) max_backoff
  end.

Lemma backoff_next k :
  0 <= reconnect_backoff_secs args -> Z.min (backoff_at k * 2) max_backoff = backoff_at (S k).
Proof.
  intros Hb. unfold max_backoff. destruct k as [|k].
  - unfold backoff_at, max_backoff. change (2 ^ Z.of_nat 1) with 2. lia.
  - unfold backoff_at, max_backoff. rewrite !Nat2Z.inj_succ, !Z.pow_succ_r by lia.
    set (x := 2 ^ Z.of_nat k). assert (0 <= x) by (apply Z.pow_nonneg; lia). nia.
Qed.

Definition never_opens (i : main_input) : Prop :=
  match i with InReply h => forall a, h (client_heartbeat a) = None | _ => True end.
Definition opens_nothing (st : main_state) (i : main_input) : Prop :=
  match i with
  | InReply h => forall c, pending st = Some c -> not_opened c (h c)
  | _ => True
  end.
Lemma never_opens_nothing st i : never_opens i -> opens_nothing st i.
Proof. destruct i; simpl; try done. intros Hh c _. by destruct c; simpl. Qed.

Definition slept (inputs : list main_input) : nat :=
  length (filter (fun i => match i with InSlept => true | _ => false end = true) inputs).

(** The state after [i] inputs of which [s] were ends of sleeps, if no stream ever opens. *)
Definition losing (i s : nat) (st : main_state) : Prop :=
  let n := max_reconnect_attempts args in
  match st with
  | Connecting attempt backoff p =>
      (attempt = Z.of_nat s + 1 /\ attempt <= n) /\ backoff = backoff_at s
      /\ safe no_heartbeat not_opened is_err p
      /\ exists m, bounded m p /\ (i + m <= 10 * s + 9)%nat /\ exists c k, p = Await c k
  | Sleeping attempt backoff =>
      (attempt = Z.of_nat s + 1 /\ attempt < n) /\ backoff = backoff_at s /\ (i <= 10 * s + 9)%nat
  | Exited r =>
      Z.of_nat s + 1 = n /\ (i <= 10 * s + 9)%nat
      /\ r = Err ("max reconnection attempts (" +:+ pretty n +:+ ") reached")
  | _ => False
  end.

Lemma losing_start i s :
  Z.of_nat s + 1 <= max_reconnect_attempts args < 2 ^ 32 -> (i + 9 <= 10 * s + 9)%nat ->
  losing i s (start_round args resources (Z.of_nat s) (backoff_at s)).
Proof.
  intros Hs Hi. unfold start_round, wrapU32. rewrite Z.mod_small by lia. cbn [losing]. split; [lia|].
  split; [done|]. split; [apply connect_unopened|]. exists 9%nat. split; [apply connect_bounded|].
  split; [lia|]. apply connect_waits.
Qed.

Lemma losing_after i s :
  Z.of_nat s + 1 <= max_reconnect_attempts args -> (i <= 10 * s + 9)%nat ->
  losing i s (after_round args (Z.of_nat s + 1) (backoff_at s)).
Proof.
  intros Hs Hi. unfold after_round. destruct (Z.ltb_spec 0 (max_reconnect_attempts args)); [|lia].
  destruct (Z.leb_spec (max_reconnect_attempts args) (Z.of_nat s + 1)); simpl; [|done].
  split; [lia|]. by split.
Qed.

Lemma backoff_small s :
  0 <= reconnect_backoff_secs args < 2 ^ 63 -> backoff_at s * 2 < 2 ^ 64.
Proof. intros Hb. destruct s; simpl; unfold max_backoff; lia. Qed.

Lemma losing_step i s st inp st' l :
  0 < max_reconnect_attempts args < 2 ^ 32 -> 0 <= reconnect_backoff_secs args < 2 ^ 63 ->
  losing i s st -> main_step args resources st inp = Some (st', l) -> opens_nothing st inp ->
  l = [] /\ losing (S i) (s + slept [inp]) st'.
Proof.
  intros Hn Hb Hst Hs Hinp.
  destruct st as [a b [r|c k]|a b conn q|a b conn q req|a b|r|]; simpl in Hst; try done;
    destruct inp as [h|u|o|  |ok|]; simpl in Hs; try discriminate.
  - destruct Hst as (Ha & -> & (Hpre & Hsafe) & m & Hm & Hi & _). injection Hs as <- <-.
    assert (Hok : not_opened c (h c)) by (by apply Hinp).
    split; [by destruct c|]. destruct m as [|m]; [done|]. simpl in Hm.
    specialize (Hsafe _ Hok). specialize (Hm (h c)). rewrite Nat.add_0_r.
    destruct (k (h c)) as [[conn|e]|c' k']; [done| |].
    + simpl. destruct Ha as [-> Ha]. apply losing_after; lia.
    + simpl. split; [done|]. split; [done|]. split; [done|]. exists m. split; [done|].
      split; [lia|]. by eexists _, _.
  - destruct Hst as (Ha & -> & Hi). injection Hs as <- <-. split; [done|].
    destruct Ha as [-> Ha]. unfold woke. destruct (Z.leb_spec (2 ^ 64) (backoff_at s * 2)).
    { pose proof (backoff_small s Hb). lia. }
    rewrite backoff_next by lia. replace (s + slept [InSlept])%nat with (S s) by (unfold slept; simpl; lia).
    replace (Z.of_nat s + 1) with (Z.of_nat (S s)) by lia. apply losing_start; lia.
Qed.

Lemma slept_snoc inputs i : slept (inputs ++ [i]) = (slept inputs + slept [i])%nat.
Proof. unfold slept. by rewrite filter_app, length_app. Qed.

Lemma losing_run inputs st sent :
  0 < max_reconnect_attempts args < 2 ^ 32 -> 0 <= reconnect_backoff_secs args < 2 ^ 63 ->
  main_run args resources (main args resources) inputs = Some (st, sent) -> Forall never_opens inputs ->
  sent = [] /\ losing (length inputs) (slept inputs) st.
Proof.
  intros Hn Hb. revert st sent. induction inputs as [|i inputs IH] using rev_ind; intros st sent Hr Hf.
  - injection Hr as <- <-. split; [done|]. apply (losing_start 0 0); simpl; lia.
  - apply main_run_snoc in Hr as (st1 & l1 & l2 & Hr & Hs & ->).
    apply Forall_app in Hf as [Hf Hi]. rewrite Forall_singleton in Hi.
    destruct (IH _ _ Hr Hf) as [-> Hl]. destruct (losing_step _ _ _ _ _ _ Hn Hb Hl Hs (never_opens_nothing _ _ Hi)) as [-> Hl2].
    split; [done|]. by rewrite length_app, slept_snoc, Nat.add_1_r.
Qed.

(** C23: an agent whose heartbeat stream never opens gives up: with a limit of [n] attempts
    ([n] > 0) it has exited, with an error that says so, after at most [10 * n] steps; before
    that it always goes on, never sends a heartbeat, is in round [k + 1] after [k] sleeps, and
    sleeps the initial time after the first round, then twice as long each time but at most
    60 seconds. *)
Theorem main_gives_up inputs st sent :
  let n := max_reconnect_attempts args in
  0 < n < 2 ^ 32 -> 0 <= reconnect_backoff_secs args < 2 ^ 63 ->
  main_run args resources (main args resources) inputs = Some (st, sent) -> Forall never_opens inputs ->
  sent = [] /\ Z.of_nat (length inputs) < 10 * n
  /\ match st with
     | Connecting attempt backoff _ =>
         (attempt = Z.of_nat (slept inputs) + 1 /\ attempt <= n) /\ backoff = backoff_at (slept inputs)
     | Sleeping attempt backoff =>
         (attempt = Z.of_nat (slept inputs) + 1 /\ attempt < n) /\ backoff = backoff_at (slept inputs)
     | Exited r =>
         Z.of_nat (slept inputs) + 1 = n
         /\ r = Err ("max reconnection attempts (" +:+ pretty n +:+ ") reached")
     | _ => False
     end
  /\ ((exists r, st = Exited r)
      \/ exists i st' l, never_opens i /\ main_step args resources st i = Some (st', l)).
Proof.
  intros n Hn Hb Hr Hf. destruct (losing_run _ _ _ Hn Hb Hr Hf) as [-> Hl]. split; [done|].
  destruct st as [a b p|a b conn q|a b conn q req|a b|r|]; simpl in Hl; try done.
  - destruct Hl as (Ha & Hbk & _ & m & _ & Hi & c & k & ->). split; [lia|]. split; [done|].
    right. exists (InReply (fun _ => None)). by eexists _, _.
  - destruct Hl as (Ha & Hbk & Hi). split; [lia|]. split; [done|]. right. exists InSlept.
    by eexists _, _.
  - destruct Hl as (Ha & Hi & Hr'). split; [lia|]. split; [done|]. left. by exists r.
Qed.

(** ** The messages of an agent *)

(** A message is the first of a connection, or the next after the one before it. *)
Definition follows (prev : option HeartbeatRequest) (req : HeartbeatRequest) : Prop :=
  let id := NodeResources_NodeId resources in
  req = init_request id
  \/ exists p u, prev = Some p
      /\ req = mkHeartbeatRequest id (as_u64 (HeartbeatRequest_Sequence p + 1)) (Some u) [].
Definition numbered (sent : list HeartbeatRequest) : Prop :=
  forall i req, sent !! i = Some req ->
    follows (match i with O => None | S j => sent !! j end) req.

Lemma numbered_snoc sent req : numbered sent -> follows (last sent) req -> numbered (sent ++ [req]).
Proof.
  intros Hn Hf i r Hi. apply lookup_app_Some in Hi as [Hi|[Hle Hi]].
  - specialize (Hn i r Hi). destruct i as [|j]; [done|].
    rewrite lookup_app_l; [done|]. apply lookup_lt_Some in Hi. lia.
  - apply list_lookup_singleton_Some in Hi as [Hz <-]. assert (i = length sent) as -> by lia.
    rewrite last_lookup in Hf. destruct (length sent) as [|n] eqn:E; simpl in Hf.
    + by destruct sent.
    + rewrite lookup_app_l by lia. exact Hf.
Qed.

(** Connecting puts one message into the stream, its last act. *)
Fixpoint opening (p : prog (result HeartbeatConnection)) : Prop :=
  match p with
  | Done r => is_err r
  | Await c k => forall r,
      match queued c r with
      | [] => opening (k r)
      | l => l = [init_request (NodeResources_NodeId resources)]
             /\ exists ms, k r = Done (Ok (mkConnection (NodeResources_NodeId resources) ms))
      end
  end.

Lemma connect_opening addr token tls : opening (connect addr resources token tls).
Proof.
  unfold connect, configure_tls, or_fail, await.
  destruct tls as [cfg|], (bearer token) as [authorization|]; simpl;
    repeat first
      [ exact I
      | progress simpl
      | match goal with
        | |- forall r : option _, _ => intros [?|]
        | |- context [negb (RegisterResponse_Accepted ?r)] => destruct (RegisterResponse_Accepted r)
        end
      | split; [reflexivity|by eexists] ].
Qed.

Definition messages_ok (st : main_state) (sent : list HeartbeatRequest) : Prop :=
  numbered sent
  /\ match st with
     | Connecting _ _ p => opening p
     | Selecting _ _ conn q =>
         node_id conn = NodeResources_NodeId resources
         /\ exists r, last sent = Some r /\ HeartbeatRequest_Sequence r = q
     | Sending _ _ conn q req =>
         node_id conn = NodeResources_NodeId resources
         /\ q = HeartbeatRequest_Sequence req /\ last sent <> None /\ follows (last sent) req
     | _ => True
     end.

Lemma after_round_ok a b sent : numbered sent -> messages_ok (after_round args a b) sent.
Proof. intros Hn. split; [done|]. unfold after_round. by destruct (_ && _). Qed.
Lemma start_round_ok a b sent : numbered sent -> messages_ok (start_round args resources a b) sent.
Proof. intros Hn. split; [done|]. apply connect_opening. Qed.

Lemma messages_step st i st' l sent :
  messages_ok st sent -> main_step args resources st i = Some (st', l) -> messages_ok st' (sent ++ l).
Proof.
  intros [Hn Hst] Hs.
  destruct st as [a b [r|c k]|a b conn q|a b conn q req|a b|r|], i as [h|u|[o|]| |[]|];
    simpl in Hs; try discriminate; injection Hs as <- <-; rewrite ?app_nil_r;
    try (by apply after_round_ok).
  - simpl in Hst. specialize (Hst (h c)). destruct (queued c (h c)) as [|m l] eqn:Eq.
    + rewrite app_nil_r. destruct (k (h c)) as [[conn|e]|c' k']; [done| |by split].
      by apply after_round_ok.
    + destruct Hst as [-> [ms ->]]. split; [apply numbered_snoc; [done|by left]|].
      split; [done|]. eexists. split; [by rewrite last_snoc|done].
  - destruct Hst as [Hid (p & Hp & Hq)]. split; [done|]. split; [done|]. split; [done|].
    split; [by rewrite Hp|]. right. exists p. eexists. split; [done|].
    unfold heartbeat_request. by rewrite Hid, Hq.
  - by split.
  - by split.
  - destruct Hst as (Hid & -> & _ & Hf). split; [by apply numbered_snoc|]. split; [done|].
    eexists. split; [by rewrite last_snoc|done].
  - unfold woke. case_match; [by split|by apply start_round_ok].
Qed.

(** C24: everything an agent puts into its streams, whatever replies, ticks, instructions, failures
    and reconnections it sees: each message names its own node and no tasks; it is the first of
    a connection, with sequence number 0 and no utilization, or it has the sequence number
    after that of the message before it, and a utilization. *)
Theorem agent_messages inputs st sent :
  main_run args resources (main args resources) inputs = Some (st, sent) -> numbered sent.
Proof.
  intros Hr. enough (messages_ok st sent) by (by destruct H0).
  revert st sent Hr. induction inputs as [|i inputs IH] using rev_ind; intros st sent Hr.
  - injection Hr as <- <-. apply start_round_ok. by intros i r Hi.
  - apply main_run_snoc in Hr as (st1 & l1 & l2 & Hr & Hs & ->).
    eapply messages_step; [by apply IH|exact Hs].
Qed.

(** With one of the three certificate paths missing an agent connects in plaintext: no file is
    read, no TLS is configured, and the bearer token is sent all the same. *)
Theorem partial_tls_is_plaintext h :
  tls_ca_cert args = None \/ tls_cert args = None \/ tls_key args = None ->
  agent_token args <> "" -> MetadataValue_ok ("Bearer " +:+ agent_token args) = true ->
  (forall c, is_Some (h c)) ->
  exists rest, (run h (connect (control_plane args) resources (token_of args) (tls_of args))).2 =
    [Endpoint_from_shared (control_plane args); endpoint_connect;
     client_register (register_request resources) (Some ("Bearer " +:+ agent_token args))] ++ rest.
Proof.
  intros Hp Ht Hm Hh.
  assert (tls_of args = None) as ->.
  { unfold tls_of. destruct Hp as [-> |[-> | ->]]; repeat case_match; done. }
  assert (Hb : bearer (token_of args) = Some (Some ("Bearer " +:+ agent_token args))).
  { unfold token_of. rewrite (proj2 (String.eqb_neq _ _)) by done. unfold bearer. by rewrite Hm. }
  unfold connect, configure_tls, or_fail, await. rewrite Hb. simpl.
  repeat match goal with
  | |- context [h ?c] => let E := fresh in destruct (Hh c) as [? E]; rewrite E; simpl
  end.
  match goal with |- context [run h ?p] => destruct (run h p) as [? l] end. by exists l.
Qed.
End facts.
