(* ===== verification/Json.v ===== *)
(** What [encoding/json] writes, as the REST API uses it ([json.NewEncoder(w).Encode]): compact
    values, with strings escaped as the encoder does by default (HTML characters too, and
    invalid UTF-8 replaced), and a decoder for such texts, with the round trip.

    A text is a list of bytes.  A number is the token that stands for it. *)
From S2P Require Import Prelude GoRuntime GoStrings.
From Stdlib Require Import Ascii DecimalString DecimalZ.
Local Open Scope string_scope.
Local Open Scope Z_scope.
Local Open Scope list_scope.

#[local] Unset Elimination Schemes.
Inductive json : Type :=
  | JString (s : list Z)
  | JNumber (token : list Z)
  | JArray (l : list json)
  | JObject (l : list (list Z * json)).
#[local] Set Elimination Schemes.

(** ** Encoding *)
Definition quote_mark : Z := 34.
Definition backslash : Z := 92.
Definition hex (d : Z) : Z := if d <? 10 then 48 + d else 87 + d.

(** [htmlSafeSet]. *)
Definition htmlSafe (b : Z) : bool :=
  (0x20 <=? b) && negb (existsb (Z.eqb b) [34; 92; 60; 62; 38]).

Definition escape_byte (b : Z) : list Z :=
  if htmlSafe b then [b]
  else if (b =? backslash) || (b =? quote_mark) then [backslash; b]
  else if b =? 8 then bytes "\b"
  else if b =? 12 then bytes "\f"
  else if b =? 10 then bytes "\n"
  else if b =? 13 then bytes "\r"
  else if b =? 9 then bytes "\t"
  else bytes "\u00" ++ [hex (Z.shiftr b 4); hex (Z.land b 0xF)].

(** The loop of [appendString]; the length of the string is fuel enough ([unquote_escape]). *)
Fixpoint escape (fuel : nat) (s : list Z) : list Z :=
  match fuel, s with
  | S fuel, b :: t =>
      if b <? 0x80 then escape_byte b ++ escape fuel t
      else
        let '(c, w) := decode_rune (b :: t) in
        if (c =? RuneError) && (Nat.eqb w 1) then bytes "\ufffd" ++ escape fuel t
        else if (c =? 0x2028) || (c =? 0x2029)
        then bytes "\u202" ++ [hex (Z.land c 0xF)] ++ escape fuel (drop w (b :: t))
        else take w (b :: t) ++ escape fuel (drop w (b :: t))
  | _, _ => []
  end.
Definition appendString (s : list Z) : list Z :=
  [quote_mark] ++ escape (length s) s ++ [quote_mark].

(** A value; elements and members are separated by commas. *)
Fixpoint print (v : json) : list Z :=
  match v with
  | JString s => appendString s
  | JNumber token => token
  | JArray l =>
      [91] ++ (fix elems (l : list json) :=
                 match l with
                 | [] => []
                 | [v] => print v
                 | v :: l => print v ++ [44] ++ elems l
                 end) l ++ [93]
  | JObject l =>
      [123] ++ (fix members (l : list (list Z * json)) :=
                  match l with
                  | [] => []
                  | [(k, v)] => appendString k ++ [58] ++ print v
                  | (k, v) :: l => appendString k ++ [58] ++ print v ++ [44] ++ members l
                  end) l ++ [125]
  end.

(** [json.Encoder.Encode] ends a value with a newline. *)
Definition encode (v : json) : list Z := print v ++ [10].

(** [strconv.AppendInt]. *)
Definition int_token (z : Z) : list Z := bytes (NilZero.string_of_int (Z.to_int z)).

(** ** Decoding *)
Definition unhex (h : Z) : option Z :=
  if (48 <=? h) && (h <=? 57) then Some (h - 48)
  else if (97 <=? h) && (h <=? 102) then Some (h - 87)
  else if (65 <=? h) && (h <=? 70) then Some (h - 55)
  else None.

(** The UTF-8 form of a code point below 0x10000. *)
Definition encode_rune (c : Z) : list Z :=
  if c <? 0x80 then [c]
  else if c <? 0x800 then [0xC0 + c / 64; 0x80 + c mod 64]
  else [0xE0 + c / 4096; 0x80 + (c / 64) mod 64; 0x80 + c mod 64].

Definition unescape (e : Z) : option Z :=
  if (e =? quote_mark) || (e =? backslash) || (e =? 47) then Some e
  else if e =? 98 then Some 8
  else if e =? 102 then Some 12
  else if e =? 110 then Some 10
  else if e =? 114 then Some 13
  else if e =? 116 then Some 9
  else None.

Definition cons_bytes (l : list Z) (p : list Z * list Z) : list Z * list Z := ((l ++ p.1)%list, p.2).

(** The characters of a string up to its closing quote, and what follows; surrogates, which
    the encoder never writes, are refused. *)
Fixpoint unquote (s : list Z) : option (list Z * list Z) :=
  match s with
  | [] => None
  | b :: t =>
      if b =? quote_mark then Some ([], t)
      else if b =? backslash then
        match t with
        | [] => None
        | e :: t =>
            if e =? 117 then
              match t with
              | h1 :: h2 :: h3 :: h4 :: t =>
                  match unhex h1, unhex h2, unhex h3, unhex h4 with
                  | Some d1, Some d2, Some d3, Some d4 =>
                      let c := ((d1 * 16 + d2) * 16 + d3) * 16 + d4 in
                      if (0xD800 <=? c) && (c <=? 0xDFFF) then None
                      else cons_bytes (encode_rune c) <$> unquote t
                  | _, _, _, _ => None
                  end
              | _ => None
              end
            else match unescape e with
                 | Some c => cons_bytes [c] <$> unquote t
                 | None => None
                 end
        end
      else if b <? 0x20 then None
      else cons_bytes [b] <$> unquote t
  end.

(** The characters of numbers. *)
Definition number_byte (b : Z) : bool :=
  ((48 <=? b) && (b <=? 57)) || existsb (Z.eqb b) [43; 45; 46; 69; 101].
Fixpoint span_number (s : list Z) : list Z * list Z :=
  match s with
  | b :: t => if number_byte b then let '(n, r) := span_number t in (b :: n, r) else ([], s)
  | [] => ([], [])
  end.

Fixpoint parse_value (n : nat) (s : list Z) : option (json * list Z) :=
  match n, s with
  | S n, b :: t =>
      if b =? quote_mark then (fun p => (JString p.1, p.2)) <$> unquote t
      else if b =? 91 then
        match t with
        | 93 :: t => Some (JArray [], t)
        | _ => (fun p => (JArray p.1, p.2)) <$> parse_elems n t
        end
      else if b =? 123 then
        match t with
        | 125 :: t => Some (JObject [], t)
        | _ => (fun p => (JObject p.1, p.2)) <$> parse_members n t
        end
      else match span_number s with
           | ([], _) => None
           | (token, r) => Some (JNumber token, r)
           end
  | _, _ => None
  end
with parse_elems (n : nat) (s : list Z) : option (list json * list Z) :=
  match n with
  | S n =>
      match parse_value n s with
      | Some (v, 44 :: r) => (fun p => (v :: p.1, p.2)) <$> parse_elems n r
      | Some (v, 93 :: r) => Some ([v], r)
      | _ => None
      end
  | O => None
  end
with parse_members (n : nat) (s : list Z) : option (list (list Z * json) * list Z) :=
  match n, s with
  | S n, 34 :: t =>
      match unquote t with
      | Some (k, 58 :: r) =>
          match parse_value n r with
          | Some (v, 44 :: r) => (fun p => ((k, v) :: p.1, p.2)) <$> parse_members n r
          | Some (v, 125 :: r) => Some ([(k, v)], r)
          | _ => None
          end
      | _ => None
      end
  | _, _ => None
  end.

(** A text of one value and a newline. *)
Definition decode (s : list Z) : option json :=
  match parse_value (length s) s with
  | Some (v, [10]) => Some v
  | _ => None
  end.

(** The integer a token stands for. *)
Definition token_int (token : list Z) : option Z :=
  Z.of_int <$> NilZero.int_of_string (of_bytes token).

(** A text, with single quotes for the double ones. *)
Example escaped_text :
  of_bytes ((fun b => if b =? quote_mark then 39 else b) <$>
    print (JObject [(bytes "status", JString (bytes "a<b")); (bytes "n", JArray [JNumber (int_token (-5))])]))
  = "{'status':'a\u003cb','n':[-5]}".
Proof. vm_compute. reflexivity. Qed.

(** * Facts *)

(** Induction through the lists of a value. *)
Lemma json_ind (P : json -> Prop) :
  (forall s, P (JString s)) -> (forall t, P (JNumber t)) ->
  (forall l, Forall P l -> P (JArray l)) ->
  (forall l, Forall (fun p => P p.2) l -> P (JObject l)) -> forall v, P v.
Proof.
  intros Hs Hn Ha Ho. fix rec 1. intros [s|t|l|l]; [apply Hs|apply Hn|apply Ha|apply Ho].
  - induction l as [|v l IH]; constructor; [apply rec|exact IH].
  - induction l as [|[k v] l IH]; constructor; [apply rec|exact IH].
Qed.

(** ** Strings *)

(** A valid UTF-8 text: decoding it meets no invalid sequence. *)
Fixpoint utf8_fuel (fuel : nat) (s : list Z) : bool :=
  match fuel, s with
  | S fuel, b :: t =>
      let '(c, w) := decode_rune (b :: t) in
      negb ((c =? RuneError) && (Nat.eqb w 1)) && utf8_fuel fuel (drop w (b :: t))
  | _, _ => true
  end.
Definition utf8 (s : list Z) : bool := utf8_fuel (length s) s.

Definition byte (b : Z) : Prop := 0 <= b < 256.

Lemma utf8_ascii s : Forall (fun b => b < 0x80) s -> utf8 s = true.
Proof.
  intros Hs. unfold utf8. generalize (length s). intros f. revert s Hs.
  induction f as [|f IH]; intros [|b t] Hs; try done. inversion_clear Hs.
  cbn [utf8_fuel]. rewrite decode_rune_ascii by done.
  destruct (Z.eqb_spec b RuneError) as [->|_]; [done|]. by apply IH.
Qed.

(** ASCII characters come back, escaped or not. *)
Lemma unquote_ascii b r :
  0 <= b < 0x80 -> unquote (escape_byte b ++ r) = cons_bytes [b] <$> unquote r.
Proof.
  intros Hb. assert (Hall : Forall (fun b => unquote (escape_byte b ++ r) = cons_bytes [b] <$> unquote r)
    (seqZ 0 128)) by (vm_compute seqZ; repeat constructor).
  rewrite Forall_forall in Hall. apply Hall, elem_of_seqZ. lia.
Qed.

(** Bytes beyond ASCII are copied. *)
Lemma unquote_copy l r :
  Forall (fun b => 0x80 <= b) l -> unquote (l ++ r) = cons_bytes l <$> unquote r.
Proof.
  induction 1 as [|b l Hb _ IH]; simpl.
  - destruct (unquote r) as [[u v]|]; reflexivity.
  - unfold quote_mark, backslash. rewrite !(proj2 (Z.eqb_neq _ _)), (proj2 (Z.ltb_ge _ _)) by lia.
    rewrite IH. destruct (unquote r) as [[u v]|]; reflexivity.
Qed.

(** A valid multi-byte sequence is as long as it says and has no ASCII byte. *)
Lemma decode_rune_bytes b t c w :
  0x80 <= b -> decode_rune (b :: t) = (c, w) -> negb ((c =? RuneError) && (Nat.eqb w 1)) = true ->
  (w <= S (length t))%nat /\ Forall (fun b => 0x80 <= b) (take w (b :: t)).
Proof.
  intros Hb. unfold decode_rune, is_cont. rewrite (proj2 (Z.ltb_ge _ _)) by done.
  repeat case_match; intros [= <- <-] Hok; try discriminate Hok; simpl; (split; [lia|]);
    repeat constructor; try done; nm_bool; repeat case_match; lia.
Qed.

(** Only E2 80 A8 and E2 80 A9 decode to the line and paragraph separators. *)
Definition separator (c : Z) : bool := (c =? 0x2028) || (c =? 0x2029).

Lemma two_bytes_separator b0 b1 :
  0xC2 <= b0 <= 0xDF -> 0x80 <= b1 <= 0xBF ->
  separator (Z.lor (Z.shiftl (Z.land b0 0x1F) 6) (cont_bits b1)) = false.
Proof.
  intros H0 H1. apply negb_true_iff.
  apply (byte_check 0x80 0xBF (fun b1 => negb (separator (Z.lor (Z.shiftl (Z.land b0 0x1F) 6) (cont_bits b1)))) b1 H1).
  apply (byte_check 0xC2 0xDF (fun b0 => forallb (fun b1 => negb (separator
    (Z.lor (Z.shiftl (Z.land b0 0x1F) 6) (cont_bits b1)))) (seqZ 0x80 (0xBF - 0x80 + 1))) b0 H0).
  vm_compute. reflexivity.
Qed.

Lemma three_bytes_separator b0 b1 b2 :
  0xE0 <= b0 <= 0xEF -> 0x80 <= b1 <= 0xBF -> 0x80 <= b2 <= 0xBF ->
  let c := Z.lor (Z.lor (Z.shiftl (Z.land b0 0x0F) 12) (Z.shiftl (cont_bits b1) 6)) (cont_bits b2) in
  separator c = true -> [b0; b1; b2] = [0xE2; 0x80; 0x80 + (c - 0x2000)].
Proof.
  set (value b0 b1 b2 :=
    Z.lor (Z.lor (Z.shiftl (Z.land b0 0x0F) 12) (Z.shiftl (cont_bits b1) 6)) (cont_bits b2)).
  set (ok b0 b1 b2 := negb (separator (value b0 b1 b2))
    || ((b0 =? 0xE2) && (b1 =? 0x80) && (b2 =? 0x80 + (value b0 b1 b2 - 0x2000)))).
  intros H0 H1 H2 c Hc. assert (Hok : ok b0 b1 b2 = true).
  { apply (byte_check 0x80 0xBF (ok b0 b1) b2 H2).
    apply (byte_check 0x80 0xBF (fun b1 => forallb (ok b0 b1) (seqZ 0x80 (0xBF - 0x80 + 1))) b1 H1).
    apply (byte_check 0xE0 0xEF (fun b0 => forallb (fun b1 =>
      forallb (ok b0 b1) (seqZ 0x80 (0xBF - 0x80 + 1))) (seqZ 0x80 (0xBF - 0x80 + 1))) b0 H0).
    vm_compute. reflexivity. }
  unfold ok in Hok. change (value b0 b1 b2) with c in Hok. rewrite Hc in Hok. simpl in Hok.
  rewrite !andb_true_iff, !Z.eqb_eq in Hok. destruct Hok as [[H0' H1'] H2'].
  by rewrite <- H2', H0', H1'.
Qed.

#[local] Ltac test_bytes :=
  match goal with |- (if ?c then _ else _) = _ -> _ => destruct c eqn:E end;
  intros Hd Hs; injection Hd as <- <-; [|done].

Lemma decode_rune_separator b t c w :
  0x80 <= b -> Forall byte t -> decode_rune (b :: t) = (c, w) -> separator c = true ->
  take w (b :: t) = [0xE2; 0x80; 0x80 + (c - 0x2000)].
Proof.
  intros Hb Ht. unfold decode_rune, is_cont, RuneError. rewrite (proj2 (Z.ltb_ge _ _)) by done.
  destruct ((0xC2 <=? b) && (b <=? 0xDF)) eqn:E2.
  { cbv iota. destruct t as [|b1 t]; [by intros [= <- <-]|].
    test_bytes.
    rewrite two_bytes_separator in Hs; [done|nm_bool; lia..]. }
  destruct ((0xE0 <=? b) && (b <=? 0xEF)) eqn:E3; cbv iota.
  { cbv iota. destruct t as [|b1 [|b2 t]]; [by intros [= <- <-]..|].
    test_bytes.
    nm_bool. apply three_bytes_separator; [lia| |lia|exact Hs].
    destruct (b =? 0xE0), (b =? 0xED); lia. }
  destruct ((0xF0 <=? b) && (b <=? 0xF4)) eqn:E4; [|by intros [= <- <-]].
  cbv iota. destruct t as [|b1 [|b2 [|b3 t]]]; [by intros [= <- <-]..|].
  test_bytes.
  nm_bool. exfalso. unfold separator in Hs. nm_bool.
  assert (0x10000 <= Z.lor (Z.lor (Z.lor (Z.shiftl (Z.land b 0x07) 18) (Z.shiftl (cont_bits b1) 12))
                       (Z.shiftl (cont_bits b2) 6)) (cont_bits b3)); [|lia].
  apply four_bytes_big; [lia| |lia|lia]. destruct (b =? 0xF4); lia.
Qed.

(** A string comes back from its escaped form. *)
Lemma unquote_escape f s r :
  (length s <= f)%nat -> Forall byte s -> utf8_fuel f s = true ->
  unquote (escape f s ++ quote_mark :: r) = Some (s, r).
Proof.
  revert s. induction f as [|f IH]; intros [|b t] Hf Hs Hu; [done|simpl in Hf; lia|done|].
  pose proof (Forall_inv Hs) as Hb. unfold byte in Hb. pose proof (Forall_inv_tail Hs) as Ht.
  cbn [escape utf8_fuel length] in *.
  destruct (Z.ltb_spec b 0x80) as [Hlt|Hge].
  { rewrite decode_rune_ascii in Hu by done. apply andb_true_iff in Hu as [_ Hu]. simpl in Hu.
    rewrite <- app_assoc, unquote_ascii by lia. by rewrite IH by (done || lia). }
  destruct (decode_rune (b :: t)) as [c w] eqn:Hd. apply andb_true_iff in Hu as [Hok Hu].
  pose proof (decode_rune_width b t) as Hw. rewrite Hd in Hw. simpl in Hw.
  destruct (decode_rune_bytes b t c w Hge Hd Hok) as [Hle Hbig].
  assert (Hrest : unquote (escape f (drop w (b :: t)) ++ quote_mark :: r) = Some (drop w (b :: t), r)).
  { apply IH; [rewrite length_drop; simpl; lia|by apply Forall_drop|done]. }
  apply negb_true_iff in Hok. rewrite Hok.
  transitivity (cons_bytes (take w (b :: t)) <$> Some (drop w (b :: t), r)).
  2:{ unfold cons_bytes. cbn [fmap option_fmap option_map fst snd]. by rewrite take_drop. }
  fold (separator c). destruct (separator c) eqn:Hc.
  - rewrite (decode_rune_separator b t c w Hge Ht Hd Hc). rewrite <- !app_assoc.
    unfold separator in Hc. nm_bool. destruct Hc as [-> | ->]; simpl; by rewrite Hrest.
  - rewrite <- app_assoc, unquote_copy by done. by rewrite Hrest.
Qed.

(** ** Values *)

(** A string of a value is valid; a number is a token of number characters. *)
Definition text_ok (s : list Z) : Prop := Forall byte s /\ utf8 s = true.
#[local] Unset Elimination Schemes.
Inductive json_ok : json -> Prop :=
  | ok_string s : text_ok s -> json_ok (JString s)
  | ok_number t : t <> [] -> Forall (fun b => number_byte b = true) t -> json_ok (JNumber t)
  | ok_array l : Forall json_ok l -> json_ok (JArray l)
  | ok_object l : Forall (fun p => text_ok p.1 /\ json_ok p.2) l -> json_ok (JObject l).
#[local] Set Elimination Schemes.

Lemma unquote_appendString s r : text_ok s -> unquote (escape (length s) s ++ quote_mark :: r) = Some (s, r).
Proof. intros [Hs Hu]. by apply unquote_escape. Qed.

(** What may follow a number. *)
Definition ends_number (r : list Z) : Prop :=
  match r with b :: _ => number_byte b = false | [] => True end.

Lemma span_number_token t r :
  Forall (fun b => number_byte b = true) t -> ends_number r -> span_number (t ++ r) = (t, r).
Proof.
  intros Ht Hr. induction Ht as [|b t Hb _ IH]; simpl.
  - destruct r as [|b r]; [done|]. simpl in *. by rewrite Hr.
  - by rewrite Hb, IH.
Qed.

(** The elements of an array, and the members of an object, as [print] writes them. *)
Fixpoint elements (l : list json) : list Z :=
  match l with
  | [] => []
  | [v] => print v
  | v :: l => print v ++ [44] ++ elements l
  end.
Fixpoint members (l : list (list Z * json)) : list Z :=
  match l with
  | [] => []
  | [(k, v)] => appendString k ++ [58] ++ print v
  | (k, v) :: l => appendString k ++ [58] ++ print v ++ [44] ++ members l
  end.
Lemma print_array l : print (JArray l) = [91] ++ elements l ++ [93].
Proof. reflexivity. Qed.
Lemma print_object l : print (JObject l) = [123] ++ members l ++ [125].
Proof. reflexivity. Qed.

(** How a value begins. *)
Lemma print_head v : json_ok v -> exists b t, print v = b :: t /\ b <> 93 /\ b <> 125.
Proof.
  destruct 1 as [s|t Ht Hb|l|l]; [by eexists _, _|..|by eexists _, _|by eexists _, _].
  destruct Hb as [|b t Hb _]; [done|]. eexists b, t. split; [done|].
  split; intros ->; discriminate Hb.
Qed.

Definition parses (v : json) : Prop := json_ok v -> forall n r, (length (print v) <= n)%nat ->
  ends_number r -> parse_value n (print v ++ r) = Some (v, r).

Lemma parse_elements l n r :
  l <> [] -> Forall parses l -> Forall json_ok l -> (length (elements l) + 1 <= n)%nat ->
  parse_elems n (elements l ++ 93 :: r) = Some (l, r).
Proof.
  intros Hne Hp. revert n Hne. induction Hp as [|v l Hv _ IH]; intros n Hne Hok Hn; [done|].
  apply Forall_cons in Hok as [Hokv Hok]. destruct n as [|n]; [simpl in Hn; lia|].
  destruct l as [|v2 l].
  - simpl in Hn |- *. rewrite (Hv Hokv) by (done || lia). done.
  - change (elements (v :: v2 :: l)) with (print v ++ [44] ++ elements (v2 :: l)) in *.
    rewrite !length_app in Hn. change (length [44]) with 1%nat in Hn. rewrite <- !app_assoc.
    cbn [parse_elems]. rewrite (Hv Hokv) by (done || lia). cbn [app].
    rewrite IH by (done || lia). done.
Qed.

Lemma parse_the_members l n r :
  l <> [] -> Forall (fun p => parses p.2) l -> Forall (fun p => text_ok p.1 /\ json_ok p.2) l ->
  (length (members l) + 1 <= n)%nat ->
  parse_members n (members l ++ 125 :: r) = Some (l, r).
Proof.
  intros Hne Hp. revert n Hne. induction Hp as [|[k v] l Hv _ IH]; intros n Hne Hok Hn; [done|].
  apply Forall_cons in Hok as [[Hk Hokv] Hok]. simpl in Hk, Hokv, Hv.
  destruct n as [|n]; [simpl in Hn; lia|].
  assert (Hkey : forall r, appendString k ++ r = 34 :: escape (length k) k ++ quote_mark :: r)
    by (intros r'; unfold appendString; by rewrite <- !app_assoc).
  assert (Hlen : (1 <= length (appendString k))%nat) by (unfold appendString; simpl; lia).
  destruct l as [|[k2 v2] l].
  - change (members [(k, v)]) with (appendString k ++ [58] ++ print v) in *.
    rewrite !length_app in Hn. rewrite <- !app_assoc, Hkey. cbn [parse_members].
    rewrite unquote_appendString by done. cbn [app]. by rewrite (Hv Hokv) by (done || lia).
  - change (members ((k, v) :: (k2, v2) :: l))
      with (appendString k ++ [58] ++ print v ++ [44] ++ members ((k2, v2) :: l)) in *.
    rewrite !length_app in Hn. change (length [44]) with 1%nat in Hn.
    rewrite <- !app_assoc, Hkey. cbn [parse_members].
    rewrite unquote_appendString by done. cbn [app]. rewrite (Hv Hokv) by (done || lia).
    rewrite IH by (done || lia). done.
Qed.

(** A value comes back from its text, whatever follows that does not continue a number. *)
Lemma parse_print v : parses v.
Proof.
  induction v as [s|t|l IH|l IH] using json_ind; intros Hok n r Hn Hr; inversion Hok; subst.
  - destruct n as [|n]; [simpl in Hn; lia|]. simpl. rewrite <- app_assoc. simpl.
    by rewrite unquote_appendString.
  - destruct t as [|b t]; [done|]. destruct n as [|n]; [simpl in Hn; lia|].
    match goal with H : Forall _ (b :: t) |- _ => pose proof (Forall_inv H) as Hb end.
    cbn [print app parse_value]. change (b :: t ++ r) with ((b :: t) ++ r).
    rewrite span_number_token by done.
    destruct (Z.eqb_spec b quote_mark) as [->|_]; [discriminate Hb|].
    destruct (Z.eqb_spec b 91) as [->|_]; [discriminate Hb|].
    destruct (Z.eqb_spec b 123) as [->|_]; [discriminate Hb|]. done.
  - rewrite print_array in *. destruct n as [|n]; [simpl in Hn; lia|].
    rewrite !length_app in Hn. rewrite <- !app_assoc. cbn [app parse_value].
    destruct l as [|v l]; [done|].
    match goal with H : Forall json_ok _ |- _ => rename H into Hl end.
    pose proof (parse_elements (v :: l) n r) as Hp.
    destruct (print_head v (Forall_inv Hl)) as (b & t & Hh & H93 & _).
    assert (Hhead : exists t', elements (v :: l) ++ 93 :: r = b :: t')
      by (simpl; rewrite Hh; destruct l; simpl; eauto).
    destruct Hhead as [t' Ht']. rewrite Ht' in *. simpl in Hn.
    replace (91 =? quote_mark) with false by done. change (91 =? 91) with true. cbv iota.
    rewrite Hp by (done || (simpl; lia)).
    by repeat (case_match; try done; try congruence).
  - rewrite print_object in *. destruct n as [|n]; [simpl in Hn; lia|].
    rewrite !length_app in Hn. rewrite <- !app_assoc. cbn [app parse_value].
    destruct l as [|[k v] l]; [done|].
    pose proof (parse_the_members ((k, v) :: l) n r) as Hp.
    assert (Hhead : exists t', members ((k, v) :: l) ++ 125 :: r = 34 :: t')
      by (destruct l; eexists; reflexivity).
    destruct Hhead as [t' Ht']. rewrite Ht' in *. simpl in Hn.
    change (123 =? quote_mark) with false. change (123 =? 91) with false.
    change (123 =? 123) with true. cbv iota. rewrite Hp by (done || (simpl; lia)). done.
Qed.

Lemma decode_encode v : json_ok v -> decode (encode v) = Some v.
Proof.
  intros Hok. unfold decode, encode. rewrite parse_print; [done|done|rewrite length_app; lia|done].
Qed.

(** ** Tokens of integers *)
Lemma token_int_token z : token_int (int_token z) = Some z.
Proof.
  unfold token_int, int_token. rewrite of_bytes_bytes, <- (of_to z) at 1.
  assert (Hd : forall d, Z.of_int <$> NilZero.int_of_string (NilZero.string_of_int d) = Some (Z.of_int d)).
  { intros [[]|[]]; try reflexivity; rewrite NilZero.isi by discriminate; reflexivity. }
  rewrite Hd. by rewrite !of_to.
Qed.

Lemma uint_bytes d : Forall (fun b => number_byte b = true) (bytes (NilEmpty.string_of_uint d)).
Proof. induction d; simpl; [constructor|constructor; [reflexivity|done]..]. Qed.

Lemma int_token_ok z : json_ok (JNumber (int_token z)).
Proof.
  assert (Hu : forall d, bytes (NilZero.string_of_uint d) <> []
    /\ Forall (fun b => number_byte b = true) (bytes (NilZero.string_of_uint d))).
  { intros d. destruct d; (split; [done|]); [repeat constructor|apply (uint_bytes (_ d))..]. }
  unfold int_token. destruct (Z.to_int z) as [d|d]; simpl; destruct (Hu d);
    constructor; try done. by constructor.
Qed.
