(* ===== verification/RestApi.v ===== *)
(** [control-plane/internal/restapi/restapi.go]: the HTTP handlers and the shapes they answer
    with.

    A response is what a handler did to its [http.ResponseWriter]: the header being prepared,
    the status and header sent (on the first write) and the values encoded as JSON into the
    body; the text of the JSON encoding is not modelled.  A request is what the handlers read
    of it, the header and query look-ups. *)
From S2P Require Import Prelude GoRuntime GoStrings GoFloat GoTime PbResource PbAgent Grpc World Registry.
From S2P Require Import RegistryApi.
From Stdlib Require Import SpecFloat.
Local Open Scope string_scope.
Local Open Scope Z_scope.

(** ** Response shapes *)
Record CPUSummary := mkCPUSummary {
  cs_PhysicalCores : Z;
  cs_LogicalCores : Z;
  cs_Architecture : string;
  cs_Model : string
}.
Record MemorySummary := mkMemorySummary { ms_TotalGB : spec_float }.
Record GPUSummary := mkGPUSummary {
  gs_Index : Z;
  gs_Vendor : string;
  gs_Model : string;
  gs_VRamGB : spec_float
}.
Record NodeResponse := mkNodeResponse {
  nr_NodeID : string;
  nr_Hostname : string;
  nr_Address : string;
  nr_CPU : CPUSummary;
  nr_Memory : MemorySummary;
  nr_GPUs : list GPUSummary;
  nr_LastBeat : string
}.

(** ** Mapping helpers *)

(** [float64(n) / (1024 * 1024 * 1024)]. *)
Definition gigabytes (n : Z) : spec_float := SFdiv 53 1024 (float64_of n) (float64_of (2 ^ 30)).

(** [int(x)] of an [int32] is [x]. *)
Definition cpuSummary (c : option CpuResources) : CPUSummary :=
  match c with
  | None => mkCPUSummary 0 0 "" ""
  | Some c => {|
      cs_PhysicalCores := CpuResources_PhysicalCores c;
      cs_LogicalCores := CpuResources_LogicalCores c;
      cs_Architecture := CpuResources_Architecture c;
      cs_Model := CpuResources_ModelName c |}
  end.

Definition memorySummary (m : option MemoryResources) : MemorySummary :=
  match m with
  | None => mkMemorySummary (S754_zero false)
  | Some m => mkMemorySummary (gigabytes (MemoryResources_TotalBytes m))
  end.

Definition gpuSummary (gs : list GpuResources) : list GPUSummary :=
  if Z.of_nat (length gs) =? 0 then []
  else map (fun g => {|
    gs_Index := GpuResources_Index g;
    gs_Vendor := GpuResources_Vendor g;
    gs_Model := GpuResources_Model g;
    gs_VRamGB := gigabytes (GpuResources_VramBytes g) |}) gs.

(** ** Requests and responses *)
Record Request := mkRequest {
  Header_Get : string -> string;        (* r.Header.Get *)
  Query_Get : string -> string          (* r.URL.Query().Get *)
}.

(** A value given to [json.NewEncoder(w).Encode]. *)
Inductive Json : Type :=
  | JStrings (m : list (string * string))       (* map[string]string *)
  | JNodes (l : list NodeResponse).

Record ResponseWriter := mkWriter {
  header : gmap string string;
  sent : option (Z * gmap string string);       (* status and header, once written *)
  body : list Json
}.
Definition fresh_writer : ResponseWriter := mkWriter ∅ None [].

Definition Header_Set (k v : string) (w : ResponseWriter) : ResponseWriter :=
  mkWriter (<[k := v]> (header w)) (sent w) (body w).
Definition WriteHeader (status : Z) (w : ResponseWriter) : ResponseWriter :=
  match sent w with
  | None => mkWriter (header w) (Some (status, header w)) (body w)
  | Some _ => w                                  (* superfluous, ignored *)
  end.
(** The first write sends the header with status 200. *)
Definition Encode (j : Json) (w : ResponseWriter) : ResponseWriter :=
  let w := WriteHeader 200 w in mkWriter (header w) (sent w) (body w ++ [j]).

Definition HandlerFunc : Type := ResponseWriter -> Request -> Go World ResponseWriter.

(** ** APIServer *)
Record APIServer := mkAPIServer { apiKey : string; tlsEnabled : bool }.
Definition NewAPIServer (apiKey : string) (tlsEnabled : bool) : APIServer :=
  mkAPIServer apiKey tlsEnabled.

Definition setSecurityHeaders (w : ResponseWriter) (tlsEnabled : bool) : ResponseWriter :=
  let w := Header_Set "X-Content-Type-Options" "nosniff" w in
  let w := Header_Set "X-Frame-Options" "DENY" w in
  let w := Header_Set "Referrer-Policy" "strict-origin-when-cross-origin" w in
  if tlsEnabled
  then Header_Set "Strict-Transport-Security" "max-age=31536000; includeSubDomains" w
  else w.

Definition RequireAPIKey (a : APIServer) (next : HandlerFunc) : HandlerFunc := fun w r =>
  let unauthorized :=
    if negb (String.eqb (apiKey a) "") then
      let key := Header_Get r "X-API-Key" in
      let key := if String.eqb key "" then Query_Get r "api_key" else key in
      negb (ConstantTimeCompare key (apiKey a) =? 1)
    else false in
  if unauthorized then
    let w := setSecurityHeaders w (tlsEnabled a) in
    let w := Header_Set "Content-Type" "application/json" w in
    let w := WriteHeader 401 w in
    mret (Encode (JStrings [("error", "unauthorized")]) w)
  else next w r.

Definition HealthHandler (a : APIServer) : HandlerFunc := fun w _ =>
  let w := setSecurityHeaders w (tlsEnabled a) in
  let w := Header_Set "Content-Type" "application/json" w in
  mret (Encode (JStrings [("status", "ok")]) w).

Section nodes.
Context `{!RegistryOps, !LocalZone}.

Definition node_response (n : NodeSummary) : NodeResponse := {|
  nr_NodeID := ns_NodeID n;
  nr_Hostname := ns_Hostname n;
  nr_Address := ns_Address n;
  nr_CPU := cpuSummary (ns_CPU n);
  nr_Memory := memorySummary (ns_Memory n);
  nr_GPUs := gpuSummary (ns_GPUs n);
  nr_LastBeat := Format_RFC3339 (ns_LastBeat n) |}.

Definition NodesHandler (a : APIServer) : HandlerFunc := fun w _ =>
  let w := setSecurityHeaders w (tlsEnabled a) in
  let w := Header_Set "Content-Type" "application/json" w in
  nodes ← reg_GetAll;
  let out := foldl (fun out n => (out ++ [node_response n])%list) [] nodes in
  mret (Encode (JNodes out) w).
End nodes.

(** * Properties *)

(** The header of an answer: JSON, with the security headers, and HSTS exactly under TLS. *)
Definition secure_json (tls : bool) (h : gmap string string) : Prop :=
  h !! "Content-Type" = Some "application/json"
  /\ h !! "X-Content-Type-Options" = Some "nosniff"
  /\ h !! "X-Frame-Options" = Some "DENY"
  /\ h !! "Referrer-Policy" = Some "strict-origin-when-cross-origin"
  /\ h !! "Strict-Transport-Security" =
     if tls then Some "max-age=31536000; includeSubDomains" else None.

Lemma secure_json_headers tls :
  secure_json tls (header (Header_Set "Content-Type" "application/json"
                             (setSecurityHeaders fresh_writer tls))).
Proof. unfold secure_json. destruct tls; repeat split; vm_compute; reflexivity. Qed.

(** Answering from a fresh writer sends the header prepared. *)
Lemma sent_answer tls status j :
  let rw := Header_Set "Content-Type" "application/json" (setSecurityHeaders fresh_writer tls) in
  sent (Encode j (WriteHeader status rw)) = Some (status, header rw)
  /\ sent (Encode j rw) = Some (200, header rw)
  /\ body (Encode j (WriteHeader status rw)) = [j] /\ body (Encode j rw) = [j].
Proof. by destruct tls. Qed.

(** The key a request presents: the header, or the query parameter without one. *)
Definition presented_key (r : Request) : string :=
  if decide (Header_Get r "X-API-Key" = "") then Query_Get r "api_key" else Header_Get r "X-API-Key".

(** The two outcomes of the middleware. *)
Lemma RequireAPIKey_cases a next r w :
  let allowed := apiKey a = "" \/ presented_key r = apiKey a in
  (allowed -> forall rw, RequireAPIKey a next rw r w = next rw r w)
  /\ (~ allowed -> exists rw' h, RequireAPIKey a next fresh_writer r w = (Ret rw', w)
       /\ sent rw' = Some (401, h) /\ secure_json (tlsEnabled a) h
       /\ body rw' = [JStrings [("error", "unauthorized")]]).
Proof.
  unfold RequireAPIKey, presented_key.
  destruct (String.eqb_spec (apiKey a) "") as [He|He]; simpl.
  { split; [done|]. intros Hn. destruct Hn. by left. }
  assert (Hk : (if String.eqb (Header_Get r "X-API-Key") "" then Query_Get r "api_key"
                else Header_Get r "X-API-Key") = presented_key r).
  { unfold presented_key. destruct (String.eqb_spec (Header_Get r "X-API-Key") "");
      by case_decide. }
  rewrite Hk, ConstantTimeCompare_eq. fold (presented_key r).
  destruct (decide (presented_key r = apiKey a)) as [Hp|Hp]; simpl.
  - split; [done|]. intros Hn. destruct Hn. by right.
  - split; [intros [?|?]; done|]. intros _. eexists _, _. split; [done|].
    destruct (sent_answer (tlsEnabled a) 401 (JStrings [("error", "unauthorized")])) as (Hs & _ & Hb & _).
    split; [exact Hs|]. split; [apply secure_json_headers|exact Hb].
Qed.

(** C8: the middleware lets a request through exactly when no key is configured or the one it
    presents (the [X-API-Key] header, and only without one the [api_key] parameter) equals the
    configured key; then the wrapped handler decides everything.  Any other request is
    answered 401 with the security headers and an error body, and the wrapped handler is not
    run. *)
Theorem RequireAPIKey_spec a next r w :
  let allowed := apiKey a = "" \/ presented_key r = apiKey a in
  (allowed -> forall rw, RequireAPIKey a next rw r w = next rw r w)
  /\ (~ allowed -> exists rw' h, RequireAPIKey a next fresh_writer r w = (Ret rw', w)
       /\ sent rw' = Some (401, h) /\ secure_json (tlsEnabled a) h
       /\ body rw' = [JStrings [("error", "unauthorized")]]).
Proof. apply RequireAPIKey_cases. Qed.

(** The liveness probe answers 200 with a fixed body and the security headers, whoever
    asks, and touches nothing. *)
Theorem HealthHandler_spec a r w :
  exists rw h, HealthHandler a fresh_writer r w = (Ret rw, w)
  /\ sent rw = Some (200, h) /\ secure_json (tlsEnabled a) h
  /\ body rw = [JStrings [("status", "ok")]].
Proof.
  eexists _, _. split; [done|].
  destruct (sent_answer (tlsEnabled a) 200 (JStrings [("status", "ok")])) as (_ & Hs & _ & Hb).
  split; [exact Hs|]. split; [apply secure_json_headers|exact Hb].
Qed.

Section nodes_properties.
Context `{!RegistryOps, !RegistryLaws, !LocalZone}.

(** What the listing shows of a node. *)
Definition listed (n : NodeInfo) : NodeResponse := {|
  nr_NodeID := NodeID n;
  nr_Hostname := NodeResources_GetHostname (Resources n);
  nr_Address := Address n;
  nr_CPU := mkCPUSummary
    (CpuResources_GetPhysicalCores (NodeResources_GetCpu (Resources n)))
    (CpuResources_GetLogicalCores (NodeResources_GetCpu (Resources n)))
    (CpuResources_GetArchitecture (NodeResources_GetCpu (Resources n)))
    (CpuResources_GetModelName (NodeResources_GetCpu (Resources n)));
  nr_Memory := mkMemorySummary
    (match NodeResources_GetMemory (Resources n) with
     | Some m => gigabytes (MemoryResources_TotalBytes m)
     | None => S754_zero false
     end);
  nr_GPUs := (fun g => mkGPUSummary (GpuResources_Index g) (GpuResources_Vendor g)
               (GpuResources_Model g) (gigabytes (GpuResources_VramBytes g)))
             <$> NodeResources_GetGpus (Resources n);
  nr_LastBeat := Format_RFC3339 (LastBeat n) |}.

Lemma NodesHandler_run a r w :
  exists rw w' h l, NodesHandler a fresh_writer r w = (Ret rw, w')
  /\ sent rw = Some (200, h) /\ secure_json (tlsEnabled a) h /\ body rw = [JNodes l]
  /\ l ≡ₚ (fun p : string * NodeInfo => listed p.2) <$> map_to_list (w_nodes w)
  /\ w_nodes w' = w_nodes w /\ logs w' = logs w.
Proof.
  destruct (law_GetAll w) as (sums & w' & Hr & (_ & Hl & _) & Hn & Hp).
  unfold NodesHandler, mbind, go_bind. rewrite Hr.
  eexists _, w', _, _. split; [done|].
  match goal with |- context [Encode ?j _] =>
    destruct (sent_answer (tlsEnabled a) 200 j) as (_ & Hs & _ & Hb) end.
  split; [exact Hs|]. split; [apply secure_json_headers|]. split; [exact Hb|]. split; [|done].
  assert (Hf : forall l (out : list NodeResponse),
    foldl (fun out n => (out ++ [node_response n])%list) out l = (out ++ (node_response <$> l))%list).
  { induction l as [|n l IH]; intros out; simpl; [by rewrite app_nil_r|].
    by rewrite IH, <- app_assoc. }
  rewrite Hf, Hp. simpl. rewrite <- list_fmap_compose. apply reflexive_eq, list_fmap_ext.
  intros _ [k n] _. unfold compose, listed, node_response, cpuSummary, memorySummary, gpuSummary. simpl.
  f_equal.
  - by destruct (NodeResources_GetCpu (Resources n)).
  - by destruct (NodeResources_GetMemory (Resources n)).
  - by destruct (NodeResources_GetGpus (Resources n)).
Qed.

(** The node listing answers 200 with the security headers and one entry per registered
    node, each exactly once, with the node's identity, address, hostname and hardware
    (zeros and empty texts for what its resources leave out) and the text of its last beat;
    it changes no node and logs nothing. *)
Theorem NodesHandler_spec a r w :
  exists rw w' h l, NodesHandler a fresh_writer r w = (Ret rw, w')
  /\ sent rw = Some (200, h) /\ secure_json (tlsEnabled a) h /\ body rw = [JNodes l]
  /\ l ≡ₚ (fun p : string * NodeInfo => {|
       nr_NodeID := NodeID p.2;
       nr_Hostname := NodeResources_GetHostname (Resources p.2);
       nr_Address := Address p.2;
       nr_CPU := mkCPUSummary
         (CpuResources_GetPhysicalCores (NodeResources_GetCpu (Resources p.2)))
         (CpuResources_GetLogicalCores (NodeResources_GetCpu (Resources p.2)))
         (CpuResources_GetArchitecture (NodeResources_GetCpu (Resources p.2)))
         (CpuResources_GetModelName (NodeResources_GetCpu (Resources p.2)));
       nr_Memory := mkMemorySummary
         (match NodeResources_GetMemory (Resources p.2) with
          | Some m => gigabytes (MemoryResources_TotalBytes m)
          | None => S754_zero false
          end);
       nr_GPUs := (fun g => mkGPUSummary (GpuResources_Index g) (GpuResources_Vendor g)
                    (GpuResources_Model g) (gigabytes (GpuResources_VramBytes g)))
                  <$> NodeResources_GetGpus (Resources p.2);
       nr_LastBeat := Format_RFC3339 (LastBeat p.2) |}) <$> map_to_list (w_nodes w)
  /\ w_nodes w' = w_nodes w /\ logs w' = logs w.
Proof. apply NodesHandler_run. Qed.

(** The last beat of a listed node can be read back from its text, to the second, when
    the local offset is a whole number of minutes and the year has four digits. *)
Theorem last_beat_roundtrip n :
  let unix := t_wall (ns_LastBeat n) / Second in
  let offset := utc_offset unix in
  offset mod 60 = 0 -> - 100 * 3600 < offset < 100 * 3600 ->
  0 <= (civil_from_days ((unix + offset) / 86400)).1.1 <= 9999 ->
  Parse_RFC3339 (nr_LastBeat (node_response n)) = Some unix.
Proof. apply RFC3339_round. Qed.
End nodes_properties.
