(* ===== verification/RestText.v ===== *)
(** The JSON text of the REST API's answers ([control-plane/internal/restapi/restapi.go]): the
    names its struct tags give the fields, and how a client reads the listing back.

    The decimal text of a [float64] is [strconv]'s: an interface here, with the law that a
    number can be read back from the shortest text that identifies it. *)
From S2P Require Import Prelude GoRuntime GoStrings GoFloat GoTime PbResource PbAgent Grpc World Registry.
From S2P Require Import RegistryApi Json RestApi.
From Stdlib Require Import SpecFloat.
Local Open Scope string_scope.
Local Open Scope Z_scope.

Class FloatText := {
  AppendFloat : spec_float -> list Z;
  ParseFloat : list Z -> option spec_float
}.
Class FloatTextLaws `{!FloatText} : Prop := {
  AppendFloat_number f : float64 f -> json_ok (JNumber (AppendFloat f));
  ParseFloat_AppendFloat f : float64 f -> ParseFloat (AppendFloat f) = Some f
}.

(** * Operations *)
Section text.
Context `{!FloatText}.

Definition str (s : string) : json := JString (bytes s).
Definition int (z : Z) : json := JNumber (int_token z).
Definition float (f : spec_float) : json := JNumber (AppendFloat f).
Definition object (l : list (string * json)) : json :=
  JObject ((fun p => (bytes p.1, p.2)) <$> l).

Definition cpu_json (c : CPUSummary) : json := object [
  ("physical_cores", int (cs_PhysicalCores c)); ("logical_cores", int (cs_LogicalCores c));
  ("architecture", str (cs_Architecture c)); ("model", str (cs_Model c))].
Definition memory_json (m : MemorySummary) : json := object [("total_gb", float (ms_TotalGB m))].
Definition gpu_json (g : GPUSummary) : json := object [
  ("index", int (gs_Index g)); ("vendor", str (gs_Vendor g)); ("model", str (gs_Model g));
  ("vram_gb", float (gs_VRamGB g))].
Definition node_json (n : NodeResponse) : json := object [
  ("node_id", str (nr_NodeID n)); ("hostname", str (nr_Hostname n));
  ("address", str (nr_Address n)); ("cpu", cpu_json (nr_CPU n));
  ("memory", memory_json (nr_Memory n)); ("gpus", JArray (gpu_json <$> nr_GPUs n));
  ("last_beat", str (nr_LastBeat n))].

(** A value given to [Encode]; neither list is ever nil. *)
Definition json_of (j : Json) : json :=
  match j with
  | JStrings m => object ((fun p => (p.1, str p.2)) <$> m)
  | JNodes l => JArray (node_json <$> l)
  end.

(** What a handler has written. *)
Definition body_text (w : ResponseWriter) : list Z := mjoin ((fun j => encode (json_of j)) <$> body w).

(** ** Reading an answer back *)
Definition field (k : string) (v : json) : option json :=
  match v with
  | JObject l => snd <$> head (filter (fun p => p.1 = bytes k) l)
  | _ => None
  end.
Definition read_str (v : json) : option string :=
  match v with JString s => Some (of_bytes s) | _ => None end.
Definition read_int (v : json) : option Z :=
  match v with JNumber t => token_int t | _ => None end.
Definition read_float (v : json) : option spec_float :=
  match v with JNumber t => ParseFloat t | _ => None end.

Definition read_cpu (v : json) : option CPUSummary :=
  physical ← field "physical_cores" v ≫= read_int;
  logical ← field "logical_cores" v ≫= read_int;
  architecture ← field "architecture" v ≫= read_str;
  model ← field "model" v ≫= read_str;
  Some (mkCPUSummary physical logical architecture model).
Definition read_memory (v : json) : option MemorySummary :=
  total ← field "total_gb" v ≫= read_float;
  Some (mkMemorySummary total).
Definition read_gpu (v : json) : option GPUSummary :=
  index ← field "index" v ≫= read_int;
  vendor ← field "vendor" v ≫= read_str;
  model ← field "model" v ≫= read_str;
  vram ← field "vram_gb" v ≫= read_float;
  Some (mkGPUSummary index vendor model vram).
Definition read_gpus (v : json) : option (list GPUSummary) :=
  match v with JArray l => mapM read_gpu l | _ => None end.
Definition read_node (v : json) : option NodeResponse :=
  id ← field "node_id" v ≫= read_str;
  hostname ← field "hostname" v ≫= read_str;
  address ← field "address" v ≫= read_str;
  cpu ← field "cpu" v ≫= read_cpu;
  memory ← field "memory" v ≫= read_memory;
  gpus ← field "gpus" v ≫= read_gpus;
  beat ← field "last_beat" v ≫= read_str;
  Some (mkNodeResponse id hostname address cpu memory gpus beat).
Definition read_nodes (text : list Z) : option (list NodeResponse) :=
  v ← decode text;
  match v with JArray l => mapM read_node l | _ => None end.

(** * Facts *)

(** A response JSON can carry: UTF-8 texts and finite numbers. *)
Definition utf8_text (s : string) : Prop := utf8 (bytes s) = true.
Definition gpu_ok (g : GPUSummary) : Prop :=
  utf8_text (gs_Vendor g) /\ utf8_text (gs_Model g) /\ float64 (gs_VRamGB g).
Definition response_ok (n : NodeResponse) : Prop :=
  utf8_text (nr_NodeID n) /\ utf8_text (nr_Hostname n) /\ utf8_text (nr_Address n)
  /\ utf8_text (cs_Architecture (nr_CPU n)) /\ utf8_text (cs_Model (nr_CPU n))
  /\ float64 (ms_TotalGB (nr_Memory n)) /\ Forall gpu_ok (nr_GPUs n) /\ utf8_text (nr_LastBeat n).

Context `{!FloatTextLaws}.

Lemma text_bytes s : utf8_text s -> text_ok (bytes s).
Proof. intros Hu. split; [apply bytes_range|done]. Qed.
Lemma str_ok s : utf8_text s -> json_ok (str s).
Proof. intros Hu. by apply ok_string, text_bytes. Qed.
Lemma int_ok z : json_ok (int z).
Proof. apply int_token_ok. Qed.
Lemma float_ok f : float64 f -> json_ok (float f).
Proof. apply AppendFloat_number. Qed.
Lemma object_ok l :
  Forall (fun p => utf8_text p.1 /\ json_ok p.2) l -> json_ok (object l).
Proof.
  intros Hl. apply ok_object, Forall_fmap. eapply Forall_impl; [exact Hl|].
  intros [k v] [Hk Hv]. split; [by apply text_bytes|done].
Qed.

(** A size in gigabytes is a number. *)
Lemma gigabytes_float64 n : 0 <= n < 2 ^ 64 -> float64 (gigabytes n).
Proof.
  intros Hn. destruct (decide (n = 0)) as [->|Hne]; [by vm_compute|].
  assert (H30 : float64_of (2 ^ 30) = S754_finite false (2 ^ 52) (-22)) by (by vm_compute).
  unfold gigabytes. rewrite H30. apply (normal_float64 (-300) 300); [done..|].
  apply SFdiv_normal; [done|]. destruct (float64_of_normal n) as (s & m & e & -> & ? & ?); [lia|].
  exists s, m, e. repeat split; lia.
Qed.

(** The members of an object one by one, each with a literal name. *)
#[local] Ltac members_ok :=
  apply object_ok;
  repeat first
    [ apply Forall_nil_2
    | apply Forall_cons_2; [split; [reflexivity|cbn [snd]; auto using str_ok, int_ok, float_ok]|] ].

Lemma gpu_json_ok g : gpu_ok g -> json_ok (gpu_json g).
Proof. intros (? & ? & ?). members_ok. Qed.

Lemma node_json_ok n : response_ok n -> json_ok (node_json n).
Proof.
  intros (? & ? & ? & ? & ? & ? & Hg & ?).
  assert (json_ok (cpu_json (nr_CPU n))) by members_ok.
  assert (json_ok (memory_json (nr_Memory n))) by members_ok.
  assert (json_ok (JArray (gpu_json <$> nr_GPUs n)))
    by (apply ok_array, Forall_fmap; eapply Forall_impl; [exact Hg|apply gpu_json_ok]).
  members_ok.
Qed.

Lemma read_str_str s : read_str (str s) = Some s.
Proof. simpl. by rewrite of_bytes_bytes. Qed.
Lemma read_int_int z : read_int (int z) = Some z.
Proof. apply token_int_token. Qed.
Lemma read_float_float f : float64 f -> read_float (float f) = Some f.
Proof. apply ParseFloat_AppendFloat. Qed.

(** The members of an object whose keys are texts. *)
Lemma field_here k v l : field k (object ((k, v) :: l)) = Some v.
Proof. unfold field, object. simpl. by rewrite filter_cons, decide_True. Qed.
Lemma field_next k k' v l : k' <> k -> field k (object ((k', v) :: l)) = field k (object l).
Proof.
  intros Hk. unfold field, object. simpl. rewrite filter_cons, decide_False; [done|].
  simpl. by intros ?%bytes_inj.
Qed.

(** Find each member, then read it. *)
#[local] Ltac read_members :=
  repeat first [rewrite field_here | rewrite field_next by discriminate];
  cbn [mbind option_bind];
  rewrite ?read_str_str, ?read_int_int; cbn [mbind option_bind].

Lemma read_gpu_json g : gpu_ok g -> read_gpu (gpu_json g) = Some g.
Proof.
  intros (_ & _ & Hf). unfold read_gpu, gpu_json. read_members.
  rewrite read_float_float by done. by destruct g.
Qed.

Lemma mapM_read {A} (to : A -> json) (read : json -> option A) (P : A -> Prop) l :
  (forall a, P a -> read (to a) = Some a) -> Forall P l -> mapM read (to <$> l) = Some l.
Proof.
  intros Hr Hl. apply mapM_Some_2, Forall2_fmap_l, Forall_Forall2_diag.
  by eapply Forall_impl.
Qed.

Lemma read_node_json n : response_ok n -> read_node (node_json n) = Some n.
Proof.
  intros (_ & _ & _ & _ & _ & Hf & Hg & _).
  assert (Hc : read_cpu (cpu_json (nr_CPU n)) = Some (nr_CPU n))
    by (unfold read_cpu, cpu_json; read_members; by destruct (nr_CPU n)).
  assert (Hm : read_memory (memory_json (nr_Memory n)) = Some (nr_Memory n))
    by (unfold read_memory, memory_json; read_members; rewrite read_float_float by done;
        by destruct (nr_Memory n)).
  assert (Hgs : read_gpus (JArray (gpu_json <$> nr_GPUs n)) = Some (nr_GPUs n))
    by (by apply (mapM_read gpu_json read_gpu gpu_ok); [apply read_gpu_json|]).
  unfold read_node, node_json. read_members. rewrite Hc, Hm, Hgs. by destruct n.
Qed.

Lemma read_nodes_text l :
  Forall response_ok l -> read_nodes (encode (json_of (JNodes l))) = Some l.
Proof.
  intros Hl. unfold read_nodes. rewrite decode_encode.
  - simpl. by apply (mapM_read node_json read_node response_ok); [apply read_node_json|].
  - apply ok_array, Forall_fmap. eapply Forall_impl; [exact Hl|apply node_json_ok].
Qed.

Context `{!RegistryOps, !RegistryLaws, !LocalZone}.

(** A node whose texts are UTF-8 and whose sizes are unsigned 64-bit integers (as protobuf
    decodes them), and whose last beat is in a year of four digits, in a zone of whole
    minutes. *)
Definition node_ok (n : NodeInfo) : Prop :=
  let cpu := NodeResources_GetCpu (Resources n) in
  let unix := t_wall (LastBeat n) / Second in
  let offset := utc_offset unix in
  utf8_text (NodeID n) /\ utf8_text (NodeResources_GetHostname (Resources n))
  /\ utf8_text (Address n) /\ utf8_text (CpuResources_GetArchitecture cpu)
  /\ utf8_text (CpuResources_GetModelName cpu)
  /\ (forall m, NodeResources_GetMemory (Resources n) = Some m ->
        0 <= MemoryResources_TotalBytes m < 2 ^ 64)
  /\ Forall (fun g => utf8_text (GpuResources_Vendor g) /\ utf8_text (GpuResources_Model g)
        /\ 0 <= GpuResources_VramBytes g < 2 ^ 64) (NodeResources_GetGpus (Resources n))
  /\ offset mod 60 = 0 /\ - 100 * 3600 < offset < 100 * 3600
  /\ 0 <= (civil_from_days ((unix + offset) / 86400)).1.1 <= 9999.

Lemma listed_ok n : node_ok n -> response_ok (listed n).
Proof.
  intros (? & ? & ? & ? & ? & Hm & Hg & Hz & Hb & Hy). unfold response_ok. split_and!; try done.
  - simpl. destruct (NodeResources_GetMemory (Resources n)) as [m|]; [|done].
    by apply gigabytes_float64, Hm.
  - apply Forall_fmap. eapply Forall_impl; [exact Hg|]. intros g (? & ? & ?).
    split; [done|]. split; [done|]. by apply gigabytes_float64.
  - by apply utf8_ascii, ascii_text_RFC3339.
Qed.

(** C38: the node listing answers 200 with the security headers and leaves the registry as it
    was; a client that reads its text back gets one response per registered node, each
    exactly once, with every field as the handler filled it in; and each response's
    [last_beat] parses to the second of that node's last heartbeat. *)
Theorem listing_text_roundtrip a r w :
  map_Forall (fun _ n => node_ok n) (w_nodes w) ->
  exists rw w' h l, NodesHandler a fresh_writer r w = (Ret rw, w')
  /\ sent rw = Some (200, h) /\ secure_json (tlsEnabled a) h /\ w_nodes w' = w_nodes w
  /\ read_nodes (body_text rw) = Some l
  /\ (fun v => (v, Parse_RFC3339 (nr_LastBeat v))) <$> l
     ≡ₚ (fun p : string * NodeInfo => (listed p.2, Some (t_wall (LastBeat p.2) / Second)))
        <$> map_to_list (w_nodes w).
Proof.
  intros Hok. destruct (NodesHandler_run a r w) as (rw & w' & h & l & Hr & Hs & Hj & Hb & Hl & Hw & _).
  assert (Hn : Forall (fun p : string * NodeInfo => node_ok p.2) (map_to_list (w_nodes w)))
    by (apply map_Forall_to_list in Hok; eapply Forall_impl; [exact Hok|by intros []]).
  exists rw, w', h, l. do 4 (split; [done|]). split.
  - unfold body_text. rewrite Hb. simpl. rewrite app_nil_r. apply read_nodes_text.
    rewrite Hl. apply Forall_fmap. eapply Forall_impl; [exact Hn|]. intros p. apply listed_ok.
  - rewrite Hl, <- list_fmap_compose. apply reflexive_eq, Forall_fmap_ext_1.
    eapply Forall_impl; [exact Hn|]. intros p (_ & _ & _ & _ & _ & _ & _ & Hz & Hb' & Hy).
    unfold compose. f_equal. by apply RFC3339_round.
Qed.
End text.
