(* ===== verification/TlsReload.v ===== *)
(** [control-plane/internal/tlsreload/reloader.go]: the TLS certificate served, reloaded when
    the files' modification times change.

    The files and the parsing of certificates are the environment's ([FileSystem]): every
    system call happens at its own instant (the tick), so a file may change between two calls
    of one load.  [load] is only called by one goroutine at a time here; the lock makes its
    swap atomic for the readers. *)
From S2P Require Import Prelude GoRuntime GoStrings PbResource Grpc World Metrics.
Local Open Scope string_scope.
Local Open Scope Z_scope.

Class FileSystem := {
  Certificate : Type;
  CertPool : Type;
  os_Stat : nat -> string -> error + Z;                       (* ModTime() *)
  tls_LoadX509KeyPair : nat -> string -> string -> error + Certificate;
  os_ReadFile : nat -> string -> error + string;
  AppendCertsFromPEM : string -> option CertPool              (* into an empty pool *)
}.

(** [time.Time{}], the first instant of year 1, in nanoseconds since 1970. *)
Definition zeroTime : Z := -62135596800 * Second.

Section tlsreload.
Context `{!FileSystem, !GrpcLib}.

Record CertReloader := mkReloader {
  cert : option Certificate;
  clientCAPool : option CertPool;
  hasCA : bool;
  certPath : string;
  keyPath : string;
  caCertPath : string;
  certMod : Z;
  keyMod : Z;
  caMod : Z
}.

Definition syscall {A} (f : nat -> A) : Go World A :=
  fun w => (Ret (f (w_tick w)), next_tick w).

(** [fmt.Errorf("...: %w", err)]. *)
Definition wrap (msg : string) (err : error) : option error :=
  Some (OtherError (msg +:+ ": " +:+ err_Error err)).

(** The CA certificate, when a path is configured: its modification time. *)
Definition stat_ca (r : CertReloader) : Go World (option error * Z * bool) :=
  if String.eqb (caCertPath r) "" then mret (None, caMod r, false)
  else
    st ← syscall (fun t => os_Stat t (caCertPath r));
    mret match st with
         | inl err => (wrap ("stat CA cert file " +:+ caCertPath r) err, caMod r, false)
         | inr mtime => (None, mtime, negb (mtime =? caMod r))
         end.

(** The pool of client CAs, when a path is configured. *)
Definition load_ca (r : CertReloader) : Go World (option error * option CertPool * bool) :=
  if String.eqb (caCertPath r) "" then mret (None, None, false)
  else
    pem ← syscall (fun t => os_ReadFile t (caCertPath r));
    mret match pem with
         | inl err => (wrap ("read CA cert " +:+ caCertPath r) err, None, false)
         | inr pem =>
             match AppendCertsFromPEM pem with
             | None => (Some (OtherError ("parse CA certificate " +:+ caCertPath r
                                          +:+ ": no valid PEM found")), None, false)
             | Some pool => (None, Some pool, true)
             end
         end.

(** The reloader after the call, and its error. *)
Definition load (r : CertReloader) : Go World (CertReloader * option error) :=
  certStat ← syscall (fun t => os_Stat t (certPath r));
  match certStat with
  | inl err => mret (r, wrap ("stat cert file " +:+ certPath r) err)
  | inr certTime =>
      keyStat ← syscall (fun t => os_Stat t (keyPath r));
      match keyStat with
      | inl err => mret (r, wrap ("stat key file " +:+ keyPath r) err)
      | inr keyTime =>
          let certChanged := negb (certTime =? certMod r) in
          let keyChanged := negb (keyTime =? keyMod r) in
          '(err, caTime, caChanged) ← stat_ca r;
          match err with
          | Some err => mret (r, Some err)
          | None =>
              if negb certChanged && negb keyChanged && negb caChanged then mret (r, None)
              else
                pair ← syscall (fun t => tls_LoadX509KeyPair t (certPath r) (keyPath r));
                match pair with
                | inl err => mret (r, wrap "load X509 key pair" err)
                | inr c =>
                    '(err, caPool, ca) ← load_ca r;
                    match err with
                    | Some err => mret (r, Some err)
                    | None =>
                        metric TLSCertLoadTotal ["success"] Inc ;;
                        log LInfo "TLS certificate reloaded"
                          [("cert_path", LStr (certPath r)); ("mtls", LBool ca)] ;;
                        mret (mkReloader (Some c) caPool ca (certPath r) (keyPath r)
                                (caCertPath r) certTime keyTime caTime, None)
                    end
                end
          end
      end
  end.

Definition New (certPath keyPath caCertPath : string)
  : Go World (option CertReloader * option error) :=
  let r := mkReloader None None false certPath keyPath caCertPath zeroTime zeroTime zeroTime in
  '(r, err) ← load r;
  match err with
  | Some err => mret (None, Some err)
  | None => mret (Some r, None)
  end.

Definition GetCertificate (r : CertReloader) : option Certificate * option error :=
  (cert r, None).

(** [tls.Config], as far as the sources set it. *)
Record TlsConfig := mkTlsConfig {
  Certificates : list Certificate;
  MinVersion : Z;
  RequireAndVerifyClientCert : bool;      (* ClientAuth *)
  ClientCAs : option CertPool
}.
Definition VersionTLS13 : Z := 0x0304.

Definition GetConfigForClient (r : CertReloader) : Go World (option TlsConfig * option error) :=
  match cert r with
  | None => go_panic "invalid memory address or nil pointer dereference" []
  | Some c =>
      mret (Some (mkTlsConfig [c] VersionTLS13 (hasCA r)
                    (if hasCA r then clientCAPool r else None)), None)
  end.

Definition load_failed (msg : string) (err : error) : Go World unit :=
  metric TLSCertLoadTotal ["failure"] Inc ;;
  log LWarn msg [("error", LErr err)].

Definition Reload (r : CertReloader) : Go World CertReloader :=
  '(r, err) ← load r;
  match err with
  | Some err =>
      load_failed "forced certificate reload failed, keeping current cert" err ;; mret r
  | None => mret r
  end.

(** The goroutine, over the cases its [select] takes. *)
Inductive watch_event := WatchDone | WatchTick.
Fixpoint Watch (r : CertReloader) (evs : list watch_event) : Go World CertReloader :=
  match evs with
  | [] => mret r
  | WatchDone :: _ => mret r
  | WatchTick :: evs =>
      '(r, err) ← load r;
      match err with
      | Some err => load_failed "certificate reload failed, keeping current cert" err
      | None => mret tt
      end ;;
      Watch r evs
  end.
End tlsreload.

(** * Facts *)
Section facts.
Context `{!FileSystem, !GrpcLib}.

(** A reloader that can serve: it has a certificate, and it demands client certificates
    exactly when a CA path was configured, with a pool to verify them against. *)
Record reloader_ok (r : CertReloader) : Prop := {
  ro_cert : is_Some (cert r);
  ro_ca : hasCA r = negb (String.eqb (caCertPath r) "");
  ro_pool : hasCA r = true -> is_Some (clientCAPool r)
}.

Definition same_paths (r r' : CertReloader) : Prop :=
  certPath r' = certPath r /\ keyPath r' = keyPath r /\ caCertPath r' = caCertPath r.

(** What a load that swapped has read, from the instant [t] on: first the modification times,
    then the contents. *)
Definition swapped (r r' : CertReloader) (t : nat) : Prop :=
  same_paths r r' /\ reloader_ok r' /\
  os_Stat t (certPath r) = inr (certMod r') /\ os_Stat (t + 1) (keyPath r) = inr (keyMod r') /\
  (exists c t', (t + 2 <= t')%nat /\ cert r' = Some c
     /\ tls_LoadX509KeyPair t' (certPath r) (keyPath r) = inr c) /\
  (caCertPath r <> "" -> exists pem t', (t + 2 <= t')%nat
     /\ os_Stat (t + 2) (caCertPath r) = inr (caMod r')
     /\ os_ReadFile t' (caCertPath r) = inr pem /\ AppendCertsFromPEM pem = clientCAPool r') /\
  (caCertPath r = "" -> caMod r' = caMod r) /\
  (certMod r' <> certMod r \/ keyMod r' <> keyMod r \/ caMod r' <> caMod r).

(** Nothing changed since the last load. *)
Definition unchanged (r : CertReloader) (t : nat) : Prop :=
  os_Stat t (certPath r) = inr (certMod r) /\ os_Stat (t + 1) (keyPath r) = inr (keyMod r)
  /\ (caCertPath r <> "" -> os_Stat (t + 2) (caCertPath r) = inr (caMod r)).

Lemma syscall_run {A} (f : nat -> A) w : syscall f w = (Ret (f (w_tick w)), ticks 1 w).
Proof. done. Qed.

Lemma stat_ca_run r w :
  exists err ct ch k, stat_ca r w = (Ret (err, ct, ch), ticks k w)
  /\ (err = None ->
       ch = negb (ct =? caMod r)
       /\ (caCertPath r = "" -> ct = caMod r)
       /\ (caCertPath r <> "" -> os_Stat (w_tick w) (caCertPath r) = inr ct)).
Proof.
  unfold stat_ca. destruct (String.eqb_spec (caCertPath r) "") as [Hp|Hp].
  - exists None, (caMod r), false, O. rewrite ticks_0, Z.eqb_refl. done.
  - unfold mbind, go_bind. rewrite syscall_run.
    destruct (os_Stat (w_tick w) (caCertPath r)) as [e|ct]; by eexists _, _, _, _.
Qed.

Lemma load_ca_run r w :
  exists err pool ca k, load_ca r w = (Ret (err, pool, ca), ticks k w)
  /\ (err = None ->
       ca = negb (String.eqb (caCertPath r) "") /\ (ca = true -> is_Some pool)
       /\ (caCertPath r <> "" -> exists pem, os_ReadFile (w_tick w) (caCertPath r) = inr pem
             /\ AppendCertsFromPEM pem = pool)).
Proof.
  unfold load_ca. destruct (String.eqb_spec (caCertPath r) "") as [Hp|Hp].
  - exists None, None, false, O. by rewrite ticks_0.
  - unfold mbind, go_bind. rewrite syscall_run.
    destruct (os_ReadFile (w_tick w) (caCertPath r)) as [e|pem]; [by eexists _, _, _, _|].
    destruct (AppendCertsFromPEM pem) as [pool|] eqn:E; [|by eexists _, _, _, _].
    eexists _, _, _, 1%nat. split; [done|]. intros _. split; [done|]. split; [by eexists|].
    intros _. by exists pem.
Qed.

(** The three outcomes of a load: an error, nothing to do, or a swap. *)
Definition load_outcome (r : CertReloader) (w : World) (res : outcome (CertReloader * option error) * World)
  : Prop :=
  exists r' err w', res = (Ret (r', err), w')
  /\ w_nodes w' = w_nodes w /\ w_known w' = w_known w /\
  ((exists e, err = Some e /\ r' = r /\ w_trace w' = w_trace w)
   \/ (err = None /\ r' = r /\ w_trace w' = w_trace w /\ unchanged r (w_tick w))
   \/ (err = None /\ swapped r r' (w_tick w) /\
       exists entry, w_trace w' = EvLog entry :: EvMetric TLSCertLoadTotal ["success"] Inc :: w_trace w)).

Lemma load_fails r w e k : load_outcome r w (Ret (r, Some e), ticks k w).
Proof. exists r, (Some e), (ticks k w). split_and!; [done..|]. left. by exists e. Qed.

Lemma load_run r w : load_outcome r w (load r w).
Proof.
  unfold load, mbind, go_bind. rewrite syscall_run.
  destruct (os_Stat (w_tick w) (certPath r)) as [e|ct] eqn:Ec; [apply (load_fails r w _ 1)|].
  rewrite syscall_run.
  destruct (os_Stat (w_tick (ticks 1 w)) (keyPath r)) as [e|kt] eqn:Ek; [apply (load_fails r w _ 2)|].
  change (w_tick (ticks 1 w)) with (S (w_tick w)) in Ek.
  rewrite ticks_add.
  destruct (stat_ca_run r (ticks 2 w)) as (e1 & cat & ch & k1 & Hca & Hcaok).
  change (w_tick (ticks 2 w)) with (S (S (w_tick w))) in Hcaok.
  change (1 + 1)%nat with 2%nat. rewrite Hca, ticks_add.
  destruct e1 as [e1|]; [apply (load_fails r w)|]. destruct (Hcaok eq_refl) as (Hch & Hcano & Hcayes).
  destruct (negb (negb (ct =? certMod r)) && negb (negb (kt =? keyMod r)) && negb ch) eqn:Hsame.
  { rewrite !negb_involutive, !andb_true_iff, !Z.eqb_eq in Hsame. destruct Hsame as [[-> ->] Hc].
    rewrite Hch, negb_involutive, Z.eqb_eq in Hc. subst cat.
    eexists r, None, _. split; [done|]. do 2 (split; [done|]). right; left.
    do 3 (split; [done|]). unfold unchanged. rewrite Nat.add_1_r. do 2 (split; [done|]).
    intros Hp. rewrite <- (Hcayes Hp). f_equal. lia. }
  rewrite syscall_run, ticks_add.
  destruct (tls_LoadX509KeyPair _ (certPath r) (keyPath r)) as [e|c] eqn:Ep; [apply (load_fails r w)|].
  destruct (load_ca_run r (ticks (1 + (k1 + 2)) w)) as (e2 & pool & ca & k2 & Hl & Hlok).
  rewrite Hl, ticks_add. destruct e2 as [e2|]; [apply (load_fails r w)|].
  destruct (Hlok eq_refl) as (Hca2 & Hpool & Hread).
  eexists _, None, _. split; [reflexivity|]. do 2 (split; [done|]). right; right.
  split; [done|]. split; [|by eexists].
  unfold swapped. simpl. split; [done|]. split; [by split; [eexists|..]|].
  split; [done|]. rewrite Nat.add_1_r. split; [done|].
  split; [exists c; eexists; split; [|by split]; simpl; lia|].
  split.
  { intros Hp. destruct (Hread Hp) as (pem & Hpem & Hpl). exists pem. eexists. split; [|split; [|by split]].
    - simpl. lia.
    - rewrite <- (Hcayes Hp). f_equal. lia. }
  split; [done|]. rewrite !negb_involutive, !andb_false_iff, !Z.eqb_neq in Hsame.
  destruct Hsame as [[?|?]|Hc]; [by left|by right; left|right; right].
  rewrite Hch, negb_involutive, Z.eqb_neq in Hc. done.
Qed.

(** With unchanged modification times a load does nothing, whatever the files contain. *)
Lemma load_unchanged r w :
  unchanged r (w_tick w) -> exists k, load r w = (Ret (r, None), ticks k w).
Proof.
  intros (Hc & Hk & Hca). unfold load, mbind, go_bind. rewrite syscall_run, Hc, syscall_run.
  replace (w_tick (ticks 1 w)) with (w_tick w + 1)%nat by (simpl; lia). rewrite Hk, ticks_add.
  destruct (stat_ca_run r (ticks (1 + 1) w)) as (e1 & cat & ch & k1 & Hst & Hok).
  pose proof Hst as Hst'. unfold stat_ca in Hst'. rewrite Hst, ticks_add.
  replace (w_tick (ticks (1 + 1) w)) with (w_tick w + 2)%nat in Hok by (simpl; lia).
  assert (e1 = None) as ->.
  { destruct (String.eqb_spec (caCertPath r) "") as [Hp|Hp]; [by injection Hst'|].
    unfold mbind, go_bind in Hst'. rewrite syscall_run in Hst'.
    replace (w_tick (ticks (1 + 1) w)) with (w_tick w + 2)%nat in Hst' by (simpl; lia).
    rewrite (Hca Hp) in Hst'. by injection Hst'. }
  destruct (Hok eq_refl) as (-> & Hno & Hyes).
  assert (Hcat : cat = caMod r).
  { destruct (String.eqb_spec (caCertPath r) "") as [Hp|Hp]; [by apply Hno|].
    specialize (Hyes Hp). rewrite (Hca Hp) in Hyes. by injection Hyes. }
  subst cat. rewrite !Z.eqb_refl. simpl. by eexists.
Qed.

Lemma New_returns cp kp cap w :
  exists r err w', New cp kp cap w = (Ret (r, err), w') /\ (err = None -> is_Some r).
Proof.
  unfold New, mbind, go_bind. set (r0 := mkReloader _ _ _ _ _ _ _ _ _).
  destruct (load_run r0 w) as (r1 & err & w' & -> & _).
  destruct err as [e|]; by eexists _, _, _.
Qed.

Lemma Reload_returns r w :
  exists r' w', Reload r w = (Ret r', w') /\ (reloader_ok r -> reloader_ok r').
Proof.
  destruct (load_run r w) as (r' & err & w' & Hr & _ & _ & Hcase).
  assert (Hok : reloader_ok r -> reloader_ok r').
  { intros Hok. destruct Hcase as [(e & _ & -> & _)|[(_ & -> & _)|(_ & (_ & Hok' & _) & _)]]; done. }
  unfold Reload, mbind, go_bind. rewrite Hr. destruct err; by eexists _, _.
Qed.
End facts.

(** * Properties *)
Section properties.
Context `{!FileSystem, !GrpcLib}.

(** A reload keeps the reloader exactly as it was and counts one failure when anything
    cannot be read or parsed; keeps it and counts nothing when no modification time changed;
    and otherwise replaces certificate, pool and modification times together, counting one
    success: the certificate was read after its modification time, so a file written in
    between is noticed by the next load. *)
Theorem Reload_spec r w :
  exists r' w', Reload r w = (Ret r', w')
  /\ let succ v := series_value TLSCertLoadTotal ["success"] (w_trace v) in
     let fail v := series_value TLSCertLoadTotal ["failure"] (w_trace v) in
     (r' = r /\ succ w' = succ w /\ fail w' = fail w + 1)
     \/ (r' = r /\ unchanged r (w_tick w) /\ succ w' = succ w /\ fail w' = fail w)
     \/ (swapped r r' (w_tick w) /\ succ w' = succ w + 1 /\ fail w' = fail w).
Proof.
  destruct (load_run r w) as (r' & err & w' & Hr & _ & _ & Hcase).
  unfold Reload, mbind, go_bind. rewrite Hr.
  destruct Hcase as [(e & -> & -> & Ht)|[(-> & -> & Ht & Hu)|(-> & Hs & entry & Ht)]].
  - eexists r, _. split; [done|]. left. split; [done|]. simpl. rewrite Ht. by series_simpl.
  - eexists r, _. split; [done|]. right; left. rewrite Ht. done.
  - eexists r', _. split; [done|]. right; right. split; [done|]. rewrite Ht. by series_simpl.
Qed.

(** [Reload] does not force anything: with unchanged modification times it reads no
    file, keeps the certificate and counts nothing, even if the contents changed. *)
Theorem Reload_unchanged_noop r w :
  unchanged r (w_tick w) ->
  value (Reload r) w = Some r /\ w_trace (exec (Reload r) w) = w_trace w.
Proof.
  intros Hu. destruct (load_unchanged r w Hu) as [k Hr].
  unfold value, exec, Reload, mbind, go_bind. by rewrite Hr.
Qed.

(** A reloader after any history of reloads and polls. *)
Inductive later (r : CertReloader) : CertReloader -> Prop :=
  | later_refl : later r r
  | later_reload r1 r2 w : later r r1 -> value (Reload r1) w = Some r2 -> later r r2
  | later_watch r1 r2 evs w : later r r1 -> value (Watch r1 evs) w = Some r2 -> later r r2.

Lemma load_keeps_ok r w :
  reloader_ok r -> exists r' err w', load r w = (Ret (r', err), w')
  /\ reloader_ok r' /\ same_paths r r'.
Proof.
  intros Hok. destruct (load_run r w) as (r' & err & w' & Hr & _ & _ & Hcase).
  exists r', err, w'. split; [done|].
  destruct Hcase as [(e & _ & -> & _)|[(_ & -> & _)|(_ & (Hp & Hok' & _) & _)]]; done.
Qed.

Lemma Watch_keeps_ok r evs w :
  reloader_ok r -> exists r' w', Watch r evs w = (Ret r', w') /\ reloader_ok r' /\ same_paths r r'.
Proof.
  revert r w. induction evs as [|[] evs IH]; intros r w Hok; simpl; [by eexists _, _..|].
  destruct (load_keeps_ok r w Hok) as (r1 & err & w1 & Hr & Hok1 & Hp1).
  unfold mbind, go_bind. rewrite Hr.
  destruct err as [e|]; simpl.
  - edestruct (IH r1) as (r2 & w2 & -> & Hok2 & Hp2); [done|]. exists r2, w2.
    split; [done|]. split; [done|]. unfold same_paths in *. intuition congruence.
  - edestruct (IH r1) as (r2 & w2 & -> & Hok2 & Hp2); [done|]. exists r2, w2.
    split; [done|]. split; [done|]. unfold same_paths in *. intuition congruence.
Qed.

Lemma later_ok r r' : reloader_ok r -> later r r' -> reloader_ok r' /\ same_paths r r'.
Proof.
  intros Hok Hl. induction Hl as [|r1 r2 w _ [Hok1 Hp1] Hv|r1 r2 evs w _ [Hok1 Hp1] Hv]; [done| |].
  - destruct (load_keeps_ok r1 w Hok1) as (r3 & err & w1 & Hr & Hok2 & Hp2).
    unfold value, Reload, mbind, go_bind in Hv. rewrite Hr in Hv.
    assert (r3 = r2) as -> by (destruct err; by injection Hv).
    split; [done|]. unfold same_paths in *. intuition congruence.
  - destruct (Watch_keeps_ok r1 evs w Hok1) as (r3 & w1 & Hr & Hok2 & Hp2).
    unfold value in Hv. rewrite Hr in Hv. injection Hv as ->.
    split; [done|]. unfold same_paths in *. intuition congruence.
Qed.

(** C9: a reloader that [New] returned (the certificate file not dating from year 1) serves
    for ever: after any history of reloads and polls, whatever the files do, it has a
    certificate, and the configuration for a client carries it, TLS 1.3, and demands and
    verifies a client certificate exactly when a CA path was given to [New]: a failing
    reload never drops the certificate or the client check. *)
Theorem reloader_serves cp kp cap w r r' v :
  value (New cp kp cap) w = Some (Some r, None) -> os_Stat (w_tick w) cp <> inr zeroTime ->
  later r r' ->
  exists c, GetCertificate r' = (Some c, None)
  /\ exists cfg, value (GetConfigForClient r') v = Some (Some cfg, None)
     /\ Certificates cfg = [c] /\ MinVersion cfg = 0x0304
     /\ (RequireAndVerifyClientCert cfg = true <-> cap <> "")
     /\ (is_Some (ClientCAs cfg) <-> cap <> "").
Proof.
  intros Hn Hz Hl.
  assert (Hok : reloader_ok r /\ caCertPath r = cap).
  { revert Hn. unfold value, New, mbind, go_bind.
    set (r0 := mkReloader _ _ _ _ _ _ _ _ _).
    destruct (load_run r0 w) as (r1 & err & w' & Hr & _ & _ & Hcase). rewrite Hr.
    destruct Hcase as [(e & -> & _)|[(-> & -> & _ & (Hu & _))|(-> & (Hp & Hok' & _) & _)]]; [done|done|].
    intros [= <-]. split; [done|]. by destruct Hp as (_ & _ & Hp). }
  destruct Hok as [Hok Hcap]. destruct (later_ok r r' Hok Hl) as [[[c Hc] Hca Hpool] (_ & _ & Hp)].
  exists c. unfold GetCertificate, value, GetConfigForClient. rewrite Hc. split; [done|].
  eexists. split; [done|]. simpl. do 2 (split; [done|]). rewrite Hp, Hcap in Hca. rewrite Hca in *.
  destruct (String.eqb_spec cap "") as [->|Hne]; simpl in *.
  - split; [by split|]. split; [by intros [? ?]|done].
  - split; [by split|]. split; [done|]. intros _. by apply Hpool.
Qed.

(** Every call of a load from [t0] on succeeds. *)
Definition readable (r : CertReloader) (t0 : nat) : Prop :=
  forall t, (t0 <= t)%nat ->
    (exists ct, os_Stat t (certPath r) = inr ct) /\ (exists kt, os_Stat t (keyPath r) = inr kt)
    /\ (exists c, tls_LoadX509KeyPair t (certPath r) (keyPath r) = inr c)
    /\ (caCertPath r <> "" -> (exists cat, os_Stat t (caCertPath r) = inr cat)
        /\ exists pem, os_ReadFile t (caCertPath r) = inr pem /\ is_Some (AppendCertsFromPEM pem)).

Lemma stat_ca_readable r w :
  readable r (w_tick w) -> exists ct ch k, stat_ca r w = (Ret (None, ct, ch), ticks k w).
Proof.
  intros Hrd. unfold stat_ca. destruct (String.eqb_spec (caCertPath r) "") as [Hp|Hp].
  { exists (caMod r), false, O. by rewrite ticks_0. }
  destruct (Hrd (w_tick w)) as (_ & _ & _ & Hca); [done|]. destruct (Hca Hp) as [(cat & E) _].
  unfold mbind, go_bind. rewrite syscall_run, E. by eexists _, _, _.
Qed.

Lemma load_ca_readable r w :
  readable r (w_tick w) -> exists pool ca k, load_ca r w = (Ret (None, pool, ca), ticks k w).
Proof.
  intros Hrd. unfold load_ca. destruct (String.eqb_spec (caCertPath r) "") as [Hp|Hp].
  { exists None, false, O. by rewrite ticks_0. }
  destruct (Hrd (w_tick w)) as (_ & _ & _ & Hca); [done|].
  destruct (Hca Hp) as [_ (pem & E & [pool Ep])].
  unfold mbind, go_bind. rewrite syscall_run, E, Ep. by eexists _, _, _.
Qed.

Lemma readable_ticks r w k : readable r (w_tick w) -> readable r (w_tick (ticks k w)).
Proof. intros Hrd t Ht. apply Hrd. simpl in Ht. lia. Qed.

Lemma load_readable r w :
  readable r (w_tick w) -> exists r' w', load r w = (Ret (r', None), w').
Proof.
  intros Hrd. unfold load, mbind, go_bind. rewrite syscall_run.
  destruct (Hrd (w_tick w)) as ((ct & ->) & _); [done|]. rewrite syscall_run.
  destruct (readable_ticks r w 1 Hrd (w_tick (ticks 1 w))) as (_ & (kt & ->) & _); [done|].
  rewrite ticks_add.
  destruct (stat_ca_readable r (ticks (1 + 1) w)) as (cat & ch & k & ->); [by apply readable_ticks|].
  rewrite ticks_add. destruct (_ && _ && _); [by eexists _, _|]. rewrite syscall_run.
  destruct (readable_ticks r w (k + (1 + 1)) Hrd (w_tick (ticks (k + (1 + 1)) w)))
    as (_ & _ & (c & ->) & _); [done|]. rewrite ticks_add.
  destruct (load_ca_readable r (ticks (1 + (k + (1 + 1))) w)) as (pool & ca & k2 & ->);
    [by apply readable_ticks|]. by eexists _, _.
Qed.

(** C37: once the files stop changing and are readable, one reload brings the reloader up to
    date: it records their modification times, and if any of them was new it serves the
    files' current certificate and client CAs. *)
Theorem Reload_converges r w ct kt cat c pem pool :
  (forall t, (w_tick w <= t)%nat ->
     os_Stat t (certPath r) = inr ct /\ os_Stat t (keyPath r) = inr kt
     /\ tls_LoadX509KeyPair t (certPath r) (keyPath r) = inr c
     /\ (caCertPath r <> "" ->
         os_Stat t (caCertPath r) = inr cat /\ os_ReadFile t (caCertPath r) = inr pem
         /\ AppendCertsFromPEM pem = Some pool)) ->
  exists r', value (Reload r) w = Some r'
  /\ certMod r' = ct /\ keyMod r' = kt /\ (caCertPath r <> "" -> caMod r' = cat)
  /\ (r' = r \/ cert r' = Some c /\ (caCertPath r <> "" -> clientCAPool r' = Some pool)).
Proof.
  intros Hst. destruct (load_run r w) as (r' & err & w' & Hr & _ & _ & Hcase).
  unfold value, Reload, mbind, go_bind. rewrite Hr.
  destruct Hcase as [(e & -> & _)|[(-> & -> & _ & (Hu1 & Hu2 & Hu3))|(-> & Hs & _)]].
  - exfalso. destruct (load_readable r w) as (r2 & w2 & Hr2).
    { intros t Ht. destruct (Hst t Ht) as (-> & -> & -> & Hca). do 3 (split; [by eexists|]).
      intros Hp. destruct (Hca Hp) as (-> & -> & Hpem). split; [by eexists|].
      exists pem. rewrite Hpem. by split. }
    rewrite Hr in Hr2. done.
  - exists r. split; [done|].
    destruct (Hst (w_tick w)) as (E1 & _); [lia|]. rewrite E1 in Hu1. injection Hu1 as <-.
    destruct (Hst (w_tick w + 1)%nat) as (_ & E2 & _); [lia|]. rewrite E2 in Hu2. injection Hu2 as <-.
    do 2 (split; [done|]). split; [|by left]. intros Hp. specialize (Hu3 Hp).
    destruct (Hst (w_tick w + 2)%nat) as (_ & _ & _ & E3); [lia|].
    destruct (E3 Hp) as (E4 & _). rewrite E4 in Hu3. by injection Hu3.
  - exists r'. split; [done|].
    destruct Hs as (_ & _ & Hu1 & Hu2 & (c' & t' & Ht' & Hc & Hload) & Hca & _).
    destruct (Hst (w_tick w)) as (E1 & _); [lia|]. rewrite E1 in Hu1. injection Hu1 as <-.
    destruct (Hst (w_tick w + 1)%nat) as (_ & E2 & _); [lia|]. rewrite E2 in Hu2. injection Hu2 as <-.
    destruct (Hst t') as (_ & _ & E4 & _); [lia|]. rewrite E4 in Hload. injection Hload as <-.
    do 2 (split; [done|]). split.
    + intros Hp. destruct (Hca Hp) as (pem' & t2 & Ht2 & Hs2 & _).
      destruct (Hst (w_tick w + 2)%nat) as (_ & _ & _ & E3); [lia|].
      destruct (E3 Hp) as (E5 & _). rewrite E5 in Hs2. by injection Hs2.
    + right. split; [done|]. intros Hp. destruct (Hca Hp) as (pem' & t2 & Ht2 & _ & Hrd & Hap).
      destruct (Hst t2) as (_ & _ & _ & E3); [lia|]. destruct (E3 Hp) as (_ & E5 & E6).
      rewrite E5 in Hrd. injection Hrd as <-. by rewrite <- Hap.
Qed.
End properties.
