(* ===== verification/TlsSteps.v ===== *)
(** [CertReloader.load] of [control-plane/internal/tlsreload/reloader.go] in steps.

    [load] holds the lock only while it swaps, and the polling goroutine and the signal
    handler both call it, so loads can overlap.  Here a load is a thread: a step is one system
    call, one read of the reloader's fields or the swap, and any number of threads share the
    reloader.  Run alone, the steps are the function [load] of [TlsReload.v]. *)
From S2P Require Import Prelude GoRuntime GoStrings PbResource Grpc World Metrics TlsReload.
Local Open Scope string_scope.
Local Open Scope Z_scope.

Section steps.
Context `{!FileSystem, !GrpcLib}.

(** Where a load is, with the local variables that are alive there. *)
Inductive load_pc : Type :=
  | LStatCert                                              (* os.Stat(r.certPath) *)
  | LStatKey (certTime : Z)                                (* os.Stat(r.keyPath) *)
  | LCompare (certTime keyTime : Z)                        (* reads r.certMod, r.keyMod *)
  | LStatCA (certTime keyTime : Z) (changed : bool)        (* os.Stat(r.caCertPath) *)
  | LCompareCA (certTime keyTime caTime : Z) (changed : bool)   (* reads r.caMod *)
  | LLoadPair (certTime keyTime : Z) (caTime : option Z)   (* tls.LoadX509KeyPair *)
  | LReadCA (certTime keyTime : Z) (caTime : option Z) (c : Certificate)  (* os.ReadFile *)
  | LSwap (certTime keyTime : Z) (caTime : option Z) (c : Certificate)
      (caPool : option CertPool) (hasCA : bool)            (* the critical section *)
  | LCount (hasCA : bool)                                  (* the metric and the log entry *)
  | LDone (err : option error).                            (* returned *)

(** The swap, under the lock; [caMod] changes only with a CA path. *)
Definition swap (certTime keyTime : Z) (caTime : option Z) (c : Certificate)
    (caPool : option CertPool) (ca : bool) (r : CertReloader) : CertReloader :=
  mkReloader (Some c) caPool ca (certPath r) (keyPath r) (caCertPath r)
    certTime keyTime (default (caMod r) caTime).

Definition load_step (pc : load_pc) (r : CertReloader) : option (Go World (load_pc * CertReloader)) :=
  match pc with
  | LStatCert => Some (
      st ← syscall (fun t => os_Stat t (certPath r));
      mret (match st with
            | inl err => LDone (wrap ("stat cert file " +:+ certPath r) err)
            | inr certTime => LStatKey certTime
            end, r))
  | LStatKey certTime => Some (
      st ← syscall (fun t => os_Stat t (keyPath r));
      mret (match st with
            | inl err => LDone (wrap ("stat key file " +:+ keyPath r) err)
            | inr keyTime => LCompare certTime keyTime
            end, r))
  | LCompare certTime keyTime =>
      let changed := negb (certTime =? certMod r) || negb (keyTime =? keyMod r) in
      Some (mret (if String.eqb (caCertPath r) "" then
                    if changed then LLoadPair certTime keyTime None else LDone None
                  else LStatCA certTime keyTime changed, r))
  | LStatCA certTime keyTime changed => Some (
      st ← syscall (fun t => os_Stat t (caCertPath r));
      mret (match st with
            | inl err => LDone (wrap ("stat CA cert file " +:+ caCertPath r) err)
            | inr caTime => LCompareCA certTime keyTime caTime changed
            end, r))
  | LCompareCA certTime keyTime caTime changed =>
      Some (mret (if changed || negb (caTime =? caMod r)
                  then LLoadPair certTime keyTime (Some caTime) else LDone None, r))
  | LLoadPair certTime keyTime caTime => Some (
      pair ← syscall (fun t => tls_LoadX509KeyPair t (certPath r) (keyPath r));
      mret (match pair with
            | inl err => LDone (wrap "load X509 key pair" err)
            | inr c => if String.eqb (caCertPath r) ""
                       then LSwap certTime keyTime caTime c None false
                       else LReadCA certTime keyTime caTime c
            end, r))
  | LReadCA certTime keyTime caTime c => Some (
      pem ← syscall (fun t => os_ReadFile t (caCertPath r));
      mret (match pem with
            | inl err => LDone (wrap ("read CA cert " +:+ caCertPath r) err)
            | inr pem =>
                match AppendCertsFromPEM pem with
                | None => LDone (Some (OtherError ("parse CA certificate " +:+ caCertPath r
                                                   +:+ ": no valid PEM found")))
                | Some pool => LSwap certTime keyTime caTime c (Some pool) true
                end
            end, r))
  | LSwap certTime keyTime caTime c caPool ca =>
      Some (mret (LCount ca, swap certTime keyTime caTime c caPool ca r))
  | LCount ca => Some (
      metric TLSCertLoadTotal ["success"] Inc ;;
      log LInfo "TLS certificate reloaded" [("cert_path", LStr (certPath r)); ("mtls", LBool ca)] ;;
      mret (LDone None, r))
  | LDone _ => None
  end.

(** A load alone, for at most [n] steps. *)
Fixpoint run_load (n : nat) (pc : load_pc) (r : CertReloader) (w : World)
  : load_pc * CertReloader * World :=
  match n, load_step pc r with
  | S n, Some m => match m w with
                   | (Ret (pc, r), w) => run_load n pc r w
                   | (Panicked _ _, w) => (pc, r, w)
                   end
  | _, _ => (pc, r, w)
  end.

(** ** Overlapping loads *)

(** The reloader, the loads in progress, and the rest of the process. *)
Record tls_state := mkTls {
  tls_reloader : CertReloader;
  tls_loads : list load_pc;
  tls_world : World
}.

(** What the rest of the process may do in between: anything that does not turn back the
    clock; it has no access to the reloader's fields. *)
Inductive tls_step : tls_state -> tls_state -> Prop :=
  | tls_start r l w : tls_step (mkTls r l w) (mkTls r (l ++ [LStatCert]) w)
  | tls_load j pc m pc' r r' l w w' :
      l !! j = Some pc -> load_step pc r = Some m -> m w = (Ret (pc', r'), w') ->
      tls_step (mkTls r l w) (mkTls r' (<[j := pc']> l) w')
  | tls_other r l w w' : (w_tick w <= w_tick w')%nat -> tls_step (mkTls r l w) (mkTls r l w').

Definition tls_reachable (r : CertReloader) (w : World) (y : tls_state) : Prop :=
  rtc tls_step (mkTls r [] w) y.
End steps.

(** * A load alone *)
Section alone.
Context `{!FileSystem, !GrpcLib}.

(** Run alone, the steps of a load come to their end, after at most nine of them, and do
    what [load] does in one go: the same error, the same reloader, the same state. *)
Theorem run_load_is_load r w :
  exists err r' w', load r w = (Ret (r', err), w')
  /\ run_load 9 LStatCert r w = (LDone err, r', w').
Proof.
  unfold load, stat_ca, load_ca, mbind, go_bind, syscall. simpl.
  unfold syscall, mbind, go_bind, mret, go_ret. simpl.
  destruct (os_Stat (w_tick w) (certPath r)) as [e|ct]; [by eexists _, _, _|simpl].
  destruct (os_Stat (S (w_tick w)) (keyPath r)) as [e|kt]; [by eexists _, _, _|simpl].
  destruct (String.eqb (caCertPath r) "") eqn:Hp; simpl.
  - rewrite andb_true_r, <- negb_orb.
    destruct (negb (ct =? certMod r) || negb (kt =? keyMod r)); simpl; [|by eexists _, _, _].
    destruct (tls_LoadX509KeyPair _ (certPath r) (keyPath r)) as [e|c]; [by eexists _, _, _|simpl].
    rewrite Hp. by eexists _, _, _.
  - destruct (os_Stat (S (S (w_tick w))) (caCertPath r)) as [e|cat]; [by eexists _, _, _|simpl].
    rewrite <- negb_orb, <- negb_orb.
    destruct (negb (ct =? certMod r) || negb (kt =? keyMod r) || negb (cat =? caMod r)); simpl;
      [|by eexists _, _, _].
    destruct (tls_LoadX509KeyPair _ (certPath r) (keyPath r)) as [e|c]; [by eexists _, _, _|simpl].
    rewrite Hp. simpl.
    destruct (os_ReadFile _ (caCertPath r)) as [e|pem]; [by eexists _, _, _|simpl].
    destruct (AppendCertsFromPEM pem) as [pool|]; by eexists _, _, _.
Qed.
End alone.

(** * Overlapping loads *)
Section overlapping.
Context `{!FileSystem, !GrpcLib}.

Section reads.
Variable r0 : CertReloader.                     (* the reloader at first: its paths stay *)

(** The modification times a load has read before the instant [t], in order. *)
Definition times_read (t : nat) (certTime keyTime : Z) (caTime : option Z) : Prop :=
  exists t1 t2, (t1 < t2)%nat
  /\ os_Stat t1 (certPath r0) = inr certTime /\ os_Stat t2 (keyPath r0) = inr keyTime
  /\ match caTime with
     | None => caCertPath r0 = "" /\ (t2 < t)%nat
     | Some caTime => caCertPath r0 <> ""
         /\ exists t3, (t2 < t3 < t)%nat /\ os_Stat t3 (caCertPath r0) = inr caTime
     end.

(** Then the certificate and key. *)
Definition pair_read (t : nat) certTime keyTime caTime (c : Certificate) : Prop :=
  exists t4, (t4 < t)%nat /\ times_read t4 certTime keyTime caTime
  /\ tls_LoadX509KeyPair t4 (certPath r0) (keyPath r0) = inr c.

(** Then the CA certificate, if there is a path. *)
Definition all_read (t : nat) certTime keyTime caTime c (caPool : option CertPool) (ca : bool)
  : Prop :=
  (caCertPath r0 = "" /\ caPool = None /\ ca = false /\ pair_read t certTime keyTime caTime c)
  \/ (caCertPath r0 <> "" /\ ca = true /\ exists t5 pem pool, (t5 < t)%nat
      /\ pair_read t5 certTime keyTime caTime c
      /\ os_ReadFile t5 (caCertPath r0) = inr pem /\ AppendCertsFromPEM pem = Some pool
      /\ caPool = Some pool).

(** Everything the reloader holds was read by one load: first the modification times, then
    the certificate with its key, then the CA certificate, all before [t]. *)
Definition from_one_load (t : nat) (r : CertReloader) : Prop :=
  exists caTime c, all_read t (certMod r) (keyMod r) caTime c (clientCAPool r) (hasCA r)
  /\ cert r = Some c /\ default (caMod r0) caTime = caMod r.

(** What the locals of a load in progress are. *)
Definition pc_ok (t : nat) (pc : load_pc) : Prop :=
  match pc with
  | LStatCert | LCount _ | LDone _ => True
  | LStatKey ct => exists t1, (t1 < t)%nat /\ os_Stat t1 (certPath r0) = inr ct
  | LCompare ct kt | LStatCA ct kt _ => exists t1 t2, (t1 < t2 < t)%nat
      /\ os_Stat t1 (certPath r0) = inr ct /\ os_Stat t2 (keyPath r0) = inr kt
      /\ match pc with LStatCA _ _ _ => caCertPath r0 <> "" | _ => True end
  | LCompareCA ct kt cat _ => times_read t ct kt (Some cat)
  | LLoadPair ct kt cat => times_read t ct kt cat
  | LReadCA ct kt cat c => caCertPath r0 <> "" /\ pair_read t ct kt cat c
  | LSwap ct kt cat c pool ca => all_read t ct kt cat c pool ca
  end.

Lemma times_read_mono t t' ct kt cat :
  (t <= t')%nat -> times_read t ct kt cat -> times_read t' ct kt cat.
Proof.
  intros Ht (t1 & t2 & ? & ? & ? & Hca). exists t1, t2. do 3 (split; [done|]).
  destruct cat as [cat|]; [|split; [tauto|lia]].
  destruct Hca as (? & t3 & ? & ?). split; [done|]. exists t3. split; [lia|done].
Qed.
Lemma pair_read_mono t t' ct kt cat c :
  (t <= t')%nat -> pair_read t ct kt cat c -> pair_read t' ct kt cat c.
Proof. intros Ht (t4 & ? & ? & ?). exists t4. split; [lia|done]. Qed.
Lemma all_read_mono t t' ct kt cat c pool ca :
  (t <= t')%nat -> all_read t ct kt cat c pool ca -> all_read t' ct kt cat c pool ca.
Proof.
  intros Ht [(? & ? & ? & Hr)|(? & ? & t5 & pem & p & ? & Hr)].
  - left. do 3 (split; [done|]). by eapply pair_read_mono.
  - right. do 2 (split; [done|]). exists t5, pem, p. split; [lia|done].
Qed.
Lemma pc_ok_mono t t' pc : (t <= t')%nat -> pc_ok t pc -> pc_ok t' pc.
Proof.
  intros Ht. destruct pc; simpl; try done.
  - intros (t1 & ? & ?). exists t1. split; [lia|done].
  - intros (t1 & t2 & ? & ?). exists t1, t2. split; [lia|done].
  - intros (t1 & t2 & ? & ?). exists t1, t2. split; [lia|done].
  - by apply times_read_mono.
  - by apply times_read_mono.
  - intros (? & ?). split; [done|]. by eapply pair_read_mono.
  - by apply all_read_mono.
Qed.
Lemma from_one_load_mono t t' r : (t <= t')%nat -> from_one_load t r -> from_one_load t' r.
Proof. intros Ht (cat & c & ? & ?). exists cat, c. split; [by eapply all_read_mono|done]. Qed.

(** One step of one load, on a reloader with the paths of [r0]. *)
Lemma load_step_ok pc r m w pc' r' w' :
  load_step pc r = Some m -> m w = (Ret (pc', r'), w') ->
  same_paths r0 r -> pc_ok (w_tick w) pc -> (caCertPath r0 = "" -> caMod r = caMod r0) ->
  (w_tick w <= w_tick w')%nat /\ same_paths r0 r' /\ pc_ok (w_tick w') pc'
  /\ (caCertPath r0 = "" -> caMod r' = caMod r0)
  /\ (r' = r \/ from_one_load (w_tick w') r').
Proof.
  intros Hs Hm (Hc & Hk & Hp) Hpc Hca.
  destruct pc; simpl in Hs; try discriminate; injection Hs as <-; rewrite ?Hc, ?Hk, ?Hp in Hm.
  - apply bind_Ret in Hm as (st & w1 & [= <- <-] & [= <- <- <-]). simpl.
    split; [lia|]. split; [done|]. split; [|auto].
    destruct (os_Stat _ _) eqn:E; [done|]. exists (w_tick w). split; [lia|done].
  - apply bind_Ret in Hm as (st & w1 & [= <- <-] & [= <- <- <-]). simpl.
    split; [lia|]. split; [done|]. split; [|auto]. destruct Hpc as (t1 & ? & ?).
    destruct (os_Stat (w_tick w) (keyPath r0)) eqn:E; [done|]. exists t1, (w_tick w). split; [lia|done].
  - injection Hm as <- <- <-. split; [lia|]. split; [done|]. split; [|auto].
    destruct Hpc as (t1 & t2 & ? & ? & ? & _). destruct (String.eqb_spec (caCertPath r0) "").
    + destruct (_ || _); [|done]. exists t1, t2. do 3 (split; [lia || done|]). split; [done|lia].
    + exists t1, t2. done.
  - apply bind_Ret in Hm as (st & w1 & [= <- <-] & [= <- <- <-]). simpl.
    split; [lia|]. split; [done|]. split; [|auto]. destruct Hpc as (t1 & t2 & ? & ? & ? & ?).
    destruct (os_Stat (w_tick w) (caCertPath r0)) eqn:E; [done|].
    exists t1, t2. do 3 (split; [lia || done|]). split; [done|]. exists (w_tick w). split; [lia|done].
  - injection Hm as <- <- <-. split; [lia|]. split; [done|]. split; [|auto].
    by destruct (_ || _).
  - apply bind_Ret in Hm as (st & w1 & [= <- <-] & [= <- <- <-]). simpl.
    split; [lia|]. split; [done|]. split; [|auto].
    destruct (tls_LoadX509KeyPair _ _ _) as [e|c] eqn:E; [done|].
    assert (Hpr : pair_read (S (w_tick w)) certTime keyTime caTime c)
      by (exists (w_tick w); split; [lia|done]).
    destruct (String.eqb_spec (caCertPath r0) ""); [by left|done].
  - apply bind_Ret in Hm as (st & w1 & [= <- <-] & [= <- <- <-]). simpl.
    split; [lia|]. split; [done|]. split; [|auto]. destruct Hpc as [Hne Hpr].
    destruct (os_ReadFile _ _) as [e|pem] eqn:E; [done|].
    destruct (AppendCertsFromPEM pem) as [pool|] eqn:Ep; [|done].
    right. do 2 (split; [done|]). exists (w_tick w), pem, pool. split; [lia|done].
  - injection Hm as <- <- <-. split; [lia|]. split; [done|]. split; [done|].
    assert (Hcat : caCertPath r0 = "" -> caTime = None).
    { intros He. simpl in Hpc. destruct Hpc as [(_ & _ & _ & t4 & _ & (t1 & t2 & _ & _ & _ & Hx) & _)|(? & _)];
        [|done]. destruct caTime; [by destruct Hx|done]. }
    split; [intros He; simpl; rewrite (Hcat He); auto|].
    right. exists caTime, c. simpl. split; [done|]. split; [done|].
    destruct caTime as [x|]; [done|]. simpl. symmetry. apply Hca.
    destruct Hpc as [(? & _)|(_ & _ & t5 & pem & p & _ & (t4 & _ & (t1 & t2 & _ & _ & _ & Hx) & _) & _)];
      [done|by destruct Hx].
  - apply bind_Ret in Hm as (? & w1 & [= <-] & Hm). apply bind_Ret in Hm as (? & w2 & [= <-] & [= <- <- <-]).
    subst. split; [simpl; lia|]. split; [done|]. by auto.
Qed.

Lemma tls_step_ok y y' :
  tls_step y y' ->
  let ok y := same_paths r0 (tls_reloader y)
    /\ (caCertPath r0 = "" -> caMod (tls_reloader y) = caMod r0)
    /\ (tls_reloader y = r0 \/ from_one_load (w_tick (tls_world y)) (tls_reloader y))
    /\ Forall (pc_ok (w_tick (tls_world y))) (tls_loads y) in
  ok y -> ok y'.
Proof.
  intros Hst ok (Hp & Hca & Hr & Hl). unfold ok.
  destruct Hst as [r l w|j pc m pc' r r' l w w' Hj Hs Hm|r l w w' Ht]; simpl in *.
  - do 3 (split; [done|]). apply Forall_app. split; [done|]. by constructor.
  - assert (Hpc : pc_ok (w_tick w) pc) by (by eapply Forall_lookup_1).
    destruct (load_step_ok _ _ _ _ _ _ _ Hs Hm Hp Hpc Hca) as (Ht & Hp' & Hpc' & Hca' & Hr').
    do 2 (split; [done|]). split.
    + destruct Hr' as [->|?]; [|by right].
      destruct Hr as [?|?]; [by left|right; by eapply from_one_load_mono].
    + apply Forall_insert; [|done]. eapply Forall_impl; [exact Hl|]. intros x. by apply pc_ok_mono.
  - do 2 (split; [done|]). split.
    + destruct Hr as [?|?]; [by left|right; by eapply from_one_load_mono].
    + eapply Forall_impl; [exact Hl|]. intros x. by apply pc_ok_mono.
Qed.
End reads.

Lemma from_one_load_serves r0 t r :
  same_paths r0 r -> from_one_load r0 t r -> reloader_ok r.
Proof.
  intros (_ & _ & Hp) (cat & c & Hall & Hc & _). split; [by eexists|..].
  - rewrite Hp. destruct Hall as [(-> & _ & -> & _)|(? & -> & _)]; [done|].
    by destruct (String.eqb_spec (caCertPath r0) "").
  - intros Hca. destruct Hall as [(_ & _ & ? & _)|(_ & _ & ? & ? & pool & _ & _ & _ & _ & ->)];
      [congruence|by eexists].
Qed.

(** C29: loads may overlap in any way, with each other and with the rest of the process: what
    the reloader serves is either still what it had at first, or comes as a whole from a
    single load, which read the modification times before the certificate and key and those
    before the CA certificate; so certificate, key and client CAs are never mixed, and a
    reloader that can serve can serve after every step. *)
Theorem overlapping_loads_are_whole r0 w0 y :
  tls_reachable r0 w0 y ->
  same_paths r0 (tls_reloader y)
  /\ (tls_reloader y = r0 \/ from_one_load r0 (w_tick (tls_world y)) (tls_reloader y))
  /\ (reloader_ok r0 -> reloader_ok (tls_reloader y)).
Proof.
  intros Hy. unfold tls_reachable in Hy.
  assert (Hok : same_paths r0 (tls_reloader y)
    /\ (caCertPath r0 = "" -> caMod (tls_reloader y) = caMod r0)
    /\ (tls_reloader y = r0 \/ from_one_load r0 (w_tick (tls_world y)) (tls_reloader y))
    /\ Forall (pc_ok r0 (w_tick (tls_world y))) (tls_loads y)).
  { remember (mkTls r0 [] w0) as y0 eqn:E.
    assert (Hi : same_paths r0 (tls_reloader y0)
      /\ (caCertPath r0 = "" -> caMod (tls_reloader y0) = caMod r0)
      /\ (tls_reloader y0 = r0 \/ from_one_load r0 (w_tick (tls_world y0)) (tls_reloader y0))
      /\ Forall (pc_ok r0 (w_tick (tls_world y0))) (tls_loads y0))
      by (subst; simpl; auto; split_and!; auto; done).
    clear E. induction Hy as [|y1 y2 y3 Hst _ IH]; [done|]. apply IH. by apply (tls_step_ok r0 _ _ Hst). }
  destruct Hok as (Hp & _ & Hr & _). split; [done|]. split; [done|]. intros Hok0.
  destruct Hr as [->|?]; [done|by eapply from_one_load_serves].
Qed.
End overlapping.

(** ** An older load that ends last *)

(** Files that are replaced once, at instant 3. *)
Definition replaced_files : FileSystem := {|
  Certificate := string;
  CertPool := string;
  os_Stat t _ := inr (if (t <? 3)%nat then 1 else 2);
  tls_LoadX509KeyPair t _ _ := inr (if (t <? 3)%nat then "old" else "new");
  os_ReadFile _ p := inr p;
  AppendCertsFromPEM pem := Some pem
|}.

(** C30: overlapping loads can undo each other: a load that read the files before they were
    replaced, and swaps last, puts the old certificate back after another load already served
    the new one, while the files hold the new one ever since. *)
Theorem overlapping_loads_roll_back :
  let FS := replaced_files in let G := test_grpc in
  exists (r : CertReloader) (w : World) (y1 y2 : tls_state),
    reloader_ok r /\ tls_reachable r w y1 /\ rtc tls_step y1 y2
    /\ cert (tls_reloader y1) = Some "new" /\ cert (tls_reloader y2) = Some "old"
    /\ (forall t, (w_tick (tls_world y1) <= t)%nat ->
          tls_LoadX509KeyPair t (certPath r) (keyPath r) = inr "new").
Proof.
  intros FS G.
  set (r := @mkReloader replaced_files (Some "older") None false "cert" "key" "" 0 0 0).
  set (w := mkWorld ∅ ∅ [] 0).
  (* the first load reads the old pair at the instants 0, 1, 2, the second one the new pair *)
  set (r1 := @mkReloader replaced_files (Some "new") None false "cert" "key" "" 2 2 0).
  set (r2 := @mkReloader replaced_files (Some "old") None false "cert" "key" "" 1 1 0).
  set (wt := mkWorld ∅ ∅ [] 6).
  exists r, w, (mkTls r1 [@LSwap replaced_files 1 1 None "old" None false; LCount false] wt),
    (mkTls r2 [LCount false; LCount false] wt).
  assert (Hload : forall rl j pc m pc' rl' l l' v v', l !! j = Some pc -> load_step pc rl = Some m ->
      m v = (Ret (pc', rl'), v') -> l' = <[j := pc']> l -> tls_step (mkTls rl l v) (mkTls rl' l' v'))
    by (intros; subst; by eapply tls_load).
  split; [|split; [|split]].
  - split; [by eexists|done|by intros [=]].
  - unfold tls_reachable.
    eapply rtc_l; [apply tls_start|]. simpl.
    do 4 (eapply rtc_l; [by eapply (Hload _ 0%nat)|]).
    eapply rtc_l; [apply tls_start|]. simpl.
    do 5 (eapply rtc_l; [by eapply (Hload _ 1%nat)|]).
    reflexivity.
  - apply rtc_once. by eapply (Hload _ 0%nat).
  - split; [done|]. split; [done|]. intros t Ht. simpl in *. by destruct (Nat.ltb_spec t 3); [lia|].
Qed.
