(* ===== verification/AgentGrpc.v ===== *)
(** The server and client side of [control-plane/gen/compute/v1/agent_grpc.pb.go]: the service
    interface, its unimplemented default, the dispatch of each unary method through an
    interceptor and the client stubs.  The transport and the server's routing by
    [ServiceDesc] are gRPC's; a decoder and an [Invoke] are arguments. *)
From S2P Require Import Prelude GoRuntime GoStrings PbResource PbAgent Grpc World Metrics.
From S2P Require Import Registry RegistryApi Agent.
Local Open Scope string_scope.
Local Open Scope Z_scope.

Definition AgentService_Register_FullMethodName : string := "/compute.v1.AgentService/Register".
Definition AgentService_Heartbeat_FullMethodName : string := "/compute.v1.AgentService/Heartbeat".
Definition AgentService_ExecuteTask_FullMethodName : string :=
  "/compute.v1.AgentService/ExecuteTask".
Definition AgentService_AllocateMemory_FullMethodName : string :=
  "/compute.v1.AgentService/AllocateMemory".
Definition AgentService_AllocateGPUMemory_FullMethodName : string :=
  "/compute.v1.AgentService/AllocateGPUMemory".
Definition AgentService_FreeMemory_FullMethodName : string :=
  "/compute.v1.AgentService/FreeMemory".
Definition AgentService_FreeGPUMemory_FullMethodName : string :=
  "/compute.v1.AgentService/FreeGPUMemory".

(** [AgentService_ServiceDesc]: its name, and a row for each unary method: its name and the
    types of its messages; the handlers are below. *)
Definition AgentService_ServiceName : string := "compute.v1.AgentService".
Inductive Method : Type :=
  | Method_Register
  | Method_ExecuteTask
  | Method_AllocateMemory
  | Method_AllocateGPUMemory
  | Method_FreeMemory
  | Method_FreeGPUMemory.
#[export] Instance Method_eq_dec : EqDecision Method.
Proof. solve_decision. Defined.

Definition MethodName (m : Method) : string :=
  match m with
  | Method_Register => "Register"
  | Method_ExecuteTask => "ExecuteTask"
  | Method_AllocateMemory => "AllocateMemory"
  | Method_AllocateGPUMemory => "AllocateGPUMemory"
  | Method_FreeMemory => "FreeMemory"
  | Method_FreeGPUMemory => "FreeGPUMemory"
  end.
Definition Method_Req (m : Method) : Type :=
  match m with
  | Method_Register => RegisterRequest
  | Method_ExecuteTask => TaskSpec
  | Method_AllocateMemory => MemoryAllocRequest
  | Method_AllocateGPUMemory => GPUMemoryAllocRequest
  | Method_FreeMemory => FreeMemoryRequest
  | Method_FreeGPUMemory => FreeGPUMemoryRequest
  end.
Definition Method_Resp (m : Method) : Type :=
  match m with
  | Method_Register => RegisterResponse
  | Method_ExecuteTask => TaskAck
  | Method_AllocateMemory => MemoryAllocResponse
  | Method_AllocateGPUMemory => GPUMemoryAllocResponse
  | Method_FreeMemory => FreeMemoryResponse
  | Method_FreeGPUMemory => FreeGPUMemoryResponse
  end.
Definition Method_FullName (m : Method) : string :=
  match m with
  | Method_Register => AgentService_Register_FullMethodName
  | Method_ExecuteTask => AgentService_ExecuteTask_FullMethodName
  | Method_AllocateMemory => AgentService_AllocateMemory_FullMethodName
  | Method_AllocateGPUMemory => AgentService_AllocateGPUMemory_FullMethodName
  | Method_FreeMemory => AgentService_FreeMemory_FullMethodName
  | Method_FreeGPUMemory => AgentService_FreeGPUMemory_FullMethodName
  end.
Definition AgentService_Methods : list Method :=
  [Method_Register; Method_ExecuteTask; Method_AllocateMemory; Method_AllocateGPUMemory;
   Method_FreeMemory; Method_FreeGPUMemory].
Definition AgentService_Streams : list string := ["Heartbeat"].

Section agent_grpc.
Context `{!GrpcLib}.

(** A unary method, and [grpc.UnaryServerInterceptor]. *)
Definition UnaryMethod (Req Resp : Type) : Type :=
  Ctx -> Req -> Go World (option Resp * option error).
Definition UnaryInterceptor : Type := forall Req Resp : Type,
  Ctx -> Req -> string -> UnaryMethod Req Resp -> Go World (option Resp * option error).

Record AgentServiceServer := mkAgentServiceServer {
  srv_Register : UnaryMethod RegisterRequest RegisterResponse;
  srv_ExecuteTask : UnaryMethod TaskSpec TaskAck;
  srv_AllocateMemory : UnaryMethod MemoryAllocRequest MemoryAllocResponse;
  srv_AllocateGPUMemory : UnaryMethod GPUMemoryAllocRequest GPUMemoryAllocResponse;
  srv_FreeMemory : UnaryMethod FreeMemoryRequest FreeMemoryResponse;
  srv_FreeGPUMemory : UnaryMethod FreeGPUMemoryRequest FreeGPUMemoryResponse
}.

Definition unimplemented {Req Resp} (m : string) : UnaryMethod Req Resp := fun _ _ =>
  mret (None, status_Error Unimplemented ("method " +:+ m +:+ " not implemented")).
Definition UnimplementedAgentServiceServer : AgentServiceServer := {|
  srv_Register := unimplemented "Register";
  srv_ExecuteTask := unimplemented "ExecuteTask";
  srv_AllocateMemory := unimplemented "AllocateMemory";
  srv_AllocateGPUMemory := unimplemented "AllocateGPUMemory";
  srv_FreeMemory := unimplemented "FreeMemory";
  srv_FreeGPUMemory := unimplemented "FreeGPUMemory"
|}.

Definition AgentService_Register_Handler (srv : AgentServiceServer) (ctx : Ctx)
    (dec : error + RegisterRequest) (interceptor : option UnaryInterceptor)
    : Go World (option RegisterResponse * option error) :=
  match dec with
  | inl err => mret (None, Some err)
  | inr inp =>
      match interceptor with
      | None => srv_Register srv ctx inp
      | Some i => i RegisterRequest RegisterResponse ctx inp AgentService_Register_FullMethodName
                    (fun ctx req => srv_Register srv ctx req)
      end
  end.

Definition AgentService_ExecuteTask_Handler (srv : AgentServiceServer) (ctx : Ctx)
    (dec : error + TaskSpec) (interceptor : option UnaryInterceptor)
    : Go World (option TaskAck * option error) :=
  match dec with
  | inl err => mret (None, Some err)
  | inr inp =>
      match interceptor with
      | None => srv_ExecuteTask srv ctx inp
      | Some i => i TaskSpec TaskAck ctx inp AgentService_ExecuteTask_FullMethodName
                    (fun ctx req => srv_ExecuteTask srv ctx req)
      end
  end.

Definition AgentService_AllocateMemory_Handler (srv : AgentServiceServer) (ctx : Ctx)
    (dec : error + MemoryAllocRequest) (interceptor : option UnaryInterceptor)
    : Go World (option MemoryAllocResponse * option error) :=
  match dec with
  | inl err => mret (None, Some err)
  | inr inp =>
      match interceptor with
      | None => srv_AllocateMemory srv ctx inp
      | Some i => i MemoryAllocRequest MemoryAllocResponse ctx inp AgentService_AllocateMemory_FullMethodName
                    (fun ctx req => srv_AllocateMemory srv ctx req)
      end
  end.

Definition AgentService_AllocateGPUMemory_Handler (srv : AgentServiceServer) (ctx : Ctx)
    (dec : error + GPUMemoryAllocRequest) (interceptor : option UnaryInterceptor)
    : Go World (option GPUMemoryAllocResponse * option error) :=
  match dec with
  | inl err => mret (None, Some err)
  | inr inp =>
      match interceptor with
      | None => srv_AllocateGPUMemory srv ctx inp
      | Some i => i GPUMemoryAllocRequest GPUMemoryAllocResponse ctx inp AgentService_AllocateGPUMemory_FullMethodName
                    (fun ctx req => srv_AllocateGPUMemory srv ctx req)
      end
  end.

Definition AgentService_FreeMemory_Handler (srv : AgentServiceServer) (ctx : Ctx)
    (dec : error + FreeMemoryRequest) (interceptor : option UnaryInterceptor)
    : Go World (option FreeMemoryResponse * option error) :=
  match dec with
  | inl err => mret (None, Some err)
  | inr inp =>
      match interceptor with
      | None => srv_FreeMemory srv ctx inp
      | Some i => i FreeMemoryRequest FreeMemoryResponse ctx inp AgentService_FreeMemory_FullMethodName
                    (fun ctx req => srv_FreeMemory srv ctx req)
      end
  end.

Definition AgentService_FreeGPUMemory_Handler (srv : AgentServiceServer) (ctx : Ctx)
    (dec : error + FreeGPUMemoryRequest) (interceptor : option UnaryInterceptor)
    : Go World (option FreeGPUMemoryResponse * option error) :=
  match dec with
  | inl err => mret (None, Some err)
  | inr inp =>
      match interceptor with
      | None => srv_FreeGPUMemory srv ctx inp
      | Some i => i FreeGPUMemoryRequest FreeGPUMemoryResponse ctx inp AgentService_FreeGPUMemory_FullMethodName
                    (fun ctx req => srv_FreeGPUMemory srv ctx req)
      end
  end.

(** The handler of each row of the service description, and the method of the server it
    dispatches to. *)
Definition Method_Handler (m : Method) : AgentServiceServer -> Ctx -> error + Method_Req m ->
    option UnaryInterceptor -> Go World (option (Method_Resp m) * option error) :=
  match m with
  | Method_Register => AgentService_Register_Handler
  | Method_ExecuteTask => AgentService_ExecuteTask_Handler
  | Method_AllocateMemory => AgentService_AllocateMemory_Handler
  | Method_AllocateGPUMemory => AgentService_AllocateGPUMemory_Handler
  | Method_FreeMemory => AgentService_FreeMemory_Handler
  | Method_FreeGPUMemory => AgentService_FreeGPUMemory_Handler
  end.
Definition srv_method (m : Method) (srv : AgentServiceServer)
  : UnaryMethod (Method_Req m) (Method_Resp m) :=
  match m with
  | Method_Register => srv_Register srv
  | Method_ExecuteTask => srv_ExecuteTask srv
  | Method_AllocateMemory => srv_AllocateMemory srv
  | Method_AllocateGPUMemory => srv_AllocateGPUMemory srv
  | Method_FreeMemory => srv_FreeMemory srv
  | Method_FreeGPUMemory => srv_FreeGPUMemory srv
  end.

Lemma Method_Handler_eq m srv ctx dec i :
  Method_Handler m srv ctx dec (Some i) =
  match dec with
  | inl err => mret (None, Some err)
  | inr req => i (Method_Req m) (Method_Resp m) ctx req (Method_FullName m) (srv_method m srv)
  end.
Proof. by destruct m, dec. Qed.

(** The client stubs: [Invoke] sends the request and fills the response. *)
Definition Invoke_fn : Type := forall Req Resp : Type,
  Ctx -> string -> Req -> Go World (error + Resp).
Definition stub (Invoke : Invoke_fn) {Req Resp} (full : string) (ctx : Ctx) (inp : Req)
  : Go World (option Resp * option error) :=
  res ← Invoke Req Resp ctx full inp;
  mret match res with
       | inl err => (None, Some err)
       | inr out => (Some out, None)
       end.
Definition agentServiceClient_Register (Invoke : Invoke_fn) (ctx : Ctx) (inp : RegisterRequest)
  : Go World (option RegisterResponse * option error) :=
  stub Invoke AgentService_Register_FullMethodName ctx inp.
Definition agentServiceClient_ExecuteTask (Invoke : Invoke_fn) (ctx : Ctx) (inp : TaskSpec)
  : Go World (option TaskAck * option error) :=
  stub Invoke AgentService_ExecuteTask_FullMethodName ctx inp.
Definition agentServiceClient_AllocateMemory (Invoke : Invoke_fn) (ctx : Ctx) (inp : MemoryAllocRequest)
  : Go World (option MemoryAllocResponse * option error) :=
  stub Invoke AgentService_AllocateMemory_FullMethodName ctx inp.
Definition agentServiceClient_AllocateGPUMemory (Invoke : Invoke_fn) (ctx : Ctx) (inp : GPUMemoryAllocRequest)
  : Go World (option GPUMemoryAllocResponse * option error) :=
  stub Invoke AgentService_AllocateGPUMemory_FullMethodName ctx inp.
Definition agentServiceClient_FreeMemory (Invoke : Invoke_fn) (ctx : Ctx) (inp : FreeMemoryRequest)
  : Go World (option FreeMemoryResponse * option error) :=
  stub Invoke AgentService_FreeMemory_FullMethodName ctx inp.
Definition agentServiceClient_FreeGPUMemory (Invoke : Invoke_fn) (ctx : Ctx) (inp : FreeGPUMemoryRequest)
  : Go World (option FreeGPUMemoryResponse * option error) :=
  stub Invoke AgentService_FreeGPUMemory_FullMethodName ctx inp.

(** The stub of the stream: [NewStream], for the first stream of the service description. *)
Definition agentServiceClient_Heartbeat {Stream : Type}
    (NewStream : Ctx -> option string -> string -> Go World (error + Stream)) (ctx : Ctx)
  : Go World (option Stream * option error) :=
  stream ← NewStream ctx (head AgentService_Streams) AgentService_Heartbeat_FullMethodName;
  mret match stream with
       | inl err => (None, Some err)
       | inr stream => (Some stream, None)
       end.
End agent_grpc.

(** The agent server of the control plane, as the service interface sees it. *)
Definition AgentServer_service `{!GoEnv, !GrpcLib, !BuildInfo, !RegistryOps} (s : AgentServer)
  : AgentServiceServer := {|
  srv_Register := AgentServer_Register s;
  srv_ExecuteTask := ExecuteTask s;
  srv_AllocateMemory := AllocateMemory s;
  srv_AllocateGPUMemory := AllocateGPUMemory s;
  srv_FreeMemory := FreeMemory s;
  srv_FreeGPUMemory := FreeGPUMemory s
|}.

(** * Properties *)

(** Every method the agent service serves keeps its own label, [Service.Method] after the
    package, and the full names are those of the service description. *)
Lemma served_label m : let full := "/" +:+ AgentService_ServiceName +:+ "/" +:+ m in
  m ∈ ((MethodName <$> AgentService_Methods) ++ AgentService_Streams)%list ->
  known_label (method_of full) /\ method_of full = "compute.v1.AgentService." +:+ m.
Proof.
  simpl. intros Hm.
  assert (Hall : Forall (fun m => ("AgentService/" +:+ m) ∈ knownServiceMethods
     /\ method_of ("/" +:+ AgentService_ServiceName +:+ "/" +:+ m) = "compute.v1.AgentService." +:+ m
     /\ dotted ("AgentService/" +:+ m) = "AgentService." +:+ m)
    ((MethodName <$> AgentService_Methods) ++ AgentService_Streams)%list).
  { repeat (constructor; [split; [apply (bool_decide_unpack _); reflexivity|split; reflexivity]|]).
    constructor. }
  rewrite Forall_forall in Hall. destruct (Hall m Hm) as (Hk & He & Hd). split; [|done].
  simpl in He. rewrite He. exists ("AgentService/" +:+ m). split; [done|]. right; right.
  exists "compute", "v1". by rewrite Hd.
Qed.

Lemma Method_FullName_eq m :
  Method_FullName m = "/" +:+ AgentService_ServiceName +:+ "/" +:+ MethodName m.
Proof. by destruct m. Qed.

Lemma Method_listed m : m ∈ AgentService_Methods.
Proof. destruct m; apply (bool_decide_unpack _); reflexivity. Qed.

Theorem served_methods_have_labels :
  (forall m, known_label (method_of (Method_FullName m))
     /\ method_of (Method_FullName m) = "compute.v1.AgentService." +:+ MethodName m)
  /\ known_label (method_of AgentService_Heartbeat_FullMethodName)
  /\ method_of AgentService_Heartbeat_FullMethodName = "compute.v1.AgentService.Heartbeat".
Proof.
  split.
  - intros m. rewrite Method_FullName_eq. apply served_label.
    apply elem_of_app. left. apply list_elem_of_fmap. exists m. split; [done|]. apply Method_listed.
  - apply (served_label "Heartbeat"). apply (bool_decide_unpack _). reflexivity.
Qed.
