(* ===== verification/MetricsSafety.v ===== *)
(** The Prometheus library panics when a metric is used with another number of label values
    than it was declared with, and when a counter is decreased.  No call the control plane
    makes does either: every operation keeps the trace of metric calls well-formed.

    The walk through the operations is done once, for every predicate on the shared state that
    survives what the operations are made of ([TraceInv]). *)
From S2P Require Import Prelude GoRuntime GoStrings PbResource PbAgent Grpc World Registry.
From S2P Require Import RegistrySafety RegistryApi Validator Metrics Agent AgentFacts Heartbeat.
From S2P Require Import TlsReload.
Local Open Scope string_scope.
Local Open Scope Z_scope.

(** A call the library accepts: the labels as declared, the operation one of the metric's kind,
    a counter never decreased. *)
Definition op_ok (k : MetricKind) (op : MetricOp) : Prop :=
  match k, op with
  | Counter, Inc => True
  | Counter, Add v => 0 <= v
  | Gauge, (Inc | Dec | Add _ | Set_ _) => True
  | Histogram, Observe _ => True
  | _, _ => False
  end.
Definition event_ok (e : Event) : Prop :=
  match e with
  | EvMetric m labels op =>
      length labels = length (Metric_labels m) /\ op_ok (Metric_kind m) op
  | EvLog _ | EvCall _ => True
  end.
Definition trace_ok (w : World) : Prop := Forall event_ok (w_trace w).

(** The metrics of the interceptors, and the events of everything else but the shutdown. *)
Definition request_metric (m : Metric) : Prop := m = grpcServerRequests \/ m = grpcServerLatency.
Definition plain_event (e : Event) : Prop :=
  match e with
  | EvMetric m _ _ => ~ request_metric m /\ m <> grpcActiveStreams
  | EvLog _ => True
  | EvCall _ => False
  end.

(** A predicate that survives accepted plain events, changes of the node map, the passing of
    time and the caching of known labels. *)
Class TraceInv (P : World -> Prop) : Prop := {
  inv_event e w : event_ok e -> plain_event e -> P w -> P (add_event e w);
  inv_nodes f w : P w -> P (set_nodes f w);
  inv_tick w : P w -> P (next_tick w);
  inv_known k w : known_label k -> P w -> P (add_known k w)
}.
(** One that survives the counting of a request too. *)
Class RequestInv (P : World -> Prop) : Prop := {
  #[global] request_trace :: TraceInv P;
  inv_request m labels op w :
    event_ok (EvMetric m labels op) -> request_metric m -> P w -> P (add_event (EvMetric m labels op) w)
}.

#[export] Instance trace_ok_inv : RequestInv trace_ok.
Proof. split; [split; try done|]; intros; by constructor. Qed.

(** The calls made so far. *)
#[export] Instance calls_inv before : RequestInv (fun w => calls w = before).
Proof. split; [|done]. by split; [intros [| |] w|..]. Qed.

(** The series of a metric of the interceptors. *)
#[export] Instance request_series_inv m labels v : request_metric m ->
  TraceInv (fun w => series_value m labels (w_trace w) = v).
Proof.
  intros Hm. split; try done. intros [m' labels' op|e|c] w _ Hp Hw; try done. simpl in *.
  by rewrite decide_False by (intros [-> _]; tauto).
Qed.

(** The open streams counted under a label. *)
#[export] Instance active_inv labels v :
  RequestInv (fun w => series_value grpcActiveStreams labels (w_trace w) = v).
Proof.
  split.
  - split; try done. intros [m' labels' op|e|c] w _ Hp Hw; try done. simpl in *.
    by rewrite decide_False by (intros [-> _]; tauto).
  - intros m labels' op w _ Hm Hw. simpl. rewrite decide_False; [done|].
    intros [-> _]. by destruct Hm.
Qed.

(** The consistency of the label cache. *)
#[export] Instance cache_ok_inv : RequestInv cache_ok.
Proof.
  split; [|done]. split; try done. intros k w Hk [Hin Hok]. split; simpl.
  - intros known Hkn. apply elem_of_union. right. by apply Hin.
  - intros k' [->%elem_of_singleton|Hk']%elem_of_union; auto.
Qed.

(** The clock. *)
#[export] Instance tick_inv n : RequestInv (fun w => (n <= w_tick w)%nat).
Proof. split; [|done]. split; simpl; auto with lia. Qed.

#[export] Instance and_inv P Q : RequestInv P -> RequestInv Q -> RequestInv (fun w => P w /\ Q w).
Proof.
  intros HP HQ. split; [split|].
  - intros e w ? ? [? ?]. by split; apply inv_event.
  - intros f w [? ?]. by split; apply inv_nodes.
  - intros w [? ?]. by split; apply inv_tick.
  - intros k w ? [? ?]. by split; apply inv_known.
  - intros m labels op w ? ? [? ?]. by split; apply inv_request.
Qed.
(** Go through the steps of a computation made of plain events. *)
Ltac plain_side := simpl; first [exact I | split; [by intros [?|?]|done]].
Ltac trace_step :=
  first [ assumption | apply inv_nodes; assumption | apply inv_tick; assumption
        | apply inv_event; [by repeat split|plain_side|assumption] ].
Ltac keeps_trace := keeps_world trace_step.

Section operations.
Context `{!GoEnv, !ProtoLib}.
Context (P : World -> Prop) `{!TraceInv P}.

Lemma total_trace : keeps P totalTasksLocked.
Proof. unfold totalTasksLocked. keeps_trace. Qed.

Lemma cleanup_loop_trace now threshold l removed :
  keeps P (cleanup_loop now threshold l removed).
Proof.
  revert removed. induction l as [|[id info] l IH]; intros removed; simpl; [apply keeps_ret|].
  case_match; [|apply IH]. keeps_trace. apply IH.
Qed.

Lemma run_op_trace o : keeps P (run_op o).
Proof.
  destruct o; simpl; unfold NodeRegistry_Register, NodeRegistry_UpdateHeartbeat,
    NodeRegistry_GetAll, NodeRegistry_Remove, NodeRegistry_RemoveIfConnectionMatches,
    NodeRegistry_ConnectionID, cleanup_tick;
  repeat (apply total_trace || apply cleanup_loop_trace || keeps_trace).
  apply keeps_metric. intros w Hw. apply inv_event; [|plain_side|done]. split; [done|]. simpl.
  match goal with Hr : (_ >? 0) = true |- _ => apply Z.gtb_gt in Hr; lia end.
Qed.
End operations.

Section handlers.
Context `{!GoEnv, !ProtoLib, !GrpcLib, !BuildInfo}.
Context (P : World -> Prop) `{!TraceInv P}.

Lemma sanitize_trace full : keeps P (sanitizeMethod full).
Proof.
  unfold sanitizeMethod. fold (method_of full). pose proof (method_of_no_slash full) as Hs.
  apply keeps_bind; [by intros w|]. intros [|]; [apply keeps_ret|].
  destruct (_ >=? 3) eqn:E1; [|apply keeps_ret]. destruct (existsb _ _) eqn:E2; [|apply keeps_ret].
  apply keeps_bind; [|intros; apply keeps_ret]. intros w Hw. apply inv_known; [|done].
  apply parts_known_label; [done|]. unfold parts_known. by rewrite E1, E2.
Qed.

#[local] Opaque sanitizeMethod.

Lemma validate_trace ctx method i checks :
  Forall (fun c => keeps P (check c)) checks ->
  keeps P (validate_from ctx method i checks).
Proof.
  intros Hall. revert i. induction Hall as [|c checks Hc Hall IH]; intros i; simpl; [apply keeps_ret|].
  apply keeps_bind; [done|]. intros [e|]; [|apply IH].
  apply keeps_bind; [|intros; apply keeps_ret]. unfold logValidationRejection. keeps_trace.
Qed.

Lemma env_trace env : keeps P (ValidateEnvVars env).
Proof. unfold ValidateEnvVars. keeps_trace. Qed.

(** A chain of checks each of which is a value, or the environment check. *)
Lemma check_trace caller fld chk : keeps P chk -> keeps P (check (newCheck caller fld chk)).
Proof. by destruct caller as [[file line]|]. Qed.

#[local] Ltac chain_trace :=
  apply validate_trace; repeat constructor; apply check_trace; (apply keeps_ret || apply env_trace).
#[local] Ltac handler_trace :=
  apply keeps_bind; [chain_trace|]; intros [e|]; [apply keeps_ret|]; keeps_trace.

Lemma Register_trace s ctx req : keeps P (AgentServer_Register s ctx req).
Proof.
  unfold AgentServer_Register. handler_trace.
  apply (run_op_trace P (ORegister (RegisterRequest_NodeId req) (RegisterRequest_Address req)
    (RegisterRequest_Resources req))).
Qed.

Lemma unary_handlers_trace s ctx :
  (forall req, keeps P (ExecuteTask s ctx req))
  /\ (forall req, keeps P (AllocateMemory s ctx req))
  /\ (forall req, keeps P (AllocateGPUMemory s ctx req))
  /\ (forall req, keeps P (FreeMemory s ctx req))
  /\ (forall req, keeps P (FreeGPUMemory s ctx req)).
Proof.
  split_and!; intros req;
    unfold ExecuteTask, AllocateMemory, AllocateGPUMemory, FreeMemory, FreeGPUMemory;
    handler_trace.
Qed.

Lemma handler_step_trace s ctx pc i m :
  hb_handler s ctx pc i = Some m -> keeps P m.
Proof.
  intros Hm. destruct pc as [| |first|first conn|first conn|id conn|id conn req|id conn err|err],
    i as [|[r|e]|err'|err'|]; simpl in Hm; try discriminate; injection Hm as <-.
  - apply keeps_ret.
  - apply keeps_bind; [chain_trace|]. intros; apply keeps_ret.
  - apply keeps_ret.
  - keeps_trace.
  - keeps_trace.
  - keeps_trace.
  - apply keeps_bind; [chain_trace|]. intros; apply keeps_ret.
  - keeps_trace.
  - keeps_trace.
  - keeps_trace.
Qed.

Lemma hb_step_trace s ctx st i m : hb_step s ctx st i = Some m -> keeps P m.
Proof.
  intros Hs. destruct i as [|r|err|err|]; simpl in Hs.
  4:{ destruct (hb_tick st); try done. injection Hs as <-. keeps_trace. }
  4:{ destruct (hb_tick st); try done. destruct (hb_at st); try done. injection Hs as <-. keeps_trace. }
  all: match type of Hs with match hb_handler ?s ?ctx ?pc ?i with _ => _ end = _ =>
         destruct (hb_handler s ctx pc i) as [h|] eqn:Hh; [|done] end.
  all: injection Hs as <-; apply keeps_bind; [by eapply handler_step_trace|intros; apply keeps_ret].
Qed.

Lemma Since_trace start : keeps P (Since start).
Proof. unfold Since. keeps_trace. Qed.

End handlers.

Section streams.
Context `{!GoEnv, !GrpcLib}.

Lemma unary_trace P `{!RequestInv P} {Req Resp} ctx (req : Req) full
    (handler : Ctx -> Req -> Go World (Resp * option error)) :
  keeps P (handler ctx req) -> keeps P (UnaryServerInterceptor ctx req full handler).
Proof.
  intros Hh. unfold UnaryServerInterceptor.
  assert (Hm : forall m labels op, request_metric m -> event_ok (EvMetric m labels op) ->
    keeps P (metric m labels op)) by (intros; apply keeps_metric; intros; by apply inv_request).
  repeat first [ exact Hh | apply (sanitize_trace _) | apply (Since_trace _)
               | apply Hm; [unfold request_metric; tauto|by repeat split]
               | apply keeps_Now; apply inv_tick
               | apply keeps_ret | apply keeps_bind; [|intros ?] | progress case_match ].
Qed.

Lemma stream_trace {Srv SS} (srv : Srv) (ss : SS) full handler :
  keeps trace_ok (handler srv ss) ->
  keeps trace_ok (StreamServerInterceptor srv ss full handler).
Proof.
  intros Hh. unfold StreamServerInterceptor.
  assert (Hm : forall m labels op, event_ok (EvMetric m labels op) -> keeps trace_ok (metric m labels op))
    by (intros; apply keeps_metric; by constructor).
  repeat first [ exact Hh | apply (sanitize_trace _) | apply (Since_trace _)
               | apply Hm; by repeat split
               | apply keeps_Now; apply inv_tick
               | apply keeps_ret | apply keeps_defer | apply keeps_bind; [|intros ?] ].
Qed.
End streams.

Section tls.
Context `{!FileSystem, !GrpcLib}.
Context (P : World -> Prop) `{!TraceInv P}.
Lemma syscall_trace {A} (f : nat -> A) : keeps P (syscall f).
Proof. intros w Hw. by apply inv_tick. Qed.
#[local] Opaque syscall.
Lemma load_trace r : keeps P (load r).
Proof. unfold load, stat_ca, load_ca. repeat first [apply syscall_trace | progress keeps_trace]. Qed.
Lemma failed_trace msg err : keeps P (load_failed msg err).
Proof. unfold load_failed. keeps_trace. Qed.
Lemma Reload_trace r : keeps P (Reload r).
Proof.
  unfold Reload. apply keeps_bind; [apply load_trace|]. intros [r' [err|]]; [|apply keeps_ret].
  apply keeps_bind; [apply failed_trace|intros _; apply keeps_ret].
Qed.
Lemma Watch_trace r evs : keeps P (Watch r evs).
Proof.
  revert r. induction evs as [|[] evs IH]; intros r; simpl; [apply keeps_ret..|].
  apply keeps_bind; [apply load_trace|]. intros [r' err].
  apply keeps_bind; [|intros _; apply IH].
  destruct err; [apply failed_trace|apply keeps_ret].
Qed.
End tls.

(** No operation of the control plane makes a metric call the Prometheus library would
    panic on: the methods of the registry, the handlers of the agent service, the steps of
    heartbeat streams, certificate reloads and polls, and the interceptors around whatever
    handler does not. *)
Theorem metric_calls_accepted `{!GoEnv, !ProtoLib, !GrpcLib, !BuildInfo, !FileSystem} s ctx w :
  trace_ok w ->
  (forall o, trace_ok (exec (run_op o) w))
  /\ (forall req, trace_ok (exec (AgentServer_Register s ctx req) w))
  /\ (forall req, trace_ok (exec (ExecuteTask s ctx req) w))
  /\ (forall req, trace_ok (exec (AllocateMemory s ctx req) w))
  /\ (forall req, trace_ok (exec (AllocateGPUMemory s ctx req) w))
  /\ (forall req, trace_ok (exec (FreeMemory s ctx req) w))
  /\ (forall req, trace_ok (exec (FreeGPUMemory s ctx req) w))
  /\ (forall st i m, hb_step s ctx st i = Some m -> trace_ok (exec m w))
  /\ (forall r, trace_ok (exec (Reload r) w))
  /\ (forall r evs, trace_ok (exec (Watch r evs) w))
  /\ (forall Req Resp (req : Req) full (handler : Ctx -> Req -> Go World (Resp * option error)),
        keeps trace_ok (handler ctx req) ->
        trace_ok (exec (UnaryServerInterceptor ctx req full handler) w))
  /\ (forall full (handler : unit -> unit -> Go World (option error)),
        keeps trace_ok (handler tt tt) ->
        trace_ok (exec (StreamServerInterceptor tt tt full handler) w)).
Proof.
  intros Hw. destruct (unary_handlers_trace trace_ok s ctx) as (Ht1 & Ht2 & Ht3 & Ht4 & Ht5).
  split_and!; intros; unfold exec;
    first [ by apply (run_op_trace trace_ok) | by apply (Register_trace trace_ok) | by apply Ht1 | by apply Ht2
          | by apply Ht3 | by apply Ht4 | by apply Ht5 | by eapply (hb_step_trace trace_ok)
          | by apply (Reload_trace trace_ok) | by apply (Watch_trace trace_ok) | by apply (unary_trace trace_ok)
          | by apply stream_trace ].
Qed.
