(* ===== verification/FailureDetector.v ===== *)
(** The registry as a failure detector ([UpdateHeartbeat], [StaleNodeCleanup]): over any
    sequence of its methods' calls, each at the clock reading it takes, a node that falls silent
    is removed by the first cleanup after the threshold, and one that beats often enough is
    never removed by a cleanup. *)
From S2P Require Import Prelude GoRuntime GoStrings PbResource PbAgent Grpc World Registry.
From S2P Require Import RegistrySafety Metrics MetricsSafety.
Local Open Scope string_scope.
Local Open Scope Z_scope.

#[local] Opaque NodeRegistry_Register NodeRegistry_UpdateHeartbeat NodeRegistry_GetAll
  NodeRegistry_Remove NodeRegistry_RemoveIfConnectionMatches cleanup_tick.

(** An operation that records a sign of life of a node; one that removes it on demand. *)
Definition beats (id : string) (o : reg_op) : Prop :=
  match o with
  | OHeartbeat id' _ _ => id' = id
  | ORegister id' _ (Some _) => id' = id
  | _ => False
  end.
Definition removes (id : string) (o : reg_op) : Prop :=
  match o with
  | ORemove id' | ORemoveIf id' _ => id' = id
  | _ => False
  end.

#[export] Instance beats_decision id o : Decision (beats id o).
Proof. destruct o as [? ? [?|]| | | | | |]; simpl; apply _. Defined.

Section detector.
Context `{!GoEnv, !ProtoLib}.

(** The monotonic clock, as the next reading shows it. *)
Definition clock (w : World) : Z := t_mono (now_at (w_tick w)).

(** A run, with the state each operation starts in; in between the rest of the process runs
    and time passes. *)
Inductive timed_run : World -> list (World * reg_op) -> World -> Prop :=
  | timed_nil w : timed_run w [] w
  | timed_op w o es w' : timed_run (exec (run_op o) w) es w' -> timed_run w ((w, o) :: es) w'
  | timed_frame w w1 es w' :
      frame w w1 -> (w_tick w <= w_tick w1)%nat -> timed_run w1 es w' -> timed_run w es w'.
End detector.

Section facts.
Context `{!GoEnv, !GoEnvLaws, !ProtoLib}.

Lemma clock_mono w w' : (w_tick w <= w_tick w')%nat -> clock w <= clock w'.
Proof. apply now_at_mono. Qed.

Lemma op_tick o w : (w_tick w <= w_tick (exec (run_op o) w))%nat.
Proof. exact (run_op_trace (fun v => (w_tick w <= w_tick v)%nat) o w (le_n _)). Qed.

Lemma timed_tick w es w' : timed_run w es w' -> (w_tick w <= w_tick w')%nat.
Proof.
  induction 1 as [w|w o es w' _ IH|w w1 es w' _ Ht _ IH]; [done| |lia].
  etrans; [apply (op_tick o)|done].
Qed.

(** An operation starts no earlier than its run. *)
Lemma timed_start w es w' v o : timed_run w es w' -> (v, o) ∈ es -> (w_tick w <= w_tick v)%nat.
Proof.
  induction 1 as [w|w o' es w' _ IH|w w1 es w' _ Ht _ IH]; intros Hin.
  - by apply not_elem_of_nil in Hin.
  - apply elem_of_cons in Hin as [[= -> ->]|Hin]; [done|].
    etrans; [apply (op_tick o')|by apply IH].
  - etrans; [exact Ht|by apply IH].
Qed.

(** A node under each operation. *)
Lemma op_beats id o w n :
  beats id o -> w_nodes w !! id = Some n ->
  exists n', w_nodes (exec (run_op o) w) !! id = Some n' /\ LastBeat n' = now_at (w_tick w).
Proof.
  intros Hb Hn. destruct o as [id' addr [r|]|id' util tasks| | | | |]; simpl in Hb; try done; subst id'; simpl.
  - unfold exec. rewrite Register_run. simpl. rewrite lookup_insert_eq. by eexists.
  - unfold exec. destruct (UpdateHeartbeat_run id util tasks w) as (tick & ->). simpl.
    rewrite lookup_alter_eq, Hn. by eexists.
Qed.

Lemma op_cleanup id threshold w :
  w_nodes (exec (run_op (OCleanup threshold)) w) !! id =
  match w_nodes w !! id with
  | Some n => if decide (stale (now_at (w_tick w)) threshold (id, n)) then None else Some n
  | None => None
  end.
Proof.
  simpl. unfold exec. destruct (cleanup_tick_run threshold w) as (w' & -> & Hn & _). simpl. rewrite Hn.
  unfold fresh_nodes. destruct (w_nodes w !! id) as [n|] eqn:E.
  - case_decide as Hs; [apply map_lookup_filter_None; right|by apply map_lookup_filter_Some].
    intros n'. rewrite E. intros [= <-]. tauto.
  - apply map_lookup_filter_None. by left.
Qed.

(** A beat may start while the node is absent: only a registration brings it back. *)
Lemma op_absent id o w :
  ~ beats id o -> w_nodes w !! id = None -> w_nodes (exec (run_op o) w) !! id = None.
Proof.
  intros Hb Hn. destruct o as [id' addr [r|]|id' util tasks| |id'|id' c|id'|th]; simpl in Hb; try done.
  - unfold exec. simpl. rewrite Register_run. simpl. by rewrite lookup_insert_ne.
  - unfold exec. simpl. destruct (UpdateHeartbeat_run id' util tasks w) as (tick & ->). simpl.
    by rewrite lookup_alter_ne.
  - unfold exec. simpl. rewrite Remove_run. simpl. rewrite lookup_delete. by case_decide.
  - unfold exec. simpl. rewrite RemoveIf_run. simpl. case_decide; simpl; [|done].
    rewrite lookup_delete. by case_decide.
  - by rewrite op_cleanup, Hn.
Qed.

(** An operation that is no beat leaves a node as it is or removes it, the latter only on
    demand or in a cleanup. *)
Lemma op_silent id o w n :
  ~ beats id o -> w_nodes w !! id = Some n ->
  w_nodes (exec (run_op o) w) !! id = Some n
  \/ (w_nodes (exec (run_op o) w) !! id = None /\ (removes id o \/ exists th, o = OCleanup th)).
Proof.
  intros Hb Hn. destruct o as [id' addr [r|]|id' util tasks| |id'|id' c|id'|th]; simpl in *; try (by left).
  - left. unfold exec. rewrite Register_run. simpl. by rewrite lookup_insert_ne.
  - left. unfold exec. destruct (UpdateHeartbeat_run id' util tasks w) as (tick & ->). simpl.
    by rewrite lookup_alter_ne.
  - unfold exec. rewrite Remove_run. simpl. rewrite lookup_delete. case_decide; [right|left]; auto.
  - unfold exec. rewrite RemoveIf_run. simpl. case_decide; simpl; [|by left].
    rewrite lookup_delete. case_decide; [right|left]; auto.
  - pose proof (op_cleanup id th w) as Hc. rewrite Hn in Hc. case_decide; [right|left]; eauto.
Qed.

(** Staleness in exact arithmetic. *)
Lemma stale_clock threshold w id n :
  is_i64 (t_mono (LastBeat n)) -> minInt64 <= threshold < maxInt64 ->
  stale (now_at (w_tick w)) threshold (id, n) <-> t_mono (LastBeat n) + threshold < clock w.
Proof.
  intros Hb Hth. unfold stale, Sub, clock. simpl.
  rewrite subMono_gt by (done || apply now_at_i64). lia.
Qed.

Lemma absent_run id w es w' :
  timed_run w es w' -> Forall (fun e => ~ beats id e.2) es -> w_nodes w !! id = None ->
  w_nodes w' !! id = None.
Proof.
  induction 1 as [w|w o es w' _ IH|w w1 es w' [Hf _] _ _ IH]; intros Hall Hn; [done| |].
  - apply Forall_cons in Hall as [Ho Hall]. apply IH; [done|]. by apply op_absent.
  - apply IH; [done|]. by rewrite Hf.
Qed.

(** The times a node may rely on when a cleanup starts: its last beat before the run, and the
    beats of the run so far. *)
Definition covered (id : string) (threshold last : Z) (es : list (World * reg_op)) : Prop :=
  forall a v th b, es = (a ++ (v, OCleanup th) :: b)%list -> th = threshold /\
    (clock v <= last + threshold
     \/ exists u o, (u, o) ∈ a /\ beats id o /\ clock v <= clock u + threshold).

Lemma covered_tail id threshold last w o es :
  ~ beats id o -> covered id threshold last ((w, o) :: es) -> covered id threshold last es.
Proof.
  intros Ho Hc a v th b ->. destruct (Hc ((w, o) :: a) v th b eq_refl) as [-> [?|(u & o' & Hin & Hb & ?)]];
    (split; [done|]); [by left|]. apply elem_of_cons in Hin as [[= -> ->]|Hin]; [done|]. right. eauto.
Qed.

Lemma covered_beat id threshold last w o es :
  last <= clock w -> covered id threshold last ((w, o) :: es) -> covered id threshold (clock w) es.
Proof.
  intros Hl Hc a v th b ->. destruct (Hc ((w, o) :: a) v th b eq_refl) as [-> [?|(u & o' & Hin & Hb & ?)]];
    (split; [done|]); [left; lia|]. apply elem_of_cons in Hin as [[= -> ->]|Hin]; [by left|]. right. eauto.
Qed.

Lemma covered_run id threshold w es w' n :
  timed_run w es w' -> Forall (fun e => ~ removes id e.2) es ->
  w_nodes w !! id = Some n -> is_i64 (t_mono (LastBeat n)) -> t_mono (LastBeat n) <= clock w ->
  minInt64 <= threshold < maxInt64 -> covered id threshold (t_mono (LastBeat n)) es ->
  is_Some (w_nodes w' !! id).
Proof.
  intros Hrun. revert n.
  induction Hrun as [w|w o es w' Hrun IH|w w1 es w' [Hf _] Ht _ IH]; intros n Hall Hn Hi Hl Hth Hc.
  - by exists n.
  - apply Forall_cons in Hall as [Ho Hall]. simpl in Ho.
    assert (Hl' : clock w <= clock (exec (run_op o) w)) by apply clock_mono, op_tick.
    destruct (decide (beats id o)) as [Hb|Hb].
    + destruct (op_beats id o w n Hb Hn) as (n' & Hn' & Hlast). apply (IH n'); try done; rewrite Hlast.
      * apply now_at_i64.
      * exact Hl'.
      * by eapply covered_beat.
    + apply (IH n); try done; [|lia|by eapply covered_tail].
      destruct (op_silent id o w n Hb Hn) as [Hs|[Hs [?|[th ->]]]]; [done|done|].
      destruct (Hc [] w th es eq_refl) as [-> [Hcl|(u & o' & Hin & _)]]; [|by apply not_elem_of_nil in Hin].
      rewrite op_cleanup, Hn in Hs. case_decide as Hst; [|done].
      apply stale_clock in Hst; [lia|done|done].
  - apply (IH n); try done; [by rewrite Hf|]. etrans; [exact Hl|by apply clock_mono].
Qed.
End facts.

(** * Properties *)
Section properties.
Context `{!GoEnv, !GoEnvLaws, !ProtoLib}.

(** C22: a node that stops beating is found out: whatever else the registry does, if a node
    registered at the start neither beats nor registers again during a run, and the cleanup
    ticks at a moment when its last beat is more than the threshold ago, the node is not
    registered any more at the end. *)
Theorem silent_node_evicted id threshold w es w' v n :
  timed_run w es w' -> Forall (fun e => ~ beats id e.2) es -> (v, OCleanup threshold) ∈ es ->
  w_nodes w !! id = Some n -> is_i64 (t_mono (LastBeat n)) -> minInt64 <= threshold < maxInt64 ->
  t_mono (LastBeat n) + threshold < clock v -> w_nodes w' !! id = None.
Proof.
  intros Hrun Hall Hin Hn Hi Hth Hlt.
  induction Hrun as [w|w o es w' Hrun IH|w w1 es w' [Hf _] _ _ IH].
  - by apply not_elem_of_nil in Hin.
  - apply Forall_cons in Hall as [Ho Hall]. simpl in Ho. apply elem_of_cons in Hin as [[= -> <-]|Hin].
    + eapply absent_run; [exact Hrun|done|]. rewrite op_cleanup, Hn.
      by rewrite decide_True by (by apply stale_clock).
    + destruct (op_silent id o w n Ho Hn) as [Hs|[Hs _]]; [by apply IH|by eapply absent_run].
  - by apply IH; rewrite ?Hf.
Qed.

(** C26: a node that beats is left alone: if nothing removes it on demand and every cleanup of
    the run, all with one threshold, finds a beat of it (the last one before the run, or one
    of the run so far) that is at most the threshold ago, it is registered at the end. *)
Theorem beating_node_survives id threshold w es w' n :
  timed_run w es w' -> Forall (fun e => ~ removes id e.2) es ->
  w_nodes w !! id = Some n -> is_i64 (t_mono (LastBeat n)) -> t_mono (LastBeat n) <= clock w ->
  minInt64 <= threshold < maxInt64 ->
  (forall a v th b, es = (a ++ (v, OCleanup th) :: b)%list -> th = threshold /\
    (clock v <= t_mono (LastBeat n) + threshold
     \/ exists u o, (u, o) ∈ a /\ beats id o /\ clock v <= clock u + threshold)) ->
  is_Some (w_nodes w' !! id).
Proof. apply covered_run. Qed.
End properties.
