(* ===== verification/ControlPlane.v ===== *)
(** [control-plane/cmd/control-plane/main.go]: how the daemon is put together: the flags, the
    decisions of the start-up, the interceptors around every call, the HTTP routes and the
    signal loop.

    What starts goroutines and listeners is represented by what they are started with (a
    [Process]); [log.Fatal] logs its message and ends the start-up. *)
From S2P Require Import Prelude GoRuntime GoStrings GoTime PbResource PbAgent Grpc World Metrics.
From S2P Require Import Registry RegistryApi Validator Agent AgentFacts RestApi TlsReload.
From S2P Require Import AgentGrpc MetricsSafety.
Local Open Scope string_scope.
Local Open Scope Z_scope.

(** ** Flags *)
Record Flags := mkFlags {
  f_grpcAddr : string;
  f_httpAddr : string;
  f_nodeID : string;
  f_logLevel : string;
  f_bootstrap : bool;
  f_agentToken : string;
  f_apiKey : string;
  f_tlsCert : string;
  f_tlsKey : string;
  f_tlsCACert : string;
  f_requireTLS : bool;
  f_tlsReloadInterval : Z
}.
Definition default_flags : Flags := {|
  f_grpcAddr := ":9000"; f_httpAddr := ":8080"; f_nodeID := ""; f_logLevel := "info";
  f_bootstrap := false; f_agentToken := ""; f_apiKey := ""; f_tlsCert := ""; f_tlsKey := "";
  f_tlsCACert := ""; f_requireTLS := false; f_tlsReloadInterval := 60 * Second
|}.

(** What the start-up asks of the system and of libraries: the host name (its error is
    ignored), a random UUID, the listening socket, the number of a log level (its error is
    ignored too). *)
Record Host := mkHost {
  os_Hostname : string;
  uuid_NewString : string;
  net_Listen : string -> option error;
  zerolog_ParseLevel : string -> Z
}.

Definition Minute : Z := 60 * Second.

(** [keepalive.ServerParameters]. *)
Record ServerParameters := mkServerParameters {
  MaxConnectionIdle : Z;
  MaxConnectionAge : Z;
  MaxConnectionAgeGrace : Z;
  ka_Time : Z;
  ka_Timeout : Z
}.
Definition keepalive_params : ServerParameters := {|
  MaxConnectionIdle := 5 * Minute; MaxConnectionAge := 30 * Minute;
  MaxConnectionAgeGrace := 10 * Second; ka_Time := 10 * Second; ka_Timeout := 5 * Second
|}.

(** The TLS configuration of a server. *)
Inductive ServerTls : Type :=
  | TlsPerClient (minVersion : Z)       (* GetConfigForClient: reloader.GetConfigForClient *)
  | TlsCertificate (minVersion : Z).    (* GetCertificate: reloader.GetCertificate *)

(** [http.Server]; its handler is the mux of [routes]. *)
Record HttpServer := mkHttpServer {
  hs_Addr : string;
  ReadHeaderTimeout : Z;
  ReadTimeout : Z;
  WriteTimeout : Z;
  IdleTimeout : Z;
  hs_TLSConfig : option ServerTls
}.
Definition http_server (httpAddr : string) (tlsEnabled : bool) : HttpServer := {|
  hs_Addr := httpAddr; ReadHeaderTimeout := 5 * Second; ReadTimeout := 10 * Second;
  WriteTimeout := 10 * Second; IdleTimeout := 120 * Second;
  hs_TLSConfig := if tlsEnabled then Some (TlsCertificate VersionTLS13) else None
|}.

Section main.
Context `{!GoEnv, !GrpcLib, !FileSystem, !RegistryOps, !LocalZone}.

Record Process := mkProcess {
  p_logLevel : Z;                       (* zerolog.SetGlobalLevel *)
  p_nodeID : string;
  p_staleThreshold : Z;                 (* go reg.StaleNodeCleanup(ctx, threshold) *)
  p_agent : AgentServer;
  p_api : APIServer;
  p_tlsEnabled : bool;
  p_reloader : option CertReloader;
  p_watch : option Z;                   (* go reloader.Watch(ctx, interval) *)
  p_keepalive : ServerParameters;       (* grpc.KeepaliveParams *)
  p_creds : option ServerTls;           (* grpc.Creds *)
  p_http : HttpServer
}.

Inductive Startup : Type :=
  | Fatal (msg : string) (err : option error)
  | Running (p : Process).

(** The [switch] that decides whether TLS is enabled. *)
Definition tls_switch (fl : Flags) : string + bool :=
  if String.eqb (f_tlsCert fl) "" && String.eqb (f_tlsKey fl) "" then
    if f_requireTLS fl then
      inl "--require-tls is set but no TLS credentials were provided; refusing to start with plaintext"
    else inr false
  else if String.eqb (f_tlsCert fl) "" || String.eqb (f_tlsKey fl) "" then
    inl "both --tls-cert and --tls-key must be provided together"
  else inr true.

Definition leader_address (grpcAddr : string) : string :=
  if String.eqb grpcAddr ":9000" || String.eqb grpcAddr "" then "localhost:9000" else grpcAddr.

Definition fatal (msg : string) (err : option error) : Go World Startup :=
  log LFatal msg match err with Some err => [("error", LErr err)] | None => [] end ;;
  mret (Fatal msg err).

(** [main] up to the servers. *)
Definition startup (h : Host) (fl : Flags) : Go World Startup :=
  let nodeID := if String.eqb (f_nodeID fl) "" then os_Hostname h else f_nodeID fl in
  let clusterID := if f_bootstrap fl then "cluster-" +:+ uuid_NewString h else "cluster-001" in
  let leaderAddr := leader_address (f_grpcAddr fl) in
  log LInfo "compute-control-plane starting"
    [("node_id", LStr nodeID); ("grpc_addr", LStr (f_grpcAddr fl));
     ("http_addr", LStr (f_httpAddr fl)); ("bootstrap", LBool (f_bootstrap fl));
     ("auth_enabled", LBool (negb (String.eqb (f_agentToken fl) "")
                             || negb (String.eqb (f_apiKey fl) "")));
     ("cluster_id", LStr clusterID)] ;;
  match net_Listen h (f_grpcAddr fl) with
  | Some err => fatal "failed to listen gRPC" (Some err)
  | None =>
      match tls_switch fl with
      | inl msg => fatal msg None
      | inr tlsEnabled =>
          (if negb tlsEnabled then
             log LWarn "TLS not configured — gRPC running with plaintext (insecure)" []
           else mret tt) ;;
          '(reloader, err) ←
            (if tlsEnabled : bool then
               '(reloader, err) ← New (f_tlsCert fl) (f_tlsKey fl) (f_tlsCACert fl);
               match err with
               | Some err => mret (None, Some err)
               | None =>
                   log LInfo "TLS enabled for gRPC + HTTPS servers"
                     [("mtls", LBool (negb (String.eqb (f_tlsCACert fl) "")));
                      ("reload_interval", LInt (f_tlsReloadInterval fl))] ;;
                   mret (reloader, None)
               end
             else mret (None, None));
          match err with
          | Some err => fatal "failed to load TLS credentials" (Some err)
          | None =>
              mret (Running {|
                p_logLevel := zerolog_ParseLevel h (f_logLevel fl);
                p_nodeID := nodeID;
                p_staleThreshold := 30 * Second;
                p_agent := NewAgentServer clusterID leaderAddr (f_agentToken fl);
                p_api := NewAPIServer (f_apiKey fl) tlsEnabled;
                p_tlsEnabled := tlsEnabled;
                p_reloader := reloader;
                p_watch := if tlsEnabled && (f_tlsReloadInterval fl >? 0)
                           then Some (f_tlsReloadInterval fl) else None;
                p_keepalive := keepalive_params;
                p_creds := if tlsEnabled then Some (TlsPerClient VersionTLS13) else None;
                p_http := http_server (f_httpAddr fl) tlsEnabled |})
          end
      end
  end.

(** ** The gRPC server: metrics around authentication around the handler *)

(** [grpc.ChainUnaryInterceptor(a, b)], as the library documents it: the first interceptor
    is the outermost, the last one wraps the handler. *)
Variable ChainUnaryInterceptor : list UnaryInterceptor -> UnaryInterceptor.

Definition metrics_interceptor : UnaryInterceptor :=
  fun Req Resp ctx req full handler => UnaryServerInterceptor ctx req full handler.
Definition auth_interceptor (token : string) : UnaryInterceptor :=
  fun Req Resp ctx req full handler => AuthUnaryInterceptorFor token ctx req full handler.

Definition unary_chain (token : string) : UnaryInterceptor :=
  ChainUnaryInterceptor [metrics_interceptor; auth_interceptor token].

(** ** The HTTP routes *)
Variable promhttp_Handler : HandlerFunc.         (* metrics.Handler().ServeHTTP *)

Definition routes (api : APIServer) (path : string) : option HandlerFunc :=
  if String.eqb path "/health" then Some (HealthHandler api)
  else if String.eqb path "/api/v1/nodes" then Some (RequireAPIKey api (NodesHandler api))
  else if String.eqb path "/metrics" then Some (RequireAPIKey api promhttp_Handler)
  else None.

(** Whether a handshake demands a client certificate. *)
Definition demands_client_cert (t : ServerTls) (r : CertReloader) : Go World bool :=
  match t with
  | TlsPerClient _ =>
      '(cfg, _) ← GetConfigForClient r;
      mret match cfg with Some cfg => RequireAndVerifyClientCert cfg | None => false end
  | TlsCertificate _ => mret false     (* the server's own tls.Config has no ClientAuth *)
  end.

(** ** The signal loop *)
Inductive Signal := SIGINT | SIGTERM | SIGHUP.
#[export] Instance Signal_eq_dec : EqDecision Signal.
Proof. solve_decision. Defined.

(** One round of the loop, from the signal it has received: the [switch]; [true] when it
    leaves the loop for the shutdown. *)
Definition on_signal (reloader : option CertReloader) (sig : Signal)
    : Go World (option CertReloader * bool) :=
  match sig with
  | SIGHUP =>
      match reloader with
      | Some r =>
          log LInfo "SIGHUP received, reloading TLS certificates" [] ;;
          r ← Reload r;
          mret (Some r, false)
      | None => mret (None, false)
      end
  | sig =>
      log LInfo "shutting down"
        [("signal", LStr match sig with
                         | SIGINT => "interrupt"
                         | SIGTERM => "terminated"
                         | SIGHUP => "hangup"
                         end)] ;;
      mret (reloader, true)
  end.

(** ** The two serving goroutines, over what their server returns in the end *)
Definition ErrServerClosed : error := OtherError "http: Server closed".

Definition serve_grpc (grpcAddr : string) (ended : option error) : Go World (option Startup) :=
  log LInfo "gRPC server starting" [("addr", LStr grpcAddr)] ;;
  match ended with
  | Some err => st ← fatal "gRPC server failed" (Some err); mret (Some st)
  | None => mret None
  end.

Definition serve_http (httpAddr : string) (tlsEnabled : bool) (ended : option error)
  : Go World (option Startup) :=
  log LInfo (if tlsEnabled then "HTTPS API starting" else "HTTP API starting (plaintext)")
    [("addr", LStr httpAddr)] ;;
  match ended with
  | Some err =>
      if decide (err = ErrServerClosed) then mret None
      else st ← fatal (if tlsEnabled then "HTTPS server failed" else "HTTP server failed") (Some err);
           mret (Some st)
  | None => mret None
  end.

(** ** The main goroutine after the start-up

    Where it is.  It blocks in three places: on the channel of signals, in
    [grpcServer.GracefulStop] and in [httpServer.Shutdown]. *)
Inductive main_pc : Type :=
  | MainReceive                         (* sig := <-sigCh *)
  | MainSwitch (sig : Signal)           (* switch sig *)
  | MainGracefulStop                    (* about to call grpcServer.GracefulStop *)
  | MainGracefulWait                    (* in it *)
  | MainShutdown                        (* about to call httpServer.Shutdown *)
  | MainShutdownWait                    (* in it, for at most 10 seconds *)
  | MainReturned.

(** [make(chan os.Signal, 1)]: what waits in the channel after a signal has arrived.  The
    runtime does not block on it: with the channel full, the signal is dropped. *)
Definition notify (sigCh : option Signal) (sig : Signal) : option Signal :=
  match sigCh with Some waiting => Some waiting | None => Some sig end.

Definition graceful_stop : Go World unit := call "grpcServer.GracefulStop".
Definition http_shutdown : Go World unit := call "httpServer.Shutdown".

(** From the return of [httpServer.Shutdown] to that of [main], with the deferred calls. *)
Definition main_return (httpShutdown : option error) : Go World unit :=
  go_defer (call "cleanupCancel")
    (go_defer (call "shutdownCancel")
       (match httpShutdown with
        | Some err => log LWarn "HTTP server forced to shutdown" [("error", LErr err)]
        | None => mret tt
        end ;;
        log LInfo "shutdown complete" [])).
End main.

(** * Properties *)
Section startup_properties.
Context `{!GoEnv, !GrpcLib, !FileSystem}.

(** What a running process has been started with, and that nothing was stopped so far. *)
Definition started (h : Host) (fl : Flags) (p : Process) : Prop :=
  ((f_tlsCert fl = "" /\ f_tlsKey fl = "" /\ f_requireTLS fl = false
    /\ p_tlsEnabled p = false /\ p_reloader p = None)
   \/ (f_tlsCert fl <> "" /\ f_tlsKey fl <> "" /\ p_tlsEnabled p = true
       /\ exists r w0, p_reloader p = Some r
          /\ value (New (f_tlsCert fl) (f_tlsKey fl) (f_tlsCACert fl)) w0 = Some (Some r, None)))
  /\ apiKey (p_api p) = f_apiKey fl /\ RestApi.tlsEnabled (p_api p) = p_tlsEnabled p
  /\ agentToken (p_agent p) = f_agentToken fl
  /\ p_creds p = (if p_tlsEnabled p then Some (TlsPerClient 0x0304) else None)
  /\ hs_TLSConfig (p_http p) = (if p_tlsEnabled p then Some (TlsCertificate 0x0304) else None).

Lemma startup_run h fl w :
  exists st w', startup h fl w = (Ret st, w') /\ forall p, st = Running p -> started h fl p.
Proof.
  unfold startup, fatal, mbind, go_bind, log, go_modify. set (w1 := add_event _ w).
  destruct (net_Listen h (f_grpcAddr fl)) as [e|]; [by eexists _, _|].
  unfold tls_switch.
  destruct (String.eqb_spec (f_tlsCert fl) "") as [Hc|Hc],
    (String.eqb_spec (f_tlsKey fl) "") as [Hk|Hk]; simpl; try by eexists _, _.
  - destruct (f_requireTLS fl) eqn:Hreq; simpl; [by eexists _, _|].
    eexists _, _. split; [done|]. intros p [= <-]. by repeat split; [left|..].
  - destruct (New_returns (f_tlsCert fl) (f_tlsKey fl) (f_tlsCACert fl) w1) as (rl & err & w2 & Hn & Hrl).
    rewrite Hn. destruct err as [e|]; simpl; [by eexists _, _|].
    eexists _, _. split; [done|]. intros p [= <-]. split; [|done]. right.
    destruct (Hrl eq_refl) as [r ->]. do 3 (split; [done|]). exists r, w1.
    split; [done|]. unfold value. by rewrite Hn.
Qed.

(** C14: the start-up ends in every case, running or with a fatal message.  When it runs, the
    flags were consistent: either neither a certificate nor a key was given, TLS was not
    required and is off, or both were given and TLS is on with the certificate [New] loaded
    from them; so with [--require-tls] the daemon never serves plaintext.  Both servers speak
    TLS 1.3 exactly when TLS is on.  The agent token and the API key reach them as given. *)
Theorem startup_tls h fl w :
  (exists st, value (startup h fl) w = Some st)
  /\ forall p, value (startup h fl) w = Some (Running p) ->
     ((f_tlsCert fl = "" /\ f_tlsKey fl = "" /\ f_requireTLS fl = false
       /\ p_tlsEnabled p = false /\ p_reloader p = None)
      \/ (f_tlsCert fl <> "" /\ f_tlsKey fl <> "" /\ p_tlsEnabled p = true
          /\ exists r w0, p_reloader p = Some r
             /\ value (New (f_tlsCert fl) (f_tlsKey fl) (f_tlsCACert fl)) w0 = Some (Some r, None)))
     /\ apiKey (p_api p) = f_apiKey fl /\ RestApi.tlsEnabled (p_api p) = p_tlsEnabled p
     /\ agentToken (p_agent p) = f_agentToken fl
     /\ p_creds p = (if p_tlsEnabled p then Some (TlsPerClient 0x0304) else None)
     /\ hs_TLSConfig (p_http p) = (if p_tlsEnabled p then Some (TlsCertificate 0x0304) else None).
Proof.
  unfold value. destruct (startup_run h fl w) as (st & w' & -> & Hp). split; [by exists st|].
  intros p [= ->]. by apply Hp.
Qed.
End startup_properties.

Section chain_properties.
Context `{!GoEnv, !GoEnvLaws, !GrpcLib, !GrpcLibLaws}.
Variable ChainUnaryInterceptor : list UnaryInterceptor -> UnaryInterceptor.
Hypothesis Chain_two : forall (a b : UnaryInterceptor) Req Resp ctx (req : Req) full
    (handler : UnaryMethod Req Resp),
  ChainUnaryInterceptor [a; b] Req Resp ctx req full handler =
  a Req Resp ctx req full (fun ctx req => b Req Resp ctx req full handler).

(** A call that does not authenticate is refused before the handler runs and is counted
    all the same: one request under the method's label with the code of the refusal, and one
    latency observation; nothing else changes. *)
Theorem rejected_calls_are_counted token {Req Resp} ctx (req : Req) full
    (handler : UnaryMethod Req Resp) code msg w :
  cache_ok w -> validateBearerToken ctx token = Some (StatusError code msg) ->
  exists label d,
    let run := unary_chain ChainUnaryInterceptor token Req Resp ctx req full handler in
    value run w = Some (None, Some (StatusError code msg))
    /\ value (sanitizeMethod full) w = Some label
    /\ w_nodes (exec run w) = w_nodes w
    /\ w_trace (exec run w) =
       EvMetric grpcServerLatency [label; "unary"] (Observe d)
       :: EvMetric grpcServerRequests [label; "unary"; Code_String code] Inc :: w_trace w.
Proof.
  intros Hok Hrej. unfold unary_chain. rewrite Chain_two.
  unfold metrics_interceptor, auth_interceptor, UnaryServerInterceptor, AuthUnaryInterceptorFor.
  rewrite Hrej. unfold value, exec, Since. go_run.
  destruct (sanitizeMethod_run full w Hok) as (label & known & Hs & _).
  destruct (sanitizeMethod_run full (next_tick (next_tick w)) Hok) as (label' & known' & Hs' & _).
  pose proof (sanitizeMethod_cache full w (next_tick (next_tick w)) eq_refl) as Heq.
  rewrite Hs, Hs' in Heq. injection Heq as <-. rewrite Hs', Hs. simpl.
  rewrite status_Code_status. by eexists _, _.
Qed.
End chain_properties.

Section http_properties.
Context `{!RegistryOps, !LocalZone}.
Variable promhttp_Handler : HandlerFunc.

(** C32: with an API key configured, a request that does not present it gets 401 on every
    route but the liveness probe, and neither the registry nor the metrics handler sees it;
    with the key, the metrics route is the Prometheus handler alone, which is given the
    response as it is, without the security headers of the other routes. *)
Theorem routes_protected api r w :
  (apiKey api <> "" -> presented_key r <> apiKey api -> forall path hd,
     routes promhttp_Handler api path = Some hd -> path <> "/health" ->
     exists rw h, hd fresh_writer r w = (Ret rw, w) /\ sent rw = Some (401, h)
     /\ secure_json (RestApi.tlsEnabled api) h)
  /\ (presented_key r = apiKey api -> exists hd, routes promhttp_Handler api "/metrics" = Some hd
       /\ hd fresh_writer r w = promhttp_Handler fresh_writer r w
       /\ header fresh_writer !! "X-Content-Type-Options" = None).
Proof.
  assert (Hrej : apiKey api <> "" -> presented_key r <> apiKey api -> forall next,
    exists rw h, RequireAPIKey api next fresh_writer r w = (Ret rw, w) /\ sent rw = Some (401, h)
      /\ secure_json (RestApi.tlsEnabled api) h).
  { intros Hk Hp next. destruct (RequireAPIKey_cases api next r w) as [_ Hno].
    destruct Hno as (rw & h & Hrun & Hs & Hh & _); [by intros [?|?]|]. eauto. }
  split.
  - intros Hk Hp path hd Hroute Hne. unfold routes in Hroute.
    destruct (String.eqb_spec path "/health"); [done|].
    destruct (String.eqb path "/api/v1/nodes"); [injection Hroute as <-; by apply Hrej|].
    destruct (String.eqb path "/metrics"); [injection Hroute as <-; by apply Hrej|done].
  - intros Hp. eexists. split; [reflexivity|]. split; [|done].
    apply (RequireAPIKey_cases api promhttp_Handler r w). by right.
Qed.
End http_properties.

Section tls_properties.
Context `{!GrpcLib, !FileSystem}.

(** With a CA configured, the gRPC server demands a client certificate of every
    handshake and the HTTPS server of none: the flag [--tls-ca-cert] covers gRPC only. *)
Theorem mtls_covers_grpc_only h fl p r w :
  started h fl p -> p_tlsEnabled p = true -> reloader_ok r -> caCertPath r <> "" ->
  exists g h, p_creds p = Some g /\ hs_TLSConfig (p_http p) = Some h
  /\ value (demands_client_cert g r) w = Some true
  /\ value (demands_client_cert h r) w = Some false.
Proof.
  intros (_ & _ & _ & _ & -> & ->) -> [[c Hc] Hca _] Hp.
  eexists _, _. do 2 (split; [done|]).
  unfold value, demands_client_cert, GetConfigForClient, mbind, go_bind. rewrite Hc. simpl.
  rewrite Hca. by destruct (String.eqb_spec (caCertPath r) "").
Qed.

(** A signal is handled, and ends the loop exactly when it is not a hang-up; a hang-up never
    creates a reloader, and leaves one that can serve one that can serve. *)
Lemma signal_run reloader sig w :
  exists r' w', on_signal reloader sig w = (Ret (r', bool_decide (sig <> SIGHUP)), w')
  /\ (is_Some r' <-> is_Some reloader)
  /\ (forall r0 r1, reloader = Some r0 -> reloader_ok r0 -> r' = Some r1 -> reloader_ok r1).
Proof.
  destruct sig; [by eexists _, _; split_and!; [|done|intros ? ? -> ? [= <-]]..|].
  destruct reloader as [r|]; [|by eexists _, _]. simpl. unfold mbind, go_bind, log, go_modify.
  destruct (Reload_returns r (add_event (EvLog (World.mkLog LInfo
    "SIGHUP received, reloading TLS certificates" [])) w)) as (r1 & w1 & -> & Hok1).
  exists (Some r1), w1. split; [done|]. split; [by split; eexists|].
  intros r0 r3 [= <-] Hok [= <-]. by apply Hok1.
Qed.
End tls_properties.

(** ** The main goroutine *)
Section main_properties.
Context `{!GoEnv, !GrpcLib, !FileSystem}.
Context (P : World -> Prop) `{!TraceInv P}.

#[local] Opaque load.

Lemma startup_trace h fl : keeps P (startup h fl).
Proof. unfold startup, fatal, New. repeat first [apply (load_trace P) | progress keeps_trace]. Qed.

Lemma signal_trace reloader sig : keeps P (on_signal reloader sig).
Proof.
  destruct sig; simpl; [keeps_trace..|]. destruct reloader as [r|]; [|apply keeps_ret].
  apply keeps_bind; [keeps_trace|intros _].
  apply keeps_bind; [apply (Reload_trace P)|intros ?; apply keeps_ret].
Qed.
End main_properties.
