(* ===== verification/Server.v ===== *)
(** The gRPC server as [control-plane/cmd/control-plane/main.go] puts it together: a unary call
    goes through the generated dispatcher, the metrics interceptor and the authentication
    interceptor to its handler; a heartbeat stream runs inside the stream interceptor.

    The library contributes the order of the chain; a request that cannot be decoded is given
    as the decoder's error. *)
From S2P Require Import Prelude GoRuntime GoStrings GoTime PbResource PbAgent Grpc World Metrics.
From S2P Require Import Registry RegistrySafety RegistryApi Validator Agent AgentFacts Heartbeat.
From S2P Require Import AgentGrpc MetricsSafety ControlPlane.
Local Open Scope string_scope.
Local Open Scope Z_scope.

(** * Operations *)
Section server.
Context `{!GoEnv, !GrpcLib, !BuildInfo, !RegistryOps}.
Variable ChainUnaryInterceptor : list UnaryInterceptor -> UnaryInterceptor.

(** A unary call of a method, from its decoded request on. *)
Definition serve_unary (s : AgentServer) (m : Method) (ctx : Ctx) (dec : error + Method_Req m)
  : Go World (option (Method_Resp m) * option error) :=
  Method_Handler m (AgentServer_service s) ctx dec
    (Some (unary_chain ChainUnaryInterceptor (agentToken s))).

(** The stream interceptor up to the handler, and after it has returned. *)
Definition stream_open (full : string) : Go World (string * Time) :=
  method ← sanitizeMethod full;
  metric grpcActiveStreams [method] Inc ;;
  start ← Now;
  mret (method, start).

Definition stream_close (method : string) (start : Time) (err : option error) : Go World unit :=
  go_defer (metric grpcActiveStreams [method] Dec)
    (elapsed ← Since start;
     let code := Code_String (status_Code err) in
     metric grpcServerRequests [method; "stream"; code] Inc ;;
     metric grpcServerLatency [method; "stream"] (Observe elapsed)).
End server.

(** * What a call means *)

(** The conditions of the checks of a method, in their order. *)
Definition request_checks `{!GoEnv} (m : Method) : Method_Req m -> list Prop :=
  match m with
  | Method_Register => fun req =>
      [safe_id 255 (RegisterRequest_NodeId req); plain_text 512 (RegisterRequest_Address req);
       plain_text 64 (RegisterRequest_AgentVersion req)]
  | Method_ExecuteTask => fun req =>
      [safe_id 255 (TaskSpec_TaskId req); safe_id 255 (TaskSpec_JobId req);
       len (TaskSpec_ContainerImage req) <= 1024 /\ ~ (0 ∈ bytes (TaskSpec_ContainerImage req))
         /\ image_ref (runes (TaskSpec_ContainerImage req));
       total_len (TaskSpec_Command req) <= 262144; env_ok (TaskSpec_Env req);
       0 <= TaskSpec_Priority req <= 100]
  | Method_AllocateMemory => fun req =>
      [safe_id 255 (MemoryAllocRequest_AllocationId req);
       1 <= MemoryAllocRequest_SizeBytes req <= 2 ^ 40;
       0 <= MemoryAllocRequest_ReplicationFactor req <= 100]
  | Method_AllocateGPUMemory => fun req =>
      [safe_id 255 (GPUMemoryAllocRequest_AllocationId req);
       1 <= GPUMemoryAllocRequest_SizeBytes req <= 2 ^ 38;
       -1 <= GPUMemoryAllocRequest_GpuDeviceIndex req]
  | Method_FreeMemory => fun req => [safe_id 255 (FreeMemoryRequest_AllocationId req)]
  | Method_FreeGPUMemory => fun req => [safe_id 255 (FreeGPUMemoryRequest_AllocationId req)]
  end.
Definition request_valid `{!GoEnv} (m : Method) (req : Method_Req m) : Prop :=
  Forall id (request_checks m req).

(** What the Go types of the fields bound: 64-bit sizes, a command that fits in memory. *)
Definition request_typed (m : Method) : Method_Req m -> Prop :=
  match m with
  | Method_ExecuteTask => fun req => total_len (TaskSpec_Command req) < 2 ^ 63
  | Method_AllocateMemory => fun req => is_u64 (MemoryAllocRequest_SizeBytes req)
  | Method_AllocateGPUMemory => fun req => is_u64 (GPUMemoryAllocRequest_SizeBytes req)
  | _ => fun _ => True
  end.

(** The answer to an accepted request. *)
Definition accepted (s : AgentServer) (m : Method) : Method_Req m -> Method_Resp m :=
  match m with
  | Method_Register => fun _ => mkRegisterResponse true (clusterID s) (leaderAddr s) 5000
  | Method_ExecuteTask => fun _ => mkTaskAck true ""
  | Method_AllocateMemory => fun req =>
      mkMemoryAllocResponse true (Some (mkMemoryHandle (MemoryAllocRequest_AllocationId req) "" 0 0
        (MemoryAllocRequest_SizeBytes req))) ""
  | Method_AllocateGPUMemory => fun req =>
      mkGPUMemoryAllocResponse true (Some (mkGPUHandle (GPUMemoryAllocRequest_AllocationId req)
        "" 0 0 (GPUMemoryAllocRequest_SizeBytes req) 0)) ""
  | Method_FreeMemory => fun _ => mkFreeMemoryResponse true
  | Method_FreeGPUMemory => fun _ => mkFreeGPUMemoryResponse true
  end.

(** A registration without resources. *)
Definition no_resources (m : Method) : Method_Req m -> Prop :=
  match m with
  | Method_Register => fun req => RegisterRequest_Resources req = None
  | _ => fun _ => False
  end.
#[export] Instance no_resources_dec m req : Decision (no_resources m req).
Proof. destruct m; simpl; apply _. Defined.

(** What an accepted request does to the nodes. *)
Definition node_effect (m : Method) (now : Time) : Method_Req m -> gmap string NodeInfo ->
    gmap string NodeInfo :=
  match m with
  | Method_Register => fun req nodes =>
      <[RegisterRequest_NodeId req :=
          mkNodeInfo (RegisterRequest_NodeId req) (RegisterRequest_Address req)
            (RegisterRequest_Resources req) now ∅
            (next_conn (nodes !! RegisterRequest_NodeId req))]> nodes
  | _ => fun _ nodes => nodes
  end.

(** ** Types *)

(** An answer whose numbers fit the fields they are in. *)
Definition response_typed (m : Method) : Method_Resp m -> Prop :=
  match m with
  | Method_Register => fun resp => is_u64 (RegisterResponse_HeartbeatIntervalMs resp)
  | Method_AllocateMemory => fun resp =>
      forall h, MemoryAllocResponse_Handle resp = Some h ->
        is_u64 (MemoryHandle_RemoteKey h) /\ is_u64 (MemoryHandle_Address h)
        /\ is_u64 (MemoryHandle_SizeBytes h)
  | Method_AllocateGPUMemory => fun resp =>
      forall h, GPUMemoryAllocResponse_Handle resp = Some h ->
        is_i32 (GPUHandle_GpuDeviceIndex h) /\ is_u64 (GPUHandle_GpuAddress h)
        /\ is_u64 (GPUHandle_SizeBytes h) /\ is_u64 (GPUHandle_GpuRemoteKey h)
  | _ => fun _ => True
  end.

(** What a caller can be given: an answer and no error, or no answer and an error of one of
    three codes. *)
Definition result_typed (m : Method) (resp : option (Method_Resp m)) (err : option error) : Prop :=
  match resp, err with
  | Some resp, None => response_typed m resp
  | None, Some (StatusError code _) => code ∈ [Unauthenticated; PermissionDenied; InvalidArgument]
  | _, _ => False
  end.

(** The shared state a call can rely on, and has to leave. *)
Definition world_typed (w : World) : Prop :=
  cache_ok w /\ trace_ok w /\ map_Forall node_ok (w_nodes w).

(** * Facts *)
Section handlers.
Context `{!GoEnv, !GoEnvLaws, !GrpcLib, !BuildInfo, !ProtoLib, !ProtoLibLaws}.

Lemma answers_value {Resp} (run : Go World (option Resp * option error)) ctx method fields Ps resp
    entry w :
  answers run ctx method fields Ps resp entry w ->
  (Forall id Ps -> value run w = Some (Some resp, None) /\ w_nodes (exec run w) = w_nodes w)
  /\ (~ Forall id Ps -> (exists msg, value run w = Some (None, Some (StatusError InvalidArgument msg)))
      /\ w_nodes (exec run w) = w_nodes w).
Proof.
  intros (Hy & Hn & _). split; [intros HF; by destruct (Hy HF) as (? & ? & _)|].
  intros HF. destruct (Hn HF) as (err & Hv & Hr).
  destruct Hr as (j & fld & line & _ & _ & _ & [msg ->] & Hnodes & _). eauto.
Qed.

(** A handler accepts, rejects, or panics for want of resources. *)
Lemma method_run s ctx m req w :
  request_typed m req ->
  let run := srv_method m (AgentServer_service s) ctx req in
  (request_valid m req -> ~ no_resources m req ->
     value run w = Some (Some (accepted s m req), None)
     /\ exists now, w_nodes (exec run w) = node_effect m now req (w_nodes w))
  /\ (request_valid m req -> no_resources m req ->
     value run w = None /\ w_nodes (exec run w) = w_nodes w)
  /\ (~ request_valid m req ->
     (exists msg, value run w = Some (None, Some (StatusError InvalidArgument msg)))
     /\ w_nodes (exec run w) = w_nodes w).
Proof.
  intros Ht run.
  assert (Hans : forall fields method entry,
    answers run ctx method fields (request_checks m req) (accepted s m req) entry w ->
    (forall nodes now, node_effect m now req nodes = nodes) -> ~ no_resources m req ->
    (request_valid m req -> ~ no_resources m req ->
       value run w = Some (Some (accepted s m req), None)
       /\ exists now, w_nodes (exec run w) = node_effect m now req (w_nodes w))
    /\ (request_valid m req -> no_resources m req ->
       value run w = None /\ w_nodes (exec run w) = w_nodes w)
    /\ (~ request_valid m req ->
       (exists msg, value run w = Some (None, Some (StatusError InvalidArgument msg)))
       /\ w_nodes (exec run w) = w_nodes w)).
  { intros fields method entry [Hy Hn]%answers_value Heff Hres. split; [|split; [tauto|exact Hn]].
    intros Hv _. destruct (Hy Hv) as [? ?]. split; [done|]. exists (mkTime 0 0). by rewrite Heff. }
  destruct m; simpl in req, Ht, run.
  2: eapply Hans; [by apply ExecuteTask_answers|done|tauto].
  2: destruct (AllocateMemory_spec s ctx req (mkGPUMemoryAllocRequest "" 0 0) w) as [Ha _];
       [done|done|]; eapply Hans; [exact Ha|done|tauto].
  2: destruct (AllocateMemory_spec s ctx (mkMemoryAllocRequest "" 0 None false 0) req w) as [_ Ha];
       [done|done|]; eapply Hans; [exact Ha|done|tauto].
  2: destruct (FreeMemory_spec s ctx req (mkFreeGPUMemoryRequest "") w) as [Ha _];
       eapply Hans; [exact Ha|done|tauto].
  2: destruct (FreeMemory_spec s ctx (mkFreeMemoryRequest "") req w) as [_ Ha];
       eapply Hans; [exact Ha|done|tauto].
  clear Hans. destruct (Register_answers s ctx req w) as (Hok & Hnil & Hno).
  unfold request_valid. simpl. rewrite !Forall_cons, Forall_nil. unfold id at 1 2 3 4 5 6 7 8 9.
  split; [|split].
  - intros (? & ? & ? & _) Hr. destruct (RegisterRequest_Resources req) as [r|] eqn:E; [|done].
    destruct Hok with (r := r) as (Hv & (now & Hn) & _); [done|done|].
    split; [exact Hv|]. exists now. exact Hn.
  - intros (? & ? & ? & _) Hr. by apply Hnil.
  - intros Hv. destruct Hno as (err & He & j & fld & line & _ & _ & _ & [msg ->] & Hn & _); [tauto|].
    split; [by exists msg|exact Hn].
Qed.

(** Every predicate the operations keep is kept by every method. *)
Lemma method_trace P `{!TraceInv P} s ctx m req :
  keeps P (srv_method m (AgentServer_service s) ctx req).
Proof.
  destruct (unary_handlers_trace P s ctx) as (? & ? & ? & ? & ?).
  destruct m; simpl; try done. apply (Register_trace P).
Qed.
End handlers.

(** ** The stream interceptor in two parts *)
Section stream_split.
Context `{!GoEnv, !GrpcLib}.

(** A stream whose handler returns runs as its interceptor up to the handler, the handler,
    and the rest of the interceptor, so that other steps of the process can come in between;
    a panic of the handler only takes the stream off the gauge. *)
Theorem StreamServerInterceptor_split {Srv SS} (srv : Srv) (ss : SS) full
    (handler : Srv -> SS -> Go World (option error)) w :
  StreamServerInterceptor srv ss full handler w =
  match stream_open full w with
  | (Ret (label, start), w1) =>
      match handler srv ss w1 with
      | (Ret err, w2) => (Ret err, exec (stream_close label start err) w2)
      | (Panicked f args, w2) =>
          (Panicked f args, add_event (EvMetric grpcActiveStreams [label] Dec) w2)
      end
  | (Panicked f args, w1) => (Panicked f args, w1)
  end.
Proof.
  unfold StreamServerInterceptor, stream_open. destruct (sanitizeMethod full w) as [[label|f args] w1] eqn:E.
  - rewrite !(go_bind_Ret _ _ _ _ _ E). unfold metric, go_modify, mbind, go_bind, go_defer, Now. simpl.
    destruct (handler srv ss _) as [[err|f args] w2]; reflexivity.
  - unfold mbind, go_bind. by rewrite E.
Qed.
End stream_split.

(** The cases of a call are decided by the code. *)
Section decided.
Context `{!GoEnv, !GoEnvLaws, !GrpcLib, !BuildInfo, !ProtoLib, !ProtoLibLaws}.

Lemma bearer_accepted_dec ctx token : bearer_accepted ctx token \/ ~ bearer_accepted ctx token.
Proof.
  destruct (bearer_decides ctx token tt "" (fun _ _ => mret (Some tt, None)) (mkWorld ∅ ∅ [] 0))
    as (Hiff & _).
  destruct (validateBearerToken ctx token); [right|left; by apply Hiff]. by intros ?%Hiff.
Qed.

Lemma request_valid_dec (ctx : Ctx) m req :
  request_typed m req -> request_valid m req \/ ~ request_valid m req.
Proof.
  intros Ht. set (w := mkWorld ∅ ∅ [] 0). set (s := mkAgentServer "" "" "").
  unfold request_valid. destruct m; simpl in req, Ht.
  - simpl. rewrite !Forall_cons, Forall_nil. unfold id at 1 2 3 4 5 6.
    assert (Hdec : forall P (e : option error), (e = None <-> P) -> P \/ ~ P)
      by (intros P [e|] He; [right; by intros ?%He|left; by apply He]).
    destruct (Hdec _ _ (proj1 (ValidateNodeID_ok (RegisterRequest_NodeId req)))); [|tauto].
    destruct (Hdec _ _ (proj1 (ValidateAddress_ok (RegisterRequest_Address req)))); [|tauto].
    destruct (Hdec _ _ (proj1 (ValidateVersion_ok (RegisterRequest_AgentVersion req)))); tauto.
  - by destruct (ExecuteTask_answers s ctx req w Ht) as (_ & _ & Hd).
  - by destruct (AllocateMemory_spec s ctx req (mkGPUMemoryAllocRequest "" 0 0) w) as [(_ & _ & Hd) _].
  - by destruct (AllocateMemory_spec s ctx (mkMemoryAllocRequest "" 0 None false 0) req w) as [_ (_ & _ & Hd)].
  - by destruct (FreeMemory_spec s ctx req (mkFreeGPUMemoryRequest "") w) as [(_ & _ & Hd) _].
  - by destruct (FreeMemory_spec s ctx (mkFreeMemoryRequest "") req w) as [_ (_ & _ & Hd)].
Qed.
End decided.

(** ** The chain around a handler *)
Section chain.
Context `{!GoEnv, !GoEnvLaws, !GrpcLib, !GrpcLibLaws, !BuildInfo, !ProtoLib, !ProtoLibLaws}.
Variable ChainUnaryInterceptor : list UnaryInterceptor -> UnaryInterceptor.
Hypothesis Chain_two : forall (a b : UnaryInterceptor) Req Resp ctx (req : Req) full
    (handler : UnaryMethod Req Resp),
  ChainUnaryInterceptor [a; b] Req Resp ctx req full handler =
  a Req Resp ctx req full (fun ctx req => b Req Resp ctx req full handler).

#[local] Abbreviation serve_unary := (serve_unary ChainUnaryInterceptor).

(** The handler behind the authentication. *)
Definition guarded (s : AgentServer) (m : Method) : UnaryMethod (Method_Req m) (Method_Resp m) :=
  fun ctx req => AuthUnaryInterceptorFor (agentToken s) ctx req (Method_FullName m)
                   (srv_method m (AgentServer_service s)).

Lemma serve_unary_eq s m ctx req :
  serve_unary s m ctx (inr req) =
  UnaryServerInterceptor ctx req (Method_FullName m) (guarded s m).
Proof. unfold Server.serve_unary. rewrite Method_Handler_eq. unfold unary_chain. by rewrite Chain_two. Qed.

Lemma guarded_trace P `{!TraceInv P} s m ctx req : keeps P (guarded s m ctx req).
Proof.
  unfold guarded, AuthUnaryInterceptorFor. destruct (validateBearerToken _ _); [apply keeps_ret|].
  apply (method_trace P).
Qed.

(** Every predicate the operations and the counting keep is kept by every call. *)
Lemma serve_unary_trace P `{!RequestInv P} s m ctx dec : keeps P (serve_unary s m ctx dec).
Proof.
  destruct dec as [err|req].
  - unfold Server.serve_unary. rewrite Method_Handler_eq. apply keeps_ret.
  - rewrite serve_unary_eq. apply (unary_trace P), (guarded_trace P).
Qed.

(** One request counted under the method's label and the code, one latency observed. *)
Definition counted (label type : string) (code : Code) (w w' : World) : Prop :=
  (forall labels, series_value grpcServerRequests labels (w_trace w') =
     series_value grpcServerRequests labels (w_trace w)
     + (if decide (labels = [label; type; Code_String code]) then 1 else 0))
  /\ forall labels, series_value grpcServerLatency labels (w_trace w') =
     series_value grpcServerLatency labels (w_trace w)
     + (if decide (labels = [label; type]) then 1 else 0).

Definition call_label (m : Method) : string := "compute.v1.AgentService." +:+ MethodName m.

(** A call whose handler returns. *)
Lemma call_run s m ctx req w resp err w1 :
  cache_ok w -> guarded s m ctx req (next_tick w) = (Ret (resp, err), w1) ->
  value (serve_unary s m ctx (inr req)) w = Some (resp, err)
  /\ w_nodes (exec (serve_unary s m ctx (inr req)) w) = w_nodes w1
  /\ counted (call_label m) "unary" (status_Code err) w (exec (serve_unary s m ctx (inr req)) w).
Proof.
  intros Hok Hg. rewrite serve_unary_eq.
  assert (Hkeep : forall P, TraceInv P -> P (next_tick w) -> P w1)
    by (intros P HP Hw; pose proof (guarded_trace P s m ctx req _ Hw) as HP1; by rewrite Hg in HP1).
  destruct (UnaryServerInterceptor_spec ctx req (Method_FullName m) (guarded s m) w) as [Hr _].
  destruct (Hr resp err w1 Hg) as (Hv & Hn & _ & label & d & Hl & _ & Htr).
  - by apply (Hkeep cache_ok); [apply _|].
  - apply (Hkeep (fun v => (S (w_tick w) <= w_tick v)%nat)); [apply _|]. done.
  - split; [exact Hv|]. split; [exact Hn|].
    assert (label = call_label m) as ->.
    { destruct (sanitizeMethod_run (Method_FullName m) w1) as (l & known & Hs & _ & Hk & _);
        [by apply (Hkeep cache_ok); [apply _|]|].
      unfold value in Hl. rewrite Hs in Hl. injection Hl as <-.
      destruct (proj1 served_methods_have_labels m) as [Hkn He]. by rewrite (Hk Hkn), He. }
    assert (Hser : forall m', request_metric m' -> forall labels,
      series_value m' labels (w_trace w1) = series_value m' labels (w_trace w)).
    { intros m' Hm' labels.
      by apply (Hkeep (fun v => series_value m' labels (w_trace v) = series_value m' labels (w_trace w)));
        [apply request_series_inv|]. }
    split; intros labels; rewrite Htr; simpl;
      rewrite Hser by (unfold request_metric; tauto); repeat case_decide; destruct_and?; subst;
      try done; lia || (exfalso; tauto).
Qed.

(** What the handler behind the authentication does, in the four cases. *)
Lemma guarded_run s m ctx req w :
  request_typed m req ->
  (~ bearer_accepted ctx (agentToken s) -> exists code msg, code ∈ [Unauthenticated; PermissionDenied]
     /\ guarded s m ctx req w = (Ret (None, Some (StatusError code msg)), w))
  /\ (bearer_accepted ctx (agentToken s) -> ~ request_valid m req -> exists msg w1,
     guarded s m ctx req w = (Ret (None, Some (StatusError InvalidArgument msg)), w1)
     /\ w_nodes w1 = w_nodes w)
  /\ (bearer_accepted ctx (agentToken s) -> request_valid m req -> ~ no_resources m req ->
     exists now w1, guarded s m ctx req w = (Ret (Some (accepted s m req), None), w1)
     /\ w_nodes w1 = node_effect m now req (w_nodes w))
  /\ (bearer_accepted ctx (agentToken s) -> request_valid m req -> no_resources m req ->
     exists f args w1, guarded s m ctx req w = (Panicked f args, w1) /\ w_nodes w1 = w_nodes w).
Proof.
  intros Ht. destruct (bearer_decides ctx (agentToken s) req (Method_FullName m)
    (srv_method m (AgentServer_service s)) w) as (_ & Hacc & Hrej).
  destruct (method_run s ctx m req w Ht) as (Hok & Hnil & Hno).
  unfold guarded. unfold value, exec in *. split; [|split; [|split]].
  - intros Ha. destruct (Hrej Ha) as (code & msg & _ & Hr & Hcode). exists code, msg.
    split; [|exact Hr]. subst code. destruct (FromIncomingContext ctx) as [md|]; [|left].
    destruct (md_Get md "authorization"); [left|right; left].
  - intros Ha Hv. rewrite (Hacc Ha). destruct (Hno Hv) as [[msg Hm] Hn].
    destruct (srv_method _ _ _ _ w) as [[r|] w1]; [|done]. injection Hm as ->. by exists msg, w1.
  - intros Ha Hv Hres. rewrite (Hacc Ha). destruct (Hok Hv Hres) as [Hm [now Hn]].
    destruct (srv_method _ _ _ _ w) as [[r|] w1]; [|done]. injection Hm as ->. by exists now, w1.
  - intros Ha Hv Hres. rewrite (Hacc Ha). destruct (Hnil Hv Hres) as [Hm Hn].
    destruct (srv_method _ _ _ _ w) as [[r|f args] w1]; [done|]. by exists f, args, w1.
Qed.

(** C15: a unary call from the dispatcher on, in every case.  A request that cannot be decoded
    is answered with the decoder's error, uncounted.  One without the credentials is refused,
    one whose fields do not all pass their checks rejected as [InvalidArgument]; both leave
    the nodes alone.  Any other is answered with the method's answer, and a registration
    installs its node.  In each of these cases exactly one request is counted, under the
    method's own label and the code of the answer, and one latency observed.  The remaining
    case, an authenticated valid registration without resources, panics, counting nothing. *)
Theorem served_call_spec s m ctx dec w :
  cache_ok w ->
  let run := serve_unary s m ctx dec in
  let answered res code := value run w = Some res
        /\ counted (call_label m) "unary" code w (exec run w) in
  (forall err, dec = inl err -> run w = (Ret (None, Some err), w))
  /\ forall req, dec = inr req -> request_typed m req ->
     (~ bearer_accepted ctx (agentToken s) ->
        exists code msg, code ∈ [Unauthenticated; PermissionDenied]
        /\ answered (None, Some (StatusError code msg)) code /\ w_nodes (exec run w) = w_nodes w)
     /\ (bearer_accepted ctx (agentToken s) -> ~ request_valid m req ->
        exists msg, answered (None, Some (StatusError InvalidArgument msg)) InvalidArgument
        /\ w_nodes (exec run w) = w_nodes w)
     /\ (bearer_accepted ctx (agentToken s) -> request_valid m req -> ~ no_resources m req ->
        answered (Some (accepted s m req), None) OK
        /\ exists now, w_nodes (exec run w) = node_effect m now req (w_nodes w))
     /\ (bearer_accepted ctx (agentToken s) -> request_valid m req -> no_resources m req ->
        value run w = None /\ w_nodes (exec run w) = w_nodes w
        /\ forall labels, series_value grpcServerRequests labels (w_trace (exec run w))
                         = series_value grpcServerRequests labels (w_trace w)).
Proof.
  intros Hok run answered. split.
  { intros err ->. unfold run, Server.serve_unary. by rewrite Method_Handler_eq. }
  intros req -> Ht. destruct (guarded_run s m ctx req (next_tick w) Ht) as (Hrej & Hinv & Hacc & Hnil).
  split; [|split; [|split]].
  - intros Ha. destruct (Hrej Ha) as (code & msg & Hc & Hg). exists code, msg. split; [done|].
    destruct (call_run s m ctx req w _ _ _ Hok Hg) as (Hv & Hn & Hcount).
    rewrite status_Code_status in Hcount. by split; [split|].
  - intros Ha Hv. destruct (Hinv Ha Hv) as (msg & w1 & Hg & Hn1). exists msg.
    destruct (call_run s m ctx req w _ _ _ Hok Hg) as (Hval & Hn & Hcount).
    rewrite status_Code_status in Hcount. split; [by split|]. etrans; [exact Hn|exact Hn1].
  - intros Ha Hv Hres. destruct (Hacc Ha Hv Hres) as (now & w1 & Hg & Hn1).
    destruct (call_run s m ctx req w _ _ _ Hok Hg) as (Hval & Hn & Hcount).
    rewrite status_Code_nil in Hcount. split; [by split|]. exists now. etrans; [exact Hn|exact Hn1].
  - intros Ha Hv Hres. destruct (Hnil Ha Hv Hres) as (f & args & w1 & Hg & Hn1).
    assert (Hrun : run w = (Panicked f args, w1)).
    { unfold run. rewrite serve_unary_eq. unfold UnaryServerInterceptor. go_run. by rewrite Hg. }
    unfold value, exec. rewrite Hrun. split; [done|]. split; [exact Hn1|]. intros labels. simpl.
    set (P := fun v => series_value grpcServerRequests labels (w_trace v)
                       = series_value grpcServerRequests labels (w_trace w)).
    assert (HT : TraceInv P) by (apply request_series_inv; by left).
    pose proof (guarded_trace P s m ctx req (next_tick w) eq_refl) as HP. by rewrite Hg in HP.
Qed.

Lemma accepted_typed s m req : request_typed m req -> response_typed m (accepted s m req).
Proof.
  intros Ht. destruct m; simpl in *; try done;
    intros h [= <-]; simpl; unfold is_u64, is_i32 in *; lia.
Qed.

Lemma node_effect_ok m now req nodes :
  ~ no_resources m req -> map_Forall node_ok nodes -> map_Forall node_ok (node_effect m now req nodes).
Proof.
  intros Hr Hn. destruct m; simpl in *; try done. apply map_Forall_insert_2; [|done].
  unfold node_ok; simpl. split; [done|]. split; [by apply not_eq_None_Some|].
  unfold next_conn. destruct (nodes !! _); [apply wrapU64_range|unfold is_u64; lia].
Qed.

(** C21: types are preserved: whatever a client sends, in a state where the label cache, the
    metric calls and the nodes are as they should be, a call of a method with a decoded
    request whose fields fit their Go types leaves such a state, also when it panics; if it
    returns, it returns either an answer whose fields fit their types, and no error, or no
    answer and an error of one of three codes; and it panics only for a registration without
    resources, from a caller with the credentials. *)
Theorem served_call_typed s m ctx req w :
  world_typed w -> request_typed m req ->
  let run := serve_unary s m ctx (inr req) in
  world_typed (exec run w)
  /\ match value run w with
     | Some (resp, err) => result_typed m resp err
     | None => no_resources m req /\ bearer_accepted ctx (agentToken s)
     end.
Proof.
  intros (Hc & Htr & Hn) Ht run.
  assert (Hkeep : forall P, RequestInv P -> P w -> P (exec run w))
    by (intros P HP Hw; by apply (serve_unary_trace P)).
  assert (Hnodes : map_Forall node_ok (w_nodes (exec run w)) -> world_typed (exec run w)).
  { intros Hn'. split; [by apply (Hkeep cache_ok _)|]. split; [|done]. by apply (Hkeep trace_ok _). }
  unfold run. rewrite serve_unary_eq. fold run.
  destruct (guarded_run s m ctx req (next_tick w) Ht) as (Hrej & Hinv & Hacc & Hnil).
  assert (Hans : forall resp err w1, guarded s m ctx req (next_tick w) = (Ret (resp, err), w1) ->
    map_Forall node_ok (w_nodes w1) -> result_typed m resp err ->
    world_typed (exec run w) /\ match value run w with
      | Some (resp, err) => result_typed m resp err
      | None => no_resources m req /\ bearer_accepted ctx (agentToken s)
      end).
  { intros resp err w1 Hg Hok Hr.
    destruct (call_run s m ctx req w _ _ _ Hc Hg) as (Hv & Hnw & _). fold run in Hv, Hnw.
    rewrite Hv. split; [|done]. apply Hnodes. by rewrite Hnw. }
  rewrite <- serve_unary_eq. fold run.
  destruct (bearer_accepted_dec ctx (agentToken s)) as [Ha|Ha].
  2:{ destruct (Hrej Ha) as (code & msg & Hcode & Hg). eapply Hans; [exact Hg|done|]. simpl.
      by apply (elem_of_app [_; _] [_]); left. }
  destruct (request_valid_dec ctx m req Ht) as [Hv|Hv].
  2:{ destruct (Hinv Ha Hv) as (msg & w1 & Hg & Hw1). eapply Hans; [exact Hg|by rewrite Hw1|].
      simpl. do 2 right. left. }
  destruct (decide (no_resources m req)) as [Hres|Hres].
  - destruct (Hnil Ha Hv Hres) as (f & args & w1 & Hg & Hw1).
    assert (Hrun : run w = (Panicked f args, w1)).
    { unfold run. rewrite serve_unary_eq. unfold UnaryServerInterceptor. go_run. by rewrite Hg. }
    split; [|by unfold value; rewrite Hrun]. apply Hnodes. unfold exec. rewrite Hrun. simpl.
    by rewrite Hw1.
  - destruct (Hacc Ha Hv Hres) as (now & w1 & Hg & Hw1). eapply Hans; [exact Hg| |by apply accepted_typed].
    rewrite Hw1. by apply node_effect_ok.
Qed.
End chain.
