(* ===== verification/System.v ===== *)
(** The whole control plane over time: from the start of the process, clients' unary calls and
    heartbeat streams in any number and at any point of their handlers, HTTP requests, the
    stale-node cleanup, certificate reloads and polls, interleaved in any order.  Everything
    that reaches the registry does so through its methods, so the process refines the
    registry's transition system and inherits its invariants.

    A stream runs in steps ([Heartbeat.v]); a unary call is one step: its registry method is
    atomic under the lock, and what surrounds it reads and writes nothing that another call
    reads, but for the metrics, whose updates commute. *)
From S2P Require Import Prelude GoRuntime GoStrings GoTime PbResource PbAgent Grpc World Metrics.
From S2P Require Import Registry RegistrySafety RegistryApi Validator Agent AgentFacts Heartbeat.
From S2P Require Import RestApi TlsReload AgentGrpc MetricsSafety ControlPlane Server.
Local Open Scope string_scope.
Local Open Scope Z_scope.

(** ** Steps *)
Section system.
Context `{!GoEnv, !GrpcLib, !BuildInfo, !ProtoLib, !FileSystem, !LocalZone}.
Variable ChainUnaryInterceptor : list UnaryInterceptor -> UnaryInterceptor.
Variable promhttp_Handler : HandlerFunc.

(** A heartbeat stream inside its interceptor: the label and the start the interceptor holds,
    and whether the interceptor is still running. *)
Record served_stream := mkServed {
  ss_ctx : Ctx;
  ss_hb : hb_stream;
  ss_label : string;
  ss_start : Time;
  ss_open : bool
}.
Definition set_hb (st : served_stream) (hb : hb_stream) : served_stream :=
  mkServed (ss_ctx st) hb (ss_label st) (ss_start st) (ss_open st).
Definition set_closed (st : served_stream) : served_stream :=
  mkServed (ss_ctx st) (ss_hb st) (ss_label st) (ss_start st) false.

Record system := mkSystem {
  sys_world : World;
  sys_streams : list served_stream;
  sys_reloader : option CertReloader
}.

(** What makes the process move, with what it is given. *)
Inductive sys_label : Type :=
  | LOpen (ctx : Ctx)                                         (* a client opens a stream *)
  | LStream (j : nat) (i : hb_input)                          (* a stream makes a step *)
  | LClose (j : nat)                                          (* its handler has returned *)
  | LUnary (m : Method) (ctx : Ctx) (dec : error + Method_Req m)
  | LHttp (path : string) (req : Request)
  | LCleanup                                                  (* a tick of the cleanup *)
  | LHangup                                                   (* SIGHUP *)
  | LPoll                                                     (* a tick of the watcher *)
  | LLog (e : LogEntry).                                      (* a log line of a goroutine *)

Inductive sys_does (p : Process) : sys_label -> system -> system -> Prop :=
  | sys_open ctx label start w w' sts r :
      stream_open AgentService_Heartbeat_FullMethodName w = (Ret (label, start), w') ->
      sys_does p (LOpen ctx) (mkSystem w sts r)
        (mkSystem w' (sts ++ [mkServed ctx hb_open label start true]) r)
  | sys_stream j st i m hb w w' sts r :
      sts !! j = Some st -> hb_step (p_agent p) (ss_ctx st) (ss_hb st) i = Some m ->
      m w = (Ret hb, w') ->
      sys_does p (LStream j i) (mkSystem w sts r) (mkSystem w' (<[j := set_hb st hb]> sts) r)
  | sys_close j st err w w' sts r :
      sts !! j = Some st -> hb_at (ss_hb st) = HbDone err -> ss_open st = true ->
      stream_close (ss_label st) (ss_start st) err w = (Ret tt, w') ->
      sys_does p (LClose j) (mkSystem w sts r) (mkSystem w' (<[j := set_closed st]> sts) r)
  | sys_unary m ctx dec res w w' sts r :
      (forall req, dec = inr req -> request_typed m req) ->
      serve_unary ChainUnaryInterceptor (p_agent p) m ctx dec w = (Ret res, w') ->
      sys_does p (LUnary m ctx dec) (mkSystem w sts r) (mkSystem w' sts r)
  | sys_http path hd req rw w w' sts r :
      routes promhttp_Handler (p_api p) path = Some hd -> hd fresh_writer req w = (Ret rw, w') ->
      sys_does p (LHttp path req) (mkSystem w sts r) (mkSystem w' sts r)
  | sys_cleanup w sts r :
      sys_does p LCleanup (mkSystem w sts r)
        (mkSystem (exec (StaleNodeCleanup (p_staleThreshold p) [Tick]) w) sts r)
  | sys_hangup rl rl' w w' sts :
      on_signal (Some rl) SIGHUP w = (Ret (Some rl', false), w') ->
      sys_does p LHangup (mkSystem w sts (Some rl)) (mkSystem w' sts (Some rl'))
  | sys_poll rl rl' w w' sts :
      p_watch p <> None -> Watch rl [WatchTick] w = (Ret rl', w') ->
      sys_does p LPoll (mkSystem w sts (Some rl)) (mkSystem w' sts (Some rl'))
  | sys_log e w sts r :
      sys_does p (LLog e) (mkSystem w sts r) (mkSystem (add_event (EvLog e) w) sts r).

Definition sys_step (p : Process) (y y' : system) : Prop := exists l, sys_does p l y y'.

(** A run, as the steps it takes: each with the state it starts in. *)
Inductive sys_trace (p : Process) : system -> list (system * sys_label) -> system -> Prop :=
  | trace_nil y : sys_trace p y [] y
  | trace_cons l y1 y2 tr y3 :
      sys_does p l y1 y2 -> sys_trace p y2 tr y3 -> sys_trace p y1 ((y1, l) :: tr) y3.

(** The process as it starts: the packages are initialized, then [main] runs. *)
Definition sys_started (p : Process) (y : system) : Prop :=
  exists h fl w0 w1, w_nodes w0 = NewNodeRegistry /\ w_known w0 = ∅ /\ w_trace w0 = []
  /\ startup h fl (exec init w0) = (Ret (Running p), w1)
  /\ y = mkSystem w1 [] (p_reloader p).

Definition sys_reachable (p : Process) (y : system) : Prop :=
  exists y0, sys_started p y0 /\ rtc (sys_step p) y0 y.
End system.
Arguments mkSystem {_ _} _ _ _.

(** ** Refinement *)
Section refinement.
Context `{!GoEnv, !GoEnvLaws, !GrpcLib, !BuildInfo, !ProtoLib, !ProtoLibLaws}.

Lemma frame_refl w : frame w w.
Proof. by split. Qed.

Lemma frame_log w e : frame w (add_event (EvLog e) w).
Proof. by split. Qed.

Lemma frame_ticks k w : frame w (ticks k w).
Proof. by split. Qed.

Lemma frame_trans w1 w2 w3 : frame w1 w2 -> frame w2 w3 -> frame w1 w3.
Proof.
  intros [Hn1 Hs1] [Hn2 Hs2]. split; [by rewrite Hn2|]. intros m Hm. by rewrite Hs2, Hs1.
Qed.

Lemma rejected_frame ctx method fields Ps w err w' :
  rejected_by ctx method fields Ps w err w' -> frame w w'.
Proof.
  intros (j & fld & line & _ & _ & _ & _ & Hn & _ & Ht). split; [done|].
  intros m _. by rewrite Ht.
Qed.

(** The registry's own call, between frames. *)
Lemma op_steps w o w1 w2 :
  frame w w1 -> frame (exec (run_op o) w1) w2 -> rtc reg_step w w2.
Proof.
  intros Hf1 Hf2. eapply rtc_l; [by apply step_frame|]. eapply rtc_l; [apply step_op|].
  eapply rtc_l; [by apply step_frame|done].
Qed.
Lemma frame_steps w w' : frame w w' -> rtc reg_step w w'.
Proof. intros Hf. eapply rtc_l; [by apply step_frame|done]. Qed.

Lemma checks_frame ctx line m w err w' :
  validateAll ctx "Heartbeat" (heartbeat_checks line m) w = (Ret err, w') -> frame w w'.
Proof.
  intros Hr. destruct (heartbeat_checks_run ctx line m w) as [(_ & k & Hr')|(_ & e & w1 & Hr' & Hrej)];
    rewrite Hr in Hr'; injection Hr' as -> ->; [apply frame_ticks|by eapply rejected_frame].
Qed.

Lemma op_exec (o : reg_op) w a w1 : run_op o w = (Ret a, w1) -> exec (run_op o) w = w1.
Proof. unfold exec. by intros ->. Qed.

Lemma hb_handler_refines s ctx pc i m w pc' w' :
  hb_handler s ctx pc i = Some m -> m w = (Ret pc', w') -> rtc reg_step w w'.
Proof.
  intros Hm Hr. destruct pc as [| |first|first conn|first conn|id conn|id conn req|id conn err|err],
    i as [|[r|e]|err'|err'|]; simpl in Hm; try discriminate; injection Hm as <-.
  - injection Hr as _ <-. done.
  - apply bind_Ret in Hr as (err & w1 & Hv & [= _ <-]). by eapply frame_steps, checks_frame.
  - injection Hr as _ <-. done.
  - apply bind_Ret in Hr as (c & w1 & [= _ <-] & Hr). apply bind_Ret in Hr as (? & ? & [= _ <-] & [= _ <-]).
    apply frame_steps, frame_log.
  - apply bind_Ret in Hr as (c & w1 & Hu & [= _ <-]).
    apply (op_steps w (OHeartbeat (HeartbeatRequest_NodeId first)
      (HeartbeatRequest_Utilization first) (HeartbeatRequest_Tasks first)) w w1); [done|].
    erewrite op_exec; [apply frame_refl|exact Hu].
  - destruct err' as [e|].
    + apply bind_Ret in Hr as (? & w1 & [= _ <-] & [= _ <-]). apply frame_steps, frame_log.
    + injection Hr as _ <-. done.
  - apply bind_Ret in Hr as (err & w1 & Hv & [= _ <-]). by eapply frame_steps, checks_frame.
  - case_decide; apply bind_Ret in Hr as (? & w1 & [= _ <-] & [= _ <-]); apply frame_steps, frame_log.
  - apply bind_Ret in Hr as (c & w1 & Hu & Hr). apply bind_Ret in Hr as (? & ? & [= _ <-] & [= _ <-]).
    eapply (op_steps w (OHeartbeat (HeartbeatRequest_NodeId req)
      (HeartbeatRequest_Utilization req) (HeartbeatRequest_Tasks req)) w); [done|].
    erewrite op_exec; [apply frame_log|exact Hu].
  - apply bind_Ret in Hr as (c & w1 & Hu & [= _ <-]).
    apply (op_steps w (ORemoveIf id conn) w w1); [done|]. erewrite op_exec; [apply frame_refl|exact Hu].
Qed.

Lemma hb_step_refines s ctx st i m w st' w' :
  hb_step s ctx st i = Some m -> m w = (Ret st', w') -> rtc reg_step w w'.
Proof.
  intros Hs Hr. destruct i as [|r|err|err|]; simpl in Hs.
  4:{ destruct (hb_tick st); try done. injection Hs as <-.
      destruct err; [apply bind_Ret in Hr as (? & ? & [= _ <-] & [= _ <-])|injection Hr as _ <-];
        [apply frame_steps, frame_log|done]. }
  4:{ destruct (hb_tick st); try done. destruct (hb_at st); try done. injection Hs as <-.
      injection Hr as _ <-. done. }
  all: match type of Hs with match hb_handler ?s ?ctx ?pc ?i with _ => _ end = _ =>
         destruct (hb_handler s ctx pc i) as [h|] eqn:Hh; [|done] end.
  all: injection Hs as <-; apply bind_Ret in Hr as (pc & w1 & Hr & [= _ <-]);
    by eapply hb_handler_refines.
Qed.

(** A [Register] call is a check chain, a log entry and one call of the registry. *)
Lemma Register_refines s ctx req w : rtc reg_step w (exec (AgentServer_Register s ctx req) w).
Proof.
  unfold exec, AgentServer_Register, mbind, go_bind.
  set (l := [("node_id", 213, mret (ValidateNodeID (RegisterRequest_NodeId req)));
     ("address", 214, mret (ValidateAddress (RegisterRequest_Address req)));
     ("agent_version", 215, mret (ValidateVersion (RegisterRequest_AgentVersion req)))]
     : list (string * Z * Go World (option error))).
  change [newCheck (at_line 213) _ _; _; _] with (handler_checks l).
  destruct (validate_handler ctx "Register" l
    [safe_id 255 (RegisterRequest_NodeId req); plain_text 512 (RegisterRequest_Address req);
     plain_text 64 (RegisterRequest_AgentVersion req)] w)
    as [(HF & k & ->)|(HF & err & w' & -> & Hr)].
  - repeat constructor; apply check_validator;
      [apply ValidateStringID_ok|apply ValidateAddress_ok|apply ValidateVersion_ok].
  - simpl. unfold log, go_modify.
    set (w1 := add_event _ (ticks k w)).
    apply (op_steps w (ORegister (RegisterRequest_NodeId req) (RegisterRequest_Address req)
      (RegisterRequest_Resources req)) w1).
    + eapply frame_trans; [apply frame_ticks|apply frame_log].
    + unfold exec. simpl. by destruct (NodeRegistry_Register _ _ _ w1) as [[a|f args] w2].
  - simpl. by eapply frame_steps, rejected_frame.
Qed.


(** ** What leaves the registry alone *)
Definition outside_event (e : Event) : Prop :=
  match e with EvMetric m _ _ => ~ registry_metric m | _ => True end.

Lemma frame_event w0 e w : outside_event e -> frame w0 w -> frame w0 (add_event e w).
Proof.
  intros He Hf. apply (frame_trans _ _ _ Hf). split; [done|]. intros m Hm.
  destruct e as [m' labels op|e|c]; try done. simpl in *. rewrite decide_False; [done|].
  intros [-> _]. done.
Qed.
Lemma frame_tick w0 w : frame w0 w -> frame w0 (next_tick w).
Proof. intros Hf. by apply (frame_trans _ _ _ Hf). Qed.

#[export] Instance registry_metric_dec m : Decision (registry_metric m).
Proof. unfold registry_metric. apply _. Defined.
#[local] Ltac outside := simpl; first [exact I | apply (bool_decide_unpack _); reflexivity].
#[local] Ltac frame_step :=
  first [ assumption | apply frame_tick; assumption | apply frame_event; [outside|assumption] ].
#[local] Ltac frames := keeps_world frame_step.

Lemma sanitize_frame w0 full : keeps (frame w0) (sanitizeMethod full).
Proof.
  unfold sanitizeMethod. apply keeps_bind; [by intros w|]. intros [|]; [apply keeps_ret|].
  repeat case_match; [|apply keeps_ret..]. apply keeps_bind; [by intros w|intros; apply keeps_ret].
Qed.
#[local] Opaque sanitizeMethod.

Lemma open_frame w0 full : keeps (frame w0) (stream_open full).
Proof. unfold stream_open. repeat first [apply sanitize_frame | progress frames]. Qed.
Lemma close_frame w0 label start err : keeps (frame w0) (stream_close label start err).
Proof. unfold stream_close, Since. frames. Qed.

Section tls_frame.
Context `{!FileSystem}.
Lemma syscall_frame w0 {A} (f : nat -> A) : keeps (frame w0) (syscall f).
Proof. intros w Hw. by apply frame_tick. Qed.
#[local] Opaque syscall.
Lemma load_frame w0 r : keeps (frame w0) (load r).
Proof. unfold load, stat_ca, load_ca. repeat first [apply syscall_frame | progress frames]. Qed.
#[local] Opaque load.
Lemma Watch_frame w0 r evs : keeps (frame w0) (Watch r evs).
Proof.
  revert r. induction evs as [|[] evs IH]; intros r; simpl; [apply keeps_ret..|].
  unfold load_failed. repeat first [apply load_frame | apply IH | progress frames].
Qed.
Lemma signal_frame w0 r sig : keeps (frame w0) (on_signal r sig).
Proof.
  destruct sig; simpl; [frames..|]. destruct r as [r|]; [|apply keeps_ret].
  unfold Reload, load_failed. repeat first [apply load_frame | progress frames].
Qed.
Lemma startup_frame w0 h fl : keeps (frame w0) (startup h fl).
Proof. unfold startup, fatal, New. repeat first [apply load_frame | progress frames]. Qed.
End tls_frame.

(** *** Unary calls *)
Lemma keeps_frame {A} (m : Go World A) w : (forall w0, keeps (frame w0) m) -> frame w (m w).2.
Proof. intros Hm. apply (Hm w), frame_refl. Qed.
Lemma run_exec {A} (m : Go World A) w r w' : m w = (r, w') -> w' = exec m w.
Proof. unfold exec. by intros ->. Qed.

Lemma answers_frame {Resp} (run : Go World (option Resp * option error)) ctx method fields Ps resp
    entry w :
  answers run ctx method fields Ps resp entry w -> frame w (exec run w).
Proof.
  intros (Hy & Hn & [HF|HF]).
  - destruct (Hy HF) as (_ & Hnodes & _ & Ht). split; [exact Hnodes|]. intros m _. by rewrite Ht.
  - destruct (Hn HF) as (err & _ & Hr). by eapply rejected_frame.
Qed.

Lemma method_refines s ctx m req w :
  request_typed m req -> rtc reg_step w (exec (srv_method m (AgentServer_service s) ctx req) w).
Proof.
  intros Ht. destruct m; simpl in req, Ht; [apply Register_refines|..]; apply frame_steps.
  - by eapply answers_frame, ExecuteTask_answers.
  - eapply answers_frame, (AllocateMemory_spec s ctx req (mkGPUMemoryAllocRequest "" 0 0)); done.
  - eapply answers_frame, (AllocateMemory_spec s ctx (mkMemoryAllocRequest "" 0 None false 0) req); done.
  - eapply answers_frame, (FreeMemory_spec s ctx req (mkFreeGPUMemoryRequest "")).
  - eapply answers_frame, (FreeMemory_spec s ctx (mkFreeMemoryRequest "") req).
Qed.

Lemma unary_refines {Req Resp} ctx (req : Req) full
    (handler : Ctx -> Req -> Go World (Resp * option error)) w :
  (forall v, rtc reg_step v (exec (handler ctx req) v)) ->
  rtc reg_step w (exec (UnaryServerInterceptor ctx req full handler) w).
Proof.
  intros Hh. eapply rtc_l; [apply (step_frame w (next_tick w)), frame_tick, frame_refl|].
  etrans; [apply Hh|]. unfold exec, UnaryServerInterceptor.
  rewrite (go_bind_Ret Now _ w (now_at (w_tick w)) (next_tick w)) by done.
  destruct (handler ctx req (next_tick w)) as [[[resp err]|f args] w1] eqn:Hr.
  - rewrite (go_bind_Ret _ _ _ _ _ Hr). apply frame_steps, keeps_frame. intros w0.
    unfold Since. repeat first [apply sanitize_frame | progress frames].
  - unfold mbind, go_bind. by rewrite Hr.
Qed.
End refinement.

(** ** The process *)
Section process.
Context `{!GoEnv, !GoEnvLaws, !GrpcLib, !GrpcLibLaws, !BuildInfo, !ProtoLib, !ProtoLibLaws}.
Context `{!FileSystem, !LocalZone}.
Variable ChainUnaryInterceptor : list UnaryInterceptor -> UnaryInterceptor.
Hypothesis Chain_two : forall (a b : UnaryInterceptor) Req Resp ctx (req : Req) full
    (handler : UnaryMethod Req Resp),
  ChainUnaryInterceptor [a; b] Req Resp ctx req full handler =
  a Req Resp ctx req full (fun ctx req => b Req Resp ctx req full handler).
(** Scraping the metrics only reads them. *)
Variable promhttp_Handler : HandlerFunc.
Hypothesis scrape_reads : forall rw r w, (promhttp_Handler rw r w).2 = w.

#[local] Abbreviation sys_step := (sys_step ChainUnaryInterceptor promhttp_Handler).
#[local] Abbreviation sys_reachable := (sys_reachable ChainUnaryInterceptor promhttp_Handler).

Lemma serve_refines s m ctx dec w :
  (forall req, dec = inr req -> request_typed m req) ->
  rtc reg_step w (exec (serve_unary ChainUnaryInterceptor s m ctx dec) w).
Proof.
  intros Ht. destruct dec as [err|req].
  - unfold serve_unary. by rewrite Method_Handler_eq.
  - rewrite serve_unary_eq by done. apply unary_refines. intros v.
    unfold guarded, AuthUnaryInterceptorFor. destruct (validateBearerToken _ _); [done|].
    by apply method_refines, Ht.
Qed.

(** What a request to a route runs: nothing, the metrics, or a snapshot of the registry. *)
Lemma route_refines api path hd req w :
  routes promhttp_Handler api path = Some hd -> rtc reg_step w (hd fresh_writer req w).2.
Proof.
  assert (Hkey : forall next, rtc reg_step w (next fresh_writer req w).2 ->
    rtc reg_step w (RequireAPIKey api next fresh_writer req w).2)
    by (intros next Hn; unfold RequireAPIKey; case_match; [done|exact Hn]).
  unfold routes. repeat case_match; try done; intros [= <-]; [done|apply Hkey|apply Hkey].
  - unfold NodesHandler. eapply rtc_l; [|apply rtc_refl]. apply (step_op OGetAll).
  - by rewrite scrape_reads.
Qed.

Lemma sys_step_refines p y y' :
  sys_step p y y' -> rtc reg_step (sys_world y) (sys_world y').
Proof.
  intros [lb Hst]. destruct Hst as [ctx label start w w' sts r Hr|j st i m hb w w' sts r Hj Hs Hr
    |j st err w w' sts r Hj Ha Ho Hr|m ctx dec res w w' sts r Ht Hr|path hd req rw w w' sts r Hp Hr
    |w sts r|rl rl' w w' sts Hr|rl rl' w w' sts Hw Hr|e w sts r]; simpl.
  - apply frame_steps. rewrite (run_exec _ _ _ _ Hr). apply keeps_frame. intros w0. apply open_frame.
  - by eapply hb_step_refines.
  - apply frame_steps. rewrite (run_exec _ _ _ _ Hr). apply keeps_frame. intros w0. apply close_frame.
  - rewrite (run_exec _ _ _ _ Hr). by apply serve_refines.
  - rewrite (run_exec _ _ _ _ Hr). by eapply route_refines.
  - eapply rtc_l; [|apply rtc_refl]. pose proof (step_op (OCleanup (p_staleThreshold p)) w) as Hop.
    simpl in Hop. unfold exec in *. simpl. unfold mbind, go_bind.
    by destruct (cleanup_tick (p_staleThreshold p) w) as [[[]|] ?].
  - apply frame_steps. rewrite (run_exec _ _ _ _ Hr). apply keeps_frame. intros w0. apply signal_frame.
  - apply frame_steps. rewrite (run_exec _ _ _ _ Hr). apply keeps_frame. intros w0. apply Watch_frame.
  - apply frame_steps, frame_event, frame_refl. done.
Qed.

(** ** Invariants of the process *)
Definition open_streams (sts : list served_stream) : Z :=
  Z.of_nat (length (filter (fun st => ss_open st = true) sts)).

Definition heartbeat_label : string := "compute.v1.AgentService.Heartbeat".
Definition active (w : World) : Z := series_value grpcActiveStreams [heartbeat_label] (w_trace w).

(** What every step keeps of the shared state alone. *)
Definition world_ok (v : Z) (w : World) : Prop :=
  (cache_ok w /\ trace_ok w) /\ calls w = [] /\ active w = v.

Record process_ok (p : Process) (y : system) : Prop := {
  po_world : world_ok (open_streams (sys_streams y)) (sys_world y);
  po_label : Forall (fun st => ss_label st = heartbeat_label) (sys_streams y);
  po_reloader : is_Some (sys_reloader y) <-> p_tlsEnabled p = true
}.

#[local] Instance world_ok_inv v : RequestInv (world_ok v).
Proof. unfold world_ok. apply _. Qed.

Lemma kept {A} (m : Go World A) v w r w' :
  keeps (world_ok v) m -> m w = (r, w') -> world_ok v w -> world_ok v w'.
Proof. intros Hm Hr Hw. apply Hm in Hw. by rewrite Hr in Hw. Qed.

Lemma heartbeat_sanitized w :
  cache_ok w -> exists known, sanitizeMethod AgentService_Heartbeat_FullMethodName w =
    (Ret heartbeat_label, mkWorld (w_nodes w) known (w_trace w) (w_tick w)).
Proof.
  intros Hc. destruct (sanitizeMethod_run AgentService_Heartbeat_FullMethodName w Hc)
    as (label & known & Hs & _ & Hk & _).
  destruct served_methods_have_labels as (_ & Hkn & He). exists known. by rewrite Hs, (Hk Hkn), He.
Qed.

Lemma world_ok_open v w label start w' :
  world_ok v w -> stream_open AgentService_Heartbeat_FullMethodName w = (Ret (label, start), w') ->
  label = heartbeat_label /\ world_ok (v + 1) w'.
Proof.
  intros Hw Hr. destruct (heartbeat_sanitized w) as [known Hs]; [apply Hw|].
  pose proof (sanitize_trace (world_ok v) AgentService_Heartbeat_FullMethodName w Hw) as Hw1.
  rewrite Hs in Hw1. unfold stream_open, mbind, go_bind in Hr. rewrite Hs in Hr.
  injection Hr as <- _ <-. split; [done|].
  destruct Hw1 as [[[Hin Hok] Ht] [Hc Ha]]. split; [split|split]; [by split| |done|].
  - constructor; [by split|done].
  - unfold active in *. simpl in Ha. series_simpl. by rewrite Ha.
Qed.

Lemma world_ok_close v w start err w' :
  world_ok v w -> stream_close heartbeat_label start err w = (Ret tt, w') -> world_ok (v - 1) w'.
Proof.
  intros ((Hc & Ht) & Hcalls & Ha) Hr. unfold stream_close, Since in Hr.
  unfold go_defer, mbind, go_bind, metric, go_modify in Hr. simpl in Hr. injection Hr as <-.
  split; [split|split]; [exact Hc| |done|].
  - repeat (constructor; [by repeat split|]). done.
  - unfold active in *. series_simpl. by rewrite Ha.
Qed.

Lemma route_keeps P `{!TraceInv P} api path hd req :
  routes promhttp_Handler api path = Some hd -> keeps P (hd fresh_writer req).
Proof.
  intros Hp. assert (Hkey : forall next, keeps P (next fresh_writer req) ->
    keeps P (RequireAPIKey api next fresh_writer req))
    by (intros next Hn; unfold RequireAPIKey; case_match; [apply keeps_ret|exact Hn]).
  unfold routes in Hp. repeat case_match; try done; injection Hp as <-.
  - apply keeps_ret.
  - apply Hkey. unfold NodesHandler. simpl. unfold NodeRegistry_GetAll. keeps_trace.
  - apply Hkey. intros w Hw. by rewrite scrape_reads.
Qed.

Lemma cleanup_keeps P `{!TraceInv P} threshold evs : keeps P (StaleNodeCleanup threshold evs).
Proof.
  induction evs as [|[] evs IH]; simpl; [apply keeps_ret..|].
  apply keeps_bind; [apply (run_op_trace P (OCleanup threshold))|intros _; exact IH].
Qed.

(** Replacing a stream of the list by one that is as open. *)
Lemma open_insert sts j st st' :
  sts !! j = Some st ->
  open_streams (<[j := st']> sts) =
  open_streams sts + (if ss_open st' then 1 else 0) - (if ss_open st then 1 else 0).
Proof.
  intros Hj. unfold open_streams. rewrite insert_take_drop by (by eapply lookup_lt_Some).
  rewrite <- (take_drop_middle sts j st Hj) at 3.
  rewrite !filter_app, !filter_cons, !length_app.
  repeat case_decide; destruct (ss_open st), (ss_open st'); simpl in *; try done; lia.
Qed.

Lemma sys_step_ok p y y' : process_ok p y -> sys_step p y y' -> process_ok p y'.
Proof.
  intros [Hw Hl Hr] [lb Hst]. destruct Hst as [ctx label start w w' sts r Hrun|j st i m hb w w' sts r Hj Hs Hrun
    |j st err w w' sts r Hj Ha Ho Hrun|m ctx dec res w w' sts r Ht Hrun|path hd req rw w w' sts r Hp Hrun
    |w sts r|rl rl' w w' sts Hrun|rl rl' w w' sts Hwatch Hrun|e w sts r]; simpl in *.
  - apply (world_ok_open _ _ _ _ _ Hw) in Hrun as [-> Hw']. split; simpl; [|apply Forall_app; split; [exact Hl|by constructor]|done].
    unfold open_streams in *. rewrite filter_app, length_app, Nat2Z.inj_add. exact Hw'.
  - split; simpl; [|apply Forall_insert; [exact Hl|apply (Forall_lookup_1 _ _ _ _ Hl Hj)]|done].
    rewrite (open_insert _ _ _ _ Hj). simpl.
    rewrite Z.add_simpl_r. eapply kept; [eapply (hb_step_trace (world_ok _)), Hs|done|done].
  - pose proof (Forall_lookup_1 _ _ _ _ Hl Hj) as Hlab. simpl in Hlab. rewrite Hlab in Hrun.
    apply (world_ok_close _ _ _ _ _ Hw) in Hrun.
    split; simpl; [|by apply Forall_insert|done].
    rewrite (open_insert _ _ _ _ Hj), Ho. simpl. by rewrite Z.add_0_r.
  - split; simpl; [|done..]. eapply kept; [by apply (serve_unary_trace _ Chain_two (world_ok _))|exact Hrun|done].
  - split; simpl; [|done..]. eapply kept; [by eapply (route_keeps (world_ok _))|done|done].
  - split; simpl; [|done..]. exact (cleanup_keeps (world_ok _) (p_staleThreshold p) [Tick] w Hw).
  - split; simpl; [|done|by split; [intros _; apply Hr; by eexists|by eexists]].
    exact (kept _ _ _ _ _ (signal_trace (world_ok _) (Some rl) SIGHUP) Hrun Hw).
  - split; simpl; [|done|by split; [intros _; apply Hr; by eexists|by eexists]].
    exact (kept _ _ _ _ _ (Watch_trace (world_ok _) rl [WatchTick]) Hrun Hw).
  - split; simpl; [|done..]. by apply (inv_event (P := world_ok _)).
Qed.

(** ** From the start *)
Lemma init_starts w0 :
  w_nodes w0 = NewNodeRegistry -> w_known w0 = ∅ -> w_trace w0 = [] ->
  initial (exec init w0) /\ world_ok 0 (exec init w0).
Proof.
  intros Hn Hk Ht. pose proof (init_cache_ok w0 Hk) as Hc. unfold exec in *. rewrite init_run in *.
  split; [by split|]. split; [split; [exact Hc|]|]; unfold trace_ok, calls, active; simpl;
    rewrite Ht; repeat constructor.
Qed.

Lemma sys_started_ok p y :
  sys_started p y -> reachable (sys_world y) /\ process_ok p y
    /\ (p_tlsEnabled p = true -> exists fl w0 r, sys_reloader y = Some r
        /\ value (New (f_tlsCert fl) (f_tlsKey fl) (f_tlsCACert fl)) w0 = Some (Some r, None)).
Proof.
  intros (h & fl & w0 & w1 & Hn & Hk & Ht & Hst & ->).
  destruct (init_starts w0 Hn Hk Ht) as [Hi Hok]. set (wi := exec init w0) in *.
  destruct (startup_run h fl wi) as (st & w1' & Hrun & Hp). rewrite Hst in Hrun.
  injection Hrun as <- <-. destruct (Hp p eq_refl) as (Htls & _). simpl. split; [|split].
  - exists wi. split; [done|]. apply frame_steps. rewrite (run_exec _ _ _ _ Hst).
    apply keeps_frame. intros v. apply startup_frame.
  - split; simpl; [|constructor|].
    + eapply kept; [apply (startup_trace (world_ok 0))|exact Hst|exact Hok].
    + destruct Htls as [(_ & _ & _ & -> & ->)|(_ & _ & -> & r & _ & -> & _)];
        [by split; [intros [? ?]|]|by split; [|by eexists]].
  - intros Hon. destruct Htls as [(_ & _ & _ & He & _)|(_ & _ & _ & r & w2 & Hr & Hnew)];
      [congruence|]. exists fl, w2, r. by split.
Qed.

(** The shared state of a process is a state of the registry's transition system. *)
Lemma sys_reachable_registry p y : sys_reachable p y -> reachable (sys_world y).
Proof.
  intros (y0 & Hs & Hrtc). destruct (sys_started_ok p y0 Hs) as ((w0 & Hw0 & Hr0) & _).
  exists w0. split; [done|]. etrans; [exact Hr0|].
  clear Hs Hr0 Hw0. induction Hrtc as [|y1 y2 y3 Hst _ IH]; [done|].
  etrans; [by eapply sys_step_refines|done].
Qed.

(** Everything the process does to the registry, from its start on, is a sequence of its
    methods' calls: whatever clients send over gRPC and HTTP, whatever the interleaving with
    the cleanup and with certificate reloads, the shared state of a reachable process is a
    reachable state of the registry; hence (the registry's invariant) every node is filed
    under its own identity with resources, which [GetAll] relies on, and the node gauge is
    the number of nodes. *)
Theorem system_refines_registry p y :
  sys_reachable p y ->
  reachable (sys_world y)
  /\ (forall k n, w_nodes (sys_world y) !! k = Some n -> NodeID n = k /\ Resources n <> None)
  /\ series_value RegisteredNodes [] (w_trace (sys_world y)) = Z.of_nat (size (w_nodes (sys_world y))).
Proof.
  intros Hr%sys_reachable_registry. split; [done|]. apply reachable_ok in Hr as [Hn Hg _ _]. split; [|done].
  intros k n Hk. apply Hn in Hk as (? & [? ?] & _). split; [done|congruence].
Qed.

Lemma sys_reachable_ok p y : sys_reachable p y -> process_ok p y.
Proof.
  intros (y0 & Hs & Hrtc). destruct (sys_started_ok p y0 Hs) as (_ & Hok & _). clear Hs.
  induction Hrtc as [y|y1 y2 y3 Hst _ IH]; [done|]. apply IH. by eapply sys_step_ok.
Qed.

(** C20: in every reachable state of the process, the shared state is one the registry's methods
    reach, so that the registry's invariant holds of it: the node gauge is the number of nodes;
    the cache of method labels is consistent, every metric call made so far is one the
    Prometheus library accepts, the gauge of open streams is the number of heartbeat streams
    whose interceptor is still running, no server has been stopped, and there is a certificate
    reloader exactly when TLS is on. *)
Theorem process_invariant p y :
  sys_reachable p y ->
  reachable (sys_world y)
  /\ series_value RegisteredNodes [] (w_trace (sys_world y)) = Z.of_nat (size (w_nodes (sys_world y)))
  /\ cache_ok (sys_world y) /\ trace_ok (sys_world y) /\ calls (sys_world y) = []
  /\ series_value grpcActiveStreams ["compute.v1.AgentService.Heartbeat"] (w_trace (sys_world y))
     = Z.of_nat (length (filter (fun st => ss_open st = true) (sys_streams y)))
  /\ (is_Some (sys_reloader y) <-> p_tlsEnabled p = true).
Proof.
  intros Hy. pose proof (sys_reachable_registry p y Hy) as Hreg. split; [done|].
  split; [by apply reachable_ok in Hreg as []|].
  by destruct (sys_reachable_ok p y Hy) as [[[Hc Ht] [Hcalls Ha]] _ Hr].
Qed.

(** ** A node that reconnects *)
Lemma sys_reachable_rtc p y y' : sys_reachable p y -> rtc (sys_step p) y y' -> sys_reachable p y'.
Proof. intros (y0 & Hs & Hy) Hrtc. exists y0. split; [done|]. by etrans. Qed.

(** A stretch of a stream that nothing interferes with, in the process. *)
Lemma hb_run_sys p inputs j st hb w w' sts r :
  sts !! j = Some st -> hb_run (p_agent p) (ss_ctx st) (ss_hb st) inputs w = Some (hb, w') ->
  rtc (sys_step p) (mkSystem w sts r) (mkSystem w' (<[j := set_hb st hb]> sts) r).
Proof.
  revert st w sts. induction inputs as [|i inputs IH]; intros st w sts Hj; simpl.
  - intros [= <- <-]. rewrite list_insert_id; [done|]. by destruct st.
  - destruct (hb_step (p_agent p) (ss_ctx st) (ss_hb st) i) as [m|] eqn:Hs; [|done].
    destruct (m w) as [[hb1|] w1] eqn:Hr; [|done]. intros Hrun.
    eapply rtc_l; [eexists; by eapply sys_stream|].
    rewrite <- (list_insert_insert_eq sts j (set_hb st hb) (set_hb st hb1)).
    change (set_hb st hb) with (set_hb (set_hb st hb1) hb).
    apply IH; [|exact Hrun]. apply list_lookup_insert_eq. by eapply lookup_lt_Some.
Qed.

(** A registration with the credentials, in the process. *)
Lemma register_sys p ctx req res w sts r :
  cache_ok w -> bearer_accepted ctx (agentToken (p_agent p)) ->
  request_valid Method_Register req -> RegisterRequest_Resources req = Some res ->
  exists w' now, sys_step p (mkSystem w sts r) (mkSystem w' sts r)
  /\ w_nodes w' = <[RegisterRequest_NodeId req :=
       mkNodeInfo (RegisterRequest_NodeId req) (RegisterRequest_Address req) (Some res) now ∅
         (next_conn (w_nodes w !! RegisterRequest_NodeId req))]> (w_nodes w).
Proof.
  intros Hc Ha Hv Hres.
  destruct (guarded_run (p_agent p) Method_Register ctx req (next_tick w) I) as (_ & _ & Hok & _).
  destruct (Hok Ha Hv) as (now & w1 & Hg & Hn); [simpl; congruence|].
  destruct (call_run _ Chain_two (p_agent p) Method_Register ctx req w _ _ _ Hc Hg) as (Hval & Hnodes & _).
  unfold value, exec in *. match type of Hnodes with w_nodes (?m w).2 = _ => set (run := m) in * end.
  destruct (run w) as [[out|] w'] eqn:Hrun; [|done]. injection Hval as ->. simpl in Hnodes.
  exists w', now. split; [eexists; eapply (sys_unary _ _ p Method_Register ctx (inr req)); [done|exact Hrun]|].
  rewrite Hnodes, Hn. simpl. by rewrite Hres.
Qed.

(** A client opens a stream and sends its first heartbeat. *)
Lemma stream_sys p ctx first n w sts r :
  cache_ok w -> bearer_accepted ctx (agentToken (p_agent p)) -> heartbeat_valid first ->
  w_nodes w !! HeartbeatRequest_NodeId first = Some n ->
  exists w' n' label start, let st := mkServed ctx (mkStream
      (HbRecv (HeartbeatRequest_NodeId first) (ConnectionID n)) TickerRunning [first_ack first])
      label start true in
  rtc (sys_step p) (mkSystem w sts r) (mkSystem w' (sts ++ [st]) r)
  /\ w_nodes w' !! HeartbeatRequest_NodeId first = Some n' /\ ConnectionID n' = ConnectionID n.
Proof.
  intros Hc Ha Hv Hn. destruct (heartbeat_sanitized w Hc) as [known Hs].
  destruct (stream_open AgentService_Heartbeat_FullMethodName w) as [[[label start]|] w1] eqn:Ho.
  2:{ unfold stream_open, mbind, go_bind in Ho. by rewrite Hs in Ho. }
  assert (Hn1 : w_nodes w1 = w_nodes w).
  { pose proof (keeps_frame (stream_open AgentService_Heartbeat_FullMethodName) w
      (fun w0 => open_frame w0 _)) as [Hf _]. by rewrite Ho in Hf. }
  assert (Hauth : checkAuth (p_agent p) ctx = None)
    by (apply (bearer_decides ctx (agentToken (p_agent p)) tt "" (fun _ _ => mret (Some tt, None)) w), Ha).
  destruct (open_run (p_agent p) ctx first w1 Hauth Hv) as (w2 & Hrun & Hsame).
  specialize (Hsame (HeartbeatRequest_NodeId first)). rewrite Hn1, Hn in Hrun, Hsame.
  destruct Hsame as (n' & Hn' & _ & _ & _ & Hcid & _). exists w2, n', label, start. simpl.
  split; [|by split]. eapply rtc_l; [eexists; by apply (sys_open _ _ p ctx)|].
  set (st0 := mkServed ctx hb_open label start true).
  assert (Hj : (sts ++ [st0])%list !! length sts = Some st0) by (by apply list_lookup_middle).
  pose proof (hb_run_sys p _ (length sts) st0 _ w1 w2 _ r Hj Hrun) as Hsys.
  by rewrite insert_app_r_alt, Nat.sub_diag in Hsys by lia.
Qed.

(** A stream whose client is gone ends. *)
Lemma stream_ends_sys p j st id conn t sent w sts r :
  sts !! j = Some st -> ss_hb st = mkStream (HbRecv id conn) t sent ->
  exists w' st', rtc (sys_step p) (mkSystem w sts r) (mkSystem w' (<[j := st']> sts) r)
  /\ w_nodes w' = if decide (ConnectionID <$> w_nodes w !! id = Some conn)
                  then delete id (w_nodes w) else w_nodes w.
Proof.
  intros Hj Hst. destruct (close_run (p_agent p) (ss_ctx st) id conn t sent EOF w) as (w' & Hrun & Hn).
  rewrite <- Hst in Hrun. eexists w', _. split; [by eapply hb_run_sys|done].
Qed.

Lemma sys_cache_ok p y : sys_reachable p y -> cache_ok (sys_world y).
Proof. intros Hy. apply (po_world _ _ (sys_reachable_ok p y Hy)). Qed.

(** C28: the protection of a reconnected node against its old streams fails without any
    passing of time: from every reachable state in which a node is not registered, a client
    with the credentials can bring the process into a state [ya] in which the node is
    absent again but one of its old streams still waits for a message; then the node
    registers again, successfully, and when the old stream ends (in steps of its own only),
    the new registration is deleted. *)
Theorem old_stream_removes_new_node p y0 ctx req res first :
  sys_reachable p y0 -> bearer_accepted ctx (agentToken (p_agent p)) ->
  request_valid Method_Register req -> RegisterRequest_Resources req = Some res ->
  heartbeat_valid first -> HeartbeatRequest_NodeId first = RegisterRequest_NodeId req ->
  let id := RegisterRequest_NodeId req in
  w_nodes (sys_world y0) !! id = None ->
  exists ya yb yc j n,
    rtc (sys_step p) y0 ya /\ w_nodes (sys_world ya) !! id = None
    /\ (exists st, sys_streams ya !! j = Some st /\ hb_at (ss_hb st) = HbRecv id 1)
    /\ sys_step p ya yb /\ sys_streams yb = sys_streams ya
    /\ w_nodes (sys_world yb) !! id = Some n /\ Address n = RegisterRequest_Address req
    /\ rtc (sys_step p) yb yc /\ (exists st, sys_streams yc = <[j := st]> (sys_streams yb))
    /\ w_nodes (sys_world yc) !! id = None.
Proof.
  intros Hy Ha Hv Hres Hf Hid id Hnone. destruct y0 as [w sts r]. simpl in Hnone.
  destruct (register_sys p ctx req res w sts r (sys_cache_ok _ _ Hy) Ha Hv Hres)
    as (w1 & now1 & Hs1 & Hn1). fold id in Hn1. rewrite Hnone in Hn1. simpl in Hn1.
  assert (Hl1 : w_nodes w1 !! id = Some (mkNodeInfo id (RegisterRequest_Address req) (Some res) now1 ∅ 1))
    by (by rewrite Hn1, lookup_insert_eq).
  pose proof (sys_reachable_rtc _ _ _ Hy (rtc_once _ _ Hs1)) as Hy1. unfold id in Hl1; rewrite <- Hid in Hl1.
  destruct (stream_sys p ctx first _ w1 sts r (sys_cache_ok _ _ Hy1) Ha Hf Hl1)
    as (w2 & n2 & lA & tA & Hs2 & Hl2 & Hc2). simpl in Hc2.
  set (stA := mkServed _ _ lA tA true) in Hs2.
  pose proof (sys_reachable_rtc _ _ _ Hy1 Hs2) as Hy2.
  destruct (stream_sys p ctx first n2 w2 (sts ++ [stA]) r (sys_cache_ok _ _ Hy2) Ha Hf Hl2)
    as (w3 & n3 & lB & tB & Hs3 & Hl3 & Hc3). set (stB := mkServed _ _ lB tB true) in Hs3.
  pose proof (sys_reachable_rtc _ _ _ Hy2 Hs3) as Hy3. set (j := length sts).
  assert (HA : ((sts ++ [stA]) ++ [stB])%list !! j = Some stA)
    by (rewrite <- app_assoc; by apply list_lookup_middle).
  destruct (stream_ends_sys p (length (sts ++ [stA])) stB (HeartbeatRequest_NodeId first)
    (ConnectionID n2) TickerRunning [first_ack first] w3 _ r (list_lookup_middle _ [] _ _ eq_refl) eq_refl)
    as (w4 & stB' & Hs4 & Hn4). set (sts4 := <[_ := stB']> _) in Hs4.
  pose proof (sys_reachable_rtc _ _ _ Hy3 Hs4) as Hy4.
  rewrite Hl3 in Hn4. simpl in Hn4. rewrite Hc3, decide_True, Hid in Hn4 by done. fold id in Hn4.
  destruct (register_sys p ctx req res w4 sts4 r (sys_cache_ok _ _ Hy4) Ha Hv Hres)
    as (w5 & now5 & Hs5 & Hn5). fold id in Hn5. rewrite Hn4, lookup_delete_eq in Hn5. simpl in Hn5.
  assert (HA4 : sts4 !! j = Some stA).
  { unfold sts4. rewrite list_lookup_insert_ne; [done|]. unfold j. rewrite length_app. simpl. lia. }
  destruct (stream_ends_sys p j stA (HeartbeatRequest_NodeId first) 1 TickerRunning
    [first_ack first] w5 sts4 r HA4 eq_refl) as (w6 & stA' & Hs6 & Hn6).
  eexists (mkSystem w4 sts4 r), (mkSystem w5 sts4 r), (mkSystem w6 _ r), j, _. simpl.
  split; [by eapply rtc_l; [exact Hs1|]; etrans; [exact Hs2|]; etrans; [exact Hs3|]|].
  split; [rewrite Hn4; apply lookup_delete_eq|].
  split; [exists stA; split; [exact HA4|]; simpl; by rewrite Hid|].
  split; [exact Hs5|]. split; [done|].
  split; [rewrite Hn5; apply lookup_insert_eq|]. split; [done|].
  split; [exact Hs6|]. split; [by eexists|].
  rewrite Hn6, Hid. fold id. rewrite Hn5, lookup_insert_eq. apply lookup_delete_eq.
Qed.
End process.
