(* ===== verification/Shutdown.v ===== *)
(** The main goroutine of [control-plane/cmd/control-plane/main.go] after the start-up, next to the
    rest of the process ([System.v]): signals arrive on a channel of capacity one, hang-ups
    reload the certificates, and the first other signal starts the shutdown, in which
    [grpcServer.GracefulStop] blocks for as long as a stream is open. *)
From S2P Require Import Prelude GoRuntime GoStrings GoTime PbResource PbAgent Grpc World Metrics.
From S2P Require Import Registry RegistrySafety RegistryApi Validator Agent AgentFacts Heartbeat.
From S2P Require Import HeartbeatBounds RestApi TlsReload AgentGrpc MetricsSafety ControlPlane.
From S2P Require Import Server System.
Local Open Scope string_scope.
Local Open Scope Z_scope.

(** [grpc.Server.GracefulStop]: in which states of the streams it returns, and what the server
    still admits, before it is called and after ([true]).  Its documentation: it "stops the
    server from accepting new connections and RPCs and blocks until all the pending RPCs are
    finished". *)
Section graceful.
Context `{!GoEnv, !GrpcLib, !BuildInfo, !ProtoLib, !FileSystem, !LocalZone}.

Definition new_rpc (l : sys_label) : bool :=
  match l with LOpen _ | LUnary _ _ _ => true | _ => false end.
Definition finished (st : served_stream) : Prop := ss_open st = false.
#[export] Instance finished_dec st : Decision (finished st).
Proof. unfold finished. apply _. Defined.

Class GracefulGrpc := {
  stop_returns : list served_stream -> Prop;
  admits : bool -> sys_label -> Prop
}.
Class GracefulLaws `{!GracefulGrpc} : Prop := {
  stop_documented sts : stop_returns sts <-> Forall finished sts;
  admits_serving l : admits false l;
  admits_stopping l : admits true l <-> new_rpc l = false
}.
End graceful.

(** * The daemon *)
Section daemon.
Context `{!GoEnv, !GrpcLib, !BuildInfo, !ProtoLib, !FileSystem, !LocalZone, !GracefulGrpc}.
Variable ChainUnaryInterceptor : list UnaryInterceptor -> UnaryInterceptor.
Variable promhttp_Handler : HandlerFunc.

Record daemon := mkDaemon {
  d_sys : system;
  d_main : main_pc;
  d_sigCh : option Signal              (* what waits in the channel *)
}.

(** Whether [GracefulStop] has been called. *)
Definition draining (pc : main_pc) : bool :=
  match pc with
  | MainGracefulWait | MainShutdown | MainShutdownWait | MainReturned => true
  | _ => false
  end.

(** A step of the main goroutine. *)
Inductive main_goroutine : daemon -> daemon -> Prop :=
  | main_receive y sig :
      main_goroutine (mkDaemon y MainReceive (Some sig)) (mkDaemon y (MainSwitch sig) None)
  | main_switch sig w sts r r' (leave : bool) w' ch :
      on_signal r sig w = (Ret (r', leave), w') ->
      main_goroutine (mkDaemon (mkSystem w sts r) (MainSwitch sig) ch)
        (mkDaemon (mkSystem w' sts r') (if leave then MainGracefulStop else MainReceive) ch)
  | main_stop w sts r w' ch :
      graceful_stop w = (Ret tt, w') ->
      main_goroutine (mkDaemon (mkSystem w sts r) MainGracefulStop ch)
        (mkDaemon (mkSystem w' sts r) MainGracefulWait ch)
  | main_stopped y ch :
      stop_returns (sys_streams y) ->
      main_goroutine (mkDaemon y MainGracefulWait ch) (mkDaemon y MainShutdown ch)
  | main_shutdown w sts r w' ch :
      http_shutdown w = (Ret tt, w') ->
      main_goroutine (mkDaemon (mkSystem w sts r) MainShutdown ch)
        (mkDaemon (mkSystem w' sts r) MainShutdownWait ch)
  | main_returns err w sts r w' ch :           (* with an error when it took too long *)
      main_return err w = (Ret tt, w') ->
      main_goroutine (mkDaemon (mkSystem w sts r) MainShutdownWait ch)
        (mkDaemon (mkSystem w' sts r) MainReturned ch).

(** A step of the rest, as long as the process runs: anything the process does, which reloads
    on a hang-up through the main goroutine only; and a signal. *)
Inductive env_step (p : Process) : daemon -> daemon -> Prop :=
  | env_process l y y' pc ch :
      sys_does ChainUnaryInterceptor promhttp_Handler p l y y' -> l <> LHangup ->
      admits (draining pc) l -> pc <> MainReturned ->
      env_step p (mkDaemon y pc ch) (mkDaemon y' pc ch)
  | env_signal sig y pc ch :
      pc <> MainReturned -> env_step p (mkDaemon y pc ch) (mkDaemon y pc (notify ch sig)).

Definition daemon_step (p : Process) (d d' : daemon) : Prop := main_goroutine d d' \/ env_step p d d'.

(** The start: [main] has started everything, and logs that it is ready. *)
Definition daemon_started (p : Process) (d : daemon) : Prop :=
  exists w sts r, sys_started p (mkSystem w sts r)
  /\ d = mkDaemon (mkSystem (exec (log LInfo "compute-control-plane initialized and ready" []) w)
                     sts r) MainReceive None.
Definition daemon_reachable (p : Process) (d : daemon) : Prop :=
  exists d0, daemon_started p d0 /\ rtc (daemon_step p) d0 d.

(** ** The order of the shutdown *)

(** The servers and goroutines stopped so far, the last one first. *)
Definition stopped (pc : main_pc) : list string :=
  match pc with
  | MainReceive | MainSwitch _ | MainGracefulStop => []
  | MainGracefulWait | MainShutdown => ["grpcServer.GracefulStop"]
  | MainShutdownWait => ["httpServer.Shutdown"; "grpcServer.GracefulStop"]
  | MainReturned =>
      ["cleanupCancel"; "shutdownCancel"; "httpServer.Shutdown"; "grpcServer.GracefulStop"]
  end.

(** The steps of the main goroutine to its return, once it has left the loop. *)
Definition remaining (pc : main_pc) : option nat :=
  match pc with
  | MainReceive | MainSwitch _ => None
  | MainGracefulStop => Some 4%nat
  | MainGracefulWait => Some 3%nat
  | MainShutdown => Some 2%nat
  | MainShutdownWait => Some 1%nat
  | MainReturned => Some 0%nat
  end.

Definition all_finished (d : daemon) : Prop := Forall finished (sys_streams (d_sys d)).

(** Where the main goroutine cannot go on. *)
Definition blocked (d : daemon) : Prop :=
  match d_main d with
  | MainReceive => d_sigCh d = None
  | MainGracefulWait => ~ all_finished d
  | MainReturned => True
  | _ => False
  end.
End daemon.
Arguments mkDaemon {_ _} _ _ _.

(** * Facts *)
Section facts.
Context `{!GoEnv, !GoEnvLaws, !GrpcLib, !GrpcLibLaws, !BuildInfo, !ProtoLib, !ProtoLibLaws}.
Context `{!FileSystem, !LocalZone, !GracefulGrpc, !GracefulLaws}.
Variable ChainUnaryInterceptor : list UnaryInterceptor -> UnaryInterceptor.
Hypothesis Chain_two : forall (a b : UnaryInterceptor) Req Resp ctx (req : Req) full
    (handler : UnaryMethod Req Resp),
  ChainUnaryInterceptor [a; b] Req Resp ctx req full handler =
  a Req Resp ctx req full (fun ctx req => b Req Resp ctx req full handler).
Variable promhttp_Handler : HandlerFunc.
Hypothesis scrape_reads : forall rw r w, (promhttp_Handler rw r w).2 = w.

#[local] Abbreviation sys_does := (sys_does ChainUnaryInterceptor promhttp_Handler).
#[local] Abbreviation env_step := (env_step ChainUnaryInterceptor promhttp_Handler).
#[local] Abbreviation daemon_step := (daemon_step ChainUnaryInterceptor promhttp_Handler).
#[local] Abbreviation daemon_reachable := (daemon_reachable ChainUnaryInterceptor promhttp_Handler).

(** ** The rest of the process stops nothing *)

Lemma kept_calls {A} (m : Go World A) w r w' :
  keeps (fun v => calls v = calls w) m -> m w = (r, w') -> calls w' = calls w.
Proof. intros Hm Hr. specialize (Hm w eq_refl). by rewrite Hr in Hm. Qed.

#[local] Ltac quiet := keeps_world ltac:(simpl; assumption).

Lemma sys_does_calls p l y y' :
  sys_does p l y y' -> calls (sys_world y') = calls (sys_world y).
Proof.
  intros Hst. destruct Hst as [ctx label start w w' sts r Hr|j st i m hb w w' sts r Hj Hs Hr
    |j st err w w' sts r Hj Ha Ho Hr|m ctx dec res w w' sts r Ht Hr|path hd req rw w w' sts r Hp Hr
    |w sts r|rl rl' w w' sts Hr|rl rl' w w' sts Hw Hr|e w sts r]; simpl;
    try (eapply kept_calls; [|exact Hr]).
  - unfold stream_open. apply keeps_bind; [apply (sanitize_trace _)|intros ?]. quiet.
  - by eapply (hb_step_trace _).
  - unfold stream_close, Since. quiet.
  - by apply (serve_unary_trace _ Chain_two _).
  - by eapply (route_keeps _ scrape_reads _).
  - exact (cleanup_keeps (fun v => calls v = calls w) (p_staleThreshold p) [Tick] w eq_refl).
  - apply (signal_trace _).
  - apply (Watch_trace _).
  - done.
Qed.

(** Without new calls, the streams that have ended are those that will be. *)
Lemma sys_does_finished p l y y' :
  sys_does p l y y' -> new_rpc l = false ->
  Forall finished (sys_streams y) -> Forall finished (sys_streams y').
Proof.
  intros Hst Hl Hf. destruct Hst as [|j st i m hb w w' sts r Hj Hs Hr|j st err w w' sts r Hj Ha Ho Hr
    | | | | | |]; simpl in *; try done.
  - apply Forall_insert; [done|]. exact (Forall_lookup_1 _ _ _ _ Hf Hj).
  - by apply Forall_insert.
Qed.

(** ** The invariant *)
Definition daemon_ok (d : daemon) : Prop :=
  calls (sys_world (d_sys d)) = stopped (d_main d)
  /\ match d_main d with
     | MainShutdown | MainShutdownWait | MainReturned => all_finished d
     | _ => True
     end.

Lemma env_step_main p d d' : env_step p d d' -> d_main d' = d_main d.
Proof. by destruct 1. Qed.

Lemma env_step_ok p d d' : env_step p d d' -> daemon_ok d -> daemon_ok d'.
Proof.
  intros Hst [Hc Hf]. destruct Hst as [l y y' pc ch Hdoes _ Hadm _|]; [|by split].
  split; simpl in *; [by rewrite (sys_does_calls _ _ _ _ Hdoes)|].
  destruct pc; try done; apply admits_stopping in Hadm; by eapply sys_does_finished.
Qed.

Lemma main_goroutine_ok d d' : main_goroutine d d' -> daemon_ok d -> daemon_ok d'.
Proof.
  intros Hst [Hc Hf].
  destruct Hst as [y sig|sig w sts r r' leave w' ch Hr|w sts r w' ch Hr|y ch Hs|w sts r w' ch Hr
    |err w sts r w' ch Hr]; simpl in *.
  - by split.
  - pose proof (kept_calls _ _ _ _ (signal_trace (fun v => calls v = calls w) r sig) Hr) as Hk.
    split; simpl; [rewrite Hk; by destruct leave|by destruct leave].
  - injection Hr as <-. split; simpl; [|done]. unfold calls in *. simpl. by rewrite Hc.
  - split; [done|]. by apply stop_documented.
  - injection Hr as <-. split; simpl; [|done]. unfold calls in *. simpl. by rewrite Hc.
  - destruct err; injection Hr as <-; (split; simpl; [|done]); unfold calls in *; simpl; by rewrite Hc.
Qed.

Lemma daemon_started_ok p d : daemon_started p d -> daemon_ok d.
Proof.
  intros (w & sts & r & Hs & ->). split; [|done]. simpl.
  destruct (sys_started_ok p _ Hs) as (_ & [[_ [Hc _]] _ _] & _). exact Hc.
Qed.

Lemma daemon_reachable_ok p d : daemon_reachable p d -> daemon_ok d.
Proof.
  intros (d0 & Hs%daemon_started_ok & Hrtc).
  induction Hrtc as [d|d1 d2 d3 [Hst|Hst] _ IH]; [done|..]; apply IH;
    [by eapply main_goroutine_ok|by eapply env_step_ok].
Qed.

(** ** Where the main goroutine blocks *)
Lemma main_goroutine_blocked d d' : main_goroutine d d' -> ~ blocked d.
Proof.
  destruct 1 as [| | |y ch Hs| |]; unfold blocked; simpl; try done; try tauto.
  intros Hb. by apply Hb, stop_documented.
Qed.

Lemma main_goroutine_ready d : ~ blocked d -> exists d', main_goroutine d d'.
Proof.
  destruct d as [[w sts r] pc ch]. unfold blocked, all_finished. simpl. destruct pc; intros Hb.
  - destruct ch; [|done]. eexists. apply main_receive.
  - destruct (signal_run r sig w) as (r' & w' & Hr & _). eexists. by eapply main_switch.
  - eexists. by eapply main_stop.
  - eexists. apply main_stopped, stop_documented. simpl.
    destruct (decide (Forall finished sts)) as [Hf|Hf]; [exact Hf|by destruct Hb].
  - eexists. by eapply main_shutdown.
  - eexists. eapply (main_returns None). reflexivity.
  - by destruct Hb.
Qed.

(** ** The shutdown can always be completed *)

#[local] Abbreviation finish_step p := (fun y y' =>
  exists l, sys_does p l y y' /\ new_rpc l = false /\ l <> LHangup).

(** A stream's handler returns when its clients' sides are gone. *)
Lemma handler_finishes p j st y :
  sys_streams y !! j = Some st ->
  exists y' st' err, rtc (finish_step p) y y' /\ sys_streams y' = <[j := st']> (sys_streams y)
  /\ hb_at (ss_hb st') = HbDone err /\ ss_open st' = ss_open st.
Proof.
  remember (5 - surplus (hb_at (ss_hb st)))%nat as n eqn:En. revert st y En.
  induction n as [n IH] using lt_wf_ind. intros st [w sts r] En Hj. simpl in Hj.
  destruct (handler_ready (p_agent p) (ss_ctx st) (hb_at (ss_hb st))) as [[err Hd]|(i & h & Hi & Hg & Hh)].
  { exists (mkSystem w sts r), st, err. split; [done|]. simpl. by rewrite list_insert_id. }
  assert (exists m, hb_step (p_agent p) (ss_ctx st) (ss_hb st) i = Some m) as [m Hm]
    by (destruct i; try done; simpl; rewrite Hh; by eexists).
  destruct (hb_step_run _ _ _ _ _ w Hm) as (hb & w1 & Hr & _).
  pose proof (hb_step_handler _ _ _ _ _ _ _ _ Hm Hr) as Hnext. rewrite Hi in Hnext.
  destruct Hnext as (h' & w2 & Hh' & Hr').
  destruct (surplus_step _ _ _ _ _ _ _ _ Hh' Hr') as (Hsur & _). rewrite Hg in Hsur. simpl in Hsur.
  assert (surplus (hb_at hb) <= 5)%nat by (destruct (hb_at hb); simpl; lia).
  assert (Hj1 : <[j := set_hb st hb]> sts !! j = Some (set_hb st hb))
    by (apply list_lookup_insert_eq; by eapply lookup_lt_Some).
  destruct (IH (5 - surplus (hb_at hb))%nat ltac:(lia) (set_hb st hb)
    (mkSystem w1 (<[j := set_hb st hb]> sts) r) eq_refl Hj1) as (y' & st' & err & Hrtc & Hs & Hd & Ho).
  exists y', st', err. split; [|by rewrite Hs; simpl; rewrite list_insert_insert_eq].
  eapply rtc_l; [|exact Hrtc]. exists (LStream j i). split; [by eapply sys_stream|done].
Qed.

Lemma stream_finishes p j st y :
  sys_streams y !! j = Some st -> ss_open st = true ->
  exists y' st', rtc (finish_step p) y y' /\ sys_streams y' = <[j := st']> (sys_streams y)
  /\ ss_open st' = false.
Proof.
  intros Hj Ho. destruct (handler_finishes p j st y Hj) as ([w sts r] & st' & err & Hrtc & Hs & Hd & Ho').
  simpl in Hs. subst sts. set (sts := <[j := st']> (sys_streams y)) in *.
  assert (Hj' : sts !! j = Some st') by (apply list_lookup_insert_eq; by eapply lookup_lt_Some).
  destruct (stream_close (ss_label st') (ss_start st') err w) as [[[]|f args] w1] eqn:Hr.
  2:{ unfold stream_close, Since, go_defer, mbind, go_bind in Hr. by simpl in Hr. }
  exists (mkSystem w1 (<[j := set_closed st']> sts) r), (set_closed st').
  split; [|by unfold sts; simpl; rewrite list_insert_insert_eq].
  eapply rtc_r; [exact Hrtc|]. exists (LClose j).
  split; [eapply sys_close; [exact Hj'|exact Hd|by rewrite Ho'|exact Hr]|done].
Qed.

Lemma all_finish p y :
  exists y', rtc (finish_step p) y y' /\ Forall finished (sys_streams y').
Proof.
  remember (open_streams (sys_streams y)) as z eqn:Ez.
  assert (exists n, z = Z.of_nat n) as [n ->] by (rewrite Ez; by eexists).
  revert y Ez. induction n as [|n IH]; intros y Ez;
    (destruct (decide (Forall finished (sys_streams y))) as [Hf|Hf]; [by exists y|]);
    apply not_Forall_Exists, Exists_exists in Hf as (st & [j Hj]%list_elem_of_lookup & Ho);
    try apply _; apply not_false_is_true in Ho;
    destruct (stream_finishes p j st y Hj Ho) as (y1 & st' & Hrtc & Hs & Ho');
    pose proof (open_insert _ _ _ st' Hj) as Hopen; rewrite <- Hs, Ho, Ho', <- Ez in Hopen;
    [unfold open_streams in Hopen; lia|].
  destruct (IH y1) as (y' & Hrtc' & Hf); [lia|]. exists y'. split; [by etrans|exact Hf].
Qed.

Lemma finish_env p y y' pc ch :
  pc <> MainReturned -> rtc (finish_step p) y y' ->
  rtc (daemon_step p) (mkDaemon y pc ch) (mkDaemon y' pc ch).
Proof.
  intros Hpc. induction 1 as [y|y1 y2 y3 (l & Hst & Hnew & Hl) _ IH]; [done|].
  eapply rtc_l; [|exact IH]. right. eapply env_process; try done.
  destruct (draining pc); [by apply admits_stopping|apply admits_serving].
Qed.

(** One step of the main goroutine, once it has left the loop. *)
Lemma main_goroutine_remaining d d' n :
  main_goroutine d d' -> remaining (d_main d) = Some n ->
  exists m, n = S m /\ remaining (d_main d') = Some m.
Proof. destruct 1; simpl; try done; intros [= <-]; by eexists. Qed.

Lemma main_goes_on p n d :
  remaining (d_main d) = Some n ->
  exists d', rtc (daemon_step p) d d' /\ d_main d' = MainReturned.
Proof.
  revert d. induction n as [|n IH]; intros d Hn.
  { exists d. split; [done|]. by destruct (d_main d). }
  assert (exists d1, rtc (daemon_step p) d d1 /\ d_main d1 = d_main d /\ ~ blocked d1)
    as ([y pc ch] & Hrtc & Hpc & Hb).
  { destruct d as [y pc ch]. destruct (all_finish p y) as (y' & Hrtc & Hf).
    exists (mkDaemon y' pc ch). split; [apply finish_env; [by intros ->|exact Hrtc]|].
    split; [done|]. unfold blocked, all_finished. simpl in *. destruct pc; try done; tauto. }
  destruct (main_goroutine_ready _ Hb) as [d2 Hst].
  destruct (main_goroutine_remaining _ _ (S n) Hst) as (m & [= <-] & Hm); [by rewrite Hpc|].
  destruct (IH d2 Hm) as (d' & Hrtc' & Hend). exists d'. split; [|exact Hend].
  etrans; [exact Hrtc|]. eapply rtc_l; [by left|exact Hrtc'].
Qed.

(** * Properties *)

(** C31: the end of the daemon, in every state it can get into, whatever clients do and whichever
    signals arrive when.

    The order: until the main goroutine has left its loop nothing has been stopped; then the gRPC
    server is, then, with every stream ended, the HTTP server, and the cleanup at the
    return.  So it has not passed [GracefulStop] while a stream is open.

    Where it blocks: exactly while no signal waits, in [GracefulStop] as long as a stream is
    open, and when it has returned.

    Leaving the loop: exactly by a signal that is not a hang-up.  After that no step of the
    rest, so no further signal, moves it; the steps it takes itself lead to the return in
    the number of [remaining]; and the return can be reached from every such state, the
    clients ending their streams. *)
Theorem main_shuts_down_in_order p d :
  daemon_reachable p d ->
  calls (sys_world (d_sys d)) = stopped (d_main d)
  /\ (d_main d = MainShutdown \/ d_main d = MainShutdownWait \/ d_main d = MainReturned ->
      Forall (fun st => ss_open st = false) (sys_streams (d_sys d)))
  /\ ((exists d', main_goroutine d d') <-> ~ blocked d)
  /\ (forall sig d', d_main d = MainSwitch sig -> main_goroutine d d' ->
      d_main d' = if decide (sig = SIGHUP) then MainReceive else MainGracefulStop)
  /\ (forall d', env_step p d d' -> d_main d' = d_main d)
  /\ (forall n, remaining (d_main d) = Some n ->
      (forall d', main_goroutine d d' -> exists m, n = S m /\ remaining (d_main d') = Some m)
      /\ exists d', rtc (daemon_step p) d d' /\ d_main d' = MainReturned).
Proof.
  intros Hd. destruct (daemon_reachable_ok p d Hd) as [Hc Hf].
  split; [exact Hc|]. split; [by intros [Hm|[Hm|Hm]]; rewrite Hm in Hf|].
  split; [split; [intros [d' Hst]; by eapply main_goroutine_blocked|apply main_goroutine_ready]|].
  split; [|split; [intros d'; apply env_step_main|]].
  - intros sig d' Hm Hst. destruct Hst as [|sig' w sts r r' leave w' ch Hr| | | |]; try done.
    simpl in Hm. injection Hm as ->. destruct (signal_run r sig w) as (r1 & w1 & Hr1 & _).
    rewrite Hr1 in Hr. injection Hr as _ <- _. simpl. by destruct sig.
  - intros n Hn. split; [intros d' Hst; by eapply main_goroutine_remaining|by eapply main_goes_on].
Qed.

(** A termination signal that arrives while a hang-up waits in the channel is lost: the main
    goroutine handles the hang-up, and waits for a signal again, with nothing stopped. *)
Theorem termination_signal_lost p d :
  daemon_reachable p d -> d_main d = MainReceive -> d_sigCh d = None ->
  exists d1 d2 d', env_step p d d1 /\ d_sigCh d1 = Some SIGHUP
  /\ d2 = mkDaemon (d_sys d1) (d_main d1) (notify (d_sigCh d1) SIGTERM) /\ env_step p d1 d2
  /\ rtc main_goroutine d2 d' /\ d_main d' = MainReceive /\ blocked d'
  /\ calls (sys_world (d_sys d')) = [].
Proof.
  intros Hd Hm Hch. pose proof (daemon_reachable_ok p d Hd) as Hok.
  destruct d as [[w sts r] pc ch]. simpl in Hm, Hch. subst pc ch.
  destruct (signal_run r SIGHUP w) as (r' & w' & Hr & _). rewrite bool_decide_false in Hr by tauto.
  set (d2 := mkDaemon (mkSystem w sts r) MainReceive (Some SIGHUP)).
  assert (Hrun : rtc main_goroutine d2 (mkDaemon (mkSystem w' sts r') MainReceive None)).
  { eapply rtc_l; [apply main_receive|]. apply rtc_once. exact (main_switch _ _ _ _ _ _ _ _ Hr). }
  exists d2, d2, (mkDaemon (mkSystem w' sts r') MainReceive None).
  split; [exact (env_signal _ _ p SIGHUP _ MainReceive None ltac:(done))|]. split; [done|]. split; [done|].
  split; [exact (env_signal _ _ p SIGTERM _ MainReceive (Some SIGHUP) ltac:(done))|].
  split; [exact Hrun|]. split; [done|]. split; [done|].
  assert (Hkeep : forall d d', rtc main_goroutine d d' -> daemon_ok d -> daemon_ok d')
    by (induction 1; eauto using main_goroutine_ok).
  by apply (Hkeep _ _ Hrun).
Qed.
End facts.
