(* ===== verification/Leases.v ===== *)
(** What the control plane promises about membership, as a machine of its own: a table of
    leases that registrations grant, heartbeats renew, ends of streams return and the cleanup
    lets expire after 30 seconds.  The whole process ([System.v]) implements it: every run of
    the process is a run of the lease table, a step being at most one event; registrations,
    renewals and returns are steps of callers who have the credentials. *)
From S2P Require Import Prelude GoRuntime GoStrings GoTime PbResource PbAgent Grpc World Metrics.
From S2P Require Import Registry RegistrySafety RegistryApi Validator Agent AgentFacts Heartbeat.
From S2P Require Import RestApi TlsReload AgentGrpc MetricsSafety FailureDetector ControlPlane Server System.
From Stdlib Require Import Sorting.Sorted.
Local Open Scope string_scope.
Local Open Scope Z_scope.

#[local] Opaque NodeRegistry_Register NodeRegistry_UpdateHeartbeat NodeRegistry_GetAll
  NodeRegistry_Remove NodeRegistry_RemoveIfConnectionMatches cleanup_tick.

(** * The lease table *)
Record Lease := mkLease {
  ls_address : string;
  ls_resources : option NodeResources;
  ls_connection : Z;
  ls_renewed : Z                        (* nanoseconds of the monotonic clock *)
}.

Inductive lease_event : Type :=
  | Join (id addr : string) (res : NodeResources)
  | Renew (id : string)
  | Leave (id : string) (connection : Z)
  | Expire.

Definition lease_duration : Z := 30000000000.

Definition next_connection (old : option Lease) : Z :=
  match old with Some l => (ls_connection l + 1) mod 2 ^ 64 | None => 1 end.
Definition renew (now : Z) (l : Lease) : Lease :=
  mkLease (ls_address l) (ls_resources l) (ls_connection l) now.

(** The table after an event at a time. *)
Definition lease_step (t : gmap string Lease) (e : Z * lease_event) : gmap string Lease :=
  let now := e.1 in
  match e.2 with
  | Join id addr res => <[id := mkLease addr (Some res) (next_connection (t !! id)) now]> t
  | Renew id => alter (renew now) id t
  | Leave id connection =>
      if decide (ls_connection <$> t !! id = Some connection) then delete id t else t
  | Expire => filter (fun x => now <= ls_renewed x.2 + lease_duration) t
  end.

(** What the registry holds, as leases. *)
Definition lease_of (n : NodeInfo) : Lease :=
  mkLease (Address n) (Resources n) (ConnectionID n) (t_mono (LastBeat n)).
Definition leases (w : World) : gmap string Lease := lease_of <$> w_nodes w.

(** The event a call of the registry is. *)
Definition event_of (o : reg_op) : option lease_event :=
  match o with
  | ORegister id addr (Some r) => Some (Join id addr r)
  | OHeartbeat id _ _ => Some (Renew id)
  | ORemoveIf id conn => Some (Leave id conn)
  | OCleanup _ => Some Expire
  | _ => None
  end.

(** * Calls and events *)
Section calls.
Context `{!GoEnv, !GoEnvLaws, !ProtoLib}.

(** The events of a run, at the times its calls start. *)
Definition log_of (es : list (World * reg_op)) : list (Z * lease_event) :=
  omap (fun c => (fun e => (clock c.1, e)) <$> event_of c.2) es.

(** A call the process makes: the explicit removal is not among them. *)
Definition process_call (o : reg_op) : Prop :=
  match o with
  | ORegister _ _ res => is_Some res
  | ORemove _ => False
  | OCleanup threshold => threshold = lease_duration
  | _ => True
  end.

Definition beats_i64 (w : World) : Prop :=
  map_Forall (fun _ n => is_i64 (t_mono (LastBeat n))) (w_nodes w).

Lemma op_beats_i64 o w : beats_i64 w -> beats_i64 (exec (run_op o) w).
Proof.
  intros Hw. destruct o as [id addr [r|]|id util tasks| |id|id c|id|th]; try done.
  - simpl. unfold exec, beats_i64. rewrite Register_run. simpl.
    apply map_Forall_insert_2; [apply now_at_i64|done].
  - simpl. unfold exec, beats_i64. destruct (UpdateHeartbeat_run id util tasks w) as (tick & ->). simpl.
    intros k n. rewrite lookup_alter. case_decide as Hk; [|apply Hw].
    subst. destruct (w_nodes w !! k); [|done]. intros [= <-]. apply now_at_i64.
  - simpl. unfold exec, beats_i64. rewrite Remove_run. by apply map_Forall_delete.
  - simpl. unfold exec. rewrite RemoveIf_run. simpl. case_decide; [by apply map_Forall_delete|done].
  - simpl. unfold exec, beats_i64. destruct (cleanup_tick_run th w) as (w' & -> & Hn & _). simpl.
    rewrite Hn. intros k n Hk. apply map_lookup_filter_Some in Hk as [Hk _]. by apply (Hw k).
Qed.

(** A call does to the leases what its event does to the table. *)
Lemma op_lease o w :
  beats_i64 w -> process_call o ->
  leases (exec (run_op o) w) =
  match event_of o with Some e => lease_step (leases w) (clock w, e) | None => leases w end.
Proof.
  intros Hw Ho. unfold leases. destruct o as [id addr [r|]|id util tasks| |id|id c|id|th]; try done;
    simpl in Ho |- *; unfold exec, lease_step; simpl.
  - rewrite Register_run. simpl. rewrite fmap_insert. unfold next_connection.
    rewrite lookup_fmap. f_equal. unfold lease_of at 1. simpl. f_equal. by destruct (w_nodes w !! id).
  - destruct (UpdateHeartbeat_run id util tasks w) as (tick & ->). simpl.
    by apply fmap_alter.
  - rewrite RemoveIf_run. simpl. rewrite lookup_fmap.
    destruct (w_nodes w !! id) as [n|]; simpl; repeat case_decide; simpl; try congruence; by rewrite ?fmap_delete.
  - subst th. destruct (cleanup_tick_run lease_duration w) as (w' & -> & Hn & _). simpl. rewrite Hn.
    apply map_eq. intros k. rewrite lookup_fmap. unfold fresh_nodes.
    rewrite !map_lookup_filter, lookup_fmap.
    destruct (w_nodes w !! k) as [n|] eqn:E; [|done]. simpl.
    assert (Hs : stale (now_at (w_tick w)) lease_duration (k, n)
                 <-> t_mono (LastBeat n) + lease_duration < clock w)
      by (apply stale_clock; [by apply (Hw k)|by vm_compute]).
    destruct (decide (stale (now_at (w_tick w)) lease_duration (k, n))) as [Hst|Hst].
    + rewrite !option_guard_False; [done| |tauto]. rewrite Hs in Hst. simpl. lia.
    + rewrite !option_guard_True; [done| |done]. rewrite Hs in Hst. simpl. lia.
Qed.

(** A run of calls is a run of the table. *)
Lemma timed_leases w es w' :
  timed_run w es w' -> beats_i64 w -> Forall (fun c => process_call c.2) es ->
  beats_i64 w' /\ leases w' = foldl lease_step (leases w) (log_of es).
Proof.
  induction 1 as [w|w o es w' _ IH|w w1 es w' [Hf _] _ _ IH]; intros Hw Hes; [done| |].
  - apply Forall_cons in Hes as [Ho Hes]. destruct (IH (op_beats_i64 o w Hw) Hes) as [Hw' ->].
    split; [done|]. rewrite (op_lease o w Hw Ho). simpl in *. by destruct (event_of o).
  - unfold beats_i64, leases in *. rewrite <- Hf in Hw |- *. by apply IH.
Qed.

Lemma timed_app w es w1 es' w' : timed_run w es w1 -> timed_run w1 es' w' -> timed_run w (es ++ es') w'.
Proof. induction 1; simpl; [done|intros; apply timed_op; auto|intros; eapply timed_frame; eauto]. Qed.

(** Times do not go back, and are not in the future. *)
Lemma log_elem es e : e ∈ log_of es -> exists v o, (v, o) ∈ es /\ e.1 = clock v /\ event_of o = Some e.2.
Proof.
  unfold log_of. rewrite list_elem_of_omap. intros ([v o] & Hin & He). exists v, o.
  split; [done|]. simpl in He. destruct (event_of o); [|done]. by injection He as <-.
Qed.

Lemma timed_clock w es w' v o : timed_run w es w' -> (v, o) ∈ es -> clock v <= clock w'.
Proof.
  induction 1 as [w|w o' es w' Hr IH|w w1 es w' _ _ _ IH]; intros Hin.
  - by apply not_elem_of_nil in Hin.
  - apply elem_of_cons in Hin as [[= -> ->]|Hin]; [|by apply IH].
    apply clock_mono. etrans; [apply (op_tick o')|by eapply timed_tick].
  - by apply IH.
Qed.

Lemma timed_sorted w es w' : timed_run w es w' -> Sorted Z.le (log_of es).*1.
Proof.
  intros Hr. apply StronglySorted_Sorted. induction Hr as [w|w o es w' Hr IH|w w1 es w' _ _ _ IH]; [constructor| |done].
  unfold log_of. simpl. fold (log_of es). destruct (event_of o) as [e|]; simpl; [|done].
  constructor; [done|]. apply Forall_fmap, Forall_forall. intros x Hx.
  apply log_elem in Hx as (v & o' & Hin & Ht & _). simpl. unfold compose. rewrite Ht. apply clock_mono.
  etrans; [apply (op_tick o)|by eapply timed_start].
Qed.
End calls.

(** * The process makes such runs *)

(** The calls the sources make: with a caller who has the credentials, valid fields; reading;
    the cleanup. *)
Definition authorized `{!GrpcLib} (token : string) (o : reg_op) : Prop :=
  let credentials := exists ctx, bearer_accepted ctx token in
  match o with
  | ORegister id addr res => credentials /\ safe_id 255 id /\ plain_text 512 addr /\ is_Some res
  | OHeartbeat id _ tasks => credentials /\ safe_id 255 id /\ Z.of_nat (length tasks) <= 10000
  | ORemoveIf id _ => credentials /\ safe_id 255 id
  | ORemove _ => False
  | OCleanup threshold => threshold = lease_duration
  | OGetAll | OConnectionID _ => True
  end.

(** The event a step of a stream is for, where its handler is: a message that has been
    checked renews its node's lease, a stream that has ended returns it. *)
Definition stream_event (pc : hb_pc) (i : hb_input) : option lease_event :=
  match pc, i with
  | HbUpdateFirst m _, IStep | HbUpdate _ _ m, IStep => Some (Renew (HeartbeatRequest_NodeId m))
  | HbRemove id conn _, IStep => Some (Leave id conn)
  | _, _ => None
  end.
Definition event_id (e : lease_event) : option string :=
  match e with Join id _ _ | Renew id | Leave id _ => Some id | Expire => None end.

(** ** Which step is which event

    A step of the process is at most one event of the table, and this says which.  The caller
    of an event is that of its step: the context of the call, or of the stream. *)
Section events.
Context `{!GoEnv, !GrpcLib, !FileSystem}.

Inductive causes (token : string) (y : system)
    : sys_label -> option lease_event -> Prop :=
  | cause_join ctx req res :
      bearer_accepted ctx token -> request_valid Method_Register req ->
      RegisterRequest_Resources req = Some res ->
      causes token y (LUnary Method_Register ctx (inr req))
        (Some (Join (RegisterRequest_NodeId req) (RegisterRequest_Address req) res))
  | cause_refused ctx req :
      ~ (bearer_accepted ctx token /\ request_valid Method_Register req) ->
      causes token y (LUnary Method_Register ctx (inr req)) None
  | cause_undecoded ctx err : causes token y (LUnary Method_Register ctx (inl err)) None
  | cause_other_call m ctx dec : m <> Method_Register -> causes token y (LUnary m ctx dec) None
  | cause_stream j st i :
      sys_streams y !! j = Some st ->
      (forall e id, stream_event (hb_at (ss_hb st)) i = Some e -> event_id e = Some id ->
         bearer_accepted (ss_ctx st) token /\ safe_id 255 id) ->
      causes token y (LStream j i) (stream_event (hb_at (ss_hb st)) i)
  | cause_expire : causes token y LCleanup (Some Expire)
  | cause_nothing l :
      match l with LUnary _ _ _ | LStream _ _ | LCleanup => False | _ => True end ->
      causes token y l None.
End events.

Section runs.
Context `{!GoEnv, !GoEnvLaws, !GrpcLib, !BuildInfo, !ProtoLib, !ProtoLibLaws}.

(** A run of calls that the sources make, with its events. *)
Definition authorized_run (token : string) (evs : list lease_event) (w w' : World) : Prop :=
  exists es, timed_run w es w' /\ Forall (fun c => authorized token c.2) es
  /\ (log_of es).*2 = evs.

Lemma log_app es es' : log_of (es ++ es') = (log_of es ++ log_of es')%list.
Proof. apply omap_app. Qed.

Lemma run_app token evs evs' w w1 w' :
  authorized_run token evs w w1 -> authorized_run token evs' w1 w' ->
  authorized_run token (evs ++ evs') w w'.
Proof.
  intros (es & Hr & Hes & <-) (es' & Hr' & Hes' & <-). exists (es ++ es')%list.
  split; [by eapply timed_app|]. split; [by apply Forall_app|]. by rewrite log_app, fmap_app.
Qed.

Lemma run_quiet token w w' : frame w w' -> (w_tick w <= w_tick w')%nat -> authorized_run token [] w w'.
Proof. intros Hf Ht. exists []. split; [|done]. eapply timed_frame; [done..|constructor]. Qed.

Lemma run_refl token w : authorized_run token [] w w.
Proof. by apply run_quiet; [apply frame_refl|]. Qed.

Lemma run_call token o w :
  authorized token o -> authorized_run token (option_list (event_of o)) w (exec (run_op o) w).
Proof.
  intros Ho. exists [(w, o)]. split; [apply timed_op; constructor|]. split; [by constructor|].
  unfold log_of. simpl. by destruct (event_of o).
Qed.

(** A computation that is neither a call nor time running backwards. *)
Lemma run_keeps token {A} (m : Go World A) w r w' :
  (forall w0, keeps (frame w0) m) -> (forall n, keeps (fun v => (n <= w_tick v)%nat) m) ->
  m w = (r, w') -> authorized_run token [] w w'.
Proof.
  intros Hf Ht Hr. rewrite (run_exec _ _ _ _ Hr). apply run_quiet; [by apply keeps_frame|].
  by apply (Ht (w_tick w) w).
Qed.

(** ** Heartbeat streams *)

(** What a stream has established where it is. *)
Definition pc_entitled (s : AgentServer) (ctx : Ctx) (pc : hb_pc) : Prop :=
  let authenticated := bearer_accepted ctx (agentToken s) in
  match pc with
  | HbAuth | HbDone _ => True
  | HbRecvFirst => authenticated
  | HbConnID m | HbUpdateFirst m _ | HbSendFirst m _ => authenticated /\ heartbeat_valid m
  | HbRecv id _ | HbRemove id _ _ => authenticated /\ safe_id 255 id
  | HbUpdate id _ m => authenticated /\ safe_id 255 id /\ heartbeat_valid m
  end.

Lemma checkAuth_accepted s ctx : checkAuth s ctx = None -> bearer_accepted ctx (agentToken s).
Proof.
  intros Hc. by apply (bearer_decides ctx (agentToken s) tt "" (fun _ _ => mret (Some tt, None))
    (mkWorld ∅ ∅ [] 0)).
Qed.

Lemma checks_valid ctx line m w w' :
  validateAll ctx "Heartbeat" (heartbeat_checks line m) w = (Ret None, w') -> heartbeat_valid m.
Proof.
  intros Hr. destruct (heartbeat_checks_run ctx line m w) as [(Hv & _)|(_ & e & w1 & Hr' & _)]; [done|].
  by rewrite Hr in Hr'.
Qed.

Lemma handler_entitled s ctx pc i m w pc' w' :
  pc_entitled s ctx pc -> hb_handler s ctx pc i = Some m -> m w = (Ret pc', w') ->
  pc_entitled s ctx pc'.
Proof.
  intros He Hm Hr. destruct pc as [| |first|first conn|first conn|id conn|id conn req|id conn err|err],
    i as [|[r|e]|err'|err'|]; simpl in Hm; try discriminate; injection Hm as <-; simpl in He.
  - injection Hr as <- _. destruct (checkAuth s ctx) eqn:Hc; [done|]. by apply checkAuth_accepted.
  - apply bind_Ret in Hr as (err & w1 & Hv & [= <- _]). destruct err; [done|]. by apply checks_valid in Hv.
  - injection Hr as <- _. by case_decide.
  - apply bind_Ret in Hr as (c & w1 & _ & Hr). by apply bind_Ret in Hr as (? & ? & _ & [= <- _]).
  - by apply bind_Ret in Hr as (? & w1 & _ & [= <- _]).
  - destruct err' as [e|]; [by apply bind_Ret in Hr as (? & w1 & _ & [= <- _])|injection Hr as <- _].
    by destruct He as [? [? _]].
  - apply bind_Ret in Hr as (err & w1 & Hv & [= <- _]). destruct err; [done|].
    apply checks_valid in Hv. simpl. tauto.
  - case_decide; by apply bind_Ret in Hr as (? & w1 & _ & [= <- _]).
  - apply bind_Ret in Hr as (? & w1 & _ & Hr). apply bind_Ret in Hr as (? & ? & _ & [= <- _]).
    simpl. tauto.
  - by apply bind_Ret in Hr as (? & w1 & _ & [= <- _]).
Qed.

(** The registry's call, between log lines. *)
Lemma run_call_then token o w a w1 w' :
  authorized token o -> run_op o w = (Ret a, w1) -> frame w1 w' -> (w_tick w1 <= w_tick w')%nat ->
  authorized_run token (option_list (event_of o)) w w'.
Proof.
  intros Ho Hr Hf Ht. rewrite <- (app_nil_r (option_list _)).
  eapply run_app; [by apply run_call|]. rewrite (op_exec _ _ _ _ Hr). by apply run_quiet.
Qed.

(** What a stream does to a lease it is entitled to. *)
Lemma entitled_event s ctx pc i e id :
  pc_entitled s ctx pc -> stream_event pc i = Some e -> event_id e = Some id ->
  bearer_accepted ctx (agentToken s) /\ safe_id 255 id.
Proof.
  intros He Hev Hid. destruct pc, i; simpl in *; try done; injection Hev as <-; injection Hid as <-;
    unfold heartbeat_valid in He; tauto.
Qed.

Lemma handler_run s ctx pc i m w pc' w' :
  pc_entitled s ctx pc -> hb_handler s ctx pc i = Some m -> m w = (Ret pc', w') ->
  authorized_run (agentToken s) (option_list (stream_event pc i)) w w'.
Proof.
  intros He Hm Hr.
  assert (Ht : (w_tick w <= w_tick w')%nat).
  { pose proof (handler_step_trace (fun v => (w_tick w <= w_tick v)%nat) _ _ _ _ _ Hm w (le_n _)) as Ht.
    by rewrite Hr in Ht. }
  destruct pc as [| |first|first conn|first conn|id conn|id conn req|id conn err|err],
    i as [|[r|e]|err'|err'|]; simpl in Hm; try discriminate; injection Hm as <-; simpl in He.
  - injection Hr as _ <-. apply run_refl.
  - apply bind_Ret in Hr as (err & w1 & Hv & [= _ <-]). apply run_quiet; [by eapply checks_frame|done].
  - injection Hr as _ <-. apply run_refl.
  - apply bind_Ret in Hr as (c & w1 & [= _ <-] & Hr). apply bind_Ret in Hr as (? & ? & [= _ <-] & [= _ <-]).
    by apply run_quiet; [apply frame_log|].
  - apply bind_Ret in Hr as (c & w1 & Hu & [= _ <-]).
    eapply (run_call_then _ (OHeartbeat (HeartbeatRequest_NodeId first)
      (HeartbeatRequest_Utilization first) (HeartbeatRequest_Tasks first)));
      [|exact Hu|apply frame_refl|done].
    destruct He as [Ha [Hid Hn]]. split; [by exists ctx|by split].
  - destruct err' as [e|].
    + apply bind_Ret in Hr as (? & w1 & [= _ <-] & [= _ <-]). by apply run_quiet; [apply frame_log|].
    + injection Hr as _ <-. apply run_refl.
  - apply bind_Ret in Hr as (err & w1 & Hv & [= _ <-]). apply run_quiet; [by eapply checks_frame|done].
  - case_decide; apply bind_Ret in Hr as (? & w1 & [= _ <-] & [= _ <-]);
      by apply run_quiet; [apply frame_log|].
  - apply bind_Ret in Hr as (c & w1 & Hu & Hr). apply bind_Ret in Hr as (? & ? & [= _ <-] & [= _ <-]).
    eapply (run_call_then _ (OHeartbeat (HeartbeatRequest_NodeId req)
      (HeartbeatRequest_Utilization req) (HeartbeatRequest_Tasks req)));
      [|exact Hu|apply frame_log|done].
    destruct He as [Ha [_ [Hid Hn]]]. split; [by exists ctx|by split].
  - apply bind_Ret in Hr as (c & w1 & Hu & [= _ <-]).
    eapply (run_call_then _ (ORemoveIf id conn)); [|exact Hu|apply frame_refl|done].
    destruct He as [Ha Hid]. split; [by exists ctx|done].
Qed.

Lemma stream_run s ctx st i m w st' w' :
  pc_entitled s ctx (hb_at st) -> hb_step s ctx st i = Some m -> m w = (Ret st', w') ->
  pc_entitled s ctx (hb_at st')
  /\ authorized_run (agentToken s) (option_list (stream_event (hb_at st) i)) w w'.
Proof.
  intros He Hs Hr. destruct i as [|r|err|err|]; simpl in Hs.
  4:{ replace (stream_event _ _) with (None : option lease_event) by (by destruct (hb_at st)).
      destruct (hb_tick st); try done. injection Hs as <-.
      destruct err; [apply bind_Ret in Hr as (? & ? & [= _ <-] & [= <- <-])|injection Hr as <- <-];
        (split; [done|]); [by apply run_quiet; [apply frame_log|]|apply run_refl]. }
  4:{ destruct (hb_tick st); try done. destruct (hb_at st); try done. injection Hs as <-.
      injection Hr as <- <-. split; [exact I|apply run_refl]. }
  all: match type of Hs with match hb_handler ?s ?ctx ?pc ?i with _ => _ end = _ =>
         destruct (hb_handler s ctx pc i) as [h|] eqn:Hh; [|done] end.
  all: injection Hs as <-; apply bind_Ret in Hr as (pc & w1 & Hr & [= <- <-]); split;
    [|by eapply handler_run].
  all: eapply handler_entitled in Hr; [|exact He|exact Hh];
    destruct (hb_at st), pc; exact Hr.
Qed.
End runs.

(** ** The whole process *)
Section process.
Context `{!GoEnv, !GoEnvLaws, !GrpcLib, !GrpcLibLaws, !BuildInfo, !ProtoLib, !ProtoLibLaws}.
Context `{!FileSystem, !LocalZone}.
Variable ChainUnaryInterceptor : list UnaryInterceptor -> UnaryInterceptor.
Hypothesis Chain_two : forall (a b : UnaryInterceptor) Req Resp ctx (req : Req) full
    (handler : UnaryMethod Req Resp),
  ChainUnaryInterceptor [a; b] Req Resp ctx req full handler =
  a Req Resp ctx req full (fun ctx req => b Req Resp ctx req full handler).
Variable promhttp_Handler : HandlerFunc.
Hypothesis scrape_reads : forall rw r w, (promhttp_Handler rw r w).2 = w.

#[local] Abbreviation sys_does := (sys_does ChainUnaryInterceptor promhttp_Handler).
#[local] Abbreviation sys_step := (sys_step ChainUnaryInterceptor promhttp_Handler).
#[local] Abbreviation sys_trace := (sys_trace ChainUnaryInterceptor promhttp_Handler).
#[local] Abbreviation sys_reachable := (sys_reachable ChainUnaryInterceptor promhttp_Handler).

(** A registration: the checks, a log line, the registry's call. *)
Lemma register_run s y ctx req w res w' :
  bearer_accepted ctx (agentToken s) -> AgentServer_Register s ctx req w = (Ret res, w') ->
  exists oe, causes (agentToken s) y (LUnary Method_Register ctx (inr req)) oe
    /\ authorized_run (agentToken s) (option_list oe) w w'.
Proof.
  intros Ha Hr.
  pose proof (Register_trace (fun v => (w_tick w <= w_tick v)%nat) s ctx req w (le_n _)) as Ht.
  rewrite Hr in Ht. simpl in Ht. revert Hr. unfold AgentServer_Register, mbind, go_bind.
  set (l := [("node_id", 213, mret (ValidateNodeID (RegisterRequest_NodeId req)));
     ("address", 214, mret (ValidateAddress (RegisterRequest_Address req)));
     ("agent_version", 215, mret (ValidateVersion (RegisterRequest_AgentVersion req)))]
     : list (string * Z * Go World (option error))).
  change [newCheck (at_line 213) _ _; _; _] with (handler_checks l).
  destruct (validate_handler ctx "Register" l
    [safe_id 255 (RegisterRequest_NodeId req); plain_text 512 (RegisterRequest_Address req);
     plain_text 64 (RegisterRequest_AgentVersion req)] w)
    as [(HF & k & ->)|(HF & err & w1 & -> & Hrej)].
  - repeat constructor; apply check_validator;
      [apply ValidateStringID_ok|apply ValidateAddress_ok|apply ValidateVersion_ok].
  - pose proof HF as Hvalid. apply Forall_cons in HF as [Hid HF]. apply Forall_cons in HF as [Had _].
    unfold log, go_modify. simpl. set (w1 := add_event _ (ticks k w)).
    destruct (RegisterRequest_Resources req) as [r|] eqn:Er; [|done].
    rewrite Register_run. intros [= _ <-].
    eexists. split; [by apply cause_join|]. rewrite <- (app_nil_l (option_list _)).
    eapply run_app; [apply (run_quiet _ w w1)|].
    + eapply frame_trans; [apply frame_ticks|apply frame_log].
    + unfold w1, ticks. simpl. lia.
    + apply (run_call _ (ORegister (RegisterRequest_NodeId req) (RegisterRequest_Address req) (Some r)) w1).
      simpl. split; [by exists ctx|]. split; [exact Hid|]. split; [exact Had|by eexists].
  - intros [= _ <-]. exists None. split; [apply cause_refused; intros [_ Hv]; by apply HF|].
    apply run_quiet; [by eapply rejected_frame|done].
Qed.

Lemma method_runs s y ctx m req w res w' :
  request_typed m req -> bearer_accepted ctx (agentToken s) ->
  srv_method m (AgentServer_service s) ctx req w = (Ret res, w') ->
  exists oe, causes (agentToken s) y (LUnary m ctx (inr req)) oe
    /\ authorized_run (agentToken s) (option_list oe) w w'.
Proof.
  intros Hty Ha Hr.
  pose proof (method_trace (fun v => (w_tick w <= w_tick v)%nat) s ctx m req w (le_n _)) as Ht.
  rewrite Hr in Ht. simpl in Ht. pose proof (run_exec _ _ _ _ Hr) as Hw.
  destruct m; [exact (register_run s y ctx req w _ _ Ha Hr)|..];
    (exists None; split; [by apply cause_other_call|]);
    apply run_quiet; try exact Ht; rewrite Hw; simpl in req, Hty.
  - by eapply answers_frame, ExecuteTask_answers.
  - eapply answers_frame, (AllocateMemory_spec s ctx req (mkGPUMemoryAllocRequest "" 0 0)); done.
  - eapply answers_frame, (AllocateMemory_spec s ctx (mkMemoryAllocRequest "" 0 None false 0) req); done.
  - eapply answers_frame, (FreeMemory_spec s ctx req (mkFreeGPUMemoryRequest "")).
  - eapply answers_frame, (FreeMemory_spec s ctx (mkFreeMemoryRequest "") req).
Qed.

(** A unary call: the registration if it gets that far, and nothing else. *)
Lemma serve_run s y m ctx dec w res w' :
  (forall req, dec = inr req -> request_typed m req) ->
  serve_unary ChainUnaryInterceptor s m ctx dec w = (Ret res, w') ->
  exists oe, causes (agentToken s) y (LUnary m ctx dec) oe
    /\ authorized_run (agentToken s) (option_list oe) w w'.
Proof.
  intros Hty. destruct dec as [err|req].
  { unfold serve_unary. rewrite Method_Handler_eq. intros [= _ <-]. exists None. split; [|apply run_refl].
    destruct m; [apply cause_undecoded|by apply cause_other_call..]. }
  rewrite (serve_unary_eq _ Chain_two). unfold UnaryServerInterceptor. intros Hr.
  apply bind_Ret in Hr as (start & w1 & Hnow & Hr). injection Hnow as _ <-.
  apply bind_Ret in Hr as ([resp err] & w2 & Hg & Hr).
  assert (Hcall : exists oe, causes (agentToken s) y (LUnary m ctx (inr req)) oe
    /\ authorized_run (agentToken s) (option_list oe) (next_tick w) w2).
  { unfold guarded, AuthUnaryInterceptorFor in Hg.
    destruct (validateBearerToken ctx (agentToken s)) eqn:Hv.
    - injection Hg as _ _ <-. exists None. split; [|apply run_refl].
      assert (Hno : ~ bearer_accepted ctx (agentToken s)).
      { intros Ha. assert (Hok : checkAuth s ctx = None)
          by (apply (bearer_decides ctx (agentToken s) tt "" (fun _ _ => mret (Some tt, None)) w), Ha).
        unfold checkAuth in Hok. congruence. }
      destruct m; [apply cause_refused; tauto|by apply cause_other_call..].
    - eapply method_runs; [by apply Hty| |exact Hg]. by apply checkAuth_accepted. }
  destruct Hcall as (oe & Hc & Hrun). exists oe. split; [exact Hc|].
  rewrite <- (app_nil_l (option_list _)), <- (app_nil_r ([] ++ _)%list).
  eapply run_app; [eapply run_app; [|exact Hrun]|].
  - apply (run_quiet _ w (next_tick w)); [apply frame_tick, frame_refl|simpl; lia].
  - eapply run_keeps; [| |exact Hr].
    + intros w0. unfold Since.
      repeat first [ apply sanitize_frame
                   | apply keeps_Now; intros ? ?; by apply frame_tick
                   | apply keeps_metric; intros ? ?; apply frame_event; [|done];
                     apply (bool_decide_unpack _); reflexivity
                   | apply keeps_ret | apply keeps_bind; [|intros ?] | progress case_match ].
    + intros n. unfold Since.
      repeat first [ apply (sanitize_trace _) | apply keeps_Now; simpl; intros; lia
                   | apply keeps_metric; simpl; intros; lia
                   | apply keeps_ret | apply keeps_bind; [|intros ?] | progress case_match ].
Qed.

(** A route reads the registry or the metrics, or answers without them. *)
Lemma route_run token api path hd req w :
  routes promhttp_Handler api path = Some hd -> authorized_run token [] w (hd fresh_writer req w).2.
Proof.
  assert (Hkey : forall next, authorized_run token [] w (next fresh_writer req w).2 ->
    authorized_run token [] w (RequireAPIKey api next fresh_writer req w).2)
    by (intros next Hn; unfold RequireAPIKey; case_match; [apply run_refl|exact Hn]).
  unfold routes. repeat case_match; try done; intros [= <-]; [apply run_refl|apply Hkey|apply Hkey].
  - pose proof (GetAll_run w) as Hg. change (NodeRegistry_GetAll w) with (reg_GetAll w) in Hg.
    unfold NodesHandler. rewrite (go_bind_Ret _ _ _ _ _ Hg). simpl.
    apply run_quiet; [apply frame_tick, frame_refl|simpl; lia].
  - rewrite scrape_reads. apply run_refl.
Qed.

Definition streams_entitled (p : Process) (y : system) : Prop :=
  Forall (fun st => pc_entitled (p_agent p) (ss_ctx st) (hb_at (ss_hb st))) (sys_streams y).

(** Every step is a run of calls, for the event it is. *)
Lemma sys_does_run p l y y' :
  p_staleThreshold p = lease_duration -> streams_entitled p y -> sys_does p l y y' ->
  streams_entitled p y'
  /\ exists oe, causes (agentToken (p_agent p)) y l oe
     /\ authorized_run (agentToken (p_agent p)) (option_list oe) (sys_world y) (sys_world y').
Proof.
  intros Hth He Hst. unfold streams_entitled in *.
  destruct Hst as [ctx label start w w' sts r Hr|j st i m hb w w' sts r Hj Hs Hr
    |j st err w w' sts r Hj Ha Ho Hr|m ctx dec res w w' sts r Ht Hr|path hd req rw w w' sts r Hp Hr
    |w sts r|rl rl' w w' sts Hr|rl rl' w w' sts Hw Hr|e w sts r]; simpl in *.
  - split; [apply Forall_app_2; [done|by constructor]|]. exists None. split; [by apply cause_nothing|].
    eapply run_keeps; [| |exact Hr].
    + intros w0. apply open_frame.
    + intros n. unfold stream_open. apply keeps_bind; [apply (sanitize_trace _)|intros ?].
      keeps_world ltac:(simpl; lia).
  - pose proof (Forall_lookup_1 _ _ _ _ He Hj) as Hst.
    destruct (stream_run _ _ _ _ _ _ _ _ Hst Hs Hr) as [He' Hrun].
    split; [by apply Forall_insert|]. eexists. split; [|exact Hrun].
    eapply cause_stream; [exact Hj|]. intros e id. by apply entitled_event.
  - split; [apply Forall_insert; [done|exact (Forall_lookup_1 _ _ _ _ He Hj)]|].
    exists None. split; [by apply cause_nothing|].
    eapply run_keeps; [| |exact Hr]; [intros w0; apply close_frame|].
    intros n. unfold stream_close, Since. keeps_world ltac:(simpl; lia).
  - split; [done|]. by eapply serve_run.
  - split; [done|]. exists None. split; [by apply cause_nothing|].
    rewrite (run_exec _ _ _ _ Hr). by eapply route_run.
  - split; [done|]. exists (Some Expire). split; [apply cause_expire|]. rewrite Hth.
    pose proof (run_call (agentToken (p_agent p)) (OCleanup lease_duration) w eq_refl) as Hrun.
    simpl in Hrun. unfold exec in *. simpl. unfold mbind, go_bind.
    by destruct (cleanup_tick lease_duration w) as [[[]|] ?].
  - split; [done|]. exists None. split; [by apply cause_nothing|].
    apply (run_keeps _ (on_signal (Some rl) SIGHUP) w (Ret (Some rl', false))); [| |exact Hr];
      [intros w0; apply signal_frame|].
    intros n. apply (signal_trace (fun v => (n <= w_tick v)%nat)).
  - split; [done|]. exists None. split; [by apply cause_nothing|].
    apply (run_keeps _ (Watch rl [WatchTick]) w (Ret rl')); [| |exact Hr];
      [intros w0; apply Watch_frame|].
    intros n. apply (Watch_trace (fun v => (n <= w_tick v)%nat)).
  - split; [done|]. exists None. split; [by apply cause_nothing|]. by apply run_quiet; [apply frame_log|].
Qed.

(** ** From the start *)
Lemma startup_threshold h fl w p w' :
  startup h fl w = (Ret (Running p), w') -> p_staleThreshold p = lease_duration.
Proof.
  unfold startup, fatal, mbind, go_bind, log, go_modify. set (w1 := add_event _ w).
  destruct (net_Listen h (f_grpcAddr fl)) as [e|]; [done|]. unfold tls_switch.
  repeat (simpl; case_match; try done); simpl; by intros [= <- _].
Qed.

Lemma sys_started_empty p y :
  sys_started p y ->
  w_nodes (sys_world y) = ∅ /\ sys_streams y = [] /\ p_staleThreshold p = lease_duration.
Proof.
  intros (h & fl & w0 & w1 & Hn & Hk & Ht & Hst & ->). simpl.
  pose proof (keeps_frame (startup h fl) (exec init w0) (fun v => startup_frame v h fl)) as [Hf _].
  rewrite Hst in Hf. simpl in Hf. split; [|split; [done|by eapply startup_threshold]].
  rewrite Hf. by destruct (init_starts w0 Hn Hk Ht) as [[Hi _] _].
Qed.

(** A run, step by step: what each step is, and the calls of all of them. *)
Definition step_logged (p : Process) (y' : system) (step : system * sys_label)
    (entry : option (Z * lease_event)) : Prop :=
  causes (agentToken (p_agent p)) step.1 step.2 (snd <$> entry)
  /\ forall e, entry = Some e -> clock (sys_world step.1) <= e.1 <= clock (sys_world y').

Lemma option_list_fmap_inv {A B} (f : A -> B) (l : list A) (o : option B) :
  f <$> l = option_list o -> exists o', l = option_list o' /\ f <$> o' = o.
Proof.
  destruct l as [|a [|a' l]], o as [b|]; simpl; try done; [by exists None|].
  intros [= <-]. by exists (Some a).
Qed.

Lemma sys_trace_run p y tr y' :
  p_staleThreshold p = lease_duration -> streams_entitled p y -> sys_trace p y tr y' ->
  streams_entitled p y'
  /\ exists es log, timed_run (sys_world y) es (sys_world y')
     /\ Forall (fun c => authorized (agentToken (p_agent p)) c.2) es
     /\ omap id log = log_of es /\ Forall2 (step_logged p y') tr log.
Proof.
  intros Hth He Htr. induction Htr as [y|l y1 y2 tr y3 Hst Htr IH].
  { split; [done|]. exists [], []. by repeat constructor. }
  destruct (sys_does_run _ _ _ _ Hth He Hst) as (He2 & oe & Hc & es1 & Hr1 & Hes1 & Hl1).
  destruct (IH He2) as (He3 & es & log & Hr & Hes & Hl & Hlog). split; [done|].
  apply option_list_fmap_inv in Hl1 as (entry & Hl1 & <-).
  exists (es1 ++ es)%list, (entry :: log). pose proof (timed_app _ _ _ _ _ Hr1 Hr) as Hall.
  split; [exact Hall|]. split; [by apply Forall_app|].
  split; [rewrite log_app, Hl1, <- Hl; by destruct entry|].
  constructor; [|exact Hlog]. split; [exact Hc|]. intros e ->.
  destruct (log_elem es1 e) as (v & o & Hin & -> & _); [rewrite Hl1; apply list_elem_of_here|].
  simpl. split; [apply clock_mono; eapply timed_start; [exact Hr1|exact Hin]|].
  eapply timed_clock; [exact Hall|]. apply elem_of_app. by left.
Qed.

Lemma rtc_trace p y y' : rtc (sys_step p) y y' -> exists tr, sys_trace p y tr y'.
Proof.
  induction 1 as [y|y1 y2 y3 [l Hst] _ [tr Htr]]; [by exists []; constructor|].
  eexists. by eapply trace_cons.
Qed.

(** What holds whenever the process runs. *)
Lemma sys_reachable_entitled p y :
  sys_reachable p y ->
  p_staleThreshold p = lease_duration /\ streams_entitled p y
  /\ exists y0 es, sys_started p y0 /\ timed_run (sys_world y0) es (sys_world y)
     /\ Forall (fun c => authorized (agentToken (p_agent p)) c.2) es.
Proof.
  intros (y0 & Hs & [tr Htr]%rtc_trace). destruct (sys_started_empty p y0 Hs) as (_ & Hsts & Hth).
  split; [done|].
  assert (He0 : streams_entitled p y0) by (unfold streams_entitled; by rewrite Hsts).
  destruct (sys_trace_run _ _ _ _ Hth He0 Htr) as (He & es & _ & Hr & Hes & _).
  split; [done|by exists y0, es].
Qed.

Lemma authorized_calls token es :
  Forall (fun c : World * reg_op => authorized token c.2) es ->
  Forall (fun c => process_call c.2) es.
Proof. intros Hes. eapply Forall_impl; [exact Hes|]. intros [v o] Ho. destruct o; simpl in *; tauto. Qed.

Lemma sys_beats p y : sys_reachable p y -> beats_i64 (sys_world y).
Proof.
  intros Hy. destruct (sys_reachable_entitled p y Hy) as (_ & _ & y0 & es & Hs & Hr & Hes).
  destruct (sys_started_empty p y0 Hs) as (Hn & _).
  apply (timed_leases _ _ _ Hr); [|by eapply authorized_calls].
  unfold beats_i64. rewrite Hn. apply map_Forall_empty.
Qed.

(** C2: the process implements the lease table.  It starts with an empty one.  Take any run of it,
    from any state it can be in, whatever clients send over gRPC and HTTP and however calls,
    streams, cleanup and reloads interleave: every step is exactly one event of the table or
    none, the one [causes] says, and what the registry holds changes as the table does under these
    events, in the order of time, each at a time after the start of its step.

    So a join is a registration with valid fields whose own context has the credentials, and
    every such registration is one; a renewal or departure is a step of a stream whose own
    context has them, for a well-formed identity; a call or stream without the credentials is
    no event at all; and nothing else changes a lease, but the cleanup, which takes exactly those
    not renewed for 30 seconds. *)
Theorem process_implements_leases p :
  (forall y, sys_started p y -> leases (sys_world y) = ∅)
  /\ forall y tr y', sys_reachable p y -> sys_trace p y tr y' ->
     exists log : list (option (Z * lease_event)),
     leases (sys_world y') = foldl lease_step (leases (sys_world y)) (omap id log)
     /\ Sorted Z.le (omap id log).*1
     /\ Forall2 (fun step entry =>
          causes (agentToken (p_agent p)) step.1 step.2 (snd <$> entry)
          /\ forall e, entry = Some e -> clock (sys_world step.1) <= e.1 <= clock (sys_world y'))
        tr log.
Proof.
  split.
  - intros y Hy. destruct (sys_started_empty p y Hy) as (Hn & _). unfold leases. by rewrite Hn, fmap_empty.
  - intros y tr y' Hy Htr. destruct (sys_reachable_entitled p y Hy) as (Hth & He & _).
    destruct (sys_trace_run _ _ _ _ Hth He Htr) as (_ & es & log & Hr & Hes & Hl & Hlog).
    exists log. rewrite Hl. split; [|split; [by eapply timed_sorted|exact Hlog]].
    apply (timed_leases _ _ _ Hr); [by eapply sys_beats|by eapply authorized_calls].
Qed.

(** A registered node's data comes from valid requests. *)
Definition vetted (token : string) (id : string) (n : NodeInfo) : Prop :=
  (exists ctx, bearer_accepted ctx token)
  /\ NodeID n = id /\ safe_id 255 id /\ plain_text 512 (Address n) /\ is_Some (Resources n)
  /\ Z.of_nat (size (Tasks n)) <= 10000.

Lemma op_vetted token o w :
  authorized token o -> map_Forall (vetted token) (w_nodes w) ->
  map_Forall (vetted token) (w_nodes (exec (run_op o) w)).
Proof.
  intros Ho Hw. destruct o as [id addr [r|]|id util tasks| |id|id c|id|th]; simpl in Ho; try done;
    simpl; unfold exec.
  - rewrite Register_run. simpl. apply map_Forall_insert_2; [|done].
    destruct Ho as (Hc & Hid & Ha & _). unfold vetted. simpl. rewrite map_size_empty.
    split_and!; try done; apply Ha.
  - destruct (UpdateHeartbeat_run id util tasks w) as (tick & ->). simpl.
    intros k n. rewrite lookup_alter. case_decide as Hk; [|apply Hw].
    subst. destruct (w_nodes w !! k) as [n'|] eqn:E; [|done]. intros [= <-].
    destruct (Hw k n' E) as (Hc & Hnid & Hid & Ha & Hr & _). destruct Ho as (_ & _ & Ht).
    unfold vetted. simpl. pose proof (task_map_size tasks). split_and!; try done; lia.
  - rewrite RemoveIf_run. simpl. case_decide; [by apply map_Forall_delete|done].
  - destruct (cleanup_tick_run th w) as (w' & -> & Hn & _). simpl. rewrite Hn.
    intros k n Hk. apply map_lookup_filter_Some in Hk as [Hk _]. by apply (Hw k).
Qed.

Lemma run_vetted token w es w' :
  timed_run w es w' -> Forall (fun c => authorized token c.2) es ->
  map_Forall (vetted token) (w_nodes w) -> map_Forall (vetted token) (w_nodes w').
Proof.
  intros Hrun. induction Hrun as [w|w o es w' _ IH|w w1 es w' [Hf _] _ _ IH]; intros Hes Hw; [done| |].
  - apply Forall_cons in Hes as [Ho Hes]. apply IH; [done|]. by apply op_vetted.
  - apply IH; [done|]. by rewrite Hf.
Qed.

(** C19: every node that is ever registered has been vetted: in every reachable state of the
    process it is filed under its identity, which has the allowed form, its address is short
    and free of null bytes, it has resources, and carries at most 10000 tasks, although
    heartbeats keep arriving and registrations keep replacing it; and there is a caller with
    the credentials: if no caller has them the registry stays empty, whatever else is sent. *)
Theorem registered_nodes_vetted p y id n :
  sys_reachable p y -> w_nodes (sys_world y) !! id = Some n ->
  (exists ctx, bearer_accepted ctx (agentToken (p_agent p)))
  /\ NodeID n = id /\ safe_id 255 id /\ plain_text 512 (Address n) /\ is_Some (Resources n)
  /\ Z.of_nat (size (Tasks n)) <= 10000.
Proof.
  intros Hy Hn. destruct (sys_reachable_entitled p y Hy) as (_ & _ & y0 & es & Hs & Hrun & Hes).
  destruct (sys_started_empty p y0 Hs) as (Hn0 & _).
  apply (run_vetted _ _ _ _ Hrun Hes); [|exact Hn]. rewrite Hn0. apply map_Forall_empty.
Qed.
End process.
