(* ===== verification/Cluster.v ===== *)
(** A node agent and the control plane together: the agent's process ([AgentMain.v]), the control
    plane's answer to its registration ([Server.v]) and the heartbeat streams it opens
    ([Heartbeat.v]), with the messages between them.

    The transport is an interface: the context a call arrives with, and when the server sends
    the headers of a stream's response.  gRPC for Go documents ([ServerStream.SetHeader]) that
    they go out with [SendHeader], with the first response, or with the final status; the
    agent's client ([tonic]) returns from opening a stream when it has them. *)
From S2P Require Import Prelude GoRuntime GoStrings RustStd PbResource PbAgent Grpc World Registry.
From S2P Require Import RegistryApi Validator Metrics Agent AgentFacts Heartbeat AgentGrpc MetricsSafety.
From S2P Require Import ControlPlane Server AgentHost AgentClient AgentMain.
Local Open Scope string_scope.
Local Open Scope Z_scope.
Local Open Scope list_scope.

Class Transport `{!GrpcLib} := {
  call_ctx : option string -> Ctx;              (* of a call with that authorization entry *)
  headers_sent : hb_stream -> bool
}.
Class TransportLaws `{!GrpcLib, !Transport} : Prop := {
  call_ctx_md a : exists md, FromIncomingContext (call_ctx a) = Some md
                  /\ md_Get md "authorization" = option_list a;
  headers_documented st : headers_sent st = true ->
    hb_sent st <> [] \/ exists e, hb_at st = HbDone e
}.

(** A stream between the two: the server's end, the messages it has received and those on their
    way, whether the agent still holds its end. *)
Record link `{!GrpcLib} := mkLink {
  lk_ctx : Ctx;
  lk_server : hb_stream;
  lk_received : list HeartbeatRequest;
  lk_inflight : list HeartbeatRequest;
  lk_held : bool
}.
Arguments mkLink {_} _ _ _ _ _.

Section cluster.
Context `{!GoEnv, !GrpcLib, !BuildInfo, !ProtoLib, !Tonic, !Transport}.
Variable ChainUnaryInterceptor : list UnaryInterceptor -> UnaryInterceptor.
Variable server : AgentServer.
Variable args : Args.
Variable resources : NodeResources.

Record cluster := mkCluster {
  cl_world : World;                             (* the control plane's state *)
  cl_agent : main_state;
  cl_links : list link;
  cl_current : option nat                       (* the stream of the agent's current round *)
}.

(** The agent has let go of its connection. *)
Definition released (st : main_state) : bool :=
  match st with Sleeping _ _ | Exited _ | Aborted => true | _ => false end.

Definition push (l : list HeartbeatRequest) (k : link) : link :=
  mkLink (lk_ctx k) (lk_server k) (lk_received k) (lk_inflight k ++ l) (lk_held k).
Definition let_go (k : link) : link :=
  mkLink (lk_ctx k) (lk_server k) (lk_received k) (lk_inflight k) false.

(** After a step of the agent that sent [l]. *)
Definition agent_moved (y : cluster) (w : World) (st : main_state) (l : list HeartbeatRequest) : cluster :=
  let links := match cl_current y with Some j => alter (push l) j (cl_links y) | None => cl_links y end in
  if released st
  then mkCluster w st (match cl_current y with Some j => alter let_go j links | None => links end) None
  else mkCluster w st links (cl_current y).

(** The end of a stream that has failed before any response. *)
Definition failed_at_once (st : hb_stream) : Prop :=
  hb_sent st = [] /\ exists e, hb_at st = HbDone (Some e).

(** The replies the agent can get, with the state the control plane is left in. *)
Definition may_reply (y : cluster) (c : Call) : option (Reply c) -> World -> Prop :=
  match c with
  | client_register req authorization => fun r w =>
      let call := serve_unary ChainUnaryInterceptor server Method_Register (call_ctx authorization)
                    (inr req) in
      (exists resp, r = Some resp /\ call (cl_world y) = (Ret (Some resp, None), w))
      \/ (r = None /\ (w = cl_world y \/ w = exec call (cl_world y)))   (* an error, or lost *)
  | client_heartbeat _ => fun r w =>
      w = cl_world y
      /\ (r = None                              (* a time-out, an error status, a failure *)
          \/ exists j k, cl_current y = Some j /\ cl_links y !! j = Some k
             /\ headers_sent (lk_server k) = true /\ ~ failed_at_once (lk_server k))
  | _ => fun _ w => w = cl_world y
  end.

Definition agent_may (y : cluster) (i : main_input) (w : World) : Prop :=
  match i with
  | InReply h => forall c, pending (cl_agent y) = Some c -> may_reply y c (h c) w
  | _ => w = cl_world y
  end.

(** What a server's end can be given: messages in order, and the end of the stream only from an
    agent that has let go. *)
Definition server_may (k : link) (i : hb_input) (rest : list HeartbeatRequest) : Prop :=
  match i with
  | IRecv (RecvMsg m) => lk_inflight k = m :: rest
  | IRecv (RecvErr e) => rest = lk_inflight k /\ (e = EOF -> lk_held k = false /\ rest = [])
  | _ => rest = lk_inflight k
  end.

(** The steps, each with the agent's input if it is one of the agent. *)
Inductive cl_step : cluster -> option main_input -> cluster -> Prop :=
  | cl_elsewhere w' w st ks j :                               (* anything else on the server *)
      cl_step (mkCluster w st ks j) None (mkCluster w' st ks j)
  | cl_agent_step y i w st l :                                (* the agent makes a step *)
      agent_may y i w -> main_step args resources (cl_agent y) i = Some (st, l) ->
      cl_step y (Some i) (agent_moved y w st l)
  | cl_open w st ks a :                                       (* its new stream arrives *)
      pending st = Some (client_heartbeat a) ->
      cl_step (mkCluster w st ks None) None
        (mkCluster w st (ks ++ [mkLink (call_ctx a) hb_open [] [] true]) (Some (length ks)))
  | cl_server_step w w' st ks cur j k i m hb rest :           (* a stream's handler makes a step *)
      ks !! j = Some k -> server_may k i rest ->
      hb_step server (lk_ctx k) (lk_server k) i = Some m -> m w = (Ret hb, w') ->
      cl_step (mkCluster w st ks cur) None
        (mkCluster w' st
          (<[j := mkLink (lk_ctx k) hb (lk_received k ++ received i) rest (lk_held k)]> ks) cur).

(** From an agent that starts, with the agent's inputs so far. *)
Inductive cl_trace : list main_input -> cluster -> Prop :=
  | cl_start w : cl_trace [] (mkCluster w (main args resources) [] None)
  | cl_more inputs y o y' :
      cl_trace inputs y -> cl_step y o y' -> cl_trace (inputs ++ option_list o) y'.
End cluster.
Arguments mkCluster {_} _ _ _ _.

(** * The heartbeat stream never opens *)
Section never_opens.
Context `{!GoEnv, !GoEnvLaws, !GrpcLib, !BuildInfo, !ProtoLib, !ProtoLibLaws, !Tonic, !Transport, !TransportLaws}.
Variable ChainUnaryInterceptor : list UnaryInterceptor -> UnaryInterceptor.
Variable server : AgentServer.
Variable args : Args.
Variable resources : NodeResources.

(** A stream whose server's end has received nothing. *)
Definition silent (k : link) : Prop :=
  lk_inflight k = [] /\ hb_sent (lk_server k) = [] /\ hb_tick (lk_server k) = TickerNone
  /\ match hb_at (lk_server k) with
     | HbAuth | HbRecvFirst | HbDone (Some _) => True
     | HbDone None => lk_held k = false
     | _ => False
     end.

(** An agent that cannot get into a session. *)
Definition waiting (st : main_state) : Prop :=
  match st with
  | Connecting _ _ p => safe no_heartbeat not_opened is_err p
  | Sleeping _ _ | Aborted => True
  | Exited r => is_err r
  | _ => False
  end.

Lemma silent_step k i rest m w hb w' :
  silent k -> server_may k i rest -> hb_step server (lk_ctx k) (lk_server k) i = Some m ->
  m w = (Ret hb, w') -> silent (mkLink (lk_ctx k) hb (lk_received k ++ received i) rest (lk_held k)).
Proof.
  intros (Hin & Hs & Ht & Hat) Hmay Hst Hr.
  destruct i as [|[msg|e]|err|err|]; simpl in Hst, Hmay.
  - destruct (hb_at (lk_server k)) as [| | | | | | | |[e|]]; try done. injection Hst as <-.
    injection Hr as <- <-. rewrite Hin in Hmay. subst rest. split; [done|]. split; [done|]. split; [done|].
    simpl. by destruct (checkAuth _ _).
  - by rewrite Hin in Hmay.
  - destruct Hmay as [-> Hmay]. destruct (hb_at (lk_server k)) as [| | | | | | | |[e'|]]; try done.
    injection Hst as <-. injection Hr as <- <-. split; [done|]. split; [done|]. split; [done|].
    simpl. destruct (decide (e = EOF)) as [He|He]; simpl; [|done]. by apply Hmay.
  - destruct (hb_at (lk_server k)) as [| | | | | | | |[e'|]]; done.
  - by rewrite Ht in Hst.
  - by rewrite Ht in Hst.
Qed.

Lemma silent_headers k : silent k -> lk_held k = true ->
  headers_sent (lk_server k) = true -> failed_at_once (lk_server k).
Proof.
  intros (_ & Hs & _ & Hat) Hheld [Hsent|[e He]]%headers_documented; [done|].
  split; [done|]. rewrite He in Hat. destruct e as [e|]; [by exists e|]. congruence.
Qed.

Lemma silent_push k : silent k -> silent (push [] k).
Proof. intros (Hin & Hs). unfold silent, push. simpl. by rewrite app_nil_r. Qed.
Lemma silent_let_go k : silent k -> silent (let_go k).
Proof. intros (Hin & Hs & Ht & Hat). repeat split; try done. simpl. by destruct (hb_at _) as [| | | | | | | |[]]. Qed.

Lemma Forall_alter_link (f : link -> link) ks j :
  (forall k, silent k -> silent (f k)) -> Forall silent ks -> Forall silent (alter f j ks).
Proof. intros Hf Hks. by apply Forall_alter; [|intros k _; apply Hf]. Qed.

Lemma waiting_step st i st' l :
  waiting st -> main_step args resources st i = Some (st', l) -> opens_nothing st i ->
  l = [] /\ waiting st'.
Proof.
  assert (Hround : forall a b, waiting (start_round args resources a b))
    by (intros a b; apply connect_unopened).
  assert (Hafter : forall a b, waiting (after_round args a b))
    by (intros a b; unfold after_round; by destruct (_ && _)).
  intros Hst Hs Hi.
  destruct st as [a b [r|c k]|a b conn q|a b conn q req|a b|r|]; try done;
    destruct i as [h|u|o| |ok|]; simpl in Hs; try discriminate; injection Hs as <- <-.
  - destruct Hst as [Hpre Hsafe]. specialize (Hsafe (h c) (Hi c eq_refl)).
    split; [by destruct c|]. destruct (k (h c)) as [[conn|e]|c' k']; [done|apply Hafter|done].
  - split; [done|]. unfold woke. case_match; [done|apply Hround].
Qed.

Definition cl_ok (y : cluster) : Prop :=
  waiting (cl_agent y) /\ Forall silent (cl_links y)
  /\ forall j, cl_current y = Some j -> exists k, cl_links y !! j = Some k /\ lk_held k = true.

#[local] Abbreviation cl_step := (cl_step ChainUnaryInterceptor server args resources).
#[local] Abbreviation cl_trace := (cl_trace ChainUnaryInterceptor server args resources).

Lemma may_opens_nothing y i w :
  cl_ok y -> agent_may ChainUnaryInterceptor server y i w -> opens_nothing (cl_agent y) i.
Proof.
  intros (_ & Hks & Hcur) Hmay. destruct i as [h|u|o| |ok|]; try done. intros c Hc.
  specialize (Hmay c Hc). destruct c as [| | | | |a|]; try done. simpl in *.
  destruct Hmay as [_ [?|(j & k & Hj & Hk & Hh & Hno)]]; [done|]. destruct Hno.
  destruct (Hcur j Hj) as (k' & Hk' & Hheld). simplify_eq. rewrite Forall_lookup in Hks.
  by apply silent_headers; [eapply Hks| |].
Qed.

Lemma agent_moved_ok y w st : cl_ok y -> waiting st -> cl_ok (agent_moved y w st []).
Proof.
  intros (_ & Hks & Hcur) Hst. unfold agent_moved, cl_ok. destruct (released st); simpl.
  - split; [done|]. split; [|done]. destruct (cl_current y) as [j|]; [|done].
    apply Forall_alter_link; [apply silent_let_go|]. apply Forall_alter_link; [apply silent_push|done].
  - split; [done|]. split.
    + destruct (cl_current y) as [j|]; [|done]. apply Forall_alter_link; [apply silent_push|done].
    + intros j Hj. rewrite Hj. destruct (Hcur j Hj) as (k & Hk & Hheld).
      exists (push [] k). by rewrite list_lookup_alter_eq, Hk.
Qed.

Lemma cl_step_ok y o y' :
  cl_ok y -> cl_step y o y' ->
  cl_ok y' /\ match o with
              | Some i => opens_nothing (cl_agent y) i
                          /\ main_step args resources (cl_agent y) i = Some (cl_agent y', [])
              | None => cl_agent y' = cl_agent y
              end.
Proof.
  intros Hok Hstep.
  destruct Hstep as [w' w st ks j|y i w st l Hmay Hs|w st ks a Hp|w w' st ks cur j k i m hb rest Hj Hmay Hs Hr].
  - by split.
  - pose proof (may_opens_nothing _ _ _ Hok Hmay) as Hop.
    destruct (waiting_step _ _ _ _ (proj1 Hok) Hs Hop) as [-> Hw].
    split; [by apply agent_moved_ok|]. split; [done|]. rewrite Hs. unfold agent_moved.
    by destruct (released st).
  - split; [|done]. destruct Hok as (Hw & Hks & _). split; [done|]. split.
    + apply Forall_app_2; [done|]. apply Forall_singleton. by repeat split.
    + intros j [= <-]. simpl. eexists. by rewrite lookup_app_r, Nat.sub_diag by lia.
  - split; [|done]. destruct Hok as (Hw & Hks & Hcur). split; [done|]. simpl in *. split.
    + apply Forall_insert; [done|]. eapply silent_step; try done. rewrite Forall_lookup in Hks. eauto.
    + intros j' Hj'. destruct (Hcur j' Hj') as (k' & Hk' & Hheld).
      destruct (decide (j = j')) as [->|Hne]; [|exists k'; by rewrite list_lookup_insert_ne].
      eexists. rewrite list_lookup_insert_eq by (by eapply lookup_lt_Some). split; [done|].
      by simplify_eq.
Qed.

Lemma cl_trace_ok inputs y :
  cl_trace inputs y ->
  cl_ok y /\ (0 < max_reconnect_attempts args < 2 ^ 32 -> 0 <= reconnect_backoff_secs args < 2 ^ 63 ->
    losing args (length inputs) (slept inputs) (cl_agent y)).
Proof.
  induction 1 as [w|inputs y o y' _ [Hok Hl] Hs].
  - split; [|intros Hn Hb; apply (losing_start args resources 0 0); simpl; lia].
    split; [apply connect_unopened|]. by split.
  - destruct (cl_step_ok _ _ _ Hok Hs) as [Hok' Ho]. split; [done|]. intros Hn Hb.
    specialize (Hl Hn Hb). destruct o as [i|]; simpl; [|by rewrite app_nil_r, Ho].
    destruct Ho as [Hop Hstep].
    destruct (losing_step _ _ _ _ _ _ _ _ Hn Hb Hl Hstep Hop) as [_ Hl'].
    by rewrite length_app, slept_snoc, Nat.add_1_r.
Qed.

(** C16: an agent and the control plane never get a heartbeat stream going.  The agent's client waits
    for the headers of the stream's response before it sends the first heartbeat; the control
    plane sends nothing, so no headers either, before it has received one.  In every state the
    two can reach, whatever else happens on the server, the agent is not in a session, no
    heartbeat is on its way, and the server's end of each of its streams waits for its first
    message or has returned without sending; and with a limit on its attempts the agent is
    within ten steps per attempt of exiting with the error that it gave up. *)
Theorem heartbeat_stream_never_opens inputs y :
  cl_trace inputs y ->
  (forall a b conn q, cl_agent y <> Selecting a b conn q)
  /\ (forall a b conn q req, cl_agent y <> Sending a b conn q req)
  /\ Forall (fun k => lk_inflight k = [] /\ hb_sent (lk_server k) = []
       /\ (hb_at (lk_server k) = HbAuth \/ hb_at (lk_server k) = HbRecvFirst
           \/ exists e, hb_at (lk_server k) = HbDone e)) (cl_links y)
  /\ let n := max_reconnect_attempts args in
     0 < n < 2 ^ 32 -> 0 <= reconnect_backoff_secs args < 2 ^ 63 ->
     Z.of_nat (length inputs) < 10 * n
     /\ forall r, cl_agent y = Exited r ->
          r = Err ("max reconnection attempts (" +:+ pretty n +:+ ") reached").
Proof.
  intros Ht. destruct (cl_trace_ok _ _ Ht) as [(Hw & Hks & _) Hl]. split_and!.
  - intros a b conn q E. by rewrite E in Hw.
  - intros a b conn q req E. by rewrite E in Hw.
  - eapply Forall_impl; [exact Hks|]. intros k (? & ? & _ & Hat). split; [done|]. split; [done|].
    destruct (hb_at (lk_server k)); try done; eauto.
  - intros n Hn Hb. specialize (Hl Hn Hb).
    destruct (cl_agent y) as [a b p|a b conn q|a b conn q req|a b|r|]; simpl in Hl; try done.
    + destruct Hl as ((Ha & Hle) & _ & _ & m & _ & Hi & _). split; [lia|done].
    + destruct Hl as ((Ha & Hle) & _ & Hi). split; [lia|done].
    + destruct Hl as (Ha & Hi & Hr). split; [lia|]. intros r' [= <-]. exact Hr.
Qed.
End never_opens.

(** * Registering *)
Section registration.
Context `{!GoEnv, !GoEnvLaws, !GrpcLib, !GrpcLibLaws, !BuildInfo, !ProtoLib, !ProtoLibLaws, !Tonic, !Transport, !TransportLaws}.
Variable ChainUnaryInterceptor : list UnaryInterceptor -> UnaryInterceptor.
Hypothesis Chain_two : forall (a b : UnaryInterceptor) Req Resp ctx (req : Req) full
    (handler : UnaryMethod Req Resp),
  ChainUnaryInterceptor [a; b] Req Resp ctx req full handler =
  a Req Resp ctx req full (fun ctx req => b Req Resp ctx req full handler).

Lemma agent_accepted args token :
  MetadataValue_ok ("Bearer " +:+ agent_token args) = true ->
  bearer_accepted (call_ctx (default None (bearer (token_of args)))) token
  <-> token = "" \/ agent_token args = token.
Proof.
  intros Hm. unfold bearer_accepted.
  destruct (call_ctx_md (default None (bearer (token_of args)))) as (md & Hmd & Hget).
  assert (Hin : (exists md', FromIncomingContext (call_ctx (default None (bearer (token_of args)))) = Some md'
      /\ ("Bearer " +:+ token) ∈ md_Get md' "authorization")
    <-> agent_token args <> "" /\ agent_token args = token).
  { rewrite Hmd. transitivity (("Bearer " +:+ token) ∈ md_Get md "authorization").
    { split; [by intros (? & [= <-] & ?)|eauto]. }
    rewrite Hget. unfold token_of. destruct (String.eqb_spec (agent_token args) "") as [He|He].
    - simpl. rewrite elem_of_nil. tauto.
    - unfold bearer. rewrite Hm. simpl. rewrite list_elem_of_singleton. split.
      + intros Heq. split; [done|]. by injection Heq.
      + by intros [_ <-]. }
  rewrite Hin. split; [tauto|]. intros [?|<-]; [by left|].
  destruct (decide (agent_token args = "")); [by left|by right].
Qed.

(** C17: an agent's registration: a control plane without a token, or with the agent's, and a node
    identity of the allowed form: it is accepted with the control plane's cluster, leader and
    5000 milliseconds, which becomes the agent's heartbeat period, and the node is registered
    with the discovered resources and an empty address; every heartbeat the agent can send
    then passes the control plane's checks.  With another token, or a node identity
    of another form (a host name is not checked by the agent), it gets an error and the nodes
    stay as they are. *)
Theorem agent_registration s h args w :
  cache_ok w -> MetadataValue_ok ("Bearer " +:+ agent_token args) = true ->
  let resources := discover_resources h (host_args args) in
  let id := NodeResources_NodeId resources in
  let call := serve_unary ChainUnaryInterceptor s Method_Register
                (call_ctx (default None (bearer (token_of args)))) (inr (register_request resources)) in
  let authorized := agentToken s = "" \/ agent_token args = agentToken s in
  (authorized -> safe_id 255 id ->
     value call w = Some (Some (mkRegisterResponse true (clusterID s) (leaderAddr s) 5000), None)
     /\ (exists now, w_nodes (exec call w) =
           <[id := mkNodeInfo id "" (Some resources) now ∅ (next_conn (w_nodes w !! id))]> (w_nodes w))
     /\ heartbeat_period (mkConnection id 5000) = 5000
     /\ forall sent, numbered resources sent -> Forall heartbeat_valid sent)
  /\ (~ authorized \/ authorized /\ ~ safe_id 255 id ->
     exists code msg, value call w = Some (None, Some (StatusError code msg))
     /\ code ∈ [Unauthenticated; PermissionDenied; InvalidArgument]
     /\ w_nodes (exec call w) = w_nodes w).
Proof.
  intros Hok Hm resources id call authorized.
  set (ctx := call_ctx (default None (bearer (token_of args)))) in *.
  set (req := register_request resources) in *.
  assert (Hauth : bearer_accepted ctx (agentToken s) <-> authorized) by (by apply agent_accepted).
  assert (Hvalid : request_valid Method_Register req <-> safe_id 255 id).
  { unfold request_valid. simpl. rewrite !Forall_cons. unfold Datatypes.id.
    assert (plain_text 512 "") by (by split; [vm_compute|intros ?%not_elem_of_nil]).
    assert (plain_text 64 CARGO_PKG_VERSION).
    { split; [by vm_compute|]. intros Hin. repeat (apply elem_of_cons in Hin as [Hin|Hin]; [by vm_compute in Hin|]).
      by apply not_elem_of_nil in Hin. }
    fold id. rewrite Forall_nil. tauto. }
  destruct (guarded_run s Method_Register ctx req (next_tick w) I) as (Hrej & Hinv & Hacc & _).
  pose proof (call_run ChainUnaryInterceptor Chain_two s Method_Register ctx req w) as Hcall.
  split.
  - intros Ha%Hauth Hid. destruct (Hacc Ha (proj2 Hvalid Hid)) as (now & w1 & Hg & Hn); [done|].
    destruct (Hcall _ _ _ Hok Hg) as (Hv & Hn' & _). split; [exact Hv|].
    split; [exists now; etrans; [exact Hn'|exact Hn]|]. split; [done|].
    intros sent Hsent. apply Forall_lookup. intros i r Hi. unfold heartbeat_valid.
    destruct (Hsent i r Hi) as [->|(p & u & _ & ->)]; simpl; (split; [exact Hid|lia]).
  - intros [Ha|[Ha Hid]].
    + destruct Hrej as (code & msg & Hc & Hg); [by rewrite Hauth|].
      destruct (Hcall _ _ _ Hok Hg) as (Hv & Hn & _). exists code, msg. split; [exact Hv|].
      split; [|exact Hn]. rewrite !elem_of_cons in *. tauto.
    + destruct Hinv as (msg & w1 & Hg & Hn1); [by apply Hauth|by rewrite Hvalid|].
      destruct (Hcall _ _ _ Hok Hg) as (Hv & Hn & _). eexists _, msg. split; [exact Hv|].
      split; [do 2 right; left|]. etrans; [exact Hn|exact Hn1].
Qed.
End registration.
