(* ===== verification/Sessions.v ===== *)
(** A node agent's heartbeat streams at the control plane ([Cluster.v]), whatever the transport
    does about headers: what arrives of what the agent sends, and what it can do there.  With
    a transport that sends the headers of a response with its first message no stream gets
    that far ([heartbeat_stream_never_opens]); these theorems are about every transport, one
    that sends them early included. *)
From S2P Require Import Prelude GoRuntime GoStrings RustStd PbResource PbAgent Grpc World Registry.
From S2P Require Import RegistryApi Validator Metrics Agent AgentFacts Heartbeat AgentGrpc.
From S2P Require Import AgentHost AgentClient AgentMain Cluster.
Local Open Scope string_scope.
Local Open Scope Z_scope.
Local Open Scope list_scope.

(** ** The messages of a stream *)

(** The message number [i] of a stream. *)
Definition nth_message (id : string) (i : nat) (m : HeartbeatRequest) : Prop :=
  HeartbeatRequest_NodeId m = id /\ HeartbeatRequest_Tasks m = []
  /\ HeartbeatRequest_Sequence m = as_u64 (Z.of_nat i)
  /\ (HeartbeatRequest_Utilization m = None <-> i = O).
Definition session (id : string) (l : list HeartbeatRequest) : Prop :=
  forall i m, l !! i = Some m -> nth_message id i m.

(** What a stream's handler is about. *)
Definition pc_about (id : string) (pc : hb_pc) : Prop :=
  match pc with
  | HbConnID m | HbUpdateFirst m _ | HbSendFirst m _ => HeartbeatRequest_NodeId m = id
  | HbRecv i _ | HbRemove i _ _ => i = id
  | HbUpdate i _ m => i = id /\ HeartbeatRequest_NodeId m = id
  | _ => True
  end.

Lemma session_snoc id l m : session id l -> nth_message id (length l) m -> session id (l ++ [m]).
Proof.
  intros Hl Hm i x Hi. apply lookup_app_Some in Hi as [Hi|[Hle Hi]]; [by apply Hl|].
  apply list_lookup_singleton_Some in Hi as [Hz <-].
  by replace i with (length l) by lia.
Qed.

Lemma as_u64_succ z : as_u64 (as_u64 z + 1) = as_u64 (z + 1).
Proof. unfold as_u64. by rewrite Z.add_mod_idemp_l by lia. Qed.

Section streams.
Context `{!GoEnv, !GoEnvLaws, !GrpcLib, !BuildInfo, !ProtoLib, !ProtoLibLaws}.

Lemma handler_about s ctx id pc i m w pc' w' :
  pc_about id pc -> Forall (fun r => HeartbeatRequest_NodeId r = id) (received i) ->
  hb_handler s ctx pc i = Some m -> m w = (Ret pc', w') -> pc_about id pc'.
Proof.
  intros Hp Hi Hm Hr. destruct pc as [| |first|first conn|first conn|nid conn|nid conn req|nid conn err|err],
    i as [|[r|e]|err'|err'|]; simpl in Hm; try discriminate; injection Hm as <-; simpl in Hp, Hi.
  - injection Hr as <- _. by destruct (checkAuth s ctx).
  - apply Forall_cons in Hi as [Hi _]. apply bind_Ret in Hr as (err & w1 & _ & [= <- _]). destruct err; [done|exact Hi].
  - injection Hr as <- _. by case_decide.
  - apply bind_Ret in Hr as (c & w1 & _ & Hr). by apply bind_Ret in Hr as (? & ? & _ & [= <- _]).
  - by apply bind_Ret in Hr as (? & w1 & _ & [= <- _]).
  - destruct err' as [e|]; [by apply bind_Ret in Hr as (? & w1 & _ & [= <- _])|by injection Hr as <- _].
  - apply Forall_cons in Hi as [Hi _]. apply bind_Ret in Hr as (err & w1 & _ & [= <- _]). by destruct err.
  - case_decide; by apply bind_Ret in Hr as (? & w1 & _ & [= <- _]).
  - apply bind_Ret in Hr as (? & w1 & _ & Hr). apply bind_Ret in Hr as (? & ? & _ & [= <- _]). apply Hp.
  - by apply bind_Ret in Hr as (? & w1 & _ & [= <- _]).
Qed.

Lemma stream_about s ctx id st i m w st' w' :
  pc_about id (hb_at st) -> Forall (fun r => HeartbeatRequest_NodeId r = id) (received i) ->
  hb_step s ctx st i = Some m -> m w = (Ret st', w') -> pc_about id (hb_at st').
Proof.
  intros Hp Hi Hs Hr. destruct i as [|r|err|err|]; simpl in Hs.
  4:{ destruct (hb_tick st); try done. injection Hs as <-.
      by destruct err; [apply bind_Ret in Hr as (? & ? & _ & [= <- _])|injection Hr as <- _]. }
  4:{ destruct (hb_tick st); try done. destruct (hb_at st); try done. injection Hs as <-.
      by injection Hr as <- _. }
  all: match type of Hs with match hb_handler ?s ?ctx ?pc ?i with _ => _ end = _ =>
         destruct (hb_handler s ctx pc i) as [h|] eqn:Hh; [|done] end.
  all: injection Hs as <-; apply bind_Ret in Hr as (pc & w1 & Hr & [= <- _]);
    eapply handler_about in Hr; [|exact Hp|exact Hi|exact Hh]; destruct (hb_at st), pc; exact Hr.
Qed.

(** It changes no other node. *)
Lemma stream_isolated s ctx id st i m w st' w' k :
  pc_about id (hb_at st) -> hb_step s ctx st i = Some m -> m w = (Ret st', w') -> k <> id ->
  w_nodes w' !! k = w_nodes w !! k.
Proof.
  intros Hp Hs Hr Hk. destruct (hb_step_run s ctx st i m w Hs) as (st1 & w1 & Hr1 & He).
  rewrite Hr in Hr1. injection Hr1 as <- <-.
  assert (Hsame : w_nodes w' = w_nodes w -> w_nodes w' !! k = w_nodes w !! k) by (by intros ->).
  destruct i as [|r|err|err|], (hb_at st); simpl in Hp, He; try (by apply Hsame).
  - destruct He as [now ->]. subst. by rewrite lookup_alter_ne.
  - destruct He as [now ->], Hp as [_ <-]. by rewrite lookup_alter_ne.
  - rewrite He. subst. case_decide; [by rewrite lookup_delete_ne|done].
Qed.
End streams.

(** ** The agent's streams *)
Section sessions.
Context `{!GoEnv, !GoEnvLaws, !GrpcLib, !BuildInfo, !ProtoLib, !ProtoLibLaws, !Tonic, !Transport}.
Variable ChainUnaryInterceptor : list UnaryInterceptor -> UnaryInterceptor.
Variable server : AgentServer.
Variable args : Args.
Variable resources : NodeResources.

#[local] Abbreviation id := (NodeResources_NodeId resources).
#[local] Abbreviation main_step := (main_step args resources).
#[local] Abbreviation cl_step := (cl_step ChainUnaryInterceptor server args resources).
#[local] Abbreviation cl_trace := (cl_trace ChainUnaryInterceptor server args resources).

(** Everything the agent has put into a stream. *)
Definition messages (k : link) : list HeartbeatRequest := lk_received k ++ lk_inflight k.

(** The agent, and the messages of its current stream. *)
Definition agent_at (st : main_state) (sent : list HeartbeatRequest) : Prop :=
  match st with
  | Connecting _ _ _ => sent = []
  | Selecting _ _ conn q => exists n, length sent = S n /\ q = as_u64 (Z.of_nat n)
  | Sending _ _ conn q req =>
      sent <> [] /\ nth_message id (length sent) req /\ q = as_u64 (Z.of_nat (length sent))
  | _ => False                                  (* it has let go *)
  end.
Definition agent_ok (st : main_state) : Prop :=
  match st with
  | Connecting _ _ p => opening resources p
  | Selecting _ _ conn _ | Sending _ _ conn _ _ => node_id conn = id
  | _ => True
  end.

Lemma after_round_ok' a b : agent_ok (after_round args a b).
Proof. unfold after_round. by destruct (_ && _). Qed.
Lemma start_round_ok' a b : agent_ok (start_round args resources a b).
Proof. apply connect_opening. Qed.
Lemma after_round_at a b : released (after_round args a b) = true.
Proof. unfold after_round. by destruct (_ && _). Qed.

Lemma agent_ok_step st i st' l : agent_ok st -> main_step st i = Some (st', l) -> agent_ok st'.
Proof.
  intros Hst Hs.
  destruct st as [a b [r|c k]|a b conn q|a b conn q req|a b|r|], i as [h|u|[o|]| |[]|];
    simpl in Hs; try discriminate; injection Hs as <- <-; try apply after_round_ok'; try done.
  - simpl in Hst. specialize (Hst (h c)). destruct (queued c (h c)).
    + destruct (k (h c)) as [[conn|e]|c' k']; [done|apply after_round_ok'|done].
    + by destruct Hst as [_ [ms ->]].
  - unfold woke. case_match; [done|apply start_round_ok'].
Qed.

(** A step of the agent inside its current stream. *)
Lemma agent_at_step st sent i st' l :
  agent_ok st -> agent_at st sent -> session id sent -> main_step st i = Some (st', l) ->
  session id (sent ++ l) /\ (released st' = false -> agent_at st' (sent ++ l)).
Proof.
  intros Hok Hat Hsess Hs.
  destruct st as [a b [r|c k]|a b conn q|a b conn q req|a b|r|], i as [h|u|[o|]| |[]|];
    simpl in Hs; try discriminate; injection Hs as <- <-; rewrite ?app_nil_r;
    try done; try (split; [done|by rewrite after_round_at]); try (by split).
  - simpl in Hok, Hat. subst sent. specialize (Hok (h c)). destruct (queued c (h c)) eqn:Eq.
    + split; [done|]. destruct (k (h c)) as [[conn|e]|c' k']; [done|simpl; by rewrite after_round_at|done].
    + destruct Hok as [-> [ms ->]]. split; [|by exists O]. intros [|i] m Hi; [|done].
      injection Hi as <-. by repeat split.
  - destruct Hat as (n & Hl & ->). split; [done|]. intros _. simpl. rewrite as_u64_succ.
    replace (Z.of_nat n + 1) with (Z.of_nat (length sent)) by lia.
    split; [by destruct sent|]. split; [|done]. repeat split; try done. simpl. lia.
  - destruct Hat as (Hne & Hm & ->). split; [by apply session_snoc|]. intros _. simpl.
    exists (length sent). rewrite length_app. simpl. split; [lia|done].
Qed.

(** A stream at the control plane. *)
Definition link_ok (k : link) : Prop :=
  session id (messages k) /\ hb_reach server (lk_ctx k) (lk_server k) (lk_received k)
  /\ pc_about id (hb_at (lk_server k)).

Definition sessions_ok (y : cluster) : Prop :=
  Forall link_ok (cl_links y) /\ agent_ok (cl_agent y)
  /\ forall j, cl_current y = Some j -> exists k, cl_links y !! j = Some k
       /\ agent_at (cl_agent y) (messages k).

Lemma session_all l : session id l -> Forall (fun m => HeartbeatRequest_NodeId m = id) l.
Proof. intros Hl. apply Forall_lookup. intros i m Hi. by destruct (Hl i m Hi). Qed.

(** Receiving takes a message off the way. *)
Lemma received_messages k i rest hb :
  server_may k i rest ->
  messages (mkLink (lk_ctx k) hb (lk_received k ++ received i) rest (lk_held k)) = messages k.
Proof.
  unfold messages. destruct i as [|[m|e]|e|e|]; simpl; intros Hi; rewrite ?app_nil_r; subst; try done.
  - by rewrite Hi, <- app_assoc.
  - by destruct Hi as [-> _].
Qed.

Lemma link_ok_step k i rest m w hb w' :
  link_ok k -> server_may k i rest -> hb_step server (lk_ctx k) (lk_server k) i = Some m ->
  m w = (Ret hb, w') ->
  link_ok (mkLink (lk_ctx k) hb (lk_received k ++ received i) rest (lk_held k)).
Proof.
  intros (Hs & Hr & Ha) Hmay Hst Hrun. unfold link_ok. rewrite received_messages by done. simpl.
  split; [done|]. split; [by eapply reach_step|]. eapply stream_about; [exact Ha| |exact Hst|exact Hrun].
  apply session_all in Hs. unfold messages in Hs. apply Forall_app in Hs as [_ Hin].
  destruct i as [|[r|e]|e|e|]; simpl in *; try constructor; [|constructor].
  rewrite Hmay in Hin. by apply Forall_cons in Hin as [? _].
Qed.

Lemma link_ok_push l k : link_ok k -> session id (messages k ++ l) -> link_ok (push l k).
Proof. intros (_ & Hr & Ha) Hs. split; [|done]. unfold messages. simpl. by rewrite app_assoc. Qed.

Lemma moved_ok y i w st l :
  sessions_ok y -> main_step (cl_agent y) i = Some (st, l) -> sessions_ok (agent_moved y w st l).
Proof.
  intros (Hks & Hok & Hcur) Hs. pose proof (agent_ok_step _ _ _ _ Hok Hs) as Hok'.
  unfold agent_moved, sessions_ok. destruct (cl_current y) as [j|] eqn:Ej.
  - destruct (Hcur j eq_refl) as (k & Hk & Hat).
    pose proof (Forall_lookup_1 _ _ _ _ Hks Hk) as Hlk.
    destruct (agent_at_step _ _ _ _ _ Hok Hat (proj1 Hlk) Hs) as [Hsess Hat'].
    assert (Hpush : Forall link_ok (alter (push l) j (cl_links y))).
    { apply Forall_alter; [done|]. intros k' Hk' _. simplify_eq. by apply link_ok_push. }
    destruct (released st); simpl.
    + split; [|by split]. apply Forall_alter; [done|]. intros k' Hk' Hlk'. exact Hlk'.
    + split; [done|]. split; [done|]. intros j' [= <-]. exists (push l k).
      rewrite list_lookup_alter_eq, Hk. split; [done|]. unfold messages. simpl.
      rewrite app_assoc. by apply Hat'.
  - destruct (released st); simpl; (split; [done|]); (split; [done|]); done.
Qed.

Lemma sessions_step y o y' : sessions_ok y -> cl_step y o y' -> sessions_ok y'.
Proof.
  intros Hy Hstep.
  destruct Hstep as [w' w st ks j|y i w st l Hmay Hs|w st ks a Hp|w w' st ks cur j k i m hb rest Hj Hmay Hs Hr].
  - exact Hy.
  - by eapply moved_ok.
  - destruct Hy as (Hks & Hok & _). split; [|split; [done|]]; simpl in *.
    + apply Forall_app_2; [done|]. apply Forall_singleton. split; [by intros i m Hi|]. split; [constructor|done].
    + intros j [= <-]. eexists. rewrite lookup_app_r, Nat.sub_diag by lia. split; [done|].
      by destruct st as [? ? [|]| | | | |].
  - destruct Hy as (Hks & Hok & Hcur). unfold sessions_ok. simpl in *. split; [|split; [done|]].
    + apply Forall_insert; [done|]. eapply link_ok_step; try done. by eapply Forall_lookup_1.
    + intros j' Hj'. destruct (Hcur j' Hj') as (k' & Hk' & Hat).
      destruct (decide (j = j')) as [->|Hne]; [|exists k'; by rewrite list_lookup_insert_ne].
      eexists. rewrite list_lookup_insert_eq by (by eapply lookup_lt_Some). split; [done|].
      simplify_eq. by rewrite received_messages.
Qed.

Lemma sessions_trace inputs y : cl_trace inputs y -> sessions_ok y.
Proof.
  induction 1 as [w|inputs y o y' _ IH Hs]; [|by eapply sessions_step].
  split; [constructor|]. split; [apply start_round_ok'|done].
Qed.

(** C18: whatever the transport does about headers, and whatever else happens on the server: each
    stream of an agent is its own.  What the control plane has received of it and what is
    still on its way is, in order, what the agent has put into it: messages numbered from 0 (as
    64-bit integers), all under the agent's node identity, without tasks, the first without and
    the others with a utilization.  The handler is in a state it reaches on what it has
    received; every acknowledgement it has sent has sequence number 0 and asks the agent's
    reader for nothing; no step of it changes another node; and with an identity of the allowed form every message passes the checks. *)
Theorem agent_streams inputs y j k :
  cl_trace inputs y -> cl_links y !! j = Some k ->
  (forall i m, (lk_received k ++ lk_inflight k) !! i = Some m -> nth_message id i m)
  /\ hb_reach server (lk_ctx k) (lk_server k) (lk_received k)
  /\ Forall (fun a => a = mkHeartbeatResponse true 0 [] [] /\ instructions a = []) (hb_sent (lk_server k))
  /\ (forall i m w hb w' node, hb_step server (lk_ctx k) (lk_server k) i = Some m ->
        m w = (Ret hb, w') -> node <> id -> w_nodes w' !! node = w_nodes w !! node)
  /\ (safe_id 255 id -> Forall heartbeat_valid (lk_received k ++ lk_inflight k)).
Proof.
  intros Ht Hk. destruct (sessions_trace _ _ Ht) as [Hks _].
  destruct (Forall_lookup_1 _ _ _ _ Hks Hk) as (Hs & Hr & Ha). split; [exact Hs|]. split; [exact Hr|].
  split; [|split].
  - destruct (reach_ok _ _ _ _ Hr) as [_ _ _ [->|(first & n & Hh & ->)] _]; [constructor|].
    apply Forall_app_2; [apply Forall_replicate; by split|]. apply Forall_singleton. unfold first_ack.
    destruct (Hs O first) as (_ & _ & -> & _); [|done]. unfold messages.
    by destruct (lk_received k).
  - intros i m w hb w' node Hst Hrun Hne. by eapply stream_isolated.
  - intros Hid. apply Forall_lookup. intros i m Hi. destruct (Hs i m Hi) as (Hn & Hts & _).
    unfold heartbeat_valid. rewrite Hn, Hts. split; [exact Hid|simpl; lia].
Qed.
End sessions.
