(* ===== verification/Witnesses.v ===== *)
(** Each property with hypotheses, applied at a concrete input where they hold: a test
    environment (clock, map orders, gRPC, files), small states and requests. *)
From S2P Require Import Prelude GoRuntime GoStrings GoTime PbResource PbAgent Grpc World Registry.
From S2P Require Import RegistrySafety RegistryApi Validator Metrics Agent AgentFacts Heartbeat.
From S2P Require Import HeartbeatBounds.
From S2P Require Import Json RestApi RestText TlsReload TlsSteps AgentGrpc MetricsSafety FailureDetector.
From S2P Require Import ControlPlane Server System RustStd AgentHost AgentClient AgentMain Cluster.
From S2P Require Import Shutdown Leases Sessions.
From Stdlib Require Import SpecFloat.
Local Open Scope string_scope.
Local Open Scope Z_scope.

#[local] Existing Instances test_env test_env_laws test_grpc test_grpc_laws test_proto
  test_proto_laws test_zone.
#[local] Instance test_build : BuildInfo :=
  {| agent_go := "/src/control-plane/internal/agent/agent.go" |}.

(** Files that never change: the text of a certificate is its path. *)
#[local] Instance test_fs : FileSystem := {|
  Certificate := string;
  CertPool := string;
  os_Stat _ _ := inr 1;
  tls_LoadX509KeyPair _ cp kp := inr (cp +:+ kp);
  os_ReadFile _ p := inr p;
  AppendCertsFromPEM pem := Some pem
|}.

(** A number's text is that of an integer code of it. *)
Definition float_code (f : spec_float) : option (bool * option (positive * Z)) :=
  match f with
  | S754_zero s => Some (s, None)
  | S754_finite s m e => Some (s, Some (m, e))
  | _ => None
  end.
Definition of_float_code (c : option (bool * option (positive * Z))) : spec_float :=
  match c with
  | Some (s, None) => S754_zero s
  | Some (s, Some (m, e)) => S754_finite s m e
  | None => S754_nan
  end.
#[local] Instance test_float : FloatText := {|
  AppendFloat f := int_token (Zpos (countable.encode (float_code f)));
  ParseFloat t := of_float_code <$> (token_int t ≫= fun z => countable.decode (Z.to_pos z))
|}.
#[local] Instance test_float_laws : FloatTextLaws.
Proof.
  split.
  - intros f _. apply int_token_ok.
  - intros f [_ Hf]. simpl. rewrite token_int_token. cbn [mbind option_bind Z.to_pos].
    rewrite countable.decode_encode. by destruct f.
Qed.

(** ** States *)
Definition w_zero : World := mkWorld ∅ ∅ [] 0.
Definition some_resources : NodeResources := NodeResources_Reset.
Definition op1 : reg_op := ORegister "n1" "10.0.0.1:9001" (Some some_resources).
Definition w_one : World := exec (run_op op1) w_zero.
Definition w_two : World := exec (run_op op1) w_one.
Definition a_task : TaskStatus := mkTaskStatus "t1" TaskState_TASK_STATE_RUNNING None 0 "".
Definition a_server : AgentServer := NewAgentServer "cluster-001" "localhost:9000" "secret".
Definition an_api : APIServer := NewAPIServer "key" true.
Definition good_ctx : Ctx := (Some [("authorization", "Bearer secret")], Some "10.0.0.1:5000").
Definition bad_ctx : Ctx := (Some [("authorization", "Bearer guess")], Some "10.0.0.9:5000").

Lemma w_zero_initial : initial w_zero.
Proof. done. Qed.
Lemma w_one_reachable : reachable w_one.
Proof. exists w_zero. split; [done|]. apply rtc_once, (step_op op1). Qed.

(** ** The registry *)
Lemma registry_invariant_witness :
  reachable w_one /\ series_value RegisteredNodes [] (w_trace w_one) = Z.of_nat (size (w_nodes w_one)).
Proof.
  split; [exact w_one_reachable|]. apply (registry_invariant w_one w_one_reachable).
Defined.

Lemma old_connection_witness :
  value (NodeRegistry_ConnectionID "n1") w_one = Some 1
  /\ exec (NodeRegistry_RemoveIfConnectionMatches "n1" 1) w_two = w_two.
Proof.
  split; [reflexivity|].
  apply (old_connection_removes_nothing "n1" w_one w_two 1 1).
  - exact w_one_reachable.
  - apply (stays_op "n1" op1 w_one w_two 0); [by eexists|]. apply stays_refl. by eexists.
  - lia.
  - reflexivity.
Defined.

Lemma tasks_gauge_witness :
  tasks_gauge_ok (exec (run_op (OHeartbeat "n1" None [a_task])) w_zero).
Proof. apply (tasks_gauge_preserved (OHeartbeat "n1" None [a_task]) w_zero); [reflexivity|discriminate]. Defined.

Lemma UpdateHeartbeat_witness :
  w_nodes w_one !! "n1" <> None
  /\ dom (w_nodes (exec (NodeRegistry_UpdateHeartbeat "n1" None [a_task]) w_one)) = dom (w_nodes w_one).
Proof.
  split; [discriminate|].
  destruct (UpdateHeartbeat_spec "n1" None [a_task] w_one) as (_ & _ & _ & Hd & _). exact Hd.
Defined.

Lemma cleanup_tick_witness : value (cleanup_tick (30 * Second)) w_one = Some tt.
Proof. apply (cleanup_tick_spec (30 * Second) w_one). Defined.

Lemma GetAll_witness : exists out, value NodeRegistry_GetAll w_one = Some out.
Proof. destruct (GetAll_spec w_one) as (out & Ho & _). exists out. exact Ho. Defined.

Lemma RemoveIf_witness : exec (NodeRegistry_RemoveIfConnectionMatches "n1" 7) w_one = w_one.
Proof. apply (RemoveIfConnectionMatches_spec "n1" 7 w_one). vm_compute. discriminate. Defined.

(** ** The checks *)
Lemma numeric_checks_witness :
  is_u64 4096 /\ ValidateMemorySize 4096 = None /\ ValidateGPUMemorySize 4096 = None.
Proof.
  split; [split; reflexivity || lia|].
  destruct (numeric_checks_spec 4096 1) as (Hm & Hg & _); [unfold is_u64; lia|].
  split; [apply Hm; lia|apply Hg; lia].
Defined.

Lemma command_env_witness :
  ValidateCommands ["sh"; "-c"] = None
  /\ value (ValidateEnvVars {["PATH" := "/bin"]}) w_zero = Some None.
Proof.
  destruct (command_env_checks_spec ["sh"; "-c"] {["PATH" := "/bin"]} w_zero)
    as (Hc & _ & e & He & Hiff & _); [vm_compute; reflexivity|].
  split; [apply Hc; vm_compute; discriminate|]. rewrite He. f_equal. apply Hiff.
  split; [vm_compute; lia|]. intros k v [<- <-]%lookup_singleton_Some. vm_compute.
  repeat split; discriminate.
Defined.

(** ** Metrics *)
Definition w_init : World := exec init w_zero.
Lemma w_init_ok : cache_ok w_init.
Proof. by apply init_cache_ok. Qed.

Lemma sanitizeMethod_witness :
  value (sanitizeMethod "/compute.v1.AgentService/Register") w_init
  = Some "compute.v1.AgentService.Register".
Proof.
  destruct (sanitizeMethod_spec "/compute.v1.AgentService/Register" w_init w_init_ok)
    as ((label & Hl & Hk & _) & _).
  rewrite Hl. f_equal. rewrite Hk; [reflexivity|].
  exists "AgentService/Register". split; [left|]. right; right. exists "compute", "v1".
  split; [reflexivity|]. split; [reflexivity|]. vm_compute. reflexivity.
Defined.

Definition ok_handler (_ : Ctx) (_ : unit) : Go World (unit * option error) :=
  Now ;; mret (tt, None).
Lemma Unary_witness :
  value (UnaryServerInterceptor good_ctx tt "/compute.v1.AgentService/Register" ok_handler) w_init
  = Some (tt, None).
Proof.
  destruct (UnaryServerInterceptor_spec good_ctx tt "/compute.v1.AgentService/Register"
    ok_handler w_init) as [Hr _].
  apply (Hr tt None (next_tick (next_tick w_init))); [reflexivity|exact w_init_ok|simpl; lia].
Defined.

Definition ok_stream (_ _ : unit) : Go World (option error) := Now ;; mret None.
Lemma Stream_witness :
  exists label, value (sanitizeMethod "/compute.v1.AgentService/Heartbeat") w_init = Some label.
Proof.
  destruct (StreamServerInterceptor_spec tt tt "/compute.v1.AgentService/Heartbeat" ok_stream
    w_init w_init_ok) as (label & w0 & Hl & _).
  exists label. exact Hl.
Defined.

(** ** The agent service *)
Definition two_checks : list validationCheck :=
  [newCheck None "a" (mret None); newCheck None "b" (mret (status_Error InvalidArgument "bad"))].
Lemma validateAll_witness :
  exists err k w, validateAll good_ctx "M" two_checks w_zero = (Ret (Some err), w)
  /\ w_tick w = k.
Proof.
  destruct (validateAll_first_failure good_ctx "M" two_checks [True; False] w_zero) as [_ Hf].
  - repeat constructor; apply check_mret; done.
  - destruct (Hf 1%nat False (newCheck None "b" (mret (status_Error InvalidArgument "bad"))))
      as (err & k & Hr & _); [by repeat constructor|done|tauto|done|].
    eexists err, _, _. split; [exact Hr|reflexivity].
Defined.

Definition a_task_spec : TaskSpec :=
  mkTaskSpec "t1" "j1" "a:1" ["true"] ∅ None [] [] 5.
Lemma ExecuteTask_witness :
  total_len (TaskSpec_Command a_task_spec) < 2 ^ 63
  /\ value (ExecuteTask a_server good_ctx a_task_spec) w_zero = Some (Some (mkTaskAck true ""), None).
Proof.
  assert (Hl : total_len (TaskSpec_Command a_task_spec) < 2 ^ 63) by (vm_compute; reflexivity).
  split; [exact Hl|].
  destruct (ExecuteTask_spec a_server good_ctx a_task_spec w_zero Hl) as (Hy & _).
  apply Hy.
  constructor; [|constructor; [|constructor; [|constructor; [|constructor; [|constructor]]]]].
  - exact (proj1 (proj1 (ValidateStringID_ok "t1" "task_id" 255)) ltac:(vm_compute; reflexivity)).
  - exact (proj1 (proj1 (ValidateStringID_ok "j1" "job_id" 255)) ltac:(vm_compute; reflexivity)).
  - destruct (ValidateContainerImage_ok "a:1") as [[Hi _] _].
    exact (Hi ltac:(vm_compute; reflexivity)).
  - vm_compute. discriminate.
  - split; [vm_compute; lia|]. intros k v Hkv.
    change (TaskSpec_Env a_task_spec) with (∅ : gmap string string) in Hkv.
    rewrite lookup_empty in Hkv. discriminate Hkv.
  - unfold id. simpl. lia.
  - constructor.
Defined.

Lemma AllocateMemory_witness :
  value (AllocateMemory a_server good_ctx (mkMemoryAllocRequest "m1" 4096 None false 2)) w_zero
  = Some (Some (mkMemoryAllocResponse true (Some (mkMemoryHandle "m1" "" 0 0 4096)) ""), None).
Proof.
  destruct (AllocateMemory_spec a_server good_ctx (mkMemoryAllocRequest "m1" 4096 None false 2)
    (mkGPUMemoryAllocRequest "g1" 4096 0) w_zero) as ((Hy & _) & _);
    [unfold is_u64; simpl; lia|unfold is_u64; simpl; lia|].
  apply Hy. repeat constructor; unfold id, safe_id; simpl; repeat split; vm_compute;
    repeat constructor; discriminate.
Defined.

Definition a_registration : RegisterRequest :=
  mkRegisterRequest "n1" "10.0.0.1:9001" (Some some_resources) "1.0.0".
Lemma Register_rpc_witness :
  value (AgentServer_Register a_server good_ctx a_registration) w_zero
  = Some (Some (mkRegisterResponse true "cluster-001" "localhost:9000" 5000), None).
Proof.
  destruct (AgentServer_Register_spec a_server good_ctx a_registration w_zero) as (Hy & _).
  destruct (Hy) with (r := some_resources) as [Hv _]; [|reflexivity|exact Hv].
  unfold safe_id, plain_text. simpl. repeat split; try (vm_compute; repeat constructor; discriminate);
    intros Hin; vm_compute in Hin; repeat (apply elem_of_cons in Hin as [Hin|Hin]; [discriminate|]);
    by apply not_elem_of_nil in Hin.
Defined.

(** ** Heartbeat streams *)
Definition beat : HeartbeatRequest := mkHeartbeatRequest "n1" 7 None [a_task].
Lemma beat_valid : heartbeat_valid beat.
Proof.
  split; [|vm_compute; discriminate].
  exact (proj1 (proj1 (ValidateStringID_ok "n1" "node_id" 255)) ltac:(vm_compute; reflexivity)).
Qed.

Definition after (ctx : Ctx) (inputs : list hb_input) : option (hb_stream * World) :=
  hb_run a_server ctx hb_open inputs w_one.

Lemma heartbeat_acks_witness :
  exists st w', after good_ctx [IStep; IRecv (RecvMsg beat); IStep; IStep; ISend None; ITick None]
    = Some (st, w')
  /\ length (hb_sent st) = 2%nat
  /\ (hb_sent st = [] \/ exists first rest n, [beat] = first :: rest
        /\ hb_sent st = (replicate n (mkHeartbeatResponse true 0 [] [])
          ++ [mkHeartbeatResponse true (HeartbeatRequest_Sequence first) [] []])%list).
Proof.
  destruct (after good_ctx [IStep; IRecv (RecvMsg beat); IStep; IStep; ISend None; ITick None])
    as [[st w']|] eqn:E; [|vm_compute in E; discriminate E].
  assert (Hl : length (hb_sent st) = 2%nat)
    by (vm_compute in E; injection E as <- <-; reflexivity).
  exists st, w'. split; [reflexivity|]. split; [exact Hl|].
  apply (heartbeat_acks a_server good_ctx st [beat]).
  exact (hb_run_reach _ _ _ _ _ _ _ _ (reach_open _ _) E).
Defined.

Lemma heartbeat_unauthenticated_witness :
  checkAuth a_server bad_ctx = Some (StatusError PermissionDenied "invalid token")
  /\ exists st w', after bad_ctx [IStep] = Some (st, w') /\ hb_sent st = [].
Proof.
  split; [vm_compute; reflexivity|].
  destruct (after bad_ctx [IStep]) as [[st w']|] eqn:E; [|vm_compute in E; discriminate E].
  exists st, w'. split; [reflexivity|].
  apply (heartbeat_unauthenticated a_server bad_ctx st []
    (StatusError PermissionDenied "invalid token")); [vm_compute; reflexivity|].
  exact (hb_run_reach _ _ _ _ _ _ _ _ (reach_open _ _) E).
Defined.

Lemma heartbeat_session_witness :
  exists st w', hb_run a_server good_ctx hb_open (session_inputs beat [beat] EOF) w_one = Some (st, w')
  /\ w_nodes w' !! "n1" = None.
Proof.
  destruct (heartbeat_session_spec a_server good_ctx beat [beat] EOF w_one)
    as (st & w' & Hr & _ & _ & Hn & _).
  - vm_compute. reflexivity.
  - constructor; [exact beat_valid|constructor; [exact beat_valid|constructor]].
  - exists st, w'. split; [exact Hr|exact Hn].
Defined.

Definition long_id : HeartbeatRequest := mkHeartbeatRequest "" 8 None [].
Lemma heartbeat_early_end_witness :
  exists run st' w' err,
    hb_step a_server good_ctx (mkStream (HbRecv "n1" 1) TickerRunning []) (IRecv (RecvMsg long_id))
      = Some run
    /\ run w_one = (Ret st', w') /\ hb_at st' = HbDone (Some err) /\ w_nodes w' = w_nodes w_one.
Proof.
  destruct (heartbeat_early_end a_server good_ctx (mkStream (HbRecv "n1" 1) TickerRunning []) w_one)
    as [He _].
  apply (He "n1" 1 long_id); [reflexivity|]. intros [[_ Hs] _]. vm_compute in Hs. exact Hs.
Defined.

Lemma heartbeat_terminates_witness :
  exists st, hb_trace a_server good_ctx [IStep; IRecv (RecvErr EOF)] st
  /\ ((exists e, IRecv (RecvErr e) ∈ [IStep; IRecv (RecvErr EOF)]) -> ending (hb_at st)).
Proof.
  assert (Ht : hb_trace a_server good_ctx [IStep; IRecv (RecvErr EOF)]
                 (mkStream (HbDone None) TickerNone [])).
  { apply (trace_step a_server good_ctx [IStep] (mkStream HbRecvFirst TickerNone []) _
      (mret (HbDone None) ≫= (fun pc => mret (mkStream pc TickerNone []))) w_zero _ w_zero);
      [|reflexivity|reflexivity].
    apply (trace_step a_server good_ctx [] hb_open _
      (mret HbRecvFirst ≫= (fun pc => mret (mkStream pc TickerNone []))) w_zero _ w_zero);
      [apply trace_open|reflexivity|reflexivity]. }
  eexists. split; [exact Ht|]. apply (heartbeat_terminates a_server good_ctx _ _ Ht).
Defined.

(** ** HTTP *)
Definition a_request (key : string) : Request :=
  mkRequest (fun h => if String.eqb h "X-API-Key" then key else "") (fun _ => "").
Lemma NodesHandler_witness :
  exists rw w', NodesHandler an_api fresh_writer (a_request "key") w_one = (Ret rw, w').
Proof.
  destruct (NodesHandler_spec an_api (a_request "key") w_one) as (rw & w' & h & l & Hr & _).
  exists rw, w'. exact Hr.
Defined.

Lemma last_beat_witness :
  Parse_RFC3339 (nr_LastBeat (node_response
    (mkNodeSummary "n1" "" "" (mkTime (1709253296 * Second) 0) None None [] 1))) = Some 1709253296.
Proof.
  apply (last_beat_roundtrip (mkNodeSummary "n1" "" "" (mkTime (1709253296 * Second) 0) None None [] 1));
    vm_compute; repeat split; discriminate.
Defined.

(** A node with 64 GiB of memory and a graphics card. *)
Definition a_gpu : GpuResources := GpuResources_Reset.
Definition a_node : NodeInfo := {|
  NodeID := "n1"; Address := "10.0.0.1:9001";
  Resources := Some (mkNodeResources "n1" "host-1" (Some CpuResources_Reset)
    (Some (mkMemoryResources (2 ^ 36) 0 0 0 "ddr5" [])) [a_gpu] None None [] "" "");
  LastBeat := mkTime (1709253296 * Second) 0; Tasks := ∅; ConnectionID := 1 |}.
Definition w_listed : World := mkWorld {["n1" := a_node]} ∅ [] 0.

Lemma listing_text_witness :
  exists rw w' h l, NodesHandler an_api fresh_writer (a_request "key") w_listed = (Ret rw, w')
  /\ sent rw = Some (200, h) /\ read_nodes (body_text rw) = Some l /\ nr_Hostname <$> head l = Some "host-1".
Proof.
  destruct (listing_text_roundtrip an_api (a_request "key") w_listed) as (rw & w' & h & l & Hr & Hs & _ & _ & Ht & Hl).
  - apply map_Forall_singleton. unfold node_ok. split_and!; try reflexivity.
    + intros m [= <-]. done.
    + by repeat constructor.
    + vm_compute. discriminate.
    + vm_compute. discriminate.
  - exists rw, w', h, l. split; [exact Hr|]. split; [exact Hs|]. split; [exact Ht|].
    unfold w_listed, w_nodes in Hl. rewrite map_to_list_singleton in Hl. simpl in Hl.
    apply Permutation_singleton_r in Hl.
    apply (f_equal (fmap fst)) in Hl. rewrite <- list_fmap_compose in Hl.
    unfold compose in Hl. cbn [fst] in Hl. rewrite list_fmap_id in Hl. rewrite Hl. reflexivity.
Defined.

(** ** TLS *)
Lemma reloader_serves_witness :
  exists r c, value (New "cert" "key" "ca") w_zero = Some (Some r, None)
  /\ GetCertificate r = (Some c, None).
Proof.
  destruct (value (New "cert" "key" "ca") w_zero) as [[[r|] [e|]]|] eqn:E;
    try (vm_compute in E; discriminate E).
  destruct (reloader_serves "cert" "key" "ca" w_zero r r w_zero E) as (c & Hc & _);
    [vm_compute; discriminate|apply later_refl|].
  exists r, c. split; [reflexivity|exact Hc].
Defined.

Definition old_reloader : CertReloader :=
  mkReloader (Some "old") (Some "oldca") true "cert" "key" "ca" 0 0 0.
Lemma Reload_converges_witness :
  exists r', value (Reload old_reloader) w_zero = Some r' /\ certMod r' = 1.
Proof.
  destruct (Reload_converges old_reloader w_zero 1 1 1 ("cert" +:+ "key") "ca" "ca")
    as (r' & Hr & Hc & _).
  - intros t _. repeat split.
  - exists r'. split; [exact Hr|exact Hc].
Defined.

(** ** The whole process *)
Definition test_chain (l : list UnaryInterceptor) : UnaryInterceptor :=
  fun Req Resp ctx req full handler =>
    foldr (fun (i : UnaryInterceptor) h => fun ctx req => i Req Resp ctx req full h) handler l ctx req.
Lemma test_chain_two (a b : UnaryInterceptor) Req Resp ctx (req : Req) full
    (handler : UnaryMethod Req Resp) :
  test_chain [a; b] Req Resp ctx req full handler =
  a Req Resp ctx req full (fun ctx req => b Req Resp ctx req full handler).
Proof. reflexivity. Qed.

(** The Prometheus handler leaves everything as it is. *)
Definition test_scrape : HandlerFunc := fun rw _ => mret rw.
Lemma test_scrape_reads rw r w : (test_scrape rw r w).2 = w.
Proof. reflexivity. Qed.

(** A served call: the registration of a node. *)
Lemma w_init_typed : world_typed w_init.
Proof. split; [exact w_init_ok|]. split; [constructor|]. apply map_Forall_empty. Qed.

Lemma a_registration_valid : request_valid Method_Register a_registration.
Proof.
  unfold request_valid. simpl. unfold safe_id, plain_text, id.
  repeat (constructor; [simpl; repeat split; try (vm_compute; repeat constructor; discriminate);
    intros Hin; vm_compute in Hin; repeat (apply elem_of_cons in Hin as [Hin|Hin]; [discriminate|]);
    by apply not_elem_of_nil in Hin|]). constructor.
Qed.

Lemma good_credentials : bearer_accepted good_ctx "secret".
Proof. right. eexists. split; [reflexivity|]. vm_compute. constructor. Qed.

Lemma served_call_witness :
  value (serve_unary test_chain a_server Method_Register good_ctx (inr a_registration)) w_init
  = Some (Some (mkRegisterResponse true "cluster-001" "localhost:9000" 5000), None).
Proof.
  destruct (served_call_spec test_chain test_chain_two a_server Method_Register good_ctx
    (inr a_registration) w_init w_init_ok) as (_ & Hcall).
  destruct (Hcall a_registration eq_refl I) as (_ & _ & Hok & _).
  destruct (Hok good_credentials a_registration_valid) as [[Hv _] _]; [discriminate|exact Hv].
Defined.

Lemma served_call_typed_witness :
  world_typed (exec (serve_unary test_chain a_server Method_Register good_ctx (inr a_registration)) w_init).
Proof.
  pose proof (served_call_typed test_chain test_chain_two a_server Method_Register good_ctx
    a_registration w_init w_init_typed I) as Hw. cbv zeta in Hw. exact (proj1 Hw).
Defined.

(** A process that has started, with TLS. *)
Definition a_host : Host := mkHost "host-1" "1234" (fun _ => None) (fun _ => 1).
Definition some_flags : Flags :=
  mkFlags ":9000" ":8080" "" "info" true "secret" "key" "cert" "key" "" false (60 * Second).
Definition a_process : Process := {|
  p_logLevel := 1; p_nodeID := "host-1"; p_staleThreshold := 30 * Second;
  p_agent := mkAgentServer "cluster-1234" "localhost:9000" "secret";
  p_api := mkAPIServer "key" true; p_tlsEnabled := true;
  p_reloader := Some (mkReloader (Some "certkey") None false "cert" "key" "" 1 1 zeroTime);
  p_watch := Some (60 * Second); p_keepalive := keepalive_params;
  p_creds := Some (TlsPerClient 0x0304); p_http := http_server ":8080" true
|}.
Definition y_start : system := mkSystem (exec (startup a_host some_flags) w_init) [] (p_reloader a_process).

Lemma y_start_reachable : sys_reachable test_chain test_scrape a_process y_start.
Proof.
  exists y_start. split; [|apply rtc_refl].
  exists a_host, some_flags, w_zero, (exec (startup a_host some_flags) w_init).
  do 3 (split; [reflexivity|]). split; [vm_compute; reflexivity|reflexivity].
Qed.

(** ... and after a registration over gRPC. *)
Definition register_n1 : Go World (option RegisterResponse * option error) :=
  serve_unary test_chain (p_agent a_process) Method_Register good_ctx (inr a_registration).
Definition y_joined : system :=
  mkSystem (exec register_n1 (sys_world y_start)) [] (p_reloader a_process).

Lemma y_joined_does :
  sys_does test_chain test_scrape a_process
    (LUnary Method_Register good_ctx (inr a_registration)) y_start y_joined.
Proof.
  unfold y_joined, y_start. simpl.
  eapply (sys_unary _ _ a_process Method_Register good_ctx (inr a_registration)); [done|].
  vm_compute. reflexivity.
Qed.
Lemma y_joined_step : rtc (sys_step test_chain test_scrape a_process) y_start y_joined.
Proof. apply rtc_once. eexists. exact y_joined_does. Qed.

(** What the event of a registration can be. *)
Lemma register_event token y l oe :
  causes token y l oe ->
  match l with
  | LUnary Method_Register ctx (inr req) =>
      (bearer_accepted ctx token /\ exists res,
         oe = Some (Join (RegisterRequest_NodeId req) (RegisterRequest_Address req) res))
      \/ (~ (bearer_accepted ctx token /\ request_valid Method_Register req) /\ oe = None)
  | _ => True
  end.
Proof.
  destruct 1 as [ctx req res Ha Hv Hr|ctx req Hn|ctx err|m ctx dec Hm|j st i Hj He| |l Hl]; simpl;
    try exact I; [by left; eauto|by right|destruct m; try exact I; done|by destruct l].
Qed.

Lemma implements_leases_witness :
  exists t addr res,
  leases (sys_world y_joined) = lease_step (leases (sys_world y_start)) (t, Join "n1" addr res)
  /\ bearer_accepted good_ctx (agentToken (p_agent a_process)).
Proof.
  destruct (process_implements_leases test_chain test_chain_two test_scrape test_scrape_reads
    a_process) as [_ Hsim].
  destruct (Hsim y_start _ y_joined y_start_reachable
    (trace_cons _ _ _ _ _ _ _ _ y_joined_does (trace_nil _ _ _ _))) as (log & Hl & _ & Hlog).
  apply Forall2_cons_inv_l in Hlog as ([[t e]|] & log' & [Hc _] & Hnil & ->);
    apply Forall2_nil_inv_l in Hnil as ->.
  - apply register_event in Hc as [[Ha [res [= ->]]]|[_ Hnone]]; [|discriminate Hnone].
    exists t, (RegisterRequest_Address a_registration), res. split; [exact Hl|exact Ha].
  - exfalso. simpl in Hl. vm_compute in Hl. discriminate Hl.
Defined.

Lemma vetted_witness :
  exists n, w_nodes (sys_world y_joined) !! "n1" = Some n /\ NodeID n = "n1" /\ safe_id 255 "n1".
Proof.
  destruct (w_nodes (sys_world y_joined) !! "n1") as [n|] eqn:E; [|vm_compute in E; discriminate E].
  exists n. split; [reflexivity|].
  destruct (registered_nodes_vetted test_chain test_chain_two test_scrape test_scrape_reads
    a_process y_joined "n1" n) as (_ & Hid & Hsafe & _); [|exact E|by split].
  destruct y_start_reachable as (y0 & Hs & Hr). exists y0. split; [exact Hs|].
  etrans; [exact Hr|exact y_joined_step].
Defined.

Lemma system_witness : reachable (sys_world y_start).
Proof.
  apply (system_refines_registry test_chain test_chain_two test_scrape test_scrape_reads a_process
    y_start y_start_reachable).
Defined.

Lemma process_invariant_witness : calls (sys_world y_start) = [].
Proof.
  apply (process_invariant test_chain test_chain_two test_scrape test_scrape_reads a_process
    y_start y_start_reachable).
Defined.

(** A termination while a client has a stream open: the main goroutine is in [GracefulStop]. *)
#[local] Instance test_graceful : GracefulGrpc := {|
  stop_returns sts := Forall finished sts;
  admits stopping l := stopping = true -> new_rpc l = false
|}.
#[local] Instance test_graceful_laws : GracefulLaws.
Proof. by split; [done|intros l [=]|intros l; split; [intros Hl; apply Hl|intros Hl _]]. Qed.

Definition w_ready : World :=
  exec (log LInfo "compute-control-plane initialized and ready" []) (sys_world y_start).
Definition heartbeat_opened : Go World (string * Time) :=
  stream_open AgentService_Heartbeat_FullMethodName.
Definition w_stopping : World :=
  exec (on_signal (p_reloader a_process) SIGTERM ;; graceful_stop) (exec heartbeat_opened w_ready).
Definition d_stopping : daemon :=
  mkDaemon (mkSystem w_stopping [mkServed good_ctx hb_open heartbeat_label
              (now_at (w_tick w_ready)) true] (p_reloader a_process)) MainGracefulWait None.

Lemma d_stopping_reachable : daemon_reachable test_chain test_scrape a_process d_stopping.
Proof.
  exists (mkDaemon (mkSystem w_ready [] (p_reloader a_process)) MainReceive None).
  split.
  { eexists _, _, _. split; [|reflexivity].
    exists a_host, some_flags, w_zero, (exec (startup a_host some_flags) w_init).
    do 3 (split; [reflexivity|]). split; [vm_compute; reflexivity|reflexivity]. }
  eapply rtc_l.
  { right. eapply (env_process _ _ _ (LOpen good_ctx)); [|done..].
    eapply (sys_open _ _ a_process good_ctx heartbeat_label (now_at (w_tick w_ready)) w_ready
      (exec heartbeat_opened w_ready)). vm_compute. reflexivity. }
  eapply rtc_l; [right; by apply (env_signal _ _ _ SIGTERM)|].
  eapply rtc_l; [left; apply main_receive|].
  eapply rtc_l; [left; eapply (main_switch SIGTERM); reflexivity|].
  apply rtc_once. left. apply main_stop. reflexivity.
Qed.

Lemma main_shuts_down_witness :
  ~ (exists d', main_goroutine d_stopping d')
  /\ exists d', rtc (daemon_step test_chain test_scrape a_process) d_stopping d'
     /\ d_main d' = MainReturned.
Proof.
  destruct (main_shuts_down_in_order test_chain test_chain_two test_scrape test_scrape_reads
    a_process d_stopping d_stopping_reachable) as (_ & _ & Hready & _ & _ & Hrest).
  split.
  - intros Hstep. apply (proj1 Hready Hstep). intros Hall. apply Forall_cons in Hall as [Hopen _].
    discriminate Hopen.
  - exact (proj2 (Hrest 3%nat eq_refl)).
Defined.

Lemma old_stream_witness :
  exists y, rtc (sys_step test_chain test_scrape a_process) y_start y
  /\ w_nodes (sys_world y) !! "n1" = None
  /\ exists j st, sys_streams y !! j = Some st /\ hb_at (ss_hb st) = HbRecv "n1" 1.
Proof.
  destruct (old_stream_removes_new_node test_chain test_chain_two test_scrape test_scrape_reads
    a_process y_start good_ctx a_registration some_resources beat y_start_reachable
    good_credentials a_registration_valid eq_refl beat_valid eq_refl)
    as (ya & yb & yc & j & n & Hr & Hn & (st & Hj & Hst) & _); [vm_compute; reflexivity|].
  exists ya. split; [exact Hr|]. split; [exact Hn|]. exists j, st. split; [exact Hj|exact Hst].
Defined.

(** The failure detector: a node registered at time 0, a cleanup with threshold 10 ns at
    time 20, with and without a beat at time 15. *)
Definition wait (t : nat) (w : World) : World := mkWorld (w_nodes w) (w_known w) (w_trace w) t.
Definition w_beat : World := wait 15 w_one.
Definition w_late : World := wait 20 w_one.
Definition w_kept : World := wait 20 (exec (run_op (OHeartbeat "n1" None [])) w_beat).

Lemma silent_node_witness :
  w_nodes (exec (run_op (OCleanup 10)) w_late) !! "n1" = None.
Proof.
  apply (silent_node_evicted "n1" 10 w_one [(w_late, OCleanup 10)]
    (exec (run_op (OCleanup 10)) w_late) w_late
    (mkNodeInfo "n1" "10.0.0.1:9001" (Some some_resources) (mkTime 0 0) ∅ 1)).
  - apply (timed_frame w_one w_late); [by split|vm_compute; lia|]. apply timed_op, timed_nil.
  - repeat constructor. simpl. tauto.
  - left.
  - vm_compute. reflexivity.
  - unfold is_i64. simpl. lia.
  - vm_compute. split; [discriminate|reflexivity].
  - vm_compute. reflexivity.
Defined.

Lemma two_split {A} (x y z : A) a b :
  [x; y] = (a ++ z :: b)%list -> (a = [] /\ x = z) \/ (a = [x] /\ y = z).
Proof. destruct a as [|? [|? [|]]]; simpl; intros [=]; subst; auto. Qed.

Lemma beating_node_witness :
  is_Some (w_nodes (exec (run_op (OCleanup 10)) w_kept) !! "n1").
Proof.
  apply (beating_node_survives "n1" 10 w_one
    [(w_beat, OHeartbeat "n1" None []); (w_kept, OCleanup 10)] (exec (run_op (OCleanup 10)) w_kept)
    (mkNodeInfo "n1" "10.0.0.1:9001" (Some some_resources) (mkTime 0 0) ∅ 1)).
  - apply (timed_frame w_one w_beat); [by split|vm_compute; lia|]. apply timed_op.
    apply (timed_frame _ w_kept); [by split|vm_compute; lia|]. apply timed_op, timed_nil.
  - repeat constructor; simpl; tauto.
  - vm_compute. reflexivity.
  - unfold is_i64. simpl. lia.
  - vm_compute. discriminate.
  - vm_compute. split; [discriminate|reflexivity].
  - intros a v th b [[_ Hz]|[-> Hz]]%two_split.
    + apply (f_equal snd) in Hz. discriminate Hz.
    + pose proof (f_equal fst Hz : w_kept = v) as <-. apply (f_equal snd) in Hz. injection Hz as <-.
      split; [reflexivity|]. right. exists w_beat, (OHeartbeat "n1" None []).
      split; [left|]. split; [reflexivity|]. vm_compute. discriminate.
Defined.

(** Two loads of one reloader, the second started. *)
Lemma overlapping_loads_witness :
  reloader_ok old_reloader /\ reloader_ok (tls_reloader (mkTls old_reloader [LStatCert; LStatCert] w_zero)).
Proof.
  assert (Hok : reloader_ok old_reloader) by (split; [by eexists|reflexivity|by eexists]).
  split; [exact Hok|].
  apply (overlapping_loads_are_whole old_reloader w_zero (mkTls old_reloader [LStatCert; LStatCert] w_zero)).
  - eapply rtc_l; [apply (tls_start _ [])|]. apply rtc_once, (tls_start _ [LStatCert]).
  - exact Hok.
Defined.

Lemma metric_calls_witness : trace_ok (exec (run_op op1) w_one).
Proof.
  destruct (metric_calls_accepted a_server good_ctx w_one) as [Ho _].
  - repeat constructor.
  - apply Ho.
Defined.

(** ** The node agent *)
#[local] Instance test_tonic : Tonic := {| MetadataValue_ok _ := true |}.

Definition a_machine : Machine := {|
  hostname_get _ := Some "worker-1";
  physical_core_count := Some 4;
  cpus := [mkCpuReading "cpu0" (S754_zero false)];
  total_memory := 2 ^ 36;
  available_memory := 2 ^ 35;
  load_average := (S754_zero false, S754_zero false, S754_zero false);
  consts_ARCH := "x86_64";
  read_to_string p :=
    if String.eqb p "/proc/mounts" then Some (mounts_text [mkMount "/dev/sda1" "/" "ext4" ["rw"; "0"; "0"];
      mkMount "proc" "/proc" "proc" ["rw"; "0"; "0"]]) else None;
  networks := [];
  uname_release := Some "6.1";
  nvml := Some (mkNvml (Some 1) (fun _ => Some (mkDevice (Some "RTX") (Some (2 ^ 34, 2 ^ 33)) (Some (50, 10))
    (Some 60) (Some 250500) None (Some 1500) None)));
  system_time := Some 1709253296000000000
|}.
Definition some_args : Args := {|
  control_plane := "http://localhost:9000"; host_args := mkHostArgs None None;
  AgentMain.agent_token := "secret"; tls_ca_cert := None; tls_cert := None; tls_key := None;
  tls_domain := "control-plane"; max_reconnect_attempts := 2; reconnect_backoff_secs := 1 |}.


Lemma collect_utilization_witness :
  exists m, NodeUtilization_Memory (collect_utilization a_machine) = Some m
  /\ MemoryUtilization_UsedBytes m <= 2 ^ 36.
Proof.
  destruct (collect_utilization_bounds a_machine) as [(m & Hm & _ & Hle & _) _].
  - split; [by vm_compute|]. split; [by vm_compute|]. intros n [= <-] i d [= <-].
    split_and!; simpl; intros ? [= <-]; by vm_compute.
  - exists m. by split.
Defined.

(** An environment that refuses every connection. *)
Definition refused : forall c, option (Reply c) := fun _ => None.
Lemma main_gives_up_witness :
  exists st, main_run some_args some_resources (main some_args some_resources)
      [InReply refused; InSlept; InReply refused] = Some (st, [])
  /\ st = Exited (Err "max reconnection attempts (2) reached").
Proof.
  destruct (main_run some_args some_resources (main some_args some_resources)
      [InReply refused; InSlept; InReply refused]) as [[st sent]|] eqn:E; [|vm_compute in E; discriminate E].
  destruct (main_gives_up some_args some_resources _ st sent ltac:(vm_compute; done) ltac:(vm_compute; done) E)
    as (-> & _ & Hst & _); [by repeat constructor|].
  exists st. split; [done|]. vm_compute in E. by injection E as <-.
Defined.

(** One that answers everything. *)
Definition willing : forall c, option (Reply c) := fun c =>
  match c return option (Reply c) with
  | fs_read _ => Some "pem"
  | client_register _ _ => Some (mkRegisterResponse true "cluster-001" "localhost:9000" 5000)
  | _ => Some tt
  end.
Lemma agent_messages_witness :
  exists st sent, main_run some_args some_resources (main some_args some_resources)
      [InReply willing; InReply willing; InReply willing; InReply willing; InReply willing;
       InTick None; InSent true; InInstruction None; InSlept] = Some (st, sent)
  /\ length sent = 2%nat /\ numbered some_resources sent.
Proof.
  destruct (main_run some_args some_resources (main some_args some_resources)
      [InReply willing; InReply willing; InReply willing; InReply willing; InReply willing;
       InTick None; InSent true; InInstruction None; InSlept]) as [[st sent]|] eqn:E;
    [|vm_compute in E; discriminate E].
  exists st, sent. split; [done|]. pose proof (agent_messages some_args some_resources _ st sent E) as Hn.
  split; [|exact Hn]. vm_compute in E. by injection E as _ <-.
Defined.

Definition a_response : HeartbeatResponse := mkHeartbeatResponse true 0 [mkPendingTask None] ["t1"].
Lemma reader_delivers_witness :
  exists st taken, reader_run reader_start [RMessage a_response; RSend; RNext; RSend] = Some (st, taken)
  /\ (taken ++ rd_channel st)%list = [PendingTasks [mkPendingTask None]; CancelTasks ["t1"]].
Proof.
  destruct (reader_run reader_start [RMessage a_response; RSend; RNext; RSend]) as [[st taken]|] eqn:E;
    [|vm_compute in E; discriminate E].
  destruct (reader_delivers _ st taken E) as (_ & Ha & _).
  exists st, taken. split; [done|]. vm_compute in E. injection E as <- <-.
  rewrite <- (app_nil_r (rd_channel _)). apply Ha.
  intros Hin. repeat (apply elem_of_cons in Hin as [Hin|Hin]; [discriminate Hin|]).
  by apply not_elem_of_nil in Hin.
Defined.

(** *** The agent with the control plane *)
Definition test_call_ctx (a : option string) : Ctx :=
  (Some (match a with Some v => [("authorization", v)] | None => [] end), Some "10.0.0.1:5000").
(** Headers go out with the first response or the status; or, in the second, early. *)
Definition test_transport : Transport := {|
  call_ctx := test_call_ctx;
  headers_sent st := negb (bool_decide (hb_sent st = []))
                     || match hb_at st with HbDone _ => true | _ => false end |}.
Definition early_transport : Transport := {|
  call_ctx := test_call_ctx;
  headers_sent st := match hb_at st with HbAuth => false | _ => true end |}.
Lemma test_transport_laws : @TransportLaws _ test_transport.
Proof.
  split.
  - intros a. eexists. split; [done|]. by destruct a.
  - intros st. simpl. rewrite orb_true_iff. intros [H|H].
    + left. by case_bool_decide.
    + right. destruct (hb_at st); try done. eauto.
Qed.

Definition worker : NodeResources := discover_resources a_machine (mkHostArgs None None).
Definition test_trace (tr : Transport) :=
  @cl_trace _ _ _ _ _ tr test_chain a_server some_args worker.
Definition next (st : main_state) : main_state :=
  match main_step some_args worker st (InReply willing) with Some (st', _) => st' | None => Aborted end.
Definition st_start : main_state := main some_args worker.
Definition st_opening : main_state := next (next (next st_start)).
Definition worker_registration : Go World (option RegisterResponse * option error) :=
  serve_unary test_chain a_server Method_Register (test_call_ctx (Some "Bearer secret"))
    (inr (register_request worker)).
Definition w_registered : World := exec worker_registration w_zero.
Definition opening_inputs : list main_input := [InReply willing; InReply willing; InReply willing].

(** The agent waits for the headers of its stream, the server for the first message. *)
Definition y_opened (tr : Transport) : cluster :=
  mkCluster w_registered st_opening
    [mkLink (@call_ctx _ tr (Some "Bearer secret")) (mkStream HbRecvFirst TickerNone []) [] [] true] (Some O).

Lemma opened (tr : Transport) :
  (forall a, @call_ctx _ tr a = test_call_ctx a) -> test_trace tr opening_inputs (y_opened tr).
Proof.
  intros Hctx. unfold test_trace.
  assert (T0 : test_trace tr [] (mkCluster w_zero st_start [] None)) by constructor.
  assert (T1 : test_trace tr [InReply willing] (mkCluster w_zero (next st_start) [] None)).
  { refine (cl_more _ _ _ _ _ _ (Some (InReply willing)) _ T0 _).
    apply (cl_agent_step _ _ _ _ (mkCluster w_zero st_start [] None) _ w_zero (next st_start) []);
      [by intros c [= <-]|reflexivity]. }
  assert (T2 : test_trace tr [InReply willing; InReply willing]
                 (mkCluster w_zero (next (next st_start)) [] None)).
  { refine (cl_more _ _ _ _ _ _ (Some (InReply willing)) _ T1 _).
    apply (cl_agent_step _ _ _ _ (mkCluster w_zero (next st_start) [] None) _ w_zero
      (next (next st_start)) []); [by intros c [= <-]|reflexivity]. }
  assert (T3 : test_trace tr opening_inputs (mkCluster w_registered st_opening [] None)).
  { refine (cl_more _ _ _ _ _ _ (Some (InReply willing)) _ T2 _).
    apply (cl_agent_step _ _ _ _ (mkCluster w_zero (next (next st_start)) [] None) _ w_registered
      st_opening []); [|reflexivity].
    intros c [= <-]. left. eexists. split; [reflexivity|]. rewrite Hctx. vm_compute. reflexivity. }
  assert (T4 : test_trace tr opening_inputs (mkCluster w_registered st_opening
    [mkLink (@call_ctx _ tr (Some "Bearer secret")) hb_open [] [] true] (Some O))).
  { refine (cl_more _ _ _ _ _ _ None _ T3 _). exact (cl_open _ _ _ _ w_registered st_opening [] (Some "Bearer secret") eq_refl). }
  refine (cl_more _ _ _ _ _ _ None _ T4 _).
  refine (cl_server_step _ _ _ _ w_registered w_registered st_opening
    [mkLink (@call_ctx _ tr (Some "Bearer secret")) hb_open [] [] true] (Some O) O
    (mkLink (@call_ctx _ tr (Some "Bearer secret")) hb_open [] [] true) IStep _
    (mkStream HbRecvFirst TickerNone []) [] eq_refl eq_refl eq_refl _).
  simpl. rewrite Hctx. reflexivity.
Qed.

Lemma never_opens_witness :
  exists y, test_trace test_transport opening_inputs y
  /\ pending (cl_agent y) = Some (client_heartbeat (Some "Bearer secret"))
  /\ length (cl_links y) = 1%nat
  /\ Forall (fun k => lk_inflight k = [] /\ hb_sent (lk_server k) = []) (cl_links y).
Proof.
  exists (y_opened test_transport). pose proof (opened test_transport (fun _ => eq_refl)) as Ht.
  split; [exact Ht|]. split; [reflexivity|]. split; [reflexivity|].
  pose proof test_transport_laws as Hlaws.
  destruct (heartbeat_stream_never_opens test_chain a_server some_args worker _ _ Ht) as (_ & _ & Hks & _).
  eapply Forall_impl; [exact Hks|]. by intros k (? & ? & _).
Defined.

(** With early headers the same agent would get into a session and send its first heartbeat. *)
Lemma early_headers_connect :
  exists inputs y k, test_trace early_transport inputs y
  /\ cl_agent y = Selecting 0 1 (mkConnection "worker-1" 5000) 0
  /\ cl_links y = [k] /\ lk_inflight k = [init_request "worker-1"].
Proof.
  pose proof (opened early_transport (fun _ => eq_refl)) as T0.
  assert (T1 : test_trace early_transport (opening_inputs ++ [InReply willing])
    (mkCluster w_registered (next st_opening) (cl_links (y_opened early_transport)) (Some O))).
  { refine (cl_more _ _ _ _ _ _ (Some (InReply willing)) _ T0 _).
    apply (cl_agent_step _ _ _ _ (y_opened early_transport) _ w_registered (next st_opening) []);
      [|reflexivity].
    intros c [= <-]. split; [done|]. right. eexists _, _. split; [reflexivity|]. split; [reflexivity|].
    split; [reflexivity|]. by intros [_ [e [=]]]. }
  eexists _, _, _. split; [|split; [|split]].
  - refine (cl_more _ _ _ _ _ _ (Some (InReply willing)) _ T1 _).
    eapply (cl_agent_step _ _ _ _ _ _ w_registered); [by intros c [= <-]|reflexivity].
  - reflexivity.
  - reflexivity.
  - reflexivity.
Qed.

Lemma agent_streams_witness :
  exists inputs y k, test_trace early_transport inputs y /\ cl_links y !! O = Some k
  /\ lk_inflight k = [init_request "worker-1"] /\ Forall heartbeat_valid (lk_inflight k).
Proof.
  destruct early_headers_connect as (inputs & y & k & Ht & _ & Hk & Hin).
  exists inputs, y, k. split; [exact Ht|]. rewrite Hk. split; [reflexivity|]. split; [exact Hin|].
  destruct (agent_streams test_chain a_server some_args worker inputs y O k Ht) as (_ & _ & _ & _ & Hv);
    [by rewrite Hk|].
  apply Forall_app in Hv as [_ Hv]; [exact Hv|].
  split; [by vm_compute|]. vm_compute. split; [done|]. repeat constructor.
Defined.

#[local] Existing Instances test_transport test_transport_laws.
Lemma agent_registration_witness :
  value worker_registration w_init =
    Some (Some (mkRegisterResponse true "cluster-001" "localhost:9000" 5000), None).
Proof.
  destruct (agent_registration test_chain test_chain_two a_server a_machine some_args w_init) as [Hacc _];
    [exact w_init_ok|done|].
  apply Hacc; [by right|]. split; [by vm_compute|]. vm_compute. split; [done|]. repeat constructor.
Defined.
